(* ===== verification/_CoqProject ===== *)
-Q . S2P
Prelude.v
Const.v
CLib.v
Protect.v
Proc.v
Sys.v
Fs.v
FsOps.v
FsInit.v
FsLem.v
FsRw.v
FsRef.v
Sched.v
Ipc.v
IpcInv.v
IpcStep.v
IpcRun.v
IpcFrame.v
IpcThm.v
IpcSpec.v
Ring.v
Hd.v
HdThm.v
HdOpen.v
Task.v
Boot.v
Irq.v
TtyState.v
Console.v
Keymap.v
Timer.v
Tty.v
TtyTask.v
TtyLem.v
TtyLine.v
TtyWrite.v
FsMap.v
FsDir.v
FsCreate.v
FsStat.v
FsUnlink.v
FsType.v
FsFormat.v
FsMount.v
Display.v
Lib.v
Mm.v
MmThm.v
MmExit.v
MmWait.v
Exec.v
ExecThm.v
ExecFs.v
Shell.v
Command.v
Diag.v
Init.v
Witness.v
FsWitness.v
MmWitness.v
TtyWitness.v
HdWitness.v
UserWitness.v
FsDirWitness.v
ExecWitness.v
