(* ===== verification/Prelude.v ===== *)
(** * BazingaOS: a verification development

    BazingaOS is a small operating system for the i386: a kernel that switches
    processes and passes messages between them, and tasks that serve requests by
    messages: the system task, the terminals, the disk driver, the file system (FS)
    and the memory manager (MM). User processes (INIT and the shells it starts) call
    library stubs that send such messages. The development translates this C code
    into executable definitions and proves what makes each part correct.

    ** Conventions

    The effects of C are a state monad [M S A] (this file) whose failures are the
    ways a call does not return: a failed assertion, a panic, a fault, a loop that
    does not end, a task that must wait. Integers are [Z] and every C conversion is
    written out ([u8], [u16], [u32], [i32], [i8]). Memory is a function from
    addresses to bytes, arrays are functions with bounds checks at each dynamic
    access. A pointer into a table is an index. [wp] states total correctness: the
    call returns and its result satisfies the postcondition. Definitions keep the
    names of the source.

    ** Files

    - Prelude: the monad, memory, machine integers, tactics; Const: constants.
    - CLib (lib/misc.c, klib.c, vsprintf.c): strings, number texts, [vsprintf].
    - Protect (kernel/protect.c): descriptors and gates; Proc (include/sys/proc.h,
      type.h): process table, messages, address translation.
    - Sched (kernel/proc.c, clock.c): [schedule], the clock handler.
    - Ipc (kernel/proc.c): [sys_sendrec] and what is under it; IpcInv, IpcStep,
      IpcRun, IpcFrame, IpcThm, IpcSpec: the invariant and the theorems.
    - Sys, Fs, FsOps, FsInit (fs/): state and requests of FS; FsLem: inode cache;
      FsRw: reading, writing, seeking; FsRef: reference counts, closing; FsMap: the
      maps of inodes and sectors; FsDir: the directory as an array of entries and as
      a map; FsCreate: opening and creating; FsStat: [do_stat]; FsUnlink: deleting;
      FsType: a typing judgement for FS's commands; FsFormat: [mkfs] writes an empty
      file system; FsMount: [init_fs] establishes the invariant.
    - Hd (kernel/hd.c): the disk driver; HdThm: the drive's interface, and that the
      driver performs the transfers FS asks for; HdOpen: opening the drive reads its
      partition tables.
    - Task (kernel/systask.c, lib/misc.c): the system task, [send_rec], and how a
      task answers a caller.
    - Boot (kernel/protect.c, main.c, lib/klib.c): [init_prot], [get_kernel_map],
      [kernel_main]; Irq (kernel/i8259A.c, clock.c): interrupt lines, the timer; Timer
      (kernel/hd.c, clock.c, keyboard.c): the loops that wait for the clock or a port;
      Display (lib/kliba.asm, kernel/protect.c, start.c): output before there are
      terminals, [exception_handler], [cstart]; Diag (lib/misc.c, kernel/hd.c):
      failed assertions and the messages of the disk driver.
    - Ring, TtyState, Console, Keymap, Tty, TtyTask (kernel/tty.c, console.c,
      keyboard.c, include/sys/keymap.h): keyboard, terminals, consoles; TtyLem,
      TtyLine (typing), TtyWrite (printing): their theorems.
    - Lib (lib/*.c): the system call stubs. Mm (mm/): fork, exit, wait, exec; MmThm,
      MmExit, MmWait: their theorems; ExecThm: [do_exec] over an interface of the file
      system; ExecFs: the file system implements it.
    - Exec (lib/exec.c), Shell, Init (kernel/main.c), Command (command/*.c,
      lib/printf.c): the user programs.
    - Witness, FsWitness, MmWitness, TtyWitness, HdWitness, UserWitness,
      FsDirWitness, ExecWitness: concrete machines at which the theorems apply.

    ** State and interaction

    The kernel's state is [kstate] (process table, memory, ticks); FS and MM work on
    [sys], which adds FS's tables and the partitions; the terminals on [tsys]
    (kernel, terminals, consoles, keyboard, display registers); the disk driver on
    [hsys] (kernel, partition table, drive). Where one part relies on another it
    does so through an interface with laws: MM on [FileService] (discharged by FS,
    [fs_serves_mm]) and, for [do_exec], on [fetches] (discharged by the stubs and FS,
    [exec_read_fetches]), the driver on [Drive] (an ATA drive as documented, with an
    executable instance), FS on [rw_sector] (refined by the driver,
    [rw_sector_refined]), the commands on [Terminal] (discharged by FS over a
    [CharDriver]), the stubs on the exchange [call]. How a message travels is
    the subject of the Ipc files; the tasks' handlers use its effect ([task_send]).

    ** What the theorems show

    - IPC: in every reachable state the queues of senders are consistent, first in
      first out and acyclic; send and receive of a ready process return and
      implement the abstract queues; messages arrive unchanged, with the sender's
      number; what [deadlock], [inform_int] and a pending interrupt do.
    - Scheduling and start-up: [schedule] picks a runnable process with the most
      ticks and ends unless none can run; [waitfor] and [milli_delay] end when the ticks
      go on counting; [cstart], [kernel_main] and [init_prot] establish
      the kernel's invariant and the tables; every interrupt line leads to its
      handler; the extent of the kernel is covered.
    - Files: reading, writing and seeking, and that what was written is read back;
      one coherent cache entry per inode; exact reference counts over close, fork
      and exit; the driver carries out each transfer, and what it does with one that
      is too long; what it knows of the partitions is what the tables on the drive
      say. On a disk without a file system [init_fs] makes one that satisfies the
      invariant the other theorems assume; [stat] reports a file and changes nothing. The search of the directory agrees with a lookup in the array of
      entries on the disk; opening a new name inserts it into the map the directory
      stands for, and deleting a file removes it, with the maps, the inode and the
      other files as they must be; allocation takes the first clear bits. Whatever
      the request, memory and disk stay arrays of bytes.
    - Processes: fork makes a ready copy with its own memory; exit and wait deliver
      the status, in either order with the same result; regions of memory are
      disjoint; the words of a command line become the arguments of the program; exec
      replaces the image by the segments of the file on the disk.
    - Terminals: the keyboard's buffer is a queue; typing a line delivers it to the
      reader; a character changes its own console only; a text written to a terminal
      appears on its console, whatever its length; [echo] prints its arguments.
    - Library: [vsprintf] writes the text its format describes; descriptors read
      back as written.

    Some theorems record where the code does not do what it means to: a cycle of
    senders, a receive with a pending interrupt, long disk requests, GET_PID, closing
    an unused descriptor, waiting with reaped children, keys left in the buffer, a
    backspace at the start of a line, a full sector of the directory, deleting the
    last of several entries with holes, sectors that are allocated but not adjacent,
    a new program whose uninitialised data is not cleared.

    ** Bounds and fuel

    Loops whose C condition does not bound them carry fuel. [I2A_FUEL] covers the
    digits of an int; [IPC_FUEL] covers every chain of senders (one entry per process);
    [SCROLL_FUEL] and [TTY_FUEL] cover a console and a terminal's buffer;
    [ARG_FUEL] covers the argument words of a 1 KB stack; string lengths ([slen])
    and archives have a bound as a parameter, and the theorems hold for every bound
    that is large enough. [HSpin] is the result when fuel runs out; the theorems
    that say a call returns exclude it.

    ** Not modelled

    The boot sector, the loader and the assembly entry code (real mode and context
    switching); the processor itself; [delay], an empty loop; the messages of
    [kernel_main] and the red screen of a panic. How often the drive and the keyboard
    are polled is modelled in Timer, but the driver and the terminals use only the
    outcome, which is part of their interfaces. The character drivers that FS calls are a parameter of FS: TtyWrite and
    TtyLine prove of the terminal task what the parameter is assumed to do in
    Command, but the two run on different states ([tsys], [sys]). Two system calls
    interleave only where one blocks, as in the kernel, whose handlers run with
    interrupts disabled or to completion.

    ** Plan

    Open: a state that joins [tsys] and [sys], so that a program's text can be followed
    from [printf] to the screen; the interleaving of tasks above the level of single
    requests. *)
From Stdlib Require Import FunctionalExtensionality.
From stdpp Require Export base tactics relations numbers option sets list.
#[global] Open Scope Z_scope.

(** ** C arrays and memory

    An array (the process table, a byte memory, the sectors of a partition) is
    a total function on [Z]; every dynamic access of the models goes through a
    bounds check, so only indices of the C array are ever read or written. *)

Definition arr (A : Type) := Z -> A.

Definition upd {A} (a : arr A) (i : Z) (x : A) : arr A :=
  fun j => if j =? i then x else a j.

Lemma upd_eq {A} (a : arr A) i x : upd a i x i = x.
Proof. unfold upd. by rewrite Z.eqb_refl. Qed.

Lemma upd_ne {A} (a : arr A) i j x : j <> i -> upd a i x j = a j.
Proof. intros H. unfold upd. by rewrite (proj2 (Z.eqb_neq j i) H). Qed.

Lemma upd_case {A} (a : arr A) i j x :
  upd a i x j = if decide (j = i) then x else a j.
Proof. case_decide; [subst; apply upd_eq | by apply upd_ne]. Qed.

Lemma upd_upd {A} (a : arr A) i x y : upd (upd a i x) i y = upd a i y.
Proof. extensionality j. rewrite !upd_case. by case_decide. Qed.
Lemma upd_comm {A} (a : arr A) i j x y : i <> j -> upd (upd a i x) j y = upd (upd a j y) i x.
Proof. intros H. extensionality k. rewrite !upd_case. repeat case_decide; congruence. Qed.
Lemma upd_same {A} (a : arr A) i : upd a i (a i) = a.
Proof. extensionality j. rewrite upd_case. case_decide; congruence. Qed.

(** ** Machine integers: the value a C object of each width keeps *)

Definition u8 (z : Z) : Z := z `mod` 256.
Definition u16 (z : Z) : Z := z `mod` 65536.
Definition u32 (z : Z) : Z := z `mod` 4294967296.
Definition i32 (z : Z) : Z := (z + 2147483648) `mod` 4294967296 - 2147483648.
Definition i8 (z : Z) : Z := (z + 128) `mod` 256 - 128.
(** the values of an unsigned byte *)
Definition byte_ok (v : Z) : Prop := 0 <= v < 256.

Lemma u8_range z : 0 <= u8 z < 256.
Proof. by apply Z.mod_pos_bound. Qed.
Lemma u16_range z : 0 <= u16 z < 65536.
Proof. by apply Z.mod_pos_bound. Qed.
Lemma u32_range z : 0 <= u32 z < 4294967296.
Proof. by apply Z.mod_pos_bound. Qed.
Lemma u8_id z : 0 <= z < 256 -> u8 z = z.
Proof. apply Z.mod_small. Qed.
Lemma u16_id z : 0 <= z < 65536 -> u16 z = z.
Proof. apply Z.mod_small. Qed.
Lemma u32_id z : 0 <= z < 4294967296 -> u32 z = z.
Proof. apply Z.mod_small. Qed.
Lemma i32_id z : -2147483648 <= z < 2147483648 -> i32 z = z.
Proof. intros H. unfold i32. rewrite Z.mod_small; lia. Qed.
Lemma i32_u32 z : i32 (u32 z) = i32 z.
Proof. unfold i32, u32. by rewrite Zplus_mod_idemp_l. Qed.

(** Masks and shifts as arithmetic. *)
Lemma shiftl_lor_add a b k : 0 <= k -> 0 <= b < 2 ^ k -> Z.lor (Z.shiftl a k) b = a * 2 ^ k + b.
Proof.
  intros Hk Hb. rewrite <- Z.add_nocarry_lor; [by rewrite Z.shiftl_mul_pow2|].
  apply Z.bits_inj'. intros n Hn. rewrite Z.land_spec, Z.bits_0.
  destruct (decide (n < k)).
  - by rewrite Z.shiftl_spec_low.
  - rewrite (Z.bounded_iff_bits_nonneg k b) in Hb by lia.
    destruct Hb as [_ Hb]. by rewrite (Hb n), andb_false_r by lia.
Qed.

Lemma land_f z : Z.land z 0xf = z `mod` 16.
Proof. change 0xf with (Z.ones 4). by rewrite Z.land_ones. Qed.
Lemma land_ff z : Z.land z 0xff = z `mod` 256.
Proof. change 0xff with (Z.ones 8). by rewrite Z.land_ones. Qed.
Lemma land_ffff z : Z.land z 0xffff = z `mod` 65536.
Proof. change 0xffff with (Z.ones 16). by rewrite Z.land_ones. Qed.
Lemma shiftr_div z k : 0 <= k -> Z.shiftr z k = z / 2 ^ k.
Proof. apply Z.shiftr_div_pow2. Qed.

(** [has f b]: the C condition [f & b]. *)
Definition has (f b : Z) : bool := negb (Z.land f b =? 0).

(** ** Effects: explicit state, and the ways a call does not return

    [HAssert]: [assertion_failure] (prints and spins); [HPanic]: [panic]
    (prints a message starting with [MAG_CH_PANIC], at which [sys_printx] halts
    the machine); [HFault]: a null or out-of-range pointer is used; [HSpin]: a
    loop that does not end within its fuel; [HBlock]: a task that must wait
    inside a rendezvous before its handler can go on. *)

Inductive halt := HAssert | HPanic | HFault | HSpin | HBlock.

#[global] Instance halt_eq_dec : EqDecision halt.
Proof. solve_decision. Defined.

Inductive res (S A : Type) :=
| Ok (a : A) (s : S)
| Halt (h : halt).
Arguments Ok {S A} a s.
Arguments Halt {S A} h.

Definition M (S A : Type) := S -> res S A.

Definition ret {S A} (a : A) : M S A := fun s => Ok a s.
Definition bind {S A B} (c : M S A) (k : A -> M S B) : M S B :=
  fun s => match c s with Ok a s' => k a s' | Halt h => Halt h end.
Definition stop {S A} (h : halt) : M S A := fun _ => Halt h.
Definition get {S} : M S S := fun s => Ok s s.
Definition modify {S} (f : S -> S) : M S unit := fun s => Ok tt (f s).
Definition assert_ {S} (b : bool) : M S unit := if b then ret tt else stop HAssert.
Definition panic {S A} : M S A := stop HPanic.
Definition when {S} (b : bool) (c : M S unit) : M S unit := if b then c else ret tt.

Declare Scope c_scope.
Delimit Scope c_scope with C.
Notation "x ← y ; z" := (bind y (fun x => z)) : c_scope.
Notation "y ;; z" := (bind y (fun _ => z)) : c_scope.
#[global] Open Scope c_scope.

(** [for_each n i body]: [for (; i < i + n; i++) body(i)]. *)
Fixpoint for_each {S} (n : nat) (i : Z) (body : Z -> M S unit) : M S unit :=
  match n with
  | O => ret tt
  | S n' => body i ;; for_each n' (i + 1) body
  end.

(** [find_first f n i]: the least index [j] of [i .. i + n - 1] with [f j]: a C
    loop that breaks at the first hit. *)
Fixpoint find_first (f : Z -> bool) (n : nat) (i : Z) : option Z :=
  match n with
  | O => None
  | S n' => if f i then Some i else find_first f n' (i + 1)
  end.

Lemma find_first_Some f n i j :
  find_first f n i = Some j <->
  i <= j < i + Z.of_nat n /\ f j = true /\ (forall k, i <= k < j -> f k = false).
Proof.
  revert i. induction n as [|n IH]; intros i; simpl.
  - split; [done|]. intros [? _]. lia.
  - destruct (f i) eqn:E.
    + split.
      * intros [= <-]. repeat split; [lia..|done|]. intros k Hk. lia.
      * intros (Hr & Hf & Hk). f_equal. destruct (decide (i = j)); [done|].
        rewrite Hk in E; [done|lia].
    + rewrite IH. split; intros (Hr & Hf & Hk).
      * repeat split; [lia..|done|]. intros k Hk'.
        destruct (decide (k = i)) as [->|]; [done|]. apply Hk. lia.
      * assert (j <> i) by (intros ->; congruence).
        repeat split; [lia..|done|]. intros k Hk'. apply Hk. lia.
Qed.

Lemma find_first_None f n i :
  find_first f n i = None <-> (forall k, i <= k < i + Z.of_nat n -> f k = false).
Proof.
  revert i. induction n as [|n IH]; intros i; simpl.
  - split; [intros _ k; lia | done].
  - destruct (f i) eqn:E.
    + split; [done|]. intros H. rewrite H in E; [done|lia].
    + rewrite IH. split; intros H k Hk.
      * destruct (decide (k = i)) as [->|]; [done|]. apply H. lia.
      * apply H. lia.
Qed.

(** ** Total correctness of a call

    [wp c Q s]: run from [s], the call [c] returns (no assertion fails, nothing
    panics, faults or spins) and its result and final state satisfy [Q]. *)

Definition wp {S A} (c : M S A) (Q : A -> S -> Prop) (s : S) : Prop :=
  match c s with Ok a s' => Q a s' | Halt _ => False end.

Section wp.
Context {S A B : Type}.
Implicit Types (c : M S A) (Q : A -> S -> Prop).

Lemma wp_run c Q s : wp c Q s <-> exists a s', c s = Ok a s' /\ Q a s'.
Proof.
  unfold wp. destruct (c s) as [a s'|h]; split.
  - eauto.
  - intros (a' & s'' & [= <- <-] & H). done.
  - done.
  - intros (? & ? & ? & _). done.
Qed.

Lemma wp_mono c Q Q' s :
  (forall a s', Q a s' -> Q' a s') -> wp c Q s -> wp c Q' s.
Proof. unfold wp. destruct (c s); auto. Qed.

Lemma wp_bind c (k : A -> M S B) (Q : B -> S -> Prop) s :
  wp c (fun a => wp (k a) Q) s -> wp (bind c k) Q s.
Proof. unfold wp, bind. by destruct (c s). Qed.

Lemma wp_ret (a : A) Q s : Q a s -> wp (ret a) Q s.
Proof. done. Qed.

Lemma wp_get (Q : S -> S -> Prop) s : Q s s -> wp get Q s.
Proof. done. Qed.

Lemma wp_modify f (Q : unit -> S -> Prop) s : Q tt (f s) -> wp (modify f) Q s.
Proof. done. Qed.

Lemma wp_assert b (Q : unit -> S -> Prop) s :
  b = true -> Q tt s -> wp (assert_ b) Q s.
Proof. by intros ->. Qed.
End wp.

(** running the first command of a sequence *)
Lemma bind_run {S A B} (c : M S A) (k : A -> M S B) s a s1 :
  c s = Ok a s1 -> bind c k s = k a s1.
Proof. unfold bind. by intros ->. Qed.
Lemma bind_modify {S A} (f : S -> S) (k : unit -> M S A) s : bind (modify f) k s = k tt (f s).
Proof. done. Qed.

Lemma bind_halt {S A B} (c : M S A) (k : A -> M S B) s h : c s = Halt h -> bind c k s = Halt h.
Proof. unfold bind. by intros ->. Qed.

(** a sequence whose first command returns and whose rest stops *)
Lemma bind_then_halt {S A B} (c : M S A) (k : A -> M S B) s h :
  wp c (fun a s' => k a s' = Halt h) s -> bind c k s = Halt h.
Proof. unfold wp, bind. by destruct (c s). Qed.

Lemma assert_run {S} (b : bool) (s : S) : b = true -> assert_ b s = Ok tt s.
Proof. by intros ->. Qed.

Lemma bind_assert {S B} (b : bool) (k : unit -> M S B) s : b = true -> bind (assert_ b) k s = k tt s.
Proof. by intros ->. Qed.

Lemma bind_Ok {S A B} (c : M S A) (k : A -> M S B) s b s' :
  bind c k s = Ok b s' <-> exists a s1, c s = Ok a s1 /\ k a s1 = Ok b s'.
Proof.
  unfold bind. destruct (c s) as [a s1|h]; split.
  - eauto.
  - intros (? & ? & [= <- <-] & ?). done.
  - done.
  - intros (? & ? & ? & _). done.
Qed.

Create HintDb bazinga.
#[export] Hint Resolve wp_ret wp_get wp_modify u8_range u16_range u32_range : bazinga.
Create Rewrite HintDb bazinga_rw.
#[export] Hint Rewrite @upd_eq : bazinga_rw.

(** [wp_step]: take the next command of a [wp] goal. *)
Ltac wp_step :=
  match goal with
  | |- wp (bind _ _) _ _ => apply wp_bind
  | |- wp (ret _) _ _ => apply wp_ret
  | |- wp get _ _ => apply wp_get
  | |- wp (modify _) _ _ => apply wp_modify
  | |- wp (assert_ _) _ _ => apply wp_assert
  end; cbv beta.

(** [inv_ok H]: open a successful run into the runs of its commands. *)
Ltac inv_ok H :=
  repeat match type of H with
  | bind _ _ _ = Ok _ _ =>
      apply bind_Ok in H;
      let a := fresh "v" in let s := fresh "st" in let E := fresh "E" in
      destruct H as (a & s & E & H)
  end.

(** [zbool]: turn boolean comparisons of [Z] in hypotheses and goal into propositions. *)
Ltac zbool :=
  repeat match goal with
  | H : context [_ =? _] |- _ => progress rewrite ?Z.eqb_eq, ?Z.eqb_neq in H
  | H : context [_ <? _] |- _ => progress rewrite ?Z.ltb_lt, ?Z.ltb_ge in H
  | H : context [_ <=? _] |- _ => progress rewrite ?Z.leb_le, ?Z.leb_gt in H
  | H : _ && _ = true |- _ => apply andb_true_iff in H; destruct H
  | H : _ || _ = false |- _ => apply orb_false_iff in H; destruct H
  | H : negb _ = true |- _ => apply negb_true_iff in H
  | H : negb _ = false |- _ => apply negb_false_iff in H
  end.

(** ** Byte memory *)

Definition mem := arr Z.

(** [memcpy] of lib/string.asm: one byte at a time, upwards. *)
Fixpoint memcpy_n (n : nat) (dst src : Z) (m : mem) : mem :=
  match n with
  | O => m
  | S n' => memcpy_n n' (dst + 1) (src + 1) (upd m dst (m src))
  end.
Definition memcpy (dst src size : Z) (m : mem) : mem := memcpy_n (Z.to_nat size) dst src m.

(** [memset] of lib/string.asm. *)
Fixpoint memset_n (n : nat) (dst ch : Z) (m : mem) : mem :=
  match n with
  | O => m
  | S n' => memset_n n' (dst + 1) ch (upd m dst (u8 ch))
  end.
Definition memset (dst ch size : Z) (m : mem) : mem := memset_n (Z.to_nat size) dst ch m.

(** [strcpy] of lib/string.asm; [n] bounds the length of the source string. *)
Fixpoint strcpy_n (n : nat) (dst src : Z) (m : mem) : mem :=
  match n with
  | O => m
  | S n' => let m' := upd m dst (m src) in
            if m src =? 0 then m' else strcpy_n n' (dst + 1) (src + 1) m'
  end.

Lemma memcpy_n_out n dst src m a :
  a < dst \/ dst + Z.of_nat n <= a -> memcpy_n n dst src m a = m a.
Proof.
  revert dst src m. induction n as [|n IH]; intros dst src m H; simpl; [done|].
  rewrite IH by lia. apply upd_ne. lia.
Qed.

(** Inside the destination the copy gives the old bytes of the source, when the
    regions do not overlap or the destination starts below the source. *)
Lemma memcpy_n_in n dst src m a :
  dst <= src \/ src + Z.of_nat n <= dst ->
  dst <= a < dst + Z.of_nat n -> memcpy_n n dst src m a = m (src + (a - dst)).
Proof.
  revert dst src m. induction n as [|n IH]; intros dst src m Hd Ha; simpl; [lia|].
  destruct (decide (a = dst)) as [->|Hne].
  - rewrite memcpy_n_out by lia. rewrite upd_eq. f_equal. lia.
  - rewrite IH by lia. rewrite upd_ne by lia. f_equal. lia.
Qed.

Lemma memcpy_out dst src size m a :
  a < dst \/ dst + size <= a -> memcpy dst src size m a = m a.
Proof.
  intros H. unfold memcpy. destruct (decide (0 <= size)).
  - apply memcpy_n_out. lia.
  - by replace (Z.to_nat size) with 0%nat by lia.
Qed.

Lemma memcpy_in dst src size m a :
  dst <= src \/ src + size <= dst ->
  dst <= a < dst + size -> memcpy dst src size m a = m (src + (a - dst)).
Proof. intros. apply memcpy_n_in; lia. Qed.

Lemma memset_n_spec n dst ch m a :
  memset_n n dst ch m a = if decide (dst <= a < dst + Z.of_nat n) then u8 ch else m a.
Proof.
  revert dst m. induction n as [|n IH]; intros dst m; simpl.
  - case_decide; [lia|done].
  - rewrite IH, upd_case. repeat case_decide; done || lia.
Qed.

Lemma memset_spec dst ch size m a :
  memset dst ch size m a = if decide (dst <= a < dst + size) then u8 ch else m a.
Proof.
  unfold memset. rewrite memset_n_spec. repeat case_decide; done || lia.
Qed.

(** 32-bit little-endian objects in memory: [ld32] as an unsigned value,
    [ld32s] as an [int]. *)
Definition ld32 (m : mem) (a : Z) : Z :=
  m a + 256 * m (a + 1) + 65536 * m (a + 2) + 16777216 * m (a + 3).
Definition ld32s (m : mem) (a : Z) : Z := i32 (ld32 m a).
Definition st32 (a v : Z) (m : mem) : mem :=
  upd (upd (upd (upd m a (u8 v)) (a + 1) (u8 (v / 256)))
    (a + 2) (u8 (v / 65536))) (a + 3) (u8 (v / 16777216)).

Lemma ld32_ext m m' a :
  (forall i, 0 <= i < 4 -> m (a + i) = m' (a + i)) -> ld32 m a = ld32 m' a.
Proof.
  intros H. unfold ld32.
  pose proof (H 0 ltac:(lia)) as H0. rewrite !Z.add_0_r in H0.
  by rewrite H0, !H by lia.
Qed.

Lemma ld32_pos m a : (forall x, 0 <= m x) -> 0 <= ld32 m a.
Proof.
  intros Hm. unfold ld32. pose proof (Hm a). pose proof (Hm (a + 1)).
  pose proof (Hm (a + 2)). pose proof (Hm (a + 3)). lia.
Qed.

Lemma byte_split v :
  u8 v + 256 * u8 (v / 256) + 65536 * u8 (v / 65536) + 16777216 * u8 (v / 16777216) = u32 v.
Proof. unfold u8, u32. Z.div_mod_to_equations. lia. Qed.

Lemma st32_out a v m b : b < a \/ a + 4 <= b -> st32 a v m b = m b.
Proof. intros H. unfold st32. by rewrite !upd_ne by lia. Qed.

Lemma ld32_st32 a v m : ld32 (st32 a v m) a = u32 v.
Proof.
  rewrite <- byte_split. unfold ld32, st32.
  repeat (rewrite upd_eq || rewrite upd_ne by lia). done.
Qed.

Lemma ld32s_st32 a v m : -2147483648 <= v < 2147483648 -> ld32s (st32 a v m) a = v.
Proof. intros H. unfold ld32s. rewrite ld32_st32, i32_u32. by apply i32_id. Qed.

Lemma ld32_st32_ne a b v m : b + 4 <= a \/ a + 4 <= b -> ld32 (st32 a v m) b = ld32 m b.
Proof. intros H. apply ld32_ext. intros i Hi. apply st32_out. lia. Qed.

#[export] Hint Rewrite ld32_st32 @memset_spec : bazinga_rw.
