(* ===== verification/Const.v ===== *)
(** * Constants and device numbers

    The constants of include/sys/const.h the models use, with the source's
    names: process table sizes, IPC functions, process flags, message types,
    device numbers, file modes; the limits of include/sys/fs.h, include/stdio.h
    and include/sys/proc.h; and the device-number macros with their round
    trips. *)
From S2P Require Import Prelude.

(** ** include/sys/const.h: processes and IPC *)
Definition NR_TASKS : Z := 5.
Definition NR_PROCS : Z := 32.
Definition NR_NATIVE_PROCS : Z := 2.
(** the number of entries of [proc_table] *)
Definition NR_ALL : Z := NR_TASKS + NR_PROCS.

Definition SEND : Z := 1.
Definition RECEIVE : Z := 2.
Definition BOTH : Z := 3.

Definition INVALID_DRIVER : Z := -20.
Definition INTERRUPT : Z := -10.
Definition TASK_SYS : Z := 0.
Definition TASK_TTY : Z := 1.
Definition TASK_HD : Z := 2.
Definition TASK_FS : Z := 3.
Definition TASK_MM : Z := 4.
Definition INIT : Z := 5.
Definition ANY : Z := NR_TASKS + NR_PROCS + 10.
Definition NO_TASK : Z := NR_TASKS + NR_PROCS + 20.

Definition SENDING : Z := 0x02.
Definition RECEIVING : Z := 0x04.
Definition WAITING : Z := 0x08.
Definition HANGING : Z := 0x10.
Definition FREE_SLOT : Z := 0x20.

(** ** [enum msgtype] *)
Definition HARD_INT : Z := 1.
Definition GET_TICKS : Z := 2.
Definition GET_PID : Z := 3.
Definition GET_RTC_TIME : Z := 4.
Definition OPEN : Z := 5.
Definition CLOSE : Z := 6.
Definition READ : Z := 7.
Definition WRITE : Z := 8.
Definition LSEEK : Z := 9.
Definition STAT : Z := 10.
Definition UNLINK : Z := 11.
Definition SUSPEND_PROC : Z := 12.
Definition RESUME_PROC : Z := 13.
Definition EXEC : Z := 14.
Definition WAIT : Z := 15.
Definition FORK : Z := 16.
Definition EXIT : Z := 17.
Definition SYSCALL_RET : Z := 18.
Definition DEV_OPEN : Z := 1001.
Definition DEV_CLOSE : Z := 1002.
Definition DEV_READ : Z := 1003.
Definition DEV_WRITE : Z := 1004.
Definition DEV_IOCTL : Z := 1005.
Definition DIOCTL_GET_GEO : Z := 1.

(** ** Sectors, partitions and device numbers *)
Definition SECTOR_SIZE : Z := 512.
Definition SECTOR_SIZE_SHIFT : Z := 9.
Definition MAX_DRIVES : Z := 2.
Definition NR_PART_PER_DRIVE : Z := 4.
Definition NR_SUB_PER_PART : Z := 16.
Definition NR_SUB_PER_DRIVE : Z := NR_SUB_PER_PART * NR_PART_PER_DRIVE.
Definition NR_PRIM_PER_DRIVE : Z := NR_PART_PER_DRIVE + 1.
Definition MAX_PRIM : Z := MAX_DRIVES * NR_PRIM_PER_DRIVE - 1.
Definition NO_DEV : Z := 0.
Definition DEV_HD : Z := 3.
Definition DEV_CHAR_TTY : Z := 4.
Definition MAJOR_SHIFT : Z := 8.
Definition MAKE_DEV (a b : Z) : Z := Z.lor (Z.shiftl a MAJOR_SHIFT) b.
Definition MAJOR (x : Z) : Z := Z.land (Z.shiftr x MAJOR_SHIFT) 0xff.
Definition MINOR (x : Z) : Z := Z.land x 0xff.
Definition MINOR_hd1a : Z := 0x10.
Definition MINOR_hd2a : Z := MINOR_hd1a + NR_SUB_PER_PART.
(** include/sys/config.h *)
Definition MINOR_BOOT : Z := MINOR_hd2a.
Definition INSTALL_START_SECT : Z := 0x8000.
Definition INSTALL_NR_SECTS : Z := 0x800.
Definition ROOT_DEV : Z := MAKE_DEV DEV_HD MINOR_BOOT.
Definition P_PRIMARY : Z := 0.
Definition P_EXTENDED : Z := 1.
Definition NO_PART : Z := 0x00.
Definition EXT_PART : Z := 0x05.

(** ** Files *)
Definition NR_FILES : Z := 64.
Definition NR_FILE_DESC : Z := 64.
Definition NR_INODE : Z := 64.
Definition NR_SUPER_BLOCK : Z := 8.
Definition NR_CONSOLES : Z := 3.
Definition I_TYPE_MASK : Z := 0xF000.
Definition I_REGULAR : Z := 0x8000.
Definition I_BLOCK_SPECIAL : Z := 0x6000.
Definition I_DIRECTORY : Z := 0x4000.
Definition I_CHAR_SPECIAL : Z := 0x2000.
Definition is_special (m : Z) : bool :=
  (Z.land m I_TYPE_MASK =? I_BLOCK_SPECIAL) || (Z.land m I_TYPE_MASK =? I_CHAR_SPECIAL).
Definition NR_DEFAULT_FILE_SECTS : Z := 2048.
Definition INVALID_INODE : Z := 0.
Definition ROOT_INODE : Z := 1.
Definition MAGIC_V1 : Z := 0x111.
Definition INODE_SIZE : Z := 32.
Definition MAX_FILENAME_LEN : Z := 12.
Definition DIR_ENT_SIZE : Z := 16.
Definition SUPER_BLOCK_SIZE : Z := 56.
(** include/stdio.h, whose [SEEK_] constants are the ones fs/lseek.c sees: it
    includes stdio.h after const.h, which redefines them *)
Definition O_CREAT : Z := 1.
Definition O_RDWR : Z := 2.
Definition O_TRUNC : Z := 4.
Definition SEEK_SET : Z := 1.
Definition SEEK_CUR : Z := 2.
Definition SEEK_END : Z := 3.
Definition MAX_PATH : Z := 128.

(** ** The macros [SET_RANGE] and [MIN] *)
Definition SET_RANGE (val min max : Z) : Z :=
  let val := if min <=? val then val else min in if val <=? max then val else max.
Definition MIN (a b : Z) : Z := if b <? a then b else a.

Create HintDb consts.
#[export] Hint Unfold NR_TASKS NR_PROCS NR_NATIVE_PROCS NR_ALL SEND RECEIVE BOTH
  INVALID_DRIVER INTERRUPT TASK_SYS TASK_TTY TASK_HD TASK_FS TASK_MM INIT ANY NO_TASK
  SENDING RECEIVING WAITING HANGING FREE_SLOT SECTOR_SIZE SECTOR_SIZE_SHIFT MAX_DRIVES
  NR_PART_PER_DRIVE NR_SUB_PER_PART NR_SUB_PER_DRIVE NR_PRIM_PER_DRIVE MAX_PRIM
  MINOR_hd1a MINOR_hd2a NR_FILES NR_FILE_DESC NR_INODE NR_SUPER_BLOCK NR_CONSOLES
  NR_DEFAULT_FILE_SECTS INVALID_INODE ROOT_INODE INODE_SIZE MAX_FILENAME_LEN
  DIR_ENT_SIZE SUPER_BLOCK_SIZE INSTALL_START_SECT INSTALL_NR_SECTS MAX_PATH : consts.

(** [clia]: [lia] after unfolding the constants. *)
Ltac clia := autounfold with consts in *; lia.

Lemma SET_RANGE_bounds val min max :
  min <= max -> min <= SET_RANGE val min max <= max.
Proof. intros H. unfold SET_RANGE. repeat case_match; zbool; lia. Qed.

Lemma SET_RANGE_id val min max :
  min <= val <= max -> SET_RANGE val min max = val.
Proof. intros H. unfold SET_RANGE. repeat case_match; zbool; lia. Qed.

Lemma MIN_spec a b : MIN a b = Z.min a b.
Proof. unfold MIN. case_match; zbool; lia. Qed.

Lemma MAKE_DEV_sum a b : 0 <= b < 256 -> MAKE_DEV a b = a * 256 + b.
Proof. intros Hb. unfold MAKE_DEV, MAJOR_SHIFT. by rewrite shiftl_lor_add by lia. Qed.

Lemma MINOR_MAKE_DEV a b : 0 <= b < 256 -> MINOR (MAKE_DEV a b) = b.
Proof.
  intros Hb. unfold MINOR. rewrite MAKE_DEV_sum, land_ff by done.
  rewrite Z.add_comm, Z_mod_plus_full. by apply Z.mod_small.
Qed.

Lemma MAJOR_MAKE_DEV a b : 0 <= a < 256 -> 0 <= b < 256 -> MAJOR (MAKE_DEV a b) = a.
Proof.
  intros Ha Hb. unfold MAJOR, MAJOR_SHIFT. rewrite MAKE_DEV_sum, land_ff by done.
  rewrite Z.shiftr_div_pow2 by lia. change (2 ^ 8) with 256.
  rewrite Z.div_add_l, (Z.div_small b), Z.add_0_r by lia. by apply Z.mod_small.
Qed.
