(* ===== verification/CLib.v ===== *)
(** * The C library of the kernel (lib/misc.c, lib/klib.c, lib/vsprintf.c)

    Strings and memory comparison over the byte memory, number formatting and
    [vsprintf]. A [char] is signed: a byte is read through [i8]. The loops end at
    a NUL byte the code does not bound, so they carry fuel: an upper bound on the
    length of the string. [cstr m a l] says that the NUL-terminated string at [a]
    is [l]; the theorems give the results for every fuel that covers it. *)
From S2P Require Import Prelude Const.

(** ** lib/misc.c *)

(** the comparison loop of [memcmp] *)
Fixpoint memcmp_n (n : nat) (m : mem) (p1 p2 : Z) : Z :=
  match n with
  | O => 0
  | S n' => if i8 (m p1) =? i8 (m p2) then memcmp_n n' m (p1 + 1) (p2 + 1)
            else i8 (m p1) - i8 (m p2)
  end.
Definition memcmp (m : mem) (s1 s2 n : Z) : Z :=
  if (s1 =? 0) || (s2 =? 0) then s1 - s2 else memcmp_n (Z.to_nat n) m s1 s2.

Fixpoint strcmp_n (n : nat) (m : mem) (p1 p2 : Z) : option Z :=
  match n with
  | O => None
  | S n' =>
      if negb (m p1 =? 0) && negb (m p2 =? 0)
      then if i8 (m p1) =? i8 (m p2) then strcmp_n n' m (p1 + 1) (p2 + 1)
           else Some (i8 (m p1) - i8 (m p2))
      else Some (i8 (m p1) - i8 (m p2))
  end.
Definition strcmp (fuel : nat) (m : mem) (s1 s2 : Z) : option Z :=
  if (s1 =? 0) || (s2 =? 0) then Some (s1 - s2) else strcmp_n fuel m s1 s2.

(** [while( *str ) { str++; len++; }] *)
Fixpoint strlen_n (n : nat) (m : mem) (str len : Z) : option Z :=
  match n with
  | O => None
  | S n' => if m str =? 0 then Some len else strlen_n n' m (str + 1) (len + 1)
  end.
Definition strlen (fuel : nat) (m : mem) (str : Z) : option Z := strlen_n fuel m str 0.

(** ** lib/klib.c: [itoa] *)

(** the loop [for(i = 28; i >= 0; i = i - 4)], [n] rounds left; [flag] is never
    set *)
Fixpoint itoa_loop (n : nat) (i num flag p : Z) (m : mem) : Z * mem :=
  match n with
  | O => (p, m)
  | S n' =>
      let tmp := Z.land (Z.shiftr num i) 0xf in
      if (1 =? flag) || negb (tmp =? 0) then
        let m := upd m p (u8 (tmp + 48)) in
        let m := if 9 <? tmp then upd m p (u8 (m p + 7)) else m in
        itoa_loop n' (i - 4) num flag (p + 1) m
      else itoa_loop n' (i - 4) num flag p m
  end.
Definition itoa (str num : Z) (m : mem) : mem :=
  let p := str in
  let flag := 0 in
  let m := upd m p 48 in let p := p + 1 in
  let m := upd m p 120 in let p := p + 1 in
  let '(p, m) := if 0 =? num then (p + 1, upd m p 48) else itoa_loop 8 28 num flag p m in
  upd m p 0.

(** ** lib/vsprintf.c *)

(** [i2a]: the digits of [val / base] first, then the last one *)
Fixpoint i2a (fuel : nat) (val base p : Z) (mm : mem) : Z * mem :=
  match fuel with
  | O => (p, mm)
  | S fuel' =>
      let m := Z.rem val base in
      let q := Z.quot val base in
      let '(p, mm) := if q =? 0 then (p, mm) else i2a fuel' q base p mm in
      (p + 1, upd mm p (u8 (if m <? 10 then m + 48 else m - 10 + 65)))
  end.
(** an [int] has at most 10 digits in base 10 and 8 in base 16 *)
Definition I2A_FUEL : nat := 10.

(** the loop of [vsprintf]: [p] in the buffer, [fmt] in the format, [args] at the
    next argument; 120, 115, 99, 100 are x, s, c, d and 37 is the percent sign *)
Fixpoint vsprintf_loop (fuel slen : nat) (p fmt args : Z) (m : mem) : option (Z * mem) :=
  match fuel with
  | O => None
  | S fuel' =>
      if m fmt =? 0 then Some (p, m)
      else if negb (m fmt =? 37) then vsprintf_loop fuel' slen (p + 1) (fmt + 1) args (upd m p (m fmt))
      else
        let fmt := fmt + 1 in
        let c := m fmt in
        if c =? 120 then
          let '(p, m) := i2a I2A_FUEL (ld32s m args) 16 p m in
          vsprintf_loop fuel' slen p (fmt + 1) (args + 4) m
        else if c =? 115 then
          let m' := strcpy_n slen p (ld32 m args) m in
          match strlen slen m' (ld32 m' args) with
          | None => None
          | Some l => vsprintf_loop fuel' slen (p + l) (fmt + 1) (args + 4) m'
          end
        else if c =? 99 then
          vsprintf_loop fuel' slen (p + 1) (fmt + 1) (args + 4) (upd m p (m args))
        else if c =? 100 then
          let v := ld32s m args in
          let '(v, p, m) := if v <? 0 then (i32 (v * -1), p + 1, upd m p 45) else (v, p, m) in
          let '(p, m) := i2a I2A_FUEL v 10 p m in
          vsprintf_loop fuel' slen p (fmt + 1) (args + 4) m
        else vsprintf_loop fuel' slen p (fmt + 1) args m
  end.
(** the length and the memory with the formatted text at [buf] (no NUL is added) *)
Definition vsprintf (fuel slen : nat) (buf fmt args : Z) (m : mem) : option (Z * mem) :=
  match vsprintf_loop fuel slen buf fmt args m with
  | Some (p, m') => Some (p - buf, m')
  | None => None
  end.

(** ** Strings in memory *)

Fixpoint cstr (m : mem) (a : Z) (l : list Z) : Prop :=
  match l with
  | [] => m a = 0
  | c :: l' => m a = c /\ 1 <= c < 256 /\ cstr m (a + 1) l'
  end.

(** the bytes [l] stored at [p] *)
Fixpoint put_bytes (p : Z) (l : list Z) (m : mem) : mem :=
  match l with
  | [] => m
  | c :: l' => put_bytes (p + 1) l' (upd m p c)
  end.

(** [m] and [m'] agree outside the [n] bytes at [a] *)
Definition agree_out (a n : Z) (m m' : mem) : Prop :=
  forall x, x < a \/ a + n <= x -> m' x = m x.

Lemma put_bytes_app p l1 l2 m :
  put_bytes p (l1 ++ l2) m = put_bytes (p + Z.of_nat (length l1)) l2 (put_bytes p l1 m).
Proof.
  revert p m. induction l1 as [|c l1 IH]; intros p m; simpl; [by rewrite Z.add_0_r|].
  rewrite IH. f_equal. lia.
Qed.

Lemma put_bytes_out p l m : agree_out p (Z.of_nat (length l)) m (put_bytes p l m).
Proof.
  revert p m. induction l as [|c l IH]; intros p m x Hx; simpl in *; [done|].
  rewrite IH by lia. apply upd_ne. lia.
Qed.

Lemma put_bytes_in p l m i :
  0 <= i < Z.of_nat (length l) -> l !! Z.to_nat i = Some (put_bytes p l m (p + i)).
Proof.
  revert p m i. induction l as [|c l IH]; intros p m i Hi; simpl in *; [lia|].
  destruct (decide (i = 0)) as [->|Hne].
  - rewrite Z.add_0_r. simpl. rewrite put_bytes_out by lia. by rewrite upd_eq.
  - replace (Z.to_nat i) with (S (Z.to_nat (i - 1))) by lia. simpl.
    rewrite (IH (p + 1) (upd m p c) (i - 1)) by lia. do 2 f_equal. lia.
Qed.

Lemma agree_out_weaken a n a' n' m m' :
  a' <= a -> a + n <= a' + n' -> agree_out a n m m' -> agree_out a' n' m m'.
Proof. intros H1 H2 H x Hx. apply H. lia. Qed.

Lemma agree_out_trans a n m1 m2 m3 :
  agree_out a n m1 m2 -> agree_out a n m2 m3 -> agree_out a n m1 m3.
Proof. intros H1 H2 x Hx. rewrite H2 by done. by apply H1. Qed.

Lemma cstr_agree a n m m' s l :
  agree_out a n m m' -> s + Z.of_nat (length l) < a \/ a + n <= s -> cstr m s l -> cstr m' s l.
Proof.
  intros Ha. revert s. induction l as [|c l IH]; intros s Hs; simpl in *.
  - intros H. rewrite Ha by lia. done.
  - intros (H1 & H2 & H3). rewrite Ha by lia. split; [done|]. split; [done|]. apply IH; [lia|done].
Qed.

Lemma i8_inj a b : 0 <= a < 256 -> 0 <= b < 256 -> i8 a = i8 b -> a = b.
Proof. unfold i8. intros. Z.div_mod_to_equations. lia. Qed.

Lemma cstr_head m a l : cstr m a l -> 0 <= m a < 256.
Proof. destruct l; simpl; lia. Qed.

Lemma cstr_length_unique m a l l' : cstr m a l -> cstr m a l' -> l = l'.
Proof.
  revert a l'. induction l as [|c l IH]; intros a [|c' l']; simpl; try done.
  - lia.
  - lia.
  - intros (<- & _ & H) (<- & _ & H'). f_equal. eauto.
Qed.

Lemma strlen_n_spec fuel m a l n :
  cstr m a l -> (length l < fuel)%nat -> strlen_n fuel m a n = Some (n + Z.of_nat (length l)).
Proof.
  revert fuel a n. induction l as [|c l IH]; intros [|fuel] a n Hs Hl; simpl in *; try lia.
  - rewrite Hs. simpl. f_equal. lia.
  - destruct Hs as (-> & Hc & Hs). rewrite (proj2 (Z.eqb_neq c 0)) by lia.
    rewrite (IH fuel) by (done || lia). f_equal. lia.
Qed.

Lemma strcmp_n_spec fuel m a b l1 l2 :
  cstr m a l1 -> cstr m b l2 -> (length l1 < fuel)%nat ->
  exists r, strcmp_n fuel m a b = Some r /\ (r = 0 <-> l1 = l2).
Proof.
  revert a b l2 fuel. induction l1 as [|c l1 IH]; intros a b l2 [|fuel] H1 H2 Hf; simpl in Hf; try lia;
    cbn [strcmp_n].
  - simpl in H1. rewrite H1. simpl. eexists. split; [done|].
    pose proof (cstr_head _ _ _ H2). split.
    + intros E. assert (0 = m b) by (apply i8_inj; [lia|done|lia]).
      destruct l2 as [|c l2]; [done|]. simpl in H2. lia.
    + intros <-. simpl in H2. by rewrite H2.
  - pose proof (cstr_head _ _ _ H2). destruct H1 as (Ha & Hc & H1). rewrite Ha.
    rewrite (proj2 (Z.eqb_neq c 0)) by lia. destruct l2 as [|c' l2].
    + simpl in H2. rewrite H2. simpl. eexists. split; [done|]. split; [|done].
      intros E. assert (c = 0) by (apply i8_inj; lia). lia.
    + destruct H2 as (Hb & Hc' & H2). rewrite Hb, (proj2 (Z.eqb_neq c' 0)) by lia. simpl.
      destruct (i8 c =? i8 c') eqn:E; zbool.
      * assert (c = c') as -> by (apply i8_inj; lia).
        destruct (IH (a + 1) (b + 1) l2 fuel) as (r & -> & Hr); [done..|lia|].
        exists r. split; [done|]. rewrite Hr. split; [by intros ->|by intros [= ->]].
      * eexists. split; [done|]. split; [lia|]. intros [= -> _]. lia.
Qed.

Lemma memcmp_n_spec n m a b :
  (forall i, 0 <= m i < 256) ->
  memcmp_n n m a b = 0 <-> forall i, 0 <= i < Z.of_nat n -> m (a + i) = m (b + i).
Proof.
  intros Hm. revert a b. induction n as [|n IH]; intros a b; simpl; [split; [lia|done]|].
  destruct (i8 (m a) =? i8 (m b)) eqn:E; zbool.
  - apply i8_inj in E; [|apply Hm..]. rewrite IH. split.
    + intros H i Hi. destruct (decide (i = 0)) as [->|]; [by rewrite !Z.add_0_r|].
      specialize (H (i - 1) ltac:(lia)). by replace (a + i) with (a + 1 + (i - 1)) by lia;
        replace (b + i) with (b + 1 + (i - 1)) by lia.
    + intros H i Hi. rewrite <- !Z.add_assoc. apply H. lia.
  - split; [lia|]. intros H. specialize (H 0 ltac:(lia)). rewrite !Z.add_0_r in H.
    rewrite H in E. done.
Qed.

(** ** Numbers *)

Definition digit_char (d : Z) : Z := if d <? 10 then d + 48 else d - 10 + 65.
(** the digits of a non-negative number, most significant first *)
Fixpoint digits (fuel : nat) (base v : Z) : list Z :=
  match fuel with
  | O => []
  | S fuel' => (if v / base =? 0 then [] else digits fuel' base (v / base)) ++ [v `mod` base]
  end.
Definition decimal (v : Z) : list Z := digit_char <$> digits I2A_FUEL 10 v.
Definition hexadecimal (v : Z) : list Z := digit_char <$> digits I2A_FUEL 16 v.

(** reading a number back from its characters *)
Definition char_digit (c : Z) : Z := if c <? 58 then c - 48 else c - 65 + 10.
Definition parse_num (base : Z) (l : list Z) : Z :=
  foldl (fun acc c => acc * base + char_digit c) 0 l.

Lemma char_digit_char d : 0 <= d < 16 -> char_digit (digit_char d) = d.
Proof. intros H. unfold char_digit, digit_char. repeat case_match; zbool; lia. Qed.

Lemma digits_range fuel base v d : 2 <= base <= 16 -> d ∈ digits fuel base v -> 0 <= d < 16.
Proof.
  intros Hb. revert v. induction fuel as [|fuel IH]; intros v; simpl; [set_solver|].
  rewrite elem_of_app, list_elem_of_singleton. intros [H| ->].
  - case_match; [set_solver|eauto].
  - pose proof (Z.mod_pos_bound v base). lia.
Qed.

Lemma parse_digits fuel base v :
  2 <= base <= 16 -> 0 <= v < base ^ Z.of_nat fuel ->
  parse_num base (digit_char <$> digits fuel base v) = v.
Proof.
  intros Hb. revert v. induction fuel as [|fuel IH]; intros v Hv.
  - change (base ^ Z.of_nat 0) with 1 in Hv. change (0 = v). lia.
  - cbn [digits]. rewrite fmap_app. unfold parse_num. rewrite foldl_app. simpl.
    rewrite char_digit_char by (pose proof (Z.mod_pos_bound v base); lia).
    pose proof (Z.div_mod v base ltac:(lia)). destruct (v / base =? 0) eqn:E; zbool; [simpl; lia|].
    fold (parse_num base (digit_char <$> digits fuel base (v / base))).
    rewrite IH; [lia|]. rewrite Nat2Z.inj_succ, Z.pow_succ_r in Hv by lia.
    split; [apply Z.div_pos; lia|]. apply Z.div_lt_upper_bound; lia.
Qed.

Lemma i2a_spec fuel base v p m :
  2 <= base <= 16 -> 0 <= v ->
  i2a fuel v base p m =
    (p + Z.of_nat (length (digits fuel base v)), put_bytes p (digit_char <$> digits fuel base v) m).
Proof.
  intros Hb. revert v p m. induction fuel as [|fuel IH]; intros v p m Hv; simpl.
  - by rewrite Z.add_0_r.
  - rewrite Z.rem_mod_nonneg, Z.quot_div_nonneg by lia.
    assert (Hc : u8 (digit_char (v `mod` base)) = digit_char (v `mod` base)).
    { unfold u8, digit_char. pose proof (Z.mod_pos_bound v base).
      apply Z.mod_small. case_match; zbool; lia. }
    unfold digit_char in Hc at 1. destruct (v / base =? 0) eqn:E; simpl.
    + by rewrite Hc.
    + rewrite IH by (apply Z.div_pos; lia). rewrite Hc, fmap_app, put_bytes_app, length_fmap.
      rewrite length_app. simpl. f_equal. lia.
Qed.

(** ** The text [vsprintf] produces *)

Inductive arg := AInt (v : Z) | AStr (l : list Z) | AChar (c : Z).

(** [None]: the format asks for something the arguments do not give, or a number
    out of the range the conversion handles *)
Fixpoint render (fmt : list Z) (args : list arg) : option (list Z) :=
  match fmt with
  | [] => Some []
  | c :: fmt' =>
      if negb (c =? 37) then cons c <$> render fmt' args
      else
        match fmt', args with
        | k :: fmt'', AInt v :: args' =>
            if k =? 120 then
              if (0 <=? v) && (v <? 2147483648) then app (hexadecimal v) <$> render fmt'' args'
              else None
            else if k =? 100 then
              if v <? 0
              then if -2147483648 <? v then app (45 :: decimal (- v)) <$> render fmt'' args'
                   else None
              else if v <? 2147483648 then app (decimal v) <$> render fmt'' args' else None
            else None
        | k :: fmt'', AStr l :: args' =>
            if k =? 115 then app l <$> render fmt'' args' else None
        | k :: fmt'', AChar ch :: args' =>
            if k =? 99 then cons ch <$> render fmt'' args' else None
        | _, _ => None
        end
  end.

(** the arguments on the stack at [a], their strings in memory and all of it
    outside the [n] bytes at [buf], which is where [vsprintf] writes *)
Fixpoint args_at (buf n : Z) (slen : nat) (m : mem) (a : Z) (args : list arg) : Prop :=
  match args with
  | [] => True
  | x :: args' =>
      (a + 4 <= buf \/ buf + n <= a) /\
      match x with
      | AInt v => ld32s m a = v
      | AChar c => m a = c
      | AStr l => cstr m (ld32 m a) l /\ (length l < slen)%nat /\
          (ld32 m a + Z.of_nat (length l) < buf \/ buf + n <= ld32 m a)
      end /\ args_at buf n slen m (a + 4) args'
  end.

Definition bytes_at (m : mem) (p : Z) (l : list Z) : Prop :=
  forall i c, l !! i = Some c -> m (p + Z.of_nat i) = c.

Lemma bytes_at_cons m p c l : bytes_at m p (c :: l) <-> m p = c /\ bytes_at m (p + 1) l.
Proof.
  split.
  - intros H. split; [specialize (H 0%nat c eq_refl); by rewrite Z.add_0_r in H|].
    intros i d Hi. specialize (H (S i) d Hi). rewrite <- H. f_equal. lia.
  - intros [H1 H2] [|i] d Hi; simpl in *.
    + injection Hi as <-. by rewrite Z.add_0_r.
    + specialize (H2 i d Hi). rewrite <- H2. f_equal. lia.
Qed.

Lemma bytes_at_app m p l1 l2 :
  bytes_at m p (l1 ++ l2) <-> bytes_at m p l1 /\ bytes_at m (p + Z.of_nat (length l1)) l2.
Proof.
  revert p. induction l1 as [|c l1 IH]; intros p.
  - rewrite Z.add_0_r. simpl. split; [intros H; split; [intros i ? Hi; done|done]|tauto].
  - cbn [app]. rewrite !bytes_at_cons, IH. simpl.
    replace (p + Z.of_nat (S (length l1))) with (p + 1 + Z.of_nat (length l1)) by lia. tauto.
Qed.

Lemma bytes_at_agree a n m m' p l :
  agree_out a n m m' -> p + Z.of_nat (length l) <= a \/ a + n <= p ->
  bytes_at m p l -> bytes_at m' p l.
Proof.
  intros Ha Hd H i c Hi. pose proof (lookup_lt_Some _ _ _ Hi).
  rewrite Ha by lia. by apply H.
Qed.

Lemma bytes_at_put p l m : bytes_at (put_bytes p l m) p l.
Proof.
  intros i c Hi. pose proof (lookup_lt_Some _ _ _ Hi).
  pose proof (put_bytes_in p l m (Z.of_nat i) ltac:(lia)) as H'.
  rewrite Nat2Z.id, Hi in H'. congruence.
Qed.

Lemma strcpy_n_spec fuel m p s l :
  cstr m s l -> (length l < fuel)%nat ->
  s + Z.of_nat (length l) < p \/ p + Z.of_nat (length l) < s ->
  strcpy_n fuel p s m = put_bytes p (l ++ [0]) m.
Proof.
  revert fuel m p s. induction l as [|c l IH]; intros [|fuel] m p s Hs Hf Hd; simpl in *; try lia.
  - by rewrite Hs.
  - destruct Hs as (-> & Hc & Hs). rewrite (proj2 (Z.eqb_neq c 0)) by lia.
    apply IH; [|lia|lia]. eapply (cstr_agree p 1); [|lia|done].
    intros x Hx. apply upd_ne. lia.
Qed.

Lemma ld32_agree a n m m' x : agree_out a n m m' -> x + 4 <= a \/ a + n <= x -> ld32 m' x = ld32 m x.
Proof. intros Ha Hx. apply ld32_ext. intros i Hi. apply Ha. lia. Qed.

Lemma args_at_agree buf n slen m m' a args :
  agree_out buf n m m' -> args_at buf n slen m a args -> args_at buf n slen m' a args.
Proof.
  intros Ha. revert a. induction args as [|x args IH]; intros a; simpl; [done|].
  intros (Hd & Hx & Hr). split; [done|]. split; [|by apply IH].
  destruct x; unfold ld32s in *; rewrite ?(ld32_agree buf n m m') by done; [done| |].
  - destruct Hx as (H1 & H2 & H3). split; [|done]. by eapply cstr_agree.
  - rewrite Ha by lia. done.
Qed.

(** [vs_state]: what a round of [vsprintf_loop] starts from; [B] is the end of the
    buffer. [vs_done]: what it must deliver. *)
Record vs_state (buf B : Z) (slen : nat) (m : mem) (p fmt args : Z) (fl : list Z) (al : list arg) : Prop := {
  vs_fmt : cstr m fmt fl;
  vs_fmt_out : fmt + Z.of_nat (length fl) < buf \/ B <= fmt;
  vs_args : args_at buf (B - buf) slen m args al;
  vs_p : buf <= p }.
Definition vs_done (B p : Z) (m : mem) (out : list Z) (r : option (Z * mem)) : Prop :=
  exists m', r = Some (p + Z.of_nat (length out), m') /\ bytes_at m' p out /\ agree_out p (B - p) m m'.

Lemma vs_glue B p w out m m1 r :
  bytes_at m1 p w -> agree_out p (B - p) m m1 ->
  vs_done B (p + Z.of_nat (length w)) m1 out r -> vs_done B p m (w ++ out) r.
Proof.
  intros Hw Ha (m' & -> & Hb & Ha'). exists m'. split.
  { do 2 f_equal. rewrite length_app. lia. }
  split.
  - apply bytes_at_app. split; [|done]. eapply bytes_at_agree; [exact Ha'|lia|done].
  - eapply agree_out_trans; [done|]. eapply agree_out_weaken; [| |exact Ha']; lia.
Qed.

(** the rest of the format and of the arguments, after [k] characters of the
    format and the writes at [p] *)
Lemma vs_next buf B slen m m1 p p1 fmt args fl al k fl1 args1 al1 :
  vs_state buf B slen m p fmt args fl al -> agree_out p (B - p) m m1 -> p <= p1 ->
  (forall m, cstr m fmt fl -> cstr m (fmt + Z.of_nat k) fl1) -> length fl = (k + length fl1)%nat ->
  (forall m, args_at buf (B - buf) slen m args al -> args_at buf (B - buf) slen m args1 al1) ->
  vs_state buf B slen m1 p1 (fmt + Z.of_nat k) args1 fl1 al1.
Proof.
  intros [H1 H2 H3 H4] Ha Hp Hf Hl Hg.
  assert (Ha' : agree_out buf (B - buf) m m1) by (eapply agree_out_weaken; [| |exact Ha]; lia).
  split.
  - apply Hf. eapply cstr_agree; [exact Ha'|lia|done].
  - lia.
  - apply Hg. by eapply args_at_agree.
  - lia.
Qed.

Lemma vs_number B p p1 w m m1 base v out (k : Z -> mem -> option (Z * mem)) :
  2 <= base <= 16 -> 0 <= v -> bytes_at m1 p w -> agree_out p (B - p) m m1 ->
  p1 = p + Z.of_nat (length w) ->
  p + Z.of_nat (length w) + Z.of_nat (length (digits I2A_FUEL base v)) <= B ->
  (forall m2, agree_out p (B - p) m m2 ->
     let p2 := p + Z.of_nat (length w) + Z.of_nat (length (digits I2A_FUEL base v)) in
     vs_done B p2 m2 out (k p2 m2)) ->
  vs_done B p m ((w ++ (digit_char <$> digits I2A_FUEL base v)) ++ out)
    (let '(p, m) := i2a I2A_FUEL v base p1 m1 in k p m).
Proof.
  intros Hb Hv Hw Ha -> HB Hk. rewrite i2a_spec by done.
  set (ds := digit_char <$> digits I2A_FUEL base v).
  assert (Hl : Z.of_nat (length (digits I2A_FUEL base v)) = Z.of_nat (length ds))
    by (unfold ds; by rewrite length_fmap). rewrite Hl in *.
  assert (Ha' : agree_out (p + Z.of_nat (length w)) (Z.of_nat (length ds)) m1
    (put_bytes (p + Z.of_nat (length w)) ds m1)) by apply put_bytes_out.
  assert (Ha2 : agree_out p (B - p) m (put_bytes (p + Z.of_nat (length w)) ds m1)).
  { eapply agree_out_trans; [done|]. eapply agree_out_weaken; [| |exact Ha']; lia. }
  apply (vs_glue _ _ _ _ _ (put_bytes (p + Z.of_nat (length w)) ds m1)); [|done|].
  - apply bytes_at_app. split; [|apply bytes_at_put].
    eapply bytes_at_agree; [exact Ha'|lia|done].
  - rewrite length_app. replace (p + Z.of_nat (length w + length ds))
      with (p + Z.of_nat (length w) + Z.of_nat (length ds)) by lia. by apply Hk.
Qed.

(** one conversion: its text, then the rest of the format *)
Section conversion.
Context (fuel slen : nat) (buf B p fmt args : Z) (m : mem) (k : Z) (fl : list Z) (al : list arg).
Hypothesis (Hp0 : m fmt = 37) (Hk : m (fmt + 1) = k).
Hypothesis (Hrest : forall m1 p1 out', render fl al = Some out' ->
  p1 + Z.of_nat (length out') < B -> agree_out p (B - p) m m1 -> p <= p1 ->
  vs_done B p1 m1 out' (vsprintf_loop fuel slen p1 (fmt + 1 + 1) (args + 4) m1)).

Lemma vs_int v out :
  ld32s m args = v -> render (37 :: k :: fl) (AInt v :: al) = Some out ->
  p + Z.of_nat (length out) < B -> vs_done B p m out (vsprintf_loop (S fuel) slen p fmt args m).
Proof using Hp0 Hk Hrest.
  intros Hv Hr HB. cbn [vsprintf_loop]. rewrite Hp0, Hk, Hv. cbn [render] in Hr.
  simpl (37 =? 0). simpl (37 =? 37) in *. cbn [negb] in *. cbv iota in *.
  destruct (k =? 120) eqn:Ex; [|destruct (k =? 100) eqn:Ed; [|done]].
  - destruct ((0 <=? v) && (v <? 2147483648)) eqn:Er; [|done]. zbool.
    apply fmap_Some in Hr as (out' & Hr & ->). unfold hexadecimal in *.
    rewrite length_app, length_fmap in HB.
    apply (vs_number B p p [] m m 16 v out'
      (fun p m => vsprintf_loop fuel slen p (fmt + 1 + 1) (args + 4) m));
      [lia|lia|by intros ???|done|cbn [length]; lia..|].
    intros m2 Ha. apply Hrest; [done|cbn [length]; lia|done|cbn [length]; lia].
  - assert ((k =? 115) = false /\ (k =? 99) = false) as [-> ->] by (split; zbool; lia).
    destruct (v <? 0) eqn:Es; zbool.
    + destruct (-2147483648 <? v) eqn:Er; [|done]. zbool.
      apply fmap_Some in Hr as (out' & Hr & ->). replace (i32 (v * -1)) with (- v) by (rewrite i32_id; lia).
      change (45 :: decimal (- v)) with ([45] ++ decimal (- v)) in *. unfold decimal in *.
      rewrite !length_app, length_fmap in HB.
      apply (vs_number B p (p + 1) [45] m (upd m p 45) 10 (- v) out'
        (fun p m => vsprintf_loop fuel slen p (fmt + 1 + 1) (args + 4) m));
        [lia|lia| | |cbn [length] in *; lia..|].
      * apply bytes_at_cons. split; [apply upd_eq|by intros ???].
      * intros x Hx. apply upd_ne. lia.
      * intros m2 Ha. apply Hrest; [done|cbn [length] in *; lia|done|cbn [length]; lia].
    + destruct (v <? 2147483648) eqn:Er; [|done]. zbool.
      apply fmap_Some in Hr as (out' & Hr & ->). unfold decimal in *.
      rewrite length_app, length_fmap in HB.
      apply (vs_number B p p [] m m 10 v out'
        (fun p m => vsprintf_loop fuel slen p (fmt + 1 + 1) (args + 4) m));
        [lia|lia|by intros ???|done|cbn [length]; lia..|].
      intros m2 Ha. apply Hrest; [done|cbn [length]; lia|done|cbn [length]; lia].
Qed.

Lemma vs_char ch out :
  m args = ch -> render (37 :: k :: fl) (AChar ch :: al) = Some out ->
  p + Z.of_nat (length out) < B -> vs_done B p m out (vsprintf_loop (S fuel) slen p fmt args m).
Proof using Hp0 Hk Hrest.
  intros Hv Hr HB. cbn [vsprintf_loop]. rewrite Hp0, Hk, Hv. cbn [render] in Hr.
  simpl (37 =? 0). simpl (37 =? 37) in *. cbn [negb] in *. cbv iota in *.
  destruct (k =? 99) eqn:Ex; [|done].
  assert ((k =? 120) = false /\ (k =? 115) = false) as [-> ->] by (split; zbool; lia).
  apply fmap_Some in Hr as (out' & Hr & ->). rewrite length_cons in HB.
  assert (agree_out p (B - p) m (upd m p ch)) by (intros x Hx; apply upd_ne; lia).
  apply (vs_glue _ _ [ch] out' m (upd m p ch)); [|done|].
  - apply bytes_at_cons. split; [apply upd_eq|by intros ???].
  - apply Hrest; [done|simpl; lia|done|simpl; lia].
Qed.

Lemma vs_str l out :
  cstr m (ld32 m args) l -> (length l < slen)%nat ->
  args + 4 <= buf \/ B <= args -> buf <= p ->
  ld32 m args + Z.of_nat (length l) < buf \/ B <= ld32 m args ->
  render (37 :: k :: fl) (AStr l :: al) = Some out ->
  p + Z.of_nat (length out) < B -> vs_done B p m out (vsprintf_loop (S fuel) slen p fmt args m).
Proof using Hp0 Hk Hrest.
  intros Hs Hl Hargs Hbp Hout Hr HB. cbn [vsprintf_loop]. rewrite Hp0, Hk. cbn [render] in Hr.
  simpl (37 =? 0). simpl (37 =? 37) in *. cbn [negb] in *. cbv iota in *.
  destruct (k =? 115) eqn:Ex; [|done].
  assert ((k =? 120) = false) as -> by (zbool; lia).
  apply fmap_Some in Hr as (out' & Hr & ->). rewrite length_app in HB.
  rewrite (strcpy_n_spec _ _ _ _ l) by (done || lia).
  assert (Ha : agree_out p (B - p) m (put_bytes p (l ++ [0]) m)).
  { eapply agree_out_weaken; [| |apply put_bytes_out]; rewrite ?length_app; simpl; lia. }
  rewrite (ld32_agree p (B - p) m) by (done || lia).
  unfold strlen. rewrite (strlen_n_spec _ _ _ l);
    [|eapply cstr_agree; [exact Ha|lia|done]|done].
  rewrite Z.add_0_l. apply (vs_glue _ _ l out' m (put_bytes p (l ++ [0]) m)); [|done|].
  - pose proof (bytes_at_put p (l ++ [0]) m) as Hb. by apply bytes_at_app in Hb as [? _].
  - apply Hrest; [done|lia|done|lia].
Qed.
End conversion.

Lemma vsprintf_loop_spec fuel slen buf B m p fmt args fl al out :
  vs_state buf B slen m p fmt args fl al -> render fl al = Some out ->
  p + Z.of_nat (length out) < B -> (length fl < fuel)%nat ->
  vs_done B p m out (vsprintf_loop fuel slen p fmt args m).
Proof.
  revert m p fmt args fl al out. induction fuel as [|fuel IH];
    intros m p fmt args fl al out Hst Hr Hp Hf; [lia|].
  pose proof (vs_fmt _ _ _ _ _ _ _ _ _ Hst) as Hfm.
  destruct fl as [|c fl].
  { injection Hr as <-. simpl in Hfm. cbn [vsprintf_loop]. rewrite Hfm. simpl. exists m.
    rewrite Z.add_0_r. split; [done|]. split; [by intros ???|done]. }
  assert (Hm : m fmt = c /\ 1 <= c) by (destruct Hfm as (? & ? & _); lia).
  destruct Hm as [Hm Hc]. destruct (decide (c = 37)) as [->|Ec].
  2:{ cbn [render] in Hr. cbn [vsprintf_loop]. rewrite Hm.
      rewrite (proj2 (Z.eqb_neq c 0)) by lia. rewrite (proj2 (Z.eqb_neq c 37)) in Hr |- * by done.
      cbn [negb] in *. apply fmap_Some in Hr as (out' & Hr & ->). rewrite length_cons in Hp.
      assert (agree_out p (B - p) m (upd m p c)) by (intros x Hx; apply upd_ne; lia).
      apply (vs_glue _ _ [c] out' m (upd m p c)); [|done|].
      - apply bytes_at_cons. split; [apply upd_eq|by intros ???].
      - apply (IH _ _ _ _ fl al); [|done|simpl; lia|simpl in Hf; lia].
        eapply (vs_next _ _ _ _ _ _ _ _ _ _ _ 1); try done; [lia|by intros ? (_ & _ & ?)]. }
  destruct fl as [|k fl]; [done|]. destruct Hfm as (_ & _ & Hk & _).
  destruct Hst as [H1 H2 H3 H4] eqn:EH. destruct al as [|x al]; [done|].
  assert (Hrest : forall m1 p1 out', render fl al = Some out' ->
    p1 + Z.of_nat (length out') < B -> agree_out p (B - p) m m1 -> p <= p1 ->
    vs_done B p1 m1 out' (vsprintf_loop fuel slen p1 (fmt + 1 + 1) (args + 4) m1)).
  { intros m1 p1 out' Hr' HB Ha Hle. apply (IH _ _ _ _ fl al); [|done|done|simpl in Hf; lia].
    replace (fmt + 1 + 1) with (fmt + Z.of_nat 2) by lia.
    eapply (vs_next _ _ _ _ _ _ _ _ _ _ _ 2); try done; [|by intros m2 (_ & _ & H)].
    intros m2 (_ & _ & _ & _ & H). by replace (fmt + Z.of_nat 2) with (fmt + 1 + 1) by lia. }
  clear EH. destruct H3 as (Hd & Hx & _). destruct x as [v|l|ch].
  - by eapply vs_int.
  - destruct Hx as (Hs & Hl & Hout). eapply (vs_str _ _ buf); try done; lia.
  - by eapply vs_char.
Qed.

Lemma vsprintf_run fuel slen buf n m fmt args fl al out :
  cstr m fmt fl -> (fmt + Z.of_nat (length fl) < buf \/ buf + n <= fmt) ->
  args_at buf n slen m args al -> render fl al = Some out ->
  Z.of_nat (length out) < n -> (length fl < fuel)%nat ->
  exists m', vsprintf fuel slen buf fmt args m = Some (Z.of_nat (length out), m') /\
    bytes_at m' buf out /\ agree_out buf n m m'.
Proof.
  intros Hf Ho Ha Hr Hn Hl. unfold vsprintf.
  destruct (vsprintf_loop_spec fuel slen buf (buf + n) m buf fmt args fl al out)
    as (m' & -> & Hb & Hag); try (done || lia).
  - split; [done|done|by replace (buf + n - buf) with n by lia|lia].
  - exists m'. split; [do 2 f_equal; lia|]. split; [done|].
    by replace (buf + n - buf) with n in Hag by lia.
Qed.

(** ** Properties *)

(** [strcmp] returns 0 exactly on equal strings. *)
Theorem strcmp_correct fuel m a b l1 l2 :
  a <> 0 -> b <> 0 -> cstr m a l1 -> cstr m b l2 -> (length l1 < fuel)%nat ->
  exists r, strcmp fuel m a b = Some r /\ (r = 0 <-> l1 = l2).
Proof.
  intros Ha Hb H1 H2 Hf. unfold strcmp.
  rewrite (proj2 (Z.eqb_neq a 0) Ha), (proj2 (Z.eqb_neq b 0) Hb). by apply strcmp_n_spec.
Qed.


(** [i2a] writes the decimal and hexadecimal texts of non-negative ints, and
    these read back as the number. *)
Theorem number_text_roundtrip v :
  0 <= v < 2147483648 ->
  (forall p m, i2a I2A_FUEL v 10 p m = (p + Z.of_nat (length (decimal v)), put_bytes p (decimal v) m)) /\
  (forall p m, i2a I2A_FUEL v 16 p m =
     (p + Z.of_nat (length (hexadecimal v)), put_bytes p (hexadecimal v) m)) /\
  parse_num 10 (decimal v) = v /\ parse_num 16 (hexadecimal v) = v.
Proof.
  intros Hv. unfold decimal, hexadecimal. rewrite !length_fmap. split; [|split; [|split]].
  - intros p m. by rewrite i2a_spec by lia.
  - intros p m. by rewrite i2a_spec by lia.
  - apply parse_digits; [lia|]. unfold I2A_FUEL. lia.
  - apply parse_digits; [lia|]. unfold I2A_FUEL. lia.
Qed.

(** [itoa] drops the zero digits inside a number, since nothing sets its
    [flag]: 0x100 and 0x1 give the same text. *)
Theorem itoa_drops_zeros :
  let text num := (fun i => itoa 0 num (fun _ => 0) i) <$> seqZ 0 8 in
  text 0x100 = text 0x1 /\ text 0x100 = [48; 120; 49; 0; 0; 0; 0; 0].
Proof. split; vm_compute; reflexivity. Qed.
