(* ===== verification/Protect.v ===== *)
(** * Segment descriptors and gates (kernel/protect.c, include/sys/protect.h)

    [init_descriptor] packs a base, a limit and attributes into the 8-byte
    descriptor of the processor; [ldt_seg_linear] (kernel/proc.c), [seg2addr]
    and the [reassembly] macro read the parts back. [init_idt_desc] packs an
    interrupt gate. The theorems are the round trips. *)
From S2P Require Import Prelude Const.

Record DESCRIPTOR := mkDesc {
  limit_low : Z;
  base_low : Z;
  base_mid : Z;
  attrl : Z;
  limit_high_attr2 : Z;
  base_high : Z }.

Definition zero_desc : DESCRIPTOR := mkDesc 0 0 0 0 0 0.

Record GATE := mkGate {
  offset_low : Z;
  selector : Z;
  dcount : Z;
  attr : Z;
  offset_high : Z }.

Definition DA_32 : Z := 0x4000.
Definition DA_DRW : Z := 0x92.
Definition DA_C : Z := 0x98.
Definition DA_LIMIT_4K : Z := 0x8000.
Definition LIMIT_4K_SHIFT : Z := 12.
Definition INDEX_LDT_C : Z := 0.
Definition INDEX_LDT_RW : Z := 1.
Definition SELECTOR_KERNEL_CS : Z := 8.
Definition PRIVILEGE_USER : Z := 3.

(** [reassembly(high, high_shift, mid, mid_shift, low)] *)
Definition reassembly (high hs mid ms low : Z) : Z :=
  Z.shiftl high hs + Z.shiftl mid ms + low.

Definition init_descriptor (base limit attr : Z) : DESCRIPTOR :=
  {| limit_low := Z.land limit 0xffff;
     base_low := Z.land base 0xffff;
     base_mid := Z.land (Z.shiftr base 16) 0xff;
     attrl := Z.land attr 0xff;
     limit_high_attr2 := Z.lor (Z.land (Z.shiftr attr 8) 0xf0) (Z.land (Z.shiftr limit 16) 0xf);
     base_high := Z.land (Z.shiftr base 24) 0xff |}.

(** [ldt_seg_linear] of kernel/proc.c, on the descriptor [p->ldts[idx]]: an [int]. *)
Definition seg_linear (d : DESCRIPTOR) : Z :=
  i32 (Z.lor (Z.lor (Z.shiftl (base_high d) 24) (Z.shiftl (base_mid d) 16)) (base_low d)).

(** [seg2addr] of kernel/protect.c, on the descriptor [gdt[seg>>3]]: a [u32]. *)
Definition seg2addr (d : DESCRIPTOR) : Z :=
  u32 (Z.lor (Z.lor (base_low d) (Z.shiftl (base_mid d) 16)) (Z.shiftl (base_high d) 24)).

(** the three values [do_fork] reads out of a code or data descriptor *)
Definition desc_base (d : DESCRIPTOR) : Z :=
  i32 (reassembly (base_high d) 24 (base_mid d) 16 (base_low d)).
Definition desc_limit (d : DESCRIPTOR) : Z :=
  reassembly 0 0 (Z.land (limit_high_attr2 d) 0xF) 16 (limit_low d).
Definition desc_size (d : DESCRIPTOR) : Z :=
  i32 ((1 + desc_limit d) * (if has (limit_high_attr2 d) 0x80 then 4096 else 1)).

(** the gate [init_idt_desc] writes at [idt[vector]] *)
Definition init_idt_desc (desc_type handler privilege : Z) : GATE :=
  {| offset_low := Z.land handler 0xFFFF;
     selector := SELECTOR_KERNEL_CS;
     dcount := 0;
     attr := u8 (Z.lor (Z.shiftl privilege 5) desc_type);
     offset_high := Z.land (Z.shiftr handler 16) 0xFFFF |}.

(** the handler address the processor takes from a gate *)
Definition gate_offset (g : GATE) : Z := Z.shiftl (offset_high g) 16 + offset_low g.

Definition desc_wf (d : DESCRIPTOR) : Prop :=
  0 <= base_low d < 65536 /\ 0 <= base_mid d < 256 /\ 0 <= base_high d < 256.

(** The parts of a base are disjoint bit fields: or-ing them is adding them. *)
Lemma base_parts h m l : 0 <= m < 256 -> 0 <= l < 65536 ->
  Z.lor (Z.lor (Z.shiftl h 24) (Z.shiftl m 16)) l = h * 16777216 + m * 65536 + l.
Proof.
  intros Hm Hl. replace (Z.shiftl h 24) with (Z.shiftl (Z.shiftl h 8) 16)
    by by rewrite Z.shiftl_shiftl.
  rewrite <- Z.shiftl_lor, shiftl_lor_add, shiftl_lor_add by lia. lia.
Qed.

Lemma desc_base_seg_linear d : desc_wf d -> desc_base d = seg_linear d.
Proof.
  intros (Hl & Hm & Hh). unfold desc_base, seg_linear, reassembly.
  rewrite base_parts, !Z.shiftl_mul_pow2 by lia. f_equal.
Qed.

Lemma init_descriptor_wf base limit attr : desc_wf (init_descriptor base limit attr).
Proof.
  unfold desc_wf, init_descriptor; simpl. rewrite !land_ff, land_ffff.
  repeat split; apply Z.mod_pos_bound; lia.
Qed.

Lemma base_reassembled base :
  (base / 16777216) `mod` 256 * 16777216 + (base / 65536) `mod` 256 * 65536 + base `mod` 65536
  = u32 base.
Proof. unfold u32. Z.div_mod_to_equations. lia. Qed.

(** Reading the base back as a [u32] address. *)
Lemma seg_linear_init base limit attr :
  seg_linear (init_descriptor base limit attr) = i32 base.
Proof.
  unfold seg_linear, init_descriptor; simpl.
  rewrite !land_ff, land_ffff, !shiftr_div by lia.
  rewrite base_parts by (apply Z.mod_pos_bound; lia).
  change (2 ^ 24) with 16777216. change (2 ^ 16) with 65536.
  by rewrite base_reassembled, i32_u32.
Qed.

Lemma high_nibble attr limit :
  Z.land (Z.lor (Z.land (Z.shiftr attr 8) 0xf0) (Z.land (Z.shiftr limit 16) 0xf)) 0xF
  = (limit / 65536) `mod` 16.
Proof.
  rewrite Z.land_lor_distr_l, <- !Z.land_assoc.
  change (Z.land 0xf0 0xF) with 0. change (Z.land 0xf 0xF) with 0xf.
  rewrite Z.land_0_r, Z.lor_0_l, land_f, shiftr_div by lia. done.
Qed.

Lemma desc_limit_init base limit attr :
  0 <= limit < 1048576 -> desc_limit (init_descriptor base limit attr) = limit.
Proof.
  intros H. unfold desc_limit, init_descriptor, reassembly; simpl.
  rewrite high_nibble, land_ffff, !Z.shiftl_mul_pow2 by lia. change (2 ^ 0) with 1.
  change (2 ^ 16) with 65536. Z.div_mod_to_equations. lia.
Qed.

(** The granularity bit is bit 15 of the attributes. *)
Lemma granularity_init base limit attr :
  has (limit_high_attr2 (init_descriptor base limit attr)) 0x80 = Z.testbit attr 15.
Proof.
  unfold has, init_descriptor; cbn [limit_high_attr2].
  rewrite Z.land_lor_distr_l, <- !Z.land_assoc.
  change (Z.land 0xf0 0x80) with (2 ^ 7). change (Z.land 0xf 0x80) with 0.
  rewrite Z.land_0_r, Z.lor_0_r.
  change 15 with (7 + 8). rewrite <- (Z.shiftr_spec attr 8 7) by lia.
  generalize (Z.shiftr attr 8). intros x. destruct (Z.testbit x 7) eqn:E.
  - apply negb_true_iff, Z.eqb_neq. intros H0.
    assert (Z.testbit (Z.land x (2 ^ 7)) 7 = false) as H1 by (rewrite H0; apply Z.bits_0).
    by rewrite Z.land_spec, E in H1.
  - apply negb_false_iff, Z.eqb_eq, Z.bits_inj'. intros n Hn.
    rewrite Z.land_spec, Z.bits_0, Z.pow2_bits_eqb by lia.
    destruct (Z.eqb_spec 7 n) as [<-|]; [by rewrite E|by rewrite andb_false_r].
Qed.

(** [seg2addr] and [seg_linear] assemble the same bits. *)
Lemma seg2addr_init base limit attr : seg2addr (init_descriptor base limit attr) = u32 base.
Proof.
  pose proof (init_descriptor_wf base limit attr) as Hwf.
  pose proof (seg_linear_init base limit attr) as Hs. revert Hwf Hs.
  generalize (init_descriptor base limit attr). intros d Hwf Hs.
  unfold seg2addr. rewrite <- Z.lor_comm, (Z.lor_comm (base_low d)), Z.lor_assoc.
  unfold seg_linear in Hs. rewrite base_parts in Hs |- * by apply Hwf.
  unfold u32, i32 in *. Z.div_mod_to_equations. lia.
Qed.

(** The base and the limit a descriptor was made of are read back by every
    reader of the code: [ldt_seg_linear], [seg2addr], and the reassembly of
    [do_fork]; and the granularity bit is bit 15 of the attributes. *)
Theorem descriptor_roundtrip base limit attr :
  0 <= base < 4294967296 -> 0 <= limit < 1048576 ->
  let d := init_descriptor base limit attr in
  u32 (seg_linear d) = base /\ seg2addr d = base /\ desc_base d = i32 base /\
  desc_limit d = limit /\ has (limit_high_attr2 d) 0x80 = Z.testbit attr 15.
Proof.
  intros Hb Hl d. pose proof (init_descriptor_wf base limit attr) as Hwf. fold d in Hwf.
  assert (Hs : seg_linear d = i32 base) by apply seg_linear_init.
  repeat split.
  - rewrite Hs. unfold u32, i32. Z.div_mod_to_equations. lia.
  - unfold d. rewrite seg2addr_init. by apply u32_id.
  - by rewrite desc_base_seg_linear.
  - by apply desc_limit_init.
  - apply granularity_init.
Qed.
