(* ===== verification/Proc.v ===== *)
(** * Processes and kernel state (include/sys/proc.h, kernel/global.c)

    The process table entry [PROCESS], the globals of the kernel ([kstate]), the
    accesses to [proc_table] with their bounds, address translation ([va2la],
    kernel/proc.c) and the layout of [MESSAGE] (include/type.h) in memory. *)
From S2P Require Import Prelude Const Protect.

(** ** [STACK_FRAME], [PROCESS] *)
Record STACK_FRAME := mkRegs {
  gs : Z;
  fs : Z;
  es : Z;
  ds : Z;
  edi : Z;
  esi : Z;
  ebp : Z;
  kernel_esp : Z;
  ebx : Z;
  edx : Z;
  ecx : Z;
  eax : Z;
  retaddr : Z;
  eip : Z;
  cs : Z;
  eflags : Z;
  esp : Z;
  ss : Z }.

Definition set_ecx (x : Z) (r : STACK_FRAME) : STACK_FRAME :=
  mkRegs (gs r) (fs r) (es r) (ds r) (edi r) (esi r) (ebp r) (kernel_esp r) (ebx r) (edx r) x
    (eax r) (retaddr r) (eip r) (cs r) (eflags r) (esp r) (ss r).
Definition set_eax (x : Z) (r : STACK_FRAME) : STACK_FRAME :=
  mkRegs (gs r) (fs r) (es r) (ds r) (edi r) (esi r) (ebp r) (kernel_esp r) (ebx r) (edx r)
    (ecx r) x (retaddr r) (eip r) (cs r) (eflags r) (esp r) (ss r).
Definition set_eip (x : Z) (r : STACK_FRAME) : STACK_FRAME :=
  mkRegs (gs r) (fs r) (es r) (ds r) (edi r) (esi r) (ebp r) (kernel_esp r) (ebx r) (edx r)
    (ecx r) (eax r) (retaddr r) x (cs r) (eflags r) (esp r) (ss r).
Definition set_esp (x : Z) (r : STACK_FRAME) : STACK_FRAME :=
  mkRegs (gs r) (fs r) (es r) (ds r) (edi r) (esi r) (ebp r) (kernel_esp r) (ebx r) (edx r)
    (ecx r) (eax r) (retaddr r) (eip r) (cs r) (eflags r) x (ss r).

(** [p_msg] is a virtual address of the process (0: none); [q_sending] and
    [next_sending] are pointers into [proc_table], so an optional index; [filp]
    points into [fd_table]; [p_name] is the 16 bytes of the array. *)
Record PROCESS := mkProc {
  regs : STACK_FRAME;
  ldt_sel : Z;
  ldts : arr DESCRIPTOR;
  p_ticks : Z;
  priority : Z;
  p_name : list Z;
  p_flags : Z;
  p_msg : Z;
  p_recvfrom : Z;
  p_sendto : Z;
  has_int_msg : Z;
  q_sending : option Z;
  next_sending : option Z;
  p_parent : Z;
  exit_status : Z;
  filp : arr (option Z) }.

Definition set_regs (x : STACK_FRAME) (r : PROCESS) : PROCESS :=
  mkProc x (ldt_sel r) (ldts r) (p_ticks r) (priority r) (p_name r) (p_flags r) (p_msg r)
    (p_recvfrom r) (p_sendto r) (has_int_msg r) (q_sending r) (next_sending r) (p_parent r)
    (exit_status r) (filp r).
Definition set_ldt_sel (x : Z) (r : PROCESS) : PROCESS :=
  mkProc (regs r) x (ldts r) (p_ticks r) (priority r) (p_name r) (p_flags r) (p_msg r)
    (p_recvfrom r) (p_sendto r) (has_int_msg r) (q_sending r) (next_sending r) (p_parent r)
    (exit_status r) (filp r).
Definition set_ldts (x : arr DESCRIPTOR) (r : PROCESS) : PROCESS :=
  mkProc (regs r) (ldt_sel r) x (p_ticks r) (priority r) (p_name r) (p_flags r) (p_msg r)
    (p_recvfrom r) (p_sendto r) (has_int_msg r) (q_sending r) (next_sending r) (p_parent r)
    (exit_status r) (filp r).
Definition set_p_ticks (x : Z) (r : PROCESS) : PROCESS :=
  mkProc (regs r) (ldt_sel r) (ldts r) x (priority r) (p_name r) (p_flags r) (p_msg r)
    (p_recvfrom r) (p_sendto r) (has_int_msg r) (q_sending r) (next_sending r) (p_parent r)
    (exit_status r) (filp r).
Definition set_p_name (x : list Z) (r : PROCESS) : PROCESS :=
  mkProc (regs r) (ldt_sel r) (ldts r) (p_ticks r) (priority r) x (p_flags r) (p_msg r)
    (p_recvfrom r) (p_sendto r) (has_int_msg r) (q_sending r) (next_sending r) (p_parent r)
    (exit_status r) (filp r).
Definition set_p_flags (x : Z) (r : PROCESS) : PROCESS :=
  mkProc (regs r) (ldt_sel r) (ldts r) (p_ticks r) (priority r) (p_name r) x (p_msg r)
    (p_recvfrom r) (p_sendto r) (has_int_msg r) (q_sending r) (next_sending r) (p_parent r)
    (exit_status r) (filp r).
Definition set_p_msg (x : Z) (r : PROCESS) : PROCESS :=
  mkProc (regs r) (ldt_sel r) (ldts r) (p_ticks r) (priority r) (p_name r) (p_flags r) x
    (p_recvfrom r) (p_sendto r) (has_int_msg r) (q_sending r) (next_sending r) (p_parent r)
    (exit_status r) (filp r).
Definition set_p_recvfrom (x : Z) (r : PROCESS) : PROCESS :=
  mkProc (regs r) (ldt_sel r) (ldts r) (p_ticks r) (priority r) (p_name r) (p_flags r) (p_msg
    r) x (p_sendto r) (has_int_msg r) (q_sending r) (next_sending r) (p_parent r) (exit_status
    r) (filp r).
Definition set_p_sendto (x : Z) (r : PROCESS) : PROCESS :=
  mkProc (regs r) (ldt_sel r) (ldts r) (p_ticks r) (priority r) (p_name r) (p_flags r) (p_msg
    r) (p_recvfrom r) x (has_int_msg r) (q_sending r) (next_sending r) (p_parent r)
    (exit_status r) (filp r).
Definition set_has_int_msg (x : Z) (r : PROCESS) : PROCESS :=
  mkProc (regs r) (ldt_sel r) (ldts r) (p_ticks r) (priority r) (p_name r) (p_flags r) (p_msg
    r) (p_recvfrom r) (p_sendto r) x (q_sending r) (next_sending r) (p_parent r) (exit_status
    r) (filp r).
Definition set_q_sending (x : option Z) (r : PROCESS) : PROCESS :=
  mkProc (regs r) (ldt_sel r) (ldts r) (p_ticks r) (priority r) (p_name r) (p_flags r) (p_msg
    r) (p_recvfrom r) (p_sendto r) (has_int_msg r) x (next_sending r) (p_parent r) (exit_status
    r) (filp r).
Definition set_next_sending (x : option Z) (r : PROCESS) : PROCESS :=
  mkProc (regs r) (ldt_sel r) (ldts r) (p_ticks r) (priority r) (p_name r) (p_flags r) (p_msg
    r) (p_recvfrom r) (p_sendto r) (has_int_msg r) (q_sending r) x (p_parent r) (exit_status r)
    (filp r).
Definition set_p_parent (x : Z) (r : PROCESS) : PROCESS :=
  mkProc (regs r) (ldt_sel r) (ldts r) (p_ticks r) (priority r) (p_name r) (p_flags r) (p_msg
    r) (p_recvfrom r) (p_sendto r) (has_int_msg r) (q_sending r) (next_sending r) x
    (exit_status r) (filp r).
Definition set_exit_status (x : Z) (r : PROCESS) : PROCESS :=
  mkProc (regs r) (ldt_sel r) (ldts r) (p_ticks r) (priority r) (p_name r) (p_flags r) (p_msg
    r) (p_recvfrom r) (p_sendto r) (has_int_msg r) (q_sending r) (next_sending r) (p_parent r)
    x (filp r).
Definition set_filp (x : arr (option Z)) (r : PROCESS) : PROCESS :=
  mkProc (regs r) (ldt_sel r) (ldts r) (p_ticks r) (priority r) (p_name r) (p_flags r) (p_msg
    r) (p_recvfrom r) (p_sendto r) (has_int_msg r) (q_sending r) (next_sending r) (p_parent r)
    (exit_status r) x.

(** ** The kernel's globals

    [p_proc_ready] is the index of the process it points to. *)
Record kstate := mkK {
  proc_table : arr PROCESS;
  p_proc_ready : Z;
  ticks : Z;
  k_reenter : Z;
  key_pressed : Z;
  memory : mem }.

Definition set_proc_table (x : arr PROCESS) (r : kstate) : kstate :=
  mkK x (p_proc_ready r) (ticks r) (k_reenter r) (key_pressed r) (memory r).
Definition set_p_proc_ready (x : Z) (r : kstate) : kstate :=
  mkK (proc_table r) x (ticks r) (k_reenter r) (key_pressed r) (memory r).
Definition set_ticks (x : Z) (r : kstate) : kstate :=
  mkK (proc_table r) (p_proc_ready r) x (k_reenter r) (key_pressed r) (memory r).
Definition set_key_pressed (x : Z) (r : kstate) : kstate :=
  mkK (proc_table r) (p_proc_ready r) (ticks r) (k_reenter r) x (memory r).
Definition set_memory (x : mem) (r : kstate) : kstate :=
  mkK (proc_table r) (p_proc_ready r) (ticks r) (k_reenter r) (key_pressed r) x.

(** ** [MESSAGE]: the view [u.m3] of the union, the only one the code uses *)
Record MESSAGE := mkMsg {
  source : Z;
  type : Z;
  m3i1 : Z;
  m3i2 : Z;
  m3i3 : Z;
  m3i4 : Z;
  m3l1 : Z;
  m3l2 : Z;
  m3p1 : Z;
  m3p2 : Z }.

Definition set_source (x : Z) (r : MESSAGE) : MESSAGE :=
  mkMsg x (type r) (m3i1 r) (m3i2 r) (m3i3 r) (m3i4 r) (m3l1 r) (m3l2 r) (m3p1 r) (m3p2 r).
Definition set_type (x : Z) (r : MESSAGE) : MESSAGE :=
  mkMsg (source r) x (m3i1 r) (m3i2 r) (m3i3 r) (m3i4 r) (m3l1 r) (m3l2 r) (m3p1 r) (m3p2 r).
Definition set_m3i1 (x : Z) (r : MESSAGE) : MESSAGE :=
  mkMsg (source r) (type r) x (m3i2 r) (m3i3 r) (m3i4 r) (m3l1 r) (m3l2 r) (m3p1 r) (m3p2 r).
Definition set_m3i2 (x : Z) (r : MESSAGE) : MESSAGE :=
  mkMsg (source r) (type r) (m3i1 r) x (m3i3 r) (m3i4 r) (m3l1 r) (m3l2 r) (m3p1 r) (m3p2 r).
Definition set_m3i3 (x : Z) (r : MESSAGE) : MESSAGE :=
  mkMsg (source r) (type r) (m3i1 r) (m3i2 r) x (m3i4 r) (m3l1 r) (m3l2 r) (m3p1 r) (m3p2 r).
Definition set_m3i4 (x : Z) (r : MESSAGE) : MESSAGE :=
  mkMsg (source r) (type r) (m3i1 r) (m3i2 r) (m3i3 r) x (m3l1 r) (m3l2 r) (m3p1 r) (m3p2 r).
Definition set_m3l1 (x : Z) (r : MESSAGE) : MESSAGE :=
  mkMsg (source r) (type r) (m3i1 r) (m3i2 r) (m3i3 r) (m3i4 r) x (m3l2 r) (m3p1 r) (m3p2 r).
Definition set_m3p1 (x : Z) (r : MESSAGE) : MESSAGE :=
  mkMsg (source r) (type r) (m3i1 r) (m3i2 r) (m3i3 r) (m3i4 r) (m3l1 r) (m3l2 r) x (m3p2 r).
Definition set_m3p2 (x : Z) (r : MESSAGE) : MESSAGE :=
  mkMsg (source r) (type r) (m3i1 r) (m3i2 r) (m3i3 r) (m3i4 r) (m3l1 r) (m3l2 r) (m3p1 r) x.

(** the field macros of include/sys/const.h *)
Definition FD := m3i1.
Definition PATHNAME := m3p1.
Definition FLAGS := m3i1.
Definition NAME_LEN := m3i2.
Definition BUF_LEN := m3i3.
Definition CNT := m3i2.
Definition REQUEST := m3i2.
Definition PROC_NR := m3i3.
Definition DEVICE := m3i4.
Definition POSITION := m3l1.
Definition BUF := m3p2.
Definition OFFSET := m3i2.
Definition WHENCE := m3i3.
Definition PID := m3i2.
Definition STATUS := m3i1.
Definition RETVAL := m3i1.

(** [memset(m, 0, sizeof(MESSAGE))] on a message object *)
Definition zero_msg : MESSAGE := mkMsg 0 0 0 0 0 0 0 0 0 0.

(** A message object in memory: little-endian fields at their offsets in the
    struct, 48 bytes in all. *)
Definition SIZEOF_MESSAGE : Z := 48.
Definition ld64 (m : mem) (a : Z) : Z := ld32 m a + 4294967296 * ld32 m (a + 4).
Definition st64 (a v : Z) (m : mem) : mem := st32 (a + 4) (v / 4294967296) (st32 a v m).
Definition msg_at (m : mem) (a : Z) : MESSAGE :=
  {| source := ld32s m a; type := ld32s m (a + 4);
     m3i1 := ld32s m (a + 8); m3i2 := ld32s m (a + 12);
     m3i3 := ld32s m (a + 16); m3i4 := ld32s m (a + 20);
     m3l1 := ld64 m (a + 24); m3l2 := ld64 m (a + 32);
     m3p1 := ld32 m (a + 40); m3p2 := ld32 m (a + 44) |}.
Definition put_msg (a : Z) (x : MESSAGE) (m : mem) : mem :=
  st32 (a + 44) (m3p2 x) (st32 (a + 40) (m3p1 x) (st64 (a + 32) (m3l2 x) (st64 (a + 24) (m3l1 x)
  (st32 (a + 20) (m3i4 x) (st32 (a + 16) (m3i3 x) (st32 (a + 12) (m3i2 x) (st32 (a + 8) (m3i1 x)
  (st32 (a + 4) (type x) (st32 a (source x) m))))))))).

(** the bytes [l] written to the start of an array that holds [old] *)
Definition overwrite (l old : list Z) : list Z := l ++ drop (length l) old.

(** ** Access to [proc_table] *)

Definition in_table (i : Z) : bool := (0 <=? i) && (i <? NR_ALL).

(** [proc_table[i]] *)
Definition getp (i : Z) : M kstate PROCESS :=
  fun st => if in_table i then Ok (proc_table st i) st else Halt HFault.
(** an assignment through a pointer to [proc_table[i]] *)
Definition modp (i : Z) (f : PROCESS -> PROCESS) : M kstate unit :=
  fun st => if in_table i
            then Ok tt (set_proc_table (upd (proc_table st) i (f (proc_table st i))) st)
            else Halt HFault.
Definition modmem (f : mem -> mem) : M kstate unit :=
  modify (fun st => set_memory (f (memory st)) st).

(** [va2la] of kernel/proc.c *)
Definition va2la (pid va : Z) : M kstate Z :=
  p ← getp pid;
  let la := u32 (va + seg_linear (ldts p INDEX_LDT_RW)) in
  when (pid <? NR_TASKS + NR_NATIVE_PROCS) (assert_ (la =? u32 va)) ;;
  ret la.

(** ** Lemmas *)

Lemma in_table_iff i : in_table i = true <-> 0 <= i < NR_ALL.
Proof. unfold in_table. rewrite andb_true_iff, Z.leb_le, Z.ltb_lt. done. Qed.

Lemma wp_getp i Q st : 0 <= i < NR_ALL -> Q (proc_table st i) st -> wp (getp i) Q st.
Proof. intros Hi%in_table_iff HQ. unfold wp, getp. by rewrite Hi. Qed.

Lemma wp_modp i f (Q : unit -> kstate -> Prop) st : 0 <= i < NR_ALL ->
  Q tt (set_proc_table (upd (proc_table st) i (f (proc_table st i))) st) -> wp (modp i f) Q st.
Proof. intros Hi%in_table_iff HQ. unfold wp, modp. by rewrite Hi. Qed.

Lemma getp_Ok i st p st' :
  getp i st = Ok p st' -> p = proc_table st i /\ st' = st /\ 0 <= i < NR_ALL.
Proof.
  unfold getp. destruct (in_table i) eqn:E; [|done].
  intros [= <- <-]. rewrite in_table_iff in E. done.
Qed.

Lemma modp_Ok i f st u st' :
  modp i f st = Ok u st' ->
  st' = set_proc_table (upd (proc_table st) i (f (proc_table st i))) st /\ 0 <= i < NR_ALL.
Proof.
  unfold modp. destruct (in_table i) eqn:E; [|done].
  intros [= <- <-]. rewrite in_table_iff in E. done.
Qed.

(** The linear address of a virtual one; the native processes have base 0. *)
Definition la_of (st : kstate) (pid va : Z) : Z :=
  u32 (va + seg_linear (ldts (proc_table st pid) INDEX_LDT_RW)).

Definition flat (st : kstate) : Prop :=
  forall i, 0 <= i < NR_TASKS + NR_NATIVE_PROCS ->
    seg_linear (ldts (proc_table st i) INDEX_LDT_RW) = 0.

Lemma wp_va2la pid va Q st :
  0 <= pid < NR_ALL -> flat st -> Q (la_of st pid va) st -> wp (va2la pid va) Q st.
Proof.
  intros Hp Hf HQ. unfold va2la. wp_step. apply wp_getp; [done|]. wp_step.
  destruct (pid <? NR_TASKS + NR_NATIVE_PROCS) eqn:E; simpl.
  - wp_step; [|by repeat wp_step]. zbool. unfold flat in Hf. rewrite Hf by lia.
    by rewrite Z.add_0_r, Z.eqb_refl.
  - by repeat wp_step.
Qed.

Lemma va2la_run pid va st :
  0 <= pid < NR_ALL -> flat st -> va2la pid va st = Ok (la_of st pid va) st.
Proof.
  intros Hp Hf.
  assert (wp (va2la pid va) (fun la s => la = la_of st pid va /\ s = st) st) as W
    by (by apply wp_va2la).
  by apply wp_run in W as (? & ? & -> & -> & ->).
Qed.

Lemma getp_run i st : 0 <= i < NR_ALL -> getp i st = Ok (proc_table st i) st.
Proof. intros Hi%in_table_iff. unfold getp. by rewrite Hi. Qed.

Lemma modp_run i f st : in_table i = true ->
  modp i f st = Ok tt (set_proc_table (upd (proc_table st) i (f (proc_table st i))) st).
Proof. intros Hi. unfold modp. by rewrite Hi. Qed.

Lemma va2la_Ok pid va st la st' :
  va2la pid va st = Ok la st' -> la = la_of st pid va /\ st' = st /\ 0 <= pid < NR_ALL.
Proof.
  unfold va2la. intros H. inv_ok H. apply getp_Ok in E as (-> & -> & Hr).
  injection H as <- <-. repeat split; try lia.
  unfold when in E0. case_match; [|by injection E0 as <- <-].
  unfold assert_ in E0. case_match; [by injection E0 as <- <-|done].
Qed.

(** Reading back a stored message gives the stored fields, for field values in
    the range of their C types. *)
Definition msg_ok (x : MESSAGE) : Prop :=
  (-2147483648 <= source x < 2147483648) /\ (-2147483648 <= type x < 2147483648) /\
  (-2147483648 <= m3i1 x < 2147483648) /\ (-2147483648 <= m3i2 x < 2147483648) /\
  (-2147483648 <= m3i3 x < 2147483648) /\ (-2147483648 <= m3i4 x < 2147483648) /\
  (0 <= m3l1 x < 18446744073709551616) /\ (0 <= m3l2 x < 18446744073709551616) /\
  (0 <= m3p1 x < 4294967296) /\ (0 <= m3p2 x < 4294967296).

Lemma ld64_st64 a v m : 0 <= v < 18446744073709551616 -> ld64 (st64 a v m) a = v.
Proof.
  intros H. unfold ld64, st64. rewrite ld32_st32, ld32_st32_ne, ld32_st32 by lia.
  unfold u32. Z.div_mod_to_equations. lia.
Qed.

Lemma ld32s_st32_ne a b v m : b + 4 <= a \/ a + 4 <= b -> ld32s (st32 a v m) b = ld32s m b.
Proof. intros. unfold ld32s. by rewrite ld32_st32_ne. Qed.
Lemma ld32s_st64_ne a b v m : b + 4 <= a \/ a + 8 <= b -> ld32s (st64 a v m) b = ld32s m b.
Proof. intros. unfold st64. by rewrite !ld32s_st32_ne by lia. Qed.
Lemma ld64_st32_ne a b v m : b + 8 <= a \/ a + 4 <= b -> ld64 (st32 a v m) b = ld64 m b.
Proof. intros. unfold ld64. by rewrite !ld32_st32_ne by lia. Qed.
Lemma ld64_st64_ne a b v m : b + 8 <= a \/ a + 8 <= b -> ld64 (st64 a v m) b = ld64 m b.
Proof. intros. unfold st64. by rewrite !ld64_st32_ne by lia. Qed.

Lemma msg_at_put a x m : msg_ok x -> msg_at (put_msg a x m) a = x.
Proof.
  intros (?&?&?&?&?&?&?&?&?&?). unfold msg_at, put_msg.
  repeat first [ rewrite ld32s_st32 by lia | rewrite ld64_st64 by lia
    | rewrite ld32_st32 | rewrite ld32s_st32_ne by lia | rewrite ld32s_st64_ne by lia
    | rewrite ld32_st32_ne by lia | rewrite ld64_st32_ne by lia | rewrite ld64_st64_ne by lia ].
  rewrite !u32_id by lia. by destruct x.
Qed.

(** Two memories that agree on the 48 bytes hold the same message. *)
Lemma msg_at_ext m m' a b :
  (forall i, 0 <= i < SIZEOF_MESSAGE -> m (a + i) = m' (b + i)) -> msg_at m a = msg_at m' b.
Proof.
  unfold SIZEOF_MESSAGE. intros H.
  assert (H32 : forall o, 0 <= o <= 44 -> ld32 m (a + o) = ld32 m' (b + o)).
  { intros o Ho. unfold ld32.
    rewrite <- !Z.add_assoc. by rewrite !H by lia. }
  pose proof (H32 0 ltac:(lia)) as H0. rewrite !Z.add_0_r in H0.
  unfold msg_at, ld64, ld32s. rewrite <- !Z.add_assoc, H0, !H32 by lia. done.
Qed.

Lemma msg_copied m dst src :
  dst + SIZEOF_MESSAGE <= src \/ src + SIZEOF_MESSAGE <= dst ->
  msg_at (memcpy dst src SIZEOF_MESSAGE m) dst = msg_at m src.
Proof.
  intros H. apply msg_at_ext. intros i Hi. rewrite memcpy_in by (unfold SIZEOF_MESSAGE in *; lia).
  f_equal. lia.
Qed.

#[export] Hint Resolve wp_getp wp_modp : bazinga.
