(* ===== verification/Sys.v ===== *)
(** * The tables of the file system and the state of the system tasks
    (include/sys/fs.h, kernel/global.c)

    [inode], [file_desc] and [super_block] as the file system keeps them in
    memory, the disk as the file system sees it (one byte array per minor device
    number), and [sys], the state the tasks FS and MM work on: the kernel's state
    with these tables. Pointers to inodes and to file descriptors are indices,
    0 is [None]. *)
From S2P Require Import Prelude Const CLib Protect Proc.

(** ** [struct inode], [struct file_desc], [struct super_block] *)
Record inode := mkInode {
  i_mode : Z;
  i_size : Z;
  i_start_sect : Z;
  i_nr_sects : Z;
  i_dev : Z;
  i_cnt : Z;
  i_num : Z }.

Definition set_i_mode (x : Z) (r : inode) : inode :=
  mkInode x (i_size r) (i_start_sect r) (i_nr_sects r) (i_dev r) (i_cnt r) (i_num r).
Definition set_i_size (x : Z) (r : inode) : inode :=
  mkInode (i_mode r) x (i_start_sect r) (i_nr_sects r) (i_dev r) (i_cnt r) (i_num r).
Definition set_i_start_sect (x : Z) (r : inode) : inode :=
  mkInode (i_mode r) (i_size r) x (i_nr_sects r) (i_dev r) (i_cnt r) (i_num r).
Definition set_i_nr_sects (x : Z) (r : inode) : inode :=
  mkInode (i_mode r) (i_size r) (i_start_sect r) x (i_dev r) (i_cnt r) (i_num r).
Definition set_i_dev (x : Z) (r : inode) : inode :=
  mkInode (i_mode r) (i_size r) (i_start_sect r) (i_nr_sects r) x (i_cnt r) (i_num r).
Definition set_i_cnt (x : Z) (r : inode) : inode :=
  mkInode (i_mode r) (i_size r) (i_start_sect r) (i_nr_sects r) (i_dev r) x (i_num r).
Definition set_i_num (x : Z) (r : inode) : inode :=
  mkInode (i_mode r) (i_size r) (i_start_sect r) (i_nr_sects r) (i_dev r) (i_cnt r) x.

Record file_desc := mkFd {
  fd_mode : Z;
  fd_pos : Z;
  fd_cnt : Z;
  fd_inode : option Z }.

Definition set_fd_mode (x : Z) (r : file_desc) : file_desc :=
  mkFd x (fd_pos r) (fd_cnt r) (fd_inode r).
Definition set_fd_pos (x : Z) (r : file_desc) : file_desc :=
  mkFd (fd_mode r) x (fd_cnt r) (fd_inode r).
Definition set_fd_cnt (x : Z) (r : file_desc) : file_desc :=
  mkFd (fd_mode r) (fd_pos r) x (fd_inode r).
Definition set_fd_inode (x : option Z) (r : file_desc) : file_desc :=
  mkFd (fd_mode r) (fd_pos r) (fd_cnt r) x.

Record super_block := mkSb {
  magic : Z;
  nr_inodes : Z;
  nr_sects : Z;
  nr_imap_sects : Z;
  nr_smap_sects : Z;
  n_1st_sect : Z;
  nr_inode_sects : Z;
  sb_root_inode : Z;
  inode_size : Z;
  inode_iszie_off : Z;
  inode_start_off : Z;
  dir_ent_size : Z;
  dir_ent_inode_off : Z;
  dir_ent_fname_off : Z;
  sb_dev : Z }.

Definition set_sb_dev (x : Z) (r : super_block) : super_block :=
  mkSb (magic r) (nr_inodes r) (nr_sects r) (nr_imap_sects r) (nr_smap_sects r) (n_1st_sect r)
    (nr_inode_sects r) (sb_root_inode r) (inode_size r) (inode_iszie_off r) (inode_start_off r)
    (dir_ent_size r) (dir_ent_inode_off r) (dir_ent_fname_off r) x.

Definition zero_inode : inode := mkInode 0 0 0 0 0 0 0.
Definition zero_fd : file_desc := mkFd 0 0 0 None.
Definition zero_sb : super_block := mkSb 0 0 0 0 0 0 0 0 0 0 0 0 0 0 0.

(** ** A disk partition as FS sees it: its bytes and its number of sectors *)
Record device := mkDev {
  dev_data : mem;
  dev_sects : Z }.

Definition set_dev_data (x : mem) (r : device) : device :=
  mkDev x (dev_sects r).

(** ** The state

    [sb_tmp] is the static [sb] of fs/main.c; [root_inode] is an index into
    [inode_table]; [disk] is indexed by minor device number. *)
Record sys := mkSys {
  kern : kstate;
  fd_table : arr file_desc;
  inode_table : arr inode;
  super_blocks : arr super_block;
  sb_tmp : super_block;
  root_inode : Z;
  disk : arr device }.

Definition set_kern (x : kstate) (r : sys) : sys :=
  mkSys x (fd_table r) (inode_table r) (super_blocks r) (sb_tmp r) (root_inode r) (disk r).
Definition set_fd_table (x : arr file_desc) (r : sys) : sys :=
  mkSys (kern r) x (inode_table r) (super_blocks r) (sb_tmp r) (root_inode r) (disk r).
Definition set_inode_table (x : arr inode) (r : sys) : sys :=
  mkSys (kern r) (fd_table r) x (super_blocks r) (sb_tmp r) (root_inode r) (disk r).
Definition set_super_blocks (x : arr super_block) (r : sys) : sys :=
  mkSys (kern r) (fd_table r) (inode_table r) x (sb_tmp r) (root_inode r) (disk r).
Definition set_sb_tmp (x : super_block) (r : sys) : sys :=
  mkSys (kern r) (fd_table r) (inode_table r) (super_blocks r) x (root_inode r) (disk r).
Definition set_root_inode (x : Z) (r : sys) : sys :=
  mkSys (kern r) (fd_table r) (inode_table r) (super_blocks r) (sb_tmp r) x (disk r).
Definition set_disk (x : arr device) (r : sys) : sys :=
  mkSys (kern r) (fd_table r) (inode_table r) (super_blocks r) (sb_tmp r) (root_inode r) x.

(** ** Commands on the parts *)

Definition lift {A} (c : M kstate A) : M sys A :=
  fun st => match c (kern st) with
            | Ok a k => Ok a (set_kern k st)
            | Halt h => Halt h
            end.

Definition in_fd_table (i : Z) : bool := (0 <=? i) && (i <? NR_FILE_DESC).
Definition in_inode_table (i : Z) : bool := (0 <=? i) && (i <? NR_INODE).

(** reads and writes through a pointer to [fd_table[i]], [inode_table[i]] *)
Definition getfd (i : Z) : M sys file_desc :=
  fun st => if in_fd_table i then Ok (fd_table st i) st else Halt HFault.
Definition modfd (i : Z) (f : file_desc -> file_desc) : M sys unit :=
  fun st => if in_fd_table i then Ok tt (set_fd_table (upd (fd_table st) i (f (fd_table st i))) st)
            else Halt HFault.
Definition geti (i : Z) : M sys inode :=
  fun st => if in_inode_table i then Ok (inode_table st i) st else Halt HFault.
Definition modi (i : Z) (f : inode -> inode) : M sys unit :=
  fun st => if in_inode_table i
            then Ok tt (set_inode_table (upd (inode_table st) i (f (inode_table st i))) st)
            else Halt HFault.
(** a pointer that is dereferenced: 0 faults *)
Definition deref (p : option Z) : M sys Z :=
  match p with Some i => ret i | None => stop HFault end.

(** the task's view of memory *)
Definition getmem : M sys mem := fun st => Ok (memory (kern st)) st.
Definition modm (f : mem -> mem) : M sys unit := lift (modmem f).
