(* ===== verification/Fs.v ===== *)
(** * The file system task: definitions (fs/main.c, misc.c, open.c, read_write.c,
    lseek.c, link.c)

    FS keeps the tables of Sys.v, reads and writes sectors through the buffer
    [fsbuf] at 6 MB, and serves the messages OPEN, CLOSE, READ, WRITE, LSEEK,
    STAT, UNLINK, FORK and EXIT. Its conversation with the disk driver is the
    transfer between memory and the partition ([rw_sector]); HdThm.v shows that the
    driver performs it. The character drivers are a parameter. Arrays on the
    task's stack (path, file name) are lists of bytes. *)
From S2P Require Import Prelude Const CLib Protect Proc Sys.

(** ** The buffer and the drivers (kernel/global.c) *)

Definition fsbuf : Z := 0x600000.
Definition FSBUF_SIZE : Z := 0x100000.

(** [dd_map[major].driver_nr]; the array has 6 entries *)
Definition dd_map (major : Z) : option Z :=
  if (0 <=? major) && (major <=? 5) then
    Some (if major =? DEV_HD then TASK_HD else if major =? DEV_CHAR_TTY then TASK_TTY
          else INVALID_DRIVER)
  else None.
(** [assert(dd_map[MAJOR(dev)].driver_nr != INVALID_DRIVER)] and the value *)
Definition driver_of (dev : Z) : M sys Z :=
  match dd_map (MAJOR dev) with
  | None => stop HFault
  | Some d => assert_ (negb (d =? INVALID_DRIVER)) ;; ret d
  end.

(** the transfer of [bytes] bytes at [pos] of a partition to or from [buf] *)
Definition disk_read (d : mem) (pos bytes buf : Z) (m : mem) : mem :=
  fun a => if (buf <=? a) && (a <? buf + bytes) then d (pos + (a - buf)) else m a.
Definition disk_write (m : mem) (pos bytes buf : Z) (d : mem) : mem :=
  fun a => if (pos <=? a) && (a <? pos + bytes) then m (buf + (a - pos)) else d a.

(** the most the driver transfers in one request: the sector count of the command
    is one byte, and 0 stands for 256 *)
Definition MAX_TRANSFER : Z := 256 * SECTOR_SIZE.

(** [rw_sector], with the driver's part of the exchange (HdThm.v). After a command
    for too few sectors the driver waits for an interrupt that does not come, or
    panics when the drive does not ask for data; a position past 2 GB, an [int] below 0,
    would address sectors in front of the partition, and the model stops there. *)
Definition rw_sector (io_type dev pos bytes buf : Z) : M sys unit :=
  d ← driver_of dev;
  if negb (d =? TASK_HD) then stop HBlock
  else
    assert_ (Z.land pos 0x1ff =? 0) ;;
    if pos <? 0 then stop HBlock
    else if MAX_TRANSFER <? bytes then (if io_type =? DEV_READ then stop HBlock else panic)
    else
      modify (fun st =>
        let dv := disk st (MINOR dev) in
        if io_type =? DEV_READ then
          set_kern (set_memory (disk_read (dev_data dv) pos bytes buf (memory (kern st))) (kern st)) st
        else
          set_disk (upd (disk st) (MINOR dev)
            (set_dev_data (disk_write (memory (kern st)) pos bytes buf (dev_data dv)) dv)) st).

(** the macros [RD_SECT] and [WR_SECT] *)
Definition RD_SECT (dev sect_nr : Z) : M sys unit :=
  rw_sector DEV_READ dev (i32 (sect_nr * SECTOR_SIZE)) SECTOR_SIZE fsbuf.
Definition WR_SECT (dev sect_nr : Z) : M sys unit :=
  rw_sector DEV_WRITE dev (i32 (sect_nr * SECTOR_SIZE)) SECTOR_SIZE fsbuf.

(** [fsbuf[i]] *)
Definition getb (i : Z) : M sys Z := m ← getmem; ret (m (fsbuf + i)).
Definition setb (i v : Z) : M sys unit := modm (fun m => upd m (fsbuf + i) (u8 v)).

(** ** Structures in the buffer *)

(** [struct super_block] at [a]: 15 words *)
Definition sb_at (m : mem) (a : Z) : super_block :=
  mkSb (ld32 m a) (ld32 m (a + 4)) (ld32 m (a + 8)) (ld32 m (a + 12)) (ld32 m (a + 16))
    (ld32 m (a + 20)) (ld32 m (a + 24)) (ld32 m (a + 28)) (ld32 m (a + 32)) (ld32 m (a + 36))
    (ld32 m (a + 40)) (ld32 m (a + 44)) (ld32 m (a + 48)) (ld32 m (a + 52)) (ld32s m (a + 56)).
Fixpoint put_words (a : Z) (l : list Z) (m : mem) : mem :=
  match l with
  | [] => m
  | w :: l' => put_words (a + 4) l' (st32 a w m)
  end.
Definition put_sb (a : Z) (s : super_block) (m : mem) : mem :=
  put_words a [magic s; nr_inodes s; nr_sects s; nr_imap_sects s; nr_smap_sects s; n_1st_sect s;
    nr_inode_sects s; sb_root_inode s; inode_size s; inode_iszie_off s; inode_start_off s;
    dir_ent_size s; dir_ent_inode_off s; dir_ent_fname_off s; sb_dev s] m.

(** the words of [struct inode] that are on the device *)
Definition put_inode_at (a : Z) (p : inode) (m : mem) : mem :=
  put_words a [i_mode p; i_size p; i_start_sect p; i_nr_sects p] m.
Definition load_inode (m : mem) (a : Z) (p : inode) : inode :=
  mkInode (ld32 m a) (ld32 m (a + 4)) (ld32 m (a + 8)) (ld32 m (a + 12)) (i_dev p) (i_cnt p) (i_num p).

(** [struct dir_entry] number [j] of the sector in the buffer *)
Definition de_addr (j : Z) : Z := fsbuf + j * DIR_ENT_SIZE.
Definition de_inode_nr (m : mem) (j : Z) : Z := ld32s m (de_addr j).
Definition de_name (j : Z) : Z := de_addr j + 4.

(** ** Super blocks and inodes (fs/main.c) *)

Definition read_super_block (dev : Z) : M sys unit :=
  rw_sector DEV_READ dev (SECTOR_SIZE * 1) SECTOR_SIZE fsbuf ;;
  st ← get;
  match find_first (fun i => sb_dev (super_blocks st i) =? NO_DEV) (Z.to_nat NR_SUPER_BLOCK) 0 with
  | None => panic
  | Some i =>
      assert_ (i =? 0) ;;
      m ← getmem;
      modify (fun st => set_super_blocks (upd (super_blocks st) i (set_sb_dev dev (sb_at m fsbuf))) st)
  end.

(** [get_super_block]: the test in the loop is an assignment *)
Fixpoint get_super_block_loop (n : nat) (i dev : Z) : M sys Z :=
  match n with
  | O => panic
  | S n' =>
      modify (fun st => set_super_blocks (upd (super_blocks st) i (set_sb_dev dev (super_blocks st i))) st) ;;
      (if negb (dev =? 0) then ret i else get_super_block_loop n' (i + 1) dev)
  end.
Definition get_super_block (dev : Z) : M sys Z :=
  get_super_block_loop (Z.to_nat NR_SUPER_BLOCK) 0 dev.
(** the block it points to *)
Definition sb_of (dev : Z) : M sys super_block :=
  i ← get_super_block dev; st ← get; ret (super_blocks st i).

(** the search of [get_inode]: the entry, or the first free slot *)
Fixpoint inode_scan (n : nat) (p : Z) (q : option Z) (t : arr inode) (dev nr : Z) : Z + option Z :=
  match n with
  | O => inr q
  | S n' =>
      if negb (i_cnt (t p) =? 0) then
        if (i_dev (t p) =? dev) && (i_num (t p) =? nr) then inl p
        else inode_scan n' (p + 1) q t dev nr
      else inode_scan n' (p + 1) (match q with None => Some p | Some _ => q end) t dev nr
  end.

(** the sector of an inode and its place in it *)
Definition inode_sect (s : super_block) (inode_nr : Z) : Z :=
  i32 (1 + 1 + nr_imap_sects s + nr_smap_sects s
       + Z.quot ((inode_nr - 1) * INODE_SIZE) SECTOR_SIZE).
Definition inode_off (inode_nr : Z) : Z :=
  Z.rem (inode_nr - 1) (SECTOR_SIZE / INODE_SIZE) * INODE_SIZE.

Definition get_inode (dev inode_nr : Z) : M sys Z :=
  st ← get;
  match inode_scan (Z.to_nat NR_INODE) 0 None (inode_table st) dev inode_nr with
  | inl p => modi p (fun x => set_i_cnt (i_cnt x + 1) x) ;; ret p
  | inr None => panic
  | inr (Some q) =>
      modi q (fun x => set_i_cnt 1 (set_i_num inode_nr (set_i_dev dev x))) ;;
      s ← sb_of dev;
      RD_SECT dev (inode_sect s inode_nr) ;;
      m ← getmem;
      modi q (load_inode m (fsbuf + inode_off inode_nr)) ;;
      ret q
  end.

Definition put_inode (p : Z) : M sys unit :=
  x ← geti p;
  assert_ (0 <? i_cnt x) ;;
  modi p (fun x => set_i_cnt (i_cnt x - 1) x).

Definition sync_inode (p : Z) : M sys unit :=
  x ← geti p;
  s ← sb_of (i_dev x);
  let sect_nr := inode_sect s (i_num x) in
  RD_SECT (i_dev x) sect_nr ;;
  modm (put_inode_at (fsbuf + inode_off (i_num x)) x) ;;
  WR_SECT (i_dev x) sect_nr.

(** ** Paths and directories (fs/misc.c) *)

(** the copying loop of [strip_path]: [n] bytes of room left *)
Fixpoint strip_loop (n : nat) (src : list Z) : option (list Z) :=
  match src with
  | [] => Some []
  | c :: src' =>
      if c =? 0 then Some []
      else if c =? 47 then None
      else match n with
           | O => Some []
           | S O => Some [c]
           | S n' => cons c <$> strip_loop n' src'
           end
  end.
(** [strip_path]: [Some] is the file name, [None] the return value -1; the
    directory is always the root *)
Definition strip_path (pathname : list Z) : option (list Z) :=
  match pathname with
  | c :: rest => if c =? 47 then strip_loop (Z.to_nat MAX_FILENAME_LEN) rest
                 else strip_loop (Z.to_nat MAX_FILENAME_LEN) pathname
  | [] => Some []
  end.

(** [strcmp(filename, name)] of a string in an array and one in memory *)
Fixpoint strcmp_at (l : list Z) (m : mem) (a : Z) : Z :=
  match l with
  | [] => 0 - i8 (m a)
  | c :: l' =>
      if m a =? 0 then i8 c
      else if i8 c =? i8 (m a) then strcmp_at l' m (a + 1)
      else i8 c - i8 (m a)
  end.

(** the entries of one sector: [inl] the inode found, [inr] the count [m] *)
Fixpoint search_sect (n : nat) (j m nr : Z) (name : list Z) (mm : mem) : Z + Z :=
  match n with
  | O => inr m
  | S n' =>
      if strcmp_at name mm (de_name j) =? 0 then inl (de_inode_nr mm j)
      else if nr <? m + 1 then inr (m + 1)
      else search_sect n' (j + 1) (m + 1) nr name mm
  end.
Fixpoint search_loop (n : nat) (i dev blk0 m nr : Z) (name : list Z) : M sys Z :=
  match n with
  | O => ret 0
  | S n' =>
      RD_SECT dev (blk0 + i) ;;
      mm ← getmem;
      match search_sect (Z.to_nat (SECTOR_SIZE / DIR_ENT_SIZE)) 0 m nr name mm with
      | inl nr' => ret nr'
      | inr m => if nr <? m then ret 0 else search_loop n' (i + 1) dev blk0 m nr name
      end
  end.

Definition search_file (path : list Z) : M sys Z :=
  match strip_path path with
  | None => ret 0
  | Some filename =>
      st ← get;
      dir ← geti (root_inode st);
      match filename with
      | [] => ret (i_num dir)
      | _ =>
          assert_ (i_dev dir =? ROOT_DEV) ;;
          let nr_dir_blks := (i_size dir + SECTOR_SIZE - 1) / SECTOR_SIZE in
          let nr_dir_entries := i_size dir / DIR_ENT_SIZE in
          search_loop (Z.to_nat nr_dir_blks) 0 (i_dev dir) (i_start_sect dir) 0 nr_dir_entries filename
      end
  end.

(** the path a request names: [len] bytes at [va] of process [pid], then 0; a
    longer path does not fit the array of the handler *)
Definition bytes_from (m : mem) (a : Z) (n : nat) : list Z :=
  (fun i => m (a + i)) <$> seqZ 0 (Z.of_nat n).
Fixpoint cstring (l : list Z) : list Z :=
  match l with
  | [] => []
  | c :: l' => if c =? 0 then [] else c :: cstring l'
  end.
Definition fetch_path (pid va len : Z) : M sys (list Z) :=
  if (0 <=? len) && (len <? MAX_PATH) then
    la ← lift (va2la pid va);
    m ← getmem;
    ret (cstring (bytes_from m la (Z.to_nat len)))
  else stop HFault.

Definition do_stat (msg : MESSAGE) : M sys Z :=
  let src := source msg in
  assert_ (NAME_LEN msg <? MAX_PATH) ;;
  path ← fetch_path src (PATHNAME msg) (NAME_LEN msg);
  inode_nr ← search_file path;
  if inode_nr =? 0 then ret (-1)
  else
    match strip_path path with
    | None => stop HAssert
    | Some _ =>
        st ← get;
        dir ← geti (root_inode st);
        p ← get_inode (i_dev dir) inode_nr;
        x ← geti p;
        let rdev := if is_special (i_mode x) then i_start_sect x else NO_DEV in
        put_inode p ;;
        la ← lift (va2la src (BUF msg));
        modm (put_words la [i_dev x; i_num x; i_mode x; rdev; i_size x]) ;;
        ret 0
    end.

(** ** Creating files (fs/open.c) *)

(** the first clear bit among [n] from bit [k] of a byte *)
Fixpoint free_bit (n : nat) (k b : Z) : option Z :=
  match n with
  | O => None
  | S n' => if Z.land b (Z.shiftl 1 k) =? 0 then Some k else free_bit n' (k + 1) b
  end.
(** the bytes of one sector of the inode map: byte and bit of the first free one *)
Fixpoint imap_scan (n : nat) (j : Z) (m : mem) : option (Z * Z) :=
  match n with
  | O => None
  | S n' =>
      if m (fsbuf + j) =? 0xff then imap_scan n' (j + 1) m
      else match free_bit 8 0 (m (fsbuf + j)) with
           | Some k => Some (j, k)
           | None => imap_scan n' (j + 1) m
           end
  end.
Fixpoint alloc_imap_loop (n : nat) (i dev : Z) : M sys Z :=
  match n with
  | O => panic
  | S n' =>
      RD_SECT dev (2 + i) ;;
      m ← getmem;
      match imap_scan (Z.to_nat SECTOR_SIZE) 0 m with
      | Some (j, k) =>
          setb j (Z.lor (m (fsbuf + j)) (Z.shiftl 1 k)) ;;
          WR_SECT dev (2 + i) ;;
          ret ((j + i * SECTOR_SIZE) * 8 + k)
      | None => alloc_imap_loop n' (i + 1) dev
      end
  end.
Definition alloc_imap_bit (dev : Z) : M sys Z :=
  s ← sb_of dev;
  alloc_imap_loop (Z.to_nat (nr_imap_sects s)) 0 dev.

(** [alloc_smap_bit]: its loops carry [(sect_nr, nr_sects_to_alloc)] *)
Fixpoint smap_bits (n : nat) (k j i n1 sect_nr todo b : Z) : Z * Z * Z :=
  match n with
  | O => (sect_nr, todo, b)
  | S n' =>
      if negb (Z.land b (Z.shiftl 1 k) =? 0) then smap_bits n' (k + 1) j i n1 sect_nr todo b
      else
        let sect_nr := if sect_nr =? 0 then (j + i * SECTOR_SIZE) * 8 + k - 1 + n1 else sect_nr in
        if 0 <? todo
        then smap_bits n' (k + 1) j i n1 sect_nr (todo - 1) (u8 (Z.lor b (Z.shiftl 1 k)))
        else (sect_nr, todo, b)
  end.
Fixpoint smap_bytes (n : nat) (j i n1 sect_nr todo : Z) (m : mem) : Z * Z * mem :=
  match n with
  | O => (sect_nr, todo, m)
  | S n' =>
      if m (fsbuf + j) =? 0xff then smap_bytes n' (j + 1) i n1 sect_nr todo m
      else
        let '(sect_nr, todo, b) := smap_bits 8 0 j i n1 sect_nr todo (m (fsbuf + j)) in
        smap_bytes n' (j + 1) i n1 sect_nr todo (upd m (fsbuf + j) b)
  end.
Fixpoint alloc_smap_loop (n : nat) (i dev blk0 n1 sect_nr todo : Z) : M sys Z :=
  match n with
  | O => assert_ (todo =? 0) ;; ret sect_nr
  | S n' =>
      RD_SECT dev (blk0 + i) ;;
      m ← getmem;
      let '(sect_nr, todo, m) := smap_bytes (Z.to_nat SECTOR_SIZE) 0 i n1 sect_nr todo m in
      modm (fun _ => m) ;;
      when (negb (sect_nr =? 0)) (WR_SECT dev (blk0 + i)) ;;
      if todo =? 0 then ret sect_nr
      else alloc_smap_loop n' (i + 1) dev blk0 n1 sect_nr todo
  end.
Definition alloc_smap_bit (dev nr_sects_to_alloc : Z) : M sys Z :=
  s ← sb_of dev;
  alloc_smap_loop (Z.to_nat (nr_smap_sects s)) 0 dev (1 + 1 + nr_imap_sects s) (n_1st_sect s) 0
    nr_sects_to_alloc.

Definition new_inode (dev inode_nr start_sect : Z) : M sys Z :=
  p ← get_inode dev inode_nr;
  modi p (fun _ => mkInode I_REGULAR 0 start_sect NR_DEFAULT_FILE_SECTS dev 1 inode_nr) ;;
  sync_inode p ;;
  ret p.

(** the entries of one sector: the free slot or the position after the last
    entry, and the entries left *)
Fixpoint de_scan (n : nat) (j nr_dir : Z) (m : mem) : option Z * Z * Z :=
  match n with
  | O => (None, j, nr_dir)
  | S n' =>
      if 0 <? nr_dir then
        if de_inode_nr m j =? 0 then (Some j, j, nr_dir)
        else de_scan n' (j + 1) (nr_dir - 1) m
      else (None, j, nr_dir)
  end.
(** [Some (j, i)]: entry [j] of sector [i], which is in the buffer; the search
    beyond the last sector leaves [dst] null *)
Fixpoint new_de_loop (n : nat) (i dev sect_nr nr_dir p : Z) : M sys (option (Z * Z)) :=
  match n with
  | O => ret None
  | S n' =>
      RD_SECT dev (sect_nr + i) ;;
      m ← getmem;
      let '(dst, j, nr_dir) := de_scan (Z.to_nat (SECTOR_SIZE / DIR_ENT_SIZE)) 0 nr_dir m in
      match dst with
      | Some j => ret (Some (j, i))
      | None =>
          if nr_dir =? 0 then
            modi p (fun x => set_i_size (u32 (i_size x + DIR_ENT_SIZE)) x) ;;
            ret (Some (j, i))
          else new_de_loop n' (i + 1) dev sect_nr nr_dir p
      end
  end.
Definition new_directory_entry (p : Z) (filename : list Z) (inode_nr : Z) : M sys unit :=
  d ← geti p;
  dst ← new_de_loop (Z.to_nat (i_nr_sects d)) 0 (i_dev d) (i_start_sect d) (i_size d / DIR_ENT_SIZE) p;
  match dst with
  | None => stop HFault
  | Some (j, i) =>
      modm (st32 (de_addr j) inode_nr) ;;
      modm (put_bytes (de_name j) (filename ++ [0])) ;;
      WR_SECT (i_dev d) (i + i_start_sect d) ;;
      sync_inode p
  end.

(** [None]: the null pointer of a path that names no file *)
Definition create_file (path : list Z) : M sys (option Z) :=
  match strip_path path with
  | None => ret None
  | Some filename =>
      st ← get;
      let dir := root_inode st in
      d ← geti dir;
      inode_nr ← alloc_imap_bit (i_dev d);
      sect_nr ← alloc_smap_bit (i_dev d) NR_DEFAULT_FILE_SECTS;
      p ← new_inode (i_dev d) inode_nr sect_nr;
      new_directory_entry dir filename inode_nr ;;
      ret (Some p)
  end.
