(* ===== verification/FsOps.v ===== *)
(** * The file system task: requests (fs/open.c, read_write.c, lseek.c, link.c,
    main.c)

    The handlers of FS's messages, [fs_fork] and [fs_exit], the formatting of the
    root partition ([mkfs]) and the body of [task_fs]. [pcaller] is the process a
    request comes from. [char_driver d msg] is the exchange
    [send_rec(BOTH, d, msg)] with a character driver: the message it answers. *)
From Stdlib Require Import String.
From S2P Require Import Prelude Const CLib Protect Proc Sys Fs.

(** ** File descriptors of a process *)

(** [pcaller->filp[fd]] *)
Definition get_filp (pcaller fd : Z) : M sys (option Z) :=
  p ← lift (getp pcaller); ret (filp p fd).
Definition set_filp_at (pcaller fd : Z) (f : option Z) : M sys unit :=
  lift (modp pcaller (fun p => set_filp (upd (filp p) fd f) p)).

Section requests.
Context (char_driver : Z -> MESSAGE -> M sys MESSAGE).

(** ** [do_open], [do_close] *)

(** the inode of an existing or a new file: [None] is the return value -1. The
    assertion on [flags] compares before it or-s, so it always holds. *)
Definition open_inode (path : list Z) (flags : Z) : M sys (option (Z * Z)) :=
  inode_nr ← search_file path;
  if inode_nr =? INVALID_INODE then
    if has flags O_CREAT then
      c ← create_file path;
      p ← deref c;
      x ← geti p;
      ret (Some (i_num x, p))
    else ret None
  else if has flags O_RDWR then
    if has flags O_CREAT && negb (has flags O_TRUNC) then ret None
    else
      st ← get;
      d ← geti (root_inode st);
      p ← get_inode (i_dev d) inode_nr;
      ret (Some (inode_nr, p))
  else ret None.

(** the device part of opening *)
Definition open_device (p : Z) : M sys unit :=
  x ← geti p;
  if i_mode x =? I_CHAR_SPECIAL then
    d ← driver_of (i_start_sect x);
    char_driver d (set_m3i4 (MINOR (i_start_sect x)) (set_type DEV_OPEN zero_msg)) ;;
    ret tt
  else if i_mode x =? I_DIRECTORY then assert_ (i_num x =? ROOT_INODE)
  else assert_ (i_mode x =? I_REGULAR).

Definition do_open (pcaller : Z) (msg : MESSAGE) : M sys Z :=
  let flags := FLAGS msg in
  path ← fetch_path pcaller (PATHNAME msg) (NAME_LEN msg);
  p ← lift (getp pcaller);
  match find_first (fun i => bool_decide (filp p i = None)) (Z.to_nat NR_FILES) 0 with
  | None => panic
  | Some fd =>
      st ← get;
      match find_first (fun i => bool_decide (fd_inode (fd_table st i) = None)) (Z.to_nat NR_FILE_DESC) 0 with
      | None => panic
      | Some i =>
          r ← open_inode path flags;
          match r with
          | None => ret (-1)
          | Some (inode_nr, pn) =>
              when (has flags O_TRUNC) (modi pn (set_i_size 0) ;; sync_inode pn) ;;
              assert_ (negb (inode_nr =? 0)) ;;
              set_filp_at pcaller fd (Some i) ;;
              modfd i (fun _ => mkFd flags 0 1 (Some pn)) ;;
              open_device pn ;;
              ret fd
          end
      end
  end.

Definition do_close (pcaller : Z) (msg : MESSAGE) : M sys Z :=
  let fd := FD msg in
  if (fd <? 0) || (NR_FILES <=? fd) then ret (-1)
  else
    o ← get_filp pcaller fd;
    f ← deref o;
    x ← getfd f;
    p ← deref (fd_inode x);
    put_inode p ;;
    modfd f (fun x => set_fd_cnt (fd_cnt x - 1) x) ;;
    x ← getfd f;
    when (fd_cnt x =? 0) (modfd f (set_fd_inode None)) ;;
    set_filp_at pcaller fd None ;;
    ret 0.

(** ** [do_rdwt] *)

(** [MIN(a, b)] with an unsigned [a]: an unsigned comparison *)
Definition MINu (a b : Z) : Z := i32 (if u32 b <? u32 a then b else a).

(** the loop over the sectors; the result is [bytes_proc] *)
Fixpoint rdwt_loop (n : nat) (ty f src buf dev pos_end i sect_end chunk off todo proc : Z)
    : M sys Z :=
  match n with
  | O => ret proc
  | S n' =>
      if sect_end <? i then ret proc
      else
        rw_sector DEV_READ dev (i32 (i * SECTOR_SIZE)) (chunk * SECTOR_SIZE) fsbuf ;;
        let bytes := MIN (chunk * SECTOR_SIZE) todo in
        fd ← getfd f;
        if ty =? READ then
          if pos_end <=? fd_pos fd then ret proc
          else
            let bytes := MIN (pos_end - fd_pos fd) bytes in
            d ← lift (va2la src (buf + proc));
            s ← lift (va2la TASK_FS (fsbuf + off));
            modm (memcpy d s bytes) ;;
            modfd f (fun fd => set_fd_pos (fd_pos fd + bytes) fd) ;;
            rdwt_loop n' ty f src buf dev pos_end (i + chunk) sect_end chunk 0 (todo - bytes) (proc + bytes)
        else
          assert_ (ty =? WRITE) ;;
          d ← lift (va2la TASK_FS (fsbuf + off));
          s ← lift (va2la src (buf + proc));
          modm (memcpy d s bytes) ;;
          rw_sector DEV_WRITE dev (i32 (i * SECTOR_SIZE)) (chunk * SECTOR_SIZE) fsbuf ;;
          modfd f (fun fd => set_fd_pos (fd_pos fd + bytes) fd) ;;
          rdwt_loop n' ty f src buf dev pos_end (i + chunk) sect_end chunk 0 (todo - bytes) (proc + bytes)
  end.

(** the message as the character branch leaves it *)
Definition char_request (msg : MESSAGE) (dev : Z) : MESSAGE :=
  set_m3i3 (source msg) (set_m3i4 (MINOR dev)
    (set_type (if type msg =? READ then DEV_READ else DEV_WRITE) msg)).

(** the count and the message, which a character driver may have changed *)
Definition do_rdwt (pcaller : Z) (msg : MESSAGE) : M sys (Z * MESSAGE) :=
  let fd := FD msg in
  let cnt := CNT msg in
  if (fd <? 0) || (NR_FILES <=? fd) then ret (-1, msg)
  else
    o ← get_filp pcaller fd;
    assert_ (bool_decide (o <> None)) ;;
    f ← deref o;
    x ← getfd f;
    assert_ (bool_decide (fd_inode x <> None)) ;;
    p ← deref (fd_inode x);
    nd ← geti p;
    if negb (has (fd_mode x) O_RDWR) then ret (-2, msg)
    else
      let pos := fd_pos x in
      let mode := Z.land I_TYPE_MASK (i_mode nd) in
      if mode =? I_CHAR_SPECIAL then
        let dev := i_start_sect nd in
        d ← driver_of dev;
        msg ← char_driver d (char_request msg dev);
        ret (CNT msg, msg)
      else
        assert_ ((mode =? I_DIRECTORY) || (mode =? I_REGULAR)) ;;
        let pos_end := pos + cnt in
        let pos_end := if type msg =? READ then MINu (i_size nd) pos_end
                       else MINu (i_nr_sects nd * SECTOR_SIZE) pos_end in
        let off := Z.rem pos SECTOR_SIZE in
        let sect_beg := i_start_sect nd + Z.shiftr pos SECTOR_SIZE_SHIFT in
        let sect_end := i_start_sect nd + Z.shiftr pos_end SECTOR_SIZE_SHIFT in
        let chunk := MIN (sect_end - sect_beg + 1) (Z.shiftr FSBUF_SIZE SECTOR_SIZE_SHIFT) in
        proc ← rdwt_loop (Z.to_nat (sect_end - sect_beg + 1)) (type msg) f (source msg) (BUF msg)
                 (i_dev nd) pos_end sect_beg sect_end chunk off cnt 0;
        x ← getfd f;
        when (u32 (i_size nd) <? u32 (fd_pos x)) (modi p (set_i_size (u32 (fd_pos x))) ;; sync_inode p) ;;
        ret (proc, msg).

(** ** [do_lseek] *)

Definition do_lseek (pcaller : Z) (msg : MESSAGE) : M sys Z :=
  let fd := FD msg in
  let whence := WHENCE msg in
  let offset := OFFSET msg in
  if (fd <? 0) || (NR_FILES <=? fd) then ret (-1)
  else
    o ← get_filp pcaller fd;
    assert_ (bool_decide (o <> None)) ;;
    f ← deref o;
    x ← getfd f;
    assert_ (bool_decide (fd_inode x <> None)) ;;
    p ← deref (fd_inode x);
    nd ← geti p;
    let pos_end := i32 (i_nr_sects nd * SECTOR_SIZE - 1) in
    if negb (i_mode nd =? I_REGULAR) then ret (-1)
    else
      (if whence =? SEEK_SET then modfd f (set_fd_pos offset)
       else if whence =? SEEK_CUR then modfd f (fun x => set_fd_pos (i32 (fd_pos x + offset)) x)
       else if whence =? SEEK_END then modfd f (set_fd_pos (i32 (i_size nd + offset)))
       else stop HAssert) ;;
      modfd f (fun x => set_fd_pos (SET_RANGE (fd_pos x) 0 pos_end) x) ;;
      x ← getfd f;
      ret (fd_pos x).

(** ** [do_unlink] *)

(** bit [i] of [fsbuf[b]], which the assertion finds set, is cleared *)
Definition clear_bit (b i : Z) : M sys unit :=
  v ← getb b;
  assert_ (negb (Z.land v (Z.shiftl 1 i) =? 0)) ;;
  setb b (Z.land v (Z.lnot (Z.shiftl 1 i))).

(** the first byte, from bit [i] on; the result is [bits_left] *)
Fixpoint unlink_first (n : nat) (b i bits_left : Z) : M sys Z :=
  match n with
  | O => ret bits_left
  | S n' =>
      if (i <? 8) && (0 <? bits_left)
      then clear_bit b i ;; unlink_first n' b (i + 1) (bits_left - 1)
      else ret bits_left
  end.
(** the buffer is written back and the next sector read, at its end *)
Definition next_sect (dev i sect_beg : Z) : M sys (Z * Z) :=
  if i =? SECTOR_SIZE then
    WR_SECT dev sect_beg ;; RD_SECT dev (sect_beg + 1) ;; ret (0, sect_beg + 1)
  else ret (i, sect_beg).
(** the whole bytes; the result is [(i, bits_left, sect_beg)] *)
Fixpoint unlink_bytes (n : nat) (dev i bits_left sect_beg : Z) : M sys (Z * Z * Z) :=
  match n with
  | O => ret (i, bits_left, sect_beg)
  | S n' =>
      if 0 <? bits_left then
        r ← next_sect dev i sect_beg;
        let '(i, sect_beg) := r in
        v ← getb i;
        assert_ (v =? 0xFF) ;;
        setb i 0 ;;
        unlink_bytes n' dev (i + 1) (bits_left - 8) sect_beg
      else ret (i, bits_left, sect_beg)
  end.

(** the bits of the sectors of inode [x] in the sector map *)
Definition unlink_smap (dev : Z) (x : inode) : M sys unit :=
  s ← sb_of dev;
  let bit_idx := i_start_sect x - n_1st_sect s + 1 in
  let bits_left := i_nr_sects x in
  let byte_idx := Z.quot bit_idx 8 in
  let byte_cnt := Z.quot (bits_left - (8 - Z.rem bit_idx 8)) 8 in
  let sect_beg := 1 + 1 + 1 + Z.quot byte_idx SECTOR_SIZE in
  RD_SECT dev sect_beg ;;
  bits_left ← unlink_first 8 (Z.rem byte_idx SECTOR_SIZE) (Z.rem bit_idx 8) bits_left;
  r ← unlink_bytes (Z.to_nat byte_cnt) dev (Z.rem byte_idx SECTOR_SIZE + 1) bits_left sect_beg;
  let '(i, bits_left, sect_beg) := r in
  r ← next_sect dev i sect_beg;
  let '(i, sect_beg) := r in
  assert_ (bits_left <? 8) ;;
  v ← getb i;
  (* [assert(fsbuf[i] & mask == mask)] compares first: it tests bit 0 *)
  assert_ (negb (Z.land v 1 =? 0)) ;;
  setb i (Z.land v (Z.shiftl (-1) bits_left)) ;;
  WR_SECT dev sect_beg.

(** the bit of the inode in the inode map *)
Definition unlink_imap (dev inode_nr : Z) : M sys unit :=
  RD_SECT dev (1 + 1) ;;
  let byte_idx := Z.quot inode_nr 8 in
  assert_ (byte_idx <? SECTOR_SIZE) ;;
  clear_bit (Z.rem byte_idx SECTOR_SIZE) (Z.rem inode_nr 8) ;;
  WR_SECT dev (1 + 1).

(** the entries of one sector, up to the one that is deleted: whether it was
    found (at [j]), the entries seen and the size of those in use *)
Fixpoint unlink_sect (n : nat) (j inode_nr m nr_dir dir_size : Z) (mm : mem) : option Z * Z * Z :=
  match n with
  | O => (None, m, dir_size)
  | S n' =>
      if m <? nr_dir then
        if inode_nr =? de_inode_nr mm j then (Some j, m + 1, dir_size)
        else unlink_sect n' (j + 1) inode_nr (m + 1) nr_dir
               (if negb (de_inode_nr mm j =? INVALID_INODE) then dir_size + DIR_ENT_SIZE else dir_size) mm
      else (None, m, dir_size)
  end.
(** the result is [(m, dir_size)]; [assert(flag)] fails when nothing is found *)
Fixpoint unlink_entry (n : nat) (i dev sect_nr inode_nr m nr_dir dir_size : Z) : M sys (Z * Z) :=
  match n with
  | O => stop HAssert
  | S n' =>
      RD_SECT dev (sect_nr + i) ;;
      mm ← getmem;
      let '(found, m, dir_size) :=
        unlink_sect (Z.to_nat (SECTOR_SIZE / DIR_ENT_SIZE)) 0 inode_nr m nr_dir dir_size mm in
      match found with
      | Some j =>
          modm (st32 (de_addr j) INVALID_INODE) ;;
          modm (memset (de_name j) 0 MAX_FILENAME_LEN) ;;
          WR_SECT dev (sect_nr + i) ;;
          ret (m, dir_size)
      | None => unlink_entry n' (i + 1) dev sect_nr inode_nr m nr_dir dir_size
      end
  end.

Definition do_unlink (pcaller : Z) (msg : MESSAGE) : M sys Z :=
  assert_ (NAME_LEN msg <? MAX_PATH) ;;
  path ← fetch_path pcaller (PATHNAME msg) (NAME_LEN msg);
  if bool_decide (path = [47]) then ret (-1)
  else
    inode_nr ← search_file path;
    if inode_nr =? INVALID_INODE then ret (-1)
    else
      match strip_path path with
      | None => ret (-1)
      | Some _ =>
          st ← get;
          let dir := root_inode st in
          d ← geti dir;
          let dev := i_dev d in
          p ← get_inode dev inode_nr;
          x ← geti p;
          if negb (i_mode x =? I_REGULAR) then ret (-1)
          else if 1 <? i_cnt x then ret (-1)
          else
            unlink_imap dev inode_nr ;;
            unlink_smap dev x ;;
            modi p (fun x => mkInode 0 0 0 0 (i_dev x) (i_cnt x) (i_num x)) ;;
            put_inode p ;;
            sync_inode p ;;
            d ← geti dir;
            let nr_dir := i_size d / DIR_ENT_SIZE in
            r ← unlink_entry (Z.to_nat (i_nr_sects d)) 0 dev (i_start_sect d) inode_nr 0 nr_dir 0;
            let '(m, dir_size) := r in
            when (m =? nr_dir) (modi dir (set_i_size dir_size) ;; sync_inode dir) ;;
            ret 0
      end.

(** ** [fs_fork], [fs_exit] (fs/main.c) *)

Fixpoint fs_fork_loop (n : nat) (pid i : Z) : M sys unit :=
  match n with
  | O => ret tt
  | S n' =>
      o ← get_filp pid i;
      match o with
      | Some f =>
          modfd f (fun x => set_fd_cnt (fd_cnt x + 1) x) ;;
          x ← getfd f;
          p ← deref (fd_inode x);
          modi p (fun y => set_i_cnt (i_cnt y + 1) y)
      | None => ret tt
      end ;;
      fs_fork_loop n' pid (i + 1)
  end.
Definition fs_fork (pid : Z) : M sys unit := fs_fork_loop (Z.to_nat NR_FILES) pid 0.

Fixpoint fs_exit_loop (n : nat) (pid i : Z) : M sys unit :=
  match n with
  | O => ret tt
  | S n' =>
      o ← get_filp pid i;
      match o with
      | Some f =>
          x ← getfd f;
          p ← deref (fd_inode x);
          modi p (fun y => set_i_cnt (i_cnt y - 1) y) ;;
          modfd f (fun x => set_fd_cnt (fd_cnt x - 1) x) ;;
          x ← getfd f;
          when (fd_cnt x =? 0) (modfd f (set_fd_inode None)) ;;
          set_filp_at pid i None
      | None => ret tt
      end ;;
      fs_exit_loop n' pid (i + 1)
  end.
Definition fs_exit (pid : Z) : M sys unit := fs_exit_loop (Z.to_nat NR_FILES) pid 0.

(** ** The body of [task_fs]

    One message: the process the answer goes to and the answer; [None] when the
    driver has suspended the caller. *)
Definition fs_serve (msg : MESSAGE) : M sys (option (Z * MESSAGE)) :=
  let src := source msg in
  let answer (m : MESSAGE) := if type m =? SUSPEND_PROC then None else Some (src, set_type SYSCALL_RET m) in
  if type msg =? OPEN then r ← do_open src msg; ret (answer (set_m3i1 r msg))
  else if type msg =? CLOSE then r ← do_close src msg; ret (answer (set_m3i1 r msg))
  else if (type msg =? READ) || (type msg =? WRITE) then
    r ← do_rdwt src msg; ret (answer (set_m3i2 (fst r) (snd r)))
  else if type msg =? UNLINK then r ← do_unlink src msg; ret (answer (set_m3i1 r msg))
  else if type msg =? LSEEK then r ← do_lseek src msg; ret (answer (set_m3i2 r msg))
  else if type msg =? RESUME_PROC then ret (Some (PROC_NR msg, set_type SYSCALL_RET msg))
  else if type msg =? FORK then fs_fork (PID msg) ;; ret (answer msg)
  else if type msg =? EXIT then fs_exit (PID msg) ;; ret (answer msg)
  else if type msg =? STAT then r ← do_stat msg; ret (answer (set_m3i1 r msg))
  else panic.
End requests.
