(* ===== verification/FsInit.v ===== *)
(** * Formatting and mounting the root partition (fs/main.c: mkfs, init_fs)

    The layout [mkfs] writes: sector 1 the super block, sector 2 the inode map,
    then the sector map, the inode array and the root directory with the entries
    ".", "dev_tty0", "dev_tty1", "dev_tty2" and "cmd.tar". *)
From Stdlib Require Import String.
From S2P Require Import Prelude Const CLib Protect Proc Sys Fs FsOps.

Definition bits_per_sects : Z := SECTOR_SIZE * 8.

(** [for(i = a; i < a + n; i++) body(i)] *)
Fixpoint for_z (n : nat) (i : Z) (body : Z -> M sys unit) : M sys unit :=
  match n with
  | O => ret tt
  | S n' => body i ;; for_z n' (i + 1) body
  end.

(** the super block of a partition of [size] sectors; the static [sb] is zero
    before, and [dir_ent_size] is never set *)
Definition make_sb (size : Z) (s : super_block) : super_block :=
  let nr_inodes := bits_per_sects in
  let nr_smap := u32 size / bits_per_sects + 1 in
  let nr_inode_sects := nr_inodes * INODE_SIZE / SECTOR_SIZE in
  mkSb MAGIC_V1 nr_inodes (u32 size) 1 nr_smap (1 + 1 + 1 + nr_smap + nr_inode_sects) nr_inode_sects
    ROOT_INODE INODE_SIZE 4 8 (dir_ent_size s) 0 4 (sb_dev s).

(** [geo.size] is what the disk driver answers to DIOCTL_GET_GEO *)
Definition set_superblock : M sys unit :=
  d ← driver_of ROOT_DEV;
  modify (fun st => set_sb_tmp (make_sb (dev_sects (disk st (MINOR ROOT_DEV))) (sb_tmp st)) st) ;;
  for_z (Z.to_nat SECTOR_SIZE) 0 (fun i => setb i 0xF0) ;;
  st ← get;
  modm (put_sb fsbuf (sb_tmp st)) ;;
  WR_SECT ROOT_DEV 1.

(** [assert(fsbuf[0] = 0x3F)] assigns; the bits already make 0x3F *)
Definition set_imap : M sys unit :=
  modm (memset fsbuf 0 SECTOR_SIZE) ;;
  for_z (Z.to_nat (NR_CONSOLES + 3)) 0 (fun i => b ← getb 0; setb 0 (Z.lor b (Z.shiftl 1 i))) ;;
  setb 0 0x3F ;;
  WR_SECT ROOT_DEV 2.

(** the loop that marks the sectors of cmd.tar: [sect], [byte] and [bit] say where
    the next bit is *)
Fixpoint install_bits (n : nat) (smap0 sect byte bit : Z) : M sys Z :=
  match n with
  | O => ret sect
  | S n' =>
      b ← getb byte;
      setb byte (Z.lor b (Z.shiftl 1 bit)) ;;
      if bit + 1 =? 8 then
        if byte + 1 =? SECTOR_SIZE then
          WR_SECT ROOT_DEV (smap0 + sect) ;;
          RD_SECT ROOT_DEV (smap0 + (sect + 1)) ;;
          install_bits n' smap0 (sect + 1) 0 0
        else install_bits n' smap0 sect (byte + 1) 0
      else install_bits n' smap0 sect byte (bit + 1)
  end.

Definition set_smap : M sys unit :=
  let nr_sects := NR_DEFAULT_FILE_SECTS + 1 in
  st ← get;
  let s := sb_tmp st in
  let smap0 := 2 + nr_imap_sects s in
  modm (memset fsbuf 0 SECTOR_SIZE) ;;
  for_z (Z.to_nat (nr_sects / 8)) 0 (fun i => setb i 0xFF) ;;
  for_z (Z.to_nat (nr_sects `mod` 8)) 0
    (fun i => b ← getb (nr_sects / 8); setb (nr_sects / 8) (Z.lor b (Z.shiftl 1 i))) ;;
  WR_SECT ROOT_DEV smap0 ;;
  modm (memset fsbuf 0 SECTOR_SIZE) ;;
  for_z (Z.to_nat (nr_smap_sects s - 1)) 1 (fun i => WR_SECT ROOT_DEV (smap0 + i)) ;;
  let bit_off := i32 (INSTALL_START_SECT - n_1st_sect s + 1) in
  let sect_beg := Z.quot (Z.quot bit_off 8) SECTOR_SIZE in
  RD_SECT ROOT_DEV (smap0 + sect_beg) ;;
  sect ← install_bits (Z.to_nat INSTALL_NR_SECTS) smap0 sect_beg
    (Z.rem (Z.quot bit_off 8) SECTOR_SIZE) (Z.rem bit_off 8);
  WR_SECT ROOT_DEV (smap0 + sect).

Definition set_inode_array : M sys unit :=
  st ← get;
  let s := sb_tmp st in
  modm (memset fsbuf 0 SECTOR_SIZE) ;;
  modm (put_inode_at fsbuf (mkInode I_DIRECTORY (5 * DIR_ENT_SIZE) (n_1st_sect s) NR_DEFAULT_FILE_SECTS 0 0 0)) ;;
  for_z (Z.to_nat NR_CONSOLES) 0 (fun i =>
    modm (put_inode_at (fsbuf + (i + 1) * INODE_SIZE)
      (mkInode I_CHAR_SPECIAL 0 (MAKE_DEV DEV_CHAR_TTY i) 0 0 0 0))) ;;
  modm (put_inode_at (fsbuf + (NR_CONSOLES + 1) * INODE_SIZE)
    (mkInode I_REGULAR (INSTALL_NR_SECTS * SECTOR_SIZE) INSTALL_START_SECT INSTALL_NR_SECTS 0 0 0)) ;;
  WR_SECT ROOT_DEV (2 + nr_imap_sects s + nr_smap_sects s).

Definition text (s : string) : list Z :=
  (fun c => Z.of_N (Ascii.N_of_ascii c)) <$> list_ascii_of_string s.

(** entry [j]: the inode number and the bytes written to the name *)
Definition put_de (j nr : Z) (name : list Z) : M sys unit :=
  modm (st32 (de_addr j) nr) ;; modm (put_bytes (de_name j) name).

Definition set_root_de : M sys unit :=
  modm (memset fsbuf 0 SECTOR_SIZE) ;;
  put_de 0 ROOT_INODE (text "." ++ [0]) ;;
  for_z (Z.to_nat NR_CONSOLES) 0 (fun i => put_de (i + 1) (i + 2) (text "dev_tty" ++ decimal i)) ;;
  put_de (NR_CONSOLES + 1) (NR_CONSOLES + 2) (text "cmd.tar") ;;
  st ← get;
  WR_SECT ROOT_DEV (n_1st_sect (sb_tmp st)).

Definition mkfs : M sys unit :=
  set_superblock ;; set_imap ;; set_smap ;; set_inode_array ;; set_root_de.

(** [init_fs]; opening the disk device changes nothing FS sees *)
Definition init_fs : M sys unit :=
  modify (fun st => set_super_blocks (fun i => if (0 <=? i) && (i <? NR_SUPER_BLOCK)
      then set_sb_dev NO_DEV (super_blocks st i) else super_blocks st i)
    (set_inode_table (fun i => if in_inode_table i then zero_inode else inode_table st i)
    (set_fd_table (fun i => if in_fd_table i then zero_fd else fd_table st i) st))) ;;
  RD_SECT ROOT_DEV 1 ;;
  m ← getmem;
  (if negb (ld32 m fsbuf =? MAGIC_V1) then mkfs else ret tt) ;;
  read_super_block ROOT_DEV ;;
  s ← sb_of ROOT_DEV;
  assert_ (magic s =? MAGIC_V1) ;;
  p ← get_inode ROOT_DEV ROOT_INODE;
  modify (set_root_inode p).
