(* ===== verification/FsLem.v ===== *)
(** * The inode cache and the sectors under it

    The effect of reading and writing a sector of the mounted partition, and the
    inode cache: which entry [get_inode] returns, that it holds the inode on the
    disk, and what [sync_inode] writes. [fs_inv] is the invariant of the mounted
    file system: no inode is cached twice, every live entry agrees with the disk,
    and the root directory is live. *)
From Stdlib Require Import FunctionalExtensionality.
From S2P Require Import Prelude Const CLib Protect Proc Sys Fs FsOps.

(** ** Memory and disk of the mounted partition *)

Definition fmem (st : sys) : mem := memory (kern st).
Definition rdisk (st : sys) : mem := dev_data (disk st (MINOR ROOT_DEV)).
Definition with_mem (m : mem) (st : sys) : sys := set_kern (set_memory m (kern st)) st.
Definition with_disk (d : mem) (st : sys) : sys :=
  set_disk (upd (disk st) (MINOR ROOT_DEV) (set_dev_data d (disk st (MINOR ROOT_DEV)))) st.

Lemma with_mem_twice m m' st : with_mem m' (with_mem m st) = with_mem m' st.
Proof. by destruct st as [[] ? ? ? ? ? ?]. Qed.
Lemma with_mem_self st : with_mem (fmem st) st = st.
Proof. by destruct st as [[] ? ? ? ? ? ?]. Qed.

Lemma bind_modm {A} f (k : unit -> M sys A) st : bind (modm f) k st = k tt (with_mem (f (fmem st)) st).
Proof. unfold modm, lift, modmem, modify, bind. cbn. by destruct st as [[] ? ? ? ? ? ?]. Qed.

(** sector numbers whose byte position is an [int] *)
Definition sect_ok (n : Z) : Prop := 0 <= n < 4194304.

Definition rd_state (n : Z) (st : sys) : sys :=
  with_mem (disk_read (rdisk st) (n * SECTOR_SIZE) SECTOR_SIZE fsbuf (fmem st)) st.
Definition wr_state (n : Z) (st : sys) : sys :=
  with_disk (disk_write (fmem st) (n * SECTOR_SIZE) SECTOR_SIZE fsbuf (rdisk st)) st.

Lemma driver_root st : driver_of ROOT_DEV st = Ok TASK_HD st.
Proof. reflexivity. Qed.

Lemma sect_aligned n : Z.land (n * SECTOR_SIZE) 0x1ff = 0.
Proof.
  change 0x1ff with (Z.ones 9). rewrite Z.land_ones by lia. change (2 ^ 9) with SECTOR_SIZE.
  by apply Z.mod_mul.
Qed.

Lemma sect_i32 n : sect_ok n -> i32 (n * SECTOR_SIZE) = n * SECTOR_SIZE.
Proof. unfold sect_ok. intros H. apply i32_id. clia. Qed.

(** one transfer of at most [MAX_TRANSFER] bytes at a sector boundary *)
Lemma rw_sector_run ty n bytes buf st :
  0 <= n -> bytes <= MAX_TRANSFER ->
  rw_sector ty ROOT_DEV (n * SECTOR_SIZE) bytes buf st =
  Ok tt (if ty =? DEV_READ
         then with_mem (disk_read (rdisk st) (n * SECTOR_SIZE) bytes buf (fmem st)) st
         else with_disk (disk_write (fmem st) (n * SECTOR_SIZE) bytes buf (rdisk st)) st).
Proof.
  intros Hn Hb. unfold rw_sector. rewrite (bind_run _ _ _ _ _ (driver_root st)).
  change (negb (TASK_HD =? TASK_HD)) with false. cbv iota.
  rewrite (bind_run _ _ _ _ _ (assert_run _ st (proj2 (Z.eqb_eq _ _) (sect_aligned n)))).
  replace (n * SECTOR_SIZE <? 0) with false by (symmetry; apply Z.ltb_ge; clia).
  replace (MAX_TRANSFER <? bytes) with false by (symmetry; apply Z.ltb_ge; lia).
  unfold modify. cbv iota. by destruct (ty =? DEV_READ).
Qed.

Lemma RD_SECT_run n st : sect_ok n -> RD_SECT ROOT_DEV n st = Ok tt (rd_state n st).
Proof.
  intros Hn. unfold RD_SECT. rewrite sect_i32 by done.
  rewrite rw_sector_run by (unfold sect_ok, MAX_TRANSFER in *; clia). done.
Qed.
Lemma WR_SECT_run n st : sect_ok n -> WR_SECT ROOT_DEV n st = Ok tt (wr_state n st).
Proof.
  intros Hn. unfold WR_SECT. rewrite sect_i32 by done.
  rewrite rw_sector_run by (unfold sect_ok, MAX_TRANSFER in *; clia). done.
Qed.

Lemma wp_RD_SECT n (Q : unit -> sys -> Prop) st :
  sect_ok n -> Q tt (rd_state n st) -> wp (RD_SECT ROOT_DEV n) Q st.
Proof. intros Hn HQ. unfold wp. by rewrite RD_SECT_run. Qed.
Lemma wp_WR_SECT n (Q : unit -> sys -> Prop) st :
  sect_ok n -> Q tt (wr_state n st) -> wp (WR_SECT ROOT_DEV n) Q st.
Proof. intros Hn HQ. unfold wp. by rewrite WR_SECT_run. Qed.

(** the parts of the state a transfer leaves alone *)
Lemma rd_state_fields n st :
  rdisk (rd_state n st) = rdisk st /\ inode_table (rd_state n st) = inode_table st /\
  fd_table (rd_state n st) = fd_table st /\ super_blocks (rd_state n st) = super_blocks st /\
  root_inode (rd_state n st) = root_inode st /\ proc_table (kern (rd_state n st)) = proc_table (kern st).
Proof. done. Qed.
Lemma rdisk_with_disk d st : rdisk (with_disk d st) = d.
Proof. unfold rdisk, with_disk. cbn [disk set_disk]. by rewrite upd_eq. Qed.
Lemma fmem_with_mem m st : fmem (with_mem m st) = m.
Proof. done. Qed.

(** ** The buffer after a read, the disk after a write *)

Lemma rd_state_buf n st i : 0 <= i < SECTOR_SIZE ->
  fmem (rd_state n st) (fsbuf + i) = rdisk st (n * SECTOR_SIZE + i).
Proof.
  intros Hi. unfold rd_state. rewrite fmem_with_mem. unfold disk_read.
  rewrite (proj2 (Z.leb_le _ _)), (proj2 (Z.ltb_lt _ _)) by lia. simpl. f_equal. lia.
Qed.

Lemma wr_state_disk n st i : 0 <= i < SECTOR_SIZE ->
  rdisk (wr_state n st) (n * SECTOR_SIZE + i) = fmem st (fsbuf + i).
Proof.
  intros Hi. unfold wr_state. rewrite rdisk_with_disk. unfold disk_write.
  rewrite (proj2 (Z.leb_le _ _)), (proj2 (Z.ltb_lt _ _)) by lia. simpl. f_equal. lia.
Qed.

Lemma wr_state_other n st a : a < n * SECTOR_SIZE \/ (n + 1) * SECTOR_SIZE <= a ->
  rdisk (wr_state n st) a = rdisk st a.
Proof.
  intros Ha. unfold wr_state. rewrite rdisk_with_disk. unfold disk_write.
  destruct ((n * SECTOR_SIZE <=? a) && (a <? n * SECTOR_SIZE + SECTOR_SIZE)) eqn:E; [|done].
  zbool. clia.
Qed.

(** a word of the buffer after a read *)
Lemma ld32_shift m m' a b : (forall i, 0 <= i < 4 -> m (a + i) = m' (b + i)) -> ld32 m a = ld32 m' b.
Proof.
  intros H. unfold ld32. pose proof (H 0 ltac:(lia)) as H0. rewrite !Z.add_0_r in H0.
  by rewrite H0, !H by lia.
Qed.

Lemma rd_state_word n st i : 0 <= i <= SECTOR_SIZE - 4 ->
  ld32 (fmem (rd_state n st)) (fsbuf + i) = ld32 (rdisk st) (n * SECTOR_SIZE + i).
Proof.
  intros Hi. apply ld32_shift. intros k Hk. rewrite <- !Z.add_assoc. apply rd_state_buf. lia.
Qed.

(** ** The mounted file system *)

Record mounted (st : sys) : Prop := {
  mnt_dev : sb_dev (super_blocks st 0) = ROOT_DEV;
  mnt_imap : nr_imap_sects (super_blocks st 0) = 1;
  mnt_smap : 1 <= nr_smap_sects (super_blocks st 0) <= 1024;
  mnt_n1 : n_1st_sect (super_blocks st 0) = 3 + nr_smap_sects (super_blocks st 0) + 256;
  mnt_root : 0 <= root_inode st < NR_INODE }.

Lemma sb_of_run st : mounted st -> sb_of ROOT_DEV st = Ok (super_blocks st 0) st.
Proof.
  intros [Hd _ _ _ _].
  assert (Hs : set_sb_dev ROOT_DEV (super_blocks st 0) = super_blocks st 0)
    by (rewrite <- Hd; by destruct (super_blocks st 0)).
  assert (E : get_super_block ROOT_DEV st = Ok 0 st).
  { change (get_super_block ROOT_DEV st) with (Ok 0 (set_super_blocks
      (upd (super_blocks st) 0 (set_sb_dev ROOT_DEV (super_blocks st 0))) st)).
    rewrite Hs, upd_same. by destruct st. }
  unfold sb_of. by rewrite (bind_run _ _ _ _ _ E).
Qed.

Lemma wp_sb_of st Q : mounted st -> Q (super_blocks st 0) st -> wp (sb_of ROOT_DEV) Q st.
Proof. intros Hm HQ. unfold wp. by rewrite sb_of_run. Qed.

(** inode numbers the inode map and the inode array have room for *)
Definition nr_ok (nr : Z) : Prop := 1 <= nr <= 4096.

Lemma inode_place st nr : mounted st -> nr_ok nr ->
  let s := super_blocks st 0 in
  inode_sect s nr = 3 + nr_smap_sects s + (nr - 1) / 16 /\ inode_off nr = (nr - 1) `mod` 16 * INODE_SIZE /\
  sect_ok (inode_sect s nr) /\ 0 <= inode_off nr <= SECTOR_SIZE - INODE_SIZE.
Proof.
  intros [_ Hi Hs Hn _] [H1 H2] s.
  assert (E : inode_sect s nr = 3 + nr_smap_sects s + (nr - 1) / 16).
  { unfold inode_sect, s. rewrite Hi, Z.quot_div_nonneg by clia.
    change SECTOR_SIZE with (16 * INODE_SIZE). rewrite Z.div_mul_cancel_r by clia.
    rewrite i32_id; [lia|]. Z.div_mod_to_equations. lia. }
  assert (E' : inode_off nr = (nr - 1) `mod` 16 * INODE_SIZE).
  { unfold inode_off. change (SECTOR_SIZE / INODE_SIZE) with 16. by rewrite Z.rem_mod_nonneg by lia. }
  split; [done|]. split; [done|]. rewrite E, E'. unfold sect_ok, s in *.
  autounfold with consts. Z.div_mod_to_equations. lia.
Qed.

(** the address of inode [nr] on the disk *)
Definition inode_pos (s : super_block) (nr : Z) : Z := inode_sect s nr * SECTOR_SIZE + inode_off nr.

(** the on-disk part of an inode *)
Definition disk_words (x : inode) := (i_mode x, i_size x, i_start_sect x, i_nr_sects x).
Definition disk_inode (d : mem) (s : super_block) (nr : Z) :=
  let a := inode_pos s nr in (ld32 d a, ld32 d (a + 4), ld32 d (a + 8), ld32 d (a + 12)).

(** the inode array is contiguous *)
Lemma inode_pos_linear st nr : mounted st -> nr_ok nr ->
  inode_pos (super_blocks st 0) nr =
    (3 + nr_smap_sects (super_blocks st 0)) * SECTOR_SIZE + (nr - 1) * INODE_SIZE.
Proof.
  intros Hm Hn. destruct (inode_place st nr Hm Hn) as (E1 & E2 & _).
  unfold inode_pos. rewrite E1, E2. autounfold with consts. Z.div_mod_to_equations. lia.
Qed.

(** ** The search in the cache *)

Definition live (t : arr inode) (x : Z) : Prop := i_cnt (t x) <> 0.
Definition is_inode (t : arr inode) (dev nr x : Z) : Prop :=
  live t x /\ i_dev (t x) = dev /\ i_num (t x) = nr.

Lemma inode_scan_spec n p q t dev nr :
  match inode_scan n p q t dev nr with
  | inl x => p <= x < p + Z.of_nat n /\ is_inode t dev nr x
  | inr o =>
      (forall x, p <= x < p + Z.of_nat n -> ~ is_inode t dev nr x) /\
      (forall y, q = Some y -> o = Some y) /\
      (q = None -> match o with
                   | Some y => p <= y < p + Z.of_nat n /\ ~ live t y
                   | None => forall x, p <= x < p + Z.of_nat n -> live t x
                   end)
  end.
Proof.
  revert p q. induction n as [|n IH]; intros p q; cbn [inode_scan].
  { split; [lia|]. split; [done|]. intros ->. lia. }
  destruct (i_cnt (t p) =? 0) eqn:Ec; cbn [negb]; zbool.
  - set (q' := match q with None => Some p | Some _ => q end).
    specialize (IH (p + 1) q'). destruct (inode_scan n (p + 1) q' t dev nr) as [x|o].
    + destruct IH as [? ?]. split; [lia|done].
    + destruct IH as (H1 & H2 & H3). split.
      * intros x Hx. destruct (decide (x = p)) as [->|]; [intros [Hl _]; done|]. apply H1. lia.
      * split; [intros y E; apply H2; unfold q'; by rewrite E|].
        intros E. unfold q' in H2. rewrite E in H2. rewrite (H2 p eq_refl).
        split; [lia|]. intros Hl. by apply Hl.
  - destruct ((i_dev (t p) =? dev) && (i_num (t p) =? nr)) eqn:E.
    + zbool. split; [lia|]. done.
    + specialize (IH (p + 1) q). destruct (inode_scan n (p + 1) q t dev nr) as [x|o].
      * destruct IH as [? ?]. split; [lia|done].
      * destruct IH as (H1 & H2 & H3). split.
        -- intros x Hx. destruct (decide (x = p)) as [->|]; [|apply H1; lia].
           intros (_ & Hd & Hn). rewrite Hd, Hn, !Z.eqb_refl in E. done.
        -- split; [done|]. intros ->. specialize (H3 eq_refl). destruct o.
           ++ destruct H3. split; [lia|done].
           ++ intros x Hx. destruct (decide (x = p)) as [->|]; [done|]. apply H3. lia.
Qed.

(** ** What a call that only uses the buffer leaves alone *)

Record only_buf (st st' : sys) : Prop := {
  ob_kern : kern st' = set_memory (fmem st') (kern st);
  ob_mem : agree_out fsbuf FSBUF_SIZE (fmem st) (fmem st');
  ob_fd : fd_table st' = fd_table st;
  ob_sb : super_blocks st' = super_blocks st;
  ob_root : root_inode st' = root_inode st }.

Lemma only_buf_refl st : only_buf st st.
Proof. split; try done. by destruct st as [[] ? ? ? ? ? ?]. Qed.
Lemma only_buf_trans st1 st2 st3 : only_buf st1 st2 -> only_buf st2 st3 -> only_buf st1 st3.
Proof.
  intros [A1 A2 A3 A4 A5] [B1 B2 B3 B4 B5]. split; try congruence.
  - rewrite B1, A1. done.
  - by eapply agree_out_trans.
Qed.

Lemma only_buf_mem st m : agree_out fsbuf FSBUF_SIZE (fmem st) m -> only_buf st (with_mem m st).
Proof. intros H. split; done. Qed.
Lemma only_buf_disk st d : only_buf st (with_disk d st).
Proof. split; try done. by destruct st as [[] ? ? ? ? ? ?]. Qed.
Lemma only_buf_rd n st : only_buf st (rd_state n st).
Proof.
  apply only_buf_mem. intros x Hx. unfold disk_read.
  destruct ((fsbuf <=? x) && (x <? fsbuf + SECTOR_SIZE)) eqn:E; [|done].
  zbool. unfold fsbuf, FSBUF_SIZE in *. clia.
Qed.
Lemma only_buf_wr n st : only_buf st (wr_state n st).
Proof. apply only_buf_disk. Qed.
Lemma only_buf_inodes st t : only_buf st (set_inode_table t st).
Proof. split; try done. by destruct st as [[] ? ? ? ? ? ?]. Qed.
#[export] Hint Resolve only_buf_refl only_buf_trans only_buf_rd only_buf_wr only_buf_inodes : bazinga.

Lemma mounted_ext st st' :
  super_blocks st' = super_blocks st -> root_inode st' = root_inode st -> mounted st -> mounted st'.
Proof. intros Es Er []. split; by rewrite ?Es, ?Er. Qed.

Lemma mounted_buf st st' : only_buf st st' -> mounted st -> mounted st'.
Proof. intros []. by apply mounted_ext. Qed.

(** ** The invariant *)

Record fs_inv (st : sys) : Prop := {
  fi_mnt : mounted st;
  fi_nr : forall x, 0 <= x < NR_INODE -> live (inode_table st) x ->
    0 < i_cnt (inode_table st x) /\ i_dev (inode_table st x) = ROOT_DEV /\
    nr_ok (i_num (inode_table st x));
  fi_uniq : forall x y, 0 <= x < NR_INODE -> 0 <= y < NR_INODE ->
    live (inode_table st) x -> live (inode_table st) y ->
    i_num (inode_table st x) = i_num (inode_table st y) -> x = y;
  fi_coh : forall x, 0 <= x < NR_INODE -> live (inode_table st) x ->
    disk_words (inode_table st x) =
      disk_inode (rdisk st) (super_blocks st 0) (i_num (inode_table st x));
  fi_root : live (inode_table st) (root_inode st) /\
    i_num (inode_table st (root_inode st)) = ROOT_INODE }.

Lemma in_inode_table_iff i : in_inode_table i = true <-> 0 <= i < NR_INODE.
Proof. unfold in_inode_table. rewrite andb_true_iff, Z.leb_le, Z.ltb_lt. done. Qed.
Lemma in_fd_table_iff i : in_fd_table i = true <-> 0 <= i < NR_FILE_DESC.
Proof. unfold in_fd_table. rewrite andb_true_iff, Z.leb_le, Z.ltb_lt. done. Qed.

Lemma modi_run p f st : 0 <= p < NR_INODE ->
  modi p f st = Ok tt (set_inode_table (upd (inode_table st) p (f (inode_table st p))) st).
Proof. intros Hp%in_inode_table_iff. unfold modi. by rewrite Hp. Qed.
Lemma geti_run p st : 0 <= p < NR_INODE -> geti p st = Ok (inode_table st p) st.
Proof. intros Hp%in_inode_table_iff. unfold geti. by rewrite Hp. Qed.
Lemma modfd_run p f st : 0 <= p < NR_FILE_DESC ->
  modfd p f st = Ok tt (set_fd_table (upd (fd_table st) p (f (fd_table st p))) st).
Proof. intros Hp%in_fd_table_iff. unfold modfd. by rewrite Hp. Qed.
Lemma getfd_run p st : 0 <= p < NR_FILE_DESC -> getfd p st = Ok (fd_table st p) st.
Proof. intros Hp%in_fd_table_iff. unfold getfd. by rewrite Hp. Qed.

(** what [get_inode] has done: [x] holds inode [nr] once more *)
Record got_inode (st st' : sys) (nr x : Z) : Prop := {
  gi_buf : only_buf st st';
  gi_disk : rdisk st' = rdisk st;
  gi_range : 0 <= x < NR_INODE;
  gi_inode : is_inode (inode_table st') ROOT_DEV nr x;
  gi_other : forall y, y <> x -> inode_table st' y = inode_table st y;
  gi_case : (is_inode (inode_table st) ROOT_DEV nr x /\
             inode_table st' x = set_i_cnt (i_cnt (inode_table st x) + 1) (inode_table st x)) \/
            ((forall y, 0 <= y < NR_INODE -> ~ is_inode (inode_table st) ROOT_DEV nr y) /\
             i_cnt (inode_table st x) = 0 /\ i_cnt (inode_table st' x) = 1);
  gi_words : disk_words (inode_table st' x) = disk_inode (rdisk st) (super_blocks st 0) nr }.

(** the words [get_inode] copies out of the buffer are those on the disk *)
Lemma load_inode_words st nr x : mounted st -> nr_ok nr ->
  disk_words (load_inode (fmem (rd_state (inode_sect (super_blocks st 0) nr) st))
    (fsbuf + inode_off nr) x) = disk_inode (rdisk st) (super_blocks st 0) nr.
Proof.
  intros Hm Hn. destruct (inode_place st nr Hm Hn) as (_ & _ & _ & Ho). unfold INODE_SIZE in Ho.
  unfold disk_words, load_inode, disk_inode, inode_pos. cbn [i_mode i_size i_start_sect i_nr_sects].
  rewrite <- !Z.add_assoc, !rd_state_word by clia. done.
Qed.

(** on any cache whose entry for [nr], if it has one, agrees with the disk *)
Lemma get_inode_cache st nr :
  mounted st -> nr_ok nr ->
  (forall x, 0 <= x < NR_INODE -> is_inode (inode_table st) ROOT_DEV nr x ->
     0 < i_cnt (inode_table st x) /\ disk_words (inode_table st x) = disk_inode (rdisk st) (super_blocks st 0) nr) ->
  ((exists x, 0 <= x < NR_INODE /\ is_inode (inode_table st) ROOT_DEV nr x) \/
   (exists y, 0 <= y < NR_INODE /\ ~ live (inode_table st) y)) ->
  exists x st', get_inode ROOT_DEV nr st = Ok x st' /\ got_inode st st' nr x.
Proof.
  intros Hm Hn Hcoh Hslot. unfold get_inode. rewrite (bind_run get _ st st st eq_refl).
  pose proof (inode_scan_spec (Z.to_nat NR_INODE) 0 None (inode_table st) ROOT_DEV nr) as Hs.
  change (Z.of_nat (Z.to_nat NR_INODE)) with NR_INODE in Hs. rewrite Z.add_0_l in Hs.
  destruct (inode_scan _ _ _ _ _ _) as [x|[q|]].
  - destruct Hs as [Hx (Hl & Hd & Hnum)]. rewrite (bind_run _ _ _ _ _ (modi_run x _ st Hx)).
    destruct (Hcoh x Hx) as [Hpos Hw]; [done|].
    eexists x, _. split; [reflexivity|]. split; try done.
    + apply only_buf_inodes.
    + unfold is_inode, live. cbn [inode_table set_inode_table]. rewrite upd_eq. cbn.
      split; [lia|done].
    + intros y Hy. cbn. by rewrite upd_ne.
    + left. split; [done|]. cbn. by rewrite upd_eq.
    + cbn [inode_table set_inode_table]. by rewrite upd_eq.
  - destruct Hs as (H1 & _ & H3). destruct (H3 eq_refl) as [Hq Hl].
    destruct (inode_place st nr Hm Hn) as (_ & _ & Hsec & _).
    rewrite (bind_run _ _ _ _ _ (modi_run q _ st Hq)).
    set (st1 := set_inode_table _ st).
    assert (Hm1 : mounted st1) by (by apply (mounted_ext st)).
    rewrite (bind_run _ _ _ _ _ (sb_of_run st1 Hm1)).
    change (super_blocks st1 0) with (super_blocks st 0).
    rewrite (bind_run _ _ _ _ _ (RD_SECT_run _ st1 Hsec)).
    set (st2 := rd_state _ st1). rewrite (bind_run getmem _ st2 (fmem st2) st2 eq_refl).
    rewrite (bind_run _ _ _ _ _ (modi_run q _ st2 Hq)).
    eexists q, _. split; [reflexivity|].
    assert (E1 : inode_table st1 q = set_i_cnt 1 (set_i_num nr (set_i_dev ROOT_DEV (inode_table st q))))
      by apply upd_eq.
    assert (E2 : inode_table st2 = inode_table st1) by done.
    split; try done.
    + eapply only_buf_trans; [apply only_buf_inodes|]. eapply only_buf_trans; [apply only_buf_rd|].
      apply only_buf_inodes.
    + unfold is_inode, live. cbn [inode_table set_inode_table]. rewrite upd_eq, E2, E1. done.
    + intros y Hy. cbn [inode_table set_inode_table]. rewrite upd_ne, E2 by done. by apply upd_ne.
    + right. split; [done|]. split; [unfold live in Hl; lia|].
      cbn [inode_table set_inode_table]. rewrite upd_eq, E2, E1. done.
    + cbn [inode_table set_inode_table]. rewrite upd_eq. by apply (load_inode_words st1).
  - exfalso. destruct Hs as (H1 & _ & H3). specialize (H3 eq_refl).
    destruct Hslot as [(x & Hx & Hi)|(y & Hy & Hl)]; [by apply (H1 x)|]. by apply Hl, H3.
Qed.

Lemma get_inode_run st nr :
  fs_inv st -> nr_ok nr ->
  ((exists x, 0 <= x < NR_INODE /\ is_inode (inode_table st) ROOT_DEV nr x) \/
   (exists y, 0 <= y < NR_INODE /\ ~ live (inode_table st) y)) ->
  exists x st', get_inode ROOT_DEV nr st = Ok x st' /\ got_inode st st' nr x.
Proof.
  intros Hinv Hn. apply get_inode_cache; [apply Hinv|done|]. intros x Hx (Hl & _ & Hnum).
  split; [by apply Hinv|]. rewrite <- Hnum. by apply (fi_coh _ Hinv).
Qed.

Lemma got_inode_inv st st' nr x : fs_inv st -> nr_ok nr -> got_inode st st' nr x -> fs_inv st'.
Proof.
  intros [Hm Hnr Hu Hc [Hr1 Hr2]] Hn [Hb Hd Hx (Hl & Hdev & Hnum) Ho Hcase Hw].
  assert (Hold : forall y, y <> x -> live (inode_table st') y -> live (inode_table st) y)
    by (intros y Hy; unfold live; by rewrite Ho).
  assert (Hsame : forall y, 0 <= y < NR_INODE -> y <> x -> live (inode_table st') y ->
    i_num (inode_table st' y) <> nr).
  { intros y Hy Hne Hly E. rewrite Ho in E by done. pose proof (Hold y Hne Hly) as Hly'.
    destruct Hcase as [[(Hlx & _ & Hnx) _]|(Hno & _)].
    - apply Hne, (Hu y x); try done. congruence.
    - apply (Hno y Hy). split; [done|]. split; [by apply Hnr|done]. }
  split.
  - by eapply mounted_buf.
  - intros y Hy Hly. destruct (decide (y = x)) as [->|Hne].
    + rewrite Hdev, Hnum. split; [|done]. destruct Hcase as [[(Hlx & _) ->]|(_ & _ & ->)]; [|lia].
      destruct (Hnr x Hx Hlx) as [? _]. cbn. lia.
    + rewrite Ho by done. apply Hnr; auto.
  - intros y z Hy Hz Hly Hlz E.
    destruct (decide (y = x)) as [->|Hne]; destruct (decide (z = x)) as [->|Hne']; try done.
    + symmetry in E. rewrite Hnum in E. by apply Hsame in E.
    + rewrite Hnum in E. by apply Hsame in E.
    + rewrite !Ho in E by done. apply Hu; auto.
  - intros y Hy Hly. rewrite Hd, (ob_sb _ _ Hb). destruct (decide (y = x)) as [->|Hne].
    + by rewrite Hnum.
    + rewrite Ho by done. apply Hc; auto.
  - rewrite (ob_root _ _ Hb). destruct (decide (root_inode st = x)) as [E|Hne].
    + rewrite E. split; [done|]. rewrite Hnum. destruct Hcase as [[(_ & _ & Hnx) _]|(_ & Hz & _)].
      * congruence.
      * rewrite E in Hr1. unfold live in Hr1. lia.
    + unfold live in *. rewrite Ho by done. done.
Qed.

(** ** [sync_inode] *)

Definition words_ok (x : inode) : Prop :=
  0 <= i_mode x < 4294967296 /\ 0 <= i_size x < 4294967296 /\
  0 <= i_start_sect x < 4294967296 /\ 0 <= i_nr_sects x < 4294967296.

Lemma put_inode_at_words a x m : words_ok x ->
  (ld32 (put_inode_at a x m) a, ld32 (put_inode_at a x m) (a + 4),
   ld32 (put_inode_at a x m) (a + 8), ld32 (put_inode_at a x m) (a + 12)) = disk_words x.
Proof.
  intros (H1 & H2 & H3 & H4). unfold put_inode_at, disk_words. cbn [put_words].
  replace (a + 4 + 4) with (a + 8) by lia. replace (a + 8 + 4) with (a + 12) by lia.
  repeat first [rewrite ld32_st32 | rewrite ld32_st32_ne by lia].
  by rewrite !u32_id by done.
Qed.

Lemma put_inode_at_out a x m b : b < a \/ a + 16 <= b -> put_inode_at a x m b = m b.
Proof. intros H. unfold put_inode_at. cbn [put_words]. by rewrite !st32_out by lia. Qed.

Lemma put_words_out a l : forall m x, x < a \/ a + 4 * Z.of_nat (length l) <= x -> put_words a l m x = m x.
Proof.
  revert a. induction l as [|w l IH]; intros a m x Hx; [done|]. cbn [put_words length] in *.
  rewrite IH by lia. apply st32_out. lia.
Qed.

Definition word (x : Z) : Prop := 0 <= x < 4294967296.
Lemma put_words_at l : forall a m i w, l !! i = Some w -> word w ->
  ld32 (put_words a l m) (a + 4 * Z.of_nat i) = w.
Proof.
  induction l as [|w' l IH]; intros a m i w Hi Hw; [done|]. cbn [put_words]. destruct i as [|i].
  - injection Hi as ->. rewrite Z.add_0_r. rewrite (ld32_ext _ (st32 a w m)).
    + rewrite ld32_st32. by apply u32_id.
    + intros i Hi. apply put_words_out. lia.
  - replace (a + 4 * Z.of_nat (S i)) with (a + 4 + 4 * Z.of_nat i) by lia. by apply IH.
Qed.

Lemma sync_inode_run st p :
  mounted st -> 0 <= p < NR_INODE -> i_dev (inode_table st p) = ROOT_DEV ->
  nr_ok (i_num (inode_table st p)) -> words_ok (inode_table st p) ->
  let pos := inode_pos (super_blocks st 0) (i_num (inode_table st p)) in
  exists st', sync_inode p st = Ok tt st' /\ only_buf st st' /\ inode_table st' = inode_table st /\
    disk_inode (rdisk st') (super_blocks st 0) (i_num (inode_table st p)) = disk_words (inode_table st p) /\
    (forall a, a < pos \/ pos + 16 <= a -> rdisk st' a = rdisk st a).
Proof.
  intros Hm Hp Hd Hn Hw pos. set (nr := i_num (inode_table st p)) in *.
  destruct (inode_place st nr Hm Hn) as (_ & _ & Hsec & Ho). unfold INODE_SIZE in Ho.
  set (n := inode_sect (super_blocks st 0) nr) in *. set (o := inode_off nr) in *.
  unfold sync_inode. rewrite (bind_run _ _ _ _ _ (geti_run p st Hp)), Hd.
  rewrite (bind_run _ _ _ _ _ (sb_of_run st Hm)). fold nr n o.
  rewrite (bind_run _ _ _ _ _ (RD_SECT_run n st Hsec)). set (st1 := rd_state n st).
  assert (E : modm (put_inode_at (fsbuf + o) (inode_table st p)) st1 =
    Ok tt (with_mem (put_inode_at (fsbuf + o) (inode_table st p) (fmem st1)) st1)) by done.
  rewrite (bind_run _ _ _ _ _ E), (WR_SECT_run n _ Hsec). set (st2 := with_mem _ st1).
  eexists. split; [reflexivity|].
  assert (Hpos : pos = n * SECTOR_SIZE + o) by done.
  assert (Hdisk : forall i, 0 <= i < SECTOR_SIZE -> rdisk (wr_state n st2) (n * SECTOR_SIZE + i) =
    put_inode_at (fsbuf + o) (inode_table st p) (fmem st1) (fsbuf + i)).
  { intros i Hi. by rewrite wr_state_disk. }
  split; [|split; [done|split]].
  - eapply only_buf_trans; [apply only_buf_rd|]. eapply only_buf_trans; [|apply only_buf_wr].
    apply only_buf_mem. intros x Hx. apply put_inode_at_out. unfold fsbuf, FSBUF_SIZE in *. clia.
  - rewrite <- (put_inode_at_words (fsbuf + o) (inode_table st p) (fmem st1)) by done.
    unfold disk_inode. fold pos. rewrite Hpos. clearbody n o. clear Hpos pos.
    assert (H32 : forall k, 0 <= k <= 12 -> ld32 (rdisk (wr_state n st2)) (n * SECTOR_SIZE + o + k) =
      ld32 (put_inode_at (fsbuf + o) (inode_table st p) (fmem st1)) (fsbuf + o + k)).
    { intros k Hk. apply ld32_shift. intros i Hi. rewrite <- !Z.add_assoc. apply Hdisk. lia. }
    pose proof (H32 0 ltac:(lia)) as H0. rewrite !Z.add_0_r in H0. rewrite H0, !H32 by lia. done.
  - rewrite Hpos. clearbody n o. clear Hpos pos.
    intros a Ha. destruct (decide (n * SECTOR_SIZE <= a < (n + 1) * SECTOR_SIZE)) as [Hin|Hout].
    + replace a with (n * SECTOR_SIZE + (a - n * SECTOR_SIZE)) by lia.
      rewrite Hdisk by clia. rewrite put_inode_at_out by lia. unfold st1. rewrite rd_state_buf by clia. done.
    + rewrite wr_state_other by lia. done.
Qed.

(** ** Changing a cached inode and writing it back *)

Lemma inode_pos_apart st nr nr' : mounted st -> nr_ok nr -> nr_ok nr' -> nr <> nr' ->
  inode_pos (super_blocks st 0) nr + 16 <= inode_pos (super_blocks st 0) nr' \/
  inode_pos (super_blocks st 0) nr' + 16 <= inode_pos (super_blocks st 0) nr.
Proof.
  intros Hm Hn Hn' Hne. rewrite !inode_pos_linear by done. unfold INODE_SIZE. lia.
Qed.

Lemma disk_inode_ext d d' s nr :
  (forall a, inode_pos s nr <= a < inode_pos s nr + 16 -> d' a = d a) ->
  disk_inode d' s nr = disk_inode d s nr.
Proof.
  intros H. unfold disk_inode.
  rewrite (ld32_shift d' d (inode_pos s nr) (inode_pos s nr)) by (intros; apply H; lia).
  rewrite !(ld32_shift d' d (inode_pos s nr + _) (inode_pos s nr + _)) by (intros; apply H; lia). done.
Qed.

Lemma update_sync st p f :
  fs_inv st -> 0 <= p < NR_INODE -> live (inode_table st) p ->
  let x := inode_table st p in
  i_dev (f x) = i_dev x -> i_cnt (f x) = i_cnt x -> i_num (f x) = i_num x -> words_ok (f x) ->
  let pos := inode_pos (super_blocks st 0) (i_num x) in
  exists st', (modi p f ;; sync_inode p) st = Ok tt st' /\ fs_inv st' /\ only_buf st st' /\
    inode_table st' = upd (inode_table st) p (f x) /\
    (forall a, a < pos \/ pos + 16 <= a -> rdisk st' a = rdisk st a).
Proof.
  intros Hinv Hp Hl x Hfd Hfc Hfn Hw pos. destruct (fi_nr _ Hinv p Hp Hl) as (Hc0 & Hdev & Hnr).
  rewrite (bind_run _ _ _ _ _ (modi_run p f st Hp)). set (st1 := set_inode_table _ st).
  assert (Ht1 : inode_table st1 = upd (inode_table st) p (f x)) by done.
  assert (E1 : inode_table st1 p = f x) by (rewrite Ht1; apply upd_eq).
  assert (Hm1 : mounted st1) by (apply (mounted_ext st); [done..|apply Hinv]).
  destruct (sync_inode_run st1 p) as (st' & E & Hb & Ht & Hwd & Hout);
    rewrite ?E1; try done; [unfold x in *; congruence|by rewrite Hfn|].
  rewrite E1, Hfn in Hwd, Hout. change (super_blocks st1 0) with (super_blocks st 0) in *.
  change (rdisk st1) with (rdisk st) in *. fold pos in Hout.
  assert (Hb' : only_buf st st') by (eapply only_buf_trans; [apply only_buf_inodes|exact Hb]).
  exists st'. split; [exact E|]. split; [|split; [done|]; split; [congruence|done]].
  rewrite Ht1 in Ht.
  assert (Hcnt : forall y, i_cnt (inode_table st' y) = i_cnt (inode_table st y)).
  { intros y. rewrite Ht, upd_case. case_decide; [by subst|done]. }
  assert (Hnum : forall y, i_num (inode_table st' y) = i_num (inode_table st y)).
  { intros y. rewrite Ht, upd_case. case_decide; [by subst|done]. }
  assert (Hlive : forall y, live (inode_table st') y <-> live (inode_table st) y)
    by (intros y; unfold live; by rewrite Hcnt).
  split.
  - eapply mounted_buf; [exact Hb'|apply Hinv].
  - intros y Hy Hly%Hlive. rewrite Hcnt, Hnum. destruct (fi_nr _ Hinv y Hy Hly) as (? & ? & ?).
    split; [done|]. split; [|done]. rewrite Ht, upd_case. case_decide; [exact (eq_trans Hfd Hdev)|done].
  - intros y z Hy Hz Hly%Hlive Hlz%Hlive. rewrite !Hnum. by apply Hinv.
  - intros y Hy Hly%Hlive. rewrite (ob_sb _ _ Hb'), Hnum. destruct (decide (y = p)) as [->|Hne].
    + rewrite Ht, upd_eq. symmetry. exact Hwd.
    + rewrite Ht, upd_ne by done. rewrite (fi_coh _ Hinv y Hy Hly). symmetry.
      apply disk_inode_ext. intros a Ha. apply Hout. destruct (fi_nr _ Hinv y Hy Hly) as (_ & _ & Hny).
      assert (Hxy : i_num x <> i_num (inode_table st y)).
      { intros En. apply Hne, (fi_uniq _ Hinv); done. }
      pose proof (inode_pos_apart st _ _ (fi_mnt _ Hinv) Hnr Hny Hxy) as Hap. fold x pos in Hap. lia.
  - rewrite (ob_root _ _ Hb'), Hlive, Hnum. apply Hinv.
Qed.

(** the inode array lies behind the maps and in front of the data *)
Lemma inode_pos_bounds st nr : mounted st -> nr_ok nr ->
  (3 + nr_smap_sects (super_blocks st 0)) * SECTOR_SIZE <= inode_pos (super_blocks st 0) nr /\
  inode_pos (super_blocks st 0) nr + 16 <= n_1st_sect (super_blocks st 0) * SECTOR_SIZE.
Proof.
  intros Hm Hn. rewrite (inode_pos_linear st nr Hm Hn), (mnt_n1 _ Hm). unfold nr_ok in Hn. autounfold with consts. lia.
Qed.

(** a change of the data area (sectors from [n_1st_sect] on) *)
Lemma fs_inv_data st st' :
  fs_inv st -> super_blocks st' = super_blocks st -> root_inode st' = root_inode st ->
  inode_table st' = inode_table st ->
  (forall a, a < n_1st_sect (super_blocks st 0) * SECTOR_SIZE -> rdisk st' a = rdisk st a) -> fs_inv st'.
Proof.
  intros Hinv Es Er Ei Hd. split; rewrite ?Es, ?Er, ?Ei.
  - apply (mounted_ext st); [done..|apply Hinv].
  - apply Hinv.
  - apply Hinv.
  - intros x Hx Hl. rewrite (fi_coh _ Hinv x Hx Hl). symmetry. apply disk_inode_ext.
    intros a Ha. apply Hd. destruct (fi_nr _ Hinv x Hx Hl) as (_ & _ & Hn).
    destruct (inode_pos_bounds st _ (fi_mnt _ Hinv) Hn). lia.
  - apply Hinv.
Qed.

(** ** Properties *)

(** [get_inode] on the mounted partition, with room in the cache, returns the
    only entry for the inode: the cached one with its reference count raised, or
    a free slot filled with the inode on the disk and count 1; the disk, the other
    entries and the memory outside FS's buffer stay as they are, and the cache
    stays coherent with the disk and free of duplicates. *)
Theorem get_inode_spec st nr :
  fs_inv st -> nr_ok nr ->
  ((exists x, 0 <= x < NR_INODE /\ is_inode (inode_table st) ROOT_DEV nr x) \/
   (exists y, 0 <= y < NR_INODE /\ ~ live (inode_table st) y)) ->
  exists x st', get_inode ROOT_DEV nr st = Ok x st' /\ got_inode st st' nr x /\ fs_inv st'.
Proof.
  intros Hinv Hn Hslot. destruct (get_inode_run st nr Hinv Hn Hslot) as (x & st' & E & Hg).
  exists x, st'. split; [done|]. split; [done|]. by eapply got_inode_inv.
Qed.

(** Changing a cached inode and calling [sync_inode] writes exactly the four
    words of that inode to the disk, so that the cache agrees with the disk
    again; every other byte of the partition is as before. *)
Theorem sync_inode_spec st p f :
  fs_inv st -> 0 <= p < NR_INODE -> live (inode_table st) p ->
  let x := inode_table st p in
  i_dev (f x) = i_dev x -> i_cnt (f x) = i_cnt x -> i_num (f x) = i_num x -> words_ok (f x) ->
  let pos := inode_pos (super_blocks st 0) (i_num x) in
  exists st', (modi p f ;; sync_inode p) st = Ok tt st' /\ fs_inv st' /\ only_buf st st' /\
    inode_table st' = upd (inode_table st) p (f x) /\
    disk_inode (rdisk st') (super_blocks st 0) (i_num x) = disk_words (f x) /\
    (forall a, a < pos \/ pos + 16 <= a -> rdisk st' a = rdisk st a).
Proof.
  intros Hinv Hp Hl x Hd Hc Hn Hw pos.
  destruct (update_sync st p f) as (st' & E & Hi & Hb & Ht & Ho); try done.
  exists st'. split; [done|]. split; [done|]. split; [done|]. split; [done|]. split; [|done].
  assert (Hl' : live (inode_table st') p).
  { unfold live. rewrite Ht, upd_eq. unfold x in *. by rewrite Hc. }
  pose proof (fi_coh _ Hi p Hp Hl') as Hco. rewrite (ob_sb _ _ Hb), Ht, upd_eq in Hco.
  fold x in Hco. rewrite Hn in Hco. by symmetry.
Qed.
