(* ===== verification/FsRw.v ===== *)
(** * Reading, writing and seeking (fs/read_write.c, fs/lseek.c)

    [do_rdwt] on a regular file, for requests the disk driver can serve in one
    command (at most 256 sectors): a read delivers the bytes of the file, a write
    stores them, and a read of what was written gives it back. *)
From Stdlib Require Import FunctionalExtensionality.
From S2P Require Import Prelude Const CLib Protect Proc Sys Fs FsOps FsLem.

(** ** An open file *)

(** descriptor [fd] of process [pc] is entry [f] of [fd_table], on inode entry [p] *)
Record open_file (st : sys) (pc fd f p : Z) : Prop := {
  of_pc : 0 <= pc < NR_ALL;
  of_fd : 0 <= fd < NR_FILES;
  of_filp : filp (proc_table (kern st) pc) fd = Some f;
  of_f : 0 <= f < NR_FILE_DESC;
  of_inode : fd_inode (fd_table st f) = Some p;
  of_p : 0 <= p < NR_INODE;
  of_mode : has (fd_mode (fd_table st f)) O_RDWR = true;
  of_pos : 0 <= fd_pos (fd_table st f) }.

Record regular (x : inode) : Prop := {
  rg_mode : i_mode x = I_REGULAR;
  rg_dev : i_dev x = ROOT_DEV;
  rg_start : 0 <= i_start_sect x;
  rg_sects : 0 <= i_nr_sects x;
  rg_end : i_start_sect x + i_nr_sects x < 4194303;
  rg_size : 0 <= i_size x <= i_nr_sects x * SECTOR_SIZE }.

(** byte [i] of the file: its place on the disk *)
Definition file_pos (x : inode) (i : Z) : Z := i_start_sect x * SECTOR_SIZE + i.

Lemma getf_run pc fd st : 0 <= pc < NR_ALL ->
  get_filp pc fd st = Ok (filp (proc_table (kern st) pc) fd) st.
Proof.
  intros Hp. unfold get_filp. rewrite (bind_run _ _ st (proc_table (kern st) pc) st); [done|].
  unfold lift. rewrite getp_run by done. by destruct st.
Qed.

(** the arithmetic of [do_rdwt] on a regular file *)
Definition rw_end (ty : Z) (x : inode) (pos cnt : Z) : Z :=
  if ty =? READ then MINu (i_size x) (pos + cnt) else MINu (i_nr_sects x * SECTOR_SIZE) (pos + cnt).

Lemma do_rdwt_regular drv pc fd f p msg st :
  open_file st pc fd f p -> regular (inode_table st p) -> FD msg = fd ->
  let x := inode_table st p in let pos := fd_pos (fd_table st f) in
  let pos_end := rw_end (type msg) x pos (CNT msg) in
  let sb := i_start_sect x + Z.shiftr pos SECTOR_SIZE_SHIFT in
  let se := i_start_sect x + Z.shiftr pos_end SECTOR_SIZE_SHIFT in
  do_rdwt drv pc msg st =
  (proc ← rdwt_loop (Z.to_nat (se - sb + 1)) (type msg) f (source msg) (BUF msg) ROOT_DEV pos_end
     sb se (MIN (se - sb + 1) 2048) (Z.rem pos SECTOR_SIZE) (CNT msg) 0;
   y ← getfd f;
   when (u32 (i_size x) <? u32 (fd_pos y)) (modi p (set_i_size (u32 (fd_pos y))) ;; sync_inode p) ;;
   ret (proc, msg)) st.
Proof.
  intros [Hpc Hfd Hfp Hf Hi Hp Hm Hpos] [Rm Rd Rs Rn Re Rz] Efd x pos pos_end sb se.
  unfold do_rdwt. rewrite Efd.
  replace ((fd <? 0) || (NR_FILES <=? fd)) with false
    by (symmetry; apply orb_false_iff; split; [apply Z.ltb_ge; lia|apply Z.leb_gt; lia]).
  rewrite (bind_run _ _ _ _ _ (getf_run pc fd st Hpc)), Hfp.
  rewrite bind_assert by done.
  rewrite (bind_run (deref (Some f)) _ st f st eq_refl).
  rewrite (bind_run _ _ _ _ _ (getfd_run f st Hf)), Hi.
  rewrite bind_assert by done.
  rewrite (bind_run (deref (Some p)) _ st p st eq_refl).
  rewrite (bind_run _ _ _ _ _ (geti_run p st Hp)), Hm, Rm, Rd.
  change (Z.land I_TYPE_MASK I_REGULAR =? I_CHAR_SPECIAL) with false.
  change ((Z.land I_TYPE_MASK I_REGULAR =? I_DIRECTORY) || (Z.land I_TYPE_MASK I_REGULAR =? I_REGULAR))
    with true. cbn [negb]. cbv iota. rewrite bind_assert by done.
  reflexivity.
Qed.

(** ** One transfer *)

Lemma MINu_min a b : 0 <= a < 2147483648 -> 0 <= b < 2147483648 -> MINu a b = Z.min a b.
Proof.
  intros Ha Hb. unfold MINu. rewrite !u32_id by lia. destruct (b <? a) eqn:E; zbool; rewrite i32_id; lia.
Qed.

Lemma shift9 a : Z.shiftr a SECTOR_SIZE_SHIFT = a / SECTOR_SIZE.
Proof. unfold SECTOR_SIZE_SHIFT. by rewrite Z.shiftr_div_pow2 by lia. Qed.

Lemma rdwt_loop_end n ty f src buf dev pe i se chunk off todo proc st :
  se < i -> rdwt_loop n ty f src buf dev pe i se chunk off todo proc st = Ok proc st.
Proof. intros H. destruct n; [done|]. cbn [rdwt_loop]. by rewrite (proj2 (Z.ltb_lt _ _) H). Qed.

Lemma lift_va2la pid va st : 0 <= pid < NR_ALL -> flat (kern st) ->
  lift (va2la pid va) st = Ok (la_of (kern st) pid va) st.
Proof. intros Hp Hf. unfold lift. rewrite va2la_run by done. by destruct st. Qed.

Lemma la_fs st i : flat (kern st) -> 0 <= i <= FSBUF_SIZE -> la_of (kern st) TASK_FS (fsbuf + i) = fsbuf + i.
Proof.
  intros Hf Hi. unfold la_of, flat in *. rewrite Hf by clia. rewrite Z.add_0_r. apply u32_id.
  unfold fsbuf, FSBUF_SIZE in *. lia.
Qed.

(** the sectors that hold the bytes [pos .. pos_end] of a file *)
Definition span (pos pos_end : Z) : Z := pos_end / SECTOR_SIZE - pos / SECTOR_SIZE + 1.

Lemma span_bounds pos pe : 0 <= pos <= pe ->
  1 <= span pos pe /\ pos `mod` SECTOR_SIZE + (pe - pos) <= span pos pe * SECTOR_SIZE /\
  0 <= pos `mod` SECTOR_SIZE < SECTOR_SIZE /\
  pos = pos / SECTOR_SIZE * SECTOR_SIZE + pos `mod` SECTOR_SIZE.
Proof. intros H. unfold span. autounfold with consts. Z.div_mod_to_equations. lia. Qed.

(** [do_rdwt] on a request that one transfer serves: the first turn of the loop is all *)
Lemma do_rdwt_span drv st pc fd f p msg n :
  let x := inode_table st p in let pos := fd_pos (fd_table st f) in
  open_file st pc fd f p -> regular x -> FD msg = fd -> rw_end (type msg) x pos (CNT msg) = pos + n -> 0 <= n -> span pos (pos + n) <= 256 ->
  exists k, do_rdwt drv pc msg st =
  (proc ← rdwt_loop (S k) (type msg) f (source msg) (BUF msg) ROOT_DEV (pos + n) (i_start_sect x + pos / SECTOR_SIZE)
     (i_start_sect x + (pos + n) / SECTOR_SIZE) (span pos (pos + n)) (pos `mod` SECTOR_SIZE) (CNT msg) 0;
   y ← getfd f;
   when (u32 (i_size x) <? u32 (fd_pos y)) (modi p (set_i_size (u32 (fd_pos y))) ;; sync_inode p) ;;
   ret (proc, msg)) st.
Proof.
  intros x pos Hfile Hreg Efd Hpe Hn Hsp. pose proof (of_pos _ _ _ _ _ Hfile) as Hpos. fold pos in Hpos.
  rewrite (do_rdwt_regular drv pc fd f p msg st) by done. cbv zeta. fold x pos.
  rewrite Hpe, !shift9, Z.rem_mod_nonneg by (unfold SECTOR_SIZE; lia).
  assert (Es : i_start_sect x + (pos + n) / SECTOR_SIZE - (i_start_sect x + pos / SECTOR_SIZE) + 1 = span pos (pos + n)) by (unfold span; lia).
  destruct (span_bounds pos (pos + n) ltac:(lia)) as (S1 & _). rewrite Es.
  replace (MIN (span pos (pos + n)) 2048) with (span pos (pos + n)) by (rewrite MIN_spec; lia).
  destruct (Z.to_nat (span pos (pos + n))) as [|k] eqn:Ek; [lia|]. by exists k.
Qed.

Definition outside_fsbuf (a n : Z) : Prop := a + n <= fsbuf \/ fsbuf + FSBUF_SIZE <= a.

(** memory after a read of [n] bytes at [pos]: the caller's buffer at [d] has the
    bytes of the file, the rest (FS's buffer aside) is unchanged *)
Record read_into (m m' dsk : mem) (x : inode) (pos n d : Z) : Prop := {
  ri_data : forall i, 0 <= i < n -> m' (d + i) = dsk (file_pos x (pos + i));
  ri_rest : forall a, a < d \/ d + n <= a -> a < fsbuf \/ fsbuf + FSBUF_SIZE <= a -> m' a = m a }.

Lemma read_mem m dsk x pos pe d :
  0 <= pos <= pe -> outside_fsbuf d (pe - pos) -> span pos pe <= 256 ->
  read_into m (memcpy d (fsbuf + pos `mod` SECTOR_SIZE) (pe - pos)
    (disk_read dsk ((i_start_sect x + pos / SECTOR_SIZE) * SECTOR_SIZE) (span pos pe * SECTOR_SIZE) fsbuf m))
    dsk x pos (pe - pos) d.
Proof.
  intros Hp Hd Hs. destruct (span_bounds pos pe Hp) as (H1 & H2 & H3 & H4).
  unfold outside_fsbuf in Hd. assert (fsbuf = 6291456 /\ FSBUF_SIZE = 1048576) as [Ef Es] by done.
  split.
  - intros i Hi. rewrite memcpy_in by (unfold SECTOR_SIZE in *; lia).
    replace (fsbuf + pos `mod` SECTOR_SIZE + (d + i - d)) with (fsbuf + (pos `mod` SECTOR_SIZE + i)) by lia.
    unfold disk_read. rewrite (proj2 (Z.leb_le _ _)), (proj2 (Z.ltb_lt _ _)) by lia.
    cbn [andb]. unfold file_pos. f_equal. lia.
  - intros a Ha Hout. rewrite memcpy_out by lia. unfold disk_read.
    destruct ((fsbuf <=? a) && (a <? fsbuf + span pos pe * SECTOR_SIZE)) eqn:E; [|done].
    zbool. unfold SECTOR_SIZE in *. lia.
Qed.

Lemma modm_run f st : modm f st = Ok tt (with_mem (f (fmem st)) st).
Proof. done. Qed.

Lemma rw_read_run sb n st : sect_ok sb -> 0 <= n <= 256 ->
  rw_sector DEV_READ ROOT_DEV (i32 (sb * SECTOR_SIZE)) (n * SECTOR_SIZE) fsbuf st =
  Ok tt (with_mem (disk_read (rdisk st) (sb * SECTOR_SIZE) (n * SECTOR_SIZE) fsbuf (fmem st)) st).
Proof.
  intros Hs Hn. rewrite sect_i32 by done. rewrite rw_sector_run; [done|apply Hs|].
  unfold MAX_TRANSFER, SECTOR_SIZE. lia.
Qed.
Lemma rw_write_run sb n st : sect_ok sb -> 0 <= n <= 256 ->
  rw_sector DEV_WRITE ROOT_DEV (i32 (sb * SECTOR_SIZE)) (n * SECTOR_SIZE) fsbuf st =
  Ok tt (with_disk (disk_write (fmem st) (sb * SECTOR_SIZE) (n * SECTOR_SIZE) fsbuf (rdisk st)) st).
Proof.
  intros Hs Hn. rewrite sect_i32 by done. rewrite rw_sector_run; [done|apply Hs|].
  unfold MAX_TRANSFER, SECTOR_SIZE. lia.
Qed.

(** what a request to [do_rdwt] is about *)
Record rw_request (st : sys) (pc fd f p : Z) (msg : MESSAGE) (cnt d : Z) : Prop := {
  rq_file : open_file st pc fd f p;
  rq_reg : regular (inode_table st p);
  rq_flat : flat (kern st);
  rq_fd : FD msg = fd;
  rq_cnt : CNT msg = cnt;
  rq_cnt0 : 0 <= cnt < 1073741824;
  rq_pos : fd_pos (fd_table st f) < 1073741824;
  rq_src : 0 <= source msg < NR_ALL;
  rq_buf : d = la_of (kern st) (source msg) (BUF msg);
  rq_out : outside_fsbuf d cnt }.

Lemma sect_of_file x pos : regular x -> 0 <= pos <= i_nr_sects x * SECTOR_SIZE ->
  sect_ok (i_start_sect x + pos / SECTOR_SIZE).
Proof.
  intros [_ _ H1 H2 H3 _] Hp. unfold sect_ok. autounfold with consts in *. Z.div_mod_to_equations. lia.
Qed.

Lemma rdwt_loop_read n st f src buf x pos pe cnt d :
  0 <= f < NR_FILE_DESC -> 0 <= src < NR_ALL -> flat (kern st) -> regular x ->
  fd_pos (fd_table st f) = pos -> 0 <= pos < pe -> pe <= i_size x -> pe - pos <= cnt ->
  span pos pe <= 256 -> d = la_of (kern st) src buf -> outside_fsbuf d cnt ->
  exists st', rdwt_loop (S n) READ f src buf ROOT_DEV pe (i_start_sect x + pos / SECTOR_SIZE)
      (i_start_sect x + pe / SECTOR_SIZE) (span pos pe) (pos `mod` SECTOR_SIZE) cnt 0 st = Ok (pe - pos) st' /\
    read_into (fmem st) (fmem st') (rdisk st) x pos (pe - pos) d /\
    st' = set_fd_table (upd (fd_table st) f (set_fd_pos pe (fd_table st f))) (with_mem (fmem st') st).
Proof.
  intros Hf Hsrc Hflat Hreg Hpos Hp Hpe Hcnt Hsp Hd Hout.
  destruct (span_bounds pos pe ltac:(lia)) as (H1 & H2 & H3 & H4).
  assert (Hso : sect_ok (i_start_sect x + pos / SECTOR_SIZE))
    by (apply sect_of_file; [done|destruct Hreg; lia]).
  cbn [rdwt_loop]. rewrite (proj2 (Z.ltb_ge _ _)) by (unfold span in *; lia).
  rewrite (bind_run _ _ _ _ _ (rw_read_run _ (span pos pe) st Hso ltac:(lia))). set (st1 := with_mem _ st).
  rewrite (bind_run _ _ _ _ _ (getfd_run f st1 Hf)).
  change (fd_table st1 f) with (fd_table st f). rewrite Hpos.
  change (READ =? READ) with true. cbv iota. rewrite (proj2 (Z.leb_gt _ _)) by lia.
  replace (MIN (pe - pos) (MIN (span pos pe * SECTOR_SIZE) cnt)) with (pe - pos) by (rewrite !MIN_spec; lia).
  rewrite (bind_run _ _ _ _ _ (lift_va2la src _ st1 Hsrc Hflat)), Z.add_0_r.
  change (la_of (kern st1) src buf) with (la_of (kern st) src buf). rewrite <- Hd.
  rewrite (bind_run _ _ _ _ _ (lift_va2la TASK_FS _ st1 ltac:(clia) Hflat)).
  rewrite la_fs by (try done; unfold SECTOR_SIZE, FSBUF_SIZE in *; lia).
  rewrite (bind_run _ _ _ _ _ (modm_run _ st1)). set (st2 := with_mem _ st1).
  rewrite (bind_run _ _ _ _ _ (modfd_run f _ st2 Hf)).
  rewrite rdwt_loop_end by (unfold span; lia). eexists. split; [f_equal; lia|].
  split.
  - unfold outside_fsbuf in Hout. apply read_mem; [lia| |done]. unfold outside_fsbuf. lia.
  - change (fd_table st2 f) with (fd_table st f).
    replace (pos + (pe - pos)) with pe by lia. rewrite Hpos. 
    replace (pos + (pe - pos)) with pe by lia. done.
Qed.

(** at the end of the file nothing is copied *)
Lemma rdwt_loop_eof n st f src buf x pos cnt d :
  0 <= f < NR_FILE_DESC -> regular x -> fd_pos (fd_table st f) = pos ->
  0 <= pos <= i_nr_sects x * SECTOR_SIZE ->
  exists st', rdwt_loop (S n) READ f src buf ROOT_DEV pos (i_start_sect x + pos / SECTOR_SIZE)
      (i_start_sect x + pos / SECTOR_SIZE) (span pos pos) (pos `mod` SECTOR_SIZE) cnt 0 st = Ok 0 st' /\
    read_into (fmem st) (fmem st') (rdisk st) x pos 0 d /\ st' = with_mem (fmem st') st.
Proof.
  intros Hf Hreg Hpos Hp. pose proof (sect_of_file x pos Hreg Hp) as Hso.
  assert (Esp : span pos pos = 1) by (unfold span; lia).
  cbn [rdwt_loop]. rewrite (proj2 (Z.ltb_ge _ _)) by lia. rewrite Esp.
  rewrite (bind_run _ _ _ _ _ (rw_read_run _ 1 st Hso ltac:(lia))). set (st1 := with_mem _ st).
  rewrite (bind_run _ _ _ _ _ (getfd_run f st1 Hf)).
  change (fd_table st1 f) with (fd_table st f). rewrite Hpos.
  change (READ =? READ) with true. cbv iota. rewrite (proj2 (Z.leb_le _ _)) by lia.
  exists st1. split; [done|]. split; [|done]. split; [intros; lia|].
  intros a _ Ha. unfold st1. rewrite fmem_with_mem. unfold disk_read.
  destruct ((fsbuf <=? a) && (a <? fsbuf + 1 * SECTOR_SIZE)) eqn:E; [|done].
  zbool. unfold fsbuf, FSBUF_SIZE in *. clia.
Qed.

Lemma set_fd_pos_same x : set_fd_pos (fd_pos x) x = x.
Proof. by destruct x. Qed.

Lemma do_read_state drv st pc fd f p msg cnt d :
  rw_request st pc fd f p msg cnt d -> type msg = READ ->
  let x := inode_table st p in let pos := fd_pos (fd_table st f) in
  let n := Z.min cnt (i_size x - pos) in
  pos <= i_size x -> span pos (pos + n) <= 256 ->
  exists st', do_rdwt drv pc msg st = Ok (n, msg) st' /\
    read_into (fmem st) (fmem st') (rdisk st) x pos n d /\
    st' = set_fd_table (upd (fd_table st) f (set_fd_pos (pos + n) (fd_table st f))) (with_mem (fmem st') st).
Proof.
  intros [Hfile Hreg Hflat Efd Ecnt Hcnt Hpos2 Hsrc Hd Hout] Hty x pos n Hle Hsp.
  pose proof Hfile as [Hpc Hfd Hfp Hf Hi Hp Hm Hpos]. fold x in Hreg.
  assert (Hsz : i_size x < 2147483648).
  { destruct Hreg. unfold SECTOR_SIZE in *. lia. }
  assert (Hpe : rw_end (type msg) x pos (CNT msg) = pos + n).
  { unfold rw_end. rewrite Hty, Ecnt. change (READ =? READ) with true. cbv iota.
    rewrite MINu_min by (destruct Hreg; fold pos in Hpos; lia). lia. }
  fold pos in Hpos. assert (Hn0 : 0 <= n) by lia.
  destruct (do_rdwt_span drv st pc fd f p msg n Hfile Hreg Efd Hpe Hn0 Hsp) as (k & ->). fold x pos. rewrite Hty, Ecnt.
  destruct (decide (n = 0)) as [En|Hn].
  - destruct (rdwt_loop_eof k st f (source msg) (BUF msg) x pos cnt d) as (st' & E & Hri & Est);
      try done; [destruct Hreg; lia|]. rewrite En, Z.add_0_r in *.
    rewrite (bind_run _ _ _ _ _ E), (bind_run _ _ _ _ _ (getfd_run f st' Hf)).
    rewrite Est. cbn [fd_table with_mem set_kern]. fold pos.
    rewrite !u32_id by (destruct Hreg; lia). rewrite (proj2 (Z.ltb_ge _ _)) by lia. cbn [when].
    eexists. split; [reflexivity|]. rewrite <- Est at 1. split; [done|].
    unfold pos. rewrite set_fd_pos_same, upd_same. by destruct st.
  - destruct (rdwt_loop_read k st f (source msg) (BUF msg) x pos (pos + n) cnt d)
      as (st' & E & Hri & Est); try done; try lia.
    rewrite (bind_run _ _ _ _ _ E). replace (pos + n - pos) with n in * by lia.
    rewrite (bind_run _ _ _ _ _ (getfd_run f st' Hf)). rewrite Est. cbn [fd_table set_fd_table].
    rewrite upd_eq. cbn [fd_pos set_fd_pos]. rewrite !u32_id by (destruct Hreg; lia).
    rewrite (proj2 (Z.ltb_ge _ _)) by lia. cbn [when]. eexists. split; [reflexivity|]. done.
Qed.

Lemma do_read_run drv st pc fd f p msg cnt d :
  rw_request st pc fd f p msg cnt d -> type msg = READ ->
  let x := inode_table st p in let pos := fd_pos (fd_table st f) in
  let n := Z.min cnt (i_size x - pos) in
  pos <= i_size x -> span pos (pos + n) <= 256 ->
  exists st', do_rdwt drv pc msg st = Ok (n, msg) st' /\
    read_into (fmem st) (fmem st') (rdisk st) x pos n d /\
    fd_table st' = upd (fd_table st) f (set_fd_pos (pos + n) (fd_table st f)) /\
    rdisk st' = rdisk st /\ inode_table st' = inode_table st /\
    proc_table (kern st') = proc_table (kern st).
Proof.
  intros Hreq Hty x pos n Hle Hsp. destruct (do_read_state drv st pc fd f p msg cnt d Hreq Hty Hle Hsp) as (st' & E & Hri & Est).
  exists st'. split; [done|]. split; [done|]. by rewrite Est.
Qed.

(** ** Writing *)

(** the disk after a write of the [n] bytes at [s] to position [pos] of the file *)
Record written (m dsk dsk' : mem) (x : inode) (pos n s : Z) : Prop := {
  wr_data : forall i, 0 <= i < n -> dsk' (file_pos x (pos + i)) = m (s + i);
  wr_rest : forall a, a < file_pos x pos \/ file_pos x (pos + n) <= a -> dsk' a = dsk a }.

Lemma write_disk m dsk x pos n s :
  0 <= pos -> 0 <= n -> outside_fsbuf s n -> span pos (pos + n) <= 256 ->
  let sb := i_start_sect x + pos / SECTOR_SIZE in let len := span pos (pos + n) * SECTOR_SIZE in
  written m dsk (disk_write (memcpy (fsbuf + pos `mod` SECTOR_SIZE) s n
    (disk_read dsk (sb * SECTOR_SIZE) len fsbuf m)) (sb * SECTOR_SIZE) len fsbuf dsk) x pos n s.
Proof.
  intros Hp Hn Hs Hsp sb len. destruct (span_bounds pos (pos + n) ltac:(lia)) as (H1 & H2 & H3 & H4).
  unfold outside_fsbuf in Hs. assert (fsbuf = 6291456 /\ FSBUF_SIZE = 1048576) as [Ef Es] by done.
  assert (Hsb : file_pos x pos = sb * SECTOR_SIZE + pos `mod` SECTOR_SIZE) by (unfold file_pos, sb; lia).
  assert (Hlen : len <= 131072) by (unfold len, SECTOR_SIZE in *; lia). fold len in H2.
  split.
  - intros i Hi. replace (file_pos x (pos + i)) with (file_pos x pos + i) by (unfold file_pos; lia).
    rewrite Hsb. unfold disk_write.
    rewrite (proj2 (Z.leb_le _ _)), (proj2 (Z.ltb_lt _ _)) by lia. cbn [andb].
    rewrite memcpy_in by lia. unfold disk_read.
    destruct ((fsbuf <=? _) && (_ <? fsbuf + len)) eqn:E; [zbool; lia|]. f_equal. lia.
  - intros a Ha. replace (file_pos x (pos + n)) with (file_pos x pos + n) in Ha by (unfold file_pos; lia).
    rewrite Hsb in Ha. unfold disk_write.
    destruct ((sb * SECTOR_SIZE <=? a) && (a <? sb * SECTOR_SIZE + len)) eqn:E; [|done]. zbool.
    rewrite memcpy_out by lia. unfold disk_read.
    rewrite (proj2 (Z.leb_le _ _)), (proj2 (Z.ltb_lt _ _)) by lia. cbn [andb]. f_equal. lia.
Qed.

Lemma rdwt_loop_write k st f src buf x pos cnt s :
  0 <= f < NR_FILE_DESC -> 0 <= src < NR_ALL -> flat (kern st) -> regular x ->
  fd_pos (fd_table st f) = pos -> 0 <= pos -> 0 <= cnt -> pos + cnt <= i_nr_sects x * SECTOR_SIZE ->
  span pos (pos + cnt) <= 256 -> s = la_of (kern st) src buf -> outside_fsbuf s cnt ->
  exists st' m' dsk', rdwt_loop (S k) WRITE f src buf ROOT_DEV (pos + cnt) (i_start_sect x + pos / SECTOR_SIZE)
      (i_start_sect x + (pos + cnt) / SECTOR_SIZE) (span pos (pos + cnt)) (pos `mod` SECTOR_SIZE) cnt 0 st
      = Ok cnt st' /\
    written (fmem st) (rdisk st) dsk' x pos cnt s /\ agree_out fsbuf FSBUF_SIZE (fmem st) m' /\
    st' = set_fd_table (upd (fd_table st) f (set_fd_pos (pos + cnt) (fd_table st f)))
      (with_disk dsk' (with_mem m' st)).
Proof.
  intros Hf Hsrc Hflat Hreg Hpos Hp Hc Hcap Hsp Hs Hout.
  destruct (span_bounds pos (pos + cnt) ltac:(lia)) as (H1 & H2 & H3 & H4).
  assert (Hso : sect_ok (i_start_sect x + pos / SECTOR_SIZE)) by (apply sect_of_file; [done|lia]).
  pose proof (write_disk (fmem st) (rdisk st) x pos cnt s Hp Hc Hout Hsp) as Hw. cbv zeta in Hw.
  set (n := span pos (pos + cnt)) in *. set (sb := i_start_sect x + pos / SECTOR_SIZE) in *.
  cbn [rdwt_loop]. rewrite (proj2 (Z.ltb_ge _ _)) by (unfold n, sb, span in *; lia).
  rewrite (bind_run _ _ _ _ _ (rw_read_run sb n st Hso ltac:(lia))). set (st1 := with_mem _ st).
  rewrite (bind_run _ _ _ _ _ (getfd_run f st1 Hf)).
  change (WRITE =? READ) with false. cbv iota. rewrite bind_assert by done.
  replace (MIN (n * SECTOR_SIZE) cnt) with cnt by (rewrite MIN_spec; lia).
  rewrite (bind_run _ _ _ _ _ (lift_va2la TASK_FS _ st1 ltac:(clia) Hflat)).
  rewrite la_fs by (try done; unfold SECTOR_SIZE, FSBUF_SIZE in *; lia).
  rewrite (bind_run _ _ _ _ _ (lift_va2la src _ st1 Hsrc Hflat)), Z.add_0_r.
  change (la_of (kern st1) src buf) with (la_of (kern st) src buf). rewrite <- Hs.
  rewrite (bind_run _ _ _ _ _ (modm_run _ st1)). set (st2 := with_mem _ st1).
  rewrite (bind_run _ _ _ _ _ (rw_write_run sb n st2 Hso ltac:(lia))). set (st3 := with_disk _ st2).
  rewrite (bind_run _ _ _ _ _ (modfd_run f _ st3 Hf)).
  rewrite rdwt_loop_end by (unfold n, sb, span; lia).
  eexists _, (fmem st2), (rdisk st3). split; [f_equal; lia|]. split; [|split].
  - unfold st3. rewrite rdisk_with_disk. exact Hw.
  - intros a Ha. unfold st2, st1. rewrite !fmem_with_mem.
    rewrite memcpy_out by (unfold fsbuf, FSBUF_SIZE, SECTOR_SIZE in *; lia). unfold disk_read.
    destruct ((fsbuf <=? a) && (a <? fsbuf + n * SECTOR_SIZE)) eqn:E; [|done].
    zbool. unfold fsbuf, FSBUF_SIZE, SECTOR_SIZE in *. lia.
  - unfold st3. rewrite rdisk_with_disk. change (fd_table (with_disk _ st2)) with (fd_table st).
    rewrite Hpos. done.
Qed.

(** what a write has done *)
Record write_done (st st' : sys) (f p cnt s : Z) : Prop := {
  wd_inv : fs_inv st';
  wd_data : forall i, 0 <= i < cnt ->
    rdisk st' (file_pos (inode_table st p) (fd_pos (fd_table st f) + i)) = fmem st (s + i);
  wd_rest : forall a, n_1st_sect (super_blocks st 0) * SECTOR_SIZE <= a ->
    a < file_pos (inode_table st p) (fd_pos (fd_table st f)) \/
    file_pos (inode_table st p) (fd_pos (fd_table st f) + cnt) <= a -> rdisk st' a = rdisk st a;
  wd_inodes : inode_table st' = upd (inode_table st) p
    (set_i_size (Z.max (i_size (inode_table st p)) (fd_pos (fd_table st f) + cnt)) (inode_table st p));
  wd_fd : fd_table st' = upd (fd_table st) f
    (set_fd_pos (fd_pos (fd_table st f) + cnt) (fd_table st f));
  wd_mem : agree_out fsbuf FSBUF_SIZE (fmem st) (fmem st');
  wd_procs : proc_table (kern st') = proc_table (kern st);
  wd_sb : super_blocks st' = super_blocks st }.

Lemma set_i_size_same x : set_i_size (i_size x) x = x.
Proof. by destruct x. Qed.

Lemma regular_words x : regular x -> words_ok (set_i_size (i_size x) x) .
Proof.
  intros [Hm _ Hs Hn He Hz]. unfold words_ok. cbn. rewrite Hm. unfold SECTOR_SIZE, I_REGULAR in *. lia.
Qed.

Lemma do_write_run drv st pc fd f p msg cnt s :
  rw_request st pc fd f p msg cnt s -> type msg = WRITE -> fs_inv st -> live (inode_table st) p ->
  let x := inode_table st p in let pos := fd_pos (fd_table st f) in
  n_1st_sect (super_blocks st 0) <= i_start_sect x ->
  pos + cnt <= i_nr_sects x * SECTOR_SIZE -> span pos (pos + cnt) <= 256 ->
  exists st', do_rdwt drv pc msg st = Ok (cnt, msg) st' /\ write_done st st' f p cnt s.
Proof.
  intros [Hfile Hreg Hflat Efd Ecnt Hcnt Hpos2 Hsrc Hs Hout] Hty Hinv Hlive x pos Hn1 Hcap Hsp.
  pose proof Hfile as [Hpc Hfd Hfp Hf Hi Hp Hm Hpos]. fold x in Hreg. fold pos in Hpos, Hpos2.
  assert (Hpe : rw_end (type msg) x pos (CNT msg) = pos + cnt).
  { unfold rw_end. rewrite Hty, Ecnt. change (WRITE =? READ) with false. cbv iota.
    rewrite MINu_min by (destruct Hreg; unfold SECTOR_SIZE in *; lia). lia. }
  destruct (do_rdwt_span drv st pc fd f p msg cnt Hfile Hreg Efd Hpe ltac:(lia) Hsp) as (k & ->). fold x pos. rewrite Hty, Ecnt.
  destruct (rdwt_loop_write k st f (source msg) (BUF msg) x pos cnt s)
    as (st1 & m' & dsk' & E & [Hw1 Hw2] & Hag & Est); try done; try lia.
  rewrite (bind_run _ _ _ _ _ E), (bind_run _ _ _ _ _ (getfd_run f st1 Hf)).
  assert (Hfd1 : fd_table st1 = upd (fd_table st) f (set_fd_pos (pos + cnt) (fd_table st f))) by (by rewrite Est).
  rewrite Hfd1, upd_eq. cbn [fd_pos set_fd_pos].
  assert (Hd1 : rdisk st1 = dsk') by (rewrite Est; apply (rdisk_with_disk dsk' (with_mem m' st))).
  assert (Hit1 : inode_table st1 = inode_table st) by (by rewrite Est).
  assert (Hinv1 : fs_inv st1).
  { apply (fs_inv_data st); [done|by rewrite Est..|]. intros a Ha. rewrite Hd1. apply Hw2.
    left. unfold file_pos. unfold SECTOR_SIZE in *. lia. }
  assert (Hsb1 : super_blocks st1 = super_blocks st) by (by rewrite Est).
  assert (Hfm1 : fmem st1 = m') by (by rewrite Est).
  assert (Hpt1 : proc_table (kern st1) = proc_table (kern st)) by (by rewrite Est).
  clear Est E. rewrite !u32_id by (destruct Hreg; unfold SECTOR_SIZE in *; lia).
  destruct (i_size x <? pos + cnt) eqn:Ez; zbool; cbn [when].
  - destruct (update_sync st1 p (set_i_size (pos + cnt))) as (st2 & E2 & Hinv2 & Hb & Ht & Ho);
      rewrite ?Hit1; try done.
    { pose proof (regular_words x Hreg) as (W1 & _ & W3 & W4). cbn in *. fold x.
      split; [exact W1|]. split; [|done]. cbn. unfold SECTOR_SIZE in *. destruct Hreg. lia. }
    rewrite (bind_run _ _ _ _ _ E2). exists st2. split; [reflexivity|].
    assert (Hdata : forall a, n_1st_sect (super_blocks st 0) * SECTOR_SIZE <= a -> rdisk st2 a = dsk' a).
    { intros a Ha. rewrite Ho; [by rewrite Hd1|]. rewrite Hit1, Hsb1. right.
      destruct (fi_nr _ Hinv p Hp Hlive) as (_ & _ & Hnr).
      destruct (inode_pos_bounds st _ (fi_mnt _ Hinv) Hnr). lia. }
    split; fold x pos; try done.
    + intros i Hi'. rewrite Hdata; [by apply Hw1|]. unfold file_pos, SECTOR_SIZE in *. lia.
    + intros a Ha Hr. rewrite Hdata by done. by apply Hw2.
    + rewrite Ht, Hit1. fold x. do 2 f_equal. lia.
    + rewrite (ob_fd _ _ Hb). done.
    + eapply agree_out_trans; [exact Hag|]. rewrite <- Hfm1. apply (ob_mem _ _ Hb).
    + rewrite (ob_kern _ _ Hb). done.
    + rewrite (ob_sb _ _ Hb). done.
  - exists st1. split; [reflexivity|]. split; fold x pos; try done.
    + intros i Hi'. rewrite Hd1. by apply Hw1.
    + intros a _ Hr. rewrite Hd1. by apply Hw2.
    + rewrite Z.max_l by lia. by rewrite set_i_size_same, upd_same.
    + by rewrite Hfm1.
Qed.

(** ** Seeking *)

(** where [do_lseek] wants to go *)
Definition seek_target (whence offset pos size : Z) : Z :=
  if whence =? SEEK_SET then offset
  else if whence =? SEEK_CUR then i32 (pos + offset) else i32 (size + offset).

Lemma do_lseek_run st pc fd f p msg :
  open_file st pc fd f p -> regular (inode_table st p) -> FD msg = fd ->
  WHENCE msg = SEEK_SET \/ WHENCE msg = SEEK_CUR \/ WHENCE msg = SEEK_END ->
  let x := inode_table st p in
  let t := seek_target (WHENCE msg) (OFFSET msg) (fd_pos (fd_table st f)) (i_size x) in
  let r := SET_RANGE t 0 (i_nr_sects x * SECTOR_SIZE - 1) in
  exists st', do_lseek pc msg st = Ok r st' /\
    fd_table st' = upd (fd_table st) f (set_fd_pos r (fd_table st f)) /\
    st' = set_fd_table (fd_table st') st.
Proof.
  intros [Hpc Hfd Hfp Hf Hi Hp Hm Hpos] [Rm Rd Rs Rn Re Rz] Efd Hw x t r.
  unfold do_lseek. rewrite Efd.
  replace ((fd <? 0) || (NR_FILES <=? fd)) with false
    by (symmetry; apply orb_false_iff; split; [apply Z.ltb_ge; lia|apply Z.leb_gt; lia]).
  rewrite (bind_run _ _ _ _ _ (getf_run pc fd st Hpc)), Hfp. rewrite bind_assert by done.
  rewrite (bind_run (deref (Some f)) _ st f st eq_refl).
  rewrite (bind_run _ _ _ _ _ (getfd_run f st Hf)), Hi. rewrite bind_assert by done.
  rewrite (bind_run (deref (Some p)) _ st p st eq_refl).
  rewrite (bind_run _ _ _ _ _ (geti_run p st Hp)), Rm. fold x.
  change (negb (I_REGULAR =? I_REGULAR)) with false. cbv iota.
  assert (E : (if WHENCE msg =? SEEK_SET then modfd f (set_fd_pos (OFFSET msg))
       else if WHENCE msg =? SEEK_CUR then modfd f (fun x => set_fd_pos (i32 (fd_pos x + OFFSET msg)) x)
       else if WHENCE msg =? SEEK_END then modfd f (set_fd_pos (i32 (i_size x + OFFSET msg)))
       else stop HAssert) st = Ok tt (set_fd_table (upd (fd_table st) f (set_fd_pos t (fd_table st f))) st)).
  { unfold t, seek_target. destruct Hw as [-> |[-> | ->]]; cbn [Z.eqb SEEK_SET SEEK_CUR SEEK_END Pos.eqb];
      by rewrite modfd_run by done. }
  rewrite (bind_run _ _ _ _ _ E). set (st1 := set_fd_table _ st).
  rewrite (bind_run _ _ _ _ _ (modfd_run f _ st1 Hf)). set (st2 := set_fd_table _ st1).
  rewrite (bind_run _ _ _ _ _ (getfd_run f st2 Hf)).
  assert (E2 : fd_table st2 = upd (fd_table st) f (set_fd_pos r (fd_table st f))).
  { unfold st2, st1. cbn [fd_table set_fd_table]. rewrite upd_eq. cbn [fd_pos set_fd_pos].
    rewrite i32_id by (unfold x, SECTOR_SIZE in *; lia). fold r.
    extensionality j. rewrite !upd_case. by case_decide. }
  exists st2. rewrite E2, upd_eq. split; [reflexivity|]. split; [done|]. rewrite <- E2. by destruct st.
Qed.

(** ** Properties *)

(** C22: Reading from a regular file: the call returns the number of bytes between
    the position and the smaller of the end of the request and the end of the
    file; the caller's buffer holds those bytes of the file; the position moves
    behind them; the disk, the inodes and all other memory are unchanged. *)
Theorem read_spec drv st pc fd f p msg cnt d :
  rw_request st pc fd f p msg cnt d -> type msg = READ ->
  let x := inode_table st p in let pos := fd_pos (fd_table st f) in
  let n := Z.min cnt (i_size x - pos) in
  pos <= i_size x -> span pos (pos + n) <= 256 ->
  exists st', do_rdwt drv pc msg st = Ok (n, msg) st' /\
    read_into (fmem st) (fmem st') (rdisk st) x pos n d /\
    fd_table st' = upd (fd_table st) f (set_fd_pos (pos + n) (fd_table st f)) /\
    rdisk st' = rdisk st /\ inode_table st' = inode_table st /\
    proc_table (kern st') = proc_table (kern st).
Proof. apply do_read_run. Qed.


(** [do_lseek] on a regular file with capacity: the new position is the target
    of the seek clamped into the file's capacity, it is what the call returns, and
    nothing else changes. *)
Theorem lseek_spec st pc fd f p msg :
  open_file st pc fd f p -> regular (inode_table st p) -> FD msg = fd ->
  WHENCE msg = SEEK_SET \/ WHENCE msg = SEEK_CUR \/ WHENCE msg = SEEK_END ->
  let x := inode_table st p in 0 < i_nr_sects x ->
  let t := seek_target (WHENCE msg) (OFFSET msg) (fd_pos (fd_table st f)) (i_size x) in
  exists r st', do_lseek pc msg st = Ok r st' /\ 0 <= r < i_nr_sects x * SECTOR_SIZE /\
    (0 <= t < i_nr_sects x * SECTOR_SIZE -> r = t) /\
    st' = set_fd_table (upd (fd_table st) f (set_fd_pos r (fd_table st f))) st.
Proof.
  intros Hf Hreg Efd Hw x Hn t.
  destruct (do_lseek_run st pc fd f p msg Hf Hreg Efd Hw) as (st' & E & Ef & Est).
  eexists _, st'. split; [exact E|]. split; [|split].
  - pose proof (SET_RANGE_bounds t 0 (i_nr_sects x * SECTOR_SIZE - 1)). unfold SECTOR_SIZE in *. fold x t. lia.
  - intros Ht. apply SET_RANGE_id. fold x t. lia.
  - rewrite Est at 1. by rewrite Ef.
Qed.

(** the request is still good in a state that differs in the position, the size
    and the disk *)
Lemma open_file_ext st st' pc fd f p :
  proc_table (kern st') = proc_table (kern st) ->
  fd_inode (fd_table st' f) = fd_inode (fd_table st f) ->
  fd_mode (fd_table st' f) = fd_mode (fd_table st f) -> 0 <= fd_pos (fd_table st' f) ->
  open_file st pc fd f p -> open_file st' pc fd f p.
Proof. intros E1 E2 E3 E4 []. split; rewrite ?E1, ?E2, ?E3; done. Qed.

(** C4: Write, seek back, read: a read of the region just written returns the bytes
    that were written, whatever the two buffers are. *)
Theorem write_read_roundtrip drv st pc fd f p wmsg lmsg rmsg cnt s d :
  rw_request st pc fd f p wmsg cnt s -> type wmsg = WRITE -> fs_inv st -> live (inode_table st) p ->
  let x := inode_table st p in let pos := fd_pos (fd_table st f) in
  n_1st_sect (super_blocks st 0) <= i_start_sect x ->
  pos + cnt <= i_nr_sects x * SECTOR_SIZE -> pos < i_nr_sects x * SECTOR_SIZE ->
  span pos (pos + cnt) <= 256 ->
  FD lmsg = fd -> WHENCE lmsg = SEEK_SET -> OFFSET lmsg = pos ->
  FD rmsg = fd -> CNT rmsg = cnt -> type rmsg = READ -> 0 <= source rmsg < NR_ALL ->
  d = la_of (kern st) (source rmsg) (BUF rmsg) -> outside_fsbuf d cnt ->
  exists st', (do_rdwt drv pc wmsg ;; do_lseek pc lmsg ;; do_rdwt drv pc rmsg) st = Ok (cnt, rmsg) st' /\
    forall i, 0 <= i < cnt -> fmem st' (d + i) = fmem st (s + i).
Proof.
  intros Hrq Hty Hinv Hlive x pos Hn1 Hcap Hlt Hsp El1 El2 El3 Er1 Er2 Er3 Er4 Hd Hout.
  destruct (do_write_run drv st pc fd f p wmsg cnt s) as (st1 & E1 & [_ W1 _ W2 W3 _ W5 W6]); try done.
  destruct Hrq as [Hfile Hreg Hflat _ _ Hcnt Hpos2 _ _ _].
  fold x pos in W1, W2, W3, Hpos2, Hreg. pose proof Hfile as [_ _ _ _ _ Hp _ Hpos]. fold pos in Hpos.
  assert (Ef1 : fd_table st1 f = set_fd_pos (pos + cnt) (fd_table st f)) by (rewrite W3; apply upd_eq).
  assert (Hfile1 : open_file st1 pc fd f p)
    by (apply (open_file_ext st); rewrite ?Ef1; try done; cbn; lia).
  set (y := set_i_size (Z.max (i_size x) (pos + cnt)) x) in *.
  assert (Ey : inode_table st1 p = y) by (rewrite W2; apply upd_eq).
  assert (Hregy : regular y) by (destruct Hreg; split; cbn; try done; lia).
  rewrite (bind_run _ _ _ _ _ E1).
  destruct (do_lseek_run st1 pc fd f p lmsg) as (st2 & E2 & Ef & Est); rewrite ?Ey; try done; [by left|].
  rewrite Ey in Ef, E2. rewrite (bind_run _ _ _ _ _ E2).
  assert (Hr : SET_RANGE (seek_target (WHENCE lmsg) (OFFSET lmsg) (fd_pos (fd_table st1 f)) (i_size y)) 0
    (i_nr_sects y * SECTOR_SIZE - 1) = pos).
  { unfold seek_target. rewrite El2, El3. change (SEEK_SET =? SEEK_SET) with true. cbv iota.
    apply SET_RANGE_id. cbn. lia. }
  rewrite Hr in Ef. clear E2 Hr.
  assert (Ef2 : fd_table st2 f = set_fd_pos pos (fd_table st1 f)) by (rewrite Ef; apply upd_eq).
  assert (Hk : kern st2 = kern st1) by (by rewrite Est).
  assert (Hit : inode_table st2 p = y) by (by rewrite Est).
  assert (Hdk : rdisk st2 = rdisk st1) by (by rewrite Est).
  assert (Hlds : forall i, ldts (proc_table (kern st2) i) = ldts (proc_table (kern st) i))
    by (intros i; by rewrite Hk, W5).
  destruct (do_read_run drv st2 pc fd f p rmsg cnt d) as (st3 & E3 & [Hri _] & _).
  - split; rewrite ?Hit, ?Ef2; try done.
    + apply (open_file_ext st1); rewrite ?Hk, ?Ef2; done.
    + unfold flat. intros i Hi. rewrite Hlds. by apply Hflat.
    + rewrite Hd. unfold la_of. by rewrite Hlds.
  - done.
  - rewrite Hit, Ef2. cbn. lia.
  - rewrite Hit, Ef2. cbn [fd_pos set_fd_pos i_size y set_i_size].
    replace (Z.min cnt (Z.max (i_size x) (pos + cnt) - pos)) with cnt by lia. done.
  - rewrite Hit, Ef2 in E3, Hri. cbn [fd_pos set_fd_pos i_size y set_i_size] in E3, Hri.
    replace (Z.min cnt (Z.max (i_size x) (pos + cnt) - pos)) with cnt in * by lia.
    exists st3. split; [exact E3|]. intros i Hi. rewrite Hri by done. rewrite Hdk. by apply W1.
Qed.
