(* ===== verification/FsRef.v ===== *)
(** * Reference counts of open files (fs/open.c, fs/main.c)

    [fd_inv]: the count of every file descriptor is the number of process slots
    that refer to it, and the count of every cached inode is the number of slots
    that reach it (one more for the root directory). Closing, [fs_fork]
    and [fs_exit] keep it. The counts are sums over the tables ([zsum]). *)
From Stdlib Require Import FunctionalExtensionality.
From S2P Require Import Prelude Const CLib Protect Proc Sys Fs FsOps FsLem FsRw.

(** ** Sums over an index range *)

Fixpoint zsum_n (n : nat) (g : Z -> Z) : Z :=
  match n with O => 0 | S n' => zsum_n n' g + g (Z.of_nat n') end.
(** [zsum n g = g 0 + ... + g (n - 1)] *)
Definition zsum (n : Z) (g : Z -> Z) : Z := zsum_n (Z.to_nat n) g.

Lemma zsum_n_ext n g g' : (forall i, 0 <= i < Z.of_nat n -> g i = g' i) -> zsum_n n g = zsum_n n g'.
Proof.
  induction n as [|n IH]; intros H; simpl; [done|]. rewrite IH by (intros; apply H; lia).
  by rewrite H by lia.
Qed.
Lemma zsum_ext n g g' : (forall i, 0 <= i < n -> g i = g' i) -> zsum n g = zsum n g'.
Proof. intros H. apply zsum_n_ext. intros i Hi. apply H. lia. Qed.

(** changing one summand changes the sum by the difference *)
Lemma zsum_n_change n g g' k :
  0 <= k < Z.of_nat n -> (forall i, i <> k -> g' i = g i) -> zsum_n n g' = zsum_n n g + (g' k - g k).
Proof.
  induction n as [|n IH]; intros Hk H; simpl; [lia|].
  destruct (decide (k = Z.of_nat n)) as [->|Hne].
  - rewrite (zsum_n_ext n g' g); [lia|]. intros i Hi. apply H. lia.
  - rewrite IH by (done || lia). rewrite (H (Z.of_nat n)) by lia. lia.
Qed.
Lemma zsum_change n g g' k :
  0 <= k < n -> (forall i, i <> k -> g' i = g i) -> zsum n g' = zsum n g + (g' k - g k).
Proof. intros Hk. apply zsum_n_change. lia. Qed.

Lemma zsum_n_le n g k : (forall i, 0 <= g i) -> 0 <= k < Z.of_nat n -> g k <= zsum_n n g.
Proof.
  intros Hg. assert (Hp : forall m, 0 <= zsum_n m g).
  { intros m. induction m as [|m IH]; simpl; [lia|]. specialize (Hg (Z.of_nat m)). lia. }
  induction n as [|n IH]; intros Hk; simpl; [lia|]. pose proof (Hp n). pose proof (Hg (Z.of_nat n)).
  destruct (decide (k = Z.of_nat n)) as [->|]; [lia|]. specialize (IH ltac:(lia)). lia.
Qed.
Lemma zsum_le n g k : (forall i, 0 <= g i) -> 0 <= k < n -> g k <= zsum n g.
Proof. intros Hg Hk. apply zsum_n_le; [done|lia]. Qed.
Lemma zsum_n_nonneg n g : (forall i, 0 <= g i) -> 0 <= zsum_n n g.
Proof. intros Hg. induction n as [|n IH]; simpl; [lia|]. specialize (Hg (Z.of_nat n)). lia. Qed.
Lemma zsum_nonneg n g : (forall i, 0 <= g i) -> 0 <= zsum n g.
Proof. apply zsum_n_nonneg. Qed.

(** ** References *)

(** slot [i] of process [p] *)
Definition slots := Z -> Z -> option Z.
Definition filps (t : arr PROCESS) : slots := fun p i => filp (t p) i.
Definition set_slot (F : slots) (p i : Z) (o : option Z) : slots :=
  fun p' i' => if (p' =? p) && (i' =? i) then o else F p' i'.

(** the number of slots that refer to descriptor [f] *)
Definition is_ref (o : option Z) (f : Z) : Z := if decide (o = Some f) then 1 else 0.
Definition refs (F : slots) (f : Z) : Z :=
  zsum NR_ALL (fun p => zsum NR_FILES (fun i => is_ref (F p i) f)).

Lemma is_ref_nonneg o f : 0 <= is_ref o f.
Proof. unfold is_ref. case_decide; lia. Qed.

Lemma is_ref_none f : is_ref None f = 0.
Proof. done. Qed.
Lemma is_ref_some g f : is_ref (Some g) f = if decide (f = g) then 1 else 0.
Proof. unfold is_ref. repeat case_decide; congruence. Qed.

Lemma set_slot_eq F p i o : set_slot F p i o p i = o.
Proof. unfold set_slot. by rewrite !Z.eqb_refl. Qed.
Lemma set_slot_ne F p i o p' i' : p' <> p \/ i' <> i -> set_slot F p i o p' i' = F p' i'.
Proof.
  intros H. unfold set_slot. destruct (p' =? p) eqn:E1; [|done]. destruct (i' =? i) eqn:E2; [|done].
  zbool. lia.
Qed.

Lemma refs_set F p i o f : 0 <= p < NR_ALL -> 0 <= i < NR_FILES ->
  refs (set_slot F p i o) f = refs F f + (is_ref o f - is_ref (F p i) f).
Proof.
  intros Hp Hi. unfold refs. erewrite (zsum_change _ _ _ p Hp).
  - f_equal. erewrite (zsum_change _ (fun i0 => is_ref (F p i0) f) _ i Hi).
    + rewrite set_slot_eq. lia.
    + intros j Hj. by rewrite set_slot_ne by lia.
  - intros p' Hp'. apply zsum_ext. intros j _. by rewrite set_slot_ne by lia.
Qed.

Lemma refs_pos F p i f : 0 <= p < NR_ALL -> 0 <= i < NR_FILES -> F p i = Some f -> 0 < refs F f.
Proof.
  intros Hp Hi HF. unfold refs.
  pose proof (zsum_le NR_ALL (fun p => zsum NR_FILES (fun i => is_ref (F p i) f)) p
    ltac:(intros; apply zsum_nonneg; intros; apply is_ref_nonneg) Hp) as H1.
  pose proof (zsum_le NR_FILES (fun i => is_ref (F p i) f) i
    ltac:(intros; apply is_ref_nonneg) Hi) as H2. cbv beta in H1, H2.
  unfold is_ref in H2 at 1. rewrite decide_True in H2 by done. lia.
Qed.

Lemma refs_ext F F' f : (forall p i, 0 <= p < NR_ALL -> 0 <= i < NR_FILES -> F p i = F' p i) ->
  refs F f = refs F' f.
Proof. intros H. apply zsum_ext. intros p Hp. apply zsum_ext. intros i Hi. by rewrite H. Qed.

(** the references that reach inode [p] through the descriptors *)
Definition fd_use (x : file_desc) (p : Z) : Z := if decide (fd_inode x = Some p) then fd_cnt x else 0.
Definition uses (fdt : arr file_desc) (p : Z) : Z := zsum NR_FILE_DESC (fun f => fd_use (fdt f) p).

Lemma uses_upd fdt f x p : 0 <= f < NR_FILE_DESC ->
  uses (upd fdt f x) p = uses fdt p + (fd_use x p - fd_use (fdt f) p).
Proof.
  intros Hf. unfold uses. erewrite (zsum_change _ (fun f0 => fd_use (fdt f0) p) _ f Hf).
  - by rewrite upd_eq.
  - intros j Hj. by rewrite upd_ne.
Qed.

Record fd_inv (F : slots) (fdt : arr file_desc) (it : arr inode) (root : Z) : Prop := {
  fd_slot : forall p i f, 0 <= p < NR_ALL -> 0 <= i < NR_FILES -> F p i = Some f -> 0 <= f < NR_FILE_DESC;
  fd_refs : forall f, 0 <= f < NR_FILE_DESC ->
    match fd_inode (fdt f) with
    | Some p => 0 <= p < NR_INODE /\ fd_cnt (fdt f) = refs F f /\ 0 < refs F f
    | None => refs F f = 0
    end;
  fd_icnt : forall p, 0 <= p < NR_INODE ->
    i_cnt (it p) = uses fdt p + (if decide (p = root) then 1 else 0) }.

(** a slot in use reaches a descriptor in use *)
Lemma fd_inv_slot F fdt it root p i f : fd_inv F fdt it root ->
  0 <= p < NR_ALL -> 0 <= i < NR_FILES -> F p i = Some f ->
  0 <= f < NR_FILE_DESC /\ exists x, fd_inode (fdt f) = Some x /\ 0 <= x < NR_INODE /\
    fd_cnt (fdt f) = refs F f.
Proof.
  intros [H1 H2 _] Hp Hi HF. pose proof (H1 p i f Hp Hi HF) as Hf. split; [done|].
  specialize (H2 f Hf). pose proof (refs_pos F p i f Hp Hi HF).
  destruct (fd_inode (fdt f)) as [x|]; [|lia]. exists x. tauto.
Qed.

(** ** One reference more, one less *)

(** slot [i] of process [p], free before, comes to refer to [f] as well *)
Lemma fd_inv_add F fdt it root p i f x :
  fd_inv F fdt it root -> 0 <= p < NR_ALL -> 0 <= i < NR_FILES -> F p i = None ->
  0 <= f < NR_FILE_DESC -> fd_inode (fdt f) = Some x ->
  fd_inv (set_slot F p i (Some f)) (upd fdt f (set_fd_cnt (fd_cnt (fdt f) + 1) (fdt f)))
    (upd it x (set_i_cnt (i_cnt (it x) + 1) (it x))) root.
Proof.
  intros [H1 H2 H3] Hp Hi HF Hf Hx. pose proof (H2 f Hf) as Hf2. rewrite Hx in Hf2.
  destruct Hf2 as (Hxr & Hc & Hpos). split.
  - intros p' i' f' Hp' Hi' E. destruct (decide (p' = p /\ i' = i)) as [[-> ->]|Hn].
    + rewrite set_slot_eq in E. congruence.
    + rewrite set_slot_ne in E by lia. by eapply H1.
  - intros g Hg. rewrite refs_set by done. rewrite HF, is_ref_none, is_ref_some, upd_case. case_decide as Eg.
    + subst g. cbn. rewrite Hx. split; [done|]. lia.
    + specialize (H2 g Hg).
      destruct (fd_inode (fdt g)); [|lia]. destruct H2 as (? & ? & ?). split; [done|]. lia.
  - intros y Hy. rewrite uses_upd by done. rewrite upd_case. case_decide as Ey.
    + subst y. cbn. rewrite H3 by done. unfold fd_use. cbn. rewrite Hx. repeat case_decide; congruence || lia.
    + rewrite H3 by done. unfold fd_use. cbn. rewrite Hx. repeat case_decide; congruence || lia.
Qed.

(** a free descriptor for a free slot, on an inode whose count is raised *)
Lemma fd_inv_new F fdt it root p i f x flags :
  fd_inv F fdt it root -> 0 <= p < NR_ALL -> 0 <= i < NR_FILES -> F p i = None ->
  0 <= f < NR_FILE_DESC -> fd_inode (fdt f) = None -> 0 <= x < NR_INODE ->
  forall it', i_cnt (it' x) = i_cnt (it x) + 1 ->
  (forall y, y <> x -> i_cnt (it' y) = i_cnt (it y)) ->
  fd_inv (set_slot F p i (Some f)) (upd fdt f (mkFd flags 0 1 (Some x))) it' root.
Proof.
  intros [H1 H2 H3] Hp Hi HF Hf Hx Hxr it' Hc1 Hc2. pose proof (H2 f Hf) as Hf2. rewrite Hx in Hf2. split.
  - intros p' i' f' Hp' Hi' E. destruct (decide (p' = p /\ i' = i)) as [[-> ->]|Hn].
    + rewrite set_slot_eq in E. congruence.
    + rewrite set_slot_ne in E by lia. by eapply H1.
  - intros g Hg. rewrite refs_set by done. rewrite HF, is_ref_none, is_ref_some, upd_case. case_decide as Eg.
    + subst g. cbn. split; [done|]. lia.
    + specialize (H2 g Hg).
      destruct (fd_inode (fdt g)); [|lia]. destruct H2 as (? & ? & ?). split; [done|]. lia.
  - intros y Hy. rewrite uses_upd by done. unfold fd_use. cbn. rewrite Hx.
    destruct (decide (y = x)) as [->|Hne]; [rewrite Hc1, H3 by done|rewrite Hc2, H3 by done];
      repeat case_decide; congruence || lia.
Qed.

(** the descriptor when one reference to it goes *)
Definition drop_fd (x : file_desc) : file_desc :=
  let x' := set_fd_cnt (fd_cnt x - 1) x in
  if fd_cnt x' =? 0 then set_fd_inode None x' else x'.

Lemma fd_inv_drop F fdt it root p i f x :
  fd_inv F fdt it root -> 0 <= p < NR_ALL -> 0 <= i < NR_FILES -> F p i = Some f ->
  fd_inode (fdt f) = Some x ->
  fd_inv (set_slot F p i None) (upd fdt f (drop_fd (fdt f)))
    (upd it x (set_i_cnt (i_cnt (it x) - 1) (it x))) root.
Proof.
  intros Hinv Hp Hi HF Hx. destruct (fd_inv_slot _ _ _ _ _ _ _ Hinv Hp Hi HF) as (Hf & x' & Ex & Hxr & Hc).
  rewrite Hx in Ex. injection Ex as <-. destruct Hinv as [H1 H2 H3].
  pose proof (refs_pos F p i f Hp Hi HF) as Hpos. split.
  - intros p' i' f' Hp' Hi' E. destruct (decide (p' = p /\ i' = i)) as [[-> ->]|Hn].
    + by rewrite set_slot_eq in E.
    + rewrite set_slot_ne in E by lia. by eapply H1.
  - intros g Hg. rewrite refs_set by done. rewrite HF, is_ref_none, is_ref_some, upd_case. case_decide as Eg.
    + subst g. unfold drop_fd. cbn [fd_cnt set_fd_cnt].
      destruct (fd_cnt (fdt f) - 1 =? 0) eqn:E; zbool; cbn; [lia|]. rewrite Hx. split; [done|]. lia.
    + specialize (H2 g Hg).
      destruct (fd_inode (fdt g)); [|lia]. destruct H2 as (? & ? & ?). split; [done|]. lia.
  - assert (Hu : forall y, fd_use (drop_fd (fdt f)) y = fd_use (fdt f) y - (if decide (y = x) then 1 else 0)).
    { intros y. unfold fd_use, drop_fd. cbn [fd_cnt set_fd_cnt].
      destruct (fd_cnt (fdt f) - 1 =? 0) eqn:E; zbool; cbn; rewrite Hx; repeat case_decide; try congruence; lia. }
    intros y Hy. rewrite uses_upd, Hu by done. rewrite upd_case. case_decide as Ey.
    + subst y. cbn. rewrite H3 by done. lia.
    + rewrite H3 by done. lia.
Qed.

(** ** The tables of a state *)

Definition fd_ok (st : sys) : Prop :=
  fd_inv (filps (proc_table (kern st))) (fd_table st) (inode_table st) (root_inode st).

(** [filp[fd]] of process [pc] is set *)
Definition with_filp (pc fd : Z) (o : option Z) (k : kstate) : kstate :=
  let p := proc_table k pc in
  set_proc_table (upd (proc_table k) pc (set_filp (upd (filp p) fd o) p)) k.

Lemma filps_with_filp pc fd o k :
  filps (proc_table (with_filp pc fd o k)) = set_slot (filps (proc_table k)) pc fd o.
Proof.
  extensionality p. extensionality i. unfold filps, with_filp, set_slot. cbn.
  unfold upd at 1. destruct (p =? pc) eqn:E; [|done]. zbool. subst. cbn. unfold upd. by destruct (i =? fd).
Qed.

Lemma set_filp_run pc fd o st : 0 <= pc < NR_ALL ->
  set_filp_at pc fd o st = Ok tt (set_kern (with_filp pc fd o (kern st)) st).
Proof. intros Hp%in_table_iff. unfold set_filp_at, lift. by rewrite modp_run. Qed.

(** the state when slot [fd] of [pc] gives up descriptor [f] on inode [x] *)
Definition drop_slot (pc fd f x : Z) (st : sys) : sys :=
  mkSys (with_filp pc fd None (kern st)) (upd (fd_table st) f (drop_fd (fd_table st f)))
    (upd (inode_table st) x (set_i_cnt (i_cnt (inode_table st x) - 1) (inode_table st x)))
    (super_blocks st) (sb_tmp st) (root_inode st) (disk st).

Lemma drop_slot_ok pc fd f x st :
  fd_ok st -> 0 <= pc < NR_ALL -> 0 <= fd < NR_FILES ->
  filp (proc_table (kern st) pc) fd = Some f -> fd_inode (fd_table st f) = Some x ->
  fd_ok (drop_slot pc fd f x st).
Proof.
  intros Hok Hp Hfd HF Hx. unfold fd_ok, drop_slot. cbn [kern fd_table inode_table root_inode].
  rewrite filps_with_filp. by apply fd_inv_drop.
Qed.

(** the two updates of the descriptor and the clearing of the slot *)
Lemma drop_tail_run pc fd f st (Hp : 0 <= pc < NR_ALL) (Hf : 0 <= f < NR_FILE_DESC) :
  (modfd f (fun x => set_fd_cnt (fd_cnt x - 1) x) ;;
   x ← getfd f;
   when (fd_cnt x =? 0) (modfd f (set_fd_inode None)) ;;
   set_filp_at pc fd None) st =
  Ok tt (set_kern (with_filp pc fd None (kern st)) (set_fd_table (upd (fd_table st) f (drop_fd (fd_table st f))) st)).
Proof.
  rewrite (bind_run _ _ _ _ _ (modfd_run f _ st Hf)).
  rewrite (bind_run _ _ _ _ _ (getfd_run f _ Hf)). cbn [fd_table set_fd_table]. rewrite upd_eq.
  unfold drop_fd, when. destruct (fd_cnt (set_fd_cnt _ _) =? 0).
  - rewrite (bind_run _ _ _ _ _ (modfd_run f _ _ Hf)). cbn [fd_table set_fd_table].
    rewrite upd_eq, upd_upd. by rewrite set_filp_run.
  - rewrite (bind_run (ret tt) _ _ tt _ eq_refl). by rewrite set_filp_run.
Qed.

Lemma uses_pos F fdt it root f x : fd_inv F fdt it root -> 0 <= f < NR_FILE_DESC ->
  fd_inode (fdt f) = Some x -> 0 <= x < NR_INODE /\ 0 < fd_cnt (fdt f) <= i_cnt (it x).
Proof.
  intros [_ H2 H3] Hf Hx. pose proof (H2 f Hf) as H. rewrite Hx in H. destruct H as (Hxr & Hc & Hp).
  split; [done|]. rewrite H3 by done.
  assert (H : fd_use (fdt f) x <= uses fdt x).
  { unfold uses. rewrite (zsum_ext _ (fun f => fd_use (fdt f) x) (fun f => Z.max 0 (fd_use (fdt f) x))).
    - transitivity (Z.max 0 (fd_use (fdt f) x)); [lia|].
      apply (zsum_le NR_FILE_DESC (fun f => Z.max 0 (fd_use (fdt f) x)) f); [lia|done].
    - intros g Hg. unfold fd_use. case_decide as E; [|done]. specialize (H2 g Hg). rewrite E in H2. lia. }
  unfold fd_use in H at 1. rewrite decide_True in H by done. case_decide; lia.
Qed.

(** ** [do_close] *)

Lemma do_close_run pc msg f x st :
  fd_ok st -> 0 <= pc < NR_ALL -> 0 <= FD msg < NR_FILES ->
  filp (proc_table (kern st) pc) (FD msg) = Some f -> fd_inode (fd_table st f) = Some x ->
  do_close pc msg st = Ok 0 (drop_slot pc (FD msg) f x st).
Proof.
  intros Hok Hp Hfd HF Hx.
  destruct (fd_inv_slot _ _ _ _ _ _ _ Hok Hp Hfd HF) as (Hf & x' & Ex & Hxr & _).
  rewrite Hx in Ex. injection Ex as <-. destruct (uses_pos _ _ _ _ _ _ Hok Hf Hx) as (_ & Hc).
  unfold do_close. rewrite (proj2 (Z.ltb_ge _ _)), (proj2 (Z.leb_gt _ _)) by lia. cbn [orb].
  rewrite (bind_run _ _ _ _ _ (getf_run pc (FD msg) st Hp)), HF.
  rewrite (bind_run (deref (Some f)) _ st f st eq_refl), (bind_run _ _ _ _ _ (getfd_run f st Hf)), Hx.
  rewrite (bind_run (deref (Some x)) _ st x st eq_refl).
  assert (Ep : put_inode x st = Ok tt (set_inode_table (upd (inode_table st) x
    (set_i_cnt (i_cnt (inode_table st x) - 1) (inode_table st x))) st)).
  { unfold put_inode. rewrite (bind_run _ _ _ _ _ (geti_run x st Hxr)).
    rewrite bind_assert by (apply Z.ltb_lt; lia). by rewrite modi_run. }
  rewrite (bind_run _ _ _ _ _ Ep).
  match goal with |- ?c ?s = _ => transitivity
    (bind (modfd f (fun x => set_fd_cnt (fd_cnt x - 1) x) ;; x ← getfd f;
       when (fd_cnt x =? 0) (modfd f (set_fd_inode None)) ;; set_filp_at pc (FD msg) None) (fun _ => ret 0) s) end.
  { unfold bind. repeat (case_match; try done). all: congruence. }
  by rewrite (bind_run _ _ _ _ _ (drop_tail_run pc (FD msg) f _ Hp Hf)).
Qed.

(** ** [fs_exit] *)

(** the slots [lo .. hi - 1] of process [pc] are cleared, the rest of the kernel's
    state stays *)
Definition cleared (pc lo hi : Z) (k : kstate) : kstate :=
  let p := proc_table k pc in
  set_proc_table (upd (proc_table k) pc
    (set_filp (fun j => if (lo <=? j) && (j <? hi) then None else filp p j) p)) k.

Lemma cleared_step pc i hi k k' :
  i < hi -> k' = k \/ k' = with_filp pc i None k -> (k' = k -> filp (proc_table k pc) i = None) ->
  cleared pc (i + 1) hi k' = cleared pc i hi k.
Proof.
  intros Hi Hk Hn. unfold cleared.
  assert (E : set_filp (fun j => if (i + 1 <=? j) && (j <? hi) then None else filp (proc_table k' pc) j)
      (proc_table k' pc) =
    set_filp (fun j => if (i <=? j) && (j <? hi) then None else filp (proc_table k pc) j) (proc_table k pc)).
  { destruct Hk as [-> | ->].
    - f_equal. extensionality j. destruct (decide (j = i)) as [->|].
      + rewrite (Hn eq_refl), (proj2 (Z.leb_gt (i + 1) i)), Z.leb_refl, (proj2 (Z.ltb_lt i hi)) by lia. done.
      + replace (i + 1 <=? j) with (i <=? j); [done|]. apply eq_true_iff_eq. rewrite !Z.leb_le. lia.
    - unfold with_filp. cbn [proc_table set_proc_table]. rewrite upd_eq. unfold set_filp. cbn. f_equal.
      extensionality j. rewrite upd_case. case_decide as Ej.
      + subst j. rewrite (proj2 (Z.leb_gt (i + 1) i)), Z.leb_refl, (proj2 (Z.ltb_lt i hi)) by lia. done.
      + replace (i + 1 <=? j) with (i <=? j); [done|]. apply eq_true_iff_eq. rewrite !Z.leb_le. lia. }
  rewrite E. destruct Hk as [-> | ->]; [done|]. unfold with_filp. cbn [proc_table set_proc_table].
  rewrite upd_upd. by destruct k.
Qed.

Lemma cleared_none pc hi k : cleared pc hi hi k = k.
Proof.
  unfold cleared. assert (E : set_filp (fun j => if (hi <=? j) && (j <? hi) then None else filp (proc_table k pc) j)
    (proc_table k pc) = proc_table k pc).
  { transitivity (set_filp (filp (proc_table k pc)) (proc_table k pc)); [|by destruct (proc_table k pc)].
    f_equal. extensionality j. destruct (hi <=? j) eqn:E1; [|done]. zbool.
    by rewrite (proj2 (Z.ltb_ge j hi)) by lia. }
  rewrite E, upd_same. by destruct k.
Qed.

(** what FS leaves alone when it changes references *)
Record refs_only (st st' : sys) : Prop := {
  ro_mem : memory (kern st') = memory (kern st);
  ro_disk : disk st' = disk st;
  ro_sb : super_blocks st' = super_blocks st;
  ro_root : root_inode st' = root_inode st;
  ro_words : forall x, disk_words (inode_table st' x) = disk_words (inode_table st x) }.

Lemma refs_only_refl st : refs_only st st.
Proof. done. Qed.
Lemma refs_only_trans st1 st2 st3 : refs_only st1 st2 -> refs_only st2 st3 -> refs_only st1 st3.
Proof. intros [] []. split; congruence. Qed.

Lemma drop_slot_refs pc fd f x st : refs_only st (drop_slot pc fd f x st).
Proof.
  split; try done. intros y. unfold drop_slot. cbn [inode_table]. rewrite upd_case. case_decide; [subst|]; done.
Qed.

(** one round of the loop for a slot in use *)
Lemma exit_slot_run pc i f x st :
  fd_ok st -> 0 <= pc < NR_ALL -> 0 <= i < NR_FILES ->
  filp (proc_table (kern st) pc) i = Some f -> fd_inode (fd_table st f) = Some x ->
  (x ← getfd f;
   p ← deref (fd_inode x);
   modi p (fun y => set_i_cnt (i_cnt y - 1) y) ;;
   modfd f (fun x => set_fd_cnt (fd_cnt x - 1) x) ;;
   x ← getfd f;
   when (fd_cnt x =? 0) (modfd f (set_fd_inode None)) ;;
   set_filp_at pc i None) st = Ok tt (drop_slot pc i f x st).
Proof.
  intros Hok Hp Hi HF Hx.
  destruct (fd_inv_slot _ _ _ _ _ _ _ Hok Hp Hi HF) as (Hf & x' & Ex & Hxr & _).
  rewrite Hx in Ex. injection Ex as <-.
  rewrite (bind_run _ _ _ _ _ (getfd_run f st Hf)), Hx.
  rewrite (bind_run (deref (Some x)) _ st x st eq_refl), (bind_run _ _ _ _ _ (modi_run x _ st Hxr)).
  by rewrite drop_tail_run.
Qed.

Lemma fs_exit_loop_run n pid i st :
  fd_ok st -> 0 <= pid < NR_ALL -> 0 <= i -> i + Z.of_nat n = NR_FILES ->
  exists st', fs_exit_loop n pid i st = Ok tt st' /\ fd_ok st' /\
    kern st' = cleared pid i NR_FILES (kern st) /\ refs_only st st'.
Proof.
  revert i st. induction n as [|n IH]; intros i st Hok Hp Hi Hn; cbn [fs_exit_loop].
  { exists st. split; [done|]. split; [done|]. replace i with NR_FILES by lia.
    rewrite cleared_none. split; [done|apply refs_only_refl]. }
  rewrite (bind_run _ _ _ _ _ (getf_run pid i st Hp)).
  destruct (filp (proc_table (kern st) pid) i) as [f|] eqn:HF.
  - assert (Hi' : 0 <= i < NR_FILES) by lia.
    destruct (fd_inv_slot _ _ _ _ _ _ _ Hok Hp Hi' HF) as (Hf & x & Hx & Hxr & _).
    rewrite (bind_run _ _ _ _ _ (exit_slot_run pid i f x st Hok Hp Hi' HF Hx)).
    destruct (IH (i + 1) (drop_slot pid i f x st)) as (st' & E & Hok' & Hk & Hr); [|done|lia|lia|].
    { by apply drop_slot_ok. }
    exists st'. split; [done|]. split; [done|]. split.
    + rewrite Hk. apply cleared_step; [lia|by right|].
      intros E'. apply (f_equal (fun k => filp (proc_table k pid) i)) in E'. cbn in E'.
      rewrite upd_eq in E'. cbn in E'. rewrite upd_eq in E'. congruence.
    + eapply refs_only_trans; [apply drop_slot_refs|done].
  - rewrite (bind_run (ret tt) _ st tt st eq_refl).
    destruct (IH (i + 1) st) as (st' & E & Hok' & Hk & Hr); [done|done|lia|lia|].
    exists st'. split; [done|]. split; [done|]. split; [|done].
    rewrite Hk. apply cleared_step; [lia|by left|done].
Qed.

Lemma fs_exit_run pid st : fd_ok st -> 0 <= pid < NR_ALL ->
  exists st', fs_exit pid st = Ok tt st' /\ fd_ok st' /\
    kern st' = cleared pid 0 NR_FILES (kern st) /\ refs_only st st'.
Proof. intros Hok Hp. apply fs_exit_loop_run; [done|done|lia|done]. Qed.

(** ** [fs_fork] *)

(** the slots of process [pid] are not counted from slot [i] on *)
Definition without (F : slots) (pid i : Z) : slots :=
  fun p j => if (p =? pid) && (i <=? j) then None else F p j.

Lemma without_step F pid i : set_slot (without F pid i) pid i (F pid i) = without F pid (i + 1).
Proof.
  extensionality p. extensionality j. unfold set_slot, without.
  destruct (p =? pid) eqn:E; cbn [andb]; [|done]. destruct (j =? i) eqn:E2; zbool.
  - subst. by rewrite (proj2 (Z.leb_gt (i + 1) i)) by lia.
  - replace (i + 1 <=? j) with (i <=? j); [done|]. apply eq_true_iff_eq. rewrite !Z.leb_le. lia.
Qed.
Lemma without_here F pid i : without F pid i pid i = None.
Proof. unfold without. by rewrite Z.eqb_refl, Z.leb_refl. Qed.

Lemma without_none F pid i : F pid i = None -> without F pid i = without F pid (i + 1).
Proof.
  intros H. rewrite <- without_step, H. extensionality p. extensionality j.
  destruct (decide (p = pid /\ j = i)) as [[-> ->]|Hn].
  - by rewrite set_slot_eq, without_here.
  - by rewrite set_slot_ne by lia.
Qed.

Definition fd_ok_without (st : sys) (pid i : Z) : Prop :=
  fd_inv (without (filps (proc_table (kern st))) pid i) (fd_table st) (inode_table st) (root_inode st).

(** descriptors a process refers to are in use *)
Definition files_in_use (st : sys) (pid : Z) : Prop :=
  forall i f, 0 <= i < NR_FILES -> filp (proc_table (kern st) pid) i = Some f ->
    0 <= f < NR_FILE_DESC /\ fd_inode (fd_table st f) <> None.

Lemma fs_fork_loop_run n pid i st :
  fd_ok_without st pid i -> files_in_use st pid -> 0 <= pid < NR_ALL -> 0 <= i -> i + Z.of_nat n = NR_FILES ->
  exists st', fs_fork_loop n pid i st = Ok tt st' /\ fd_ok_without st' pid NR_FILES /\
    kern st' = kern st /\ refs_only st st'.
Proof.
  revert i st. induction n as [|n IH]; intros i st Hok Huse Hp Hi Hn; cbn [fs_fork_loop].
  { exists st. replace NR_FILES with i by lia. split; [done|]. split; [done|]. split; [done|apply refs_only_refl]. }
  rewrite (bind_run _ _ _ _ _ (getf_run pid i st Hp)).
  destruct (filp (proc_table (kern st) pid) i) as [f|] eqn:HF.
  - destruct (Huse i f ltac:(clia) HF) as [Hf Hx0].
    destruct (fd_inode (fd_table st f)) as [x|] eqn:Hx; [|done].
    destruct (uses_pos _ _ _ _ _ _ Hok Hf Hx) as (Hxr & _).
    set (st1 := set_inode_table (upd (inode_table st) x (set_i_cnt (i_cnt (inode_table st x) + 1) (inode_table st x)))
      (set_fd_table (upd (fd_table st) f (set_fd_cnt (fd_cnt (fd_table st f) + 1) (fd_table st f))) st)).
    assert (E1 : (modfd f (fun x => set_fd_cnt (fd_cnt x + 1) x) ;; x ← getfd f; p ← deref (fd_inode x);
      modi p (fun y => set_i_cnt (i_cnt y + 1) y)) st = Ok tt st1).
    { rewrite (bind_run _ _ _ _ _ (modfd_run f _ st Hf)), (bind_run _ _ _ _ _ (getfd_run f _ Hf)).
      cbn [fd_table set_fd_table]. rewrite upd_eq. cbn [fd_inode set_fd_cnt]. rewrite Hx.
      rewrite (bind_run (deref (Some x)) _ _ x _ eq_refl). by rewrite modi_run. }
    rewrite (bind_run _ _ _ _ _ E1).
    destruct (IH (i + 1) st1) as (st' & E & Hok' & Hk & Hr); [| |done|lia|lia|].
    + unfold fd_ok_without. rewrite <- without_step. unfold filps at 2. cbn [kern st1 set_inode_table set_fd_table].
      rewrite HF. apply fd_inv_add; [exact Hok|done|clia|apply without_here|done|done].
    + intros j g Hj Hg. destruct (Huse j g Hj Hg) as [Hg1 Hg2]. split; [done|].
      cbn [fd_table st1 set_inode_table set_fd_table]. rewrite upd_case. case_decide; [|done]. cbn. congruence.
    + exists st'. split; [done|]. split; [done|]. split; [done|].
      eapply refs_only_trans; [|exact Hr]. split; try done. intros y. cbn [inode_table st1 set_inode_table].
      rewrite upd_case. case_decide; [subst|]; done.
  - rewrite (bind_run (ret tt) _ st tt st eq_refl).
    destruct (IH (i + 1) st) as (st' & E & Hok' & Hk & Hr); [|done|done|lia|lia|eauto 10].
    unfold fd_ok_without. rewrite <- without_none; [exact Hok|exact HF].
Qed.

(** the references of a process that was just copied become counted *)
Lemma fs_fork_run pid st : fd_ok_without st pid 0 -> files_in_use st pid -> 0 <= pid < NR_ALL ->
  exists st', fs_fork pid st = Ok tt st' /\ fd_ok st' /\ kern st' = kern st /\ refs_only st st'.
Proof.
  intros Hok Huse Hp. destruct (fs_fork_loop_run (Z.to_nat NR_FILES) pid 0 st) as (st' & E & [H1 H2 H3] & Hk & Hr);
    [done|done|done|lia|done|].
  exists st'. split; [done|]. split; [|done].
  assert (HE : forall p i, 0 <= p < NR_ALL -> 0 <= i < NR_FILES ->
    without (filps (proc_table (kern st'))) pid NR_FILES p i = filps (proc_table (kern st')) p i).
  { intros p i _ Hi. unfold without. rewrite (proj2 (Z.leb_gt NR_FILES i)) by lia. by rewrite andb_false_r. }
  split.
  - intros p i f Hp' Hi HF. apply (H1 p i f Hp' Hi). by rewrite HE.
  - intros f Hf. rewrite <- (refs_ext _ _ f HE). by apply H2.
  - done.
Qed.

(** ** Properties *)

(** C30: Close, on its branches. A descriptor number out of range is refused with -1
    and nothing changes. A slot in use is freed: the count of its descriptor goes
    down by one (the last one frees the descriptor), so does the count of the
    inode, and all reference counts are exact again; the disk, the memory and the
    other slots stay. A slot that is not in use is dereferenced all the same. *)
Theorem close_spec pc msg st :
  fd_ok st -> 0 <= pc < NR_ALL ->
  (FD msg < 0 \/ NR_FILES <= FD msg -> do_close pc msg st = Ok (-1) st) /\
  (forall f, 0 <= FD msg < NR_FILES -> filp (proc_table (kern st) pc) (FD msg) = Some f ->
     exists st' x, do_close pc msg st = Ok 0 st' /\ fd_ok st' /\ refs_only st st' /\
       fd_inode (fd_table st f) = Some x /\
       i_cnt (inode_table st' x) = i_cnt (inode_table st x) - 1 /\
       fd_cnt (fd_table st' f) = fd_cnt (fd_table st f) - 1 /\
       fd_inode (fd_table st' f) = (if fd_cnt (fd_table st f) =? 1 then None else Some x) /\
       (forall p i, filp (proc_table (kern st') p) i =
          if (p =? pc) && (i =? FD msg) then None else filp (proc_table (kern st) p) i)) /\
  (0 <= FD msg < NR_FILES -> filp (proc_table (kern st) pc) (FD msg) = None ->
     do_close pc msg st = Halt HFault).
Proof.
  intros Hok Hp. split; [|split].
  - intros Hr. unfold do_close. replace ((FD msg <? 0) || (NR_FILES <=? FD msg)) with true; [done|].
    symmetry. apply orb_true_iff. rewrite Z.ltb_lt, Z.leb_le. lia.
  - intros f Hr HF. destruct (fd_inv_slot _ _ _ _ _ _ _ Hok Hp Hr HF) as (Hf & x & Hx & Hxr & Hc).
    exists (drop_slot pc (FD msg) f x st), x. split; [by apply do_close_run|].
    split; [by apply drop_slot_ok|]. split; [apply drop_slot_refs|]. split; [done|].
    unfold drop_slot. cbn [inode_table fd_table kern]. rewrite !upd_eq. split; [reflexivity|].
    unfold drop_fd. cbn [fd_cnt set_fd_cnt]. split; [by destruct (_ =? 0)|]. split.
    + replace (fd_cnt (fd_table st f) - 1 =? 0) with (fd_cnt (fd_table st f) =? 1)
        by (apply eq_true_iff_eq; rewrite !Z.eqb_eq; lia).
      destruct (_ =? 1); [done|]. cbn. exact Hx.
    + intros p i. exact (f_equal (fun F => F p i) (filps_with_filp pc (FD msg) None (kern st))).
  - intros Hr HF. unfold do_close. rewrite (proj2 (Z.ltb_ge _ _)), (proj2 (Z.leb_gt _ _)) by lia. cbn [orb].
    by rewrite (bind_run _ _ _ _ _ (getf_run pc (FD msg) st Hp)), HF.
Qed.
