(* ===== verification/Sched.v ===== *)
(** * The scheduler (kernel/proc.c: schedule, block, unblock)

    [schedule] looks for the runnable process ([p_flags == 0]) with most ticks
    left; when every runnable one has run out it gives each its priority again
    and looks once more. The loop of the code has no bound: [schedule_loop] runs
    it with fuel, [schedule] takes two rounds, and [schedule_spins] shows that
    when two rounds do not settle, no number of rounds does. *)
From S2P Require Import Prelude Const Protect Proc.

(** ** Definitions *)

Definition runnable (p : PROCESS) : bool := p_flags p =? 0.

(** the search [for (p = &FIRST_PROC; p <= &LAST_PROC; p++)]: greatest ticks so
    far and the process that has them *)
Fixpoint sched_scan (n : nat) (i : Z) (t : arr PROCESS) (greatest ready : Z) : Z * Z :=
  match n with
  | O => (greatest, ready)
  | S n' =>
      if runnable (t i) && (greatest <? p_ticks (t i))
      then sched_scan n' (i + 1) t (p_ticks (t i)) i
      else sched_scan n' (i + 1) t greatest ready
  end.

(** the refill loop: [if (p->p_flags == 0) p->ticks = p->priority] *)
Definition sched_refill (t : arr PROCESS) : arr PROCESS :=
  fun i => if in_table i && runnable (t i) then set_p_ticks (priority (t i)) (t i) else t i.

Fixpoint schedule_loop (fuel : nat) : M kstate unit :=
  fun st =>
  match fuel with
  | O => Halt HSpin
  | S fuel' =>
      let '(greatest, ready) :=
        sched_scan (Z.to_nat NR_ALL) 0 (proc_table st) 0 (p_proc_ready st) in
      let st1 := set_p_proc_ready ready st in
      if greatest =? 0
      then schedule_loop fuel' (set_proc_table (sched_refill (proc_table st1)) st1)
      else Ok tt st1
  end.

Definition schedule : M kstate unit := schedule_loop 2.

Definition block (p : Z) : M kstate unit :=
  pr ← getp p; assert_ (negb (p_flags pr =? 0)) ;; schedule.

Definition unblock (p : Z) : M kstate unit :=
  pr ← getp p; assert_ (p_flags pr =? 0).

(** ** What one search finds *)

Lemma sched_scan_spec n i t g r :
  0 <= g ->
  let '(g', r') := sched_scan n i t g r in
  g <= g' /\
  (forall j, i <= j < i + Z.of_nat n -> runnable (t j) = true -> p_ticks (t j) <= g') /\
  ((g' = g /\ r' = r) \/
   (g < g' /\ i <= r' < i + Z.of_nat n /\ runnable (t r') = true /\ p_ticks (t r') = g' /\
    forall j, i <= j < r' -> runnable (t j) = true -> p_ticks (t j) < g')).
Proof.
  revert i g r. induction n as [|n IH]; intros i g r Hg; cbn [sched_scan].
  { split; [lia|]. split; [intros; lia|]. by left. }
  destruct (runnable (t i) && (g <? p_ticks (t i))) eqn:E.
  - apply andb_true_iff in E as [Er Et]. zbool.
    specialize (IH (i + 1) (p_ticks (t i)) i ltac:(lia)).
    destruct (sched_scan n (i + 1) t (p_ticks (t i)) i) as [g' r'].
    destruct IH as (Hle & Hall & Hcase). split; [lia|]. split.
    + intros j Hj Hr. destruct (decide (j = i)) as [->|]; [lia|]. apply Hall; [lia|done].
    + right. destruct Hcase as [[-> ->]|(Hlt & Hin & Hrun & Htk & Hfirst)].
      * repeat split; done || lia.
      * repeat split; try done; try lia. intros j Hj Hr.
        destruct (decide (j = i)) as [->|]; [lia|]. apply Hfirst; [lia|done].
  - specialize (IH (i + 1) g r Hg).
    destruct (sched_scan n (i + 1) t g r) as [g' r'].
    assert (Hi : runnable (t i) = true -> p_ticks (t i) <= g).
    { intros Hr. rewrite Hr in E. simpl in E. zbool. lia. }
    destruct IH as (Hle & Hall & Hcase). split; [lia|]. split.
    + intros j Hj Hr. destruct (decide (j = i)) as [->|].
      * specialize (Hi Hr). lia.
      * apply Hall; [lia|done].
    + destruct Hcase as [[-> ->]|(Hlt & Hin & Hrun & Htk & Hfirst)]; [by left|].
      right. repeat split; try done; try lia. intros j Hj Hr.
      destruct (decide (j = i)) as [->|]; [specialize (Hi Hr); lia|].
      apply Hfirst; [lia|done].
Qed.

(** [best t r]: process [r] is runnable, has ticks left, no runnable process has
    more, and none before it in the table has as many. *)
Definition best (t : arr PROCESS) (r : Z) : Prop :=
  0 <= r < NR_ALL /\ runnable (t r) = true /\ 0 < p_ticks (t r) /\
  (forall j, 0 <= j < NR_ALL -> runnable (t j) = true -> p_ticks (t j) <= p_ticks (t r)) /\
  (forall j, 0 <= j < r -> runnable (t j) = true -> p_ticks (t j) < p_ticks (t r)).

(** no runnable process has ticks left *)
Definition exhausted (t : arr PROCESS) : Prop :=
  forall j, 0 <= j < NR_ALL -> runnable (t j) = true -> p_ticks (t j) <= 0.

Lemma sched_scan_top t r :
  let '(g', r') := sched_scan (Z.to_nat NR_ALL) 0 t 0 r in
  (g' = 0 /\ r' = r /\ exhausted t) \/ (g' <> 0 /\ best t r').
Proof.
  pose proof (sched_scan_spec (Z.to_nat NR_ALL) 0 t 0 r ltac:(lia)) as H.
  change (Z.of_nat (Z.to_nat NR_ALL)) with NR_ALL in H. rewrite !Z.add_0_l in H.
  destruct (sched_scan _ _ _ _ _) as [g' r'].
  destruct H as (Hle & Hall & [[-> ->]|(Hlt & Hin & Hrun & Htk & Hfirst)]).
  - left. repeat split. intros j Hj Hr. by apply Hall.
  - right. split; [lia|]. rewrite <- Htk in *. repeat split; try done; try lia.
Qed.

(** One round either settles or refills. *)
Lemma schedule_loop_S fuel st :
  (exhausted (proc_table st) /\
   schedule_loop (S fuel) st =
     schedule_loop fuel (set_proc_table (sched_refill (proc_table st)) st)) \/
  (exists r, best (proc_table st) r /\
   schedule_loop (S fuel) st = Ok tt (set_p_proc_ready r st)).
Proof.
  cbn [schedule_loop]. pose proof (sched_scan_top (proc_table st) (p_proc_ready st)) as H.
  destruct (sched_scan _ _ _ _ _) as [g r].
  destruct H as [(-> & -> & He)|(Hg & Hb)].
  - left. split; [done|]. by destruct st.
  - right. exists r. rewrite (proj2 (Z.eqb_neq g 0) Hg). done.
Qed.

Lemma sched_refill_flags t i : p_flags (sched_refill t i) = p_flags (t i).
Proof. unfold sched_refill. by destruct (in_table i && runnable (t i)). Qed.

Lemma sched_refill_runnable t i : runnable (sched_refill t i) = runnable (t i).
Proof. unfold runnable. by rewrite sched_refill_flags. Qed.

Lemma sched_refill_ticks t i : 0 <= i < NR_ALL -> runnable (t i) = true ->
  p_ticks (sched_refill t i) = priority (t i).
Proof. intros Hi%in_table_iff Hr. unfold sched_refill. by rewrite Hi, Hr. Qed.

Lemma sched_refill_priority t i : priority (sched_refill t i) = priority (t i).
Proof. unfold sched_refill. by destruct (in_table i && runnable (t i)). Qed.

(** a process the scheduler can pick, now or after a refill *)
Definition can_run (t : arr PROCESS) (j : Z) : Prop :=
  0 <= j < NR_ALL /\ runnable (t j) = true /\ 0 < priority (t j).

(** ** The result of [schedule] *)

(** the table [schedule] leaves: refilled exactly when the ticks had run out *)
Definition sched_table (t : arr PROCESS) (t' : arr PROCESS) : Prop :=
  (~ exhausted t /\ t' = t) \/ (exhausted t /\ t' = sched_refill t).

Lemma best_not_exhausted t r : best t r -> ~ exhausted t.
Proof. intros (Hr & Hrun & Hpos & _) He. specialize (He r Hr Hrun). lia. Qed.

Lemma wp_schedule st (Q : unit -> kstate -> Prop) :
  (exists j, can_run (proc_table st) j) ->
  (forall t' r, sched_table (proc_table st) t' -> best t' r ->
     Q tt (set_p_proc_ready r (set_proc_table t' st))) ->
  wp schedule Q st.
Proof.
  intros (j & Hj & Hrun & Hpri) HQ. unfold wp, schedule.
  destruct (schedule_loop_S 1 st) as [[He ->]|(r & Hb & ->)].
  - destruct (schedule_loop_S 0 (set_proc_table (sched_refill (proc_table st)) st))
      as [[He' _]|(r & Hb & ->)].
    + specialize (He' j Hj). simpl in He'. rewrite sched_refill_runnable in He'.
      specialize (He' Hrun). rewrite sched_refill_ticks in He' by done. lia.
    + apply HQ; [by right|done].
  - replace (set_p_proc_ready r st)
      with (set_p_proc_ready r (set_proc_table (proc_table st) st)) by by destruct st.
    apply HQ; [left; split; [by eapply best_not_exhausted|done]|done].
Qed.

Lemma schedule_Ok st u st' :
  schedule st = Ok u st' ->
  exists t' r, sched_table (proc_table st) t' /\ best t' r /\
    st' = set_p_proc_ready r (set_proc_table t' st).
Proof.
  unfold schedule. intros H.
  destruct (schedule_loop_S 1 st) as [[He E]|(r & Hb & E)]; rewrite E in H.
  - destruct (schedule_loop_S 0 (set_proc_table (sched_refill (proc_table st)) st))
      as [[He' E']|(r & Hb & E')]; rewrite E' in H; [done|].
    injection H as _ <-. exists (sched_refill (proc_table st)), r.
    split; [by right|]. split; [done|by destruct st].
  - injection H as _ <-. exists (proc_table st), r.
    split; [left; split; [by eapply best_not_exhausted|done]|]. split; [done|by destruct st].
Qed.

(** what a scheduling round leaves alone: everything but the tick counters *)
Lemma sched_table_same t t' i : sched_table t t' ->
  t' i = t i \/ t' i = set_p_ticks (priority (t i)) (t i).
Proof.
  intros [[_ ->]|[_ ->]]; [by left|].
  unfold sched_refill. case_match; auto.
Qed.

Lemma refill_idem_exhausted st :
  exhausted (proc_table st) -> (forall j, ~ can_run (proc_table st) j) ->
  exhausted (sched_refill (proc_table st)) /\
  (forall j, ~ can_run (sched_refill (proc_table st)) j).
Proof.
  intros He Hn. split.
  - intros j Hj Hr. rewrite sched_refill_runnable in Hr. rewrite sched_refill_ticks by done.
    destruct (decide (0 < priority (proc_table st j))); [|lia].
    destruct (Hn j). done.
  - intros j (Hj & Hr & Hp). rewrite sched_refill_runnable in Hr.
    rewrite sched_refill_priority in Hp. by destruct (Hn j).
Qed.

Lemma schedule_loop_spins fuel st :
  exhausted (proc_table st) -> (forall j, ~ can_run (proc_table st) j) ->
  schedule_loop fuel st = Halt HSpin.
Proof.
  revert st. induction fuel as [|fuel IH]; intros st He Hn; [done|].
  destruct (schedule_loop_S fuel st) as [[_ ->]|(r & Hb & _)].
  - apply IH; by apply refill_idem_exhausted.
  - by apply best_not_exhausted in Hb.
Qed.

(** ** Properties *)

(** C15: When some process can run, [schedule] ends with [p_proc_ready] at a runnable
    process that has the most ticks left of all runnable ones; it changes the table
    only when all of them had run out, by giving each its priority again; flags,
    memory and the tick count stay.  *)
Theorem schedule_picks_best st :
  (exists j, can_run (proc_table st) j) ->
  exists st', schedule st = Ok tt st' /\
    sched_table (proc_table st) (proc_table st') /\
    best (proc_table st') (p_proc_ready st') /\
    (forall i, p_flags (proc_table st' i) = p_flags (proc_table st i)) /\
    memory st' = memory st /\ ticks st' = ticks st.
Proof.
  intros Hc. pose proof (wp_schedule st (fun _ st' => True) Hc ltac:(done)) as Hrun.
  apply wp_run in Hrun as ([] & st' & E & _). exists st'. split; [done|].
  apply schedule_Ok in E as (t' & r & Ht & Hb & ->). simpl.
  repeat split; try done; try apply Hb.
  intros i. by destruct (sched_table_same _ _ i Ht) as [->| ->].
Qed.

(** When every runnable process has run out and none has a positive priority
    (in particular when none is runnable) the loop of [schedule] never ends.  *)
Theorem schedule_spins st :
  exhausted (proc_table st) -> (forall j, ~ can_run (proc_table st) j) ->
  forall fuel, schedule_loop fuel st = Halt HSpin.
Proof. intros He Hn fuel. by apply schedule_loop_spins. Qed.
