(* ===== verification/Ipc.v ===== *)
(** * Inter-process communication (kernel/proc.c)

    Synchronous message passing between the entries of [proc_table]:
    [sys_sendrec] and the functions under it ([msg_send], [msg_receive],
    [deadlock]), and [inform_int], by which interrupt handlers reach a task. A
    process that sends to one that is not waiting for it is linked into the
    receiver's queue ([q_sending], [next_sending]) and blocked.

    This file holds the translations; IpcInv.v states the invariant and the
    abstract queues, IpcThm.v the theorems. *)
From S2P Require Import Prelude Const Protect Proc Sched.

(** Loops over the process table's lists: a list of processes without repetition
    has at most [NR_ALL] elements, so this many rounds reach its end. *)
Definition IPC_FUEL : nat := Z.to_nat NR_ALL.

(** the report of a cycle: [do { assert(p->p_msg); p = &proc_table[p->p_sendto]; }
    while (p != proc_table + src)]; the names it prints are not modelled *)
Fixpoint deadlock_report (fuel : nat) (src p : Z) : M kstate unit :=
  match fuel with
  | O => stop HSpin
  | S fuel' =>
      pr ← getp p;
      assert_ (negb (p_msg pr =? 0)) ;;
      (if p_sendto pr =? src then ret tt else deadlock_report fuel' src (p_sendto pr))
  end.

Fixpoint deadlock_loop (fuel : nat) (src p : Z) : M kstate Z :=
  match fuel with
  | O => stop HSpin
  | S fuel' =>
      pr ← getp p;
      if has (p_flags pr) SENDING then
        if src =? p_sendto pr
        then deadlock_report IPC_FUEL src src ;; ret 1
        else deadlock_loop fuel' src (p_sendto pr)
      else ret 0
  end.

Definition deadlock (src dest : Z) : M kstate Z := deadlock_loop (S IPC_FUEL) src dest.

(** [while(p->next_sending) p = p->next_sending;] *)
Fixpoint queue_tail (fuel : nat) (p : Z) : M kstate Z :=
  match fuel with
  | O => stop HSpin
  | S fuel' =>
      pr ← getp p;
      match next_sending pr with
      | Some p' => queue_tail fuel' p'
      | None => ret p
      end
  end.

(** the branch of [msg_send] that hands the message over *)
Definition msg_deliver (sender dst m : Z) : M kstate unit :=
  pd ← getp dst;
  assert_ (negb (p_msg pd =? 0)) ;;
  assert_ (negb (m =? 0)) ;;
  d ← va2la dst (p_msg pd);
  s ← va2la sender m;
  modmem (memcpy d s SIZEOF_MESSAGE) ;;
  modp dst (set_p_msg 0) ;;
  modp dst (fun p => set_p_flags (Z.land (p_flags p) (Z.lnot RECEIVING)) p) ;;
  modp dst (set_p_recvfrom NO_TASK) ;;
  unblock dst ;;
  pd ← getp dst;
  assert_ (p_flags pd =? 0) ;;
  assert_ (p_msg pd =? 0) ;;
  assert_ (p_recvfrom pd =? NO_TASK) ;;
  assert_ (p_sendto pd =? NO_TASK) ;;
  ps ← getp sender;
  assert_ (p_flags ps =? 0) ;;
  assert_ (p_msg ps =? 0) ;;
  assert_ (p_recvfrom ps =? NO_TASK) ;;
  assert_ (p_sendto ps =? NO_TASK).

(** the branch of [msg_send] that queues the sender and blocks it *)
Definition msg_enqueue (sender dst m : Z) : M kstate unit :=
  pd ← getp dst;
  let p := q_sending pd in
  modp sender (fun x => set_p_flags (Z.lor (p_flags x) SENDING) x) ;;
  modp sender (set_p_sendto dst) ;;
  modp sender (set_p_msg m) ;;
  match p with
  | Some h => t ← queue_tail IPC_FUEL h; modp t (set_next_sending (Some sender))
  | None => modp dst (set_q_sending (Some sender))
  end ;;
  modp sender (set_next_sending None) ;;
  block sender ;;
  ps ← getp sender;
  assert_ (p_flags ps =? SENDING) ;;
  assert_ (negb (p_msg ps =? 0)) ;;
  assert_ (p_sendto ps =? dst) ;;
  assert_ (p_recvfrom ps =? NO_TASK).

(** the test of [msg_send]: the destination waits for this sender or for anyone *)
Definition accepts (pd : PROCESS) (sender : Z) : bool :=
  has (p_flags pd) RECEIVING && ((p_recvfrom pd =? ANY) || (p_recvfrom pd =? sender)).

Definition msg_send (current dst m : Z) : M kstate Z :=
  let sender := current in
  assert_ (negb (sender =? dst)) ;;
  dl ← deadlock sender dst;
  (if negb (dl =? 0) then panic else ret tt) ;;
  pd ← getp dst;
  (if accepts pd sender then msg_deliver sender dst m else msg_enqueue sender dst m) ;;
  ret 0.

(** [reset_msg] and the two assignments: the message an interrupt becomes *)
Definition int_msg : MESSAGE := set_type HARD_INT (set_source INTERRUPT zero_msg).

(** the first branch of [msg_receive]: a pending interrupt is the message *)
Definition receive_int (who m : Z) : M kstate unit :=
  assert_ (negb (m =? 0)) ;;
  la ← va2la who m;
  modmem (put_msg la int_msg) ;;
  modp who (set_has_int_msg 0) ;;
  pw ← getp who;
  assert_ (p_flags pw =? 0) ;;
  assert_ (p_sendto pw =? NO_TASK) ;;
  assert_ (has_int_msg pw =? 0) ;;
  assert_ (p_msg pw =? 0).

(** the search [while(p)] for [src] in the receiver's queue: the element before
    it ([prev]), [None] when it is the first *)
Fixpoint find_prev (fuel : nat) (src : Z) (p prev : option Z) : M kstate (option Z) :=
  match fuel with
  | O => stop HSpin
  | S fuel' =>
      match p with
      | None => ret prev
      | Some x =>
          pf ← getp src;
          assert_ (has (p_flags pf) SENDING) ;;
          if x =? src then ret prev
          else px ← getp x; find_prev fuel' src (next_sending px) (Some x)
      end
  end.

(** the assertions of both branches on the receiver and the chosen sender *)
Definition receive_asserts (who from : Z) : M kstate unit :=
  pw ← getp who;
  assert_ (p_flags pw =? 0) ;;
  assert_ (p_msg pw =? 0) ;;
  assert_ (bool_decide (q_sending pw <> None)) ;;
  assert_ (p_sendto pw =? NO_TASK) ;;
  assert_ (p_recvfrom pw =? NO_TASK) ;;
  pf ← getp from;
  assert_ (p_flags pf =? SENDING) ;;
  assert_ (p_sendto pf =? who) ;;
  assert_ (p_recvfrom pf =? NO_TASK) ;;
  assert_ (negb (p_msg pf =? 0)).

(** the choice of a sender: [Some (p_from, prev)] sets [copyok] *)
Definition receive_choose (who src : Z) : M kstate (option (Z * option Z)) :=
  pw ← getp who;
  if src =? ANY then
    match q_sending pw with
    | Some from => receive_asserts who from ;; ret (Some (from, None))
    | None => ret None
    end
  else
    pf ← getp src;
    if has (p_flags pf) SENDING && (p_sendto pf =? who) then
      assert_ (bool_decide (q_sending pw <> None)) ;;
      prev ← find_prev (S IPC_FUEL) src (q_sending pw) None;
      receive_asserts who src ;;
      ret (Some (src, prev))
    else ret None.

(** the branch [if(copyok)]: unlink the sender, copy its message, release it *)
Definition receive_copy (who m from : Z) (prev : option Z) : M kstate unit :=
  pw ← getp who;
  pf ← getp from;
  (if bool_decide (q_sending pw = Some from) then
     modp who (set_q_sending (next_sending pf)) ;;
     modp from (set_next_sending None)
   else
     match prev with
     | None => stop HAssert
     | Some x =>
         modp x (set_next_sending (next_sending pf)) ;;
         modp from (set_next_sending None)
     end) ;;
  assert_ (negb (m =? 0)) ;;
  pf ← getp from;
  assert_ (negb (p_msg pf =? 0)) ;;
  d ← va2la who m;
  s ← va2la from (p_msg pf);
  modmem (memcpy d s SIZEOF_MESSAGE) ;;
  modp from (set_p_msg 0) ;;
  modp from (fun p => set_p_flags (Z.land (p_flags p) (Z.lnot SENDING)) p) ;;
  modp from (set_p_sendto NO_TASK) ;;
  unblock from.

(** the last branch: wait for [src] *)
Definition receive_wait (who src m : Z) : M kstate unit :=
  modp who (set_p_recvfrom src) ;;
  modp who (fun p => set_p_flags (Z.lor (p_flags p) RECEIVING) p) ;;
  modp who (set_p_msg m) ;;
  block who ;;
  pw ← getp who;
  assert_ (p_flags pw =? RECEIVING) ;;
  assert_ (negb (p_msg pw =? 0)) ;;
  assert_ (negb (p_recvfrom pw =? NO_TASK)) ;;
  assert_ (p_sendto pw =? NO_TASK) ;;
  assert_ (has_int_msg pw =? 0).

Definition msg_receive (current src m : Z) : M kstate Z :=
  let who := current in
  assert_ (negb (who =? src)) ;;
  pw ← getp who;
  if negb (has_int_msg pw =? 0) && ((src =? ANY) || (src =? INTERRUPT)) then
    receive_int who m ;; ret 0
  else if src =? INTERRUPT then
    modp who (fun p => set_p_flags (Z.lor (p_flags p) RECEIVING) p) ;;
    modp who (set_p_recvfrom INTERRUPT) ;;
    modp who (set_p_msg m) ;;
    block who ;;
    ret 0
  else
    choice ← receive_choose who src;
    match choice with
    | Some (from, prev) => receive_copy who m from prev
    | None => receive_wait who src m
    end ;;
    ret 0.

(** [sys_sendrec]; [p] is the index of the calling process *)
Definition sys_sendrec (function src_dest m p : Z) : M kstate Z :=
  st ← get;
  assert_ (k_reenter st =? 0) ;;
  assert_ (in_table src_dest || (src_dest =? ANY) || (src_dest =? INTERRUPT)) ;;
  mla ← va2la p m;
  modmem (st32 mla p) ;;
  if function =? SEND then
    r ← msg_send p src_dest m;
    (if negb (r =? 0) then ret r else ret 0)
  else if function =? RECEIVE then
    r ← msg_receive p src_dest m;
    (if negb (r =? 0) then ret r else ret 0)
  else panic.

(** [inform_int]; the stores go through [p->p_msg] as it is, without [va2la] *)
Definition inform_int (task_nr : Z) : M kstate unit :=
  p ← getp task_nr;
  if has (p_flags p) RECEIVING && ((p_recvfrom p =? INTERRUPT) || (p_recvfrom p =? ANY)) then
    modmem (st32 (p_msg p) INTERRUPT) ;;
    modmem (st32 (p_msg p + 4) HARD_INT) ;;
    modp task_nr (set_p_msg 0) ;;
    modp task_nr (set_has_int_msg 0) ;;
    modp task_nr (fun p => set_p_flags (Z.land (p_flags p) (Z.lnot RECEIVING)) p) ;;
    modp task_nr (set_p_recvfrom NO_TASK) ;;
    p ← getp task_nr;
    assert_ (p_flags p =? 0) ;;
    unblock task_nr ;;
    assert_ (p_recvfrom p =? NO_TASK) ;;
    assert_ (p_flags p =? 0) ;;
    assert_ (p_sendto p =? NO_TASK)
  else modp task_nr (set_has_int_msg 1).

(** [clock_handler] of kernel/clock.c *)
Definition clock_handler : M kstate unit :=
  modify (fun st => set_ticks (i32 (ticks st + 1)) st) ;;
  st ← get;
  modp (p_proc_ready st) (fun p => set_p_ticks (i32 (p_ticks p - 1)) p) ;;
  if negb (k_reenter st =? 0) then ret tt
  else
    schedule ;;
    st ← get;
    when (negb (key_pressed st =? 0)) (inform_int TASK_TTY).
