(* ===== verification/IpcInv.v ===== *)
(** * The IPC invariant and the abstract queues

    [ipc_inv t q]: the process table [t] represents the abstract state in which
    process [i] has the FIFO queue [q i] of senders. The linked lists of the
    table ([q_sending], [next_sending]) spell these queues out; the flags and
    the partner fields of every process are consistent; the "sends to" graph has
    no cycle; and no process waits for a message that is already queued. The
    lemmas here move the invariant over the table updates of sending and
    receiving, given as equations on the fields. *)
From S2P Require Import Prelude Const Protect Proc Sched Ipc.

(** ** Consistency of one entry *)

(** what a blocked receiver of index [i] may be waiting for *)
Definition recv_ok (i src : Z) : Prop :=
  src = ANY \/ src = INTERRUPT \/ (0 <= src < NR_ALL /\ src <> i).

Inductive proc_ok (i : Z) (p : PROCESS) : Prop :=
| ok_ready :
    p_flags p = 0 -> p_msg p = 0 -> p_recvfrom p = NO_TASK -> p_sendto p = NO_TASK ->
    proc_ok i p
| ok_sending :
    p_flags p = SENDING -> p_msg p <> 0 -> p_recvfrom p = NO_TASK ->
    0 <= p_sendto p < NR_ALL -> p_sendto p <> i -> proc_ok i p
| ok_receiving :
    p_flags p = RECEIVING -> p_msg p <> 0 -> p_sendto p = NO_TASK ->
    recv_ok i (p_recvfrom p) -> proc_ok i p
| ok_parked : (* a process that waits for a child, or has exited: both wait for MM *)
    p_flags p = Z.lor RECEIVING WAITING \/ p_flags p = Z.lor RECEIVING HANGING ->
    p_msg p <> 0 -> p_sendto p = NO_TASK -> p_recvfrom p = TASK_MM -> i <> TASK_MM ->
    proc_ok i p
| ok_free : p_flags p = FREE_SLOT -> proc_ok i p.

(** ** Linked lists in the table *)

(** [seg nx o l e]: following [nx] from [o] visits [l] and ends at [e]. *)
Fixpoint seg (nx : Z -> option Z) (o : option Z) (l : list Z) (e : option Z) : Prop :=
  match l with
  | [] => o = e
  | x :: l' => o = Some x /\ seg nx (nx x) l' e
  end.

Lemma seg_app nx o l1 l2 e :
  seg nx o (l1 ++ l2) e <-> exists m, seg nx o l1 m /\ seg nx m l2 e.
Proof.
  revert o. induction l1 as [|x l1 IH]; intros o; simpl.
  - split; [eauto|]. by intros (m & -> & H).
  - rewrite IH. split.
    + intros (-> & m & H1 & H2). eauto.
    + intros (m & (-> & H1) & H2). eauto.
Qed.

Lemma seg_ext nx nx' o l e :
  (forall x, x ∈ l -> nx' x = nx x) -> seg nx o l e -> seg nx' o l e.
Proof.
  revert o. induction l as [|x l IH]; intros o H; simpl; [done|].
  intros [-> Hs]. split; [done|]. rewrite H by set_solver. apply IH; [|done]. set_solver.
Qed.

(** ** The "sends to" graph *)

(** [chain t i l]: following [p_sendto] from [i] through sending processes
    visits [l] and stops at a process that is not sending. *)
Inductive chain (t : arr PROCESS) : Z -> list Z -> Prop :=
| chain_stop i : p_flags (t i) <> SENDING -> chain t i []
| chain_next i l : p_flags (t i) = SENDING -> chain t (p_sendto (t i)) l -> chain t i (i :: l).

(** ** The invariant *)

Record ipc_inv (t : arr PROCESS) (q : Z -> list Z) : Prop := {
  inv_proc : forall i, 0 <= i < NR_ALL -> proc_ok i (t i);
  inv_seg : forall i, 0 <= i < NR_ALL ->
    seg (fun x => next_sending (t x)) (q_sending (t i)) (q i) None;
  inv_nodup : forall i, 0 <= i < NR_ALL -> NoDup (q i);
  inv_mem : forall i s, 0 <= i < NR_ALL ->
    s ∈ q i <-> 0 <= s < NR_ALL /\ p_flags (t s) = SENDING /\ p_sendto (t s) = i;
  inv_wait : forall i s, 0 <= i < NR_ALL -> s ∈ q i ->
    has (p_flags (t i)) RECEIVING = true -> p_recvfrom (t i) <> ANY /\ p_recvfrom (t i) <> s;
  inv_chain : forall i, 0 <= i < NR_ALL -> exists l, chain t i l;
  inv_int : forall i, 0 <= i < NR_ALL -> p_flags (t i) = RECEIVING ->
    p_recvfrom (t i) = ANY \/ p_recvfrom (t i) = INTERRUPT -> has_int_msg (t i) = 0 }.

(** ** Facts about consistent entries *)

Lemma proc_ok_sending i p : proc_ok i p -> has (p_flags p) SENDING = true <-> p_flags p = SENDING.
Proof.
  intros H. split; [|by intros ->].
  destruct H as [Hf|Hf|Hf|[Hf|Hf]|Hf]; rewrite Hf; done.
Qed.

Lemma proc_ok_receiving i p : proc_ok i p ->
  has (p_flags p) RECEIVING = true ->
  p_flags p = RECEIVING \/ (p_recvfrom p = TASK_MM /\ i <> TASK_MM).
Proof.
  intros H. destruct H as [Hf|Hf|Hf|Hf|Hf]; rewrite ?Hf; try done; auto.
Qed.

(** the fields the invariant reads *)
Definition ipc_fields (p : PROCESS) :=
  (p_flags p, p_msg p, p_recvfrom p, p_sendto p, has_int_msg p, q_sending p, next_sending p).

Lemma chain_ext t t' i l :
  (forall j, p_flags (t' j) = p_flags (t j) /\ p_sendto (t' j) = p_sendto (t j)) ->
  chain t i l -> chain t' i l.
Proof.
  intros He. induction 1 as [i Hi|i l Hi _ IH].
  - apply chain_stop. by rewrite (proj1 (He i)).
  - apply chain_next; [by rewrite (proj1 (He i))|]. by rewrite (proj2 (He i)).
Qed.

Lemma proc_ok_ext i p p' : ipc_fields p' = ipc_fields p -> proc_ok i p -> proc_ok i p'.
Proof.
  unfold ipc_fields. intros [= E1 E2 E3 E4 _ _ _] H.
  destruct H; [apply ok_ready|apply ok_sending|apply ok_receiving|apply ok_parked|apply ok_free];
    congruence || (rewrite ?E1, ?E3, ?E4; done).
Qed.

(** The invariant depends on these fields only: scheduling, clock ticks and
    memory do not matter. *)
Lemma ipc_inv_ext t t' q :
  (forall i, ipc_fields (t' i) = ipc_fields (t i)) -> ipc_inv t q -> ipc_inv t' q.
Proof.
  intros He H.
  assert (Hf : forall i, p_flags (t' i) = p_flags (t i) /\ p_sendto (t' i) = p_sendto (t i) /\
    p_recvfrom (t' i) = p_recvfrom (t i) /\ has_int_msg (t' i) = has_int_msg (t i) /\
    q_sending (t' i) = q_sending (t i) /\ next_sending (t' i) = next_sending (t i)).
  { intros i. specialize (He i). unfold ipc_fields in He. by injection He. }
  split; intros i.
  - intros Hi. apply (proc_ok_ext i (t i)); [done|]. by apply H.
  - intros Hi. destruct (Hf i) as (_&_&_&_&->&_).
    eapply seg_ext; [|by apply H]. intros x _. apply Hf.
  - apply H.
  - intros s Hi. destruct (Hf s) as (->&->&_). by apply H.
  - intros s Hi. destruct (Hf i) as (->&_&->&_). by apply H.
  - intros Hi. destruct (inv_chain _ _ H i Hi) as [l Hl]. exists l.
    eapply chain_ext; [|done]. intros j. split; apply Hf.
  - destruct (Hf i) as (->&_&->&->&_). apply H.
Qed.

Lemma sched_table_fields t t' i : sched_table t t' -> ipc_fields (t' i) = ipc_fields (t i).
Proof. intros H. by destruct (sched_table_same _ _ i H) as [->| ->]. Qed.

Lemma ipc_inv_sched t t' q : sched_table t t' -> ipc_inv t q -> ipc_inv t' q.
Proof. intros H. apply ipc_inv_ext. intros i. by apply sched_table_fields. Qed.

(** ** Bounds: lists of processes without repetition are short *)

Lemma nodup_length l :
  NoDup l -> (forall x, x ∈ l -> 0 <= x < NR_ALL) -> (length l <= IPC_FUEL)%nat.
Proof.
  intros Hn Hr.
  assert (l ⊆+ seqZ 0 NR_ALL) as Hs.
  { apply NoDup_submseteq; [done|]. intros x Hx. apply elem_of_seqZ.
    specialize (Hr x Hx). lia. }
  apply submseteq_length in Hs. by rewrite length_seqZ in Hs.
Qed.

Lemma queue_length t q i : ipc_inv t q -> 0 <= i < NR_ALL -> (length (q i) <= IPC_FUEL)%nat.
Proof.
  intros H Hi. apply nodup_length; [by apply H|]. intros x Hx.
  apply (inv_mem _ _ H) in Hx as (Hx & _); done.
Qed.

Lemma chain_det t i l l' : chain t i l -> chain t i l' -> l = l'.
Proof.
  intros H. revert l'. induction H as [i Hi|i l Hi _ IH]; intros l' H'.
  - by inversion H'.
  - inversion H'; subst; [done|]. f_equal. auto.
Qed.

Lemma chain_suffix t i l x : chain t i l -> x ∈ l ->
  exists l', chain t x l' /\ (length l' <= length l)%nat /\ p_flags (t x) = SENDING.
Proof.
  induction 1 as [i Hi|i l Hi Hc IH]; intros Hx; [set_solver|].
  apply elem_of_cons in Hx as [->|Hx].
  - exists (i :: l). split; [by apply chain_next|]. simpl. split; [lia|done].
  - destruct (IH Hx) as (l' & ? & ? & ?). exists l'. simpl. split; [done|]. split; [lia|done].
Qed.

Lemma chain_nodup t i l : chain t i l -> NoDup l.
Proof.
  induction 1 as [i Hi|i l Hi Hc IH]; [constructor|]. constructor; [|done].
  intros Hx. destruct (chain_suffix _ _ _ _ Hc Hx) as (l' & Hl' & Hlen & _).
  assert (l' = i :: l) as ->
    by (eapply chain_det; [done|by apply chain_next]).
  simpl in Hlen. lia.
Qed.

Lemma chain_range t q i l x : ipc_inv t q -> 0 <= i < NR_ALL -> chain t i l -> x ∈ l ->
  0 <= x < NR_ALL.
Proof.
  intros H Hi Hc. revert Hi x. induction Hc as [i Hf|i l Hf Hc IH]; intros Hi x Hx;
    [set_solver|]. apply elem_of_cons in Hx as [->|Hx]; [done|].
  apply IH; [|done]. destruct (inv_proc _ _ H i Hi) as [Hf'|Hf'|Hf'|[Hf'|Hf']|Hf'];
    rewrite Hf in Hf'; done.
Qed.

Lemma chain_length t q i l :
  ipc_inv t q -> 0 <= i < NR_ALL -> chain t i l -> (length l <= IPC_FUEL)%nat.
Proof.
  intros H Hi Hc. apply nodup_length; [by eapply chain_nodup|].
  intros x. by eapply chain_range.
Qed.
