(* ===== verification/IpcStep.v ===== *)
(** * The table updates of IPC preserve the invariant

    One section per kind of update: waking a blocked receiver, queueing a
    sender, taking a sender out of a queue, and blocking a receiver. Each takes
    the old table, the new one and the equations between their fields. *)
From S2P Require Import Prelude Const Protect Proc Sched Ipc IpcInv.

(** ** Chains when one process changes *)

(** Adding the edge [s -> d] to an acyclic graph in which [d] does not lead to
    [s] leaves it acyclic. *)
Lemma chain_add_edge t t' s d l0 i l :
  (forall j, j <> s -> p_flags (t' j) = p_flags (t j) /\ p_sendto (t' j) = p_sendto (t j)) ->
  p_flags (t' s) = SENDING -> p_sendto (t' s) = d ->
  chain t' d l0 -> p_flags (t s) <> SENDING ->
  chain t i l -> exists l', chain t' i l'.
Proof.
  intros He Hf Hs Hd Hn. induction 1 as [i Hi|i l Hi Hc IH].
  - destruct (decide (i = s)) as [->|Hne].
    + exists (s :: l0). apply chain_next; [done|]. by rewrite Hs.
    + exists []. apply chain_stop. by rewrite (proj1 (He i Hne)).
  - destruct (decide (i = s)) as [->|Hne]; [done|].
    destruct IH as [l' Hl']. exists (i :: l').
    apply chain_next; [by rewrite (proj1 (He i Hne))|]. by rewrite (proj2 (He i Hne)).
Qed.

(** A chain that never meets [s] does not see a change of [s]. *)
Lemma chain_avoid t t' s i l :
  (forall j, j <> s -> p_flags (t' j) = p_flags (t j) /\ p_sendto (t' j) = p_sendto (t j)) ->
  i <> s -> (forall x, x ∈ l -> p_sendto (t x) <> s) -> chain t i l -> chain t' i l.
Proof.
  intros He Hi Ha Hc. revert Hi Ha. induction Hc as [i Hf|i l Hf Hc IH]; intros Hi Ha.
  - apply chain_stop. by rewrite (proj1 (He i Hi)).
  - apply chain_next; [by rewrite (proj1 (He i Hi))|]. rewrite (proj2 (He i Hi)).
    apply IH; [apply Ha; set_solver|]. intros x Hx. apply Ha. set_solver.
Qed.

(** Removing the edge of [s] leaves the graph acyclic. *)
Lemma chain_drop_edge t t' s i l :
  (forall j, j <> s -> p_flags (t' j) = p_flags (t j) /\ p_sendto (t' j) = p_sendto (t j)) ->
  p_flags (t' s) <> SENDING -> chain t i l -> exists l', chain t' i l'.
Proof.
  intros He Hs. induction 1 as [i Hf|i l Hf Hc IH].
  - exists []. apply chain_stop. destruct (decide (i = s)) as [->|Hi]; [done|].
    by rewrite (proj1 (He i Hi)).
  - destruct (decide (i = s)) as [->|Hi]; [exists []; by apply chain_stop|].
    destruct IH as [l' Hl']. exists (i :: l').
    apply chain_next; [by rewrite (proj1 (He i Hi))|]. by rewrite (proj2 (He i Hi)).
Qed.

(** ** A process that is not sending changes state *)

Section change_one.
Context (t t' : arr PROCESS) (q : Z -> list Z) (d : Z).
Hypothesis Hinv : ipc_inv t q.
Hypothesis Hd : 0 <= d < NR_ALL.
Hypothesis Hoff : forall i, i <> d -> ipc_fields (t' i) = ipc_fields (t i).
Hypothesis Hq : q_sending (t' d) = q_sending (t d).
Hypothesis Hold : p_flags (t d) <> SENDING.
Hypothesis Hnew : p_flags (t' d) <> SENDING.
Hypothesis Hok : proc_ok d (t' d).
Hypothesis Hwait : has (p_flags (t' d)) RECEIVING = true -> forall s, s ∈ q d ->
  p_recvfrom (t' d) <> ANY /\ p_recvfrom (t' d) <> s.
Hypothesis Hint : p_flags (t' d) = RECEIVING ->
  p_recvfrom (t' d) = ANY \/ p_recvfrom (t' d) = INTERRUPT -> has_int_msg (t' d) = 0.

Lemma off_fields i : i <> d ->
  p_flags (t' i) = p_flags (t i) /\ p_sendto (t' i) = p_sendto (t i) /\
  p_recvfrom (t' i) = p_recvfrom (t i) /\ has_int_msg (t' i) = has_int_msg (t i) /\
  q_sending (t' i) = q_sending (t i) /\ next_sending (t' i) = next_sending (t i).
Proof. intros Hi. pose proof (Hoff i Hi) as E. unfold ipc_fields in E. by injection E. Qed.

Lemma ipc_inv_change : ipc_inv t' q.
Proof.
  split; intros i.
  - intros Hi. destruct (decide (i = d)) as [->|Hne]; [done|].
    apply (proc_ok_ext i (t i)); [auto|]. by apply Hinv.
  - intros Hi. assert (q_sending (t' i) = q_sending (t i)) as ->.
    { destruct (decide (i = d)) as [->|Hne]; [done|]. by apply off_fields. }
    eapply seg_ext; [|by apply Hinv]. intros x Hx.
    assert (Hne : x <> d) by (intros ->; apply (inv_mem _ _ Hinv) in Hx; [|done]; tauto).
    by apply off_fields.
  - apply Hinv.
  - intros s Hi. rewrite (inv_mem _ _ Hinv) by done.
    destruct (decide (s = d)) as [->|Hne]; [naive_solver|].
    destruct (off_fields s Hne) as (-> & -> & _). done.
  - intros s Hi Hs. destruct (decide (i = d)) as [->|Hne]; [auto|].
    destruct (off_fields i Hne) as (-> & _ & -> & _). by apply Hinv.
  - intros Hi. destruct (inv_chain _ _ Hinv i Hi) as [l Hl].
    eapply (chain_drop_edge t t' d); [|done..].
    intros j Hj. destruct (off_fields j Hj) as (-> & -> & _). done.
  - intros Hi. destruct (decide (i = d)) as [->|Hne]; [done|].
    destruct (off_fields i Hne) as (-> & _ & -> & -> & _). by apply Hinv.
Qed.
End change_one.

(** ** Queueing a sender *)

Section enqueue.
Context (t t' : arr PROCESS) (q : Z -> list Z) (s d : Z).
Hypothesis Hinv : ipc_inv t q.
Hypothesis Hs : 0 <= s < NR_ALL.
Hypothesis Hd : 0 <= d < NR_ALL.
Hypothesis Hsd : s <> d.
Hypothesis Hready : p_flags (t s) = 0.
Hypothesis Hacc : accepts (t d) s = false.
Hypothesis Hdl : exists l, chain t d l /\ forall x, x ∈ l -> p_sendto (t x) <> s.
Hypothesis Efl : forall i, p_flags (t' i) = if decide (i = s) then SENDING else p_flags (t i).
Hypothesis Est : forall i, p_sendto (t' i) = if decide (i = s) then d else p_sendto (t i).
Hypothesis Erf : forall i, p_recvfrom (t' i) = p_recvfrom (t i).
Hypothesis Emg : forall i, i <> s -> p_msg (t' i) = p_msg (t i).
Hypothesis Ems : p_msg (t' s) <> 0.
Hypothesis Ein : forall i, has_int_msg (t' i) = has_int_msg (t i).
Hypothesis Enx : forall i, next_sending (t' i) =
  if decide (i = s) then None
  else if decide (last (q d) = Some i) then Some s else next_sending (t i).
Hypothesis Eqs : forall i, q_sending (t' i) =
  if decide (i = d /\ q d = []) then Some s else q_sending (t i).

Lemma enq_s_notin i : 0 <= i < NR_ALL -> s ∉ q i.
Proof. intros Hi Hx. apply (inv_mem _ _ Hinv) in Hx as (_ & Hf & _); [|done]. by rewrite Hready in Hf. Qed.

Lemma enq_disjoint i x : 0 <= i < NR_ALL -> i <> d -> x ∈ q i -> last (q d) <> Some x.
Proof.
  intros Hi Hne Hx Hl. apply last_Some_elem_of in Hl.
  apply (inv_mem _ _ Hinv) in Hx as (_ & _ & H1); [|done].
  apply (inv_mem _ _ Hinv) in Hl as (_ & _ & H2); [|done]. congruence.
Qed.

Lemma enq_seg_other i : 0 <= i < NR_ALL -> i <> d ->
  seg (fun x => next_sending (t' x)) (q_sending (t' i)) (q i) None.
Proof.
  intros Hi Hne. rewrite Eqs, decide_False by naive_solver.
  eapply seg_ext; [|by apply Hinv]. intros x Hx. simpl. rewrite Enx.
  rewrite decide_False by (intros ->; by apply (enq_s_notin i)).
  by rewrite decide_False by (by apply (enq_disjoint i)).
Qed.

Lemma enq_seg_dst :
  seg (fun x => next_sending (t' x)) (q_sending (t' d)) (q d ++ [s]) None.
Proof.
  pose proof (inv_seg _ _ Hinv d Hd) as Hseg. pose proof (inv_nodup _ _ Hinv d Hd) as Hnd.
  pose proof (enq_s_notin d Hd) as Hsn.
  destruct (q d) as [|x0 l0 _] eqn:Eq using rev_ind.
  - simpl. rewrite Eqs, decide_True, Enx, decide_True by done. done.
  - rewrite Eqs, decide_False by (intros [_ []%app_nil]; done).
    apply NoDup_app in Hnd as (_ & Hnd & _). apply seg_app in Hseg as (m & Hs1 & Hs2).
    rewrite <- app_assoc. apply seg_app. exists m. split.
    + eapply seg_ext; [|done]. intros y Hy. simpl. rewrite Enx.
      rewrite decide_False by (intros ->; set_solver).
      rewrite decide_False; [done|]. rewrite last_snoc. intros [= ->]. set_solver.
    + destruct Hs2 as [-> _]. simpl. rewrite !Enx.
      rewrite (decide_False (P := x0 = s)) by (intros ->; set_solver).
      by rewrite last_snoc, !decide_True.
Qed.

Lemma enq_proc i : 0 <= i < NR_ALL -> proc_ok i (t' i).
Proof.
  intros Hi. pose proof (inv_proc _ _ Hinv i Hi) as Hp.
  destruct (decide (i = s)) as [->|Hne].
  - apply ok_sending; rewrite ?Efl, ?Est, ?Erf, ?decide_True by done; try congruence.
    destruct Hp as [| | |[]|]; rewrite Hready in *; done.
  - destruct Hp; [apply ok_ready|apply ok_sending|apply ok_receiving|apply ok_parked|apply ok_free];
      rewrite ?Efl, ?Est, ?Erf, ?Emg, ?decide_False by done; done.
Qed.

Lemma ipc_inv_enqueue : ipc_inv t' (upd q d (q d ++ [s])).
Proof.
  split; intros i.
  - apply enq_proc.
  - intros Hi. rewrite upd_case. case_decide as Hid; [subst; apply enq_seg_dst|by apply enq_seg_other].
  - intros Hi. rewrite upd_case. case_decide as Hid; [|by apply Hinv]. subst.
    apply NoDup_app. split; [by apply Hinv|]. split; [|apply NoDup_singleton].
    intros x Hx ->%list_elem_of_singleton. by apply (enq_s_notin d).
  - intros x Hi. rewrite upd_case, Efl, Est. pose proof (inv_mem _ _ Hinv i x Hi) as Hm.
    pose proof (enq_s_notin i Hi). case_decide as Hid.
    + subst. rewrite elem_of_app, list_elem_of_singleton. repeat case_decide; naive_solver.
    + repeat case_decide; naive_solver.
  - intros x Hi. rewrite upd_case, Efl, Erf. case_decide as Hid.
    + subst. rewrite decide_False by congruence. rewrite elem_of_app, list_elem_of_singleton.
      intros [Hx| ->] Hr; [by apply (inv_wait _ _ Hinv d x Hd Hx)|].
      unfold accepts in Hacc. rewrite Hr in Hacc. simpl in Hacc. zbool. done.
    + intros Hx. case_decide as His; [done|]. by apply (inv_wait _ _ Hinv i x Hi Hx).
  - intros Hi. destruct (inv_chain _ _ Hinv i Hi) as [l Hl]. destruct Hdl as (l0 & Hl0 & Ha).
    assert (He : forall j, j <> s -> p_flags (t' j) = p_flags (t j) /\ p_sendto (t' j) = p_sendto (t j)).
    { intros j Hj. by rewrite Efl, Est, !decide_False. }
    eapply (chain_add_edge t t' s d l0); [done|by rewrite Efl, decide_True|
      by rewrite Est, decide_True|by eapply chain_avoid|by rewrite Hready|done].
  - rewrite Efl, Erf, Ein. case_decide; [done|]. apply Hinv.
Qed.
End enqueue.

(** ** Taking a sender out of a queue *)

Section dequeue.
Context (t t' : arr PROCESS) (q : Z -> list Z) (w f : Z) (l1 l2 : list Z).
Hypothesis Hinv : ipc_inv t q.
Hypothesis Hw : 0 <= w < NR_ALL.
Hypothesis Hq : q w = l1 ++ f :: l2.
Hypothesis Hready : p_flags (t w) = 0.
Hypothesis Efl : forall i, p_flags (t' i) = if decide (i = f) then 0 else p_flags (t i).
Hypothesis Est : forall i, p_sendto (t' i) = if decide (i = f) then NO_TASK else p_sendto (t i).
Hypothesis Emg : forall i, p_msg (t' i) = if decide (i = f) then 0 else p_msg (t i).
Hypothesis Erf : forall i, p_recvfrom (t' i) = p_recvfrom (t i).
Hypothesis Ein : forall i, has_int_msg (t' i) = has_int_msg (t i).
Hypothesis Enx : forall i, next_sending (t' i) =
  if decide (i = f) then None
  else if decide (last l1 = Some i) then next_sending (t f) else next_sending (t i).
Hypothesis Eqs : forall i, q_sending (t' i) =
  if decide (i = w /\ l1 = []) then next_sending (t f) else q_sending (t i).

Lemma deq_f : 0 <= f < NR_ALL /\ p_flags (t f) = SENDING /\ p_sendto (t f) = w.
Proof. apply (inv_mem _ _ Hinv w f Hw). rewrite Hq. set_solver. Qed.

Lemma deq_parts : f ∉ l1 /\ f ∉ l2 /\ NoDup l1 /\ NoDup l2 /\ (forall x, x ∈ l1 -> x ∉ l2).
Proof.
  pose proof (inv_nodup _ _ Hinv w Hw) as Hn. rewrite Hq in Hn.
  apply NoDup_app in Hn as (H1 & H2 & H3). apply NoDup_cons in H3 as [H3 H4].
  repeat split; try done.
  - intros Hx. apply (H2 f Hx). set_solver.
  - intros x Hx Hx'. apply (H2 x Hx). set_solver.
Qed.

Lemma deq_seg_self : seg (fun x => next_sending (t' x)) (q_sending (t' w)) (l1 ++ l2) None.
Proof.
  pose proof (inv_seg _ _ Hinv w Hw) as Hs. rewrite Hq in Hs.
  apply seg_app in Hs as (m & Hs1 & Hs2). destruct Hs2 as [-> Hs2]. simpl in Hs2.
  destruct deq_parts as (Hf1 & Hf2 & Hn1 & _ & Hd).
  assert (Hs2' : seg (fun x => next_sending (t' x)) (next_sending (t f)) l2 None).
  { eapply seg_ext; [|done]. intros x Hx. simpl. rewrite Enx.
    rewrite decide_False by (intros ->; done). rewrite decide_False; [done|].
    intros Hl. apply (Hd x); [by apply last_Some_elem_of|done]. }
  rewrite Eqs. destruct l1 as [|x0 l0 _] eqn:El using rev_ind.
  - by rewrite decide_True.
  - rewrite decide_False by (intros [_ []%app_nil]; done).
    rewrite <- app_assoc. apply seg_app in Hs1 as (m & Hs1 & -> & Hx). simpl in Hx.
    apply seg_app. exists (Some x0). apply NoDup_app in Hn1 as (_ & Hn1 & _). split.
    + eapply seg_ext; [|done]. intros y Hy. simpl. rewrite Enx.
      rewrite decide_False by (intros ->; set_solver).
      rewrite decide_False; [done|]. rewrite last_snoc. intros [= ->]. set_solver.
    + simpl. split; [done|]. rewrite Enx, decide_False by (intros ->; set_solver).
      by rewrite last_snoc, decide_True.
Qed.

Lemma deq_seg_other i : 0 <= i < NR_ALL -> i <> w ->
  seg (fun x => next_sending (t' x)) (q_sending (t' i)) (q i) None.
Proof.
  intros Hi Hne. rewrite Eqs, decide_False by naive_solver.
  eapply seg_ext; [|by apply Hinv]. intros x Hx. simpl. rewrite Enx.
  apply (inv_mem _ _ Hinv) in Hx as (_ & _ & Hx); [|done].
  rewrite decide_False by (intros ->; destruct deq_f as (_ & _ & ?); congruence).
  rewrite decide_False; [done|]. intros Hl%last_Some_elem_of.
  assert (x ∈ q w) as Hxw by (rewrite Hq; set_solver).
  apply (inv_mem _ _ Hinv) in Hxw as (_ & _ & ?); [|done]. congruence.
Qed.

Lemma deq_proc i : 0 <= i < NR_ALL -> proc_ok i (t' i).
Proof.
  intros Hi. pose proof (inv_proc _ _ Hinv i Hi) as Hp.
  destruct (decide (i = f)) as [->|Hne].
  - destruct deq_f as (_ & Hf & _).
    apply ok_ready; rewrite ?Efl, ?Est, ?Erf, ?Emg, ?decide_True by done; try done.
    destruct Hp as [| | |[]|]; rewrite Hf in *; done.
  - destruct Hp; [apply ok_ready|apply ok_sending|apply ok_receiving|apply ok_parked|apply ok_free];
      rewrite ?Efl, ?Est, ?Erf, ?Emg, ?decide_False by done; done.
Qed.

Lemma ipc_inv_dequeue : ipc_inv t' (upd q w (l1 ++ l2)).
Proof.
  destruct deq_parts as (Hf1 & Hf2 & Hn1 & Hn2 & Hd). destruct deq_f as (Hfr & Hff & Hfs).
  split; intros i.
  - apply deq_proc.
  - intros Hi. rewrite upd_case. destruct (decide (i = w)) as [->|Hid]; [apply deq_seg_self|by apply deq_seg_other].
  - intros Hi. rewrite upd_case. case_decide as Hid; [|by apply Hinv]. by apply NoDup_app.
  - intros x Hi. rewrite upd_case, Efl, Est. pose proof (inv_mem _ _ Hinv i x Hi) as Hm.
    destruct (decide (i = w)) as [->|Hid].
    + rewrite Hq in Hm. rewrite !elem_of_app, elem_of_cons in *.
      repeat case_decide; naive_solver.
    + destruct (decide (x = f)) as [->|]; naive_solver.
  - intros x Hi. rewrite upd_case, Efl, Erf. destruct (decide (i = w)) as [->|Hid].
    + intros _. case_decide; [done|]. by rewrite Hready.
    + intros Hx. case_decide as His; [done|]. by apply (inv_wait _ _ Hinv i x Hi Hx).
  - intros Hi. destruct (inv_chain _ _ Hinv i Hi) as [l Hl].
    eapply (chain_drop_edge t t' f); [|by rewrite Efl, decide_True|done].
    intros j Hj. by rewrite Efl, Est, !decide_False.
  - rewrite Efl, Erf, Ein. case_decide; [done|]. apply Hinv.
Qed.
End dequeue.
