(* ===== verification/IpcRun.v ===== *)
(** * Successful runs of the IPC code

    For each branch of [msg_send] and [msg_receive], what a run that returns has
    checked and done: inversion lemmas, and the conditions under which every
    assertion of the branch holds. *)
From S2P Require Import Prelude Const Protect Proc Sched Ipc IpcInv IpcStep.

(** ** Inversion of single commands *)

Lemma assert_Ok {S} b (s : S) u s' : assert_ b s = Ok u s' -> b = true /\ s' = s.
Proof. unfold assert_. destruct b; [|done]. by intros [= _ <-]. Qed.

Lemma modp_Ok' i f st u st' :
  modp i f st = Ok u st' ->
  exists t', st' = set_proc_table t' st /\ 0 <= i < NR_ALL /\
    (forall j, t' j = if decide (j = i) then f (proc_table st i) else proc_table st j).
Proof.
  intros [-> Hi]%modp_Ok. eexists. split; [done|]. split; [done|]. intros j. apply upd_case.
Qed.

Lemma modmem_Ok f st u st' : modmem f st = Ok u st' -> st' = set_memory (f (memory st)) st.
Proof. by intros [= _ <-]. Qed.

Lemma unblock_Ok i st u st' :
  unblock i st = Ok u st' -> p_flags (proc_table st i) = 0 /\ st' = st /\ 0 <= i < NR_ALL.
Proof.
  unfold unblock. intros H. inv_ok H. apply getp_Ok in E as (-> & -> & Hi).
  apply assert_Ok in H as [Hf ->]. zbool. done.
Qed.

Lemma block_Ok i st u st' :
  block i st = Ok u st' ->
  exists t' r, sched_table (proc_table st) t' /\ best t' r /\ 0 <= i < NR_ALL /\
    p_flags (proc_table st i) <> 0 /\ st' = set_p_proc_ready r (set_proc_table t' st).
Proof.
  unfold block. intros H. inv_ok H. apply getp_Ok in E as (-> & -> & Hi).
  apply assert_Ok in E0 as [Hf ->]. zbool.
  apply schedule_Ok in H as (t' & r & ? & ? & ->). by exists t', r.
Qed.

(** [run H]: follow a successful run, replacing each intermediate state. *)
Ltac run1 E :=
  lazymatch type of E with
  | getp _ _ = Ok _ _ => apply getp_Ok in E as (-> & -> & E)
  | assert_ _ _ = Ok _ _ => apply assert_Ok in E as [E ->]
  | va2la _ _ _ = Ok _ _ => apply va2la_Ok in E as (-> & -> & E)
  | modmem _ _ = Ok _ _ => apply modmem_Ok in E as ->
  | unblock _ _ = Ok _ _ => apply unblock_Ok in E as (E & -> & _)
  | get _ = Ok _ _ => injection E as <- <-
  | ret _ _ = Ok _ _ => injection E as <- <-
  | modp _ _ _ = Ok _ _ =>
      let t := fresh "t" in let R := fresh "R" in let Et := fresh "Et" in
      apply modp_Ok' in E as (t & -> & R & Et)
  | block _ _ = Ok _ _ =>
      let t := fresh "t" in let r := fresh "r" in let Hst := fresh "Hst" in
      let Hb := fresh "Hb" in let Hf := fresh "Hf" in
      apply block_Ok in E as (t & r & Hst & Hb & _ & Hf & ->)
  | _ => idtac
  end.

Ltac run H :=
  lazymatch type of H with
  | bind _ _ _ = Ok _ _ =>
      let v := fresh "v" in let s := fresh "s" in let E := fresh "E" in
      apply bind_Ok in H; destruct H as (v & s & E & H); run1 E; run H
  | _ => run1 H
  end.

(** the globals IPC does not touch *)
Definition same_rest (st st' : kstate) : Prop :=
  ticks st' = ticks st /\ k_reenter st' = k_reenter st /\ key_pressed st' = key_pressed st.

(** ** [deadlock] *)

Lemma deadlock_loop_zero t q fuel src p st st' :
  ipc_inv t q -> proc_table st = t -> deadlock_loop fuel src p st = Ok 0 st' ->
  st' = st /\ 0 <= p < NR_ALL /\ exists l, chain t p l /\ forall x, x ∈ l -> p_sendto (t x) <> src.
Proof.
  intros Hinv Ht. revert p. induction fuel as [|fuel IH]; intros p H; [done|].
  cbn [deadlock_loop] in H. apply bind_Ok in H as (pr & s1 & E & H).
  apply getp_Ok in E as (-> & -> & Hp). rewrite Ht in H.
  destruct (has (p_flags (t p)) SENDING) eqn:Ef.
  - apply (proc_ok_sending p) in Ef; [|by apply Hinv].
    destruct (src =? p_sendto (t p)) eqn:Es.
    + by apply bind_Ok in H as (? & ? & ? & ?).
    + apply IH in H as (-> & _ & l & Hl & Ha). zbool. split; [done|]. split; [done|].
      exists (p :: l). split; [by apply chain_next|].
      intros x [->|Hx]%elem_of_cons; [congruence|auto].
  - injection H as <-. split; [done|]. split; [done|]. exists []. split; [|set_solver].
    apply chain_stop. intros E. by rewrite E in Ef.
Qed.

Lemma deadlock_loop_run t q fuel src p l st :
  ipc_inv t q -> proc_table st = t -> 0 <= p < NR_ALL -> chain t p l -> (length l < fuel)%nat ->
  (forall x, x ∈ l -> p_sendto (t x) <> src) -> deadlock_loop fuel src p st = Ok 0 st.
Proof.
  intros Hinv Ht Hp Hc. revert fuel Hp. induction Hc as [p Hf|p l Hf Hc IH];
    intros fuel Hp Hl Ha; (destruct fuel as [|fuel]; [simpl in Hl; lia|]);
    cbn [deadlock_loop]; unfold bind, getp; rewrite (proj2 (in_table_iff p) Hp), Ht.
  - destruct (has (p_flags (t p)) SENDING) eqn:Ef; [|done].
    by apply (proc_ok_sending p) in Ef; [|by apply Hinv].
  - rewrite Hf. change (has SENDING SENDING) with true. cbv iota.
    rewrite (proj2 (Z.eqb_neq src _)) by (intros E; by apply (Ha p); [set_solver|]).
    apply IH; [|simpl in Hl; lia|intros x Hx; apply Ha; set_solver].
    destruct (inv_proc _ _ Hinv p Hp) as [Hf'|Hf'|Hf'|[Hf'|Hf']|Hf'];
      rewrite Hf in Hf'; done.
Qed.

(** A cycle is reported only after an assertion on the sender: its [p_msg]. *)
Lemma deadlock_loop_cycle t q fuel src p l st :
  ipc_inv t q -> proc_table st = t -> 0 <= p < NR_ALL -> chain t p l -> (length l < fuel)%nat ->
  0 <= src < NR_ALL -> p_msg (t src) = 0 ->
  (exists x, x ∈ l /\ p_sendto (t x) = src) -> deadlock_loop fuel src p st = Halt HAssert.
Proof.
  intros Hinv Ht Hp Hc. revert fuel Hp. induction Hc as [p Hf|p l Hf Hc IH];
    intros fuel Hp Hl Hsrc Hm (x & Hx & Hxs); [set_solver|].
  destruct fuel as [|fuel]; [simpl in Hl; lia|]. cbn [deadlock_loop].
  unfold bind at 1, getp at 1. rewrite (proj2 (in_table_iff p) Hp), Ht, Hf.
  change (has SENDING SENDING) with true. cbv iota.
  destruct (src =? p_sendto (t p)) eqn:Es.
  - unfold bind at 1. change IPC_FUEL with (S (pred IPC_FUEL)). cbn [deadlock_report].
    unfold bind at 1, getp at 1. rewrite (proj2 (in_table_iff src) Hsrc), Ht.
    unfold bind. by rewrite Hm.
  - zbool. apply IH; [|simpl in Hl; lia|done|done|].
    + destruct (inv_proc _ _ Hinv p Hp) as [Hf'|Hf'|Hf'|[Hf'|Hf']|Hf'];
        rewrite Hf in Hf'; done.
    + exists x. split; [|done]. apply elem_of_cons in Hx as [->|Hx]; [congruence|done].
Qed.

(** ** [queue_tail] and [find_prev] follow the abstract queue *)

Lemma queue_tail_run t fuel h l st :
  proc_table st = t -> seg (fun x => next_sending (t x)) (Some h) l None ->
  (forall x, x ∈ l -> 0 <= x < NR_ALL) -> (length l <= fuel)%nat ->
  exists x, last l = Some x /\ queue_tail fuel h st = Ok x st.
Proof.
  intros Ht. revert h fuel. induction l as [|y l IH]; intros h fuel Hs Hr Hl; [done|].
  destruct Hs as [[= <-] Hs]. destruct fuel as [|fuel]; [simpl in Hl; lia|].
  cbn [queue_tail]. unfold bind, getp.
  rewrite (proj2 (in_table_iff h)) by (apply Hr; set_solver). rewrite Ht.
  destruct l as [|z l].
  - rewrite Hs. by exists h.
  - destruct Hs as [-> Hs]. destruct (IH z fuel) as (x & Hx & ->).
    + by split.
    + intros x Hx. apply Hr. set_solver.
    + simpl in *. lia.
    + exists x. by rewrite last_cons_cons.
Qed.

Lemma find_prev_run t fuel src o l1 l2 prev st :
  proc_table st = t -> seg (fun x => next_sending (t x)) o (l1 ++ src :: l2) None ->
  src ∉ l1 -> 0 <= src < NR_ALL -> has (p_flags (t src)) SENDING = true ->
  (forall x, x ∈ l1 -> 0 <= x < NR_ALL) -> (length l1 < fuel)%nat ->
  find_prev fuel src o prev st = Ok (match last l1 with Some x => Some x | None => prev end) st.
Proof.
  intros Ht. revert o fuel prev. induction l1 as [|y l1 IH]; intros o fuel prev Hs Hn Hsrc Hf Hr Hl;
    (destruct fuel as [|fuel]; [simpl in Hl; lia|]); destruct Hs as [-> Hs]; cbn [find_prev];
    unfold bind, getp; rewrite (proj2 (in_table_iff src) Hsrc), Ht, Hf; simpl.
  - by rewrite Z.eqb_refl.
  - rewrite (proj2 (Z.eqb_neq y src)) by set_solver.
    rewrite (proj2 (in_table_iff y)) by (apply Hr; set_solver). rewrite Ht.
    rewrite IH; [|done|set_solver|done|done| |simpl in Hl; lia].
    + destruct l1 as [|z l1]; [done|]. rewrite last_cons_cons.
      by destruct (last (z :: l1)) eqn:E; [|apply last_None in E].
    + intros x Hx. apply Hr. set_solver.
Qed.

(** ** The branches of [msg_send] *)

(** the receiver after a delivery *)
Definition woken (p : PROCESS) : PROCESS :=
  set_p_recvfrom NO_TASK (set_p_flags (Z.land (p_flags p) (Z.lnot RECEIVING)) (set_p_msg 0 p)).

Lemma msg_deliver_Ok s d m st u st' :
  s <> d -> msg_deliver s d m st = Ok u st' ->
  m <> 0 /\ p_msg (proc_table st d) <> 0 /\
  memory st' = memcpy (la_of st d (p_msg (proc_table st d))) (la_of st s m) SIZEOF_MESSAGE (memory st) /\
  (forall i, proc_table st' i = if decide (i = d) then woken (proc_table st d) else proc_table st i) /\
  p_flags (woken (proc_table st d)) = 0 /\ p_sendto (proc_table st d) = NO_TASK /\
  p_proc_ready st' = p_proc_ready st /\ same_rest st st'.
Proof.
  intros Hsd H. unfold msg_deliver in H. run H. zbool. simpl in *.
  assert (Hd : t1 d = woken (proc_table st d)).
  { rewrite Et1, Et0, Et. by rewrite !decide_True. }
  rewrite Hd in *. repeat split; try done.
  intros i. case_decide as Hi; [by rewrite Hi|].
  by rewrite Et1, decide_False, Et0, decide_False, Et, decide_False.
Qed.

(** the assertions of a delivery hold when sender and receiver are consistent *)
Lemma msg_deliver_runs s d m st :
  0 <= s < NR_ALL -> 0 <= d < NR_ALL -> s <> d -> flat st -> m <> 0 ->
  proc_ok s (proc_table st s) -> p_flags (proc_table st s) = 0 ->
  p_msg (proc_table st d) <> 0 -> p_flags (proc_table st d) = RECEIVING ->
  p_sendto (proc_table st d) = NO_TASK ->
  exists st', msg_deliver s d m st = Ok tt st'.
Proof.
  intros Hs Hd Hsd Hflat Hm Hps Hfs Hmd Hfd Htd.
  assert (Hready : p_msg (proc_table st s) = 0 /\ p_recvfrom (proc_table st s) = NO_TASK /\
    p_sendto (proc_table st s) = NO_TASK).
  { destruct Hps as [| | |[]|]; rewrite Hfs in *; done. }
  destruct Hready as (Hs1 & Hs2 & Hs3).
  enough (wp (msg_deliver s d m) (fun u _ => u = tt) st) as (u & st' & E & ->)%wp_run by eauto.
  unfold msg_deliver, modmem, unblock.
  repeat (wp_step; (try apply wp_getp; try apply wp_modp; try apply wp_va2la; try done));
    cbn; rewrite ?upd_eq, ?(upd_ne _ d s) by done; cbn;
    rewrite ?Hfd, ?Hs1, ?Hs2, ?Hs3, ?Hfs, ?Htd; try done; by apply negb_true_iff, Z.eqb_neq.
Qed.

(** a queued sender's own fields *)
Definition queued (d m : Z) (p : PROCESS) : PROCESS :=
  set_p_msg m (set_p_sendto d (set_p_flags (Z.lor (p_flags p) SENDING) p)).

(** the fields of the table after queueing [s] at [d] with message [m] *)
Record enqueued (t t' : arr PROCESS) (q : Z -> list Z) (s d m : Z) : Prop := {
  enq_fl : forall i, p_flags (t' i) = if decide (i = s) then SENDING else p_flags (t i);
  enq_st : forall i, p_sendto (t' i) = if decide (i = s) then d else p_sendto (t i);
  enq_mg : forall i, p_msg (t' i) = if decide (i = s) then m else p_msg (t i);
  enq_rf : forall i, p_recvfrom (t' i) = p_recvfrom (t i);
  enq_in : forall i, has_int_msg (t' i) = has_int_msg (t i);
  enq_nx : forall i, next_sending (t' i) =
    if decide (i = s) then None
    else if decide (last (q d) = Some i) then Some s else next_sending (t i);
  enq_qs : forall i, q_sending (t' i) =
    if decide (i = d /\ q d = []) then Some s else q_sending (t i) }.

Lemma enqueued_ext t t' t'' q s d m :
  (forall i, ipc_fields (t'' i) = ipc_fields (t' i)) -> enqueued t t' q s d m -> enqueued t t'' q s d m.
Proof.
  intros He [H1 H2 H3 H4 H5 H6 H7].
  split; intros i; specialize (He i); unfold ipc_fields in He; injection He; intros;
    (etransitivity; [eassumption|auto]).
Qed.

(** linking the sender in at the end of the queue *)
Definition link (q : Z -> list Z) (s d : Z) (t t' : arr PROCESS) : Prop :=
  forall j, t' j =
    if decide (last (q d) = Some j) then set_next_sending (Some s) (t j)
    else if decide (j = d /\ q d = []) then set_q_sending (Some s) (t j) else t j.

Lemma link_run q s d (t : arr PROCESS) st u st' :
  seg (fun x => next_sending (proc_table st x)) (q_sending (t d)) (q d) None ->
  (forall x, x ∈ q d -> 0 <= x < NR_ALL) -> (length (q d) <= IPC_FUEL)%nat ->
  match q_sending (t d) with
  | Some h => x ← queue_tail IPC_FUEL h; modp x (set_next_sending (Some s))
  | None => modp d (set_q_sending (Some s))
  end st = Ok u st' ->
  exists t', st' = set_proc_table t' st /\ link q s d (proc_table st) t'.
Proof.
  intros Hs Hr Hl H. destruct (q_sending (t d)) as [h|] eqn:Eq.
  - destruct (queue_tail_run (proc_table st) IPC_FUEL h (q d) st) as (x & Hx & Et); try done.
    unfold bind in H. rewrite Et in H. run1 H. exists t0. split; [done|]. intros j.
    rewrite Et0, Hx. destruct (decide (j = x)) as [->|Hne].
    + by rewrite decide_True.
    + rewrite decide_False by congruence. rewrite decide_False; [done|].
      intros [_ Hq]. by rewrite Hq in Hx.
  - destruct (q d) as [|x l] eqn:Eqd; [|by destruct Hs]. run1 H. exists t0. split; [done|].
    intros j. rewrite Et, Eqd. simpl. repeat case_decide; subst; try done; exfalso; tauto.
Qed.

Lemma link_enqueued q s d m t t1 t2 t3 :
  s <> d -> p_flags (t s) = 0 -> s ∉ q d ->
  (forall j, t1 j = if decide (j = s) then queued d m (t s) else t j) ->
  link q s d t1 t2 ->
  (forall j, t3 j = if decide (j = s) then set_next_sending None (t2 s) else t2 j) ->
  enqueued t t3 q s d m.
Proof.
  intros Hsd Hf Hn E1 E2 E3.
  assert (Hs : last (q d) <> Some s) by (by intros ?%last_Some_elem_of).
  assert (E2s : t2 s = queued d m (t s)).
  { rewrite E2, decide_False, decide_False by naive_solver. by rewrite E1, decide_True. }
  assert (E3o : forall j, j <> s -> t3 j =
    if decide (last (q d) = Some j) then set_next_sending (Some s) (t j)
    else if decide (j = d /\ q d = []) then set_q_sending (Some s) (t j) else t j).
  { intros j Hj. assert (E1j : t1 j = t j) by (by rewrite E1, decide_False).
    by rewrite E3, decide_False, E2, E1j. }
  assert (Hx : forall j, last (q d) = Some j -> ~ (j = d /\ q d = [])).
  { intros j Hj [_ Hq]. by rewrite Hq in Hj. }
  split; intros i; destruct (decide (i = s)) as [->|Hne];
    rewrite ?(E3 s), ?decide_True, ?E2s by done; try (unfold queued; simpl; by rewrite ?Hf);
    rewrite ?E3o by done; repeat case_decide; try done; naive_solver.
Qed.

Lemma msg_enqueue_Ok q s d m st u st' :
  ipc_inv (proc_table st) q -> s <> d -> 0 <= d < NR_ALL -> p_flags (proc_table st s) = 0 ->
  msg_enqueue s d m st = Ok u st' ->
  m <> 0 /\ enqueued (proc_table st) (proc_table st') q s d m /\
  best (proc_table st') (p_proc_ready st') /\ memory st' = memory st /\ same_rest st st'.
Proof.
  intros Hinv Hsd Hd Hf H. unfold msg_enqueue in H.
  apply bind_Ok in H as (v & s0 & E & H). apply getp_Ok in E as (-> & -> & _).
  do 3 (apply bind_Ok in H as (? & ? & E & H); run1 E).
  assert (Hsn : s ∉ q d).
  { intros Hx. apply (inv_mem _ _ Hinv) in Hx as (_ & Hx & _); [|done]. by rewrite Hf in Hx. }
  assert (E1s : t1 s = queued d m (proc_table st s)).
  { rewrite Et1, Et0, Et. by rewrite !decide_True. }
  apply bind_Ok in H as (u1 & s1 & E & H). apply (link_run q) in E as (t2 & -> & El).
  - do 2 (apply bind_Ok in H as (? & ? & E & H); run1 E). run H. zbool. simpl in *.
    assert (Henq : enqueued (proc_table st) t3 q s d m).
    { eapply link_enqueued; [done|done|done| |exact El|exact Et2]. intros j.
      case_decide as Hj; [by rewrite Hj|]. by rewrite Et1, decide_False, Et0, decide_False, Et, decide_False. }
    assert (Henq' : enqueued (proc_table st) t4 q s d m).
    { eapply enqueued_ext; [|exact Henq]. intros i. by apply sched_table_fields. }
    pose proof (enq_mg _ _ _ _ _ _ Henq' s) as Hm. rewrite decide_True in Hm by done.
    split; [congruence|done].
  - simpl. eapply seg_ext; [|by apply Hinv]. intros y Hy. simpl.
    assert (y <> s) by (intros ->; done).
    by rewrite Et1, decide_False, Et0, decide_False, Et, decide_False.
  - intros y Hy. apply (inv_mem _ _ Hinv) in Hy as (? & _); done.
  - by eapply queue_length.
Qed.

Lemma wp_link q s d (t : arr PROCESS) st (Q : unit -> kstate -> Prop) :
  seg (fun x => next_sending (proc_table st x)) (q_sending (t d)) (q d) None ->
  (forall x, x ∈ q d -> 0 <= x < NR_ALL) -> (length (q d) <= IPC_FUEL)%nat -> 0 <= d < NR_ALL ->
  (forall t', link q s d (proc_table st) t' -> Q tt (set_proc_table t' st)) ->
  wp (match q_sending (t d) with
      | Some h => x ← queue_tail IPC_FUEL h; modp x (set_next_sending (Some s))
      | None => modp d (set_q_sending (Some s))
      end) Q st.
Proof.
  intros Hs Hr Hl Hd HQ.
  assert (exists st', match q_sending (t d) with
      | Some h => x ← queue_tail IPC_FUEL h; modp x (set_next_sending (Some s))
      | None => modp d (set_q_sending (Some s))
      end st = Ok tt st') as [st' E].
  { destruct (q_sending (t d)) as [h|] eqn:Eq.
    - destruct (queue_tail_run (proc_table st) IPC_FUEL h (q d) st) as (x & Hx & Et); try done.
      unfold bind, modp. rewrite Et, (proj2 (in_table_iff x)); [eauto|].
      apply Hr. by apply last_Some_elem_of.
    - unfold modp. rewrite (proj2 (in_table_iff d) Hd). eauto. }
  unfold wp. rewrite E. apply (link_run q) in E as (t' & -> & El); auto.
Qed.

Lemma wp_modp' i f st (Q : unit -> kstate -> Prop) :
  0 <= i < NR_ALL ->
  (forall t', (forall j, t' j = if decide (j = i) then f (proc_table st i) else proc_table st j) ->
     Q tt (set_proc_table t' st)) ->
  wp (modp i f) Q st.
Proof. intros Hi HQ. apply wp_modp; [done|]. apply HQ. intros j. apply upd_case. Qed.

Lemma wp_block i st (Q : unit -> kstate -> Prop) :
  0 <= i < NR_ALL -> p_flags (proc_table st i) <> 0 -> (exists j, can_run (proc_table st) j) ->
  (forall t' r, sched_table (proc_table st) t' -> best t' r ->
     Q tt (set_p_proc_ready r (set_proc_table t' st))) ->
  wp (block i) Q st.
Proof.
  intros Hi Hf Hc HQ. unfold block. wp_step. apply wp_getp; [done|]. wp_step.
  wp_step; [by apply negb_true_iff, Z.eqb_neq|]. by apply wp_schedule.
Qed.

Lemma can_run_ext t t' j :
  p_flags (t' j) = p_flags (t j) -> priority (t' j) = priority (t j) ->
  can_run t j -> can_run t' j.
Proof. unfold can_run, runnable. by intros -> ->. Qed.

Lemma link_priority q s d t t' j : link q s d t t' -> priority (t' j) = priority (t j).
Proof. intros E. rewrite E. repeat case_decide; done. Qed.

Lemma msg_enqueue_runs q s d m j st :
  ipc_inv (proc_table st) q -> 0 <= s < NR_ALL -> 0 <= d < NR_ALL -> s <> d ->
  p_flags (proc_table st s) = 0 -> m <> 0 -> j <> s -> can_run (proc_table st) j ->
  exists st', msg_enqueue s d m st = Ok tt st'.
Proof.
  intros Hinv Hs Hd Hsd Hf Hm Hj Hc.
  assert (Hrf : p_recvfrom (proc_table st s) = NO_TASK).
  { destruct (inv_proc _ _ Hinv s Hs) as [| | |[]|]; rewrite Hf in *; done. }
  assert (Hsn : s ∉ q d).
  { intros Hx. apply (inv_mem _ _ Hinv) in Hx as (_ & Hx & _); [|done]. by rewrite Hf in Hx. }
  enough (wp (msg_enqueue s d m) (fun u _ => u = tt) st) as (u & st' & E & ->)%wp_run by eauto.
  unfold msg_enqueue. wp_step. apply wp_getp; [done|].
  wp_step. apply wp_modp'; [done|]. intros ta Ea.
  wp_step. apply wp_modp'; [done|]. intros tb Eb.
  wp_step. apply wp_modp'; [done|]. intros t1 Ec. cbn in Eb, Ec.
  assert (E1 : forall i, t1 i = if decide (i = s) then queued d m (proc_table st s) else proc_table st i).
  { intros i. case_decide as Hi.
    - subst. rewrite Ec, Eb, Ea. by rewrite !decide_True.
    - by rewrite Ec, decide_False, Eb, decide_False, Ea, decide_False. }
  wp_step. apply (wp_link q).
  - eapply seg_ext; [|by apply Hinv]. intros y Hy. simpl. rewrite E1, decide_False; [done|].
    intros ->; done.
  - intros y Hy. by apply (inv_mem _ _ Hinv) in Hy as (? & _).
  - by eapply queue_length.
  - done.
  - intros t2 El. wp_step. apply wp_modp'; [done|]. intros t3 Ed. cbn in El, Ed.
    assert (Henq : enqueued (proc_table st) t3 q s d m).
    { eapply link_enqueued; [done|done|done|exact E1|exact El|exact Ed]. }
    assert (Hcj : can_run t3 j).
    { eapply can_run_ext; [| |exact Hc].
      - by rewrite (enq_fl _ _ _ _ _ _ Henq), decide_False.
      - rewrite Ed, decide_False by done.
        by rewrite (link_priority _ _ _ _ _ _ El), E1, decide_False. }
    wp_step. apply wp_block; [done| |by exists j|].
    { cbn. by rewrite (enq_fl _ _ _ _ _ _ Henq), decide_True. }
    intros t4 r Hst _. cbn in Hst.
    assert (Henq' : enqueued (proc_table st) t4 q s d m).
    { eapply enqueued_ext; [|exact Henq]. intros i. by apply sched_table_fields. }
    destruct Henq' as [H1 H2 H3 H4 _ _ _].
    wp_step. apply wp_getp; [done|]. repeat wp_step; cbn;
      rewrite ?H1, ?H2, ?H3, ?H4, ?decide_True by done; try done.
    + by apply negb_true_iff, Z.eqb_neq.
    + by apply Z.eqb_eq.
    + by rewrite Hrf.
Qed.

(** ** The branches of [msg_receive] *)

(** what [receive_choose] finds in the abstract queue of [who] *)
Definition chosen (q : Z -> list Z) (who src : Z) (c : option (Z * option Z)) : Prop :=
  match c with
  | None => (src = ANY -> q who = []) /\ src ∉ q who
  | Some (f, prev) =>
      exists l1 l2, q who = l1 ++ f :: l2 /\ prev = last l1 /\ (src = f \/ (src = ANY /\ l1 = []))
  end.

Lemma proc_ok_ready i p : proc_ok i p -> p_flags p = 0 ->
  p_msg p = 0 /\ p_recvfrom p = NO_TASK /\ p_sendto p = NO_TASK.
Proof. intros [| | |[]|] Hf; rewrite Hf in *; done. Qed.

Lemma proc_ok_sender i p : proc_ok i p -> p_flags p = SENDING ->
  p_msg p <> 0 /\ p_recvfrom p = NO_TASK.
Proof. intros [| | |[]|] Hf; rewrite Hf in *; done. Qed.

Lemma receive_asserts_run q w f st :
  ipc_inv (proc_table st) q -> 0 <= w < NR_ALL -> p_flags (proc_table st w) = 0 -> f ∈ q w ->
  receive_asserts w f st = Ok tt st.
Proof.
  intros Hinv Hw Hf Hin. apply (inv_mem _ _ Hinv) in Hin as Hs; [|done].
  destruct Hs as (Hfr & Hff & Hfs).
  destruct (proc_ok_ready w _ (inv_proc _ _ Hinv w Hw) Hf) as (Hw1 & Hw2 & Hw3).
  destruct (proc_ok_sender f _ (inv_proc _ _ Hinv f Hfr) Hff) as (Hf1 & Hf2).
  assert (Hq : q_sending (proc_table st w) <> None).
  { pose proof (inv_seg _ _ Hinv w Hw) as Hseg. destruct (q w) as [|x l]; [set_solver|].
    destruct Hseg as [-> _]. done. }
  unfold receive_asserts, bind, getp.
  rewrite (proj2 (in_table_iff w) Hw), Hf, Hw1, Hw2, Hw3. simpl.
  rewrite bool_decide_eq_true_2 by done. simpl.
  rewrite (proj2 (in_table_iff f) Hfr), Hff, Hfs, Hf2. simpl. rewrite Z.eqb_refl. simpl.
  by rewrite (proj2 (Z.eqb_neq _ _) Hf1).
Qed.

Lemma receive_choose_run q w src st :
  ipc_inv (proc_table st) q -> 0 <= w < NR_ALL -> p_flags (proc_table st w) = 0 ->
  src = ANY \/ 0 <= src < NR_ALL ->
  exists c, receive_choose w src st = Ok c st /\ chosen q w src c.
Proof.
  intros Hinv Hw Hf Hsrc. pose proof (inv_seg _ _ Hinv w Hw) as Hseg.
  assert (Hany : ANY ∉ q w).
  { intros Hx. apply (inv_mem _ _ Hinv) in Hx as (? & _); [clia|done]. }
  unfold receive_choose, bind at 1, getp at 1. rewrite (proj2 (in_table_iff w) Hw).
  destruct (src =? ANY) eqn:Ea; zbool.
  - destruct (q w) as [|f l] eqn:Eq.
    + simpl in Hseg. rewrite Hseg. exists None. split; [done|]. split; [done|].
      subst. rewrite Eq. set_solver.
    + destruct Hseg as [-> _]. exists (Some (f, None)). unfold bind.
      rewrite (receive_asserts_run q) by (done || (rewrite Eq; set_solver)).
      split; [done|]. exists [], l. auto.
  - destruct Hsrc as [|Hsrc]; [done|]. unfold bind at 1, getp at 1.
    rewrite (proj2 (in_table_iff src) Hsrc).
    assert (Hmem : has (p_flags (proc_table st src)) SENDING && (p_sendto (proc_table st src) =? w) = true
      <-> src ∈ q w).
    { rewrite (inv_mem _ _ Hinv) by done. rewrite andb_true_iff, Z.eqb_eq.
      rewrite (proc_ok_sending src) by (by apply Hinv). naive_solver. }
    destruct (has _ SENDING && _) eqn:Es.
    + pose proof (proj1 Hmem eq_refl) as (l1 & l2 & Eq)%list_elem_of_split.
      pose proof (inv_nodup _ _ Hinv w Hw) as Hn. rewrite Eq in Hn, Hseg.
      apply NoDup_app in Hn as (_ & Hn & _). zbool.
      assert (Hin : src ∈ q w) by (rewrite Eq; set_solver).
      unfold bind. rewrite bool_decide_eq_true_2
        by (destruct l1; destruct Hseg as [-> _]; done).
      cbv beta iota delta [assert_ ret].
      rewrite (find_prev_run (proc_table st) (S IPC_FUEL) src _ l1 l2 None st); try done.
      * rewrite (receive_asserts_run q) by done.
        exists (Some (src, last l1)). split; [by destruct (last l1)|].
        exists l1, l2. auto.
      * intros Hx. apply (Hn src Hx). set_solver.
      * intros x Hx. assert (x ∈ q w) as Hxq by (rewrite Eq; set_solver).
        by apply (inv_mem _ _ Hinv) in Hxq as (? & _).
      * pose proof (queue_length _ _ _ Hinv Hw) as Hl. rewrite Eq, length_app in Hl. simpl in Hl. lia.
    + exists None. split; [done|]. split; [done|]. intros Hx. apply Hmem in Hx. done.
Qed.

(** the fields of the table after [w] has taken [f] out of its queue *)
Record dequeued (t t' : arr PROCESS) (w f : Z) (l1 : list Z) : Prop := {
  deq_fl : forall i, p_flags (t' i) = if decide (i = f) then 0 else p_flags (t i);
  deq_st : forall i, p_sendto (t' i) = if decide (i = f) then NO_TASK else p_sendto (t i);
  deq_mg : forall i, p_msg (t' i) = if decide (i = f) then 0 else p_msg (t i);
  deq_rf : forall i, p_recvfrom (t' i) = p_recvfrom (t i);
  deq_in : forall i, has_int_msg (t' i) = has_int_msg (t i);
  deq_nx : forall i, next_sending (t' i) =
    if decide (i = f) then None
    else if decide (last l1 = Some i) then next_sending (t f) else next_sending (t i);
  deq_qs : forall i, q_sending (t' i) =
    if decide (i = w /\ l1 = []) then next_sending (t f) else q_sending (t i) }.

(** unlinking: the receiver's head or the predecessor skips [f] *)
Definition unlinked (t t' : arr PROCESS) (w f : Z) (l1 : list Z) : Prop :=
  forall i, t' i =
    if decide (i = f) then set_next_sending None (t f)
    else if decide (last l1 = Some i) then set_next_sending (next_sending (t f)) (t i)
    else if decide (i = w /\ l1 = []) then set_q_sending (next_sending (t f)) (t i) else t i.

Lemma wp_unlink q w f l1 l2 st (Q : unit -> kstate -> Prop) :
  ipc_inv (proc_table st) q -> 0 <= w < NR_ALL -> q w = l1 ++ f :: l2 -> w <> f ->
  (forall t', unlinked (proc_table st) t' w f l1 -> Q tt (set_proc_table t' st)) ->
  wp (if bool_decide (q_sending (proc_table st w) = Some f) then
       modp w (set_q_sending (next_sending (proc_table st f))) ;;
       modp f (set_next_sending None)
     else
       match last l1 with
       | None => stop HAssert
       | Some x =>
           modp x (set_next_sending (next_sending (proc_table st f))) ;;
           modp f (set_next_sending None)
       end) Q st.
Proof.
  intros Hinv Hw Eq Hwf HQ. pose proof (inv_seg _ _ Hinv w Hw) as Hseg.
  pose proof (inv_nodup _ _ Hinv w Hw) as Hn. rewrite Eq in Hseg, Hn.
  assert (Hr : forall x, x ∈ l1 ++ f :: l2 -> 0 <= x < NR_ALL).
  { intros x Hx. rewrite <- Eq in Hx. by apply (inv_mem _ _ Hinv) in Hx as (? & _). }
  apply NoDup_app in Hn as (_ & Hn & _).
  assert (Hf1 : f ∉ l1) by (intros Hx; apply (Hn f Hx); set_solver).
  destruct (last l1) as [x|] eqn:El.
  - assert (Hx : x ∈ l1) by (by apply last_Some_elem_of).
    destruct l1 as [|y l1]; [done|]. destruct Hseg as [-> _].
    rewrite bool_decide_eq_false_2 by (intros [= ->]; set_solver).
    wp_step. apply wp_modp'; [apply Hr; set_solver|]. intros ta Ea.
    apply wp_modp'; [apply Hr; set_solver|]. intros tb Eb. cbn in Eb. apply HQ.
    intros i. rewrite Eb. case_decide as Hi.
    + by rewrite Ea, decide_False by (intros ->; set_solver).
    + rewrite Ea. repeat case_decide; naive_solver.
  - apply last_None in El as ->. destruct Hseg as [-> _].
    rewrite bool_decide_eq_true_2 by done.
    wp_step. apply wp_modp'; [done|]. intros ta Ea.
    apply wp_modp'; [apply Hr; set_solver|]. intros tb Eb. cbn in Eb. apply HQ.
    intros i. rewrite Eb. case_decide as Hi.
    + by rewrite Ea, decide_False.
    + rewrite Ea. repeat case_decide; naive_solver.
Qed.

(** the sender after its message has been taken *)
Definition released (p : PROCESS) : PROCESS :=
  set_p_sendto NO_TASK (set_p_flags (Z.land (p_flags p) (Z.lnot SENDING)) (set_p_msg 0 p)).

Lemma unlinked_dequeued t t1 t2 w f l1 :
  w <> f -> f ∉ l1 -> p_flags (t f) = SENDING -> unlinked t t1 w f l1 ->
  (forall i, t2 i = if decide (i = f) then released (t1 f) else t1 i) ->
  dequeued t t2 w f l1.
Proof.
  intros Hwf Hf1 Hf E1 E2.
  assert (E1f : t1 f = set_next_sending None (t f)) by (by rewrite E1, decide_True).
  assert (Hl : last l1 <> Some f) by (by intros ?%last_Some_elem_of).
  assert (E2o : forall i, i <> f -> t2 i =
    if decide (last l1 = Some i) then set_next_sending (next_sending (t f)) (t i)
    else if decide (i = w /\ l1 = []) then set_q_sending (next_sending (t f)) (t i) else t i).
  { intros i Hi. rewrite E2, decide_False, E1 by done. by rewrite decide_False. }
  assert (Hx : forall i, last l1 = Some i -> ~ (i = w /\ l1 = [])) by (by intros i Hi [_ ->]).
  split; intros i; destruct (decide (i = f)) as [->|Hne];
    rewrite ?(E2 f), ?decide_True, ?E1f by done; try (unfold released; simpl; by rewrite ?Hf);
    rewrite ?E2o by done; repeat case_decide; try done; naive_solver.
Qed.

Lemma la_of_ext st st' pid va :
  ldts (proc_table st' pid) = ldts (proc_table st pid) -> la_of st' pid va = la_of st pid va.
Proof. unfold la_of. by intros ->. Qed.

Lemma flat_ext st st' :
  (forall i, ldts (proc_table st' i) = ldts (proc_table st i)) -> flat st -> flat st'.
Proof. intros He H i Hi. rewrite He. by apply H. Qed.

Lemma unlinked_ldts t t' w f l1 i : unlinked t t' w f l1 -> ldts (t' i) = ldts (t i).
Proof. intros E. rewrite E. repeat case_decide; subst; done. Qed.

Lemma unlinked_msg t t' w f l1 i : unlinked t t' w f l1 -> p_msg (t' i) = p_msg (t i).
Proof. intros E. rewrite E. repeat case_decide; subst; done. Qed.

Lemma receive_copy_run q w m f l1 l2 st :
  ipc_inv (proc_table st) q -> flat st -> 0 <= w < NR_ALL -> p_flags (proc_table st w) = 0 ->
  q w = l1 ++ f :: l2 -> m <> 0 ->
  exists st', receive_copy w m f (last l1) st = Ok tt st' /\
    dequeued (proc_table st) (proc_table st') w f l1 /\
    memory st' = memcpy (la_of st w m) (la_of st f (p_msg (proc_table st f))) SIZEOF_MESSAGE (memory st) /\
    (forall i, ldts (proc_table st' i) = ldts (proc_table st i) /\
               priority (proc_table st' i) = priority (proc_table st i)) /\
    p_proc_ready st' = p_proc_ready st /\ same_rest st st'.
Proof.
  intros Hinv Hflat Hw Hfw Eq Hm. assert (Hin : f ∈ q w) by (rewrite Eq; set_solver).
  apply (inv_mem _ _ Hinv) in Hin as (Hfr & Hff & Hfs); [|done].
  assert (Hwf : w <> f) by (intros ->; by rewrite Hfw in Hff).
  destruct (proc_ok_sender f _ (inv_proc _ _ Hinv f Hfr) Hff) as (Hf1 & Hf2).
  assert (Hfn : f ∉ l1).
  { pose proof (inv_nodup _ _ Hinv w Hw) as Hn. rewrite Eq in Hn.
    apply NoDup_app in Hn as (_ & Hn & _). intros Hx. apply (Hn f Hx). set_solver. }
  enough (wp (receive_copy w m f (last l1)) (fun u st' => u = tt /\
    dequeued (proc_table st) (proc_table st') w f l1 /\
    memory st' = memcpy (la_of st w m) (la_of st f (p_msg (proc_table st f))) SIZEOF_MESSAGE (memory st) /\
    (forall i, ldts (proc_table st' i) = ldts (proc_table st i) /\
               priority (proc_table st' i) = priority (proc_table st i)) /\
    p_proc_ready st' = p_proc_ready st /\ same_rest st st') st)
    as (u & st' & E & -> & H)%wp_run by eauto.
  unfold receive_copy. do 2 (wp_step; apply wp_getp; [done|]).
  wp_step. eapply (wp_unlink q); try done. intros t1 E1.
  assert (Hl1 : forall i, ldts (t1 i) = ldts (proc_table st i)) by (intros; by eapply unlinked_ldts).
  assert (Hflat1 : flat (set_proc_table t1 st)) by (eapply flat_ext; [|done]; done).
  wp_step. wp_step; [by apply negb_true_iff, Z.eqb_neq|].
  wp_step. apply wp_getp; [done|]. cbn. rewrite (unlinked_msg _ _ _ _ _ f E1).
  wp_step. wp_step; [by apply negb_true_iff, Z.eqb_neq|].
  do 2 (wp_step; apply wp_va2la; [done|done|]).
  rewrite (la_of_ext st _ w), (la_of_ext st _ f) by (simpl; auto).
  wp_step. unfold modmem. wp_step.
  wp_step. apply wp_modp'; [done|]. intros ta Ea. cbn in Ea.
  wp_step. apply wp_modp'; [done|]. intros tb Eb. cbn in Eb.
  wp_step. apply wp_modp'; [done|]. intros t2 Ec. cbn in Ec.
  assert (E2 : forall i, t2 i = if decide (i = f) then released (t1 f) else t1 i).
  { intros i. case_decide as Hi.
    - subst. rewrite Ec, Eb, Ea. by rewrite !decide_True.
    - by rewrite Ec, decide_False, Eb, decide_False, Ea, decide_False. }
  assert (Hd : dequeued (proc_table st) t2 w f l1) by by eapply unlinked_dequeued.
  unfold unblock. wp_step. apply wp_getp; [done|].
  apply wp_assert; [by rewrite (deq_fl _ _ _ _ _ Hd), decide_True|].
  split; [done|]. split; [done|]. split; [done|]. split; [|done].
  intros i. simpl. rewrite E2, !E1. repeat case_decide; subst; done.
Qed.

Lemma receive_copy_Ok w m f prev st u st' : receive_copy w m f prev st = Ok u st' -> m <> 0.
Proof.
  unfold receive_copy. intros H.
  do 2 (apply bind_Ok in H as (? & ? & _ & H)). apply bind_Ok in H as (? & s1 & _ & H).
  apply bind_Ok in H as (? & ? & E & _). apply assert_Ok in E as [E _]. by zbool.
Qed.

(** the receiver after it has blocked *)
Definition waiting_for (src m : Z) (p : PROCESS) : PROCESS :=
  set_p_msg m (set_p_flags (Z.lor (p_flags p) RECEIVING) (set_p_recvfrom src p)).

Lemma receive_wait_Ok w src m st u st' :
  p_flags (proc_table st w) = 0 -> receive_wait w src m st = Ok u st' ->
  m <> 0 /\ has_int_msg (proc_table st w) = 0 /\
  (forall i, ipc_fields (proc_table st' i) =
     ipc_fields (if decide (i = w) then waiting_for src m (proc_table st w) else proc_table st i)) /\
  best (proc_table st') (p_proc_ready st') /\ memory st' = memory st /\ same_rest st st'.
Proof.
  intros Hf H. unfold receive_wait in H. run H. zbool. simpl in *.
  assert (Ew : forall i, t1 i =
    if decide (i = w) then waiting_for src m (proc_table st w) else proc_table st i).
  { intros i. case_decide as Hi.
    - subst. rewrite Et1, Et0, Et. by rewrite !decide_True.
    - by rewrite Et1, decide_False, Et0, decide_False, Et, decide_False. }
  assert (Es : forall i, ipc_fields (t2 i) =
     ipc_fields (if decide (i = w) then waiting_for src m (proc_table st w) else proc_table st i)).
  { intros i. rewrite <- Ew. by apply sched_table_fields. }
  pose proof (Es w) as Hw. rewrite decide_True in Hw by done. unfold ipc_fields in Hw.
  injection Hw as _ Hw2 _ _ Hw5 _ _. simpl in *.
  rewrite Hw2, Hw5 in *. clear Et Et0 Et1 Ew. by repeat (split; [done|]).
Qed.

Lemma receive_wait_runs w src m j st :
  0 <= w < NR_ALL -> proc_ok w (proc_table st w) -> p_flags (proc_table st w) = 0 ->
  m <> 0 -> src <> NO_TASK -> has_int_msg (proc_table st w) = 0 ->
  j <> w -> can_run (proc_table st) j -> exists st', receive_wait w src m st = Ok tt st'.
Proof.
  intros Hw Hok Hf Hm Hsrc Hi Hj Hc.
  destruct (proc_ok_ready w _ Hok Hf) as (Hw1 & Hw2 & Hw3).
  enough (wp (receive_wait w src m) (fun u _ => u = tt) st) as (u & st' & E & ->)%wp_run by eauto.
  unfold receive_wait.
  wp_step. apply wp_modp'; [done|]. intros ta Ea. cbn in Ea.
  wp_step. apply wp_modp'; [done|]. intros tb Eb. cbn in Eb.
  wp_step. apply wp_modp'; [done|]. intros t1 Ec. cbn in Ec.
  assert (E1 : forall i, t1 i =
    if decide (i = w) then waiting_for src m (proc_table st w) else proc_table st i).
  { intros i. case_decide as Hi'.
    - subst. rewrite Ec, Eb, Ea. by rewrite !decide_True.
    - by rewrite Ec, decide_False, Eb, decide_False, Ea, decide_False. }
  wp_step. apply wp_block; [done|cbn; rewrite E1, decide_True by done; simpl; by rewrite Hf| |].
  { exists j. cbn. eapply can_run_ext; [| |exact Hc]; by rewrite E1, decide_False. }
  intros t2 r Hst _. cbn in Hst. pose proof (sched_table_fields _ _ w Hst) as Ew.
  rewrite E1, decide_True in Ew by done. unfold ipc_fields in Ew.
  injection Ew as H1 H2 H3 H4 H5 _ _. simpl in *.
  wp_step. apply wp_getp; [done|]. repeat wp_step; cbn; rewrite ?H1, ?H2, ?H3, ?H4, ?H5, ?Hf, ?Hw3, ?Hi;
    try done; by apply negb_true_iff, Z.eqb_neq.
Qed.
