(* ===== verification/IpcFrame.v ===== *)
(** * What IPC leaves alone

    IPC and the scheduler change the flags, the partners, the queues and the
    tick counters of processes, never their memory, priority, name, parent, exit
    status or files. [keeps c] says so of a command; it is closed under the
    monad's operations, so the translations of Ipc.v have it by construction. *)
From S2P Require Import Prelude Const Protect Proc Sched Ipc IpcInv IpcStep IpcRun.

Definition frame_fields (p : PROCESS) :=
  (regs p, ldt_sel p, ldts p, priority p, p_name p, p_parent p, exit_status p, filp p).

Definition keeps {A} (c : M kstate A) : Prop :=
  forall st a st', c st = Ok a st' ->
    forall i, frame_fields (proc_table st' i) = frame_fields (proc_table st i).

Create HintDb keeps.

Lemma keeps_bind {A B} (c : M kstate A) (k : A -> M kstate B) :
  keeps c -> (forall a, keeps (k a)) -> keeps (bind c k).
Proof.
  intros Hc Hk st b st' (a & s & E1 & E2)%bind_Ok i.
  etransitivity; [by eapply Hk|by eapply Hc].
Qed.
Lemma keeps_ret {A} (a : A) : keeps (ret a).
Proof. by intros st a' st' [= _ <-]. Qed.
Lemma keeps_stop {A} h : keeps (@stop kstate A h).
Proof. done. Qed.
Lemma keeps_get : keeps get.
Proof. by intros st a' st' [= _ <-]. Qed.
Lemma keeps_getp i : keeps (getp i).
Proof. by intros st p st' (_ & -> & _)%getp_Ok. Qed.
Lemma keeps_assert b : keeps (assert_ b).
Proof. by intros st u st' (_ & ->)%assert_Ok. Qed.
Lemma keeps_va2la pid va : keeps (va2la pid va).
Proof. by intros st la st' (_ & -> & _)%va2la_Ok. Qed.
Lemma keeps_modmem f : keeps (modmem f).
Proof. by intros st u st' ->%modmem_Ok. Qed.
Lemma keeps_modp i f : (forall p, frame_fields (f p) = frame_fields p) -> keeps (modp i f).
Proof.
  intros Hf st u st' (t & -> & _ & Et)%modp_Ok' j. simpl. rewrite Et. by case_decide; subst.
Qed.
Lemma keeps_schedule : keeps schedule.
Proof.
  intros st u st' (t' & r & Ht & _ & ->)%schedule_Ok i. simpl.
  by destruct (sched_table_same _ _ i Ht) as [->| ->].
Qed.
Lemma keeps_when b c : keeps c -> keeps (when b c).
Proof. intros H. destruct b; [done|apply keeps_ret]. Qed.
#[export] Hint Resolve keeps_ret keeps_stop keeps_get keeps_getp keeps_assert keeps_va2la
  keeps_modmem keeps_schedule keeps_when : keeps.

(** [keeps_tac]: follow the structure of a command. *)
Ltac keeps_tac :=
  repeat first
    [ solve [eauto with keeps]
    | apply keeps_bind; [|intros ?]
    | apply keeps_modp; intros []; reflexivity
    | case_match ].

Lemma keeps_queue_tail fuel p : keeps (queue_tail fuel p).
Proof. revert p. induction fuel; intros p; simpl; keeps_tac. Qed.
Lemma keeps_find_prev fuel src p prev : keeps (find_prev fuel src p prev).
Proof. revert p prev. induction fuel; intros p prev; simpl; keeps_tac. Qed.
Lemma keeps_deadlock_report fuel src p : keeps (deadlock_report fuel src p).
Proof. revert p. induction fuel; intros p; simpl; keeps_tac. Qed.
Lemma keeps_deadlock_loop fuel src p : keeps (deadlock_loop fuel src p).
Proof.
  revert p. induction fuel; intros p; cbn [deadlock_loop]; keeps_tac.
Qed.
#[export] Hint Resolve keeps_queue_tail keeps_find_prev keeps_deadlock_report
  keeps_deadlock_loop : keeps.

Lemma keeps_block i : keeps (block i).
Proof. unfold block. keeps_tac. Qed.
Lemma keeps_unblock i : keeps (unblock i).
Proof. unfold unblock. keeps_tac. Qed.
#[export] Hint Resolve keeps_block keeps_unblock : keeps.

Lemma keeps_msg_send s d m : keeps (msg_send s d m).
Proof. unfold msg_send, deadlock, msg_deliver, msg_enqueue, panic. keeps_tac. Qed.
Lemma keeps_msg_receive w src m : keeps (msg_receive w src m).
Proof.
  unfold msg_receive, receive_int, receive_choose, receive_asserts, receive_copy, receive_wait.
  keeps_tac.
Qed.
#[export] Hint Resolve keeps_msg_send keeps_msg_receive : keeps.

Lemma keeps_sys_sendrec f sd m p : keeps (sys_sendrec f sd m p).
Proof. unfold sys_sendrec, panic. keeps_tac. Qed.
Lemma keeps_inform_int k : keeps (inform_int k).
Proof. unfold inform_int. keeps_tac. Qed.
#[export] Hint Resolve keeps_sys_sendrec keeps_inform_int : keeps.

Lemma keeps_modify f :
  (forall st, proc_table (f st) = proc_table st) -> keeps (modify f).
Proof. intros Hf st u st' [= _ <-] i. by rewrite Hf. Qed.

Lemma keeps_clock_handler : keeps clock_handler.
Proof.
  unfold clock_handler. apply keeps_bind; [by apply keeps_modify|intros _]. keeps_tac.
Qed.

Lemma keeps_flat {A} (c : M kstate A) st a st' : keeps c -> c st = Ok a st' -> flat st -> flat st'.
Proof.
  intros Hk E. apply flat_ext. intros i. specialize (Hk _ _ _ E i). unfold frame_fields in Hk.
  by injection Hk.
Qed.

Lemma keeps_priority {A} (c : M kstate A) st a st' i :
  keeps c -> c st = Ok a st' -> priority (proc_table st' i) = priority (proc_table st i).
Proof. intros Hk E. specialize (Hk _ _ _ E i). unfold frame_fields in Hk. by injection Hk. Qed.
