(* ===== verification/IpcThm.v ===== *)
(** * Theorems about IPC

    The results of [msg_send], [msg_receive], [deadlock], [inform_int] and
    [clock_handler] against the abstract queues, and the safety of every state
    the kernel reaches by system calls, clock ticks and interrupts. *)
From S2P Require Import Prelude Const Protect Proc Sched Ipc IpcInv IpcStep IpcRun IpcFrame.

(** ** The invariant over one call *)

Lemma ipc_inv_enqueued t t' q s d m :
  ipc_inv t q -> 0 <= s < NR_ALL -> 0 <= d < NR_ALL -> s <> d -> p_flags (t s) = 0 ->
  accepts (t d) s = false -> m <> 0 ->
  (exists l, chain t d l /\ forall x, x ∈ l -> p_sendto (t x) <> s) ->
  enqueued t t' q s d m -> ipc_inv t' (upd q d (q d ++ [s])).
Proof.
  intros Hinv Hs Hd Hsd Hf Ha Hm Hdl [H1 H2 H3 H4 H5 H6 H7].
  apply (ipc_inv_enqueue t t' q s d); try done.
  - intros i Hi. by rewrite H3, decide_False.
  - by rewrite H3, decide_True.
Qed.

Lemma ipc_inv_dequeued t t' q w f l1 l2 :
  ipc_inv t q -> 0 <= w < NR_ALL -> q w = l1 ++ f :: l2 -> p_flags (t w) = 0 ->
  dequeued t t' w f l1 -> ipc_inv t' (upd q w (l1 ++ l2)).
Proof. intros Hinv Hw Hq Hf []. by apply (ipc_inv_dequeue t t' q w f l1 l2). Qed.

(** a receiver that is woken: its flags become 0 *)
Lemma ipc_inv_wake t t' q d :
  ipc_inv t q -> 0 <= d < NR_ALL -> p_flags (t d) <> SENDING ->
  (forall i, i <> d -> ipc_fields (t' i) = ipc_fields (t i)) ->
  q_sending (t' d) = q_sending (t d) -> next_sending (t' d) = next_sending (t d) ->
  p_flags (t' d) = 0 -> p_msg (t' d) = 0 -> p_recvfrom (t' d) = NO_TASK -> p_sendto (t' d) = NO_TASK ->
  ipc_inv t' q.
Proof.
  intros Hinv Hd Hf He Hq Hn Hfl Hm Hr Hs. eapply (ipc_inv_change t t' q d); try done.
  - by rewrite Hfl.
  - by apply ok_ready.
  - by rewrite Hfl.
  - by rewrite Hfl.
Qed.

(** a ready process that blocks to receive from [src] *)
Lemma ipc_inv_wait t t' q w src m :
  ipc_inv t q -> 0 <= w < NR_ALL -> p_flags (t w) = 0 -> m <> 0 -> recv_ok w src ->
  (src = ANY -> q w = []) -> src ∉ q w ->
  (src = ANY \/ src = INTERRUPT -> has_int_msg (t w) = 0) ->
  (forall i, ipc_fields (t' i) =
     ipc_fields (if decide (i = w) then waiting_for src m (t w) else t i)) ->
  ipc_inv t' q.
Proof.
  intros Hinv Hw Hf Hm Hr Ha Hn Hi He.
  destruct (proc_ok_ready w _ (inv_proc _ _ Hinv w Hw) Hf) as (_ & _ & Hst).
  pose proof (He w) as Ew. rewrite decide_True in Ew by done. unfold ipc_fields in Ew.
  injection Ew as H1 H2 H3 H4 H5 H6 H7. simpl in *. rewrite Hf in H1.
  eapply (ipc_inv_change t t' q w); try done.
  - intros i Hne. rewrite He. by rewrite decide_False.
  - by rewrite Hf.
  - by rewrite H1.
  - apply ok_receiving; [done|congruence|congruence|by rewrite H3].
  - intros _ s Hs. rewrite H3. split; [|intros ->; done].
    intros ->. rewrite Ha in Hs by done. set_solver.
  - intros _. rewrite H3, H5. auto.
Qed.

(** [SENDING] does not overlap the flags of an accepting receiver. *)
Lemma accepts_not_sending t q s d : ipc_inv t q -> 0 <= d < NR_ALL ->
  accepts (t d) s = true -> p_flags (t d) <> SENDING.
Proof. intros Hinv Hd Ha Hf. unfold accepts in Ha. by rewrite Hf in Ha. Qed.

Lemma inv_delivered q s d m st st' :
  ipc_inv (proc_table st) q -> 0 <= d < NR_ALL -> s <> d -> accepts (proc_table st d) s = true ->
  msg_deliver s d m st = Ok tt st' -> ipc_inv (proc_table st') q.
Proof.
  intros Hinv Hd Hsd Ha H. apply msg_deliver_Ok in H as (_ & _ & _ & Et & Hfl & Hst & _); [|done].
  pose proof (Et d) as Ed. rewrite decide_True in Ed by done.
  eapply (ipc_inv_wake (proc_table st) _ q d); try (by rewrite Ed).
  - done.
  - done.
  - by eapply accepts_not_sending.
  - intros i Hi. by rewrite Et, decide_False.
Qed.

(** ** [msg_send] *)

(** what a successful [msg_send] has done *)
Definition sent (q q' : Z -> list Z) (s d m : Z) (st st' : kstate) : Prop :=
  let t := proc_table st in let t' := proc_table st' in
  if accepts (t d) s then
    q' = q /\
    memory st' = memcpy (la_of st d (p_msg (t d))) (la_of st s m) SIZEOF_MESSAGE (memory st) /\
    p_flags (t' d) = 0 /\ (forall i, i <> d -> t' i = t i) /\ p_proc_ready st' = p_proc_ready st
  else
    q' = upd q d (q d ++ [s]) /\ memory st' = memory st /\
    p_flags (t' s) = SENDING /\ p_sendto (t' s) = d /\ p_msg (t' s) = m /\
    best t' (p_proc_ready st').

Lemma msg_send_Ok q s d m st r st' :
  ipc_inv (proc_table st) q -> 0 <= s < NR_ALL -> p_flags (proc_table st s) = 0 ->
  msg_send s d m st = Ok r st' ->
  r = 0 /\ 0 <= d < NR_ALL /\ s <> d /\ same_rest st st' /\
  exists q', ipc_inv (proc_table st') q' /\ sent q q' s d m st st'.
Proof.
  intros Hinv Hs Hf H. unfold msg_send in H.
  apply bind_Ok in H as (? & ? & E & H). apply assert_Ok in E as [E ->]. zbool.
  apply bind_Ok in H as (dl & s1 & Edl & H). apply bind_Ok in H as (? & s2 & Ep & H).
  destruct (dl =? 0) eqn:Ez; simpl in Ep; [|done]. injection Ep as _ <-. zbool. subst dl.
  apply (deadlock_loop_zero _ q _ _ _ _ _ Hinv eq_refl) in Edl as (-> & Hd & Hdl).
  apply bind_Ok in H as (? & ? & Eg & H). apply getp_Ok in Eg as (-> & -> & _).
  apply bind_Ok in H as ([] & s3 & Eb & H). injection H as <- <-.
  unfold sent. destruct (accepts (proc_table st d) s) eqn:Ha.
  - pose proof (inv_delivered q s d m st s3 Hinv Hd E Ha Eb) as Hinv'.
    apply msg_deliver_Ok in Eb as (Hm & Hmd & Hmem & Et & Hfl & Hst & Hr & Hrest); [|done].
    repeat (split; [done|]). exists q. split; [done|]. split; [done|]. split; [done|].
    split; [by rewrite Et, decide_True|]. split; [|done].
    intros i Hi. by rewrite Et, decide_False.
  - apply (msg_enqueue_Ok q) in Eb as (Hm & Henq & Hb & Hmem & Hrest); try done.
    repeat (split; [done|]). eexists. split; [by apply (ipc_inv_enqueued (proc_table st) _ q s d m)|].
    destruct Henq as [H1 H2 H3 _ _ _ _]. rewrite H1, H2, H3, !decide_True by done. done.
Qed.

(** the sender's call does not close a cycle of senders *)
Definition no_cycle (t : arr PROCESS) (s d : Z) : Prop :=
  forall l x, chain t d l -> x ∈ l -> p_sendto (t x) <> s.

(** the receiver is not parked by MM, or the sender is not MM *)
Definition not_parked (t : arr PROCESS) (s d : Z) : Prop :=
  accepts (t d) s = true -> p_flags (t d) = RECEIVING.

Lemma msg_send_runs q s d m j st :
  ipc_inv (proc_table st) q -> flat st -> 0 <= s < NR_ALL -> 0 <= d < NR_ALL -> s <> d ->
  p_flags (proc_table st s) = 0 -> m <> 0 -> no_cycle (proc_table st) s d ->
  not_parked (proc_table st) s d -> j <> s -> can_run (proc_table st) j ->
  exists st', msg_send s d m st = Ok 0 st'.
Proof.
  intros Hinv Hflat Hs Hd Hsd Hf Hm Hnc Hnp Hj Hc.
  destruct (inv_chain _ _ Hinv d Hd) as [l Hl].
  unfold msg_send, bind. rewrite (proj2 (Z.eqb_neq s d) Hsd). simpl.
  unfold deadlock. rewrite (deadlock_loop_run _ q _ _ _ l st Hinv eq_refl Hd Hl).
  - simpl. unfold getp. rewrite (proj2 (in_table_iff d) Hd).
    destruct (accepts (proc_table st d) s) eqn:Ha.
    + pose proof (Hnp Ha) as Hfd.
      destruct (inv_proc _ _ Hinv d Hd) as [| |? Hmd Hst|[]|]; rewrite Hfd in *; try done.
      destruct (msg_deliver_runs s d m st) as [st' ->]; eauto; by apply Hinv.
    + destruct (msg_enqueue_runs q s d m j st) as [st' ->]; eauto.
  - pose proof (chain_length _ _ _ _ Hinv Hd Hl). lia.
  - intros x Hx. by eapply Hnc.
Qed.

(** ** [msg_receive] *)

(** what a successful [msg_receive] has done: a pending interrupt is handed
    over, a queued sender is served, or the receiver is blocked *)
Definition received (q q' : Z -> list Z) (w src m : Z) (st st' : kstate) : Prop :=
  let t := proc_table st in let t' := proc_table st' in
  if negb (has_int_msg (t w) =? 0) && ((src =? ANY) || (src =? INTERRUPT)) then
    q' = q /\ memory st' = put_msg (la_of st w m) int_msg (memory st) /\
    has_int_msg (t' w) = 0 /\ p_flags (t' w) = 0 /\ p_proc_ready st' = p_proc_ready st
  else
    (exists l1 f l2, q w = l1 ++ f :: l2 /\ (src = f \/ (src = ANY /\ l1 = [])) /\
       q' = upd q w (l1 ++ l2) /\
       memory st' = memcpy (la_of st w m) (la_of st f (p_msg (t f))) SIZEOF_MESSAGE (memory st) /\
       p_flags (t' f) = 0 /\ p_flags (t' w) = 0 /\ p_proc_ready st' = p_proc_ready st) \/
    ((src = ANY -> q w = []) /\ src ∉ q w /\ q' = q /\ memory st' = memory st /\
       p_flags (t' w) = RECEIVING /\ p_recvfrom (t' w) = src /\ p_msg (t' w) = m /\
       best t' (p_proc_ready st')).

Lemma receive_int_Ok w m st u st' :
  receive_int w m st = Ok u st' ->
  m <> 0 /\ memory st' = put_msg (la_of st w m) int_msg (memory st) /\
  (forall i, proc_table st' i = if decide (i = w) then set_has_int_msg 0 (proc_table st w) else proc_table st i) /\
  p_flags (proc_table st w) = 0 /\ p_proc_ready st' = p_proc_ready st /\ same_rest st st'.
Proof.
  intros H. unfold receive_int in H. run H. zbool. simpl in *.
  pose proof (Et w) as Ew. rewrite decide_True in Ew by done. rewrite Ew in *. done.
Qed.

Lemma has_int_ext t t' q w :
  ipc_inv t q -> 0 <= w < NR_ALL -> p_flags (t w) = 0 ->
  (forall i, t' i = if decide (i = w) then set_has_int_msg 0 (t w) else t i) -> ipc_inv t' q.
Proof.
  intros Hinv Hw Hf Et. destruct (proc_ok_ready w _ (inv_proc _ _ Hinv w Hw) Hf) as (H1 & H2 & H3).
  pose proof (Et w) as Ew. rewrite decide_True in Ew by done.
  eapply (ipc_inv_wake t t' q w); try (rewrite Ew; done); try done.
  - by rewrite Hf.
  - intros i Hi. by rewrite Et, decide_False.
Qed.

Lemma msg_receive_Ok q w src m st r st' :
  ipc_inv (proc_table st) q -> flat st -> 0 <= w < NR_ALL -> p_flags (proc_table st w) = 0 ->
  src = ANY \/ src = INTERRUPT \/ 0 <= src < NR_ALL -> m <> 0 ->
  msg_receive w src m st = Ok r st' ->
  r = 0 /\ w <> src /\ same_rest st st' /\
  exists q', ipc_inv (proc_table st') q' /\ received q q' w src m st st'.
Proof.
  intros Hinv Hflat Hw Hf Hsrc Hm H. unfold msg_receive in H.
  apply bind_Ok in H as (? & ? & E & H). apply assert_Ok in E as [Hws ->]. zbool.
  apply bind_Ok in H as (? & ? & E & H). apply getp_Ok in E as (-> & -> & _).
  destruct (proc_ok_ready w _ (inv_proc _ _ Hinv w Hw) Hf) as (Hw1 & Hw2 & Hw3).
  assert (Hni : INTERRUPT ∉ q w).
  { intros Hx. apply (inv_mem _ _ Hinv) in Hx as (? & _); [clia|done]. }
  unfold received. destruct (negb (has_int_msg (proc_table st w) =? 0) && _) eqn:Ei.
  - apply bind_Ok in H as ([] & s1 & E & H). injection H as <- <-.
    apply receive_int_Ok in E as (_ & Hmem & Et & _ & Hr & Hrest).
    do 3 (split; [done|]). exists q. split; [by eapply has_int_ext|].
    by rewrite Et, decide_True.
  - destruct (src =? INTERRUPT) eqn:Es; zbool.
    + subst src. run H. simpl in *. assert (Hi : has_int_msg (proc_table st w) = 0).
      { destruct (has_int_msg (proc_table st w) =? 0) eqn:Ez; [by zbool|done]. }
      assert (Ew : forall i, ipc_fields (t1 i) =
        ipc_fields (if decide (i = w) then waiting_for INTERRUPT m (proc_table st w) else proc_table st i)).
      { intros i. case_decide as Hiw.
        - subst. rewrite Et1, Et0, Et. by rewrite !decide_True.
        - by rewrite Et1, decide_False, Et0, decide_False, Et, decide_False. }
      assert (Ef : forall i, ipc_fields (t2 i) =
        ipc_fields (if decide (i = w) then waiting_for INTERRUPT m (proc_table st w) else proc_table st i)).
      { intros i. rewrite <- Ew. by apply sched_table_fields. }
      do 3 (split; [done|]). exists q. split.
      { eapply (ipc_inv_wait (proc_table st) _ q w INTERRUPT m); try done. by right; left. }
      right. pose proof (Ef w) as E0. rewrite decide_True in E0 by done. unfold ipc_fields in E0.
      injection E0 as -> -> -> _ _ _ _. simpl. by rewrite Hf.
    + apply bind_Ok in H as (c & s1 & E & H).
      destruct (receive_choose_run q w src st) as (c' & Ec & Hch); try done; [tauto|].
      rewrite Ec in E. injection E as <- <-.
      apply bind_Ok in H as ([] & s2 & E & H). injection H as <- <-.
      destruct c' as [[f prev]|].
      * destruct Hch as (l1 & l2 & Eq & -> & Hfs).
        destruct (receive_copy_run q w m f l1 l2 st) as (s3 & E3 & Hd & Hmem & _ & Hr & Hrest);
          [done..|].
        rewrite E3 in E. injection E as <-. do 3 (split; [done|]).
        eexists. split; [by apply (ipc_inv_dequeued (proc_table st) _ q w f l1 l2)|].
        left. exists l1, f, l2. split; [done|]. split; [done|]. split; [done|]. split; [done|].
        rewrite !(deq_fl _ _ _ _ _ Hd), decide_True by done. split; [done|].
        split; [|done]. by case_decide.
      * destruct Hch as [Ha Hn]. apply receive_wait_Ok in E as (_ & Hi & Ew & Hb & Hmem & Hrest); [|done].
        do 3 (split; [done|]). exists q. split.
        { eapply (ipc_inv_wait (proc_table st) _ q w src m); try done.
          destruct Hsrc as [?|[?|?]]; [by left|done|right; right; split; [done|congruence]]. }
        right. pose proof (Ew w) as E0. rewrite decide_True in E0 by done. unfold ipc_fields in E0.
        injection E0 as -> -> -> _ _ _ _. simpl. by rewrite Hf.
Qed.

(** the last assertion of [msg_receive]: a process that waits for one particular
    sender must not have a pending interrupt *)
Definition no_lost_int (t : arr PROCESS) (q : Z -> list Z) (w src : Z) : Prop :=
  has_int_msg (t w) = 0 \/ src = ANY \/ src = INTERRUPT \/ src ∈ q w.

Lemma receive_int_runs w m st :
  0 <= w < NR_ALL -> flat st -> m <> 0 -> proc_ok w (proc_table st w) ->
  p_flags (proc_table st w) = 0 -> exists st', receive_int w m st = Ok tt st'.
Proof.
  intros Hw Hflat Hm Hok Hf. destruct (proc_ok_ready w _ Hok Hf) as (Hw1 & Hw2 & Hw3).
  enough (wp (receive_int w m) (fun u _ => u = tt) st) as (u & st' & E & ->)%wp_run by eauto.
  unfold receive_int, modmem. wp_step. wp_step; [by apply negb_true_iff, Z.eqb_neq|].
  wp_step. apply wp_va2la; [done|done|]. wp_step. wp_step. wp_step.
  apply wp_modp'; [done|]. intros t' Et. cbn in Et.
  wp_step. apply wp_getp; [done|]. cbn. rewrite Et, decide_True by done. cbn.
  rewrite Hf, Hw1, Hw3. by repeat wp_step.
Qed.

Lemma msg_receive_runs q w src m j st :
  ipc_inv (proc_table st) q -> flat st -> 0 <= w < NR_ALL -> p_flags (proc_table st w) = 0 ->
  src = ANY \/ src = INTERRUPT \/ 0 <= src < NR_ALL -> w <> src -> m <> 0 ->
  no_lost_int (proc_table st) q w src -> j <> w -> can_run (proc_table st) j ->
  exists st', msg_receive w src m st = Ok 0 st'.
Proof.
  intros Hinv Hflat Hw Hf Hsrc Hws Hm Hnl Hj Hc.
  pose proof (inv_proc _ _ Hinv w Hw) as Hok.
  unfold msg_receive, bind. rewrite (proj2 (Z.eqb_neq w src) Hws). simpl.
  unfold getp at 1. rewrite (proj2 (in_table_iff w) Hw).
  destruct (negb (has_int_msg (proc_table st w) =? 0) && _) eqn:Ei.
  - destruct (receive_int_runs w m st) as [st' ->]; eauto.
  - destruct (src =? INTERRUPT) eqn:Es; zbool.
    + enough (wp (modp w (fun p => set_p_flags (Z.lor (p_flags p) RECEIVING) p) ;;
        modp w (set_p_recvfrom INTERRUPT) ;; modp w (set_p_msg m) ;; block w ;; ret 0)
        (fun r _ => r = 0) st) as (? & st' & E & ->)%wp_run by (eexists; exact E).
      wp_step. apply wp_modp'; [done|]. intros ta Ea. cbn in Ea.
      wp_step. apply wp_modp'; [done|]. intros tb Eb. cbn in Eb.
      wp_step. apply wp_modp'; [done|]. intros t1 Ec. cbn in Ec.
      wp_step. apply wp_block; [done| | |].
      * cbn. rewrite Ec, Eb, Ea, !decide_True by done. cbn. by rewrite Hf.
      * exists j. cbn. eapply can_run_ext; [| |exact Hc];
          by rewrite Ec, decide_False, Eb, decide_False, Ea, decide_False.
      * intros. by wp_step.
    + destruct (receive_choose_run q w src st) as (c & -> & Hch); try done; [tauto|].
      destruct c as [[f prev]|].
      * destruct Hch as (l1 & l2 & Eq & -> & Hfs).
        destruct (receive_copy_run q w m f l1 l2 st) as (s3 & -> & _); [done..|]. eauto.
      * destruct Hch as [Ha Hn]. destruct (receive_wait_runs w src m j st) as [st' ->]; eauto.
        -- clia.
        -- destruct Hnl as [?|[->|[?|?]]]; try done.
           destruct (has_int_msg (proc_table st w) =? 0) eqn:Ez; [by zbool|]. done.
Qed.

(** ** Interrupts and the clock *)

(** an interrupt that stays pending *)
Lemma ipc_inv_pending t t' q k :
  ipc_inv t q -> 0 <= k < NR_ALL -> t' k = set_has_int_msg 1 (t k) ->
  (forall i, i <> k -> t' i = t i) ->
  (p_flags (t k) = RECEIVING -> p_recvfrom (t k) <> ANY /\ p_recvfrom (t k) <> INTERRUPT) ->
  ipc_inv t' q.
Proof.
  intros Hinv Hk Ek Eo Hst. pose proof (inv_proc _ _ Hinv k Hk) as Hok.
  split; intros i.
  - intros Hi. destruct (decide (i = k)) as [->|Hne]; [|rewrite Eo by done; by apply Hinv].
    rewrite Ek. by destruct Hok; [apply ok_ready|apply ok_sending|apply ok_receiving|apply ok_parked|apply ok_free].
  - intros Hi. assert (q_sending (t' i) = q_sending (t i)) as ->.
    { destruct (decide (i = k)) as [->|Hne]; [by rewrite Ek|by rewrite Eo]. }
    eapply seg_ext; [|by apply Hinv]. intros x _. simpl.
    destruct (decide (x = k)) as [->|Hne]; [by rewrite Ek|by rewrite Eo].
  - apply Hinv.
  - intros s Hi. rewrite (inv_mem _ _ Hinv) by done.
    destruct (decide (s = k)) as [->|Hne]; [by rewrite Ek|by rewrite Eo].
  - intros s Hi Hs. destruct (decide (i = k)) as [->|Hne]; [rewrite Ek|rewrite Eo by done]; by apply Hinv.
  - intros Hi. destruct (inv_chain _ _ Hinv i Hi) as [l Hl]. exists l.
    eapply chain_ext; [|done]. intros x.
    destruct (decide (x = k)) as [->|Hne]; [by rewrite Ek|by rewrite Eo].
  - intros Hi. destruct (decide (i = k)) as [->|Hne]; [|rewrite Eo by done; by apply Hinv].
    rewrite Ek. simpl. intros Hf. specialize (Hst Hf). tauto.
Qed.

(** what [inform_int] does: hand the interrupt over, or leave it pending *)
Lemma inform_int_Ok q k st u st' :
  ipc_inv (proc_table st) q -> inform_int k st = Ok u st' ->
  0 <= k < NR_ALL /\ ipc_inv (proc_table st') q /\ p_proc_ready st' = p_proc_ready st /\
  same_rest st st' /\ (forall i, i <> k -> proc_table st' i = proc_table st i) /\
  if has (p_flags (proc_table st k)) RECEIVING &&
     ((p_recvfrom (proc_table st k) =? INTERRUPT) || (p_recvfrom (proc_table st k) =? ANY))
  then p_flags (proc_table st' k) = 0 /\
       memory st' = st32 (p_msg (proc_table st k) + 4) HARD_INT (st32 (p_msg (proc_table st k)) INTERRUPT (memory st))
  else memory st' = memory st /\ has_int_msg (proc_table st' k) = 1 /\
       p_flags (proc_table st' k) = p_flags (proc_table st k).
Proof.
  intros Hinv H. unfold inform_int in H.
  apply bind_Ok in H as (? & ? & E & H). apply getp_Ok in E as (-> & -> & Hk).
  destruct (has (p_flags (proc_table st k)) RECEIVING && _) eqn:Ec.
  - run H. zbool. simpl in *.
    assert (Ek : t2 k = set_p_recvfrom NO_TASK (set_p_flags (Z.land (p_flags (proc_table st k))
      (Z.lnot RECEIVING)) (set_has_int_msg 0 (set_p_msg 0 (proc_table st k))))).
    { rewrite Et2, Et1, Et0, Et. by rewrite !decide_True. }
    assert (Eo : forall i, i <> k -> t2 i = proc_table st i).
    { intros i Hi. by rewrite Et2, decide_False, Et1, decide_False, Et0, decide_False, Et, decide_False. }
    split; [done|]. split; [|split; [done|]; split; [done|]; split; [done|]; rewrite Ek in *; done].
    eapply (ipc_inv_wake (proc_table st) t2 q k); try done; try (by rewrite Ek).
    + intros Hf. by rewrite Hf in *.
    + intros i Hi. by rewrite Eo.
  - run H. simpl. pose proof (Et k) as Ek. rewrite decide_True in Ek by done.
    assert (Eo : forall i, i <> k -> t i = proc_table st i)
      by (intros i Hi; by rewrite Et, decide_False).
    split; [done|]. split; [|split; [done|]; split; [done|]; split; [done|]; rewrite Ek; done].
    apply (ipc_inv_pending (proc_table st) t q k); try done.
    intros Hf. rewrite Hf in Ec. simpl in Ec. zbool. done.
Qed.

Lemma inform_int_runs q k st :
  ipc_inv (proc_table st) q -> 0 <= k < NR_ALL ->
  p_flags (proc_table st k) = 0 \/ p_flags (proc_table st k) = SENDING \/
  p_flags (proc_table st k) = RECEIVING ->
  exists st', inform_int k st = Ok tt st'.
Proof.
  intros Hinv Hk Hfl. pose proof (inv_proc _ _ Hinv k Hk) as Hok.
  enough (wp (inform_int k) (fun u _ => u = tt) st) as (u & st' & E & ->)%wp_run by eauto.
  unfold inform_int, modmem, unblock. wp_step. apply wp_getp; [done|].
  destruct (has _ _ && _) eqn:Ec.
  - assert (Hf : p_flags (proc_table st k) = RECEIVING).
    { destruct Hfl as [Hf|[Hf|Hf]]; rewrite Hf in Ec; done. }
    assert (Hst : p_sendto (proc_table st k) = NO_TASK)
      by (destruct Hok as [| | |[]|]; rewrite Hf in *; done).
    do 4 wp_step. wp_step. apply wp_modp'; [done|]. intros ta Ea. cbn in Ea.
    wp_step. apply wp_modp'; [done|]. intros tb Eb. cbn in Eb.
    wp_step. apply wp_modp'; [done|]. intros tc Ec'. cbn in Ec'.
    wp_step. apply wp_modp'; [done|]. intros td Ed. cbn in Ed.
    assert (E1 : td k = set_p_recvfrom NO_TASK (set_p_flags 0 (set_has_int_msg 0 (set_p_msg 0
      (proc_table st k))))).
    { rewrite Ed, Ec', Eb, Ea, !decide_True by done. cbn. by rewrite Hf. }
    wp_step. apply wp_getp; [done|]. cbn. rewrite E1. cbn. wp_step. wp_step.
    wp_step. wp_step. apply wp_getp; [done|]. cbn. rewrite E1. cbn.
    rewrite Hst. by repeat wp_step.
  - apply wp_modp'; [done|]. done.
Qed.

(** a receiver that would have to wait with an interrupt pending *)
Lemma receive_wait_stops w src m j st :
  0 <= w < NR_ALL -> proc_ok w (proc_table st w) -> p_flags (proc_table st w) = 0 ->
  m <> 0 -> src <> NO_TASK -> has_int_msg (proc_table st w) <> 0 ->
  j <> w -> can_run (proc_table st) j -> receive_wait w src m st = Halt HAssert.
Proof.
  intros Hw Hok Hf Hm Hsrc Hi Hj Hc.
  destruct (proc_ok_ready w _ Hok Hf) as (Hw1 & Hw2 & Hw3). unfold receive_wait.
  apply bind_then_halt, wp_modp'; [done|]. intros ta Ea. cbn in Ea.
  apply bind_then_halt, wp_modp'; [done|]. intros tb Eb. cbn in Eb.
  apply bind_then_halt, wp_modp'; [done|]. intros t1 Ec. cbn in Ec.
  assert (E1 : forall i, t1 i =
    if decide (i = w) then waiting_for src m (proc_table st w) else proc_table st i).
  { intros i. case_decide as Hi'.
    - subst. rewrite Ec, Eb, Ea. by rewrite !decide_True.
    - by rewrite Ec, decide_False, Eb, decide_False, Ea, decide_False. }
  apply bind_then_halt, wp_block; [done|cbn; rewrite E1, decide_True by done; simpl; by rewrite Hf| |].
  { exists j. cbn. eapply can_run_ext; [| |exact Hc]; by rewrite E1, decide_False. }
  intros t2 r Hst _. cbn in Hst. pose proof (sched_table_fields _ _ w Hst) as Ew.
  rewrite E1, decide_True in Ew by done. unfold ipc_fields in Ew.
  injection Ew as H1 H2 H3 H4 H5 _ _. simpl in *.
  apply bind_then_halt, wp_getp; [done|]. cbn. rewrite H1, H2, H3, H4, H5, Hf, Hw3.
  rewrite (proj2 (Z.eqb_neq m 0)), (proj2 (Z.eqb_neq src NO_TASK)),
    (proj2 (Z.eqb_neq (has_int_msg _) 0)) by done. done.
Qed.

Lemma msg_receive_stops q w src m j st :
  ipc_inv (proc_table st) q -> 0 <= w < NR_ALL -> p_flags (proc_table st w) = 0 ->
  0 <= src < NR_ALL -> w <> src -> m <> 0 -> src ∉ q w -> has_int_msg (proc_table st w) <> 0 ->
  j <> w -> can_run (proc_table st) j -> msg_receive w src m st = Halt HAssert.
Proof.
  intros Hinv Hw Hf Hsrc Hws Hm Hq Hi Hj Hc. unfold msg_receive.
  apply bind_then_halt, wp_assert; [by apply negb_true_iff, Z.eqb_neq|].
  apply bind_then_halt, wp_getp; [done|].
  rewrite (proj2 (Z.eqb_neq src ANY)), (proj2 (Z.eqb_neq src INTERRUPT)) by clia.
  rewrite andb_false_r. destruct (receive_choose_run q w src st) as (c & E & Hch); try done; [tauto|].
  rewrite (bind_run _ _ _ _ _ E). destruct c as [[f prev]|].
  - destruct Hch as (l1 & l2 & Eq & _ & [->|[-> _]]); [|clia]. destruct Hq. rewrite Eq. set_solver.
  - apply bind_halt. eapply receive_wait_stops; try done; [by apply Hinv|clia].
Qed.

(** ** The kernel invariant, and the states the kernel reaches *)

Record kinv (st : kstate) (q : Z -> list Z) : Prop := {
  k_ipc : ipc_inv (proc_table st) q;
  k_flat : flat st;
  k_ready : 0 <= p_proc_ready st < NR_ALL;
  k_running : p_flags (proc_table st (p_proc_ready st)) = 0 }.

Lemma best_ready t r : best t r -> 0 <= r < NR_ALL /\ p_flags (t r) = 0.
Proof. intros (Hr & Hrun & _). unfold runnable in Hrun. by zbool. Qed.
