(* ===== verification/IpcSpec.v ===== *)
(** * What IPC promises

    The system call [sys_sendrec] against the abstract queues of IpcInv.v: a
    send hands the message over or queues the sender last, a receive takes a
    pending interrupt, the chosen sender, or waits; both return. The message
    that arrives is the one sent, stamped with its sender. [kstep] is one step
    of the running system as the kernel sees it, and the invariant holds in
    every state such steps reach. *)
From S2P Require Import Prelude Const Protect Proc Sched Ipc IpcInv IpcStep IpcRun IpcFrame.
From S2P Require Import IpcThm.

(** ** Entering the system call *)

(** [mla->source = caller]: the first store of [sys_sendrec] *)
Definition stamp (p m : Z) (st : kstate) : kstate :=
  set_memory (st32 (la_of st p m) p (memory st)) st.

Definition partner_ok (sd : Z) : Prop := sd = ANY \/ sd = INTERRUPT \/ 0 <= sd < NR_ALL.

Lemma partner_ok_b sd : partner_ok sd ->
  in_table sd || (sd =? ANY) || (sd =? INTERRUPT) = true.
Proof.
  intros [->|[->|H%in_table_iff]]; [by vm_compute..|by rewrite H].
Qed.

Lemma sys_sendrec_enter f sd m p st :
  flat st -> 0 <= p < NR_ALL -> k_reenter st = 0 -> partner_ok sd ->
  sys_sendrec f sd m p st =
    (if f =? SEND then r ← msg_send p sd m; (if negb (r =? 0) then ret r else ret 0)
     else if f =? RECEIVE then r ← msg_receive p sd m; (if negb (r =? 0) then ret r else ret 0)
     else panic) (stamp p m st).
Proof.
  intros Hf Hp Hk Hsd. unfold sys_sendrec.
  rewrite (bind_run get _ st st st eq_refl).
  rewrite (bind_run _ _ _ _ _ (assert_run _ st (proj2 (Z.eqb_eq _ _) Hk))).
  rewrite (bind_run _ _ _ _ _ (assert_run _ st (partner_ok_b sd Hsd))).
  by rewrite (bind_run _ _ _ _ _ (va2la_run p m st Hp Hf)).
Qed.

Lemma sys_sendrec_Ok f sd m p st r st' :
  sys_sendrec f sd m p st = Ok r st' ->
  k_reenter st = 0 /\ partner_ok sd /\ 0 <= p < NR_ALL /\
  ((f = SEND /\ exists r, msg_send p sd m (stamp p m st) = Ok r st') \/
   (f = RECEIVE /\ exists r, msg_receive p sd m (stamp p m st) = Ok r st')).
Proof.
  intros H. unfold sys_sendrec in H.
  apply bind_Ok in H as (? & ? & E & H). injection E as <- <-.
  apply bind_Ok in H as (? & ? & E & H). apply assert_Ok in E as [E ->]. zbool.
  apply bind_Ok in H as (? & ? & Es & H). apply assert_Ok in Es as [Es ->].
  apply bind_Ok in H as (la & ? & El & H). apply va2la_Ok in El as (-> & -> & Hp).
  apply bind_Ok in H as (u & s1 & Em & H). injection Em as _ <-.
  split; [done|]. split.
  { rewrite !orb_true_iff in Es. unfold partner_ok.
    destruct Es as [[Es%in_table_iff|Es]|Es]; zbool; auto. }
  split; [done|].
  destruct (f =? SEND) eqn:E1; zbool.
  - left. split; [done|]. apply bind_Ok in H as (r0 & s2 & E2 & H).
    exists r0. by destruct (negb (r0 =? 0)); injection H as _ <-.
  - destruct (f =? RECEIVE) eqn:E3; zbool; [|done].
    right. split; [done|]. apply bind_Ok in H as (r0 & s2 & E2 & H).
    exists r0. by destruct (negb (r0 =? 0)); injection H as _ <-.
Qed.

(** ** Steps of the running system

    A handler runs to its end before the next one starts. Between handlers the
    running process may change memory and its registers, and the keyboard
    handler may set [key_pressed]. A clock tick that finds [k_reenter] non-zero
    only counts. *)
Inductive kstep : kstate -> kstate -> Prop :=
| step_sendrec function src_dest m r st st' :
    m <> 0 ->
    sys_sendrec function src_dest m (p_proc_ready st) st = Ok r st' -> kstep st st'
| step_clock st st' : clock_handler st = Ok tt st' -> kstep st st'
| step_int k st st' : inform_int k st = Ok tt st' -> kstep st st'
| step_user mm rg st :
    kstep st (set_memory mm (set_proc_table
      (upd (proc_table st) (p_proc_ready st) (set_regs rg (proc_table st (p_proc_ready st)))) st))
| step_key b st : kstep st (set_key_pressed b st).

(** [kinv] without the queues *)
Definition safe (st : kstate) : Prop := exists q, kinv st q.

Lemma same_table_safe st st' q :
  kinv st q -> (forall i, ipc_fields (proc_table st' i) = ipc_fields (proc_table st i)) ->
  (forall i, ldts (proc_table st' i) = ldts (proc_table st i)) ->
  p_proc_ready st' = p_proc_ready st -> kinv st' q.
Proof.
  intros [Hi Hf Hr Hg] He Hl Hp. split.
  - by eapply ipc_inv_ext.
  - eapply flat_ext; [|done]. done.
  - by rewrite Hp.
  - rewrite Hp. specialize (He (p_proc_ready st)). unfold ipc_fields in He.
    injection He as E _ _ _ _ _ _. congruence.
Qed.

Lemma kinv_stamp st q p m : kinv st q -> kinv (stamp p m st) q.
Proof. intros H. by apply (same_table_safe st). Qed.

Lemma kinv_send q d m r st st' :
  kinv st q -> msg_send (p_proc_ready st) d m st = Ok r st' -> exists q', kinv st' q'.
Proof.
  intros [Hi Hf Hr Hg] H. pose proof (keeps_flat _ _ _ _ (keeps_msg_send _ _ _) H Hf) as Hf'.
  apply (msg_send_Ok q) in H as (_ & Hd & Hsd & _ & q' & Hi' & Hs); try done.
  exists q'. unfold sent in Hs. destruct (accepts (proc_table st d) (p_proc_ready st)).
  - destruct Hs as (_ & _ & _ & Eo & Ep). split; rewrite ?Ep; [done..|]. by rewrite Eo.
  - destruct Hs as (_ & _ & _ & _ & _ & Hb%best_ready). split; [done|done|apply Hb..].
Qed.

Lemma kinv_receive q src m r st st' :
  kinv st q -> partner_ok src -> m <> 0 ->
  msg_receive (p_proc_ready st) src m st = Ok r st' -> exists q', kinv st' q'.
Proof.
  intros [Hi Hf Hr Hg] Hsrc Hm H.
  pose proof (keeps_flat _ _ _ _ (keeps_msg_receive _ _ _) H Hf) as Hf'.
  apply (msg_receive_Ok q) in H as (_ & _ & _ & q' & Hi' & Hs); try done.
  exists q'. unfold received in Hs. destruct (negb (has_int_msg _ =? 0) && _).
  - destruct Hs as (_ & _ & _ & Hg' & Ep). split; rewrite ?Ep; done.
  - destruct Hs as [(l1 & f & l2 & _ & _ & _ & _ & _ & Hg' & Ep)|(_ & _ & _ & _ & _ & _ & _ & Hb%best_ready)];
      [|split; [done|done|apply Hb..]]. split; rewrite ?Ep; done.
Qed.

Lemma inform_int_running q k st u st' :
  kinv st q -> inform_int k st = Ok u st' -> kinv st' q.
Proof.
  intros [Hi Hf Hr Hg] H. pose proof (keeps_flat _ _ _ _ (keeps_inform_int _) H Hf) as Hf'.
  apply (inform_int_Ok q) in H as (Hk & Hi' & Ep & _ & Eo & Hc); [|done].
  split; rewrite ?Ep; [done..|].
  destruct (decide (p_proc_ready st = k)) as [<-|]; [|by rewrite Eo].
  rewrite Hg in Hc. simpl in Hc. destruct Hc as (_ & _ & ->). done.
Qed.

Lemma schedule_safe q st u st' :
  ipc_inv (proc_table st) q -> flat st -> schedule st = Ok u st' -> kinv st' q.
Proof.
  intros Hi Hf H. pose proof (keeps_flat _ _ _ _ keeps_schedule H Hf) as Hf'.
  apply schedule_Ok in H as (t' & r & Ht & Hb%best_ready & ->).
  split; simpl in *; [|done|apply Hb|apply Hb]. by eapply ipc_inv_sched.
Qed.

Lemma clock_handler_safe q st u st' : kinv st q -> clock_handler st = Ok u st' -> kinv st' q.
Proof.
  intros Hk H. unfold clock_handler in H.
  apply bind_Ok in H as (? & s1 & E & H). injection E as _ <-.
  apply bind_Ok in H as (? & s2 & E & H). injection E as <- <-.
  apply bind_Ok in H as (? & s3 & E & H). apply modp_Ok' in E as (t & -> & Hr & Et).
  assert (Hk' : kinv (set_proc_table t (set_ticks (i32 (ticks st + 1)) st)) q).
  { apply (same_table_safe st); try done; intros i; simpl in *; rewrite Et;
      case_decide; subst; done. }
  case_match; [by injection H as _ <-|].
  apply bind_Ok in H as (? & s4 & E & H).
  apply (schedule_safe q) in E; [|apply Hk'..].
  apply bind_Ok in H as (? & s5 & E' & H). injection E' as <- <-.
  unfold when in H. case_match; [|by injection H as _ <-].
  eapply inform_int_running; [exact E|exact H].
Qed.

Lemma kstep_safe st st' : kstep st st' -> safe st -> safe st'.
Proof.
  intros [f sd m r s s' Hm H|s s' H|k s s' H|mm rg s|b s] [q Hk].
  - apply sys_sendrec_Ok in H as (_ & Hsd & _ & [(_ & r' & H)|(_ & r' & H)]).
    + eapply kinv_send; [apply (kinv_stamp _ _ (p_proc_ready s) m Hk)|exact H].
    + eapply kinv_receive; [apply (kinv_stamp _ _ (p_proc_ready s) m Hk)|done|done|exact H].
  - exists q. by eapply clock_handler_safe.
  - exists q. by eapply inform_int_running.
  - exists q. apply (same_table_safe s); try done; intros i; simpl;
      rewrite upd_case; case_decide; subst; done.
  - exists q. by apply (same_table_safe s).
Qed.

(** ** Properties *)

(** process [p] may call the kernel: the invariant holds, [p] is ready, and
    another process [j] can run meanwhile *)
Record calling (st : kstate) (q : Z -> list Z) (p j : Z) : Prop := {
  call_ipc : ipc_inv (proc_table st) q;
  call_flat : flat st;
  call_reenter : k_reenter st = 0;
  call_range : 0 <= p < NR_ALL;
  call_ready : p_flags (proc_table st p) = 0;
  call_idle : j <> p /\ can_run (proc_table st) j }.


(** C2: A send by a ready process returns 0 and refines the abstract queues:
    when the destination waits for it the message is copied and the destination
    becomes ready; otherwise the sender is appended to the destination's queue,
    blocked, and the best remaining process runs. *)
Theorem send_spec q s d m j st :
  calling st q s j -> 0 <= d < NR_ALL -> s <> d -> m <> 0 ->
  no_cycle (proc_table st) s d -> not_parked (proc_table st) s d ->
  exists st' q', sys_sendrec SEND d m s st = Ok 0 st' /\
    ipc_inv (proc_table st') q' /\ sent q q' s d m (stamp s m st) st'.
Proof.
  intros [Hi Hf Hk Hs Hr [Hj Hc]] Hd Hsd Hm Hnc Hnp.
  destruct (msg_send_runs q s d m j (stamp s m st)) as [st' E]; try done.
  pose proof E as E'. apply (msg_send_Ok q) in E' as (_ & _ & _ & _ & q' & Hi' & Hst); try done.
  exists st', q'. split; [|done].
  rewrite sys_sendrec_enter; [|done..|by right; right].
  change (SEND =? SEND) with true. cbv iota.
  by rewrite (bind_run _ _ _ _ _ E).
Qed.

(** C3: A receive by a ready process returns 0 and refines the abstract queues:
    a pending interrupt is handed over to a receiver that accepts one; otherwise
    the first sender (or the named one) leaves the queue and its message is
    copied; otherwise the receiver blocks and the best remaining process runs. *)
Theorem receive_spec q w src m j st :
  calling st q w j -> partner_ok src -> w <> src -> m <> 0 ->
  no_lost_int (proc_table st) q w src ->
  exists st' q', sys_sendrec RECEIVE src m w st = Ok 0 st' /\
    ipc_inv (proc_table st') q' /\ received q q' w src m (stamp w m st) st'.
Proof.
  intros [Hi Hf Hk Hs Hr [Hj Hc]] Hd Hsd Hm Hnl.
  destruct (msg_receive_runs q w src m j (stamp w m st)) as [st' E]; try done.
  pose proof E as E'. apply (msg_receive_Ok q) in E' as (_ & _ & _ & q' & Hi' & Hst); try done.
  exists st', q'. split; [|done].
  rewrite sys_sendrec_enter by done.
  change (RECEIVE =? SEND) with false. change (RECEIVE =? RECEIVE) with true. cbv iota.
  by rewrite (bind_run _ _ _ _ _ E).
Qed.

(** C32: The deadlock check of a ready sender: it returns 0, leaving the state
    alone, when the chain of senders from the destination does not lead back to
    the sender; when it does, the kernel stops in the assertion [p->p_msg] on the
    sender itself, before the cycle is printed and 1 is returned. *)
Theorem deadlock_spec q s d st :
  ipc_inv (proc_table st) q -> 0 <= s < NR_ALL -> 0 <= d < NR_ALL ->
  p_flags (proc_table st s) = 0 ->
  (no_cycle (proc_table st) s d -> deadlock s d st = Ok 0 st) /\
  (~ no_cycle (proc_table st) s d -> deadlock s d st = Halt HAssert).
Proof.
  intros Hi Hs Hd Hf. destruct (inv_chain _ _ Hi d Hd) as [l Hl].
  pose proof (chain_length _ _ _ _ Hi Hd Hl) as Hlen.
  assert (Hm : p_msg (proc_table st s) = 0)
    by apply (proc_ok_ready s _ (inv_proc _ _ Hi s Hs) Hf).
  split; intros Hn.
  - eapply (deadlock_loop_run _ q); eauto. lia.
  - eapply (deadlock_loop_cycle _ q); eauto; [lia|].
    destruct (decide (Exists (fun x => p_sendto (proc_table st x) = s) l)) as [He|He].
    + by apply Exists_exists in He.
    + destruct Hn. intros l' x Hl' Hx Ex.
      rewrite (chain_det _ _ _ _ Hl' Hl) in Hx. apply He. apply Exists_exists. eauto.
Qed.

(** the stamp changes the source field of the message only *)
Lemma msg_at_stamp m a p : 0 <= p < NR_ALL -> msg_at (st32 a p m) a = set_source p (msg_at m a).
Proof.
  intros Hp. unfold msg_at, set_source. cbn.
  rewrite ld32s_st32 by clia.
  rewrite !ld32s_st32_ne, !ld64_st32_ne, !ld32_st32_ne by lia. done.
Qed.

Lemma msg_at_stamp_ne m a p b : b + SIZEOF_MESSAGE <= a \/ a + 4 <= b ->
  msg_at (st32 a p m) b = msg_at m b.
Proof.
  intros H. apply msg_at_ext. intros i Hi. apply st32_out. lia.
Qed.

Definition disjoint_msgs (a b : Z) : Prop := a + SIZEOF_MESSAGE <= b \/ b + SIZEOF_MESSAGE <= a.

(** Rendezvous, receiver first: when the destination already waits for the
    sender, after the send its buffer holds exactly the message of the sender's
    buffer with the source field set to the sender, it is ready to run, and the
    sender still is. *)
Theorem send_delivers q s d m j st :
  calling st q s j -> 0 <= d < NR_ALL -> s <> d -> m <> 0 -> no_cycle (proc_table st) s d ->
  p_flags (proc_table st d) = RECEIVING ->
  p_recvfrom (proc_table st d) = ANY \/ p_recvfrom (proc_table st d) = s ->
  disjoint_msgs (la_of st d (p_msg (proc_table st d))) (la_of st s m) ->
  exists st', sys_sendrec SEND d m s st = Ok 0 st' /\
    msg_at (memory st') (la_of st d (p_msg (proc_table st d))) =
      set_source s (msg_at (memory st) (la_of st s m)) /\
    p_flags (proc_table st' d) = 0 /\ p_flags (proc_table st' s) = 0.
Proof.
  intros [Hi Hf Hk Hs Hr [Hj Hc]] Hd Hsd Hm Hnc Hfd Hrd Hdis.
  assert (Hnp : not_parked (proc_table st) s d) by (intros _; exact Hfd).
  destruct (msg_send_runs q s d m j (stamp s m st)) as [st' E]; try done.
  pose proof E as E'. apply (msg_send_Ok q) in E' as (_ & _ & _ & _ & q' & Hi' & Hst); try done.
  assert (Ha : accepts (proc_table st d) s = true).
  { unfold accepts. rewrite Hfd. destruct Hrd as [-> | ->]; [done|].
    by rewrite Z.eqb_refl, orb_true_r. }
  unfold sent in Hst. cbn [proc_table stamp set_memory] in Hst. rewrite Ha in Hst.
  destruct Hst as (_ & Hmem & Hfl & Eo & _). exists st'. split.
  { rewrite sys_sendrec_enter; [|done..|by right; right].
    change (SEND =? SEND) with true. cbv iota. by rewrite (bind_run _ _ _ _ _ E). }
  split; [|split; [done|by rewrite Eo]].
  rewrite Hmem. rewrite msg_copied by exact Hdis. by apply msg_at_stamp.
Qed.

(** Rendezvous, sender first: a receive from ANY with no pending interrupt
    serves the first process of the queue (the one that has waited longest): the
    receiver's buffer gets exactly that process's message, the process leaves the
    queue and both are ready. *)
Theorem receive_serves_first q w m j st f l :
  calling st q w j -> m <> 0 -> has_int_msg (proc_table st w) = 0 -> q w = f :: l ->
  disjoint_msgs (la_of st w m) (la_of st f (p_msg (proc_table st f))) ->
  exists st', sys_sendrec RECEIVE ANY m w st = Ok 0 st' /\
    ipc_inv (proc_table st') (upd q w l) /\
    msg_at (memory st') (la_of st w m) = msg_at (memory st) (la_of st f (p_msg (proc_table st f))) /\
    p_flags (proc_table st' w) = 0 /\ p_flags (proc_table st' f) = 0.
Proof.
  intros [Hi Hf Hk Hs Hr [Hj Hc]] Hm Hint Hq Hdis.
  assert (Hw : w <> ANY) by clia. assert (Hp : partner_ok ANY) by (by left).
  assert (Hnl : no_lost_int (proc_table st) q w ANY) by (by right; left).
  destruct (msg_receive_runs q w ANY m j (stamp w m st)) as [st' E]; try done.
  pose proof E as E'. apply (msg_receive_Ok q) in E' as (_ & _ & _ & q' & Hi' & Hst); try done.
  exists st'. split.
  { rewrite sys_sendrec_enter by done.
    change (RECEIVE =? SEND) with false. change (RECEIVE =? RECEIVE) with true. cbv iota.
    by rewrite (bind_run _ _ _ _ _ E). }
  unfold received in Hst. cbn [proc_table stamp set_memory] in Hst. rewrite Hint in Hst.
  change (negb (0 =? 0)) with false in Hst. cbn [andb] in Hst.
  destruct Hst as [(l1 & f' & l2 & Hl & Hsrc & -> & Hmem & Hf1 & Hf2 & _)|(Ha & _)];
    [|exfalso; rewrite (Ha eq_refl) in Hq; discriminate Hq].
  destruct Hsrc as [Hx|[_ ->]].
  { assert (f' ∈ q w) as Hin by (rewrite Hl; apply elem_of_app; right; left).
    apply (inv_mem _ _ Hi) in Hin as (? & _); [clia|done]. }
  rewrite Hq in Hl. injection Hl as <- <-. split; [exact Hi'|]. split; [|exact (conj Hf2 Hf1)].
  rewrite Hmem. rewrite msg_copied by exact Hdis.
  apply msg_at_stamp_ne. unfold disjoint_msgs, SIZEOF_MESSAGE in *.
  change (la_of (stamp w m st)) with (la_of st). lia.
Qed.

(** An interrupt for a task is never lost: [inform_int] returns for every
    task whose entry is consistent; a task that waits for an interrupt or for
    anyone becomes ready with the message (INTERRUPT, HARD_INT) in its buffer,
    otherwise the interrupt stays pending, its other state unchanged; no other
    process is touched. *)
Theorem inform_int_spec q k st :
  ipc_inv (proc_table st) q -> 0 <= k < NR_TASKS ->
  (p_flags (proc_table st k) = 0 \/ p_flags (proc_table st k) = SENDING \/
   p_flags (proc_table st k) = RECEIVING) ->
  exists st', inform_int k st = Ok tt st' /\ ipc_inv (proc_table st') q /\
    (forall i, i <> k -> proc_table st' i = proc_table st i) /\
    (if has (p_flags (proc_table st k)) RECEIVING &&
       ((p_recvfrom (proc_table st k) =? INTERRUPT) || (p_recvfrom (proc_table st k) =? ANY))
     then p_flags (proc_table st' k) = 0 /\
       source (msg_at (memory st') (p_msg (proc_table st k))) = INTERRUPT /\
       type (msg_at (memory st') (p_msg (proc_table st k))) = HARD_INT
     else memory st' = memory st /\ has_int_msg (proc_table st' k) = 1 /\
       p_flags (proc_table st' k) = p_flags (proc_table st k)).
Proof.
  intros Hinv Hk Hfl. assert (Hk' : 0 <= k < NR_ALL) by clia.
  destruct (inform_int_runs q k st) as [st' E]; [done..|].
  exists st'. split; [done|].
  apply (inform_int_Ok q) in E as (_ & Hi' & _ & _ & Eo & Hc); [|done].
  split; [done|]. split; [done|]. destruct (has _ _ && _); [|done].
  destruct Hc as [Hf ->]. split; [done|]. unfold msg_at. cbn.
  rewrite ld32s_st32_ne, !ld32s_st32 by (unfold INTERRUPT, HARD_INT; lia). done.
Qed.

(** A receive from one particular process that is not sending to the caller
    fails the last assertion of [msg_receive] when the caller has a pending
    interrupt: the kernel stops. *)
Theorem receive_with_pending_int_stops q w src m j st :
  calling st q w j -> 0 <= src < NR_ALL -> w <> src -> m <> 0 ->
  src ∉ q w -> has_int_msg (proc_table st w) <> 0 ->
  sys_sendrec RECEIVE src m w st = Halt HAssert.
Proof.
  intros [Hi Hf Hk Hs Hr [Hj Hc]] Hsrc Hws Hm Hq Hint.
  rewrite sys_sendrec_enter; [|done..|by right; right].
  change (RECEIVE =? SEND) with false. change (RECEIVE =? RECEIVE) with true. cbv iota.
  apply bind_halt. eapply msg_receive_stops; try done.
Qed.
