(* ===== verification/Ring.v ===== *)
(** * Circular buffers

    The keyboard's buffer and the terminals' buffers are arrays with a head
    index, where the next element goes, a tail index, where the next one comes
    from, and a count. [contents] is the queue such a buffer stands for; the two
    components share these lemmas. *)
From S2P Require Import Prelude.

Section ring.
Context (n : Z) (Hn : 0 < n).

(** [p++; if (p == buf + n) p = buf] *)
Definition ring_next (i : Z) : Z := if i + 1 =? n then 0 else i + 1.

Record ring_ok (head tail count : Z) : Prop := {
  ring_tail : 0 <= tail < n;
  ring_count : 0 <= count <= n;
  ring_head : head = (tail + count) `mod` n }.

Definition contents (buf : arr Z) (tail count : Z) : list Z :=
  (fun i => buf ((tail + i) `mod` n)) <$> seqZ 0 count.

Lemma ring_next_mod i : 0 <= i < n -> ring_next i = (i + 1) `mod` n.
Proof.
  intros Hi. unfold ring_next. destruct (i + 1 =? n) eqn:E; zbool.
  - rewrite E. by rewrite Z_mod_same_full.
  - rewrite Z.mod_small; lia.
Qed.

Lemma ring_empty : ring_ok 0 0 0.
Proof. split; [lia|lia|]. by rewrite Z.mod_small by lia. Qed.

Lemma contents_empty buf tail : contents buf tail 0 = [].
Proof. done. Qed.

Lemma contents_length buf tail count : 0 <= count -> Z.of_nat (length (contents buf tail count)) = count.
Proof. intros H. unfold contents. rewrite length_fmap, length_seqZ. lia. Qed.

(** the element at the head goes to the end of the queue *)
Lemma ring_put_ok head tail count : ring_ok head tail count -> count < n ->
  ring_ok (ring_next head) tail (count + 1).
Proof.
  intros [Ht Hc Hh] Hlt. split; [done|lia|].
  assert (0 <= head < n) by (subst; by apply Z.mod_pos_bound).
  rewrite ring_next_mod by done. subst head. rewrite Zplus_mod_idemp_l. f_equal. lia.
Qed.

Lemma ring_put_contents buf head tail count x : ring_ok head tail count -> count < n ->
  contents (upd buf head x) tail (count + 1) = contents buf tail count ++ [x].
Proof.
  intros [Ht Hc Hh] Hlt. unfold contents. rewrite seqZ_app by lia. rewrite fmap_app. f_equal.
  - apply list_fmap_ext. intros i z Hz. apply lookup_seqZ in Hz as [-> Hi]. cbn.
    rewrite upd_ne; [done|]. subst head. intros E.
    assert (H : (count - Z.of_nat i) `mod` n = 0).
    { replace (count - Z.of_nat i) with ((tail + count) - (tail + Z.of_nat i)) by lia.
      rewrite Zminus_mod. rewrite Z.add_0_l in E. rewrite E, Z.sub_diag. by apply Z.mod_0_l; lia. }
    rewrite Z.mod_small in H by lia. lia.
  - change (seqZ (0 + count) 1) with [0 + count]. cbn. f_equal. rewrite Z.add_0_l. subst head. apply upd_eq.
Qed.

(** the element at the tail is the first of the queue *)
Lemma ring_get_ok head tail count : ring_ok head tail count -> 0 < count ->
  ring_ok head (ring_next tail) (count - 1).
Proof.
  intros [Ht Hc Hh] Hlt. rewrite ring_next_mod by done.
  split; [by apply Z.mod_pos_bound|lia|]. rewrite Hh, Zplus_mod_idemp_l. f_equal. lia.
Qed.

Lemma ring_get_contents buf head tail count : ring_ok head tail count -> 0 < count ->
  contents buf tail count = buf tail :: contents buf (ring_next tail) (count - 1).
Proof.
  intros [Ht Hc Hh] Hlt. unfold contents. rewrite seqZ_cons by lia. rewrite fmap_cons. f_equal.
  - rewrite Z.add_0_r. f_equal. by apply Z.mod_small.
  - apply list_eq. intros i. rewrite !list_lookup_fmap.
    destruct (decide (Z.of_nat i < count - 1)) as [Hi|Hi].
    + rewrite !lookup_seqZ_lt by lia. cbn. do 2 f_equal.
      rewrite ring_next_mod by done. rewrite Zplus_mod_idemp_l. f_equal. lia.
    + rewrite !lookup_seqZ_ge by lia. done.
Qed.

Lemma contents_cons buf head tail count x l : ring_ok head tail count -> contents buf tail count = x :: l ->
  0 < count /\ buf tail = x /\ contents buf (ring_next tail) (count - 1) = l.
Proof.
  intros Hr E. assert (Hc : 0 < count).
  { destruct Hr as [_ Hc _]. destruct (decide (count = 0)) as [->|]; [done|lia]. }
  rewrite (ring_get_contents _ _ _ _ Hr Hc) in E. injection E as E1 E2. done.
Qed.
End ring.
