(* ===== verification/Hd.v ===== *)
(** * The disk driver (kernel/hd.c)

    The driver translates a request (device, position, bytes, buffer) into a
    command for the drive and moves the sectors. The drive is a parameter with an
    interface ([Drive], in HdThm.v): what an ATA drive documents for commands, data
    transfers and interrupts in programmed I/O. [interrupt_wait] takes the interrupt from
    the drive (its delivery as a message is the subject of IpcSpec.v); a drive
    that raises no interrupt leaves the driver blocked. The sector buffer is at
    [hdbuf]. *)
From S2P Require Import Prelude Const CLib Protect Proc Sched Ipc.

(** ** Data (include/sys/hd.h) *)

Definition REG_DATA : Z := 0x1F0.
Definition ATA_IDENTIFY : Z := 0xEC.
Definition ATA_READ : Z := 0x20.
Definition ATA_WRITE : Z := 0x30.
Definition PARTITION_TABLE_OFFSET : Z := 0x1be.
Definition MAKE_DEVICE_REG (lba drv lba_highest : Z) : Z :=
  Z.lor (Z.lor (Z.lor (Z.shiftl lba 6) (Z.shiftl drv 4)) (Z.land lba_highest 0xf)) 0xA0.

Record hd_cmd := mkCmd {
  features : Z; cmd_count : Z; lba_low : Z; lba_mid : Z; lba_high : Z; cmd_device : Z; command : Z }.
Record part_ent := mkPe { sys_id : Z; start_sect : Z; nr_part_sects : Z }.
Record part_info := mkPi { pbase : Z; psize : Z }.
Record hd_info := mkHd { open_cnt : Z; primary : arr part_info; logical : arr part_info }.
Definition set_open_cnt (x : Z) (r : hd_info) : hd_info := mkHd x (primary r) (logical r).
Definition set_primary (x : arr part_info) (r : hd_info) : hd_info := mkHd (open_cnt r) x (logical r).
Definition set_logical (x : arr part_info) (r : hd_info) : hd_info := mkHd (open_cnt r) (primary r) x.

(** the entry at [a] of a partition table *)
Definition part_ent_at (m : mem) (a : Z) : part_ent := mkPe (m (a + 4)) (ld32 m (a + 8)) (ld32 m (a + 12)).
Definition SIZEOF_PART_ENT : Z := 16.

Definition DRV_OF_DEV (dev : Z) : Z :=
  if dev <=? MAX_PRIM then Z.quot dev NR_PRIM_PER_DRIVE else Z.quot (dev - MINOR_hd1a) NR_SUB_PER_DRIVE.

(** ** The drive *)

Record drive_ops (D : Type) := mkOps {
  d_ready : D -> bool;              (* not busy before the time runs out *)
  d_command : hd_cmd -> D -> D;     (* the command registers are written *)
  d_irq : D -> option D;            (* the interrupt that comes, if one does *)
  d_in : D -> list Z * D;           (* a sector is read from the data port *)
  d_drq : D -> bool;                (* the drive asks for data before the time runs out *)
  d_out : list Z -> D -> D }.       (* bytes are written to the data port *)
Arguments d_ready {D}. Arguments d_command {D}. Arguments d_irq {D}. Arguments d_in {D}.
Arguments d_drq {D}. Arguments d_out {D}.

Section hd.
Context {D : Type} (ops : drive_ops D) (hdbuf : Z).

Record hsys := mkH { hkern : kstate; hinfo : hd_info; hdrive : D }.
Definition set_hkern (x : kstate) (r : hsys) : hsys := mkH x (hinfo r) (hdrive r).
Definition set_hinfo (x : hd_info) (r : hsys) : hsys := mkH (hkern r) x (hdrive r).
Definition set_hdrive (x : D) (r : hsys) : hsys := mkH (hkern r) (hinfo r) x.
Definition hlift {A} (c : M kstate A) : M hsys A :=
  fun st => match c (hkern st) with Ok a k => Ok a (set_hkern k st) | Halt h => Halt h end.

Definition hd_cmd_out (cmd : hd_cmd) : M hsys unit :=
  st ← get;
  if negb (d_ready ops (hdrive st)) then panic
  else modify (set_hdrive (d_command ops cmd (hdrive st))).

Definition interrupt_wait : M hsys unit :=
  st ← get;
  match d_irq ops (hdrive st) with
  | None => stop HBlock
  | Some d => modify (set_hdrive d)
  end.

(** [port_read(REG_DATA, hdbuf, SECTOR_SIZE)] *)
Definition port_read : M hsys unit :=
  st ← get;
  let r := d_in ops (hdrive st) in
  modify (set_hdrive (snd r)) ;;
  hlift (modmem (put_bytes hdbuf (fst r))).

(** [port_write(REG_DATA, la, bytes)] *)
Definition port_write (la bytes : Z) : M hsys unit :=
  st ← get;
  modify (set_hdrive (d_out ops ((fun i => memory (hkern st) (la + i)) <$> seqZ 0 bytes) (hdrive st))).

(** the command for [count] sectors from [sec_nr] on *)
Definition make_cmd (count drive sec_nr cmd : Z) : hd_cmd :=
  mkCmd 0 (u8 count) (Z.land sec_nr 0xFF) (Z.land (Z.shiftr sec_nr 8) 0xFF) (Z.land (Z.shiftr sec_nr 16) 0xFF)
    (u8 (MAKE_DEVICE_REG 1 drive (Z.land (Z.shiftr sec_nr 24) 0xF))) cmd.

(** [hd_identify]; [junk] is what the fields of the command hold that are not set *)
Definition hd_identify (junk : hd_cmd) (drive : Z) : M hsys unit :=
  hd_cmd_out (mkCmd (features junk) (cmd_count junk) (lba_low junk) (lba_mid junk) (lba_high junk)
    (u8 (MAKE_DEVICE_REG 0 drive 0)) ATA_IDENTIFY) ;;
  interrupt_wait ;;
  port_read ;;
  st ← get;
  let w (i : Z) := memory (hkern st) (hdbuf + 2 * i) + 256 * memory (hkern st) (hdbuf + 2 * i + 1) in
  let size := u32 (i32 (Z.shiftl (w 61) 16) + w 60) in
  modify (fun st => set_hinfo (set_primary (upd (primary (hinfo st)) 0 (mkPi 0 size)) (hinfo st)) st).

Definition get_part_table (drive sec_nr : Z) : M hsys (Z -> part_ent) :=
  hd_cmd_out (make_cmd 1 drive sec_nr ATA_READ) ;;
  interrupt_wait ;;
  port_read ;;
  st ← get;
  ret (fun i => part_ent_at (memory (hkern st)) (hdbuf + PARTITION_TABLE_OFFSET + i * SIZEOF_PART_ENT)).

(** the chain of an extended partition, entry [i] of [NR_SUB_PER_PART] *)
Fixpoint partition_ext (n : nat) (i drive sec_base ext_start nr_base : Z) : M hsys unit :=
  match n with
  | O => ret tt
  | S n' =>
      pe ← get_part_table drive ext_start;
      modify (fun st => set_hinfo (set_logical (upd (logical (hinfo st)) (nr_base + i)
        (mkPi (u32 (ext_start + start_sect (pe 0))) (nr_part_sects (pe 0)))) (hinfo st)) st) ;;
      if sys_id (pe 1) =? NO_PART then ret tt
      else partition_ext n' (i + 1) drive sec_base (i32 (sec_base + start_sect (pe 1))) nr_base
  end.

(** [partition(device, P_EXTENDED)] *)
Definition partition_extended (device : Z) : M hsys unit :=
  let drive := DRV_OF_DEV device in
  let j := Z.rem device NR_PRIM_PER_DRIVE in
  st ← get;
  let sec_base := i32 (pbase (primary (hinfo st) j)) in
  partition_ext (Z.to_nat NR_SUB_PER_PART) 0 drive sec_base sec_base ((j - 1) * NR_SUB_PER_PART).

(** the loop over the primary partitions; the number of them that are used *)
Fixpoint partition_prim (n : nat) (i : Z) (pe : Z -> part_ent) (nr_prim_parts : Z) : M hsys Z :=
  match n with
  | O => ret nr_prim_parts
  | S n' =>
      if sys_id (pe i) =? NO_PART then partition_prim n' (i + 1) pe nr_prim_parts
      else
        let dev_nr := i + 1 in
        modify (fun st => set_hinfo (set_primary (upd (primary (hinfo st)) dev_nr
          (mkPi (start_sect (pe i)) (nr_part_sects (pe i)))) (hinfo st)) st) ;;
        (if sys_id (pe i) =? EXT_PART then partition_extended dev_nr else ret tt) ;;
        partition_prim n' (i + 1) pe (nr_prim_parts + 1)
  end.

Definition partition (device style : Z) : M hsys unit :=
  let drive := DRV_OF_DEV device in
  if P_PRIMARY =? style then
    pe ← get_part_table drive drive;
    n ← partition_prim (Z.to_nat NR_PART_PER_DRIVE) 0 pe 0;
    assert_ (negb (n =? 0))
  else if P_EXTENDED =? style then partition_extended device
  else assert_ false.

Definition hd_open (junk : hd_cmd) (device : Z) : M hsys unit :=
  let drive := DRV_OF_DEV device in
  assert_ (drive =? 0) ;;
  hd_identify junk drive ;;
  st ← get;
  modify (fun st => set_hinfo (set_open_cnt (u32 (open_cnt (hinfo st) + 1)) (hinfo st)) st) ;;
  when (open_cnt (hinfo st) =? 0) (partition (drive * (NR_PART_PER_DRIVE + 1)) P_PRIMARY).

Definition hd_close (device : Z) : M hsys unit :=
  let drive := DRV_OF_DEV device in
  assert_ (drive =? 0) ;;
  modify (fun st => set_hinfo (set_open_cnt (u32 (open_cnt (hinfo st) - 1)) (hinfo st)) st).

(** the entry of [hd_info[0]] for a device; outside the arrays is a fault *)
Definition part_of (device : Z) : M hsys part_info :=
  st ← get;
  if device <=? MAX_PRIM then
    if (0 <=? device) && (device <? NR_PRIM_PER_DRIVE) then ret (primary (hinfo st) device) else stop HFault
  else
    let j := Z.rem (device - MINOR_hd1a) NR_SUB_PER_DRIVE in
    if 0 <=? j then ret (logical (hinfo st) j) else stop HFault.

(** the loop over the sectors; [n] bounds the number of turns *)
Fixpoint rdwt_sectors (n : nat) (ty la bytes_left : Z) : M hsys unit :=
  if bytes_left =? 0 then ret tt
  else match n with
  | O => stop HSpin
  | S n' =>
      let bytes_proc := MIN SECTOR_SIZE bytes_left in
      (if ty =? DEV_READ then
         interrupt_wait ;;
         port_read ;;
         s ← hlift (va2la TASK_HD hdbuf);
         hlift (modmem (memcpy la s bytes_proc))
       else
         st ← get;
         (if negb (d_drq ops (hdrive st)) then panic else ret tt) ;;
         port_write la bytes_proc ;;
         interrupt_wait) ;;
      rdwt_sectors n' ty (u32 (la + bytes_proc)) (bytes_left - bytes_proc)
  end.

(** the assertion on [pos] compares with [1 << 31], an [int]: a negative number,
    which as an unsigned 64-bit number is 2^64 - 2^31 *)
Definition hd_rdwt (msg : MESSAGE) : M hsys unit :=
  let pos := POSITION msg in
  let device := DEVICE msg in
  let drive := DRV_OF_DEV device in
  assert_ (Z.shiftr pos SECTOR_SIZE_SHIFT <? 2 ^ 64 - 2 ^ 31) ;;
  assert_ (Z.land pos 0x1ff =? 0) ;;
  pi ← part_of device;
  let sec_nr := u32 (u32 (Z.shiftr pos SECTOR_SIZE_SHIFT) + pbase pi) in
  la ← hlift (va2la (PROC_NR msg) (BUF msg));
  hd_cmd_out (make_cmd (Z.quot (CNT msg + SECTOR_SIZE - 1) SECTOR_SIZE) drive sec_nr
    (if type msg =? DEV_READ then ATA_READ else ATA_WRITE)) ;;
  rdwt_sectors (Z.to_nat (Z.abs (CNT msg)) + 1) (type msg) la (CNT msg).

Definition hd_ioctl (msg : MESSAGE) : M hsys unit :=
  if DIOCTL_GET_GEO =? REQUEST msg then
    if negb (DRV_OF_DEV (DEVICE msg) =? 0) then stop HFault else
    dst ← hlift (va2la (PROC_NR msg) (BUF msg));
    pi ← part_of (DEVICE msg);
    hlift (modmem (fun m => st32 (dst + 4) (psize pi) (st32 dst (pbase pi) m)))
  else assert_ false.

(** [init_hd]: [nr_drives] is the byte at 0x475 that the BIOS leaves; the handler
    and the interrupt lines are those of Irq.v *)
Definition init_hd (nr_drives : Z) : M hsys unit :=
  assert_ (negb (nr_drives =? 0)) ;;
  modify (set_hinfo (mkHd 0 (fun _ => mkPi 0 0) (fun _ => mkPi 0 0))).

(** the switch of [task_hd], for one message *)
Definition hd_serve (junk : hd_cmd) (msg : MESSAGE) : M hsys unit :=
  if type msg =? DEV_OPEN then hd_open junk (DEVICE msg)
  else if type msg =? DEV_CLOSE then hd_close (DEVICE msg)
  else if (type msg =? DEV_READ) || (type msg =? DEV_WRITE) then hd_rdwt msg
  else if type msg =? DEV_IOCTL then hd_ioctl msg
  else panic.
End hd.

(** ** The interrupt handler *)

(** the kernel and the variable [hd_status] *)
Record hint := mkHint { int_kern : kstate; hd_status : Z }.
(** [status]: the byte of the status register *)
Definition hd_handler (status : Z) : M hint unit := fun st =>
  match inform_int TASK_HD (int_kern st) with Ok _ k => Ok tt (mkHint k status) | Halt h => Halt h end.
