(* ===== verification/HdThm.v ===== *)
(** * The disk driver performs the transfers FS asks for

    The drive is an interface: [ata] is the machine that the ATA standard documents
    for programmed I/O, [Drive] says that the operations of a concrete drive follow
    it. Against the interface, a request of at most [MAX_TRANSFER] bytes inside the
    drive does to memory and to the image what [rw_sector] of Fs.v says; the
    driver's sector buffer is the only other thing that changes. *)
From Stdlib Require Import FunctionalExtensionality.
From S2P Require Import Prelude Const CLib Protect Proc Sys Fs FsOps FsLem FsRw Sched Ipc IpcInv IpcStep IpcRun IpcFrame IpcThm IpcSpec Hd.

(** ** The drive as documented *)

Inductive phase :=
| Idle
| Fetch (bs : list (list Z))             (* blocks to come; the first is being fetched *)
| DataIn (b : list Z) (bs : list (list Z))  (* [b] is in the buffer *)
| DataOut (l : Z) (n : nat)              (* wants sector [l], [n] sectors to come *)
| Stored (l : Z) (n : nat).              (* a sector is stored; [n] from [l] on to come *)

Record ata := mkAta { image : mem; ident : list Z; drive_sects : Z; ph : phase }.
Definition set_image (x : mem) (r : ata) : ata := mkAta x (ident r) (drive_sects r) (ph r).
Definition set_ph (x : phase) (r : ata) : ata := mkAta (image r) (ident r) (drive_sects r) x.

Definition sector (img : mem) (l : Z) : list Z := (fun i => img (l * SECTOR_SIZE + i)) <$> seqZ 0 SECTOR_SIZE.
Fixpoint sectors (img : mem) (l : Z) (n : nat) : list (list Z) :=
  match n with O => [] | S n' => sector img l :: sectors img (l + 1) n' end.

(** what the command registers select *)
Definition lba_of (c : hd_cmd) : Z :=
  lba_low c + 256 * lba_mid c + 65536 * lba_high c + 16777216 * (cmd_device c `mod` 16).
Definition count_of (c : hd_cmd) : Z := if cmd_count c =? 0 then 256 else cmd_count c.

Definition fetching (bs : list (list Z)) : phase := match bs with [] => Idle | _ => Fetch bs end.
Definition wanting (l : Z) (n : nat) : phase := match n with O => Idle | S _ => DataOut l n end.

Definition ata_command (c : hd_cmd) (d : ata) : ata :=
  if command c =? ATA_READ then
    set_ph (fetching (sectors (image d) (lba_of c) (Z.to_nat (count_of c)))) d
  else if command c =? ATA_WRITE then set_ph (wanting (lba_of c) (Z.to_nat (count_of c))) d
  else if command c =? ATA_IDENTIFY then set_ph (Fetch [ident d]) d
  else d.
Definition ata_irq (d : ata) : option ata :=
  match ph d with
  | Fetch (b :: bs) => Some (set_ph (DataIn b bs) d)
  | Stored l n => Some (set_ph (wanting l n) d)
  | _ => None
  end.
Definition ata_in (d : ata) : list Z * ata :=
  match ph d with
  | DataIn b bs => (b, set_ph (fetching bs) d)
  | _ => ([], d)
  end.
Definition ata_drq (d : ata) : bool := match ph d with DataIn _ _ | DataOut _ _ => true | _ => false end.
Definition ata_out (bytes : list Z) (d : ata) : ata :=
  match ph d with
  | DataOut l (S n) =>
      if Z.of_nat (length bytes) =? SECTOR_SIZE
      then set_image (put_bytes (l * SECTOR_SIZE) bytes (image d)) (set_ph (Stored (l + 1) n) d)
      else d
  | _ => d
  end.

(** the commands the documentation covers: the right bits of the device register,
    and sectors the drive has *)
Definition cmd_ok (c : hd_cmd) (d : ata) : Prop :=
  command c = ATA_IDENTIFY /\ Z.land (cmd_device c) 0xb0 = 0xa0 \/
  (command c = ATA_READ \/ command c = ATA_WRITE) /\ Z.land (cmd_device c) 0xf0 = 0xe0 /\
  lba_of c + count_of c <= drive_sects d.

Class Drive {D : Type} (ops : drive_ops D) := {
  view : D -> ata;
  drive_ready d : ph (view d) = Idle -> d_ready ops d = true;
  drive_command c d : ph (view d) = Idle -> cmd_ok c (view d) ->
    view (d_command ops c d) = ata_command c (view d);
  drive_irq d v : ata_irq (view d) = Some v -> exists d', d_irq ops d = Some d' /\ view d' = v;
  drive_no_irq d : ata_irq (view d) = None -> d_irq ops d = None;
  drive_in d b bs : ph (view d) = DataIn b bs ->
    fst (d_in ops d) = b /\ view (snd (d_in ops d)) = set_ph (fetching bs) (view d);
  drive_drq d : d_drq ops d = ata_drq (view d);
  drive_out d l n bytes : ph (view d) = DataOut l (S n) -> Z.of_nat (length bytes) = SECTOR_SIZE ->
    view (d_out ops bytes d) = ata_out bytes (view d) }.

(** the documented machine itself is a drive *)
Definition ata_ready (d : ata) : bool := match ph d with Idle => true | _ => false end.
Definition ata_ops : drive_ops ata := mkOps ata ata_ready ata_command ata_irq ata_in ata_drq ata_out.
#[export] Instance ata_drive : Drive ata_ops.
Proof.
  refine {| view := fun d => d |}; simpl; unfold ata_ready, ata_in; try done.
  - by intros d ->.
  - eauto.
  - by intros d b bs ->.
Defined.

(** ** Commands *)

Lemma byte_of_sector s : 0 <= s < 268435456 ->
  Z.land s 0xFF + 256 * Z.land (Z.shiftr s 8) 0xFF + 65536 * Z.land (Z.shiftr s 16) 0xFF +
  16777216 * (s / 16777216) = s.
Proof.
  intros H. rewrite !land_ff, !shiftr_div by lia. change (2 ^ 8) with 256. change (2 ^ 16) with 65536.
  Z.div_mod_to_equations. lia.
Qed.

Lemma device_reg h : 0 <= h < 16 ->
  u8 (MAKE_DEVICE_REG 1 0 h) `mod` 16 = h /\ Z.land (u8 (MAKE_DEVICE_REG 1 0 h)) 0xf0 = 0xe0.
Proof.
  intros H. assert (h ∈ seqZ 0 16) as Hi by (apply elem_of_seqZ; lia).
  revert h Hi H. apply (Forall_forall (fun h => 0 <= h < 16 -> _)). cbn. repeat constructor.
Qed.

Lemma make_cmd_lba n s c : 0 <= s < 268435456 ->
  lba_of (make_cmd n 0 s c) = s /\ Z.land (cmd_device (make_cmd n 0 s c)) 0xf0 = 0xe0.
Proof.
  intros H. unfold lba_of, make_cmd. cbn [lba_low lba_mid lba_high cmd_device].
  rewrite (land_f (Z.shiftr s 24)), (shiftr_div s 24) by lia. change (2 ^ 24) with 16777216.
  rewrite (Z.mod_small (s / 16777216)) by (Z.div_mod_to_equations; lia).
  destruct (device_reg (s / 16777216)) as [-> ->]; [Z.div_mod_to_equations; lia|].
  by rewrite byte_of_sector.
Qed.


(** ** The transfer loops *)

Lemma length_sector img l : Z.of_nat (length (sector img l)) = SECTOR_SIZE.
Proof. unfold sector. rewrite length_fmap, length_seqZ. done. Qed.

Lemma seqZ_fmap_at (f : Z -> Z) n i : 0 <= i < n -> (f <$> seqZ 0 n) !! Z.to_nat i = Some (f i).
Proof.
  intros H. rewrite list_lookup_fmap, lookup_seqZ_lt by lia. by rewrite Z2Nat.id by lia.
Qed.

(** bytes of a region put elsewhere *)
Lemma put_region (f : Z -> Z) p n m a : 0 <= n ->
  put_bytes p (f <$> seqZ 0 n) m a = if (p <=? a) && (a <? p + n) then f (a - p) else m a.
Proof.
  intros Hn. assert (length (f <$> seqZ 0 n) = Z.to_nat n) as HL by by rewrite length_fmap, length_seqZ.
  destruct ((p <=? a) && (a <? p + n)) eqn:E.
  - zbool. assert (0 <= a - p < Z.of_nat (length (f <$> seqZ 0 n))) as Hr by (rewrite HL; lia).
    pose proof (put_bytes_in p (f <$> seqZ 0 n) m (a - p) Hr) as H'.
    rewrite seqZ_fmap_at in H' by lia. replace (p + (a - p)) with a in H' by lia. congruence.
  - apply put_bytes_out. rewrite HL. apply andb_false_iff in E as [E|E]; zbool; lia.
Qed.

Section driver.
Context {D : Type} (ops : drive_ops D) `{!Drive ops} (hdbuf : Z).

Definition in_hdbuf (a : Z) : Prop := hdbuf <= a < hdbuf + SECTOR_SIZE.
Definition hmem (st : @hsys D) : mem := memory (hkern st).
Definition with_hmem (m : mem) (d : D) (st : @hsys D) : @hsys D := mkH (set_memory m (hkern st)) (hinfo st) d.

Lemma with_hmem_twice m m' d d' st : with_hmem m' d' (with_hmem m d st) = with_hmem m' d' st.
Proof. by destruct st as [[] ? ?]. Qed.
Lemma with_hmem_self st : with_hmem (hmem st) (hdrive st) st = st.
Proof. by destruct st as [[] ? ?]. Qed.

Lemma hlift_va2la pid va (st : @hsys D) : 0 <= pid < NR_ALL -> flat (hkern st) ->
  hlift (va2la pid va) st = Ok (la_of (hkern st) pid va) st.
Proof. intros Hp Hf. unfold hlift. rewrite va2la_run by done. by destruct st. Qed.

Lemma la_hd st : flat st -> 0 <= hdbuf < 4294967296 -> la_of st TASK_HD hdbuf = hdbuf.
Proof. intros Hf Hr. unfold la_of. rewrite Hf by clia. rewrite Z.add_0_r. by apply u32_id. Qed.

(** one sector arrives: the interrupt, the block through [hdbuf], the copy *)
Lemma fetch_run b bs la k st :
  ph (view (hdrive st)) = Fetch (b :: bs) -> flat (hkern st) -> 0 <= hdbuf < 4294967296 ->
  exists d', view d' = set_ph (fetching bs) (view (hdrive st)) /\
    (interrupt_wait ops ;; port_read ops hdbuf ;; s ← hlift (va2la TASK_HD hdbuf);
     hlift (modmem (memcpy la s k))) st =
    Ok tt (with_hmem (memcpy la hdbuf k (put_bytes hdbuf b (hmem st))) d' st).
Proof.
  intros Hp Hf Hh.
  destruct (drive_irq (hdrive st) (set_ph (DataIn b bs) (view (hdrive st)))) as (d1 & E1 & V1);
    [unfold ata_irq; by rewrite Hp|].
  destruct (drive_in d1 b bs) as [F1 V2]; [by rewrite V1|].
  exists (snd (d_in ops d1)). split; [rewrite V2, V1; by destruct (view (hdrive st))|].
  assert (interrupt_wait ops st = Ok tt (set_hdrive d1 st)) as R1
    by (unfold interrupt_wait; rewrite (bind_run get _ st st st eq_refl); by rewrite E1).
  rewrite (bind_run _ _ _ _ _ R1).
  assert (port_read ops hdbuf (set_hdrive d1 st) =
    Ok tt (with_hmem (put_bytes hdbuf b (hmem st)) (snd (d_in ops d1)) st)) as R2
    by (rewrite <- F1; reflexivity).
  rewrite (bind_run _ _ _ _ _ R2).
  rewrite (bind_run _ _ _ _ _ (hlift_va2la TASK_HD hdbuf (with_hmem _ _ st) ltac:(clia) Hf)).
  rewrite la_hd by done.
  transitivity (Ok (S := @hsys D) tt (with_hmem (memcpy la hdbuf k
    (memory (hkern (with_hmem (put_bytes hdbuf b (hmem st)) (snd (d_in ops d1)) st))))
    (snd (d_in ops d1)) (with_hmem (put_bytes hdbuf b (hmem st)) (snd (d_in ops d1)) st))); [reflexivity|].
  rewrite with_hmem_twice. by destruct st as [[] ? ?].
Qed.

(** what the copy leaves, the sector buffer aside *)
Lemma fetch_mem img l la k m a : 0 <= k <= SECTOR_SIZE -> ~ in_hdbuf a ->
  la + k <= hdbuf \/ hdbuf + SECTOR_SIZE <= la ->
  memcpy la hdbuf k (put_bytes hdbuf (sector img l) m) a = disk_read img (l * SECTOR_SIZE) k la m a.
Proof.
  intros Hk Ha Hd. unfold disk_read, sector, in_hdbuf in *.
  destruct ((la <=? a) && (a <? la + k)) eqn:E.
  - zbool. rewrite memcpy_in by clia. rewrite put_region by clia.
    rewrite (proj2 (Z.leb_le _ _)), (proj2 (Z.ltb_lt _ _)) by lia. simpl. f_equal. lia.
  - rewrite memcpy_out by (apply andb_false_iff in E as [E|E]; zbool; lia). rewrite put_region by clia.
    destruct ((hdbuf <=? a) && (a <? hdbuf + SECTOR_SIZE)) eqn:E'; [zbool; lia|done].
Qed.

(** two reads one after the other *)
Lemma disk_read_app img pos k j la m a : 0 <= k -> 0 <= j ->
  disk_read img (pos + k) j (la + k) (disk_read img pos k la m) a = disk_read img pos (k + j) la m a.
Proof.
  intros Hk Hj. unfold disk_read. repeat case_match; zbool;
    repeat match goal with H : _ && _ = false |- _ => apply andb_false_iff in H as [?|?]; zbool end;
    try lia; f_equal; lia.
Qed.

(** the loop for a read of [k] bytes, [n] sectors from [l] on *)
Lemma read_loop n : forall fuel l la k img st,
  (Z.of_nat n - 1) * SECTOR_SIZE < k <= Z.of_nat n * SECTOR_SIZE -> (n <= fuel)%nat ->
  image (view (hdrive st)) = img -> ph (view (hdrive st)) = fetching (sectors img l n) ->
  flat (hkern st) -> 0 <= hdbuf < 4294967296 -> 0 <= la -> la + k < 4294967296 ->
  la + k <= hdbuf \/ hdbuf + SECTOR_SIZE <= la -> 0 <= k ->
  exists m' d', rdwt_sectors ops hdbuf fuel DEV_READ la k st = Ok tt (with_hmem m' d' st) /\
    view d' = set_ph Idle (view (hdrive st)) /\
    (forall a, ~ in_hdbuf a -> m' a = disk_read img (l * SECTOR_SIZE) k la (hmem st) a).
Proof.
  induction n as [|n IH]; intros fuel l la k img st Hk Hfu Himg Hp Hf Hh Hla Hla' Hd Hk0.
  - assert (k = 0) as -> by clia. exists (hmem st), (hdrive st). split; [|split].
    + rewrite with_hmem_self. by destruct fuel.
    + cbn in Hp. rewrite <- Hp. by destruct (view (hdrive st)).
    + intros a _. unfold disk_read. by destruct ((la <=? a) && (a <? la + 0)) eqn:E; zbool; [lia|].
  - destruct fuel as [|fuel]; [lia|]. cbn [rdwt_sectors].
    rewrite (proj2 (Z.eqb_neq k 0)) by clia. rewrite (proj2 (Z.eqb_eq DEV_READ DEV_READ) eq_refl).
    assert (MIN SECTOR_SIZE k = Z.min SECTOR_SIZE k) as -> by (unfold MIN; destruct (_ <? _) eqn:E; zbool; lia).
    set (j := Z.min SECTOR_SIZE k).
    destruct (fetch_run (sector img l) (sectors img (l + 1) n) la j st Hp Hf Hh) as (d1 & V1 & R1).
    rewrite (bind_run _ _ _ _ _ R1). rewrite u32_id by (unfold j; clia).
    set (m1 := memcpy la hdbuf j (put_bytes hdbuf (sector img l) (hmem st))) in *.
    destruct (IH fuel (l + 1) (la + j) (k - j) img (with_hmem m1 d1 st)) as (m' & d' & R & V & Hm);
      try (unfold j; clia); [by cbn [with_hmem hdrive]; rewrite V1|by cbn [with_hmem hdrive]; rewrite V1|done|].
    exists m', d'. split; [|split].
    + rewrite R. by rewrite with_hmem_twice.
    + rewrite V. cbn [with_hmem hdrive]. rewrite V1. by destruct (view (hdrive st)).
    + intros a Ha. rewrite Hm by done. change (hmem (with_hmem m1 d1 st)) with m1.
      destruct (decide (n = 0%nat)) as [->|Hn].
      * assert (k - j = 0) as -> by (unfold j; clia). unfold disk_read at 1.
        destruct ((la + j <=? a) && (a <? la + j + 0)) eqn:E; [zbool; lia|].
        unfold m1. rewrite fetch_mem by (done || (unfold j; clia)). by replace j with k by (unfold j; clia).
      * assert (j = SECTOR_SIZE) as Ej by (unfold j; clia).
        assert (0 <= k - SECTOR_SIZE) as Hk' by clia.
        replace ((l + 1) * SECTOR_SIZE) with (l * SECTOR_SIZE + j) by lia.
        replace k with (j + (k - j)) at 2 by lia.
        rewrite <- disk_read_app by lia. unfold disk_read at 1 2.
        destruct (_ && _); [done|]. unfold m1. apply fetch_mem; [lia|done|lia].
Qed.

(** one sector is handed over: the bytes at [la] through the data port *)
Lemma store_run l n la st :
  ph (view (hdrive st)) = DataOut l (S n) ->
  exists d', view d' = set_ph (wanting (l + 1) n)
      (set_image (disk_write (hmem st) (l * SECTOR_SIZE) SECTOR_SIZE la (image (view (hdrive st)))) (view (hdrive st))) /\
    (s ← get; (if negb (d_drq ops (hdrive s)) then panic else ret tt) ;;
     port_write ops la SECTOR_SIZE ;; interrupt_wait ops) st = Ok tt (with_hmem (hmem st) d' st).
Proof.
  intros Hp. set (bs := (fun i => memory (hkern st) (la + i)) <$> seqZ 0 SECTOR_SIZE).
  assert (Z.of_nat (length bs) = SECTOR_SIZE) as HL by (unfold bs; by rewrite length_fmap, length_seqZ).
  pose proof (drive_out _ l n bs Hp HL) as V1. unfold ata_out in V1. rewrite Hp, (proj2 (Z.eqb_eq _ _) HL) in V1.
  destruct (drive_irq (d_out ops bs (hdrive st))
    (set_ph (wanting (l + 1) n) (view (d_out ops bs (hdrive st))))) as (d' & E & V); [by rewrite V1|].
  exists d'. split.
  - rewrite V, V1. unfold set_ph, set_image. cbn. f_equal. extensionality a. unfold bs.
    rewrite put_region by clia. reflexivity.
  - rewrite (bind_run get _ st st st eq_refl). rewrite drive_drq. unfold ata_drq. rewrite Hp.
    change (bind (port_write ops la SECTOR_SIZE) (fun _ => interrupt_wait ops) st = Ok tt (with_hmem (hmem st) d' st)).
    rewrite (bind_run _ _ st tt (set_hdrive (d_out ops bs (hdrive st)) st) eq_refl).
    unfold interrupt_wait. rewrite (bind_run get _ _ _ _ eq_refl). cbn [hdrive set_hdrive]. rewrite E.
    by destruct st as [[] ? ?].
Qed.

Lemma disk_write_app m pos k j la img : 0 <= k -> 0 <= j ->
  disk_write m (pos + k) j (la + k) (disk_write m pos k la img) = disk_write m pos (k + j) la img.
Proof.
  intros Hk Hj. extensionality a. unfold disk_write. repeat case_match; zbool;
    repeat match goal with H : _ && _ = false |- _ => apply andb_false_iff in H as [?|?]; zbool end;
    try lia; f_equal; lia.
Qed.

(** the loop for a write of [n] whole sectors from [l] on *)
Lemma write_loop n : forall fuel l la st,
  (n <= fuel)%nat -> ph (view (hdrive st)) = wanting l n ->
  0 <= la -> la + Z.of_nat n * SECTOR_SIZE < 4294967296 ->
  exists d', rdwt_sectors ops hdbuf fuel DEV_WRITE la (Z.of_nat n * SECTOR_SIZE) st = Ok tt (with_hmem (hmem st) d' st) /\
    view d' = set_ph Idle (set_image (disk_write (hmem st) (l * SECTOR_SIZE) (Z.of_nat n * SECTOR_SIZE) la
      (image (view (hdrive st)))) (view (hdrive st))).
Proof.
  induction n as [|n IH]; intros fuel l la st Hfu Hp Hla Hla'.
  - exists (hdrive st). split; [rewrite with_hmem_self; by destruct fuel|].
    cbn in Hp. destruct (view (hdrive st)) as [img id N p]. cbn in Hp. subst p.
    unfold set_ph, set_image. cbn [image ident drive_sects]. f_equal. extensionality a.
    unfold disk_write. by destruct (_ && _) eqn:E; zbool; [lia|].
  - destruct fuel as [|fuel]; [lia|]. cbn [rdwt_sectors].
    rewrite (proj2 (Z.eqb_neq (Z.of_nat (S n) * SECTOR_SIZE) 0)) by clia.
    change (DEV_WRITE =? DEV_READ) with false. cbv iota.
    assert (MIN SECTOR_SIZE (Z.of_nat (S n) * SECTOR_SIZE) = SECTOR_SIZE) as ->
      by (unfold MIN; destruct (_ <? _) eqn:E; zbool; clia).
    destruct (store_run l n la st Hp) as (d1 & V1 & R1). rewrite (bind_run _ _ _ _ _ R1).
    rewrite u32_id by clia.
    replace (Z.of_nat (S n) * SECTOR_SIZE - SECTOR_SIZE) with (Z.of_nat n * SECTOR_SIZE) by lia.
    destruct (IH fuel (l + 1) (la + SECTOR_SIZE) (with_hmem (hmem st) d1 st)) as (d' & R & V); try clia.
    { cbn [with_hmem hdrive]. by rewrite V1. }
    exists d'. split; [rewrite R; by rewrite with_hmem_twice|].
    rewrite V. cbn [with_hmem hdrive]. rewrite V1. change (hmem (with_hmem (hmem st) d1 st)) with (hmem st).
    unfold set_ph, set_image. cbn [image ident drive_sects]. f_equal.
    replace ((l + 1) * SECTOR_SIZE) with (l * SECTOR_SIZE + SECTOR_SIZE) by lia.
    rewrite disk_write_app by clia. f_equal. lia.
Qed.

(** ** The refinement of [rw_sector] *)

(** the message of [rw_sector], [m] before it is filled in *)
Definition driver_msg (m : MESSAGE) (io_type dev pos bytes proc_nr buf : Z) : MESSAGE :=
  set_m3p2 buf (set_m3i3 proc_nr (set_m3i2 bytes (set_m3l1 pos (set_m3i4 (MINOR dev) (set_type io_type m))))).

(** FS's view [s] of the memory and of the partition [pi], and the driver's [h] *)
Record fs_view (dev : Z) (pi : part_info) (s : sys) (h : @hsys D) : Prop := mkView {
  fv_part : part_of (MINOR dev) h = Ok pi h;
  fv_idle : ph (view (hdrive h)) = Idle;
  fv_mem : forall a, ~ in_hdbuf a -> memory (kern s) a = hmem h a;
  fv_data : forall x, 0 <= x < psize pi * SECTOR_SIZE ->
    dev_data (disk s (MINOR dev)) x = image (view (hdrive h)) (pbase pi * SECTOR_SIZE + x) }.

(** a request inside a partition that lies inside the drive; what is written is
    whole sectors; the buffer is not the driver's *)
Record request_ok (ty dev pos bytes buf : Z) (pi : part_info) (h : @hsys D) : Prop := mkReq {
  rq_type : ty = DEV_READ \/ ty = DEV_WRITE /\ bytes `mod` SECTOR_SIZE = 0;
  rq_dev : MAJOR dev = DEV_HD /\ DRV_OF_DEV (MINOR dev) = 0;
  rq_pos : 0 <= pos /\ pos `mod` SECTOR_SIZE = 0;
  rq_bytes : 0 < bytes < 2147483648;
  rq_part : pos + bytes <= psize pi * SECTOR_SIZE;
  rq_drive : 0 <= pbase pi /\ pbase pi + psize pi <= drive_sects (view (hdrive h)) <= 268435456;
  rq_buf : 0 <= buf /\ buf + bytes < 4294967296 /\ (buf + bytes <= hdbuf \/ hdbuf + SECTOR_SIZE <= buf);
  rq_flat : flat (hkern h) /\ 0 <= hdbuf < 4294967296 }.

Definition nsects (bytes : Z) : nat := Z.to_nat ((bytes + SECTOR_SIZE - 1) / SECTOR_SIZE).

(** the sectors the command asks for: the count is one byte *)
Definition cmd_sects (n : Z) : Z := if u8 n =? 0 then 256 else u8 n.
Lemma cmd_sects_all n : 0 < n <= 256 -> cmd_sects n = n.
Proof.
  intros H. unfold cmd_sects. destruct (decide (n = 256)) as [->|]; [done|].
  rewrite u8_id by lia. by rewrite (proj2 (Z.eqb_neq n 0)) by lia.
Qed.
Lemma cmd_sects_few n : 256 < n -> 0 < cmd_sects n < n.
Proof. intros H. unfold cmd_sects. pose proof (u8_range n). destruct (u8 n =? 0) eqn:E; zbool; lia. Qed.

(** the driver up to its loop: the command is out and the drive is at work *)
Lemma hd_rdwt_start ty m dev pos bytes buf pi h :
  request_ok ty dev pos bytes buf pi h -> part_of (MINOR dev) h = Ok pi h -> ph (view (hdrive h)) = Idle ->
  exists d, hd_rdwt ops hdbuf (driver_msg m ty dev pos bytes TASK_FS buf) h =
      rdwt_sectors ops hdbuf (Z.to_nat (Z.abs bytes) + 1) ty buf bytes (set_hdrive d h) /\
    view d = set_ph (let l := pbase pi + pos / SECTOR_SIZE in
      let n := Z.to_nat (cmd_sects (Z.of_nat (nsects bytes))) in
      if ty =? DEV_READ then fetching (sectors (image (view (hdrive h))) l n) else wanting l n) (view (hdrive h)).
Proof.
  intros [Ht [_ Hdrv] [Hp0 Hp] Hb Hpart Hdr Hbuf [Hf Hh]] Hpi Hid.
  unfold hd_rdwt. cbv zeta. cbn [driver_msg POSITION DEVICE CNT PROC_NR BUF type m3l1 m3i4 m3i2 m3i3 m3p2
    set_m3p2 set_m3i3 set_m3i2 set_m3l1 set_m3i4 set_type]. rewrite shift9, Hdrv.
  set (l := pbase pi + pos / SECTOR_SIZE).
  assert (0 <= pos / SECTOR_SIZE < 268435456 /\ 0 <= l /\ l + Z.of_nat (nsects bytes) <= pbase pi + psize pi /\
    0 < Z.of_nat (nsects bytes) /\ l < 268435456) as (B1 & B2 & B3 & B4 & B5).
  { unfold l, nsects in *. autounfold with consts in *. Z.div_mod_to_equations. lia. }
  rewrite bind_assert by (apply Z.ltb_lt; lia).
  rewrite bind_assert.
  2:{ apply Z.eqb_eq. change 0x1ff with (Z.ones 9). by rewrite Z.land_ones by lia. }
  rewrite (bind_run _ _ _ _ _ Hpi).
  rewrite (bind_run _ _ _ _ _ (hlift_va2la TASK_FS buf h ltac:(clia) Hf)).
  assert (la_of (hkern h) TASK_FS buf = buf) as ->
    by (unfold la_of; rewrite Hf by clia; rewrite Z.add_0_r; apply u32_id; lia).
  rewrite (u32_id (pos / SECTOR_SIZE)), (u32_id (pos / SECTOR_SIZE + pbase pi)) by lia.
  rewrite (Z.add_comm (pos / SECTOR_SIZE)). fold l.
  replace (Z.quot (bytes + SECTOR_SIZE - 1) SECTOR_SIZE) with (Z.of_nat (nsects bytes)).
  2:{ unfold nsects. rewrite Z.quot_div_nonneg by clia. rewrite Z2Nat.id; [done|]. apply Z.div_pos; clia. }
  set (cmd := if ty =? DEV_READ then ATA_READ else ATA_WRITE).
  set (c := make_cmd (Z.of_nat (nsects bytes)) 0 l cmd).
  destruct (make_cmd_lba (Z.of_nat (nsects bytes)) l cmd ltac:(lia)) as [E1 E2]. fold c in E1, E2.
  assert (count_of c = cmd_sects (Z.of_nat (nsects bytes))) as E3 by reflexivity.
  assert (cmd_sects (Z.of_nat (nsects bytes)) <= Z.of_nat (nsects bytes)) as B6.
  { destruct (decide (Z.of_nat (nsects bytes) <= 256)).
    - by rewrite cmd_sects_all by lia.
    - pose proof (cmd_sects_few (Z.of_nat (nsects bytes))). lia. }
  exists (d_command ops c (hdrive h)). split.
  - unfold hd_cmd_out. unfold bind at 1. unfold bind at 1. cbn [get]. by rewrite drive_ready.
  - rewrite drive_command.
    + unfold ata_command. rewrite E1, E3. unfold c, cmd. cbn [make_cmd command].
      by destruct (ty =? DEV_READ).
    + done.
    + right. split; [unfold c, cmd; cbn [make_cmd command]; destruct (ty =? DEV_READ); auto|]. split; [done|].
      rewrite E1, E3. lia.
Qed.

Lemma rw_sector_ok ty dev pos bytes buf pi h s :
  request_ok ty dev pos bytes buf pi h -> bytes <= MAX_TRANSFER ->
  rw_sector ty dev pos bytes buf s = Ok tt
    (let dv := disk s (MINOR dev) in
     if ty =? DEV_READ then set_kern (set_memory (disk_read (dev_data dv) pos bytes buf (memory (kern s))) (kern s)) s
     else set_disk (upd (disk s) (MINOR dev) (set_dev_data (disk_write (memory (kern s)) pos bytes buf (dev_data dv)) dv)) s).
Proof.
  intros [_ [Hm _] [Hp0 Hp] Hb _ _ _ _] Hmax. unfold rw_sector.
  assert (driver_of dev s = Ok TASK_HD s) as R by (unfold driver_of; by rewrite Hm).
  rewrite (bind_run _ _ _ _ _ R). change (negb (TASK_HD =? TASK_HD)) with false. cbv iota.
  rewrite bind_assert.
  2:{ apply Z.eqb_eq. change 0x1ff with (Z.ones 9). by rewrite Z.land_ones by lia. }
  rewrite (proj2 (Z.ltb_ge pos 0)), (proj2 (Z.ltb_ge MAX_TRANSFER bytes)) by lia.
  unfold modify. cbv iota. by destruct (ty =? DEV_READ).
Qed.

(** what the driver changes besides the request: its buffer, and nothing else *)
Definition driver_frame (pi : part_info) (pos bytes : Z) (h h' : @hsys D) : Prop :=
  hinfo h' = hinfo h /\ hkern h' = set_memory (hmem h') (hkern h) /\
  drive_sects (view (hdrive h')) = drive_sects (view (hdrive h)) /\
  (forall x, x < pbase pi * SECTOR_SIZE + pos \/ pbase pi * SECTOR_SIZE + pos + bytes <= x ->
    image (view (hdrive h')) x = image (view (hdrive h)) x).

Lemma part_of_hinfo dev (h h' : @hsys D) pi : hinfo h' = hinfo h -> part_of dev h = Ok pi h -> part_of dev h' = Ok pi h'.
Proof.
  intros E. unfold part_of, bind, get. rewrite E. repeat case_match; unfold ret; try done; intros H'; congruence.
Qed.

Lemma nsects_bounds bytes : 0 < bytes ->
  (Z.of_nat (nsects bytes) - 1) * SECTOR_SIZE < bytes <= Z.of_nat (nsects bytes) * SECTOR_SIZE.
Proof. intros H. unfold nsects. autounfold with consts. Z.div_mod_to_equations. lia. Qed.
Lemma nsects_exact bytes : 0 < bytes -> bytes `mod` SECTOR_SIZE = 0 -> Z.of_nat (nsects bytes) * SECTOR_SIZE = bytes.
Proof. intros H. unfold nsects. autounfold with consts. Z.div_mod_to_equations. lia. Qed.

Lemma nsects_all bytes : 0 < bytes <= MAX_TRANSFER -> Z.to_nat (cmd_sects (Z.of_nat (nsects bytes))) = nsects bytes.
Proof.
  intros H. pose proof (nsects_bounds bytes ltac:(lia)). unfold MAX_TRANSFER in *.
  rewrite cmd_sects_all by clia. lia.
Qed.

Lemma driver_read m dev pos bytes buf pi s h :
  request_ok DEV_READ dev pos bytes buf pi h -> bytes <= MAX_TRANSFER -> fs_view dev pi s h ->
  exists h', hd_rdwt ops hdbuf (driver_msg m DEV_READ dev pos bytes TASK_FS buf) h = Ok tt h' /\
    fs_view dev pi (set_kern (set_memory (disk_read (dev_data (disk s (MINOR dev))) pos bytes buf
      (memory (kern s))) (kern s)) s) h' /\ driver_frame pi pos bytes h h'.
Proof.
  intros Hr Hmax [Vp Vi Vm Vd]. destruct (hd_rdwt_start _ m _ _ _ _ _ _ Hr Vp Vi) as (d & R & V).
  destruct Hr as [_ _ [Hp0 Hp] Hb Hpart Hdr (Hb0 & Hb1 & Hb2) [Hf Hh]].
  rewrite (proj2 (Z.eqb_eq DEV_READ DEV_READ) eq_refl), nsects_all in V by lia. cbv zeta in V.
  pose proof (nsects_bounds bytes ltac:(lia)) as Hn.
  destruct (read_loop (nsects bytes) (Z.to_nat (Z.abs bytes) + 1) (pbase pi + pos / SECTOR_SIZE) buf bytes
    (image (view (hdrive h))) (set_hdrive d h)) as (m' & d' & R' & V' & Hm); try done; try lia.
  { autounfold with consts in *. lia. }
  { cbn [set_hdrive hdrive]. by rewrite V. }
  { cbn [set_hdrive hdrive]. by rewrite V. }
  exists (with_hmem m' d' (set_hdrive d h)). rewrite R. split; [done|].
  cbn [set_hdrive hdrive] in V'. rewrite V in V'.
  split; [split|repeat split].
  - by eapply part_of_hinfo; [|exact Vp].
  - cbn [with_hmem hdrive]. by rewrite V'.
  - intros a Ha. change (hmem (with_hmem m' d' (set_hdrive d h))) with m'. rewrite Hm by done.
    change (hmem (set_hdrive d h)) with (hmem h).
    change (disk_read (dev_data (disk s (MINOR dev))) pos bytes buf (memory (kern s)) a =
      disk_read (image (view (hdrive h))) ((pbase pi + pos / SECTOR_SIZE) * SECTOR_SIZE) bytes buf (hmem h) a).
    unfold disk_read. destruct (_ && _) eqn:E; [|by apply Vm]. zbool. rewrite Vd by lia. f_equal.
    assert (pos = pos / SECTOR_SIZE * SECTOR_SIZE) by (autounfold with consts in *; Z.div_mod_to_equations; lia). lia.
  - intros x Hx. cbn [with_hmem hdrive]. rewrite V'. by apply Vd.
  - cbn [with_hmem hdrive]. by rewrite V'.
  - intros x Hx. cbn [with_hmem hdrive]. by rewrite V'.
Qed.

Lemma driver_write m dev pos bytes buf pi s h :
  request_ok DEV_WRITE dev pos bytes buf pi h -> bytes <= MAX_TRANSFER -> fs_view dev pi s h ->
  exists h', hd_rdwt ops hdbuf (driver_msg m DEV_WRITE dev pos bytes TASK_FS buf) h = Ok tt h' /\
    fs_view dev pi (set_disk (upd (disk s) (MINOR dev) (set_dev_data (disk_write (memory (kern s)) pos bytes buf
      (dev_data (disk s (MINOR dev)))) (disk s (MINOR dev)))) s) h' /\ driver_frame pi pos bytes h h'.
Proof.
  intros Hr Hmax [Vp Vi Vm Vd]. destruct (hd_rdwt_start _ m _ _ _ _ _ _ Hr Vp Vi) as (d & R & V).
  destruct Hr as [[?|[_ Hx]] _ [Hp0 Hp] Hb Hpart Hdr (Hb0 & Hb1 & Hb2) [Hf Hh]]; [done|].
  change (DEV_WRITE =? DEV_READ) with false in V. rewrite nsects_all in V by lia. cbv iota zeta in V.
  pose proof (nsects_exact bytes ltac:(lia) Hx) as Hn.
  destruct (write_loop (nsects bytes) (Z.to_nat (Z.abs bytes) + 1) (pbase pi + pos / SECTOR_SIZE) buf
    (set_hdrive d h)) as (d' & R' & V'); try lia.
  { autounfold with consts in *. lia. }
  { cbn [set_hdrive hdrive]. by rewrite V. }
  rewrite Hn in R', V'. exists (with_hmem (hmem h) d' (set_hdrive d h)). rewrite R. split; [done|].
  cbn [set_hdrive hdrive] in V'. rewrite V in V'. change (hmem (set_hdrive d h)) with (hmem h) in V'.
  assert (pos = pos / SECTOR_SIZE * SECTOR_SIZE) as Ep by (autounfold with consts in *; Z.div_mod_to_equations; lia).
  assert ((pbase pi + pos / SECTOR_SIZE) * SECTOR_SIZE = pbase pi * SECTOR_SIZE + pos) as El by lia.
  rewrite El in V'.
  split; [split|repeat split].
  - by eapply part_of_hinfo; [|exact Vp].
  - cbn [with_hmem hdrive]. by rewrite V'.
  - intros a Ha. cbn. by apply Vm.
  - intros x Hx'. cbn [with_hmem hdrive set_disk disk]. rewrite V', upd_eq.
    cbn [set_ph set_image image set_dev_data dev_data]. unfold disk_write.
    replace (pbase pi * SECTOR_SIZE + pos <=? pbase pi * SECTOR_SIZE + x) with (pos <=? x)
      by (destruct (pos <=? x) eqn:E; symmetry; zbool; [apply Z.leb_le|apply Z.leb_gt]; lia).
    replace (pbase pi * SECTOR_SIZE + x <? pbase pi * SECTOR_SIZE + pos + bytes) with (x <? pos + bytes)
      by (destruct (x <? pos + bytes) eqn:E; symmetry; zbool; [apply Z.ltb_lt|apply Z.ltb_ge]; lia).
    destruct (_ && _) eqn:E; [|by apply Vd]. zbool. rewrite Vm by (unfold in_hdbuf; lia). f_equal. lia.
  - cbn [with_hmem hdrive]. by rewrite V'.
  - intros x Hx'. cbn [with_hmem hdrive]. rewrite V'. cbn [set_ph set_image image]. unfold disk_write.
    destruct (_ && _) eqn:E; [zbool; lia|done].
Qed.

(** ** Requests of more than [MAX_TRANSFER] bytes *)

(** the drive has handed over its last sector and the driver wants more *)
Lemma read_starves n : forall fuel l la k img st,
  Z.of_nat n * SECTOR_SIZE < k -> (n < fuel)%nat ->
  image (view (hdrive st)) = img -> ph (view (hdrive st)) = fetching (sectors img l n) ->
  flat (hkern st) -> 0 <= hdbuf < 4294967296 ->
  rdwt_sectors ops hdbuf fuel DEV_READ la k st = Halt HBlock.
Proof.
  induction n as [|n IH]; intros fuel l la k img st Hk Hfu Himg Hp Hf Hh;
    (destruct fuel as [|fuel]; [lia|]); cbn [rdwt_sectors];
    rewrite (proj2 (Z.eqb_neq k 0)) by clia; rewrite (proj2 (Z.eqb_eq DEV_READ DEV_READ) eq_refl).
  - apply bind_halt, bind_halt. unfold interrupt_wait, bind, get. rewrite drive_no_irq; [done|].
    cbn in Hp. unfold ata_irq. by rewrite Hp.
  - assert (MIN SECTOR_SIZE k = SECTOR_SIZE) as -> by (unfold MIN; destruct (_ <? _) eqn:E; zbool; clia).
    destruct (fetch_run (sector img l) (sectors img (l + 1) n) la SECTOR_SIZE st Hp Hf Hh) as (d1 & V1 & R1).
    rewrite (bind_run _ _ _ _ _ R1). apply (IH _ (l + 1) _ _ img); try done; try clia.
    all: cbn [with_hmem hdrive]; by rewrite V1.
Qed.

Lemma write_starves n : forall fuel l la k st,
  Z.of_nat n * SECTOR_SIZE < k -> (n < fuel)%nat -> ph (view (hdrive st)) = wanting l n ->
  rdwt_sectors ops hdbuf fuel DEV_WRITE la k st = Halt HPanic.
Proof.
  induction n as [|n IH]; intros fuel l la k st Hk Hfu Hp;
    (destruct fuel as [|fuel]; [lia|]); cbn [rdwt_sectors];
    rewrite (proj2 (Z.eqb_neq k 0)) by clia; change (DEV_WRITE =? DEV_READ) with false; cbv iota.
  - apply bind_halt. unfold bind, get. rewrite drive_drq. cbn in Hp. unfold ata_drq. by rewrite Hp.
  - assert (MIN SECTOR_SIZE k = SECTOR_SIZE) as -> by (unfold MIN; destruct (_ <? _) eqn:E; zbool; clia).
    destruct (store_run l n la st Hp) as (d1 & V1 & R1). rewrite (bind_run _ _ _ _ _ R1).
    apply (IH _ (l + 1)); try clia. cbn [with_hmem hdrive]. by rewrite V1.
Qed.

(** C6: a request of FS inside its partition is carried out by the driver: [rw_sector]
    of the file system model and [hd_rdwt] of the driver both return, and afterwards
    memory and the partition agree again, the driver's sector buffer aside. The
    driver moves nothing else: no byte of the drive outside the request, no kernel
    table and no entry of the partition table changes. *)
Theorem rw_sector_refined m ty dev pos bytes buf pi s h :
  request_ok ty dev pos bytes buf pi h -> bytes <= MAX_TRANSFER -> fs_view dev pi s h ->
  exists s' h', rw_sector ty dev pos bytes buf s = Ok tt s' /\
    hd_rdwt ops hdbuf (driver_msg m ty dev pos bytes TASK_FS buf) h = Ok tt h' /\
    fs_view dev pi s' h' /\ driver_frame pi pos bytes h h'.
Proof.
  intros Hr Hmax Hv. pose proof (rw_sector_ok _ _ _ _ _ _ _ s Hr Hmax) as R.
  destruct (rq_type _ _ _ _ _ _ _ Hr) as [->|[-> _]].
  - destruct (driver_read m _ _ _ _ _ _ _ Hr Hmax Hv) as (h' & ? & ? & ?). eexists _, h'. split; [exact R|]. done.
  - destruct (driver_write m _ _ _ _ _ _ _ Hr Hmax Hv) as (h' & ? & ? & ?). eexists _, h'. split; [exact R|]. done.
Qed.

(** C33: a request of more than 256 sectors does not end. The sector count of the
    command is one byte, so the drive stops before the driver does: a read waits for
    an interrupt that never comes, a write panics because the drive asks for no more
    data. FS's model of the exchange stops the same way. *)
Theorem long_request_starves m ty dev pos bytes buf pi s h :
  request_ok ty dev pos bytes buf pi h -> MAX_TRANSFER < bytes -> fs_view dev pi s h ->
  hd_rdwt ops hdbuf (driver_msg m ty dev pos bytes TASK_FS buf) h = Halt (if ty =? DEV_READ then HBlock else HPanic) /\
  rw_sector ty dev pos bytes buf s = Halt (if ty =? DEV_READ then HBlock else HPanic).
Proof.
  intros Hr Hmax [Vp Vi _ _]. destruct (hd_rdwt_start _ m _ _ _ _ _ _ Hr Vp Vi) as (d & R & V).
  destruct Hr as [Ht [Hm _] [Hp0 Hp] Hb _ _ _ [Hf Hh]]. rewrite R.
  pose proof (nsects_bounds bytes ltac:(lia)) as Hn.
  pose proof (cmd_sects_few (Z.of_nat (nsects bytes)) ltac:(unfold MAX_TRANSFER in *; clia)) as Hc.
  split.
  - destruct Ht as [->|[-> _]]; cbv zeta in V.
    + eapply (read_starves (Z.to_nat (cmd_sects (Z.of_nat (nsects bytes))))); try done; try clia;
        cbn [set_hdrive hdrive]; rewrite V; done.
    + eapply (write_starves (Z.to_nat (cmd_sects (Z.of_nat (nsects bytes))))); try clia.
      cbn [set_hdrive hdrive]; rewrite V; done.
  - unfold rw_sector. assert (driver_of dev s = Ok TASK_HD s) as E by (unfold driver_of; by rewrite Hm).
    rewrite (bind_run _ _ _ _ _ E). change (negb (TASK_HD =? TASK_HD)) with false. cbv iota.
    rewrite bind_assert.
    2:{ apply Z.eqb_eq. change 0x1ff with (Z.ones 9). by rewrite Z.land_ones by lia. }
    rewrite (proj2 (Z.ltb_ge pos 0)), (proj2 (Z.ltb_lt MAX_TRANSFER bytes)) by lia.
    by destruct Ht as [->|[-> _]].
Qed.
End driver.

(** ** The interrupt *)

(** the driver that waits in [interrupt_wait] is ready again, with the message of the
    interrupt; one that does not wait finds the interrupt pending when it does *)
Lemma hd_handler_wakes q status st :
  ipc_inv (proc_table (int_kern st)) q -> let p := proc_table (int_kern st) TASK_HD in
  p_flags p = 0 \/ p_flags p = SENDING \/ p_flags p = RECEIVING ->
  exists st', hd_handler status st = Ok tt st' /\ hd_status st' = status /\ ipc_inv (proc_table (int_kern st')) q /\
    (p_flags p = RECEIVING -> p_recvfrom p = INTERRUPT -> p_flags (proc_table (int_kern st') TASK_HD) = 0 /\
       source (msg_at (memory (int_kern st')) (p_msg p)) = INTERRUPT) /\
    (p_flags p <> RECEIVING -> has_int_msg (proc_table (int_kern st') TASK_HD) = 1).
Proof.
  intros Hi p Hf. destruct (inform_int_spec q TASK_HD (int_kern st) Hi) as (k & E & Hi' & _ & H); [clia|done|]. fold p in H.
  exists (mkHint k status). unfold hd_handler. rewrite E. split; [done|]. split; [done|]. split; [done|]. cbn [int_kern]. split.
  - intros E1 E2. rewrite E1, E2 in H. cbn in H. destruct H as (H1 & H2 & _). done.
  - intros Hne. destruct Hf as [E1|[E1|E1]]; [| |done]; rewrite E1 in H; cbn in H; apply H.
Qed.
