(* ===== verification/HdOpen.v ===== *)
(** * Opening the disk (kernel/hd.c: hd_identify, get_part_table, partition, hd_open)

    The driver learns the partitions from the partition table of the drive: the four
    entries of the first sector, and for an extended partition the chain of tables in
    front of its logical partitions. [table_ent] and [ext_chain] read both off the image;
    against the interface of the drive (HdThm.v) the driver's [hd_info] comes to hold
    just that. *)
From S2P Require Import Prelude Const CLib Protect Proc Sys Fs FsOps FsLem Hd HdThm.

(** ** The partition tables on the drive *)

(** entry [i] of the table in sector [l] *)
Definition table_ent (img : mem) (l i : Z) : part_ent :=
  part_ent_at img (l * SECTOR_SIZE + PARTITION_TABLE_OFFSET + i * SIZEOF_PART_ENT).

(** the logical partitions of the extended partition at [base], at most [n], from the
    table in sector [l] on: entry 0 is relative to its table, entry 1 to [base] *)
Fixpoint ext_chain (n : nat) (img : mem) (base l : Z) : list part_info :=
  match n with
  | O => []
  | S n' =>
      mkPi (l + start_sect (table_ent img l 0)) (nr_part_sects (table_ent img l 0)) ::
      if sys_id (table_ent img l 1) =? NO_PART then []
      else ext_chain n' img base (base + start_sect (table_ent img l 1))
  end.
Definition sub_parts (img : mem) (base : Z) : list part_info := ext_chain (Z.to_nat NR_SUB_PER_PART) img base base.

(** every table of the chain is on a drive of [N] sectors, and so are the partitions' starts *)
Fixpoint chain_ok (n : nat) (img : mem) (N base l : Z) : Prop :=
  match n with
  | O => True
  | S n' =>
      0 <= l < N /\ 0 <= l + start_sect (table_ent img l 0) < 4294967296 /\
      (sys_id (table_ent img l 1) = NO_PART \/ chain_ok n' img N base (base + start_sect (table_ent img l 1)))
  end.

(** the table of the first sector *)
Definition used (img : mem) (i : Z) : bool := negb (sys_id (table_ent img 0 i) =? NO_PART).
Definition extended (img : mem) (i : Z) : bool := sys_id (table_ent img 0 i) =? EXT_PART.
Record tables_ok (img : mem) (N : Z) : Prop := {
  to_some : exists i, 0 <= i < NR_PART_PER_DRIVE /\ used img i = true;
  to_chain : forall i, 0 <= i < NR_PART_PER_DRIVE -> extended img i = true ->
    let b := start_sect (table_ent img 0 i) in chain_ok (Z.to_nat NR_SUB_PER_PART) img N b b }.

(** [hd_info] as the tables say, over what it held before *)
Definition prim_of (img : mem) (old : arr part_info) (k : Z) : part_info :=
  if (1 <=? k) && (k <=? NR_PART_PER_DRIVE) && used img (k - 1)
  then mkPi (start_sect (table_ent img 0 (k - 1))) (nr_part_sects (table_ent img 0 (k - 1))) else old k.
Definition logical_of (img : mem) (old : arr part_info) (x : Z) : part_info :=
  let i := x / NR_SUB_PER_PART in
  if (0 <=? x) && (x <? NR_SUB_PER_DRIVE) && extended img i
  then default (old x) (sub_parts img (start_sect (table_ent img 0 i)) !! Z.to_nat (x `mod` NR_SUB_PER_PART)) else old x.

(** the number of sectors in words 60 and 61 of the identification *)
Definition ident_sects (l : list Z) : Z :=
  let b (i : nat) := default 0 (l !! i) in b 120%nat + 256 * b 121%nat + 65536 * b 122%nat + 16777216 * b 123%nat.

(** a list of partitions stored from index [a] on *)
Fixpoint put_parts (a : Z) (l : list part_info) (t : arr part_info) : arr part_info :=
  match l with [] => t | p :: l' => put_parts (a + 1) l' (upd t a p) end.

Lemma put_parts_at l : forall a t x,
  put_parts a l t x = if decide (a <= x) then default (t x) (l !! Z.to_nat (x - a)) else t x.
Proof.
  induction l as [|p l IH]; intros a t x; cbn [put_parts]; [by case_decide|].
  rewrite IH, upd_case. repeat case_decide; try done; try lia.
  - replace (Z.to_nat (x - a)) with (S (Z.to_nat (x - (a + 1)))) by lia. done.
  - subst. by rewrite Z.sub_diag.
Qed.

Lemma length_ext_chain n img base : forall l, (length (ext_chain n img base l) <= n)%nat.
Proof.
  induction n as [|n IH]; intros l; cbn [ext_chain length]; [lia|].
  case_match; cbn [length]; [lia|]. specialize (IH (base + start_sect (table_ent img l 1))). lia.
Qed.

(** ** Reading a sector for the driver itself *)

Lemma part_ent_at_shift m m' a b : (forall i, 0 <= i < 16 -> m (a + i) = m' (b + i)) -> part_ent_at m a = part_ent_at m' b.
Proof.
  intros H. unfold part_ent_at. rewrite H by lia.
  rewrite (ld32_shift m m' (a + 8) (b + 8)), (ld32_shift m m' (a + 12) (b + 12)); [done|intros i Hi; rewrite <- !Z.add_assoc; apply H; lia..].
Qed.

Section open.
Context {D : Type} (ops : drive_ops D) `{!Drive ops} (hdbuf : Z).

(** what reading tables changes: the driver's buffer *)
Record looked_up (st st' : @hsys D) : Prop := {
  lu_kern : hkern st' = set_memory (hmem st') (hkern st);
  lu_mem : forall a, ~ in_hdbuf hdbuf a -> hmem st' a = hmem st a;
  lu_view : view (hdrive st') = view (hdrive st) }.

Lemma looked_up_refl st : looked_up st st.
Proof. split; try done. by destruct st as [[] ? ?]. Qed.
Lemma looked_up_trans st1 st2 st3 : looked_up st1 st2 -> looked_up st2 st3 -> looked_up st1 st3.
Proof.
  intros [A1 A2 A3] [B1 B2 B3]. split; [by rewrite B1, A1| |congruence]. intros a Ha. by rewrite B2, A2.
Qed.
Lemma looked_up_info st f : looked_up st (set_hinfo f st).
Proof. split; try done. by destruct st as [[] ? ?]. Qed.

(** a command that brings one block *)
Lemma read_block {A} (k : M hsys A) c b st : ph (view (hdrive st)) = Idle -> cmd_ok c (view (hdrive st)) ->
  ata_command c (view (hdrive st)) = set_ph (Fetch [b]) (view (hdrive st)) -> Z.of_nat (length b) = SECTOR_SIZE ->
  exists st', (hd_cmd_out ops c ;; interrupt_wait ops ;; port_read ops hdbuf ;; k) st = k st' /\
    hinfo st' = hinfo st /\ looked_up st st' /\ hmem st' = put_bytes hdbuf b (hmem st).
Proof.
  intros Hid Hc Hcmd Hlen. set (d1 := d_command ops c (hdrive st)).
  assert (V1 : view d1 = set_ph (Fetch [b]) (view (hdrive st))) by (unfold d1; by rewrite drive_command).
  destruct (drive_irq d1 (set_ph (DataIn b []) (view d1))) as (d2 & E2 & V2); [unfold ata_irq; by rewrite V1|].
  destruct (drive_in d2 b []) as [F3 V3]; [by rewrite V2|]. set (d3 := snd (d_in ops d2)) in *.
  assert (R1 : hd_cmd_out ops c st = Ok tt (set_hdrive d1 st))
    by (unfold hd_cmd_out; rewrite (bind_run get _ st st st eq_refl); by rewrite drive_ready).
  rewrite (bind_run _ _ _ _ _ R1).
  assert (R2 : interrupt_wait ops (set_hdrive d1 st) = Ok tt (set_hdrive d2 st))
    by (unfold interrupt_wait; rewrite (bind_run get _ _ (set_hdrive d1 st) _ eq_refl); cbn [set_hdrive hdrive]; by rewrite E2).
  rewrite (bind_run _ _ _ _ _ R2). exists (with_hmem (put_bytes hdbuf b (hmem st)) d3 st).
  split; [rewrite <- F3; by destruct st as [[] ? ?]|]. split; [done|]. split; [|done]. split; [done| |].
  - intros a Ha. change (put_bytes hdbuf b (hmem st) a = hmem st a). apply put_bytes_out. unfold in_hdbuf in Ha. lia.
  - cbn [with_hmem hdrive]. rewrite V3, V2, V1. unfold set_ph. cbn. destruct (view (hdrive st)) as [im id N p].
    cbn in *. by rewrite Hid.
Qed.

Lemma put_block b m i : 0 <= i < Z.of_nat (length b) -> put_bytes hdbuf b m (hdbuf + i) = default 0 (b !! Z.to_nat i).
Proof. intros Hi. pose proof (put_bytes_in hdbuf b m i Hi) as E. by rewrite E. Qed.

Lemma get_part_table_run l st : ph (view (hdrive st)) = Idle -> 0 <= l < drive_sects (view (hdrive st)) ->
  drive_sects (view (hdrive st)) <= 268435456 ->
  exists pe st', get_part_table ops hdbuf 0 l st = Ok pe st' /\ hinfo st' = hinfo st /\ looked_up st st' /\
    forall i, 0 <= i < NR_PART_PER_DRIVE -> pe i = table_ent (image (view (hdrive st))) l i.
Proof.
  intros Hid Hl HN. set (img := image (view (hdrive st))). destruct (make_cmd_lba 1 l ATA_READ ltac:(lia)) as [E1 E2].
  set (k := (st ← get; ret (fun i => part_ent_at (memory (hkern (D := D) st)) (hdbuf + PARTITION_TABLE_OFFSET + i * SIZEOF_PART_ENT)))).
  destruct (read_block k (make_cmd 1 0 l ATA_READ) (sector img l) st Hid) as (st' & R & I & L & M).
  - right. split; [by left|]. split; [exact E2|]. rewrite E1. change (count_of (make_cmd 1 0 l ATA_READ)) with 1. lia.
  - unfold ata_command. change (command (make_cmd 1 0 l ATA_READ) =? ATA_READ) with true. cbv iota. rewrite E1.
    change (Z.to_nat (count_of (make_cmd 1 0 l ATA_READ))) with 1%nat. done.
  - apply length_sector.
  - eexists _, st'. split; [exact R|]. split; [done|]. split; [done|]. intros i Hi. cbv beta.
    apply part_ent_at_shift. intros j Hj. change (memory (hkern st')) with (hmem st'). rewrite M.
    rewrite <- !(Z.add_assoc hdbuf), <- !(Z.add_assoc (l * SECTOR_SIZE)).
    assert (Hr : 0 <= PARTITION_TABLE_OFFSET + i * SIZEOF_PART_ENT + j < SECTOR_SIZE)
      by (unfold PARTITION_TABLE_OFFSET, SIZEOF_PART_ENT; autounfold with consts in *; lia).
    rewrite put_block by (rewrite length_sector; exact Hr). unfold sector. by rewrite seqZ_fmap_at.
Qed.

(** ** The chain of an extended partition *)

Lemma partition_ext_run N base nr_base : N <= 268435456 -> forall n i l st,
  ph (view (hdrive st)) = Idle -> drive_sects (view (hdrive st)) = N ->
  let img := image (view (hdrive st)) in chain_ok n img N base l ->
  exists st', partition_ext ops hdbuf n i 0 base l nr_base st = Ok tt st' /\ looked_up st st' /\
    hinfo st' = set_logical (put_parts (nr_base + i) (ext_chain n img base l) (logical (hinfo st))) (hinfo st).
Proof.
  intros HN. induction n as [|n IH]; intros i l st Hid Hs img Hok.
  { exists st. split; [done|]. split; [apply looked_up_refl|]. by destruct (hinfo st). }
  cbn [partition_ext ext_chain chain_ok] in *. destruct Hok as (Hl & Hb & Hnext).
  destruct (get_part_table_run l st Hid) as (pe & st1 & R & I & L & P); [lia|lia|]. fold img in P.
  rewrite (bind_run _ _ _ _ _ R), (P 0), (P 1) by clia.
  rewrite u32_id by exact Hb. set (p := mkPi _ _). set (h1 := set_logical (upd (logical (hinfo st1)) (nr_base + i) p) (hinfo st1)).
  rewrite (bind_run _ _ st1 tt (set_hinfo h1 st1) eq_refl).
  assert (L1 : looked_up st (set_hinfo h1 st1)) by (eapply looked_up_trans; [exact L|apply looked_up_info]).
  destruct (sys_id (table_ent img l 1) =? NO_PART) eqn:E; zbool.
  { exists (set_hinfo h1 st1). split; [done|]. split; [done|]. cbn [put_parts set_hinfo hinfo]. unfold h1. by rewrite I. }
  destruct Hnext as [Hno|Hnext]; [done|].
  set (x := base + start_sect (table_ent img l 1)) in *.
  assert (Ei : partition_ext ops hdbuf n (i + 1) 0 base (i32 x) nr_base = partition_ext ops hdbuf n (i + 1) 0 base x nr_base).
  { destruct n; [done|]. destruct Hnext as [Hr _]. by rewrite i32_id by lia. }
  rewrite Ei. destruct (IH (i + 1) x (set_hinfo h1 st1)) as (st' & R' & L' & I').
  - by rewrite (lu_view _ _ L1).
  - by rewrite (lu_view _ _ L1).
  - rewrite (lu_view _ _ L1). exact Hnext.
  - exists st'. split; [exact R'|]. split; [by eapply looked_up_trans|]. rewrite I', (lu_view _ _ L1).
    cbn [set_hinfo hinfo put_parts]. unfold h1. rewrite I. cbn. by rewrite Z.add_assoc.
Qed.

(** ** The table of the drive *)

(** the range of indices one turn further *)
Lemma range_step i k n : k <> i + 1 -> (i + 1 + 1 <=? k) && (k <=? i + 1 + Z.of_nat n) = (i + 1 <=? k) && (k <=? i + Z.of_nat (S n)).
Proof. intros H. apply eq_bool_prop_intro. rewrite !andb_True, !Is_true_true, !Z.leb_le. lia. Qed.

(** the loop over the primary entries, on the image *)
Fixpoint scan_table (n : nat) (i : Z) (img : mem) (h : hd_info) : hd_info :=
  match n with
  | O => h
  | S n' =>
      let e := table_ent img 0 i in
      if used img i then
        let h1 := set_primary (upd (primary h) (i + 1) (mkPi (start_sect e) (nr_part_sects e))) h in
        scan_table n' (i + 1) img
          (if extended img i then set_logical (put_parts (i * NR_SUB_PER_PART) (sub_parts img (start_sect e)) (logical h1)) h1 else h1)
      else scan_table n' (i + 1) img h
  end.

Lemma partition_extended_run N i st : N <= 268435456 -> 0 <= i < NR_PART_PER_DRIVE ->
  ph (view (hdrive st)) = Idle -> drive_sects (view (hdrive st)) = N ->
  let img := image (view (hdrive st)) in let b := pbase (primary (hinfo st) (i + 1)) in
  chain_ok (Z.to_nat NR_SUB_PER_PART) img N b b ->
  exists st', partition_extended ops hdbuf (i + 1) st = Ok tt st' /\ looked_up st st' /\
    hinfo st' = set_logical (put_parts (i * NR_SUB_PER_PART) (sub_parts img b) (logical (hinfo st))) (hinfo st).
Proof.
  intros HN Hi Hid Hs img b Hok. assert (Hb : 0 <= b < N) by apply Hok.
  assert (E : DRV_OF_DEV (i + 1) = 0 /\ Z.rem (i + 1) NR_PRIM_PER_DRIVE = i + 1).
  { unfold DRV_OF_DEV. rewrite (proj2 (Z.leb_le _ _)) by clia. split; [apply Z.quot_small; clia|apply Z.rem_small; clia]. }
  unfold partition_extended. destruct E as [-> ->]. rewrite (bind_run get _ st st st eq_refl). cbv zeta. fold b. rewrite (i32_id b) by lia.
  replace (i + 1 - 1) with i by lia.
  destruct (partition_ext_run N b (i * NR_SUB_PER_PART) HN (Z.to_nat NR_SUB_PER_PART) 0 b st Hid Hs Hok) as (st' & R & L & I).
  exists st'. rewrite Z.add_0_r in I. done.
Qed.

Lemma partition_prim_run N img pe : N <= 268435456 ->
  (forall i, 0 <= i < NR_PART_PER_DRIVE -> pe i = table_ent img 0 i) ->
  (forall i, 0 <= i < NR_PART_PER_DRIVE -> extended img i = true ->
    let b := start_sect (table_ent img 0 i) in chain_ok (Z.to_nat NR_SUB_PER_PART) img N b b) ->
  forall n i nr st, ph (view (hdrive st)) = Idle -> drive_sects (view (hdrive st)) = N -> image (view (hdrive st)) = img ->
    0 <= i -> i + Z.of_nat n = NR_PART_PER_DRIVE -> 0 <= nr ->
  exists nr' st', partition_prim ops hdbuf n i pe nr st = Ok nr' st' /\ looked_up st st' /\ nr <= nr' /\
    hinfo st' = scan_table n i img (hinfo st) /\ (forall k, i <= k < NR_PART_PER_DRIVE -> used img k = true -> nr < nr').
Proof.
  intros HN Hpe Hext. induction n as [|n IH]; intros i nr st Hid Hs Himg Hi Hn Hnr.
  { exists nr, st. split; [done|]. split; [apply looked_up_refl|]. split; [done|]. split; [done|]. intros k Hk. lia. }
  cbn [partition_prim scan_table]. rewrite (Hpe i) by lia. unfold used at 1.
  destruct (sys_id (table_ent img 0 i) =? NO_PART) eqn:E; cbn [negb].
  { destruct (IH (i + 1) nr st) as (nr' & st' & R & L & M & I & U); try done; try lia. exists nr', st'. repeat (split; [done|]).
    intros k Hk Hu. destruct (decide (k = i)) as [->|]; [unfold used in Hu; by rewrite E in Hu|]. apply (U k); [lia|done]. }
  set (h1 := set_primary _ _). rewrite (bind_run _ _ st tt (set_hinfo h1 st) eq_refl).
  change (sys_id (table_ent img 0 i) =? EXT_PART) with (extended img i).
  assert (Hstep : exists st1, (if extended img i then partition_extended ops hdbuf (i + 1) else ret tt) (set_hinfo h1 st) = Ok tt st1 /\
    looked_up st st1 /\ hinfo st1 = if extended img i
      then set_logical (put_parts (i * NR_SUB_PER_PART) (sub_parts img (start_sect (table_ent img 0 i))) (logical h1)) h1 else h1).
  { destruct (extended img i) eqn:Ex; [|exists (set_hinfo h1 st); split; [done|]; split; [apply looked_up_info|done]].
    destruct (partition_extended_run N i (set_hinfo h1 st) HN ltac:(lia)) as (st1 & R & L & I); [done|done| |].
    - cbn [set_hinfo hinfo hdrive h1 set_primary primary]. rewrite upd_eq, Himg. cbn [pbase]. apply Hext; [lia|done].
    - exists st1. split; [done|]. split; [eapply looked_up_trans; [apply looked_up_info|exact L]|].
      rewrite I. cbn [set_hinfo hinfo hdrive h1 set_primary primary]. by rewrite upd_eq, Himg. }
  destruct Hstep as (st1 & R1 & L1 & I1). rewrite (bind_run _ _ _ _ _ R1).
  destruct (IH (i + 1) (nr + 1) st1) as (nr' & st' & R & L & M & I & U); try lia; [by rewrite (lu_view _ _ L1)..|].
  exists nr', st'. split; [done|]. split; [by eapply looked_up_trans|]. split; [lia|]. split; [by rewrite I, I1|]. intros k _ _. lia.
Qed.

Lemma scan_primary img : forall n i h k,
  primary (scan_table n i img h) k =
    if (i + 1 <=? k) && (k <=? i + Z.of_nat n) && used img (k - 1)
    then mkPi (start_sect (table_ent img 0 (k - 1))) (nr_part_sects (table_ent img 0 (k - 1))) else primary h k.
Proof.
  induction n as [|n IH]; intros i h k; cbn [scan_table].
  { destruct ((i + 1 <=? k) && (k <=? i + Z.of_nat 0)) eqn:E; [zbool; lia|done]. }
  destruct (used img i) eqn:Eu; rewrite IH.
  - set (h1 := if extended img i then _ else _).
    assert (E1 : primary h1 k = upd (primary h) (i + 1) (mkPi (start_sect (table_ent img 0 i)) (nr_part_sects (table_ent img 0 i))) k)
      by (unfold h1; by destruct (extended img i)). rewrite E1, upd_case.
    destruct (decide (k = i + 1)) as [->|Hne].
    + replace (i + 1 - 1) with i by lia. rewrite (proj2 (Z.leb_gt (i + 1 + 1) (i + 1))), Z.leb_refl by lia.
      by rewrite (proj2 (Z.leb_le (i + 1) (i + Z.of_nat (S n)))), Eu by lia.
    + by rewrite range_step.
  - destruct (decide (k = i + 1)) as [->|Hne].
    + replace (i + 1 - 1) with i by lia. by rewrite Eu, !andb_false_r.
    + by rewrite range_step.
Qed.

Lemma scan_logical img : forall n i h x, 0 <= i ->
  logical (scan_table n i img h) x =
    let j := x / NR_SUB_PER_PART in
    if (i <=? j) && (j <? i + Z.of_nat n) && extended img j
    then default (logical h x) (sub_parts img (start_sect (table_ent img 0 j)) !! Z.to_nat (x `mod` NR_SUB_PER_PART))
    else logical h x.
Proof.
  induction n as [|n IH]; intros i h x Hi; cbn [scan_table]; cbv zeta; set (j := x / NR_SUB_PER_PART).
  { destruct ((i <=? j) && (j <? i + Z.of_nat 0)) eqn:E; [zbool; lia|done]. }
  assert (Hxu : extended img i = true -> used img i = true).
  { unfold extended, used. intros E. zbool. by rewrite E. }
  assert (Hx : x = NR_SUB_PER_PART * j + x `mod` NR_SUB_PER_PART /\ 0 <= x `mod` NR_SUB_PER_PART < NR_SUB_PER_PART)
    by (split; [apply Z.div_mod; done|apply Z.mod_pos_bound; done]).
  assert (Hne : j <> i -> (i + 1 <=? j) && (j <? i + 1 + Z.of_nat n) = (i <=? j) && (j <? i + Z.of_nat (S n))).
  { intros H. apply eq_bool_prop_intro. rewrite !andb_True, !Is_true_true, !Z.leb_le, !Z.ltb_lt. lia. }
  set (h1 := set_primary _ h).
  assert (Hl : forall h', logical h' x = (if (i =? j) && extended img i
      then default (logical h x) (sub_parts img (start_sect (table_ent img 0 i)) !! Z.to_nat (x `mod` NR_SUB_PER_PART)) else logical h x) ->
    logical (scan_table n (i + 1) img h') x =
    if (i <=? j) && (j <? i + Z.of_nat (S n)) && extended img j
    then default (logical h x) (sub_parts img (start_sect (table_ent img 0 j)) !! Z.to_nat (x `mod` NR_SUB_PER_PART)) else logical h x).
  { intros h' E. rewrite IH by lia. cbv zeta. fold j. rewrite E. destruct (decide (j = i)) as [->|H].
    - rewrite Z.eqb_refl, (proj2 (Z.leb_gt (i + 1) i)), Z.leb_refl by lia.
      rewrite (proj2 (Z.ltb_lt i (i + Z.of_nat (S n)))) by lia. reflexivity.
    - rewrite Hne by exact H. rewrite (proj2 (Z.eqb_neq i j)) by congruence. reflexivity. }
  destruct (used img i) eqn:Eu; apply Hl.
  - destruct (extended img i) eqn:Ex; [|rewrite andb_false_r; reflexivity]. rewrite andb_true_r. cbn [set_logical logical h1 set_primary].
    rewrite put_parts_at. destruct (i =? j) eqn:Eij; zbool.
    + subst i. rewrite decide_True by lia. replace (x - j * NR_SUB_PER_PART) with (x `mod` NR_SUB_PER_PART) by lia. reflexivity.
    + case_decide as Hd; [|reflexivity]. rewrite lookup_ge_None_2; [reflexivity|].
      pose proof (length_ext_chain (Z.to_nat NR_SUB_PER_PART) img (start_sect (table_ent img 0 i)) (start_sect (table_ent img 0 i))) as Hlen.
      unfold sub_parts. autounfold with consts in *. lia.
  - destruct (extended img i) eqn:Ex; [discriminate (Hxu eq_refl)|]. rewrite andb_false_r. reflexivity.
Qed.

(** ** [hd_identify] *)

Lemma ident_size a b c d : byte_ok a -> byte_ok b -> byte_ok c -> byte_ok d ->
  u32 (i32 (Z.shiftl (c + 256 * d) 16) + (a + 256 * b)) = a + 256 * b + 65536 * c + 16777216 * d.
Proof.
  unfold byte_ok. intros Ha Hb Hc Hd. rewrite Z.shiftl_mul_pow2 by lia. change (2 ^ 16) with 65536.
  assert (E : u32 (i32 ((c + 256 * d) * 65536) + (a + 256 * b)) = u32 ((c + 256 * d) * 65536 + (a + 256 * b))).
  { unfold u32, i32. Z.div_mod_to_equations. lia. }
  rewrite E, u32_id by lia. lia.
Qed.

Lemma scan_open_cnt img : forall n i h, open_cnt (scan_table n i img h) = open_cnt h.
Proof.
  induction n as [|n IH]; intros i h; cbn [scan_table]; [done|]. destruct (used img i); rewrite IH; [|done]. by destruct (extended img i).
Qed.

(** the size from the identification *)
Lemma hd_identify_run junk st : let v := view (hdrive st) in ph v = Idle -> Z.of_nat (length (ident v)) = SECTOR_SIZE ->
  Forall byte_ok (ident v) ->
  exists st', hd_identify ops hdbuf junk 0 st = Ok tt st' /\ looked_up st st' /\
    hinfo st' = set_primary (upd (primary (hinfo st)) 0 (mkPi 0 (ident_sects (ident v)))) (hinfo st).
Proof.
  intros v Hid Hlen Hb. unfold hd_identify. set (c := mkCmd _ _ _ _ _ _ _). set (k := (st ← get; _)).
  destruct (read_block k c (ident v) st Hid) as (st1 & R & I & L & M); [by left|done|done|].
  rewrite R. unfold k. rewrite (bind_run get _ st1 st1 st1 eq_refl). cbv zeta.
  eexists. split; [reflexivity|]. split; [eapply looked_up_trans; [exact L|apply looked_up_info]|].
  cbn [set_hinfo hinfo]. rewrite I. do 3 f_equal. change (memory (hkern st1)) with (hmem st1). rewrite M.
  rewrite <- !(Z.add_assoc hdbuf). rewrite !put_block by (rewrite Hlen; autounfold with consts; lia).
  assert (Hd : forall i, byte_ok (default 0 (ident v !! i))).
  { intros i. destruct (ident v !! i) as [b|] eqn:E; cbn; [by eapply Forall_lookup_1 in E|unfold byte_ok; lia]. }
  apply ident_size; apply Hd.
Qed.

(** C19: The first opening of the disk reads the partition tables: when some entry of the first
    sector is used and the tables of every extended partition are on the drive, [hd_open]
    returns, and [hd_info] holds for device 0 the size of the drive, for the devices 1 to 4
    the used entries of the first sector, and for each extended partition the partitions
    its chain of tables names, up to 16 of them; entries the tables say nothing about keep
    their value. Only the driver's buffer changes otherwise, and the drive is idle again. *)
Theorem hd_open_reads junk device h : let v := view (hdrive h) in
  DRV_OF_DEV device = 0 -> open_cnt (hinfo h) = 0 -> ph v = Idle -> drive_sects v <= 268435456 -> 0 < drive_sects v ->
  Z.of_nat (length (ident v)) = SECTOR_SIZE -> Forall byte_ok (ident v) -> tables_ok (image v) (drive_sects v) ->
  exists h', hd_open ops hdbuf junk device h = Ok tt h' /\ looked_up h h' /\ open_cnt (hinfo h') = 1 /\
    primary (hinfo h') 0 = mkPi 0 (ident_sects (ident v)) /\
    (forall k, k <> 0 -> primary (hinfo h') k = prim_of (image v) (primary (hinfo h)) k) /\
    (forall x, logical (hinfo h') x = logical_of (image v) (logical (hinfo h)) x).
Proof.
  intros v Hdrv Hcnt Hid HN HN0 Hlen Hb [[i0 [Hi0 Hu0]] Hext]. unfold hd_open. rewrite Hdrv, bind_assert by done.
  destruct (hd_identify_run junk h Hid Hlen Hb) as (h1 & R1 & L1 & I1). fold v in I1. rewrite (bind_run _ _ _ _ _ R1).
  rewrite (bind_run get _ h1 h1 h1 eq_refl), bind_modify.
  set (h2 := set_hinfo (set_open_cnt (u32 (open_cnt (hinfo h1) + 1)) (hinfo h1)) h1). rewrite I1. change (open_cnt (set_primary _ _)) with (open_cnt (hinfo h)).
  rewrite Hcnt. change (when (0 =? 0) ?c) with c. unfold partition. change (P_PRIMARY =? P_PRIMARY) with true. cbv iota.
  change (DRV_OF_DEV (0 * (NR_PART_PER_DRIVE + 1))) with 0.
  assert (L2 : looked_up h h2) by (eapply looked_up_trans; [exact L1|apply looked_up_info]).
  pose proof (lu_view _ _ L2) as V2. fold v in V2.
  destruct (get_part_table_run 0 h2) as (pe & h3 & R3 & I3 & L3 & P3); [rewrite V2; try done; lia..|].
  rewrite (bind_run _ _ _ _ _ R3). rewrite V2 in P3.
  pose proof (looked_up_trans _ _ _ L2 L3) as L23. pose proof (lu_view _ _ L23) as V3. fold v in V3.
  destruct (partition_prim_run (drive_sects v) (image v) pe HN P3 Hext (Z.to_nat NR_PART_PER_DRIVE) 0 0 h3)
    as (nr & h' & R & L & _ & I & U); [by rewrite V3..|lia|done|lia|].
  rewrite (bind_run _ _ _ _ _ R). specialize (U i0 Hi0 Hu0). exists h'. 
  split; [unfold assert_; rewrite (proj2 (Z.eqb_neq nr 0)) by lia; reflexivity|].
  split; [by eapply looked_up_trans|]. rewrite I3 in I. change (hinfo h2) with (set_open_cnt (u32 (open_cnt (hinfo h1) + 1)) (hinfo h1)) in I.
  rewrite I1 in I. rewrite I. split; [|split; [|split]].
  - rewrite scan_open_cnt. cbn. by rewrite Hcnt.
  - rewrite scan_primary. cbn [set_open_cnt primary set_primary]. by rewrite upd_eq.
  - intros k Hk. rewrite scan_primary. cbn [set_open_cnt primary set_primary]. by rewrite upd_ne.
  - intros x. rewrite scan_logical by lia. cbv zeta. cbn [set_open_cnt logical set_primary]. unfold logical_of. cbv zeta.
    set (j := x / NR_SUB_PER_PART). assert (Ej : (0 <=? x) && (x <? NR_SUB_PER_DRIVE) = (0 <=? j) && (j <? 0 + Z.of_nat (Z.to_nat NR_PART_PER_DRIVE))).
    { apply eq_bool_prop_intro. rewrite !andb_True, !Is_true_true, !Z.leb_le, !Z.ltb_lt. unfold j.
      autounfold with consts. Z.div_mod_to_equations. lia. }
    rewrite Ej. reflexivity.
Qed.
End open.
