(* ===== verification/Task.v ===== *)
(** * Answers of the system tasks; the system task (kernel/systask.c)

    A task keeps its messages in objects on its own stack and answers with
    [send_rec(SEND, dst, &m)]: [task_send], over the real system call. A task
    whose partner is not waiting blocks inside its handler ([HBlock]). When the
    partner waits for the task, the answer is delivered at once: [task_send_run]
    gives the state; [send_rec] is the library function. [sys_serve] is the body of the loop of [task_sys]. *)
From Stdlib Require Import FunctionalExtensionality.
From S2P Require Import Prelude Const Protect Proc Sched Ipc IpcInv IpcStep IpcRun IpcFrame.
From S2P Require Import IpcThm IpcSpec.

(** ** Sending from a task *)

(** the message object at [mbuf] is filled with [m] and sent *)
Definition task_send (who mbuf dst : Z) (m : MESSAGE) : M kstate unit :=
  modmem (put_msg mbuf m) ;;
  r ← sys_sendrec SEND dst mbuf who;
  p ← getp who;
  if p_flags p =? 0 then ret tt else stop HBlock.

(** the system call of process [who]: it goes on when it is not blocked *)
Definition sendrec (who function src_dest m : Z) : M kstate Z :=
  r ← sys_sendrec function src_dest m who;
  p ← getp who;
  if p_flags p =? 0 then ret r else stop HBlock.

(** [send_rec] of lib/misc.c *)
Definition send_rec (who function src_dest m : Z) : M kstate Z :=
  when (RECEIVE =? function) (modmem (memset m 0 SIZEOF_MESSAGE)) ;;
  if function =? BOTH then
    ret_ ← sendrec who SEND src_dest m;
    if 0 =? ret_ then sendrec who RECEIVE src_dest m else ret ret_
  else if (function =? RECEIVE) || (function =? SEND) then sendrec who function src_dest m
  else assert_ ((function =? BOTH) || (function =? SEND) || (function =? RECEIVE)) ;; ret 0.

(** the answer of a task is [send_rec] of the message object *)
Lemma task_send_rec who mbuf dst m :
  task_send who mbuf dst m = (modmem (put_msg mbuf m) ;; send_rec who SEND dst mbuf ;; ret tt).
Proof.
  unfold task_send, send_rec. extensionality st. change (RECEIVE =? SEND) with false. change (SEND =? BOTH) with false.
  change ((SEND =? RECEIVE) || (SEND =? SEND)) with true. unfold when, sendrec, bind, ret.
  destruct (modmem (put_msg mbuf m) st) as [u s|h]; [|done].
  destruct (sys_sendrec SEND dst mbuf who s) as [r s1|h]; [|done].
  destruct (getp who s1) as [p s2|h]; [|done]. by destruct (p_flags p =? 0).
Qed.

(** the body of the loop of [task_sys], for a message received into [mbuf]; the
    case GET_PID has no [break] *)
Definition sys_serve (mbuf : Z) (m : MESSAGE) : M kstate unit :=
  let src := source m in
  if type m =? GET_TICKS then
    st ← get;
    task_send TASK_SYS mbuf src (set_m3i1 (ticks st) m)
  else if type m =? GET_PID then
    task_send TASK_SYS mbuf src (set_type SYSCALL_RET (set_m3i2 src m)) ;;
    panic
  else panic.

(** ** A partner that waits *)

Record answers (st : kstate) (who mbuf dst : Z) : Prop := {
  an_k : k_reenter st = 0;
  an_flat : flat st;
  an_who : 0 <= who < NR_TASKS;
  an_ok : proc_ok who (proc_table st who);
  an_ready : p_flags (proc_table st who) = 0;
  an_dst : 0 <= dst < NR_ALL;
  an_ne : who <> dst;
  an_wait : p_flags (proc_table st dst) = RECEIVING;
  an_from : p_recvfrom (proc_table st dst) = ANY \/ p_recvfrom (proc_table st dst) = who;
  an_msg : p_msg (proc_table st dst) <> 0;
  an_to : p_sendto (proc_table st dst) = NO_TASK;
  an_buf : 0 < mbuf < 4294967296 }.

(** the state after the answer [m]: the partner is awake with the message *)
Definition delivered (who mbuf dst : Z) (m : MESSAGE) (st : kstate) : kstate :=
  set_memory (memcpy (la_of st dst (p_msg (proc_table st dst))) mbuf SIZEOF_MESSAGE
      (st32 mbuf who (put_msg mbuf m (memory st))))
    (set_proc_table (upd (proc_table st) dst (woken (proc_table st dst))) st).

Lemma la_task st who va : flat st -> 0 <= who < NR_TASKS -> 0 <= va < 4294967296 ->
  la_of st who va = va.
Proof.
  intros Hf Hw Hv. unfold la_of. unfold flat in Hf. rewrite Hf by clia. rewrite Z.add_0_r. by apply u32_id.
Qed.

Lemma deadlock_idle src d st : 0 <= d < NR_ALL -> has (p_flags (proc_table st d)) SENDING = false ->
  deadlock src d st = Ok 0 st.
Proof.
  intros Hd Hf. unfold deadlock. cbn [deadlock_loop]. rewrite (bind_run _ _ _ _ _ (getp_run d st Hd)).
  by rewrite Hf.
Qed.

Lemma kstate_table_ext st st' t m : proc_table st' = t -> memory st' = m ->
  p_proc_ready st' = p_proc_ready st -> same_rest st st' ->
  st' = set_memory m (set_proc_table t st).
Proof. intros <- <- Hr (Ht & Hk & Hp). destruct st, st'; cbn in *. by subst. Qed.

Lemma task_send_run who mbuf dst m st :
  answers st who mbuf dst -> task_send who mbuf dst m st = Ok tt (delivered who mbuf dst m st).
Proof.
  intros [Hk Hf Hw Hok Hr Hd Hne Hwt Hfr Hm Hto Hb].
  assert (Hw' : 0 <= who < NR_ALL) by clia.
  set (st1 := set_memory (put_msg mbuf m (memory st)) st).
  assert (Em : modmem (put_msg mbuf m) st = Ok tt st1) by reflexivity.
  unfold task_send. rewrite (bind_run _ _ _ _ _ Em).
  set (st2 := stamp who mbuf st1).
  assert (Ha : accepts (proc_table st2 dst) who = true).
  { unfold accepts, st2. cbn [proc_table stamp set_memory st1]. unfold st1. cbn [proc_table set_memory].
    rewrite Hwt. destruct Hfr as [-> | ->]; [done|]. by rewrite Z.eqb_refl, orb_true_r. }
  destruct (msg_deliver_runs who dst mbuf st2 Hw' Hd Hne Hf ltac:(lia) Hok Hr Hm Hwt Hto) as [st' E].
  pose proof E as E'. apply msg_deliver_Ok in E' as (_ & _ & Hmem & Et & _ & _ & Hpr & Hrest); [|done].
  assert (Es : st' = delivered who mbuf dst m st).
  { apply (kstate_table_ext st).
    - extensionality i. rewrite Et, upd_case. by case_decide.
    - assert (El : la_of st2 who mbuf = mbuf) by (apply la_task; [exact Hf|done|lia]).
      assert (E2 : memory st2 = st32 mbuf who (put_msg mbuf m (memory st))).
      { assert (El1 : la_of st1 who mbuf = mbuf) by (apply la_task; [exact Hf|done|lia]).
        unfold st2, stamp. rewrite El1. reflexivity. }
      rewrite Hmem, El, E2. reflexivity.
    - exact Hpr.
    - exact Hrest. }
  assert (Ec : sys_sendrec SEND dst mbuf who st1 = Ok 0 st').
  { rewrite (sys_sendrec_enter SEND dst mbuf who st1 Hf Hw' Hk (or_intror (or_intror Hd))).
    change (SEND =? SEND) with true. cbv iota. change (stamp who mbuf st1) with st2.
    assert (Es2 : msg_send who dst mbuf st2 = Ok 0 st').
    { unfold msg_send. rewrite bind_assert by (by apply negb_true_iff, Z.eqb_neq).
      rewrite (bind_run (deadlock who dst) _ st2 0 st2) by (apply deadlock_idle; [done|];
        change (p_flags (proc_table st2 dst)) with (p_flags (proc_table st dst)); by rewrite Hwt).
      change (negb (0 =? 0)) with false. cbv iota. rewrite (bind_run (ret tt) _ st2 tt st2 eq_refl).
      rewrite (bind_run _ _ _ _ _ (getp_run dst st2 Hd)), Ha. by rewrite (bind_run _ _ _ _ _ E). }
    by rewrite (bind_run _ _ _ _ _ Es2). }
  rewrite (bind_run _ _ _ _ _ Ec), (bind_run _ _ _ _ _ (getp_run who st' Hw')).
  replace (p_flags (proc_table st' who) =? 0) with true; [by rewrite Es|].
  symmetry. apply Z.eqb_eq. rewrite Et, decide_False by done. exact Hr.
Qed.

(** ** What the partner gets *)

Lemma put_msg_out a x m b : b < a \/ a + SIZEOF_MESSAGE <= b -> put_msg a x m b = m b.
Proof. unfold SIZEOF_MESSAGE. intros H. unfold put_msg, st64. by rewrite !st32_out by lia. Qed.

Lemma delivered_msg who mbuf dst m st :
  0 <= who < NR_ALL -> msg_ok m ->
  disjoint_msgs (la_of st dst (p_msg (proc_table st dst))) mbuf ->
  msg_at (memory (delivered who mbuf dst m st)) (la_of st dst (p_msg (proc_table st dst))) = set_source who m.
Proof.
  intros Hw Hok Hd. unfold delivered. cbn [memory set_memory]. rewrite msg_copied by exact Hd.
  rewrite msg_at_stamp by done. by rewrite msg_at_put.
Qed.

Lemma delivered_out who mbuf dst m st a :
  (a < mbuf \/ mbuf + SIZEOF_MESSAGE <= a) ->
  (a < la_of st dst (p_msg (proc_table st dst)) \/
   la_of st dst (p_msg (proc_table st dst)) + SIZEOF_MESSAGE <= a) ->
  memory (delivered who mbuf dst m st) a = memory st a.
Proof.
  intros H1 H2. unfold delivered. cbn [memory set_memory]. rewrite memcpy_out by exact H2.
  rewrite st32_out by (unfold SIZEOF_MESSAGE in *; lia). by apply put_msg_out.
Qed.

(** the partner leaves the queues as they are *)
Lemma delivered_inv q who mbuf dst m st :
  answers st who mbuf dst -> ipc_inv (proc_table st) q -> ipc_inv (proc_table (delivered who mbuf dst m st)) q.
Proof.
  intros [Hk Hf Hw Hok Hr Hd Hne Hwt Hfr Hm Hto Hb] Hinv.
  unfold delivered. cbn [proc_table set_memory set_proc_table].
  eapply (ipc_inv_wake (proc_table st) _ q dst); rewrite ?upd_eq; try done.
  - by rewrite Hwt.
  - intros i Hi. by rewrite upd_ne.
  - unfold woken. cbn. by rewrite Hwt.
Qed.

(** messages in byte memory are well-formed *)
Definition bytes_ok (m : mem) : Prop := forall a, 0 <= m a < 256.

Lemma ld32_range m a : bytes_ok m -> 0 <= ld32 m a < 4294967296.
Proof.
  intros H. unfold ld32. pose proof (H a). pose proof (H (a + 1)). pose proof (H (a + 2)).
  pose proof (H (a + 3)). lia.
Qed.
Lemma i32_range z : -2147483648 <= i32 z < 2147483648.
Proof. unfold i32. pose proof (Z.mod_pos_bound (z + 2147483648) 4294967296 ltac:(lia)). lia. Qed.
Lemma msg_at_ok m a : bytes_ok m -> msg_ok (msg_at m a).
Proof.
  intros H. unfold msg_ok, msg_at, ld32s, ld64; cbn.
  pose proof (ld32_range m (a + 24) H). pose proof (ld32_range m (a + 24 + 4) H).
  pose proof (ld32_range m (a + 32) H). pose proof (ld32_range m (a + 32 + 4) H).
  repeat split; try apply i32_range; try apply ld32_range; try done; lia.
Qed.
(** ... also when only the bytes of the message are known *)
Lemma msg_at_ok_part m a : (forall o, 0 <= o < SIZEOF_MESSAGE -> 0 <= m (a + o) < 256) -> msg_ok (msg_at m a).
Proof.
  intros H. set (m' := fun x => if (a <=? x) && (x <? a + SIZEOF_MESSAGE) then m x else 0).
  rewrite (msg_at_ext m m' a a).
  - apply msg_at_ok. intros x. unfold m'. destruct (_ && _) eqn:E; [|lia]. zbool.
    replace x with (a + (x - a)) by lia. apply H. lia.
  - intros o Ho. unfold m'. rewrite (proj2 (Z.leb_le _ _)), (proj2 (Z.ltb_lt _ _)) by lia. done.
Qed.

(** ** Properties *)

(** The system task answers GET_TICKS with the tick count, in the caller's
    message buffer, and the caller becomes ready; the memory outside the two
    message objects is unchanged. GET_PID is answered too, and then runs on into
    the panic of the default case: the machine stops, as for an unknown request. *)
Theorem systask_spec mbuf m st :
  answers st TASK_SYS mbuf (source m) -> msg_ok m -> -2147483648 <= ticks st < 2147483648 ->
  let la := la_of st (source m) (p_msg (proc_table st (source m))) in
  disjoint_msgs la mbuf ->
  (type m = GET_TICKS -> exists st', sys_serve mbuf m st = Ok tt st' /\
     RETVAL (msg_at (memory st') la) = ticks st /\ source (msg_at (memory st') la) = TASK_SYS /\
     p_flags (proc_table st' (source m)) = 0 /\
     (forall a, a < mbuf \/ mbuf + SIZEOF_MESSAGE <= a -> a < la \/ la + SIZEOF_MESSAGE <= a ->
        memory st' a = memory st a)) /\
  (type m <> GET_TICKS -> sys_serve mbuf m st = Halt HPanic).
Proof.
  intros Ha Hok Ht la Hd. unfold sys_serve. split; intros E.
  - rewrite E. change (GET_TICKS =? GET_TICKS) with true. cbv iota.
    rewrite (bind_run get _ st st st eq_refl), task_send_run by done.
    eexists. split; [reflexivity|]. unfold la. rewrite delivered_msg; [|clia| |done].
    + split; [done|]. split; [done|]. split.
      * unfold delivered. cbn [proc_table set_memory set_proc_table]. rewrite upd_eq.
        unfold woken. cbn. by rewrite (an_wait _ _ _ _ Ha).
      * intros a H1 H2. by apply delivered_out.
    + destruct Hok as (?&?&?&?&?&?&?&?&?&?). repeat split; cbn; try done; lia.
  - rewrite (proj2 (Z.eqb_neq _ _) E). destruct (type m =? GET_PID); [|done].
    by rewrite (bind_run _ _ _ _ _ (task_send_run _ _ _ _ _ Ha)).
Qed.
