(* ===== verification/Boot.v ===== *)
(** * Starting up (kernel/protect.c: init_prot; lib/klib.c: get_kernel_map;
    kernel/main.c: kernel_main)

    [init_prot] fills the interrupt table, gives every process table entry its
    LDT descriptor and sets the TSS descriptor. [get_kernel_map] reads the
    kernel's ELF file, which the loader left in memory, for the extent of the
    kernel. [kernel_main] fills [proc_table] and enters the first task. Screen
    output is not modelled; the entry points of the assembly code and the
    addresses the linker assigns are parameters. *)
From Stdlib Require Import String Ascii.
From S2P Require Import Prelude Const CLib Protect Proc Sched Ipc IpcInv IpcStep IpcRun.
From S2P Require Import IpcThm IpcSpec.

(** ** Constants of protect.h, proc.h and config.h *)
Definition DA_LDT : Z := 0x82.
Definition DA_386TSS : Z := 0x89.
Definition DA_386IGate : Z := 0x8E.
Definition PRIVILEGE_KRNL : Z := 0.
Definition PRIVILEGE_TASK : Z := 1.
Definition SELECTOR_KERNEL_DS : Z := 16.
Definition SELECTOR_KERNEL_GS : Z := 24 + 3.
Definition SA_RPL_MASK : Z := 0xfffc.
Definition SA_RPL1 : Z := 1.
Definition SA_RPL3 : Z := 3.
Definition SA_TIL : Z := 4.
Definition INDEX_TSS : Z := 4.
Definition INDEX_LDT_FIRST : Z := 5.
Definition GDT_SIZE : Z := 128.
Definition LDT_SIZE : Z := 256.
Definition INT_VEC_IRQ0 : Z := 0x20.
Definition INT_VEC_IRQ8 : Z := 0x28.
Definition INT_VECTOR_SYS_CALL : Z := 0x90.
Definition STACK_SIZE : Z := 0xA000.
Definition STACK_SIZE_TOTAL : Z := 7 * STACK_SIZE.
Definition BOOT_PARAM_ADDR : Z := 0x900.
Definition BOOT_PARAM_MAGIC : Z := 0xB007.
Definition SIZEOF_DESCRIPTOR : Z := 8.
Definition SIZEOF_TSS : Z := 104.
(** [sizeof(PROCESS)] and the offset of [ldts] in it *)
Definition SIZEOF_PROCESS : Z := 2440.
Definition OFFSET_LDTS : Z := 74.

(** ** [init_prot] *)

(** the entry points of kernel.asm *)
Inductive entry :=
| divide_error | single_step_exception | nmi | breakpoint_exception | overflow | bounds_check
| inval_opcode | copr_not_available | double_fault | copr_seg_overrun | inval_tss
| segment_not_present | stack_exception | general_protection | page_fault | copr_error
| hwint (irq : Z) | sys_call.

(** the calls of [init_idt_desc], in order: vector, handler, privilege *)
Definition idt_entries : list (Z * entry * Z) :=
  [ (0x0, divide_error, PRIVILEGE_KRNL); (0x1, single_step_exception, PRIVILEGE_KRNL);
    (0x2, nmi, PRIVILEGE_KRNL); (0x3, breakpoint_exception, PRIVILEGE_USER);
    (0x4, overflow, PRIVILEGE_USER); (0x5, bounds_check, PRIVILEGE_KRNL);
    (0x6, inval_opcode, PRIVILEGE_KRNL); (0x7, copr_not_available, PRIVILEGE_KRNL);
    (0x8, double_fault, PRIVILEGE_KRNL); (0x9, copr_seg_overrun, PRIVILEGE_KRNL);
    (0xA, inval_tss, PRIVILEGE_KRNL); (0xB, segment_not_present, PRIVILEGE_KRNL);
    (0xC, stack_exception, PRIVILEGE_KRNL); (0xD, general_protection, PRIVILEGE_KRNL);
    (0xE, page_fault, PRIVILEGE_KRNL); (0x10, copr_error, PRIVILEGE_KRNL);
    (INT_VEC_IRQ0 + 0, hwint 0, PRIVILEGE_KRNL); (INT_VEC_IRQ0 + 1, hwint 1, PRIVILEGE_KRNL);
    (INT_VEC_IRQ0 + 2, hwint 2, PRIVILEGE_KRNL); (INT_VEC_IRQ0 + 3, hwint 3, PRIVILEGE_KRNL);
    (INT_VEC_IRQ0 + 4, hwint 4, PRIVILEGE_KRNL); (INT_VEC_IRQ0 + 5, hwint 5, PRIVILEGE_KRNL);
    (INT_VEC_IRQ0 + 6, hwint 6, PRIVILEGE_KRNL); (INT_VEC_IRQ0 + 7, hwint 7, PRIVILEGE_KRNL);
    (INT_VEC_IRQ8 + 0, hwint 8, PRIVILEGE_KRNL); (INT_VEC_IRQ8 + 1, hwint 9, PRIVILEGE_KRNL);
    (INT_VEC_IRQ8 + 2, hwint 10, PRIVILEGE_KRNL); (INT_VEC_IRQ8 + 3, hwint 11, PRIVILEGE_KRNL);
    (INT_VEC_IRQ8 + 4, hwint 12, PRIVILEGE_KRNL); (INT_VEC_IRQ8 + 5, hwint 13, PRIVILEGE_KRNL);
    (INT_VEC_IRQ8 + 6, hwint 14, PRIVILEGE_KRNL); (INT_VEC_IRQ8 + 7, hwint 15, PRIVILEGE_KRNL);
    (INT_VECTOR_SYS_CALL, sys_call, PRIVILEGE_USER) ].

Record TSS := mkTss { ss0 : Z; iobase : Z }.

(** the tables [init_prot] fills *)
Record prot := mkProt {
  gdt : arr DESCRIPTOR;
  idt : arr GATE;
  tss : TSS;
  procs : arr PROCESS }.

Definition zero_regs : STACK_FRAME := mkRegs 0 0 0 0 0 0 0 0 0 0 0 0 0 0 0 0 0 0.
(** an entry after [memset(p_proc, 0, sizeof(PROCESS))] *)
Definition zero_proc : PROCESS :=
  mkProc zero_regs 0 (fun _ => zero_desc) 0 0 (replicate 16 0) 0 0 0 0 0 None None 0 0 (fun _ => None).

Section init_prot.
Context (addr : entry -> Z) (proc_table_addr tss_addr : Z).

(** [vir2phy(seg2addr(SELECTOR_KERNEL_DS), va)] *)
Definition vir2phy (s : prot) (va : Z) : Z :=
  u32 (seg2addr (gdt s (Z.shiftr SELECTOR_KERNEL_DS 3)) + u32 va).

Definition ldts_addr (i : Z) : Z := proc_table_addr + i * SIZEOF_PROCESS + OFFSET_LDTS.

(** the calls of [init_idt_desc] *)
Definition set_gate (s : prot) (e : Z * entry * Z) : prot :=
  let '(v, h, priv) := e in
  mkProt (gdt s) (upd (idt s) v (init_idt_desc DA_386IGate (addr h) priv)) (tss s) (procs s).
Definition init_idt (s : prot) : prot := foldl set_gate s idt_entries.

(** the loop that gives every process its LDT descriptor *)
Fixpoint init_ldts (n : nat) (i ldt_index : Z) (s : prot) : prot :=
  match n with
  | O => s
  | S n' =>
      let p := set_ldt_sel (u16 (Z.shiftl ldt_index 3)) zero_proc in
      let d := init_descriptor (vir2phy s (ldts_addr i)) (SIZEOF_DESCRIPTOR * LDT_SIZE - 1) DA_LDT in
      init_ldts n' (i + 1) (ldt_index + 1)
        (mkProt (upd (gdt s) ldt_index d) (idt s) (tss s) (upd (procs s) i p))
  end.

Definition init_tss (s : prot) : prot :=
  mkProt (upd (gdt s) INDEX_TSS (init_descriptor (vir2phy s tss_addr) (SIZEOF_TSS - 1) DA_386TSS))
    (idt s) (mkTss SELECTOR_KERNEL_DS SIZEOF_TSS) (procs s).

Definition init_prot (s : prot) : prot :=
  init_tss (init_ldts (Z.to_nat NR_ALL) 0 INDEX_LDT_FIRST (init_idt s)).
End init_prot.

(** ** [get_boot_param], [get_kernel_map] *)

Definition ld16 (m : mem) (a : Z) : Z := m a + 256 * m (a + 1).
(** the bytes of [ELFMAG] *)
Definition ELFMAG : list Z := [0x7f; 0x45; 0x4c; 0x46].
Definition PT_LOAD : Z := 1.

(** [memcmp(file, ELFMAG, SELFMAG) == 0] *)
Definition is_elf (m : mem) (file : Z) : bool :=
  negb (file =? 0) && bool_decide ((fun i => m (file + i)) <$> seqZ 0 4 = ELFMAG).

(** [p[BI_MEM_SIZE]] and [p[BI_KERNEL_FILE]] *)
Definition get_boot_param : M kstate (Z * Z) :=
  st ← get;
  let m := memory st in
  assert_ (ld32s m BOOT_PARAM_ADDR =? BOOT_PARAM_MAGIC) ;;
  let kernel_file := ld32 m (BOOT_PARAM_ADDR + 8) in
  assert_ (is_elf m kernel_file) ;;
  ret (ld32s m (BOOT_PARAM_ADDR + 4), kernel_file).

(** the fields of the ELF header and of program header [i]; [e_shnum] bounds the
    loop over the program headers *)
Definition e_phoff (m : mem) (f : Z) : Z := ld32 m (f + 28).
Definition e_phentsize (m : mem) (f : Z) : Z := ld16 m (f + 42).
Definition e_phnum (m : mem) (f : Z) : Z := ld16 m (f + 44).
Definition e_shnum (m : mem) (f : Z) : Z := ld16 m (f + 48).
Definition phdr (m : mem) (f i : Z) : Z := f + e_phoff m f + i * e_phentsize m f.
Definition p_type (m : mem) (ph : Z) : Z := ld32 m ph.
Definition p_vaddr (m : mem) (ph : Z) : Z := ld32 m (ph + 8).
Definition p_memsz (m : mem) (ph : Z) : Z := ld32 m (ph + 20).

Fixpoint kernel_map_loop (n : nat) (i : Z) (m : mem) (f b t : Z) : Z * Z :=
  match n with
  | O => (b, t)
  | S n' =>
      let ph := phdr m f i in
      if p_type m ph =? PT_LOAD then
        let bottom := p_vaddr m ph in
        let top := u32 (p_vaddr m ph + p_memsz m ph) in
        kernel_map_loop n' (i + 1) m f (if bottom <? b then bottom else b) (if t <? top then top else t)
      else kernel_map_loop n' (i + 1) m f b t
  end.

(** [Some (base, limit)]; [None]: the return value -1 *)
Definition get_kernel_map : M kstate (option (Z * Z)) :=
  bp ← get_boot_param;
  st ← get;
  let '(_, f) := bp in
  let m := memory st in
  if negb (is_elf m f) then ret None
  else
    let '(b, t) := kernel_map_loop (Z.to_nat (e_shnum m f)) 0 m f 0xffffffff 0 in
    assert_ (b <? t) ;;
    ret (Some (b, u32 (t - b - 1))).

(** ** [kernel_main] *)

Definition bytes_of (s : string) : list Z :=
  (fun c => Z.of_N (N_of_ascii c)) <$> list_ascii_of_string s.

(** the names in [task_table] and [user_procs] *)
Definition task_name (i : Z) : list Z :=
  if i =? 0 then bytes_of "task_sys" else if i =? 1 then bytes_of "task_tty"
  else if i =? 2 then bytes_of "task_hd" else if i =? 3 then bytes_of "task_fs"
  else if i =? 4 then bytes_of "task_mm" else if i =? 5 then bytes_of "INIT"
  else bytes_of "testA".

Section kernel_main.
(** the GDT, the addresses of the functions in [task_table] and [user_procs], and
    the address of [task_stack] *)
Context (gd : arr DESCRIPTOR) (initial_eip : Z -> Z) (task_stack : Z).

Definition set_attrl (x : Z) (d : DESCRIPTOR) : DESCRIPTOR :=
  mkDesc (limit_low d) (base_low d) (base_mid d) x (limit_high_attr2 d) (base_high d).

(** the local descriptors of process [i]; [base] and [limit] are INIT's *)
Definition init_ldt (i base limit : Z) (l : arr DESCRIPTOR) : arr DESCRIPTOR :=
  let privilege := if i <? NR_TASKS then PRIVILEGE_TASK else PRIVILEGE_USER in
  if i =? NR_TASKS then
    let lim := u32 (Z.shiftr (i32 (base + limit)) LIMIT_4K_SHIFT) in
    let attrs ty := Z.lor (Z.lor (Z.lor DA_32 ty) (Z.shiftl privilege 5)) DA_LIMIT_4K in
    upd (upd l INDEX_LDT_C (init_descriptor 0 lim (attrs DA_C)))
      INDEX_LDT_RW (init_descriptor 0 lim (attrs DA_DRW))
  else
    upd (upd l 0 (set_attrl (Z.lor DA_C (Z.shiftl privilege 5)) (gd (Z.shiftr SELECTOR_KERNEL_CS 3))))
      1 (set_attrl (Z.lor DA_DRW (Z.shiftl privilege 5)) (gd (Z.shiftr SELECTOR_KERNEL_DS 3))).

(** the registers of process [i], with its stack at [p_stack] *)
Definition init_regs (i p_stack : Z) (r : STACK_FRAME) : STACK_FRAME :=
  let rpl := if i <? NR_TASKS then SA_RPL1 else SA_RPL3 in
  let data := Z.lor (Z.lor 8 rpl) SA_TIL in
  mkRegs (Z.lor (Z.land SELECTOR_KERNEL_GS SA_RPL_MASK) rpl) data data data
    (edi r) (esi r) (ebp r) (kernel_esp r) (ebx r) (edx r) (ecx r) (eax r) (retaddr r)
    (initial_eip i) (Z.lor rpl SA_TIL) (if i <? NR_TASKS then 0x1202 else 0x202) p_stack data.

Definition init_entry (i p_stack base limit : Z) (p : PROCESS) : PROCESS :=
  let prio := if i <? NR_TASKS then 15 else 5 in
  mkProc (init_regs i p_stack (regs p)) (ldt_sel p) (init_ldt i base limit (ldts p)) prio prio
    (p_name p) 0 0 NO_TASK NO_TASK 0 None None NO_TASK (exit_status p)
    (fun j => if (0 <=? j) && (j <? NR_FILES) then None else filp p j).

(** the loop over the process table; [false]: the early return *)
Fixpoint kernel_main_loop (n : nat) (i p_stack : Z) : M kstate bool :=
  match n with
  | O => ret true
  | S n' =>
      if NR_TASKS + NR_NATIVE_PROCS <=? i then
        modp i (set_p_flags FREE_SLOT) ;; kernel_main_loop n' (i + 1) p_stack
      else
        modp i (fun p => set_p_name (overwrite (task_name i ++ [0]) (p_name p)) p) ;;
        bl ← (if i =? NR_TASKS then get_kernel_map else ret (Some (0, 0)));
        match bl with
        | None => ret false
        | Some (base, limit) =>
            modp i (init_entry i p_stack base limit) ;;
            kernel_main_loop n' (i + 1) (p_stack - STACK_SIZE)
        end
  end.

(** the state in which [restart] enters the first process *)
Definition kernel_main : M kstate unit :=
  ok ← kernel_main_loop (Z.to_nat NR_ALL) 0 (task_stack + STACK_SIZE_TOTAL);
  if negb ok then ret tt
  else modify (fun st => mkK (proc_table st) 0 0 0 (key_pressed st) (memory st)).

(** ** The process table [kernel_main] leaves *)

Definition booted (base limit : Z) (t : arr PROCESS) (j : Z) : PROCESS :=
  if NR_TASKS + NR_NATIVE_PROCS <=? j then set_p_flags FREE_SLOT (t j)
  else init_entry j (task_stack + STACK_SIZE_TOTAL - j * STACK_SIZE)
    (if j =? NR_TASKS then base else 0) (if j =? NR_TASKS then limit else 0)
    (set_p_name (overwrite (task_name j ++ [0]) (p_name (t j))) (t j)).

Lemma get_kernel_map_mem st st' r :
  memory st' = memory st -> get_kernel_map st = Ok r st -> get_kernel_map st' = Ok r st'.
Proof.
  intros Hm. unfold get_kernel_map, get_boot_param, bind, get, assert_, ret, stop. rewrite Hm.
  destruct (_ =? _); [|done]. cbv beta iota.
  destruct (is_elf _ _) eqn:E; [|done]. cbv beta iota. rewrite Hm, E. simpl.
  destruct (kernel_map_loop _ _ _ _ _ _) as [b t]. destruct (b <? t); [|done].
  by intros [= <-].
Qed.

Lemma kernel_main_loop_run base limit n i st :
  0 <= i -> i + Z.of_nat n = NR_ALL -> get_kernel_map st = Ok (Some (base, limit)) st ->
  exists t', kernel_main_loop n i (task_stack + STACK_SIZE_TOTAL - Z.min i 7 * STACK_SIZE) st
      = Ok true (set_proc_table t' st) /\
    forall j, t' j = if decide (i <= j < NR_ALL) then booted base limit (proc_table st) j
                     else proc_table st j.
Proof.
  revert i st. induction n as [|n IH]; intros i st Hi Hn Hmap; cbn [kernel_main_loop].
  { exists (proc_table st). split; [by destruct st|]. intros j. case_decide; [lia|done]. }
  assert (Hit : in_table i = true) by (apply in_table_iff; lia).
  assert (Hstep : forall t1, (forall j, t1 j = if decide (j = i) then booted base limit (proc_table st) i
      else proc_table st j) ->
    exists t', kernel_main_loop n (i + 1) (task_stack + STACK_SIZE_TOTAL - Z.min (i + 1) 7 * STACK_SIZE)
      (set_proc_table t1 st) = Ok true (set_proc_table t' st) /\
    forall j, t' j = if decide (i <= j < NR_ALL) then booted base limit (proc_table st) j
                     else proc_table st j).
  { intros t1 Ht1. destruct (IH (i + 1) (set_proc_table t1 st)) as (t' & E & Ht); [lia|lia| |].
    { by apply (get_kernel_map_mem st). }
    exists t'. split; [by rewrite E|]. intros j. rewrite Ht. cbn [proc_table set_proc_table].
    unfold booted at 1. rewrite !Ht1.
    destruct (decide (j = i)) as [->|Hne]; repeat case_decide; try lia; done. }
  clear IH. unfold booted in Hstep at 1. destruct (NR_TASKS + NR_NATIVE_PROCS <=? i) eqn:E.
  - zbool. rewrite (bind_run _ _ _ _ _ (modp_run i _ st Hit)).
    replace (Z.min i 7) with (Z.min (i + 1) 7) by clia. apply Hstep. intros j. apply upd_case.
  - zbool. rewrite (bind_run _ _ _ _ _ (modp_run i _ st Hit)).
    set (st1 := set_proc_table _ st).
    assert (Hbl : (if i =? NR_TASKS then get_kernel_map else ret (Some (0, 0))) st1 =
      Ok (Some (if i =? NR_TASKS then base else 0, if i =? NR_TASKS then limit else 0)) st1).
    { destruct (i =? NR_TASKS); [|done]. by apply (get_kernel_map_mem st). }
    rewrite (bind_run _ _ _ _ _ Hbl), (bind_run _ _ _ _ _ (modp_run i _ st1 Hit)).
    replace (Z.min i 7) with i in * by clia. replace (Z.min (i + 1) 7) with (i + 1) in * by clia.
    replace (task_stack + STACK_SIZE_TOTAL - i * STACK_SIZE - STACK_SIZE)
      with (task_stack + STACK_SIZE_TOTAL - (i + 1) * STACK_SIZE) by lia.
    apply (Hstep (upd (proc_table st1) i _)). intros j. rewrite upd_case. unfold st1. simpl.
    case_decide; [by rewrite upd_eq|by rewrite upd_ne].
Qed.
End kernel_main.

(** ** The tables [init_prot] leaves *)

Section init_prot_facts.
Context (addr : entry -> Z) (proc_table_addr tss_addr : Z).

Lemma set_gates_other l s :
  gdt (foldl (set_gate addr) s l) = gdt s /\ procs (foldl (set_gate addr) s l) = procs s.
Proof.
  revert s. induction l as [|[[v h] priv] l IH]; intros s; [done|].
  cbn [foldl]. by destruct (IH (set_gate addr s (v, h, priv))) as [-> ->].
Qed.

(** the vectors are distinct, so every gate keeps what its call stored *)
Lemma set_gates_in l s v h priv :
  NoDup (fst <$> (fst <$> l)) -> (v, h, priv) ∈ l ->
  idt (foldl (set_gate addr) s l) v = init_idt_desc DA_386IGate (addr h) priv.
Proof.
  revert s. induction l as [|[[v1 h1] p1] l IH] using rev_ind; intros s Hn Hin; [set_solver|].
  rewrite foldl_app. rewrite !fmap_app in Hn. apply NoDup_app in Hn as (Hn & Hd & _).
  cbn. rewrite upd_case. apply elem_of_app in Hin as [Hin|Hin].
  - case_decide as Hv; [|by apply IH]. subst v. exfalso. apply (Hd v1); [|set_solver].
    change v1 with (fst (fst (v1, h, priv))). by do 2 apply list_elem_of_fmap_2.
  - apply list_elem_of_singleton in Hin as [= <- <- <-]. by rewrite decide_True.
Qed.

Lemma idt_entries_nodup : NoDup (fst <$> (fst <$> idt_entries)).
Proof. apply (bool_decide_unpack _). by vm_compute. Qed.

Lemma init_idt_gates s v h priv : (v, h, priv) ∈ idt_entries ->
  idt (init_idt addr s) v = init_idt_desc DA_386IGate (addr h) priv.
Proof. apply set_gates_in, idt_entries_nodup. Qed.

Lemma init_ldts_spec n i s :
  0 <= i -> forall j,
  procs (init_ldts proc_table_addr n i (INDEX_LDT_FIRST + i) s) j =
    (if decide (i <= j < i + Z.of_nat n)
     then set_ldt_sel (u16 (Z.shiftl (INDEX_LDT_FIRST + j) 3)) zero_proc else procs s j) /\
  gdt (init_ldts proc_table_addr n i (INDEX_LDT_FIRST + i) s) j =
    (if decide (INDEX_LDT_FIRST + i <= j < INDEX_LDT_FIRST + i + Z.of_nat n)
     then init_descriptor (vir2phy s (ldts_addr proc_table_addr (j - INDEX_LDT_FIRST)))
            (SIZEOF_DESCRIPTOR * LDT_SIZE - 1) DA_LDT
     else gdt s j) /\
  idt (init_ldts proc_table_addr n i (INDEX_LDT_FIRST + i) s) j = idt s j.
Proof.
  revert i s. induction n as [|n IH]; intros i s Hi j; cbn [init_ldts].
  { repeat case_decide; try lia. done. }
  rewrite <- Z.add_assoc. set (s1 := mkProt _ _ _ _).
  destruct (IH (i + 1) s1 ltac:(lia) j) as (-> & -> & ->).
  assert (Hv : forall a, vir2phy s1 a = vir2phy s a).
  { intros a. unfold vir2phy, s1. change (Z.shiftr SELECTOR_KERNEL_DS 3) with 2. cbn [gdt].
    by rewrite upd_ne by (unfold INDEX_LDT_FIRST; lia). }
  rewrite Hv. unfold s1. cbn [procs gdt idt]. rewrite !upd_case.
  split; [|split; [|done]].
  - repeat case_decide; try lia; try done. by subst.
  - repeat case_decide; try lia; try done. subst. do 3 f_equal. lia.
Qed.

Lemma init_prot_tables s j :
  let s' := init_prot addr proc_table_addr tss_addr s in
  (0 <= j < NR_ALL -> procs s' j = set_ldt_sel (u16 (Z.shiftl (INDEX_LDT_FIRST + j) 3)) zero_proc) /\
  (0 <= j < NR_ALL -> gdt s' (INDEX_LDT_FIRST + j) =
     init_descriptor (vir2phy s (ldts_addr proc_table_addr j)) (SIZEOF_DESCRIPTOR * LDT_SIZE - 1) DA_LDT) /\
  (0 <= j < INDEX_TSS -> gdt s' j = gdt s j) /\
  idt s' j = idt (init_idt addr s) j.
Proof.
  intros s'. subst s'. unfold init_prot.
  pose proof (init_ldts_spec (Z.to_nat NR_ALL) 0 (init_idt addr s) ltac:(lia)) as H.
  rewrite Z.add_0_r, Z2Nat.id in H by clia. rewrite Z.add_0_l in H.
  revert H. generalize (init_ldts proc_table_addr (Z.to_nat NR_ALL) 0 INDEX_LDT_FIRST (init_idt addr s)).
  intros s1 H. unfold init_tss. cbn [procs gdt idt].
  assert (Hg : gdt (init_idt addr s) = gdt s) by apply set_gates_other.
  assert (Hv : forall a, vir2phy (init_idt addr s) a = vir2phy s a)
    by (intros a; unfold vir2phy; by rewrite Hg).
  split; [|split; [|split]].
  - intros Hj. destruct (H j) as (-> & _). case_decide; [done|lia].
  - intros Hj. rewrite upd_ne by (unfold INDEX_TSS, INDEX_LDT_FIRST; lia).
    destruct (H (INDEX_LDT_FIRST + j)) as (_ & -> & _). case_decide; [|lia].
    rewrite Hv. do 3 f_equal. lia.
  - intros Hj. rewrite upd_ne by lia. destruct (H j) as (_ & -> & _). rewrite Hg.
    case_decide; [unfold INDEX_TSS, INDEX_LDT_FIRST in *; lia|done].
  - by destruct (H j) as (_ & _ & ->).
Qed.
End init_prot_facts.

(** ** Properties *)

Lemma ldt_sel_index j : 0 <= j < NR_ALL ->
  Z.shiftr (u16 (Z.shiftl (INDEX_LDT_FIRST + j) 3)) 3 = INDEX_LDT_FIRST + j.
Proof.
  intros Hj. unfold u16, INDEX_LDT_FIRST. rewrite Z.shiftl_mul_pow2, Z.shiftr_div_pow2 by lia.
  rewrite Z.mod_small by clia. by rewrite Z.div_mul.
Qed.

Lemma gate_offset_init ty h priv : 0 <= h < 4294967296 -> gate_offset (init_idt_desc ty h priv) = h.
Proof.
  intros Hh. unfold gate_offset, init_idt_desc. cbn [offset_high offset_low].
  rewrite !land_ffff, shiftr_div, Z.shiftl_mul_pow2 by lia.
  change (2 ^ 16) with 65536. Z.div_mod_to_equations. lia.
Qed.

(** After [init_prot] the selector [ldt_sel] of every process names a
    descriptor in the GDT that locates the process's own table [ldts], of 256
    entries, with the LDT type; and every interrupt vector in use leads to its
    handler in ring 0, callable from ring 3 exactly for the breakpoint, overflow
    and system call vectors. *)
Theorem init_prot_spec addr proc_table_addr tss_addr s :
  (forall h, 0 <= addr h < 4294967296) ->
  seg2addr (gdt s (Z.shiftr SELECTOR_KERNEL_DS 3)) = 0 ->
  0 <= proc_table_addr -> proc_table_addr + NR_ALL * SIZEOF_PROCESS < 4294967296 ->
  let s' := init_prot addr proc_table_addr tss_addr s in
  (forall i, 0 <= i < NR_ALL ->
     let d := gdt s' (Z.shiftr (ldt_sel (procs s' i)) 3) in
     seg2addr d = ldts_addr proc_table_addr i /\
     desc_limit d = SIZEOF_DESCRIPTOR * LDT_SIZE - 1 /\ attrl d = DA_LDT) /\
  (forall v h priv, (v, h, priv) ∈ idt_entries ->
     gate_offset (idt s' v) = addr h /\ selector (idt s' v) = SELECTOR_KERNEL_CS /\
     (Z.shiftr (attr (idt s' v)) 5 = Z.lor 4 PRIVILEGE_USER <->
      v = 0x3 \/ v = 0x4 \/ v = INT_VECTOR_SYS_CALL)).
Proof.
  intros Ha Hds Hp0 Hp1 s'. split.
  - intros i Hi d.
    destruct (init_prot_tables addr proc_table_addr tss_addr s i) as (Hp & Hg & _).
    assert (Hd : d = init_descriptor (vir2phy s (ldts_addr proc_table_addr i))
      (SIZEOF_DESCRIPTOR * LDT_SIZE - 1) DA_LDT).
    { unfold d, s'. rewrite Hp by done. cbn [ldt_sel set_ldt_sel]. rewrite ldt_sel_index by done. auto. }
    assert (Hb : vir2phy s (ldts_addr proc_table_addr i) = ldts_addr proc_table_addr i).
    { assert (0 <= ldts_addr proc_table_addr i < 4294967296)
        by (unfold ldts_addr, SIZEOF_PROCESS, OFFSET_LDTS in *; clia).
      unfold vir2phy. rewrite Hds, Z.add_0_l, (u32_id (ldts_addr _ _)) by done. by apply u32_id. }
    rewrite Hd, Hb. clear Hd Hb Hp Hg d s'. split; [|split; [|reflexivity]].
    + rewrite seg2addr_init. apply u32_id. unfold ldts_addr, SIZEOF_PROCESS, OFFSET_LDTS in *. clia.
    + apply desc_limit_init. unfold SIZEOF_DESCRIPTOR, LDT_SIZE. lia.
  - intros v h priv Hin.
    destruct (init_prot_tables addr proc_table_addr tss_addr s v) as (_ & _ & _ & Hi).
    unfold s'. rewrite Hi, (init_idt_gates _ _ v h priv) by done.
    clear Hi s'. split; [by apply gate_offset_init|]. split; [reflexivity|].
    unfold idt_entries in Hin. cbn [attr init_idt_desc].
    repeat (apply elem_of_cons in Hin as [[= -> -> ->]|Hin]; [by vm_compute; intuition|]). set_solver.
Qed.

Lemma kernel_map_loop_spec n i m f b t :
  let '(b', t') := kernel_map_loop n i m f b t in
  b' <= b /\ t <= t' /\
  (forall j, i <= j < i + Z.of_nat n -> p_type m (phdr m f j) = PT_LOAD ->
    b' <= p_vaddr m (phdr m f j) /\
    u32 (p_vaddr m (phdr m f j) + p_memsz m (phdr m f j)) <= t') /\
  (0 <= b -> (forall a, 0 <= m a) -> 0 <= b') /\ (t < 4294967296 -> t' < 4294967296).
Proof.
  revert i b t. induction n as [|n IH]; intros i b t; cbn [kernel_map_loop].
  { repeat split; try lia; intros; lia. }
  destruct (p_type m (phdr m f i) =? PT_LOAD) eqn:E.
  - set (lo := p_vaddr m (phdr m f i)). set (hi := u32 (lo + p_memsz m (phdr m f i))).
    assert (Hlo : (if lo <? b then lo else b) = Z.min lo b) by (destruct (lo <? b) eqn:?; zbool; lia).
    assert (Hhi : (if t <? hi then hi else t) = Z.max hi t) by (destruct (t <? hi) eqn:?; zbool; lia).
    rewrite Hlo, Hhi. specialize (IH (i + 1) (Z.min lo b) (Z.max hi t)).
    destruct (kernel_map_loop _ _ _ _ _ _) as [b' t']. destruct IH as (H1 & H2 & H3 & H4 & H5).
    split; [lia|]. split; [lia|]. split; [|split].
    + intros j Hj Ht. destruct (decide (j = i)) as [->|]; [|apply H3; [lia|done]].
      fold lo hi. lia.
    + intros Hb Hm. apply H4; [|done].
      assert (0 <= lo) by (apply ld32_pos; done). lia.
    + intros Ht. apply H5. pose proof (u32_range (lo + p_memsz m (phdr m f i))). fold hi in H. lia.
  - specialize (IH (i + 1) b t). destruct (kernel_map_loop _ _ _ _ _ _) as [b' t'].
    destruct IH as (H1 & H2 & H3 & H4 & H5). split; [done|]. split; [done|]. split; [|done].
    intros j Hj Ht. destruct (decide (j = i)) as [->|]; [|apply H3; [lia|done]]. by zbool.
Qed.

(** The extent [get_kernel_map] computes covers every loadable segment among
    the program headers it looks at (the first [e_shnum] ones): each starts at or
    above the base and ends within the limit. *)
Theorem kernel_map_covers st b l st' i :
  (forall a, 0 <= memory st a < 256) ->
  get_kernel_map st = Ok (Some (b, l)) st' ->
  let m := memory st in let f := ld32 m (BOOT_PARAM_ADDR + 8) in let ph := phdr m f i in
  0 <= i < e_shnum m f -> p_type m ph = PT_LOAD -> p_vaddr m ph + p_memsz m ph < 4294967296 ->
  b <= p_vaddr m ph /\ p_vaddr m ph + p_memsz m ph <= b + l + 1.
Proof.
  intros Hm H m f ph Hi Ht Hov. unfold get_kernel_map, get_boot_param in H.
  apply bind_Ok in H as ([z file] & s1 & E & H).
  apply bind_Ok in E as (? & s2 & E & E'). injection E as <- <-.
  apply bind_Ok in E' as (? & s3 & E & E'). apply assert_Ok in E as [_ ->].
  apply bind_Ok in E' as (? & s4 & E & E'). apply assert_Ok in E as [_ ->].
  injection E' as _ <- <-. apply bind_Ok in H as (? & s5 & E & H). injection E as <- <-.
  destruct (negb (is_elf _ _)); [done|]. fold m f in H.
  pose proof (kernel_map_loop_spec (Z.to_nat (e_shnum m f)) 0 m f 0xffffffff 0) as Hl.
  destruct (kernel_map_loop _ _ _ _ _ _) as [b' t'].
  apply bind_Ok in H as (? & s6 & E & H). apply assert_Ok in E as [Hbt ->]. zbool.
  injection H as <- <- _. destruct Hl as (H1 & H2 & H3 & H4 & H5).
  destruct (H3 i) as [H6 H7]; [lia|done|]. fold ph in H6, H7.
  assert (Hp : forall a, 0 <= ld32 m a) by (intros a; apply ld32_pos; apply Hm).
  assert (0 <= b') by (apply H4; [lia|apply Hm]).
  pose proof (Hp (ph + 8)) as Hva. pose proof (Hp (ph + 20)) as Hms.
  fold (p_vaddr m ph) in Hva. fold (p_memsz m ph) in Hms.
  rewrite u32_id in H7 by lia. rewrite u32_id by lia. lia.
Qed.

(** a process that [kernel_main] starts *)
Lemma booted_entry gd eip stk base limit t j :
  0 <= j < NR_TASKS + NR_NATIVE_PROCS ->
  let p := booted gd eip stk base limit t j in
  p_flags p = 0 /\ p_msg p = 0 /\ p_recvfrom p = NO_TASK /\ p_sendto p = NO_TASK /\
  has_int_msg p = 0 /\ q_sending p = None /\ next_sending p = None /\ 0 < priority p.
Proof.
  intros Hj. unfold booted. rewrite (proj2 (Z.leb_gt _ _)) by lia. cbn.
  repeat split. by destruct (j <? NR_TASKS).
Qed.

Lemma booted_inv gd eip stk base limit t t' :
  (forall j, 0 <= j < NR_ALL -> q_sending (t j) = None) ->
  (forall j, 0 <= j < NR_ALL -> t' j = booted gd eip stk base limit t j) ->
  ipc_inv t' (fun _ => []).
Proof.
  intros Ht Ht'.
  assert (Hc : forall j, 0 <= j < NR_ALL -> p_flags (t' j) = 0 \/ p_flags (t' j) = FREE_SLOT).
  { intros j Hj. rewrite Ht' by done. destruct (decide (j < NR_TASKS + NR_NATIVE_PROCS)).
    - left. apply (booted_entry gd eip stk base limit t j). lia.
    - right. unfold booted. by rewrite (proj2 (Z.leb_le _ _)) by lia. }
  split; intros i.
  - intros Hi. rewrite Ht' by done. destruct (decide (i < NR_TASKS + NR_NATIVE_PROCS)).
    + destruct (booted_entry gd eip stk base limit t i) as (?&?&?&?&_); [lia|]. by apply ok_ready.
    + apply ok_free. unfold booted. by rewrite (proj2 (Z.leb_le _ _)) by lia.
  - intros Hi. simpl. rewrite Ht' by done. unfold booted. case_match; [|done]. by apply Ht.
  - constructor.
  - intros s Hi. split; [set_solver|]. intros (Hs & Hf & _).
    destruct (Hc s Hs) as [E|E]; rewrite E in Hf; done.
  - set_solver.
  - intros Hi. exists []. apply chain_stop. by destruct (Hc i Hi) as [-> | ->].
  - intros Hi Hf. destruct (Hc i Hi) as [E|E]; rewrite E in Hf; done.
Qed.

Lemma booted_flat gd eip stk base limit t st :
  seg_linear (gd (Z.shiftr SELECTOR_KERNEL_DS 3)) = 0 ->
  (forall j, 0 <= j < NR_ALL -> proc_table st j = booted gd eip stk base limit t j) -> flat st.
Proof.
  intros Hg Ht i Hi. rewrite Ht by clia. unfold booted. rewrite (proj2 (Z.leb_gt _ _)) by lia.
  cbn [ldts init_entry]. unfold init_ldt. destruct (i =? NR_TASKS).
  - rewrite upd_eq. by rewrite seg_linear_init.
  - change INDEX_LDT_RW with 1. rewrite upd_eq. exact Hg.
Qed.

(** C14: From the tables [init_prot] leaves, with a flat kernel data segment and a
    kernel image [get_kernel_map] accepts, [kernel_main] reaches the first task in
    a state that satisfies the kernel's invariant with empty queues: the five
    tasks, INIT and testA are ready, the other entries free, task_sys runs, and
    testA can always be scheduled. *)
Theorem boot_safe addr pt tssa s eip stk st base limit :
  let s' := init_prot addr pt tssa s in
  (forall j, 0 <= j < NR_ALL -> proc_table st j = procs s' j) ->
  seg_linear (gdt s (Z.shiftr SELECTOR_KERNEL_DS 3)) = 0 ->
  get_kernel_map st = Ok (Some (base, limit)) st ->
  exists st', kernel_main (gdt s') eip stk st = Ok tt st' /\ kinv st' (fun _ => []) /\
    k_reenter st' = 0 /\ memory st' = memory st /\ p_proc_ready st' = TASK_SYS /\
    (forall i, 0 <= i < NR_TASKS + NR_NATIVE_PROCS -> can_run (proc_table st') i) /\
    (forall i, NR_TASKS + NR_NATIVE_PROCS <= i < NR_ALL -> p_flags (proc_table st' i) = FREE_SLOT).
Proof.
  intros s' Ht Hg Hmap.
  assert (Hq : forall j, 0 <= j < NR_ALL -> q_sending (proc_table st j) = None).
  { intros j Hj. rewrite (Ht j Hj). destruct (init_prot_tables addr pt tssa s j) as (Hp & _).
    unfold s'. rewrite (Hp Hj). reflexivity. }
  assert (Hg' : seg_linear (gdt s' (Z.shiftr SELECTOR_KERNEL_DS 3)) = 0).
  { destruct (init_prot_tables addr pt tssa s (Z.shiftr SELECTOR_KERNEL_DS 3)) as (_ & _ & Hd & _).
    unfold s'. rewrite Hd; [exact Hg|]. change (0 <= 2 < 4). lia. }
  clearbody s'. unfold kernel_main.
  destruct (kernel_main_loop_run (gdt s') eip stk base limit (Z.to_nat NR_ALL) 0 st)
    as (t' & E & Ht'); [done|done|done|]. rewrite Z.mul_0_l, Z.sub_0_r in E.
  rewrite (bind_run _ _ _ _ _ E). cbn [negb]. unfold modify. eexists. split; [reflexivity|].
  assert (Hb : forall j, 0 <= j < NR_ALL -> t' j = booted (gdt s') eip stk base limit (proc_table st) j).
  { intros j Hj. rewrite Ht'. case_decide; [done|lia]. }
  cbn [set_proc_table proc_table p_proc_ready k_reenter memory key_pressed].
  assert (H7 : forall i, 0 <= i < NR_TASKS + NR_NATIVE_PROCS -> p_flags (t' i) = 0 /\ 0 < priority (t' i)).
  { intros i Hi. rewrite Hb by clia.
    destruct (booted_entry (gdt s') eip stk base limit (proc_table st) i Hi) as (-> & _ & _ & _ & _ & _ & _ & Hp).
    by split. }
  split; [split; cbn|].
  - by eapply booted_inv.
  - by eapply booted_flat.
  - done.
  - apply H7. clia.
  - repeat (split; [done|]). split.
    + intros i Hi. destruct (H7 i Hi) as [Hf Hp]. split; [clia|]. split; [|done].
      unfold runnable. by rewrite Hf.
    + intros i Hi. rewrite Hb by clia. unfold booted. by rewrite (proj2 (Z.leb_le _ _)) by lia.
Qed.
