(* ===== verification/Irq.v ===== *)
(** * Interrupt lines and the timer (kernel/i8259A.c, clock.c: init_clock,
    lib/kliba.asm: enable_irq and disable_irq, kernel/kernel.asm: hwint)

    The two 8259A controllers are registers that the code programs through ports:
    four initialisation words, then the mask. [irq_table] holds the handler of every
    line. The theorem follows a line from the controller through the interrupt table
    of Boot.v to its handler. *)
From S2P Require Import Prelude Const Protect Proc Sched Boot.

Definition INT_M_CTL : Z := 0x20.
Definition INT_M_CTLMASK : Z := 0x21.
Definition INT_S_CTL : Z := 0xA0.
Definition INT_S_CTLMASK : Z := 0xA1.
Definition CLOCK_INT_NO : Z := 0.
Definition KEYBOARD_INT_NO : Z := 1.
Definition CASCADE_IRQ : Z := 2.
Definition AT_WINI_IRQ : Z := 14.
Definition NR_IRQS : Z := 16.
Definition TIMER0 : Z := 0x40.
Definition TIMER_MODE : Z := 0x43.
Definition RATE_GENERATOR : Z := 0x34.
Definition TIMER_FREQ : Z := 1193182.
Definition HZ : Z := 100.

(** ** The controllers *)

(** [icw]: the initialisation word expected next, 0 when the chip is programmed *)
Record pic := mkPic { icw : Z; vec : Z; wiring : Z; mode4 : Z; imr : Z }.

Inductive handler := spurious_irq | irq_clock | irq_keyboard | irq_hd.
#[global] Instance handler_eq_dec : EqDecision handler.
Proof. solve_decision. Defined.

Record irqs := mkIrqs { pic_m : pic; pic_s : pic; irq_table : arr handler; timer : list (Z * Z) }.
Definition set_pic_m (x : pic) (r : irqs) : irqs := mkIrqs x (pic_s r) (irq_table r) (timer r).
Definition set_pic_s (x : pic) (r : irqs) : irqs := mkIrqs (pic_m r) x (irq_table r) (timer r).
Definition set_irq_table (x : arr handler) (r : irqs) : irqs := mkIrqs (pic_m r) (pic_s r) x (timer r).
Definition set_timer (x : list (Z * Z)) (r : irqs) : irqs := mkIrqs (pic_m r) (pic_s r) (irq_table r) x.

(** a byte for the command port: bit 4 starts the initialisation *)
Definition pic_command (v : Z) (p : pic) : pic :=
  if has v 0x10 then mkPic 2 (vec p) (wiring p) (mode4 p) 0 else p.
(** a byte for the data port *)
Definition pic_data (v : Z) (p : pic) : pic :=
  if icw p =? 2 then mkPic 3 (Z.land v 0xF8) (wiring p) (mode4 p) (imr p)
  else if icw p =? 3 then mkPic 4 (vec p) v (mode4 p) (imr p)
  else if icw p =? 4 then mkPic 0 (vec p) (wiring p) v (imr p)
  else mkPic 0 (vec p) (wiring p) (mode4 p) v.

Definition out_byte (port v : Z) : M irqs unit :=
  let v := u8 v in
  if port =? INT_M_CTL then modify (fun s => set_pic_m (pic_command v (pic_m s)) s)
  else if port =? INT_S_CTL then modify (fun s => set_pic_s (pic_command v (pic_s s)) s)
  else if port =? INT_M_CTLMASK then modify (fun s => set_pic_m (pic_data v (pic_m s)) s)
  else if port =? INT_S_CTLMASK then modify (fun s => set_pic_s (pic_data v (pic_s s)) s)
  else modify (fun s => set_timer (timer s ++ [(port, v)]) s).

(** ** The code *)

Definition init_8259A : M irqs unit :=
  out_byte INT_M_CTL 0x11 ;;
  out_byte INT_S_CTL 0x11 ;;
  out_byte INT_M_CTLMASK INT_VEC_IRQ0 ;;
  out_byte INT_S_CTLMASK INT_VEC_IRQ8 ;;
  out_byte INT_M_CTLMASK 0x4 ;;
  out_byte INT_S_CTLMASK 0x2 ;;
  out_byte INT_M_CTLMASK 0x1 ;;
  out_byte INT_S_CTLMASK 0x1 ;;
  out_byte INT_M_CTLMASK 255 ;;
  out_byte INT_S_CTLMASK 255 ;;
  for_each (Z.to_nat NR_IRQS) 0 (fun i => modify (fun s => set_irq_table (upd (irq_table s) i spurious_irq) s)).

(** the mask register and the bit of a line *)
Definition mask_of (irq : Z) (s : irqs) : Z := if irq <? 8 then imr (pic_m s) else imr (pic_s s).
Definition mask_port (irq : Z) : Z := if irq <? 8 then INT_M_CTLMASK else INT_S_CTLMASK.
Definition irq_bit (irq : Z) : Z := Z.shiftl 1 (irq `mod` 8).

(** the result says whether this call disabled the line *)
Definition disable_irq (irq : Z) : M irqs Z :=
  s ← get;
  if has (mask_of irq s) (irq_bit irq) then ret 0
  else out_byte (mask_port irq) (Z.lor (mask_of irq s) (irq_bit irq)) ;; ret 1.
Definition enable_irq (irq : Z) : M irqs unit :=
  s ← get;
  out_byte (mask_port irq) (Z.land (mask_of irq s) (255 - irq_bit irq)).

(** [irq_table] has 16 entries *)
Definition put_irq_handler (irq : Z) (h : handler) : M irqs unit :=
  disable_irq irq ;;
  if (0 <=? irq) && (irq <? NR_IRQS) then modify (fun s => set_irq_table (upd (irq_table s) irq h) s)
  else stop HFault.

Definition init_clock : M irqs unit :=
  out_byte TIMER_MODE RATE_GENERATOR ;;
  out_byte TIMER0 (u8 (TIMER_FREQ / HZ)) ;;
  out_byte TIMER0 (u8 (Z.shiftr (TIMER_FREQ / HZ) 8)) ;;
  put_irq_handler CLOCK_INT_NO irq_clock ;;
  enable_irq CLOCK_INT_NO.

(** the parts of [init_keyboard] and [init_hd] that concern their lines *)
Definition keyboard_lines : M irqs unit :=
  put_irq_handler KEYBOARD_INT_NO irq_keyboard ;; enable_irq KEYBOARD_INT_NO.
Definition hd_lines : M irqs unit :=
  put_irq_handler AT_WINI_IRQ irq_hd ;; enable_irq CASCADE_IRQ ;; enable_irq AT_WINI_IRQ.

(** the macros [hwint_master] and [hwint_slave] around the call of the handler: the
    immediate operand [1<<irq] is cut to the eight bits of [al] *)
Definition hwint_run (irq : Z) (body : handler -> M irqs unit) : M irqs unit :=
  s ← get;
  out_byte (mask_port irq) (Z.lor (mask_of irq s) (u8 (Z.shiftl 1 irq))) ;;
  s ← get;
  body (irq_table s irq) ;;
  s ← get;
  out_byte (mask_port irq) (Z.land (mask_of irq s) (u8 (Z.lnot (Z.shiftl 1 irq)))).

(** ** Theorems *)

(** a line is enabled when its bit is clear in its controller's mask, and a line of
    the second controller needs the cascade line too *)
Definition line_enabled (irq : Z) (s : irqs) : bool :=
  negb (has (mask_of irq s) (irq_bit irq)) && ((irq <? 8) || negb (has (imr (pic_m s)) (irq_bit CASCADE_IRQ))).
(** the vector a controller sends for a line *)
Definition vector_of (irq : Z) (s : irqs) : Z :=
  if irq <? 8 then vec (pic_m s) + irq else vec (pic_s s) + (irq - 8).

Definition lines_up : M irqs unit := init_8259A ;; init_clock ;; keyboard_lines ;; hd_lines.

(** Interrupts reach their handlers. From any state of the controllers, starting
    up leaves both programmed, and exactly the lines of clock, keyboard, cascade and
    disk enabled; the vector sent for every line leads, through the table
    [init_prot] fills, to the entry [hwint] of that line, and the handler called
    there is the driver's; every other line has the spurious handler. The timer is
    in rate mode with the divisor of 100 Hz. *)
Theorem irq_routing s : exists s', lines_up s = Ok tt s' /\
  icw (pic_m s') = 0 /\ icw (pic_s s') = 0 /\
  (forall i, 0 <= i < NR_IRQS ->
     (line_enabled i s' = true <-> i = CLOCK_INT_NO \/ i = KEYBOARD_INT_NO \/ i = CASCADE_IRQ \/ i = AT_WINI_IRQ) /\
     (vector_of i s', hwint i, PRIVILEGE_KRNL) ∈ idt_entries /\
     irq_table s' i = (if i =? CLOCK_INT_NO then irq_clock else if i =? KEYBOARD_INT_NO then irq_keyboard
                       else if i =? AT_WINI_IRQ then irq_hd else spurious_irq)) /\
  exists lo hi, timer s' = timer s ++ [(TIMER_MODE, RATE_GENERATOR); (TIMER0, lo); (TIMER0, hi)] /\
    lo + 256 * hi = TIMER_FREQ / HZ.
Proof.
  destruct s as [[] [] t l]. remember (lines_up _) as r eqn:E. vm_compute in E. subst r.
  eexists. split; [reflexivity|]. split; [reflexivity|]. split; [reflexivity|]. split.
  - intros i Hi. assert (i ∈ seqZ 0 16) as Hin by (apply elem_of_seqZ; unfold NR_IRQS in *; lia). revert i Hin Hi.
    apply (Forall_forall (fun i => _ -> _)). unfold seqZ. cbn [seq Z.to_nat fmap list_fmap].
    repeat (constructor; [intros _; split; [vm_compute; split; [intuition discriminate|intuition (discriminate || done)]|
      split; [apply list_elem_of_In; vm_compute; tauto|reflexivity]]|]). constructor.
  - exists 155, 46. split; [|reflexivity]. 
    transitivity (((l ++ [(TIMER_MODE, RATE_GENERATOR)]) ++ [(TIMER0, 155)]) ++ [(TIMER0, 46)]); [reflexivity|].
    by rewrite <- !app_assoc.
Qed.
