(* ===== verification/TtyState.v ===== *)
(** * State of the terminals (include/sys/tty.h, console.h, keyboard.h)

    A terminal, a console and the keyboard as the code keeps them, together with
    the devices they drive: the registers of the display controller, the bytes
    sent to the keyboard, and the scan codes the keyboard will still deliver.
    Pointers into a buffer are indexes, [p_con] is the index of the console. *)
From S2P Require Import Prelude Const Protect Proc.

(** ** Constants *)

Definition NR_TTYS : Z := 3.
Definition TTY_IN_BYTES : Z := 256.
Definition TTY_OUT_IN_BYTES : Z := 2.
Definition ADDR_REG : Z := 0x3d4.
Definition DATA_REG : Z := 0x3d5.
Definition CUR_POS_LOW : Z := 0xf.
Definition CUR_POS_HIGH : Z := 0xe.
Definition START_ADDR_LOW : Z := 0xd.
Definition START_ADDR_HIGH : Z := 0xc.
Definition V_MEM_BASE : Z := 0xb8000.
Definition V_MEM_SIZE : Z := 0x8000.
Definition DEFAULT_CHAR_COLOR : Z := 0x07.
Definition SCR_DOWN : Z := 1.
Definition SCR_UP : Z := 2.
Definition SCREEN_SIZE : Z := 80 * 25.
Definition SCREEN_WIDTH : Z := 80.
Definition KB_IN_BYTE : Z := 32.
Definition KB_DATA : Z := 0x60.
Definition LED_CODE : Z := 0xED.

(** ** Data *)

Record CONSOLE := mkCon {
  orig_start_addr : Z;
  cur_start_addr : Z;
  v_mem_size : Z;
  v_mem_base : Z;
  cur_cursor_pos : Z }.
Definition set_orig_start_addr (x : Z) (r : CONSOLE) : CONSOLE :=
  mkCon x (cur_start_addr r) (v_mem_size r) (v_mem_base r) (cur_cursor_pos r).
Definition set_cur_start_addr (x : Z) (r : CONSOLE) : CONSOLE :=
  mkCon (orig_start_addr r) x (v_mem_size r) (v_mem_base r) (cur_cursor_pos r).
Definition set_v_mem_size (x : Z) (r : CONSOLE) : CONSOLE :=
  mkCon (orig_start_addr r) (cur_start_addr r) x (v_mem_base r) (cur_cursor_pos r).
Definition set_v_mem_base (x : Z) (r : CONSOLE) : CONSOLE :=
  mkCon (orig_start_addr r) (cur_start_addr r) (v_mem_size r) x (cur_cursor_pos r).
Definition set_cur_cursor_pos (x : Z) (r : CONSOLE) : CONSOLE :=
  mkCon (orig_start_addr r) (cur_start_addr r) (v_mem_size r) (v_mem_base r) x.

Record TTY := mkTty {
  in_buf : arr Z;
  p_inbuf_head : Z;
  p_inbuf_tail : Z;
  inbuf_count : Z;
  tty_caller : Z;
  tty_pro_nr : Z;
  tty_read_buf : Z;
  tty_bytes_left : Z;
  tty_trans_bytes : Z;
  p_con : Z }.
Definition set_in_buf (x : arr Z) (r : TTY) : TTY :=
  mkTty x (p_inbuf_head r) (p_inbuf_tail r) (inbuf_count r) (tty_caller r) (tty_pro_nr r) (tty_read_buf r) (tty_bytes_left r) (tty_trans_bytes r) (p_con r).
Definition set_p_inbuf_head (x : Z) (r : TTY) : TTY :=
  mkTty (in_buf r) x (p_inbuf_tail r) (inbuf_count r) (tty_caller r) (tty_pro_nr r) (tty_read_buf r) (tty_bytes_left r) (tty_trans_bytes r) (p_con r).
Definition set_p_inbuf_tail (x : Z) (r : TTY) : TTY :=
  mkTty (in_buf r) (p_inbuf_head r) x (inbuf_count r) (tty_caller r) (tty_pro_nr r) (tty_read_buf r) (tty_bytes_left r) (tty_trans_bytes r) (p_con r).
Definition set_inbuf_count (x : Z) (r : TTY) : TTY :=
  mkTty (in_buf r) (p_inbuf_head r) (p_inbuf_tail r) x (tty_caller r) (tty_pro_nr r) (tty_read_buf r) (tty_bytes_left r) (tty_trans_bytes r) (p_con r).
Definition set_tty_caller (x : Z) (r : TTY) : TTY :=
  mkTty (in_buf r) (p_inbuf_head r) (p_inbuf_tail r) (inbuf_count r) x (tty_pro_nr r) (tty_read_buf r) (tty_bytes_left r) (tty_trans_bytes r) (p_con r).
Definition set_tty_pro_nr (x : Z) (r : TTY) : TTY :=
  mkTty (in_buf r) (p_inbuf_head r) (p_inbuf_tail r) (inbuf_count r) (tty_caller r) x (tty_read_buf r) (tty_bytes_left r) (tty_trans_bytes r) (p_con r).
Definition set_tty_read_buf (x : Z) (r : TTY) : TTY :=
  mkTty (in_buf r) (p_inbuf_head r) (p_inbuf_tail r) (inbuf_count r) (tty_caller r) (tty_pro_nr r) x (tty_bytes_left r) (tty_trans_bytes r) (p_con r).
Definition set_tty_bytes_left (x : Z) (r : TTY) : TTY :=
  mkTty (in_buf r) (p_inbuf_head r) (p_inbuf_tail r) (inbuf_count r) (tty_caller r) (tty_pro_nr r) (tty_read_buf r) x (tty_trans_bytes r) (p_con r).
Definition set_tty_trans_bytes (x : Z) (r : TTY) : TTY :=
  mkTty (in_buf r) (p_inbuf_head r) (p_inbuf_tail r) (inbuf_count r) (tty_caller r) (tty_pro_nr r) (tty_read_buf r) (tty_bytes_left r) x (p_con r).
Definition set_p_con (x : Z) (r : TTY) : TTY :=
  mkTty (in_buf r) (p_inbuf_head r) (p_inbuf_tail r) (inbuf_count r) (tty_caller r) (tty_pro_nr r) (tty_read_buf r) (tty_bytes_left r) (tty_trans_bytes r) x.

(** [kb_in] and the state of the keys of kernel/keyboard.c *)
Record keyboard := mkKb {
  p_head : Z;
  p_tail : Z;
  kb_count : Z;
  kb_buf : arr Z;
  code_with_E0 : Z;
  shift_l : Z;
  shift_r : Z;
  alt_l : Z;
  alt_r : Z;
  ctrl_l : Z;
  ctrl_r : Z;
  caps_lock : Z;
  num_lock : Z;
  scroll_lock : Z;
  column : Z }.
Definition set_p_head (x : Z) (r : keyboard) : keyboard :=
  mkKb x (p_tail r) (kb_count r) (kb_buf r) (code_with_E0 r) (shift_l r) (shift_r r) (alt_l r) (alt_r r) (ctrl_l r) (ctrl_r r) (caps_lock r) (num_lock r) (scroll_lock r) (column r).
Definition set_p_tail (x : Z) (r : keyboard) : keyboard :=
  mkKb (p_head r) x (kb_count r) (kb_buf r) (code_with_E0 r) (shift_l r) (shift_r r) (alt_l r) (alt_r r) (ctrl_l r) (ctrl_r r) (caps_lock r) (num_lock r) (scroll_lock r) (column r).
Definition set_kb_count (x : Z) (r : keyboard) : keyboard :=
  mkKb (p_head r) (p_tail r) x (kb_buf r) (code_with_E0 r) (shift_l r) (shift_r r) (alt_l r) (alt_r r) (ctrl_l r) (ctrl_r r) (caps_lock r) (num_lock r) (scroll_lock r) (column r).
Definition set_kb_buf (x : arr Z) (r : keyboard) : keyboard :=
  mkKb (p_head r) (p_tail r) (kb_count r) x (code_with_E0 r) (shift_l r) (shift_r r) (alt_l r) (alt_r r) (ctrl_l r) (ctrl_r r) (caps_lock r) (num_lock r) (scroll_lock r) (column r).
Definition set_code_with_E0 (x : Z) (r : keyboard) : keyboard :=
  mkKb (p_head r) (p_tail r) (kb_count r) (kb_buf r) x (shift_l r) (shift_r r) (alt_l r) (alt_r r) (ctrl_l r) (ctrl_r r) (caps_lock r) (num_lock r) (scroll_lock r) (column r).
Definition set_shift_l (x : Z) (r : keyboard) : keyboard :=
  mkKb (p_head r) (p_tail r) (kb_count r) (kb_buf r) (code_with_E0 r) x (shift_r r) (alt_l r) (alt_r r) (ctrl_l r) (ctrl_r r) (caps_lock r) (num_lock r) (scroll_lock r) (column r).
Definition set_shift_r (x : Z) (r : keyboard) : keyboard :=
  mkKb (p_head r) (p_tail r) (kb_count r) (kb_buf r) (code_with_E0 r) (shift_l r) x (alt_l r) (alt_r r) (ctrl_l r) (ctrl_r r) (caps_lock r) (num_lock r) (scroll_lock r) (column r).
Definition set_alt_l (x : Z) (r : keyboard) : keyboard :=
  mkKb (p_head r) (p_tail r) (kb_count r) (kb_buf r) (code_with_E0 r) (shift_l r) (shift_r r) x (alt_r r) (ctrl_l r) (ctrl_r r) (caps_lock r) (num_lock r) (scroll_lock r) (column r).
Definition set_alt_r (x : Z) (r : keyboard) : keyboard :=
  mkKb (p_head r) (p_tail r) (kb_count r) (kb_buf r) (code_with_E0 r) (shift_l r) (shift_r r) (alt_l r) x (ctrl_l r) (ctrl_r r) (caps_lock r) (num_lock r) (scroll_lock r) (column r).
Definition set_ctrl_l (x : Z) (r : keyboard) : keyboard :=
  mkKb (p_head r) (p_tail r) (kb_count r) (kb_buf r) (code_with_E0 r) (shift_l r) (shift_r r) (alt_l r) (alt_r r) x (ctrl_r r) (caps_lock r) (num_lock r) (scroll_lock r) (column r).
Definition set_ctrl_r (x : Z) (r : keyboard) : keyboard :=
  mkKb (p_head r) (p_tail r) (kb_count r) (kb_buf r) (code_with_E0 r) (shift_l r) (shift_r r) (alt_l r) (alt_r r) (ctrl_l r) x (caps_lock r) (num_lock r) (scroll_lock r) (column r).
Definition set_caps_lock (x : Z) (r : keyboard) : keyboard :=
  mkKb (p_head r) (p_tail r) (kb_count r) (kb_buf r) (code_with_E0 r) (shift_l r) (shift_r r) (alt_l r) (alt_r r) (ctrl_l r) (ctrl_r r) x (num_lock r) (scroll_lock r) (column r).
Definition set_num_lock (x : Z) (r : keyboard) : keyboard :=
  mkKb (p_head r) (p_tail r) (kb_count r) (kb_buf r) (code_with_E0 r) (shift_l r) (shift_r r) (alt_l r) (alt_r r) (ctrl_l r) (ctrl_r r) (caps_lock r) x (scroll_lock r) (column r).
Definition set_scroll_lock (x : Z) (r : keyboard) : keyboard :=
  mkKb (p_head r) (p_tail r) (kb_count r) (kb_buf r) (code_with_E0 r) (shift_l r) (shift_r r) (alt_l r) (alt_r r) (ctrl_l r) (ctrl_r r) (caps_lock r) (num_lock r) x (column r).
Definition set_column (x : Z) (r : keyboard) : keyboard :=
  mkKb (p_head r) (p_tail r) (kb_count r) (kb_buf r) (code_with_E0 r) (shift_l r) (shift_r r) (alt_l r) (alt_r r) (ctrl_l r) (ctrl_r r) (caps_lock r) (num_lock r) (scroll_lock r) x.

(** the terminal task's world *)
Record tsys := mkT {
  tkern : kstate;
  tty_table : arr TTY;
  console_table : arr CONSOLE;
  nr_cur_console : Z;
  disp_pos : Z;
  kb : keyboard;
  crtc : arr Z;
  crtc_sel : Z;
  kb_sent : list Z;
  kb_codes : list Z }.
Definition set_tkern (x : kstate) (r : tsys) : tsys :=
  mkT x (tty_table r) (console_table r) (nr_cur_console r) (disp_pos r) (kb r) (crtc r) (crtc_sel r) (kb_sent r) (kb_codes r).
Definition set_tty_table (x : arr TTY) (r : tsys) : tsys :=
  mkT (tkern r) x (console_table r) (nr_cur_console r) (disp_pos r) (kb r) (crtc r) (crtc_sel r) (kb_sent r) (kb_codes r).
Definition set_console_table (x : arr CONSOLE) (r : tsys) : tsys :=
  mkT (tkern r) (tty_table r) x (nr_cur_console r) (disp_pos r) (kb r) (crtc r) (crtc_sel r) (kb_sent r) (kb_codes r).
Definition set_nr_cur_console (x : Z) (r : tsys) : tsys :=
  mkT (tkern r) (tty_table r) (console_table r) x (disp_pos r) (kb r) (crtc r) (crtc_sel r) (kb_sent r) (kb_codes r).
Definition set_disp_pos (x : Z) (r : tsys) : tsys :=
  mkT (tkern r) (tty_table r) (console_table r) (nr_cur_console r) x (kb r) (crtc r) (crtc_sel r) (kb_sent r) (kb_codes r).
Definition set_kb (x : keyboard) (r : tsys) : tsys :=
  mkT (tkern r) (tty_table r) (console_table r) (nr_cur_console r) (disp_pos r) x (crtc r) (crtc_sel r) (kb_sent r) (kb_codes r).
Definition set_crtc (x : arr Z) (r : tsys) : tsys :=
  mkT (tkern r) (tty_table r) (console_table r) (nr_cur_console r) (disp_pos r) (kb r) x (crtc_sel r) (kb_sent r) (kb_codes r).
Definition set_crtc_sel (x : Z) (r : tsys) : tsys :=
  mkT (tkern r) (tty_table r) (console_table r) (nr_cur_console r) (disp_pos r) (kb r) (crtc r) x (kb_sent r) (kb_codes r).
Definition set_kb_sent (x : list Z) (r : tsys) : tsys :=
  mkT (tkern r) (tty_table r) (console_table r) (nr_cur_console r) (disp_pos r) (kb r) (crtc r) (crtc_sel r) x (kb_codes r).
Definition set_kb_codes (x : list Z) (r : tsys) : tsys :=
  mkT (tkern r) (tty_table r) (console_table r) (nr_cur_console r) (disp_pos r) (kb r) (crtc r) (crtc_sel r) (kb_sent r) x.

(** ** Access *)

Definition in_ttys (i : Z) : bool := (0 <=? i) && (i <? NR_TTYS).
Definition getcon (i : Z) : M tsys CONSOLE :=
  fun st => if in_ttys i then Ok (console_table st i) st else Halt HFault.
Definition modcon (i : Z) (f : CONSOLE -> CONSOLE) : M tsys unit :=
  fun st => if in_ttys i
            then Ok tt (set_console_table (upd (console_table st) i (f (console_table st i))) st)
            else Halt HFault.
Definition gettty (i : Z) : M tsys TTY :=
  fun st => if in_ttys i then Ok (tty_table st i) st else Halt HFault.
Definition modtty (i : Z) (f : TTY -> TTY) : M tsys unit :=
  fun st => if in_ttys i
            then Ok tt (set_tty_table (upd (tty_table st) i (f (tty_table st i))) st)
            else Halt HFault.
Definition modkb (f : keyboard -> keyboard) : M tsys unit := modify (fun st => set_kb (f (kb st)) st).

(** a computation of the kernel *)
Definition klift {A} (c : M kstate A) : M tsys A :=
  fun st => match c (tkern st) with Ok a k => Ok a (set_tkern k st) | Halt h => Halt h end.

(** a byte of memory *)
Definition pokeb (a v : Z) : M tsys unit :=
  modify (fun st => set_tkern (set_memory (upd (memory (tkern st)) a (u8 v)) (tkern st)) st).

#[export] Hint Unfold NR_TTYS TTY_IN_BYTES TTY_OUT_IN_BYTES SCREEN_SIZE SCREEN_WIDTH V_MEM_BASE V_MEM_SIZE
  SCR_DOWN SCR_UP KB_IN_BYTE : consts.

(** ** Running the accesses *)

Lemma in_ttys_iff i : in_ttys i = true <-> 0 <= i < NR_TTYS.
Proof. unfold in_ttys. rewrite andb_true_iff, Z.leb_le, Z.ltb_lt. done. Qed.
Lemma getcon_run i st : 0 <= i < NR_TTYS -> getcon i st = Ok (console_table st i) st.
Proof. intros Hi%in_ttys_iff. unfold getcon. by rewrite Hi. Qed.
Lemma modcon_run i f st : 0 <= i < NR_TTYS ->
  modcon i f st = Ok tt (set_console_table (upd (console_table st) i (f (console_table st i))) st).
Proof. intros Hi%in_ttys_iff. unfold modcon. by rewrite Hi. Qed.
Lemma gettty_run i st : 0 <= i < NR_TTYS -> gettty i st = Ok (tty_table st i) st.
Proof. intros Hi%in_ttys_iff. unfold gettty. by rewrite Hi. Qed.
Lemma modtty_run i f st : 0 <= i < NR_TTYS ->
  modtty i f st = Ok tt (set_tty_table (upd (tty_table st) i (f (tty_table st i))) st).
Proof. intros Hi%in_ttys_iff. unfold modtty. by rewrite Hi. Qed.
