(* ===== verification/Console.v ===== *)
(** * The consoles (kernel/console.c)

    Each terminal owns a third of the video memory. [out_char] writes a cell,
    moves the cursor and scrolls; the two registers pairs of the display
    controller hold the cursor and the first cell shown. The loop that scrolls
    until the cursor is on the screen runs with fuel [SCROLL_FUEL];
    [out_char_run] shows that it always ends earlier. *)
From S2P Require Import Prelude Const Protect Proc TtyState.

(** ** Definitions *)

(** [out_byte] to the ports of the display controller *)
Definition out_crtc (port v : Z) : M tsys unit :=
  modify (fun st => if port =? ADDR_REG then set_crtc_sel (u8 v) st
                    else set_crtc (upd (crtc st) (crtc_sel st) (u8 v)) st).

Definition set_cursor (cur_disp_pos : Z) : M tsys unit :=
  let p := u16 cur_disp_pos in
  out_crtc ADDR_REG CUR_POS_HIGH ;;
  out_crtc DATA_REG (Z.land (Z.shiftr p 8) 0xff) ;;
  out_crtc ADDR_REG CUR_POS_LOW ;;
  out_crtc DATA_REG (Z.land p 0xff).

Definition set_screen_start (addr : Z) : M tsys unit :=
  out_crtc ADDR_REG START_ADDR_HIGH ;;
  out_crtc DATA_REG (Z.land (Z.shiftr addr 8) 0xff) ;;
  out_crtc ADDR_REG START_ADDR_LOW ;;
  out_crtc DATA_REG (Z.land addr 0xff).

(** [p_con] is the index of the console *)
Definition is_cur_console (p_con : Z) : M tsys bool :=
  st ← get; ret (p_con =? nr_cur_console st).

Definition scroll_screen (p_con direction : Z) : M tsys unit :=
  if negb (SCR_DOWN =? direction) && negb (SCR_UP =? direction) then ret tt
  else
    c ← getcon p_con;
    (if SCR_DOWN =? direction then
       when (u32 (cur_start_addr c + SCREEN_SIZE) <? u32 (orig_start_addr c + v_mem_size c))
         (modcon p_con (fun c => set_cur_start_addr (u32 (cur_start_addr c + SCREEN_WIDTH)) c))
     else
       when (orig_start_addr c <? cur_start_addr c)
         (modcon p_con (fun c => set_cur_start_addr (u32 (cur_start_addr c - SCREEN_WIDTH)) c))) ;;
    c ← getcon p_con;
    set_screen_start (cur_start_addr c) ;;
    set_cursor (cur_cursor_pos c).

Definition flush (p_con : Z) : M tsys unit :=
  c ← getcon p_con;
  set_cursor (cur_cursor_pos c) ;;
  set_screen_start (cur_start_addr c).

(** the cell at the cursor *)
Definition put_cell (c : CONSOLE) (ch : Z) : M tsys unit :=
  let p_mem := u32 (cur_cursor_pos c * 2 + v_mem_base c) in
  pokeb p_mem ch ;;
  pokeb (p_mem + 1) DEFAULT_CHAR_COLOR.

(** the loop that scrolls until the cursor is above the end of the screen *)
Fixpoint scroll_loop (fuel : nat) (p_con : Z) : M tsys unit :=
  match fuel with
  | O => stop HSpin
  | S fuel' =>
      c ← getcon p_con;
      if u32 (cur_start_addr c + SCREEN_SIZE) <=? cur_cursor_pos c
      then scroll_screen p_con SCR_DOWN ;; scroll_loop fuel' p_con
      else ret tt
  end.
Definition SCROLL_FUEL : nat := 64.

Definition out_char (ch p_con : Z) : M tsys unit :=
  let ch := u8 ch in
  c ← getcon p_con;
  (if ch =? 10 then
     when (cur_cursor_pos c <? u32 (orig_start_addr c + v_mem_size c - SCREEN_WIDTH))
       (modcon p_con (set_cur_cursor_pos (u32 (orig_start_addr c +
          (u32 (cur_cursor_pos c - orig_start_addr c) / SCREEN_WIDTH + 1) * SCREEN_WIDTH))))
   else if ch =? 8 then
     when (orig_start_addr c <? cur_cursor_pos c)
       (modcon p_con (set_cur_cursor_pos (u32 (cur_cursor_pos c - 1))) ;;
        c ← getcon p_con;
        put_cell c 32)
   else
     when (cur_cursor_pos c <? u32 (orig_start_addr c + v_mem_size c - 1))
       (put_cell c ch ;;
        modcon p_con (fun c => set_cur_cursor_pos (u32 (cur_cursor_pos c + 1)) c))) ;;
  scroll_loop SCROLL_FUEL p_con ;;
  flush p_con.

Definition set_cur_con (con_no : Z) : M tsys unit :=
  if (con_no <? 0) || (NR_TTYS <=? con_no) then ret tt
  else
    modify (set_nr_cur_console con_no) ;;
    c ← getcon con_no;
    set_cursor (cur_cursor_pos c) ;;
    set_screen_start (cur_start_addr c).

(** [console_no] is the index of the terminal *)
Definition init_screen (console_no : Z) : M tsys unit :=
  let mem_size := Z.shiftr V_MEM_SIZE 1 / NR_TTYS in
  modtty console_no (set_p_con console_no) ;;
  let start := mem_size * console_no in
  modcon console_no (fun _ => mkCon start start mem_size V_MEM_BASE start) ;;
  if console_no =? 0 then
    st ← get;
    modcon console_no (set_cur_cursor_pos (u32 (Z.quot (disp_pos st) 2))) ;;
    modify (set_disp_pos 0)
  else
    out_char (console_no + 48) console_no ;;
    out_char 35 console_no.

(** ** Invariant *)

(** the number of cells of a console *)
Definition CON_SIZE : Z := 5461.

Record con_ok (i : Z) (c : CONSOLE) : Prop := {
  co_orig : orig_start_addr c = CON_SIZE * i;
  co_size : v_mem_size c = CON_SIZE;
  co_base : v_mem_base c = V_MEM_BASE;
  co_start : exists k, 0 <= k <= 44 /\ cur_start_addr c = CON_SIZE * i + SCREEN_WIDTH * k;
  co_cursor : CON_SIZE * i <= cur_cursor_pos c < CON_SIZE * i + CON_SIZE }.
Definition cons_ok (st : tsys) : Prop := forall i, 0 <= i < NR_TTYS -> con_ok i (console_table st i).

(** the cursor is above the end of the screen *)
Definition on_screen (c : CONSOLE) : Prop := cur_cursor_pos c < cur_start_addr c + SCREEN_SIZE.

(** ** The display controller *)

Definition set_regs_pair (hi lo v : Z) (r : arr Z) : arr Z := upd (upd r hi ((v / 256) `mod` 256)) lo (v `mod` 256).
(** the state with other registers of the controller *)
Definition with_crtc (r : arr Z) (s : Z) (st : tsys) : tsys := set_crtc_sel s (set_crtc r st).
Definition reg_pair (hi lo : Z) (r : arr Z) : Z := r hi * 256 + r lo.

Lemma u8_mod z : u8 (z `mod` 256) = z `mod` 256.
Proof. apply u8_id. by apply Z.mod_pos_bound. Qed.

Lemma set_cursor_run p st :
  set_cursor p st = Ok tt (with_crtc (set_regs_pair CUR_POS_HIGH CUR_POS_LOW (u16 p) (crtc st)) CUR_POS_LOW st).
Proof.
  unfold set_cursor, out_crtc, modify, bind, with_crtc, set_regs_pair. cbn.
  rewrite !land_ff, shiftr_div, !u8_mod by lia. reflexivity.
Qed.
Lemma set_screen_start_run a st :
  set_screen_start a st = Ok tt (with_crtc (set_regs_pair START_ADDR_HIGH START_ADDR_LOW a (crtc st)) START_ADDR_LOW st).
Proof.
  unfold set_screen_start, out_crtc, modify, bind, with_crtc, set_regs_pair. cbn.
  rewrite !land_ff, shiftr_div, !u8_mod by lia. reflexivity.
Qed.

Lemma reg_pair_set hi lo v r : hi <> lo -> 0 <= v < 65536 -> reg_pair hi lo (set_regs_pair hi lo v r) = v.
Proof.
  intros Hn Hv. unfold reg_pair, set_regs_pair. rewrite upd_eq, upd_ne, upd_eq by done.
  rewrite (Z.mod_small (v / 256)) by (split; [apply Z.div_pos; lia|apply Z.div_lt_upper_bound; lia]).
  pose proof (Z.div_mod v 256 ltac:(lia)). lia.
Qed.

Lemma reg_pair_other hi lo hi' lo' v r : hi <> hi' -> hi <> lo' -> lo <> hi' -> lo <> lo' ->
  reg_pair hi lo (set_regs_pair hi' lo' v r) = reg_pair hi lo r.
Proof. intros. unfold reg_pair, set_regs_pair. by rewrite !upd_ne. Qed.

(** the controller shows the console *)
Definition shows (c : CONSOLE) (st : tsys) : Prop :=
  reg_pair CUR_POS_HIGH CUR_POS_LOW (crtc st) = cur_cursor_pos c /\
  reg_pair START_ADDR_HIGH START_ADDR_LOW (crtc st) = cur_start_addr c.

(** ** Scrolling *)

(** console [i] becomes [c], the rest of the machine but the controller stays *)
Definition with_con (i : Z) (c : CONSOLE) (st : tsys) : tsys :=
  set_console_table (upd (console_table st) i c) st.

Lemma con_range i c : 0 <= i < NR_TTYS -> con_ok i c ->
  0 <= orig_start_addr c <= 10922 /\ orig_start_addr c <= cur_start_addr c <= orig_start_addr c + 3520 /\
  orig_start_addr c <= cur_cursor_pos c < orig_start_addr c + 5461 /\ v_mem_size c = 5461.
Proof.
  intros Hi [H1 H2 H3 (k & Hk & H4) H5]. unfold CON_SIZE, SCREEN_WIDTH, NR_TTYS in *. lia.
Qed.

Lemma scroll_down_run i st : 0 <= i < NR_TTYS -> con_ok i (console_table st i) ->
  let c := console_table st i in
  cur_start_addr c + SCREEN_SIZE < orig_start_addr c + CON_SIZE ->
  exists r s, scroll_screen i SCR_DOWN st =
    Ok tt (with_crtc r s (with_con i (set_cur_start_addr (cur_start_addr c + SCREEN_WIDTH) c) st)).
Proof.
  intros Hi Hc c Hlt. pose proof (con_range i c Hi Hc) as Hr. unfold scroll_screen.
  change (negb (SCR_DOWN =? SCR_DOWN) && negb (SCR_UP =? SCR_DOWN)) with false. cbv iota.
  rewrite (bind_run _ _ _ _ _ (getcon_run i st Hi)). fold c. change (SCR_DOWN =? SCR_DOWN) with true. cbv iota.
  unfold SCREEN_SIZE, SCREEN_WIDTH, CON_SIZE in *.
  rewrite !u32_id by lia. rewrite (proj2 (Z.ltb_lt _ _)) by lia. unfold when.
  rewrite (bind_run _ _ _ _ _ (modcon_run i _ st Hi)). fold c. rewrite u32_id by lia.
  rewrite (bind_run _ _ _ _ _ (getcon_run i _ Hi)).
  rewrite (bind_run _ _ _ _ _ (set_screen_start_run _ _)), set_cursor_run.
  eexists _, _. reflexivity.
Qed.

Lemma with_crtc_con r s st : console_table (with_crtc r s st) = console_table st.
Proof. done. Qed.
Lemma with_con_same i c st : console_table (with_con i c st) i = c.
Proof. apply upd_eq. Qed.

Lemma with_con_self i st : with_con i (console_table st i) st = st.
Proof. unfold with_con. rewrite upd_same. by destruct st. Qed.
Lemma with_con_twice i c c' st : with_con i c' (with_con i c st) = with_con i c' st.
Proof. unfold with_con. cbn. by rewrite upd_upd. Qed.

(** the loop ends with the cursor on the screen *)
Lemma scroll_loop_run fuel i st : 0 <= i < NR_TTYS -> con_ok i (console_table st i) ->
  let c := console_table st i in
  (cur_cursor_pos c - cur_start_addr c - SCREEN_SIZE) / SCREEN_WIDTH + 2 < Z.of_nat fuel -> (1 < fuel)%nat ->
  exists r s a, scroll_loop fuel i st = Ok tt (with_crtc r s (with_con i (set_cur_start_addr a c) st)) /\
    cur_start_addr c <= a /\ con_ok i (set_cur_start_addr a c) /\ on_screen (set_cur_start_addr a c) /\
    (on_screen c -> a = cur_start_addr c).
Proof.
  revert st. induction fuel as [|fuel IH]; intros st Hi Hc c Hf H1; [lia|].
  pose proof (con_range i c Hi Hc) as Hr. cbn [scroll_loop].
  rewrite (bind_run _ _ _ _ _ (getcon_run i st Hi)). fold c.
  rewrite u32_id by (unfold SCREEN_SIZE in *; lia).
  destruct (cur_start_addr c + SCREEN_SIZE <=? cur_cursor_pos c) eqn:E; zbool.
  - destruct (scroll_down_run i st Hi Hc) as (r & s & Es); fold c; [unfold SCREEN_SIZE, CON_SIZE in *; lia|].
    fold c in Es. rewrite (bind_run _ _ _ _ _ Es).
    set (c1 := set_cur_start_addr (cur_start_addr c + SCREEN_WIDTH) c).
    set (st1 := with_crtc r s (with_con i c1 st)).
    assert (Ec : console_table st1 i = c1) by apply upd_eq.
    assert (Hc1 : con_ok i c1).
    { destruct Hc as [B1 B2 B3 (k & Hk & B4) B5]. split; try done. exists (k + 1).
      unfold c1. cbn [cur_start_addr set_cur_start_addr]. fold c in B1, B4, B5.
      unfold SCREEN_SIZE, SCREEN_WIDTH, CON_SIZE in *. lia. }
    destruct (IH st1 Hi) as (r' & s' & a & E' & Ha & Hok & Hon & _); rewrite ?Ec; try done.
    + cbn. unfold SCREEN_SIZE, SCREEN_WIDTH in *. clear -Hf.
      replace (cur_cursor_pos c - (cur_start_addr c + 80) - 80 * 25) with
        ((cur_cursor_pos c - cur_start_addr c - 80 * 25) + (-1) * 80) by lia. rewrite Z.div_add by lia. lia.
    + assert (0 <= (cur_cursor_pos c - cur_start_addr c - SCREEN_SIZE) / SCREEN_WIDTH)
        by (apply Z.div_pos; unfold SCREEN_WIDTH; lia). lia.
    + rewrite Ec in *. cbn in Ha. exists r', s', a. split; [|split; [unfold SCREEN_WIDTH in Ha; lia|]].
      * rewrite E'. unfold st1. f_equal.
        change (with_con i (set_cur_start_addr a c1) (with_crtc r s (with_con i c1 st))) with
          (with_crtc r s (with_con i (set_cur_start_addr a c1) (with_con i c1 st))).
        rewrite with_con_twice. reflexivity.
      * split; [exact Hok|]. split; [exact Hon|]. intros Hx. unfold on_screen in Hx. lia.
  - exists (crtc st), (crtc_sel st), (cur_start_addr c).
    replace (set_cur_start_addr (cur_start_addr c) c) with c by (by destruct c).
    split; [|split; [lia|split; [done|split; [exact E|done]]]].
    unfold ret. f_equal. unfold c. rewrite with_con_self. by destruct st.
Qed.

Lemma flush_run i st : 0 <= i < NR_TTYS -> con_ok i (console_table st i) ->
  exists r s, flush i st = Ok tt (with_crtc r s st) /\ shows (console_table st i) (with_crtc r s st).
Proof.
  intros Hi Hc. pose proof (con_range i _ Hi Hc) as Hr. unfold flush.
  rewrite (bind_run _ _ _ _ _ (getcon_run i st Hi)), (bind_run _ _ _ _ _ (set_cursor_run _ _)), set_screen_start_run.
  exists (set_regs_pair START_ADDR_HIGH START_ADDR_LOW (cur_start_addr (console_table st i))
    (set_regs_pair CUR_POS_HIGH CUR_POS_LOW (u16 (cur_cursor_pos (console_table st i))) (crtc st))), START_ADDR_LOW.
  split; [reflexivity|]. unfold shows. cbn [crtc with_crtc set_crtc_sel set_crtc]. split.
  - rewrite reg_pair_other by done. rewrite u16_id by lia. apply reg_pair_set; [done|lia].
  - apply reg_pair_set; [done|lia].
Qed.

(** ** [out_char] *)

Definition set_cell (pos ch : Z) (m : mem) : mem :=
  upd (upd m (V_MEM_BASE + 2 * pos) ch) (V_MEM_BASE + 2 * pos + 1) DEFAULT_CHAR_COLOR.
Definition with_tmem (m : mem) (st : tsys) : tsys := set_tkern (set_memory m (tkern st)) st.

(** what a character does to the cursor and to the cells *)
Definition cursor_after (ch : Z) (c : CONSOLE) : Z :=
  let cur := cur_cursor_pos c in let o := orig_start_addr c in
  if ch =? 10 then if cur <? o + CON_SIZE - SCREEN_WIDTH then o + ((cur - o) / SCREEN_WIDTH + 1) * SCREEN_WIDTH else cur
  else if ch =? 8 then if o <? cur then cur - 1 else cur
  else if cur <? o + CON_SIZE - 1 then cur + 1 else cur.
Definition cells_after (ch : Z) (c : CONSOLE) (m : mem) : mem :=
  let cur := cur_cursor_pos c in let o := orig_start_addr c in
  if ch =? 10 then m
  else if ch =? 8 then if o <? cur then set_cell (cur - 1) 32 m else m
  else if cur <? o + CON_SIZE - 1 then set_cell cur ch m else m.

Lemma put_cell_run c ch st : 0 <= cur_cursor_pos c < 16384 -> v_mem_base c = V_MEM_BASE -> 0 <= ch < 256 ->
  put_cell c ch st = Ok tt (with_tmem (set_cell (cur_cursor_pos c) ch (memory (tkern st))) st).
Proof.
  intros Hp Hb Hch. unfold put_cell. rewrite Hb. rewrite u32_id by (unfold V_MEM_BASE; lia).
  replace (cur_cursor_pos c * 2 + V_MEM_BASE) with (V_MEM_BASE + 2 * cur_cursor_pos c) by lia.
  unfold pokeb, modify, bind, with_tmem, set_cell. cbn. rewrite !u8_id by (unfold DEFAULT_CHAR_COLOR; lia). reflexivity.
Qed.

Lemma cursor_after_ok ch i c : 0 <= i < NR_TTYS -> con_ok i c -> con_ok i (set_cur_cursor_pos (cursor_after ch c) c).
Proof.
  intros Hi Hc. pose proof (con_range i c Hi Hc) as Hr. destruct Hc as [H1 H2 H3 H4 H5]. split; try done.
  cbn. unfold cursor_after. unfold CON_SIZE, SCREEN_WIDTH in *.
  pose proof (Z.div_mod (cur_cursor_pos c - orig_start_addr c) 80 ltac:(lia)) as Hd.
  pose proof (Z.mod_pos_bound (cur_cursor_pos c - orig_start_addr c) 80 ltac:(lia)) as Hm.
  repeat case_match; zbool; lia.
Qed.

(** the switch of [out_char] *)
Definition out_switch (ch i : Z) (c : CONSOLE) : M tsys unit :=
  if ch =? 10 then
    when (cur_cursor_pos c <? u32 (orig_start_addr c + v_mem_size c - SCREEN_WIDTH))
      (modcon i (set_cur_cursor_pos (u32 (orig_start_addr c +
         (u32 (cur_cursor_pos c - orig_start_addr c) / SCREEN_WIDTH + 1) * SCREEN_WIDTH))))
  else if ch =? 8 then
    when (orig_start_addr c <? cur_cursor_pos c)
      (modcon i (set_cur_cursor_pos (u32 (cur_cursor_pos c - 1))) ;;
       c ← getcon i;
       put_cell c 32)
  else
    when (cur_cursor_pos c <? u32 (orig_start_addr c + v_mem_size c - 1))
      (put_cell c ch ;;
       modcon i (fun c => set_cur_cursor_pos (u32 (cur_cursor_pos c + 1)) c)).

Lemma set_cursor_same c : set_cur_cursor_pos (cur_cursor_pos c) c = c.
Proof. by destruct c. Qed.
Lemma with_tmem_same st : with_tmem (memory (tkern st)) st = st.
Proof. destruct st as [[] ? ? ? ? ? ? ? ? ?]. done. Qed.

Lemma out_switch_run ch i st : 0 <= i < NR_TTYS -> con_ok i (console_table st i) -> 0 <= ch < 256 ->
  let c := console_table st i in
  out_switch ch i c st = Ok tt (with_con i (set_cur_cursor_pos (cursor_after ch c) c)
    (with_tmem (cells_after ch c (memory (tkern st))) st)).
Proof.
  intros Hi Hc Hch c. pose proof (con_range i c Hi Hc) as Hr. pose proof (co_base _ _ Hc) as Hb. fold c in Hb.
  assert (Hst : st = with_con i c (with_tmem (memory (tkern st)) st)).
  { rewrite with_tmem_same. unfold c. by rewrite with_con_self. }
  destruct Hr as (Hr1 & Hr2 & Hr3 & Hr4).
  unfold out_switch, cursor_after, cells_after, CON_SIZE. rewrite Hr4.
  rewrite !(u32_id (orig_start_addr c + _ - _)) by (unfold SCREEN_WIDTH; lia).
  destruct (ch =? 10) eqn:E1; [|destruct (ch =? 8) eqn:E2].
  - destruct (cur_cursor_pos c <? _) eqn:E; unfold when; zbool; [|by rewrite set_cursor_same, <- Hst].
    rewrite modcon_run by done. fold c. rewrite (u32_id (cur_cursor_pos c - orig_start_addr c)) by lia.
    assert (0 <= (cur_cursor_pos c - orig_start_addr c) / SCREEN_WIDTH < 70).
    { unfold SCREEN_WIDTH. split; [apply Z.div_pos; lia|apply Z.div_lt_upper_bound; lia]. }
    rewrite u32_id by (unfold SCREEN_WIDTH in *; lia). rewrite with_tmem_same. reflexivity.
  - destruct (orig_start_addr c <? cur_cursor_pos c) eqn:E; unfold when; zbool; [|by rewrite set_cursor_same, <- Hst].
    rewrite (bind_run _ _ _ _ _ (modcon_run i _ st Hi)). fold c. rewrite u32_id by lia.
    rewrite (bind_run _ _ _ _ _ (getcon_run i _ Hi)). cbn [console_table set_console_table]. rewrite upd_eq.
    rewrite put_cell_run by (cbn; (done || lia)). reflexivity.
  - destruct (cur_cursor_pos c <? _) eqn:E; unfold when; zbool; [|by rewrite set_cursor_same, <- Hst].
    rewrite (bind_run _ _ _ _ _ (put_cell_run c ch st ltac:(lia) Hb Hch)).
    rewrite modcon_run by done. cbn [console_table with_tmem set_tkern]. fold c. rewrite u32_id by lia. reflexivity.
Qed.

Lemma out_char_run ch i st : 0 <= i < NR_TTYS -> con_ok i (console_table st i) -> 0 <= ch < 256 ->
  let c := console_table st i in
  exists r s a, let c' := set_cur_start_addr a (set_cur_cursor_pos (cursor_after ch c) c) in
    let st' := with_crtc r s (with_con i c' (with_tmem (cells_after ch c (memory (tkern st))) st)) in
    out_char ch i st = Ok tt st' /\ con_ok i c' /\ on_screen c' /\ shows c' st' /\
    (cursor_after ch c < cur_start_addr c + SCREEN_SIZE -> a = cur_start_addr c).
Proof.
  intros Hi Hc Hch c. unfold out_char. rewrite (u8_id ch Hch).
  rewrite (bind_run _ _ _ _ _ (getcon_run i st Hi)). fold c. fold (out_switch ch i c).
  rewrite (bind_run _ _ _ _ _ (out_switch_run ch i st Hi Hc Hch)). fold c.
  set (c1 := set_cur_cursor_pos (cursor_after ch c) c). set (st1 := with_con i c1 _).
  assert (Hc1 : con_ok i c1) by (by apply cursor_after_ok).
  assert (E1 : console_table st1 i = c1) by apply upd_eq.
  pose proof (con_range i c1 Hi Hc1) as Hr.
  destruct (scroll_loop_run SCROLL_FUEL i st1 Hi) as (r & s & a & E & Ha & Hok & Hon & Hsame); rewrite ?E1 in *.
  - done.
  - assert ((cur_cursor_pos c1 - cur_start_addr c1 - SCREEN_SIZE) / SCREEN_WIDTH < 60)
      by (apply Z.div_lt_upper_bound; unfold SCREEN_WIDTH, SCREEN_SIZE; lia).
    unfold SCROLL_FUEL. lia.
  - unfold SCROLL_FUEL. lia.
  - rewrite (bind_run _ _ _ _ _ E). set (c2 := set_cur_start_addr a c1) in *.
    set (st2 := with_crtc r s (with_con i c2 st1)).
    assert (E2 : console_table st2 i = c2) by apply upd_eq.
    destruct (flush_run i st2 Hi) as (r' & s' & Ef & Hs); rewrite E2 in *; [done|].
    assert (Est : with_crtc r' s' st2 = with_crtc r' s' (with_con i c2 (with_tmem (cells_after ch c (memory (tkern st))) st))).
    { unfold st2, st1. rewrite with_con_twice. reflexivity. }
    exists r', s', a. fold c1 c2. cbv zeta. rewrite <- Est. split; [exact Ef|]. split; [done|]. split; [done|].
    split; [exact Hs|]. intros Hx. by apply Hsame.
Qed.

(** ** Properties *)

Lemma cells_after_other ch i c m a : 0 <= i < NR_TTYS -> con_ok i c ->
  a < V_MEM_BASE + 2 * CON_SIZE * i \/ V_MEM_BASE + 2 * CON_SIZE * (i + 1) <= a -> cells_after ch c m a = m a.
Proof.
  intros Hi Hc Ha. pose proof (con_range i c Hi Hc) as Hr. destruct Hc as [H1 _ _ _ H5].
  assert (H : forall p x, CON_SIZE * i <= p < CON_SIZE * i + CON_SIZE -> set_cell p x m a = m a).
  { intros p x Hp. unfold set_cell. rewrite !upd_ne by lia. done. }
  unfold cells_after. unfold CON_SIZE in *. repeat case_match; zbool; try done; apply H; lia.
Qed.

(** C31: A character on a console. [out_char] always ends (the scroll loop reaches
    the cursor within its fuel), keeps every console well-formed and leaves the
    cursor above the end of the screen; it changes no other console and no byte
    outside the video memory of its own console. A printable character is stored
    at the cursor, which moves on; a newline takes the cursor to the start of the
    next row; a backspace blanks the cell before the cursor. *)
Theorem out_char_spec ch i st : cons_ok st -> 0 <= i < NR_TTYS -> 0 <= ch < 256 ->
  let c := console_table st i in let cur := cur_cursor_pos c in let o := orig_start_addr c in
  exists st', out_char ch i st = Ok tt st' /\ cons_ok st' /\ on_screen (console_table st' i) /\
    (forall j, j <> i -> console_table st' j = console_table st j) /\
    (forall a, a < V_MEM_BASE + 2 * CON_SIZE * i \/ V_MEM_BASE + 2 * CON_SIZE * (i + 1) <= a ->
       memory (tkern st') a = memory (tkern st) a) /\
    proc_table (tkern st') = proc_table (tkern st) /\ tty_table st' = tty_table st /\
    (ch <> 10 -> ch <> 8 -> cur < o + CON_SIZE - 1 ->
       memory (tkern st') (V_MEM_BASE + 2 * cur) = ch /\ cur_cursor_pos (console_table st' i) = cur + 1) /\
    (ch = 10 -> cur < o + CON_SIZE - SCREEN_WIDTH ->
       cur < cur_cursor_pos (console_table st' i) <= cur + SCREEN_WIDTH /\
       (cur_cursor_pos (console_table st' i) - o) `mod` SCREEN_WIDTH = 0) /\
    (ch = 8 -> o < cur -> memory (tkern st') (V_MEM_BASE + 2 * (cur - 1)) = 32 /\
       cur_cursor_pos (console_table st' i) = cur - 1).
Proof.
  intros Hcons Hi Hch c cur o. pose proof (Hcons i Hi) as Hc. fold c in Hc.
  destruct (out_char_run ch i st Hi Hc Hch) as (r & s & a & E & Hok & Hon & _). fold c in E, Hok, Hon.
  set (c' := set_cur_start_addr a _) in *. set (st' := with_crtc r s _) in E. exists st'. split; [exact E|].
  assert (Ec : forall j, console_table st' j = if decide (j = i) then c' else console_table st j) by (intros j; apply upd_case).
  assert (Em : memory (tkern st') = cells_after ch c (memory (tkern st))) by reflexivity.
  pose proof (Ec i) as Eci. rewrite decide_True in Eci by done. rewrite Eci.
  assert (Ecur : cur_cursor_pos c' = cursor_after ch c) by reflexivity.
  split; [intros j Hj; rewrite Ec; case_decide; [by subst|by apply Hcons]|]. split; [done|].
  split; [intros j Hj; by rewrite Ec, decide_False|].
  split; [intros x Hx; rewrite Em; by apply (cells_after_other ch i)|]. split; [done|]. split; [done|].
  rewrite Ecur, Em. unfold cursor_after, cells_after. fold cur o. split; [|split].
  - intros H1 H2 H3. rewrite (proj2 (Z.eqb_neq ch 10)), (proj2 (Z.eqb_neq ch 8)), (proj2 (Z.ltb_lt _ _)) by done.
    unfold set_cell. rewrite upd_ne, upd_eq by lia. done.
  - intros -> H. change (10 =? 10) with true. rewrite (proj2 (Z.ltb_lt _ _)) by done. unfold SCREEN_WIDTH in *.
    pose proof (Z.div_mod (cur - o) 80 ltac:(lia)). pose proof (Z.mod_pos_bound (cur - o) 80 ltac:(lia)).
    split; [lia|]. replace (o + ((cur - o) / 80 + 1) * 80 - o) with (((cur - o) / 80 + 1) * 80) by lia. apply Z_mod_mult.
  - intros -> H. change (8 =? 10) with false. change (8 =? 8) with true. rewrite (proj2 (Z.ltb_lt _ _)) by done.
    unfold set_cell. rewrite upd_ne, upd_eq by lia. done.
Qed.

(** Output on any console moves the display to it: [flush] does not ask whether
    the console is the current one, so after a character on console [i] the
    controller shows console [i] while [nr_cur_console], which decides who gets
    the keys, is unchanged. *)
Theorem out_char_takes_display ch i st : cons_ok st -> 0 <= i < NR_TTYS -> 0 <= ch < 256 -> i <> nr_cur_console st ->
  exists st', out_char ch i st = Ok tt st' /\ shows (console_table st' i) st' /\ nr_cur_console st' <> i.
Proof.
  intros Hcons Hi Hch Hne. destruct (out_char_run ch i st Hi (Hcons i Hi) Hch) as (r & s & a & E & _ & _ & Hs & _).
  eexists. split; [exact E|]. split; [|exact (not_eq_sym Hne)].
  set (st' := with_crtc r s _) in *. replace (console_table st' i) with
    (set_cur_start_addr a (set_cur_cursor_pos (cursor_after ch (console_table st i)) (console_table st i))); [exact Hs|].
  symmetry. apply upd_eq.
Qed.
