(* ===== verification/Keymap.v ===== *)
(** * Key codes and the key map (include/sys/keyboard.h, keymap.h)

    The codes of the keys and the table that gives for a scan code the key
    without shift, with shift and after the prefix 0xE0; characters are their
    codes. The table in the source has 256 rows of which the first 128 are
    written; the others are 0 and out of reach of a masked scan code. *)
From S2P Require Import Prelude.

Definition BREAK_FLAG : Z := 0x80.
Definition MAP_COLS : Z := 3.
Definition NR_SCAN_CODES : Z := 256.
Definition KB_CMD : Z := 0x64.
Definition KB_ACK : Z := 0xFA.
Definition FLAG_BREAK : Z := 0x0080.
Definition FLAG_EXT : Z := 0x0100.
Definition FLAG_SHIFT_L : Z := 0x0200.
Definition FLAG_SHIFT_R : Z := 0x0400.
Definition FLAG_CTRL_L : Z := 0x0800.
Definition FLAG_CTRL_R : Z := 0x1000.
Definition FLAG_ALT_L : Z := 0x2000.
Definition FLAG_ALT_R : Z := 0x4000.
Definition FLAG_PAD : Z := 0x8000.
Definition MASK_RAW : Z := 0x01FF.
Definition ESC : Z := 0x01 + FLAG_EXT.
Definition TAB : Z := 0x02 + FLAG_EXT.
Definition ENTER : Z := 0x03 + FLAG_EXT.
Definition BACKSPACE : Z := 0x04 + FLAG_EXT.
Definition GUI_L : Z := 0x05 + FLAG_EXT.
Definition GUI_R : Z := 0x06 + FLAG_EXT.
Definition APPS : Z := 0x07 + FLAG_EXT.
Definition SHIFT_L : Z := 0x08 + FLAG_EXT.
Definition SHIFT_R : Z := 0x09 + FLAG_EXT.
Definition CTRL_L : Z := 0x0A + FLAG_EXT.
Definition CTRL_R : Z := 0x0B + FLAG_EXT.
Definition ALT_L : Z := 0x0C + FLAG_EXT.
Definition ALT_R : Z := 0x0D + FLAG_EXT.
Definition CAPS_LOCK : Z := 0x0E + FLAG_EXT.
Definition NUM_LOCK : Z := 0x0F + FLAG_EXT.
Definition SCROLL_LOCK : Z := 0x10 + FLAG_EXT.
Definition F1 : Z := 0x11 + FLAG_EXT.
Definition F2 : Z := 0x12 + FLAG_EXT.
Definition F3 : Z := 0x13 + FLAG_EXT.
Definition F4 : Z := 0x14 + FLAG_EXT.
Definition F5 : Z := 0x15 + FLAG_EXT.
Definition F6 : Z := 0x16 + FLAG_EXT.
Definition F7 : Z := 0x17 + FLAG_EXT.
Definition F8 : Z := 0x18 + FLAG_EXT.
Definition F9 : Z := 0x19 + FLAG_EXT.
Definition F10 : Z := 0x1A + FLAG_EXT.
Definition F11 : Z := 0x1B + FLAG_EXT.
Definition F12 : Z := 0x1C + FLAG_EXT.
Definition PRINTSCREEN : Z := 0x1D + FLAG_EXT.
Definition PAUSEBREAK : Z := 0x1E + FLAG_EXT.
Definition INSERT : Z := 0x1F + FLAG_EXT.
Definition DELETE : Z := 0x20 + FLAG_EXT.
Definition HOME : Z := 0x21 + FLAG_EXT.
Definition END : Z := 0x22 + FLAG_EXT.
Definition PAGEUP : Z := 0x23 + FLAG_EXT.
Definition PAGEDOWN : Z := 0x24 + FLAG_EXT.
Definition UP : Z := 0x25 + FLAG_EXT.
Definition DOWN : Z := 0x26 + FLAG_EXT.
Definition LEFT : Z := 0x27 + FLAG_EXT.
Definition RIGHT : Z := 0x28 + FLAG_EXT.
Definition POWER : Z := 0x29 + FLAG_EXT.
Definition SLEEP : Z := 0x2A + FLAG_EXT.
Definition WAKE : Z := 0x2B + FLAG_EXT.
Definition PAD_SLASH : Z := 0x2C + FLAG_EXT.
Definition PAD_STAR : Z := 0x2D + FLAG_EXT.
Definition PAD_MINUS : Z := 0x2E + FLAG_EXT.
Definition PAD_PLUS : Z := 0x2F + FLAG_EXT.
Definition PAD_ENTER : Z := 0x30 + FLAG_EXT.
Definition PAD_DOT : Z := 0x31 + FLAG_EXT.
Definition PAD_0 : Z := 0x32 + FLAG_EXT.
Definition PAD_1 : Z := 0x33 + FLAG_EXT.
Definition PAD_2 : Z := 0x34 + FLAG_EXT.
Definition PAD_3 : Z := 0x35 + FLAG_EXT.
Definition PAD_4 : Z := 0x36 + FLAG_EXT.
Definition PAD_5 : Z := 0x37 + FLAG_EXT.
Definition PAD_6 : Z := 0x38 + FLAG_EXT.
Definition PAD_7 : Z := 0x39 + FLAG_EXT.
Definition PAD_8 : Z := 0x3A + FLAG_EXT.
Definition PAD_9 : Z := 0x3B + FLAG_EXT.
Definition PAD_UP : Z := PAD_8.
Definition PAD_DOWN : Z := PAD_2.
Definition PAD_LEFT : Z := PAD_4.
Definition PAD_RIGHT : Z := PAD_6.
Definition PAD_HOME : Z := PAD_7.
Definition PAD_END : Z := PAD_1.
Definition PAD_PAGEUP : Z := PAD_9.
Definition PAD_PAGEDOWN : Z := PAD_3.
Definition PAD_INS : Z := PAD_0.
Definition PAD_MID : Z := PAD_5.
Definition PAD_DEL : Z := PAD_DOT.

Definition keymap : list Z := [
  0; 0; 0; ESC; ESC; 0; 49; 33; 0; 50; 64; 0;
  51; 35; 0; 52; 36; 0; 53; 37; 0; 54; 94; 0;
  55; 38; 0; 56; 42; 0; 57; 40; 0; 48; 41; 0;
  45; 95; 0; 61; 43; 0; BACKSPACE; BACKSPACE; 0; TAB; TAB; 0;
  113; 81; 0; 119; 87; 0; 101; 69; 0; 114; 82; 0;
  116; 84; 0; 121; 89; 0; 117; 85; 0; 105; 73; 0;
  111; 79; 0; 112; 80; 0; 91; 123; 0; 93; 125; 0;
  ENTER; ENTER; PAD_ENTER; CTRL_L; CTRL_L; CTRL_R; 97; 65; 0; 115; 83; 0;
  100; 68; 0; 102; 70; 0; 103; 71; 0; 104; 72; 0;
  106; 74; 0; 107; 75; 0; 108; 76; 0; 59; 58; 0;
  39; 34; 0; 96; 126; 0; SHIFT_L; SHIFT_L; 0; 92; 124; 0;
  122; 90; 0; 120; 88; 0; 99; 67; 0; 118; 86; 0;
  98; 66; 0; 110; 78; 0; 109; 77; 0; 44; 60; 0;
  46; 62; 0; 47; 63; PAD_SLASH; SHIFT_R; SHIFT_R; 0; 42; 42; 0;
  ALT_L; ALT_L; ALT_R; 32; 32; 0; CAPS_LOCK; CAPS_LOCK; 0; F1; F1; 0;
  F2; F2; 0; F3; F3; 0; F4; F4; 0; F5; F5; 0;
  F6; F6; 0; F7; F7; 0; F8; F8; 0; F9; F9; 0;
  F10; F10; 0; NUM_LOCK; NUM_LOCK; 0; SCROLL_LOCK; SCROLL_LOCK; 0; PAD_HOME; 55; HOME;
  PAD_UP; 56; UP; PAD_PAGEUP; 57; PAGEUP; PAD_MINUS; 45; 0; PAD_LEFT; 52; LEFT;
  PAD_MID; 53; 0; PAD_RIGHT; 54; RIGHT; PAD_PLUS; 43; 0; PAD_END; 49; END;
  PAD_DOWN; 50; DOWN; PAD_PAGEDOWN; 51; PAGEDOWN; PAD_INS; 48; INSERT; PAD_DOT; 46; DELETE;
  0; 0; 0; 0; 0; 0; 0; 0; 0; F11; F11; 0;
  F12; F12; 0; 0; 0; 0; 0; 0; 0; 0; 0; GUI_L;
  0; 0; GUI_R; 0; 0; APPS; 0; 0; 0; 0; 0; 0;
  0; 0; 0; 0; 0; 0; 0; 0; 0; 0; 0; 0;
  0; 0; 0; 0; 0; 0; 0; 0; 0; 0; 0; 0;
  0; 0; 0; 0; 0; 0; 0; 0; 0; 0; 0; 0;
  0; 0; 0; 0; 0; 0; 0; 0; 0; 0; 0; 0;
  0; 0; 0; 0; 0; 0; 0; 0; 0; 0; 0; 0;
  0; 0; 0; 0; 0; 0; 0; 0; 0; 0; 0; 0;
  0; 0; 0; 0; 0; 0; 0; 0; 0; 0; 0; 0;
  0; 0; 0; 0; 0; 0; 0; 0; 0; 0; 0; 0].

(** [keyrow[column]] for [keyrow = &keymap[(scan_code & 0x7F) * MAP_COLS]] *)
Definition key_at (scan_code column : Z) : Z :=
  nth (Z.to_nat (Z.land scan_code 0x7F * MAP_COLS + column)) keymap 0.
