(* ===== verification/Timer.v ===== *)
(** * Waiting in a loop (kernel/hd.c: waitfor; kernel/clock.c: milli_delay;
    kernel/keyboard.c: kb_wait, kb_ack)

    The loops of the drivers ask the clock or a port until the answer is the one they want.
    The answers are the environment's: [clock] is the sequence of what [get_ticks] returns,
    [port] that of the bytes [in_byte] reads. Termination is a property of the loop and of
    the clock: it ends for every behaviour of the port when the ticks go on counting. *)
From S2P Require Import Prelude Const CLib Protect Proc Irq Keymap.

(** ** The loops *)

Definition STATUS_BSY : Z := 0x80.
Definition STATUS_DRQ : Z := 0x08.
Definition HD_TIMEOUT : Z := 10000.

(** the number of answers taken from the clock and from the port *)
Record polls := mkPolls { asked : Z; polled : Z }.

Section wait.
Context (clock port : Z -> Z).

Definition ask_ticks : M polls Z :=
  fun st => Ok (clock (asked st)) (mkPolls (asked st + 1) (polled st)).
Definition in_port : M polls Z :=
  fun st => Ok (port (polled st)) (mkPolls (asked st) (polled st + 1)).

(** [(get_ticks() - t) * 1000 / HZ], in [int] *)
Definition elapsed (now t : Z) : Z := Z.quot (i32 (i32 (now - t) * 1000)) HZ.

Fixpoint waitfor_loop (fuel : nat) (mask val timeout t : Z) : M polls Z :=
  match fuel with
  | O => stop HSpin
  | S fuel' =>
      now ← ask_ticks;
      if elapsed now t <? timeout then
        s ← in_port;
        if Z.land s mask =? val then ret 1 else waitfor_loop fuel' mask val timeout t
      else ret 0
  end.
Definition waitfor (fuel : nat) (mask val timeout : Z) : M polls Z :=
  t ← ask_ticks; waitfor_loop fuel mask val timeout t.

Fixpoint milli_loop (fuel : nat) (milli_sec t : Z) : M polls unit :=
  match fuel with
  | O => stop HSpin
  | S fuel' =>
      now ← ask_ticks;
      if elapsed now t <? milli_sec then milli_loop fuel' milli_sec t else ret tt
  end.
Definition milli_delay (fuel : nat) (milli_sec : Z) : M polls unit :=
  t ← ask_ticks; milli_loop fuel milli_sec t.

(** until the input buffer of the keyboard is empty; until the keyboard has answered *)
Fixpoint kb_wait (fuel : nat) : M polls unit :=
  match fuel with
  | O => stop HSpin
  | S fuel' => s ← in_port; if has s 0x02 then kb_wait fuel' else ret tt
  end.
Fixpoint kb_ack (fuel : nat) : M polls unit :=
  match fuel with
  | O => stop HSpin
  | S fuel' => c ← in_port; if negb (KB_ACK =? c) then kb_ack fuel' else ret tt
  end.

(** ** The deadline *)

(** ticks count up, at most 1000 seconds pass between two questions, and the count stays
    an [int] *)
Record counts : Prop := {
  ck_step : forall n, clock n <= clock (n + 1) <= clock n + 100000;
  ck_range : forall n, 0 <= clock n < 2147483648 }.

(** [clock] has moved on by [ms] milliseconds [n] questions after the one for [t] *)
Definition late (a ms n : Z) : bool := ms * HZ <=? (clock (a + n) - clock a) * 1000.

Context (Hc : counts).

Lemma clock_mono a n : 0 <= n -> clock a <= clock (a + n).
Proof.
  intros Hn. revert n Hn. apply natlike_ind; [by rewrite Z.add_0_r|]. intros n Hn IH.
  pose proof (ck_step Hc (a + n)). replace (a + Z.succ n) with (a + n + 1) by lia. lia.
Qed.

(** up to the first late answer the arithmetic of the loop is exact *)
Lemma elapsed_exact a ms n : 0 <= ms <= 1000000 -> 0 < n -> (forall k, 0 < k < n -> late a ms k = false) ->
  (elapsed (clock (a + n)) (clock a) <? ms) = negb (late a ms n).
Proof.
  intros Hms Hn Hb. pose proof (clock_mono a n ltac:(lia)) as Hm.
  assert (Hd : clock (a + n) - clock a <= 200001).
  { destruct (decide (n = 1)) as [->|].
    - pose proof (ck_step Hc a). lia.
    - specialize (Hb (n - 1) ltac:(lia)). unfold late, HZ in Hb. pose proof (ck_step Hc (a + (n - 1))) as Hs.
      replace (a + (n - 1) + 1) with (a + n) in Hs by lia. zbool. lia. }
  pose proof (ck_range Hc (a + n)). pose proof (ck_range Hc a).
  unfold elapsed, late, HZ. rewrite !i32_id by (rewrite ?i32_id by lia; lia). rewrite Z.quot_div_nonneg by lia.
  apply eq_bool_prop_intro. rewrite negb_True, !Is_true_true, Z.ltb_lt, Z.leb_le. Z.div_mod_to_equations. lia.
Qed.

(** ** The loops end *)

(** what [waitfor] finds among the [D] answers in front of the deadline *)
Definition hit (mask val p : Z) : bool := Z.land (port p) mask =? val.

Lemma waitfor_loop_run mask val ms a : 0 <= ms <= 1000000 -> forall d n p fuel,
  0 < n -> late a ms (n + Z.of_nat d) = true -> (forall k, 0 < k < n + Z.of_nat d -> late a ms k = false) -> (d < fuel)%nat ->
  waitfor_loop fuel mask val ms (clock a) (mkPolls (a + n) p) =
    match find_first (hit mask val) d p with
    | Some j => Ok 1 (mkPolls (a + n + (j - p) + 1) (j + 1))
    | None => Ok 0 (mkPolls (a + n + Z.of_nat d + 1) (p + Z.of_nat d))
    end.
Proof.
  intros Hms. induction d as [|d IH]; intros n p fuel Hn Hl Hb Hf; (destruct fuel as [|fuel]; [lia|]); cbn [waitfor_loop find_first].
  - rewrite Z.add_0_r in *. unfold bind, ask_ticks at 1. cbn [asked polled]. rewrite (elapsed_exact a ms n Hms Hn) by (intros k Hk; apply Hb; lia).
    rewrite Hl. cbn [negb]. by rewrite Z.add_0_r.
  - unfold bind at 1, ask_ticks. cbn [asked polled]. rewrite (elapsed_exact a ms n Hms Hn) by (intros k Hk; apply Hb; lia).
    rewrite (Hb n) by lia. cbn [negb]. unfold bind at 1, in_port. cbn [asked polled]. fold (hit mask val p).
    destruct (hit mask val p); [by rewrite Z.sub_diag, Z.add_0_r|].
    replace (a + n + 1) with (a + (n + 1)) by lia. rewrite (IH (n + 1) (p + 1) fuel); [|lia| | |lia].
    + destruct (find_first (hit mask val) d (p + 1)); f_equal; f_equal; lia.
    + by replace (n + 1 + Z.of_nat d) with (n + Z.of_nat (S d)) by lia.
    + intros k Hk. apply Hb. lia.
Qed.

(** the first late question *)
Lemma first_late a ms n : 0 <= n -> late a ms n = true -> exists d, late a ms (1 + Z.of_nat d) = true /\
  forall k, 0 < k < 1 + Z.of_nat d -> late a ms k = false.
Proof.
  intros Hn Hl. destruct (decide (n = 0)) as [->|].
  { exists 0%nat. split; [|intros k Hk; lia]. unfold late, HZ in *. rewrite Z.add_0_r, Z.sub_diag in Hl. zbool.
    change (1 + Z.of_nat 0) with 1. apply Z.leb_le. pose proof (ck_step Hc a). lia. }
  destruct (find_first (late a ms) (Z.to_nat n) 1) as [j|] eqn:E.
  - apply find_first_Some in E as (Hj & Hlj & Hb). exists (Z.to_nat (j - 1)).
    replace (1 + Z.of_nat (Z.to_nat (j - 1))) with j by lia. split; [done|]. intros k Hk. apply Hb. lia.
  - rewrite find_first_None in E. by rewrite E in Hl by lia.
Qed.

(** C37: [waitfor] ends whatever the drive does, as long as the ticks go on counting: with
    [D] the number of answers of the clock in front of the deadline, it returns 1 right after
    the first of the next [D] status bytes that matches and reads no further one, and 0 after
    [D] bytes when none does. [D + 1] turns of the loop are always enough. *)
Theorem waitfor_ends mask val timeout st n : 0 <= timeout <= 1000000 -> 0 <= n -> late (asked st) timeout n = true ->
  exists D : nat, (forall k, 0 < k <= Z.of_nat D -> late (asked st) timeout k = false) /\
    late (asked st) timeout (Z.of_nat D + 1) = true /\
    forall fuel, (D < fuel)%nat ->
      waitfor fuel mask val timeout st =
        match find_first (hit mask val) D (polled st) with
        | Some j => Ok 1 (mkPolls (asked st + (j - polled st) + 2) (j + 1))
        | None => Ok 0 (mkPolls (asked st + Z.of_nat D + 2) (polled st + Z.of_nat D))
        end.
Proof.
  intros Hms Hn Hl. destruct (first_late (asked st) timeout n Hn Hl) as (D & H1 & H2). exists D.
  split; [intros k Hk; apply H2; lia|]. split; [by rewrite Z.add_comm|]. intros fuel Hf.
  unfold waitfor, bind, ask_ticks. rewrite (waitfor_loop_run mask val timeout (asked st) Hms D 1 (polled st) fuel); [|lia|done|done|done].
  destruct (find_first _ _ _); f_equal; f_equal; lia.
Qed.

(** [milli_delay] is [waitfor] on a port that never answers: it ends at the deadline *)
Lemma milli_loop_run ms a : 0 <= ms <= 1000000 -> forall d n p fuel,
  0 < n -> late a ms (n + Z.of_nat d) = true -> (forall k, 0 < k < n + Z.of_nat d -> late a ms k = false) -> (d < fuel)%nat ->
  milli_loop fuel ms (clock a) (mkPolls (a + n) p) = Ok tt (mkPolls (a + n + Z.of_nat d + 1) p).
Proof.
  intros Hms. induction d as [|d IH]; intros n p fuel Hn Hl Hb Hf; (destruct fuel as [|fuel]; [lia|]); cbn [milli_loop];
    unfold bind, ask_ticks; cbn [asked polled]; rewrite (elapsed_exact a ms n Hms Hn) by (intros k Hk; apply Hb; lia).
  - rewrite Z.add_0_r in *. by rewrite Hl.
  - rewrite (Hb n) by lia. cbn [negb]. replace (a + n + 1) with (a + (n + 1)) by lia. rewrite IH; [f_equal; f_equal; lia|lia| | |lia].
    + by replace (n + 1 + Z.of_nat d) with (n + Z.of_nat (S d)) by lia.
    + intros k Hk. apply Hb. lia.
Qed.
Lemma milli_delay_ends ms st n : 0 <= ms <= 1000000 -> 0 <= n -> late (asked st) ms n = true ->
  exists D : nat, late (asked st) ms (Z.of_nat D + 1) = true /\
    forall fuel, (D < fuel)%nat -> milli_delay fuel ms st = Ok tt (mkPolls (asked st + Z.of_nat D + 2) (polled st)).
Proof.
  intros Hms Hn Hl. destruct (first_late (asked st) ms n Hn Hl) as (D & H1 & H2). exists D. split; [by rewrite Z.add_comm|].
  intros fuel Hf. unfold milli_delay, bind, ask_ticks. rewrite (milli_loop_run ms (asked st) Hms D 1) by (done || lia).
  f_equal. f_equal. lia.
Qed.
End wait.

(** the keyboard's loops have no deadline: they end when the byte they want comes *)
Lemma kb_ack_run port : forall fuel st, kb_ack port fuel st =
  match find_first (fun p => KB_ACK =? port p) fuel (polled st) with
  | Some j => Ok tt (mkPolls (asked st) (j + 1)) | None => Halt HSpin end.
Proof.
  induction fuel as [|fuel IH]; intros st; cbn [kb_ack find_first]; [done|]. unfold bind, in_port.
  destruct (KB_ACK =? port (polled st)); [done|]. cbn [negb]. by rewrite IH.
Qed.
Lemma kb_wait_run port : forall fuel st, kb_wait port fuel st =
  match find_first (fun p => negb (has (port p) 0x02)) fuel (polled st) with
  | Some j => Ok tt (mkPolls (asked st) (j + 1)) | None => Halt HSpin end.
Proof.
  induction fuel as [|fuel IH]; intros st; cbn [kb_wait find_first]; [done|]. unfold bind, in_port.
  destruct (has (port (polled st)) 0x02); [|done]. cbn [negb]. by rewrite IH.
Qed.

(** a drive that stays busy for three status bytes, on a clock of one tick per answer *)
Lemma waitfor_ends_witness : exists D : nat, late (fun n => Z.min (Z.max 0 n) 100000) 0 HD_TIMEOUT (Z.of_nat D + 1) = true /\
  waitfor (fun n => Z.min (Z.max 0 n) 100000) (fun p => if p <? 3 then 0xD0 else 0x50) (S D) STATUS_BSY 0 HD_TIMEOUT (mkPolls 0 0)
    = Ok 1 (mkPolls 5 4).
Proof.
  destruct (waitfor_ends (fun n => Z.min (Z.max 0 n) 100000) (fun p => if p <? 3 then 0xD0 else 0x50)) with
    (mask := STATUS_BSY) (val := 0) (timeout := HD_TIMEOUT) (st := mkPolls 0 0) (n := 1000) as (D & H1 & H2 & H3).
  - split; intros n; lia.
  - vm_compute. split; discriminate.
  - lia.
  - reflexivity.
  - exists D. split; [exact H2|]. rewrite H3 by lia. cbn [polled asked].
    assert (D = 999)%nat as ->.
    { unfold late, HZ, HD_TIMEOUT in *. cbn [asked] in *. zbool. destruct (decide (D = 999)%nat); [done|].
      destruct (decide (D < 999)%nat); [lia|]. specialize (H1 1000 ltac:(lia)). zbool. lia. }
    reflexivity.
Defined.
