(* ===== verification/Tty.v ===== *)
(** * Keys into a terminal (kernel/tty.c: put_key, in_process; kernel/keyboard.c)

    The interrupt handler puts scan codes into the keyboard's buffer;
    [keyboard_read] takes the codes of one key from it, keeps track of the shift
    keys and hands the key to [in_process], which puts characters into the
    terminal's buffer and acts on function keys. The codes that arrive while the
    task spins on an empty buffer are the head of [kb_codes]. *)
From S2P Require Import Prelude Const Protect Proc Ring TtyState Console Keymap.

(** ** kernel/tty.c *)

Definition put_key (i key : Z) : M tsys unit :=
  t ← gettty i;
  when (inbuf_count t <? TTY_IN_BYTES) (
    modtty i (fun t => set_in_buf (upd (in_buf t) (p_inbuf_head t) (u32 key)) t) ;;
    modtty i (fun t => set_p_inbuf_head (ring_next TTY_IN_BYTES (p_inbuf_head t)) t) ;;
    modtty i (fun t => set_inbuf_count (inbuf_count t + 1) t)).

Definition in_process (key i : Z) : M tsys unit :=
  if negb (has key FLAG_EXT) then put_key i key
  else
    let raw_code := Z.land key MASK_RAW in
    if raw_code =? ENTER then put_key i 10
    else if raw_code =? BACKSPACE then put_key i 8
    else if (F1 <=? raw_code) && (raw_code <=? F9) then set_cur_con (i32 (key - F1))
    else if raw_code =? UP then
      when (has key FLAG_SHIFT_L || has key FLAG_SHIFT_R) (t ← gettty i; scroll_screen (p_con t) SCR_UP)
    else if raw_code =? DOWN then
      when (has key FLAG_SHIFT_L || has key FLAG_SHIFT_R) (t ← gettty i; scroll_screen (p_con t) SCR_DOWN)
    else ret tt.

(** ** kernel/keyboard.c *)

Definition TRUE : Z := 1.
Definition FALSE : Z := 0.

(** [scan_code] is what [in_byte(0x60)] gives *)
Definition keyboard_handler (scan_code : Z) : M tsys unit :=
  st ← get;
  when (kb_count (kb st) <? KB_IN_BYTE) (
    modkb (fun k => set_kb_buf (upd (kb_buf k) (p_head k) (u8 scan_code)) k) ;;
    modkb (fun k => set_p_head (ring_next KB_IN_BYTE (p_head k)) k) ;;
    modkb (fun k => set_kb_count (kb_count k + 1) k)) ;;
  klift (modify (set_key_pressed 1)).

(** the codes sent to the keyboard; the waits for its acknowledge are not
    modelled *)
Definition set_leds : M tsys unit :=
  st ← get;
  let k := kb st in
  let leds := u8 (Z.lor (Z.lor (Z.shiftl (caps_lock k) 2) (Z.shiftl (num_lock k) 1)) (scroll_lock k)) in
  modify (fun st => set_kb_sent (kb_sent st ++ [LED_CODE; leds]) st).

Definition init_keyboard : M tsys unit :=
  modkb (set_kb_count 0) ;; modkb (set_p_head 0) ;; modkb (set_p_tail 0) ;;
  modkb (set_code_with_E0 0) ;;
  modkb (fun k => set_shift_l 0 (set_shift_r 0 k)) ;;
  modkb (fun k => set_alt_l 0 (set_alt_r 0 k)) ;;
  modkb (fun k => set_ctrl_l 0 (set_ctrl_r 0 k)) ;;
  modkb (set_caps_lock 0) ;; modkb (set_num_lock 1) ;; modkb (set_scroll_lock 0) ;;
  set_leds.

(** the loop [while (kb_in.count <= 0)]: it ends when an interrupt brings a code *)
Definition kb_spin : M tsys unit :=
  st ← get;
  if kb_count (kb st) <=? 0 then
    match kb_codes st with
    | [] => stop HSpin
    | c :: l => modify (set_kb_codes l) ;; keyboard_handler c
    end
  else ret tt.

Definition get_byte_from_kbuf : M tsys Z :=
  kb_spin ;;
  st ← get;
  let scan_code := u8 (kb_buf (kb st) (p_tail (kb st))) in
  modkb (fun k => set_p_tail (ring_next KB_IN_BYTE (p_tail k)) k) ;;
  modkb (fun k => set_kb_count (kb_count k - 1) k) ;;
  ret scan_code.

Definition pausebrk_scode : list Z := [0xE1; 0x1D; 0x45; 0xE1; 0x9D; 0xC5].

(** the loop that compares the codes of the pause key: [is_pausebreak] *)
Fixpoint pause_loop (l : list Z) : M tsys bool :=
  match l with
  | [] => ret true
  | x :: l' => b ← get_byte_from_kbuf; if negb (b =? x) then ret false else pause_loop l'
  end.

(** two codes that follow: [PRINTSCREEN] if they are 0xE0 and [last] *)
Definition print_screen (last : Z) : M tsys Z :=
  b ← get_byte_from_kbuf;
  if 0xE0 =? b then
    b ← get_byte_from_kbuf;
    if last =? b then ret PRINTSCREEN else ret 0
  else ret 0.

(** the prefixes: the key if it is known already, else 0, and the scan code *)
Definition read_prefix : M tsys (Z * Z) :=
  scan_code ← get_byte_from_kbuf;
  if 0xE1 =? scan_code then
    b ← pause_loop pausebrk_scode;
    ret (if b then PAUSEBREAK else 0, scan_code)
  else if 0xE0 =? scan_code then
    scan_code ← get_byte_from_kbuf;
    key ← (if 0x2A =? scan_code then print_screen 0x37 else ret 0);
    key ← (if 0xB7 =? scan_code then print_screen 0xAA else ret key);
    when (key =? 0) (modkb (set_code_with_E0 1)) ;;
    ret (key, scan_code)
  else ret (0, scan_code).

(** the column of the key map *)
Definition choose_column : M tsys unit :=
  modkb (set_column 0) ;;
  st ← get;
  when (negb (shift_l (kb st) =? 0) || negb (shift_r (kb st) =? 0)) (modkb (set_column 1)) ;;
  st ← get;
  when (negb (code_with_E0 (kb st) =? 0)) (modkb (set_column 2) ;; modkb (set_code_with_E0 0)).

(** the keys that change the state of the keyboard; the lock keys fall through *)
Definition state_key (key bMake : Z) : M tsys unit :=
  if key =? SHIFT_L then modkb (set_shift_l bMake)
  else if key =? SHIFT_R then modkb (set_shift_r bMake)
  else if key =? CTRL_L then modkb (set_ctrl_l bMake)
  else if key =? CTRL_R then modkb (set_ctrl_r bMake)
  else if key =? ALT_L then modkb (set_alt_l bMake)
  else if key =? ALT_R then modkb (set_alt_r bMake)
  else
    when (key =? CAPS_LOCK) (modkb (set_caps_lock 1) ;; set_leds) ;;
    when ((key =? CAPS_LOCK) || (key =? NUM_LOCK)) (modkb (set_num_lock 1) ;; set_leds) ;;
    when ((key =? CAPS_LOCK) || (key =? NUM_LOCK) || (key =? SCROLL_LOCK)) (modkb (set_scroll_lock 1) ;; set_leds).

(** the keys of the number pad *)
Definition pad_key (num_lock key : Z) : Z :=
  if key =? PAD_SLASH then 47
  else if key =? PAD_STAR then 42
  else if key =? PAD_MINUS then 45
  else if key =? PAD_PLUS then 43
  else if key =? PAD_ENTER then ENTER
  else if negb (num_lock =? 0) && (PAD_0 <=? key) && (key <=? PAD_9) then key - PAD_0 + 48
  else if negb (num_lock =? 0) && (key =? PAD_DOT) then 46
  else if key =? PAD_HOME then HOME
  else if key =? PAD_END then END
  else if key =? PAD_PAGEUP then PAGEUP
  else if key =? PAD_PAGEDOWN then PAGEDOWN
  else if key =? PAD_INS then INSERT
  else if key =? PAD_UP then UP
  else if key =? PAD_DOWN then DOWN
  else if key =? PAD_LEFT then LEFT
  else if key =? PAD_RIGHT then RIGHT
  else if key =? PAD_DOT then DELETE
  else key.
Definition is_pad (key : Z) : bool := (PAD_SLASH <=? key) && (key <=? PAD_9).

Definition flag_if (v flag : Z) : Z := if v =? 0 then 0 else flag.
Definition add_flags (k : keyboard) (pad : bool) (key : Z) : Z :=
  let key := Z.lor key (flag_if (shift_l k) FLAG_SHIFT_L) in
  let key := Z.lor key (flag_if (shift_r k) FLAG_SHIFT_R) in
  let key := Z.lor key (flag_if (ctrl_l k) FLAG_CTRL_L) in
  let key := Z.lor key (flag_if (ctrl_r k) FLAG_CTRL_R) in
  let key := Z.lor key (flag_if (alt_l k) FLAG_ALT_L) in
  let key := Z.lor key (flag_if (alt_r k) FLAG_ALT_R) in
  Z.lor key (if pad then FLAG_PAD else 0).

(** the key of a scan code *)
Definition read_key (scan_code i : Z) : M tsys unit :=
  let bMake := if has scan_code FLAG_BREAK then FALSE else TRUE in
  choose_column ;;
  st ← get;
  let key := key_at scan_code (column (kb st)) in
  state_key key bMake ;;
  when (negb (bMake =? 0)) (
    st ← get;
    let pad := is_pad key in
    let key := if pad then pad_key (num_lock (kb st)) key else key in
    in_process (add_flags (kb st) pad key) i).

Definition keyboard_read (i : Z) : M tsys unit :=
  st ← get;
  when (0 <? kb_count (kb st)) (
    modkb (set_code_with_E0 0) ;;
    ks ← read_prefix;
    when (negb (PAUSEBREAK =? fst ks) && negb (PRINTSCREEN =? fst ks)) (read_key (snd ks) i)).
