(* ===== verification/TtyTask.v ===== *)
(** * The terminal task (kernel/tty.c)

    [tty_dev_read] and [tty_dev_write] move keys from the keyboard to the screen
    and to the process that reads the terminal; [tty_do_read] and [tty_do_write]
    serve the file system; [tty_pass] and [tty_serve] are the two halves of the
    loop of [task_tty]; [sys_printx] is the system call that prints. The message
    object and the output buffer of the task are at [mbuf] and [obuf]. *)
From S2P Require Import Prelude Const Protect Proc Sched Ipc IpcRun IpcSpec Task Ring TtyState Console Keymap Tty.

Section tty.
Context (mbuf obuf : Z).

Definition tty_dev_read (i : Z) : M tsys unit :=
  t ← gettty i;
  b ← is_cur_console (p_con t);
  when b (keyboard_read i).

Definition tty_send (dst : Z) (f : MESSAGE -> MESSAGE) : M tsys unit :=
  st ← get;
  klift (task_send TASK_TTY mbuf dst (f (msg_at (memory (tkern st)) mbuf))).

(** the answer to the process that reads, when the line is complete *)
Definition tty_resume (i : Z) : M tsys unit :=
  t ← gettty i;
  out_char 10 (p_con t) ;;
  tty_send (tty_caller t) (fun m => set_m3i2 (tty_trans_bytes t) (set_m3i3 (tty_pro_nr t) (set_type RESUME_PROC m))) ;;
  modtty i (set_tty_bytes_left 0).

(** a character for the process that reads *)
Definition tty_give (i ch : Z) : M tsys unit :=
  t ← gettty i;
  (if (32 <=? ch) && (ch <=? 126) then
     out_char ch (p_con t) ;;
     pokeb (u32 (tty_read_buf t + tty_trans_bytes t)) ch ;;
     modtty i (fun t => set_tty_bytes_left (tty_bytes_left t - 1) t) ;;
     modtty i (fun t => set_tty_trans_bytes (tty_trans_bytes t + 1) t)
   else when (ch =? 8) (
     out_char ch (p_con t) ;;
     modtty i (fun t => set_tty_bytes_left (tty_bytes_left t + 1) t) ;;
     modtty i (fun t => set_tty_trans_bytes (tty_trans_bytes t - 1) t))) ;;
  t ← gettty i;
  when ((0 =? tty_bytes_left t) || (ch =? 10)) (tty_resume i).

(** one turn of the loop of [tty_dev_write] *)
Definition tty_take (i : Z) : M tsys unit :=
  t ← gettty i;
  let ch := u8 (in_buf t (p_inbuf_tail t)) in
  modtty i (fun t => set_p_inbuf_tail (ring_next TTY_IN_BYTES (p_inbuf_tail t)) t) ;;
  modtty i (fun t => set_inbuf_count (inbuf_count t - 1) t) ;;
  when (0 <? tty_bytes_left t) (tty_give i ch).

Fixpoint tty_write_loop (fuel : nat) (i : Z) : M tsys unit :=
  match fuel with
  | O => stop HSpin
  | S fuel' =>
      t ← gettty i;
      if 0 <? inbuf_count t then tty_take i ;; tty_write_loop fuel' i else ret tt
  end.
Definition TTY_FUEL : nat := 257.
Definition tty_dev_write (i : Z) : M tsys unit := tty_write_loop TTY_FUEL i.

Definition init_tty : M tsys unit :=
  for_each (Z.to_nat NR_TTYS) 0 (fun i =>
    modtty i (set_p_inbuf_head 0) ;; modtty i (set_p_inbuf_tail 0) ;; modtty i (set_inbuf_count 0) ;;
    init_screen i).

Fixpoint out_chars (n : nat) (a p_con : Z) : M tsys unit :=
  match n with
  | O => ret tt
  | S n' => st ← get; out_char (memory (tkern st) a) p_con ;; out_chars n' (a + 1) p_con
  end.
(** [tty_write]: characters of a buffer *)
Definition tty_write (i buf len : Z) : M tsys unit :=
  t ← gettty i; out_chars (Z.to_nat len) buf (p_con t).

(** the loop of [tty_do_write]; each turn moves at most [TTY_OUT_IN_BYTES] *)
Fixpoint tty_copy_loop (fuel : nat) (i proc_nr buf bytes_cnt bytes_trans : Z) : M tsys Z :=
  if bytes_cnt <=? 0 then ret bytes_trans
  else match fuel with
  | O => stop HSpin
  | S fuel' =>
      let bytes := MIN TTY_OUT_IN_BYTES bytes_cnt in
      d ← klift (va2la TASK_TTY obuf);
      s ← klift (va2la proc_nr (u32 (buf + bytes_trans)));
      klift (modmem (memcpy d s bytes)) ;;
      t ← gettty i;
      out_chars (Z.to_nat bytes) obuf (p_con t) ;;
      tty_copy_loop fuel' i proc_nr buf (bytes_cnt - bytes) (bytes_trans + bytes)
  end.
Definition tty_do_write (i : Z) (msg : MESSAGE) : M tsys unit :=
  n ← tty_copy_loop (S (Z.to_nat (CNT msg))) i (PROC_NR msg) (BUF msg) (CNT msg) 0;
  klift (task_send TASK_TTY mbuf (source msg) (set_m3i2 n msg)).

Definition tty_do_read (i : Z) (msg : MESSAGE) : M tsys unit :=
  modtty i (set_tty_caller (source msg)) ;;
  modtty i (set_tty_pro_nr (PROC_NR msg)) ;;
  la ← klift (va2la (PROC_NR msg) (BUF msg));
  modtty i (set_tty_read_buf la) ;;
  modtty i (set_tty_bytes_left (CNT msg)) ;;
  modtty i (set_tty_trans_bytes 0) ;;
  t ← gettty i;
  klift (task_send TASK_TTY mbuf (tty_caller t) (set_m3i2 (tty_bytes_left t) (set_type SUSPEND_PROC msg))).

(** the loop over the terminals *)
Fixpoint tty_poll (fuel : nat) (i : Z) : M tsys unit :=
  match fuel with
  | O => stop HSpin
  | S fuel' =>
      tty_dev_read i ;;
      tty_dev_write i ;;
      t ← gettty i;
      if 0 <? inbuf_count t then tty_poll fuel' i else ret tt
  end.
Definition tty_pass : M tsys unit := for_each (Z.to_nat NR_TTYS) 0 (tty_poll 2).

(** the switch on the message that was received *)
Definition tty_serve (msg : MESSAGE) : M tsys unit :=
  let src := source msg in
  let i := DEVICE msg in
  if type msg =? DEV_OPEN then klift (task_send TASK_TTY mbuf src (set_type SYSCALL_RET zero_msg))
  else if type msg =? DEV_READ then tty_do_read i msg
  else if type msg =? DEV_WRITE then tty_do_write i msg
  else if type msg =? HARD_INT then klift (modify (set_key_pressed 0))
  else panic.

Definition task_tty_start : M tsys unit := init_keyboard ;; init_tty ;; set_cur_con 0.
End tty.

(** ** [sys_printx] *)

Definition MAG_CH_PANIC : Z := 2.
Definition MAG_CH_ASSERT : Z := 3.

(** the loop that prints: a character before a magic one is skipped; [n] bounds
    the length of the text *)
Fixpoint printx_loop (n : nat) (p : Z) : M tsys unit :=
  match n with
  | O => stop HFault
  | S n' =>
      st ← get;
      let ch := memory (tkern st) p in
      if ch =? 0 then ret tt
      else
        let next := memory (tkern st) (p + 1) in
        (if (next =? MAG_CH_PANIC) || (next =? MAG_CH_ASSERT) then ret tt
         else t ← gettty 0; out_char ch (p_con t)) ;;
        printx_loop n' (p + 1)
  end.

Definition sys_printx (n : nat) (s pid : Z) : M tsys unit :=
  st ← get;
  let k := k_reenter (tkern st) in
  if k <? 0 then panic
  else
    p ← (if k =? 0 then klift (va2la pid s) else ret s);
    st ← get;
    let m := memory (tkern st) in
    if (m p =? MAG_CH_PANIC) || ((m p =? MAG_CH_ASSERT) && (p_proc_ready (tkern st) <? NR_TASKS)) then panic
    else printx_loop n p.
