(* ===== verification/TtyLem.v ===== *)
(** * Keys: from the interrupt to the terminal's buffer

    The keyboard's buffer and the terminals' buffers as queues, and what
    [keyboard_read] does with the code of an ordinary key, of a key that is
    released and of the left shift key. *)
From S2P Require Import Prelude Const Protect Proc Ring TtyState Console Keymap Tty.

(** ** The buffers as queues *)

Definition kb_ok (k : keyboard) : Prop := ring_ok KB_IN_BYTE (p_head k) (p_tail k) (kb_count k).
Definition kb_queue (k : keyboard) : list Z := contents KB_IN_BYTE (kb_buf k) (p_tail k) (kb_count k).
Definition tty_ok (t : TTY) : Prop := ring_ok TTY_IN_BYTES (p_inbuf_head t) (p_inbuf_tail t) (inbuf_count t).
Definition tty_queue (t : TTY) : list Z := contents TTY_IN_BYTES (in_buf t) (p_inbuf_tail t) (inbuf_count t).

Lemma kb_pos : 0 < KB_IN_BYTE.
Proof. done. Qed.
Lemma tty_pos : 0 < TTY_IN_BYTES.
Proof. done. Qed.

(** what the buffers do not hold *)
Definition kb_rest (k : keyboard) :=
  (code_with_E0 k, (shift_l k, shift_r k), (alt_l k, alt_r k), (ctrl_l k, ctrl_r k),
   (caps_lock k, num_lock k, scroll_lock k), column k).
Definition tty_rest (t : TTY) :=
  (tty_caller t, tty_pro_nr t, tty_read_buf t, (tty_bytes_left t, tty_trans_bytes t), p_con t).

Lemma kb_queue_nil k : kb_ok k -> kb_queue k = [] <-> kb_count k = 0.
Proof.
  intros [_ Hc _]. unfold kb_queue. pose proof (contents_length KB_IN_BYTE (kb_buf k) (p_tail k) (kb_count k) ltac:(lia)) as H.
  split; [intros E; rewrite E in H; done|intros ->; done].
Qed.
Lemma kb_queue_length k : kb_ok k -> Z.of_nat (length (kb_queue k)) = kb_count k.
Proof. intros [_ Hc _]. apply contents_length. lia. Qed.
Lemma tty_queue_length t : tty_ok t -> Z.of_nat (length (tty_queue t)) = inbuf_count t.
Proof. intros [_ Hc _]. apply contents_length. lia. Qed.

(** the state with the keyboard [k] and [key_pressed = v] *)
Definition with_kb (k : keyboard) (st : tsys) : tsys := set_kb k st.
Definition pressed (v : Z) (st : tsys) : tsys := set_tkern (set_key_pressed v (tkern st)) st.

(** the code goes to the end of the queue, or is dropped when 32 are there *)
Lemma keyboard_handler_run c st : kb_ok (kb st) -> 0 <= c < 256 ->
  exists k', keyboard_handler c st = Ok tt (pressed 1 (with_kb k' st)) /\ kb_ok k' /\ kb_rest k' = kb_rest (kb st) /\
    kb_queue k' = if kb_count (kb st) <? KB_IN_BYTE then kb_queue (kb st) ++ [c] else kb_queue (kb st).
Proof.
  intros Hk Hc. unfold keyboard_handler. rewrite (bind_run get _ st st st eq_refl).
  destruct (kb_count (kb st) <? KB_IN_BYTE) eqn:E; unfold when; zbool.
  - eexists. split; [reflexivity|]. split; [exact (ring_put_ok _ kb_pos _ _ _ Hk E)|]. split; [reflexivity|].
    unfold kb_queue. cbn [kb_buf p_tail kb_count p_head set_kb_buf set_p_head set_kb_count].
    rewrite (u8_id c Hc). exact (ring_put_contents _ kb_pos _ _ _ _ _ Hk E).
  - exists (kb st). split; [|done]. unfold with_kb, pressed, klift, bind, modify, ret. by destruct st.
Qed.

(** the first code of the queue *)
Lemma get_byte_run x l st : kb_ok (kb st) -> kb_queue (kb st) = x :: l -> 0 <= x < 256 ->
  exists k', get_byte_from_kbuf st = Ok x (with_kb k' st) /\ kb_ok k' /\ kb_rest k' = kb_rest (kb st) /\ kb_queue k' = l.
Proof.
  intros Hk Hq Hx. destruct (contents_cons _ _ _ _ _ _ _ Hk Hq) as (Hc & Hb & Hl).
  unfold get_byte_from_kbuf.
  assert (Es : kb_spin st = Ok tt st).
  { unfold kb_spin. rewrite (bind_run get _ st st st eq_refl). by rewrite (proj2 (Z.leb_gt _ _)) by lia. }
  rewrite (bind_run _ _ _ _ _ Es), (bind_run get _ st st st eq_refl). rewrite Hb, (u8_id x Hx).
  eexists. split; [reflexivity|]. split; [exact (ring_get_ok _ kb_pos _ _ _ Hk Hc)|]. split; [reflexivity|exact Hl].
Qed.

(** an empty queue: the code that comes next *)
Lemma get_byte_spin c cs st : kb_ok (kb st) -> kb_queue (kb st) = [] -> kb_codes st = c :: cs -> 0 <= c < 256 ->
  exists k', get_byte_from_kbuf st = Ok c (pressed 1 (with_kb k' (set_kb_codes cs st))) /\
    kb_ok k' /\ kb_rest k' = kb_rest (kb st) /\ kb_queue k' = [].
Proof.
  intros Hk Hq Hcs Hc. pose proof (proj1 (kb_queue_nil _ Hk) Hq) as H0.
  destruct (keyboard_handler_run c (set_kb_codes cs st) Hk Hc) as (k1 & E1 & Hk1 & Hr1 & Hq1).
  cbn [kb set_kb_codes] in *. rewrite H0, Hq in Hq1. change (0 <? KB_IN_BYTE) with true in Hq1. cbn in Hq1.
  assert (Es : kb_spin st = Ok tt (pressed 1 (with_kb k1 (set_kb_codes cs st)))).
  { unfold kb_spin. rewrite (bind_run get _ st st st eq_refl), H0, Hcs. exact E1. }
  set (st1 := pressed 1 (with_kb k1 (set_kb_codes cs st))) in *.
  destruct (get_byte_run c [] st1 Hk1 Hq1 Hc) as (k2 & E2 & Hk2 & Hr2 & Hq2).
  exists k2. split; [|split; [done|split; [exact (eq_trans Hr2 Hr1)|done]]].
  assert (Es1 : kb_spin st1 = Ok tt st1).
  { unfold kb_spin. rewrite (bind_run get _ st1 st1 st1 eq_refl).
    pose proof (kb_queue_length _ Hk1) as Hl. rewrite Hq1 in Hl. cbn in Hl. change (kb st1) with k1. by rewrite <- Hl. }
  transitivity (get_byte_from_kbuf st1); [|exact E2]. unfold get_byte_from_kbuf.
  by rewrite (bind_run _ _ _ _ _ Es), (bind_run _ _ _ _ _ Es1).
Qed.

(** a key goes to the end of the terminal's queue, or is dropped when 256 are there *)
Lemma put_key_run i key st : 0 <= i < NR_TTYS -> tty_ok (tty_table st i) -> 0 <= key < 4294967296 ->
  exists t', put_key i key st = Ok tt (set_tty_table (upd (tty_table st) i t') st) /\ tty_ok t' /\
    tty_rest t' = tty_rest (tty_table st i) /\
    tty_queue t' = if inbuf_count (tty_table st i) <? TTY_IN_BYTES then tty_queue (tty_table st i) ++ [key]
                   else tty_queue (tty_table st i).
Proof.
  intros Hi Ht Hk. unfold put_key. rewrite (bind_run _ _ _ _ _ (gettty_run i st Hi)).
  destruct (inbuf_count (tty_table st i) <? TTY_IN_BYTES) eqn:E; unfold when; zbool.
  - eexists. split.
    { rewrite (bind_run _ _ _ _ _ (modtty_run i _ st Hi)), (bind_run _ _ _ _ _ (modtty_run i _ _ Hi)), modtty_run by done.
      cbn [tty_table set_tty_table]. rewrite !upd_eq, !upd_upd. reflexivity. }
    split; [exact (ring_put_ok _ tty_pos _ _ _ Ht E)|]. split; [reflexivity|].
    unfold tty_queue. cbn [in_buf p_inbuf_tail inbuf_count p_inbuf_head set_in_buf set_p_inbuf_head set_inbuf_count].
    rewrite (u32_id key Hk). exact (ring_put_contents _ tty_pos _ _ _ _ _ Ht E).
  - exists (tty_table st i). rewrite upd_same. split; [by destruct st|done].
Qed.

(** ** The code of one key *)

(** no key but possibly the left shift key is down *)
Record kb_plain (b : Z) (k : keyboard) : Prop := {
  kp_ok : kb_ok k;
  kp_empty : kb_queue k = [];
  kp_shift : shift_l k = b /\ shift_r k = 0;
  kp_ctrl : ctrl_l k = 0 /\ ctrl_r k = 0;
  kp_alt : alt_l k = 0 /\ alt_r k = 0 }.

Lemma kb_plain_rest b k k' : kb_plain b k -> kb_ok k' -> kb_queue k' = [] ->
  (shift_l k', shift_r k', (ctrl_l k', ctrl_r k'), (alt_l k', alt_r k')) =
  (shift_l k, shift_r k, (ctrl_l k, ctrl_r k), (alt_l k, alt_r k)) -> kb_plain b k'.
Proof. intros [H1 H2 [] [] []] Hk Hq E. simplify_eq. split; split_and?; congruence. Qed.

(** a code that is no prefix *)
Lemma keyboard_read_code c l i st : kb_ok (kb st) -> kb_queue (kb st) = c :: l -> 0 <= c < 256 -> c <> 0xE0 -> c <> 0xE1 ->
  exists k', keyboard_read i st = read_key c i (with_kb k' st) /\ kb_ok k' /\ kb_queue k' = l /\
    kb_rest k' = kb_rest (set_code_with_E0 0 (kb st)).
Proof.
  intros Hk Hq Hc H0 H1. unfold keyboard_read. rewrite (bind_run get _ st st st eq_refl).
  pose proof (kb_queue_length _ Hk) as Hl. rewrite Hq in Hl. cbn in Hl.
  rewrite (proj2 (Z.ltb_lt 0 (kb_count (kb st)))) by lia. unfold when at 1.
  rewrite (bind_run (modkb _) _ st tt (with_kb (set_code_with_E0 0 (kb st)) st) eq_refl).
  set (st1 := with_kb _ st).
  destruct (get_byte_run c l st1 Hk Hq Hc) as (k' & E & Hk' & Hr' & Hq').
  exists k'. split; [|done].
  assert (Ep : read_prefix st1 = Ok (0, c) (with_kb k' st1)).
  { unfold read_prefix. rewrite (bind_run _ _ _ _ _ E).
    by rewrite (proj2 (Z.eqb_neq 0xE1 c)), (proj2 (Z.eqb_neq 0xE0 c)) by congruence. }
  by rewrite (bind_run _ _ _ _ _ Ep).
Qed.

Definition shift_column (b : Z) : Z := if b =? 0 then 0 else 1.

Lemma choose_column_run st : code_with_E0 (kb st) = 0 -> shift_r (kb st) = 0 ->
  choose_column st = Ok tt (with_kb (set_column (shift_column (shift_l (kb st))) (kb st)) st).
Proof.
  intros H0 Hr. unfold choose_column, modkb, modify, bind, get, shift_column. cbn. rewrite Hr.
  destruct (shift_l (kb st) =? 0); cbn; by rewrite H0.
Qed.

(** keys below the state keys change nothing *)
Lemma state_key_none key b st : key < SHIFT_L -> state_key key b st = Ok tt st.
Proof.
  unfold SHIFT_L, FLAG_EXT. intros H. unfold state_key.
  assert (E : forall x, 0x108 <= x -> (key =? x) = false) by (intros x Hx; apply Z.eqb_neq; lia).
  rewrite !E by (vm_compute; discriminate). done.
Qed.

(** a character with the flag of the shift key *)
Definition shifted (b ch : Z) : Z := Z.lor ch (flag_if b FLAG_SHIFT_L).
Lemma shifted_eq b ch : 0 <= ch < 256 -> shifted b ch = ch \/ shifted b ch = 512 + ch.
Proof.
  intros Hc. unfold shifted, flag_if. destruct (b =? 0); [left; apply Z.lor_0_r|right].
  rewrite Z.lor_comm. change FLAG_SHIFT_L with (Z.shiftl 1 9). rewrite shiftl_lor_add by lia. lia.
Qed.
Lemma shifted_props b ch : 0 <= ch < 256 ->
  0 <= shifted b ch < 4294967296 /\ u8 (shifted b ch) = ch /\ has (shifted b ch) FLAG_EXT = false.
Proof.
  intros Hc. assert (Hx : forall z, z `mod` 512 < 256 -> has z FLAG_EXT = false).
  { intros z Hz. unfold has. rewrite negb_false_iff, Z.eqb_eq. apply Z.bits_inj'. intros n Hn.
    rewrite Z.land_spec, Z.bits_0. change FLAG_EXT with (2 ^ 8).
    destruct (decide (n = 8)) as [->|Hne]; [|rewrite Z.pow2_bits_false by done; apply andb_false_r].
    assert (E : Z.testbit z 8 = Z.testbit (z `mod` 512) 8).
    { change 512 with (2 ^ 9). by rewrite Z.mod_pow2_bits_low by lia. }
    pose proof (Z.mod_pos_bound z 512 ltac:(lia)).
    assert (T : Z.testbit (z `mod` 512) 8 = false).
    { apply Z.testbit_false; [lia|]. by rewrite (Z.div_small (z `mod` 512) (2 ^ 8)) by (change (2 ^ 8) with 256; lia). }
    by rewrite E, T. }
  destruct (shifted_eq b ch Hc) as [-> | ->].
  - split; [lia|]. split; [by apply u8_id|]. apply Hx. rewrite Z.mod_small; lia.
  - split; [lia|]. split.
    + unfold u8. replace (512 + ch) with (ch + 2 * 256) by lia. rewrite Z_mod_plus_full. by apply Z.mod_small.
    + apply Hx. replace (512 + ch) with (ch + 1 * 512) by lia. rewrite Z_mod_plus_full, Z.mod_small; lia.
Qed.

Lemma add_flags_plain b k key : shift_l k = b /\ shift_r k = 0 -> ctrl_l k = 0 /\ ctrl_r k = 0 -> alt_l k = 0 /\ alt_r k = 0 ->
  add_flags k false key = shifted b key.
Proof.
  intros [H1 H2] [H3 H4] [H5 H6]. unfold add_flags, shifted. rewrite H1, H2, H3, H4, H5, H6.
  change (flag_if 0 _) with 0. by rewrite !Z.lor_0_r.
Qed.

Definition is_make (c : Z) : bool := negb (has c FLAG_BREAK).

(** what follows the choice of the column *)
Lemma read_key_run c i st : code_with_E0 (kb st) = 0 -> shift_r (kb st) = 0 ->
  let k := set_column (shift_column (shift_l (kb st))) (kb st) in
  let key := key_at c (shift_column (shift_l (kb st))) in
  key < SHIFT_L ->
  read_key c i st = (when (is_make c) (in_process (add_flags k (is_pad key)
    (if is_pad key then pad_key (num_lock k) key else key)) i)) (with_kb k st).
Proof.
  intros H0 Hr k key Hkey. unfold read_key. rewrite (bind_run _ _ _ _ _ (choose_column_run st H0 Hr)). fold k.
  rewrite (bind_run get _ _ _ _ eq_refl). change (column (kb (with_kb k st))) with (shift_column (shift_l (kb st))).
  fold key. rewrite (bind_run _ _ _ _ _ (state_key_none key _ _ Hkey)).
  unfold is_make. destruct (has c FLAG_BREAK); cbn [negb]; [reflexivity|].
  change (negb (TRUE =? 0)) with true. unfold when. rewrite (bind_run get _ _ _ _ eq_refl). reflexivity.
Qed.

(** ** Properties *)

(** The keyboard's buffer is a queue of at most 32 codes. The interrupt handler
    appends the code, or drops it when 32 are waiting, and marks that a key was
    pressed; the reader gets the oldest code. A reader that finds the buffer
    empty gets the next code that arrives, and spins if none does. *)
Theorem kb_fifo c st : kb_ok (kb st) -> 0 <= c < 256 -> Forall (fun x => 0 <= x < 256) (kb_queue (kb st)) ->
  let q := kb_queue (kb st) in
  (exists st', keyboard_handler c st = Ok tt st' /\ kb_ok (kb st') /\ key_pressed (tkern st') = 1 /\
     kb_rest (kb st') = kb_rest (kb st) /\
     kb_queue (kb st') = if (length q <? 32)%nat then q ++ [c] else q) /\
  (forall x l, q = x :: l ->
     exists st', get_byte_from_kbuf st = Ok x st' /\ kb_ok (kb st') /\ kb_queue (kb st') = l) /\
  (q = [] -> forall x cs, kb_codes st = x :: cs -> 0 <= x < 256 ->
     exists st', get_byte_from_kbuf st = Ok x st' /\ kb_ok (kb st') /\ kb_queue (kb st') = [] /\ kb_codes st' = cs) /\
  (q = [] -> kb_codes st = [] -> get_byte_from_kbuf st = Halt HSpin).
Proof.
  intros Hk Hc Hall q. split; [|split; [|split]].
  - destruct (keyboard_handler_run c st Hk Hc) as (k' & E & Hk' & Hr & Hq).
    eexists. split; [exact E|]. split; [exact Hk'|]. split; [done|]. split; [exact Hr|].
    cbn [kb pressed with_kb set_tkern set_kb]. rewrite Hq. fold q.
    replace (kb_count (kb st) <? KB_IN_BYTE) with (length q <? 32)%nat; [done|].
    apply eq_true_iff_eq. rewrite Nat.ltb_lt, Z.ltb_lt. pose proof (kb_queue_length _ Hk) as Hl. fold q in Hl.
    unfold KB_IN_BYTE. lia.
  - intros x l Hq. fold q in Hall. rewrite Hq in Hall. apply Forall_cons in Hall as [Hx _].
    destruct (get_byte_run x l st Hk Hq Hx) as (k' & E & Hk' & _ & Hq'). eexists. split; [exact E|]. done.
  - intros Hq x cs Hcs Hx. destruct (get_byte_spin x cs st Hk Hq Hcs Hx) as (k' & E & Hk' & _ & Hq').
    eexists. split; [exact E|]. done.
  - intros Hq Hcs. unfold get_byte_from_kbuf. apply bind_halt. unfold kb_spin.
    rewrite (bind_run get _ st st st eq_refl), Hcs, (proj1 (kb_queue_nil _ Hk) Hq). done.
Qed.
