(* ===== verification/TtyLine.v ===== *)
(** * A line typed at a terminal (kernel/tty.c, keyboard.c, console.c)

    Every code the keyboard sends is an interrupt, a message to the terminal task
    and a pass over the terminals ([key_event]). A process reads the terminal;
    what is typed before the enter key arrives in its buffer. *)
From S2P Require Import Prelude Const CLib Protect Proc Sched Ipc IpcInv IpcRun IpcFrame IpcThm IpcSpec Task Ring.
From S2P Require Import TtyState Console Keymap Tty TtyTask TtyLem.

#[local] Strategy 1000 [memcpy put_msg st32].

(** ** Events *)

Definition hard_int : MESSAGE := set_source INTERRUPT (set_type HARD_INT zero_msg).

Section line.
Context (mbuf obuf : Z).

Definition key_event (c : Z) : M tsys unit :=
  keyboard_handler c ;; tty_serve mbuf obuf hard_int ;; tty_pass mbuf.

(** nothing is waiting in the buffers, terminal [i] is the current one *)
Record idle (st : tsys) (i b : Z) : Prop := {
  id_i : 0 <= i < NR_TTYS;
  id_cur : nr_cur_console st = i;
  id_pcon : forall j, 0 <= j < NR_TTYS -> p_con (tty_table st j) = j;
  id_cons : cons_ok st;
  id_kb : kb_plain b (kb st);
  id_tty : forall j, 0 <= j < NR_TTYS -> tty_ok (tty_table st j) /\ inbuf_count (tty_table st j) = 0 }.

Lemma event_start c st b : kb_plain b (kb st) -> 0 <= c < 256 ->
  exists k, (keyboard_handler c ;; tty_serve mbuf obuf hard_int) st = Ok tt (pressed 0 (with_kb k st)) /\
    kb_ok k /\ kb_queue k = [c] /\ kb_rest k = kb_rest (kb st).
Proof.
  intros Hp Hc. pose proof (kp_ok _ _ Hp) as Hok.
  destruct (keyboard_handler_run c st Hok Hc) as (k & E & Hk & Hr & Hq).
  exists k. rewrite (bind_run _ _ _ _ _ E). split; [reflexivity|]. split; [done|]. split; [|done].
  rewrite Hq, (proj1 (kb_queue_nil _ Hok) (kp_empty _ _ Hp)), (kp_empty _ _ Hp). done.
Qed.

(** a terminal that is not the current one *)
Lemma poll_other j st : 0 <= j < NR_TTYS -> p_con (tty_table st j) <> nr_cur_console st ->
  inbuf_count (tty_table st j) = 0 -> tty_poll mbuf 2 j st = Ok tt st.
Proof.
  intros Hj Hc H0. cbn [tty_poll].
  assert (E1 : tty_dev_read j st = Ok tt st).
  { unfold tty_dev_read. rewrite (bind_run _ _ _ _ _ (gettty_run j st Hj)).
    rewrite (bind_run (is_cur_console _) _ st (p_con (tty_table st j) =? nr_cur_console st) st eq_refl).
    by rewrite (proj2 (Z.eqb_neq _ _) Hc). }
  assert (E2 : tty_dev_write mbuf j st = Ok tt st).
  { unfold tty_dev_write, TTY_FUEL. cbn [tty_write_loop].
    rewrite (bind_run _ _ _ _ _ (gettty_run j st Hj)). by rewrite H0. }
  rewrite (bind_run _ _ _ _ _ E1), (bind_run _ _ _ _ _ E2), (bind_run _ _ _ _ _ (gettty_run j st Hj)). by rewrite H0.
Qed.

Lemma poll_cur i st st1 st2 : 0 <= i < NR_TTYS -> p_con (tty_table st i) = nr_cur_console st ->
  keyboard_read i st = Ok tt st1 -> tty_dev_write mbuf i st1 = Ok tt st2 -> inbuf_count (tty_table st2 i) = 0 ->
  tty_poll mbuf 2 i st = Ok tt st2.
Proof.
  intros Hi Hc E1 E2 H0. cbn [tty_poll].
  assert (E : tty_dev_read i st = Ok tt st1).
  { unfold tty_dev_read. rewrite (bind_run _ _ _ _ _ (gettty_run i st Hi)).
    rewrite (bind_run (is_cur_console _) _ st (p_con (tty_table st i) =? nr_cur_console st) st eq_refl).
    by rewrite Hc, Z.eqb_refl. }
  rewrite (bind_run _ _ _ _ _ E), (bind_run _ _ _ _ _ E2), (bind_run _ _ _ _ _ (gettty_run i st2 Hi)). by rewrite H0.
Qed.

(** the pass is the poll of the current terminal *)
Lemma pass_run i st st' : 0 <= i < NR_TTYS -> nr_cur_console st = i -> nr_cur_console st' = i ->
  (forall j, 0 <= j < NR_TTYS -> j <> i -> p_con (tty_table st j) = j /\ inbuf_count (tty_table st j) = 0 /\
     tty_table st' j = tty_table st j) ->
  tty_poll mbuf 2 i st = Ok tt st' -> tty_pass mbuf st = Ok tt st'.
Proof.
  intros Hi Hc Hc' Ho E.
  assert (Hb : forall j, 0 <= j < NR_TTYS -> j <> i -> tty_poll mbuf 2 j st = Ok tt st).
  { intros j Hj Hn. destruct (Ho j Hj Hn) as (H1 & H2 & _). apply poll_other; [done|congruence|done]. }
  assert (Ha : forall j, 0 <= j < NR_TTYS -> j <> i -> tty_poll mbuf 2 j st' = Ok tt st').
  { intros j Hj Hn. destruct (Ho j Hj Hn) as (H1 & H2 & H3). apply poll_other; rewrite ?H3; [done|congruence|done]. }
  unfold tty_pass. change (Z.to_nat NR_TTYS) with 3%nat. cbn [for_each]. unfold NR_TTYS in *.
  change (0 + 1) with 1. change (1 + 1) with 2.
  destruct (decide (i = 0)) as [->|]; [|destruct (decide (i = 1)) as [->|]; [|assert (i = 2) as -> by lia]].
  - by rewrite (bind_run _ _ _ _ _ E), (bind_run _ _ _ _ _ (Ha 1 ltac:(lia) ltac:(lia))),
      (bind_run _ _ _ _ _ (Ha 2 ltac:(lia) ltac:(lia))).
  - by rewrite (bind_run _ _ _ _ _ (Hb 0 ltac:(lia) ltac:(lia))), (bind_run _ _ _ _ _ E),
      (bind_run _ _ _ _ _ (Ha 2 ltac:(lia) ltac:(lia))).
  - by rewrite (bind_run _ _ _ _ _ (Hb 0 ltac:(lia) ltac:(lia))), (bind_run _ _ _ _ _ (Hb 1 ltac:(lia) ltac:(lia))),
      (bind_run _ _ _ _ _ E).
Qed.

(** ** Codes that give no character *)

(** the codes, with the effect they have on the left shift key *)
Definition quiet (c i b b' : Z) : Prop := forall k st, kb_plain b k -> code_with_E0 k = 0 -> kb st = k ->
  exists k', read_key c i st = Ok tt (with_kb k' st) /\ kb_plain b' k'.

Lemma event_read c st i b : idle st i b -> 0 <= c < 256 -> c <> 0xE0 -> c <> 0xE1 ->
  exists k, kb_plain b k /\ code_with_E0 k = 0 /\
    exists k0, (keyboard_handler c ;; tty_serve mbuf obuf hard_int) st = Ok tt (pressed 0 (with_kb k0 st)) /\
      keyboard_read i (pressed 0 (with_kb k0 st)) = read_key c i (pressed 0 (with_kb k st)).
Proof.
  intros Hid Hc H0 H1. pose proof (id_kb _ _ _ Hid) as Hp.
  destruct (event_start c st b Hp Hc) as (k0 & E0 & Hk0 & Hq0 & Hr0).
  destruct (keyboard_read_code c [] i (pressed 0 (with_kb k0 st)) Hk0 Hq0 Hc H0 H1) as (k & E & Hk & Hq & Hr).
  cbn [kb with_kb pressed set_tkern set_kb] in Hr.
  assert (Hp' : kb_plain b k /\ code_with_E0 k = 0).
  { unfold kb_rest in *. cbn in Hr. injection Hr as R1 R2 R3 R4 R5 R6 R7 R8 R9 R10 R11.
    injection Hr0 as S1 S2 S3 S4 S5 S6 S7 S8 S9 S10 S11.
    split; [|done]. apply (kb_plain_rest b (kb st)); [done|done|done|]. congruence. }
  exists k. split; [apply Hp'|]. split; [apply Hp'|]. exists k0. split; [exact E0|exact E].
Qed.

Lemma bind_assoc_run {A B} (f : M tsys unit) (g : M tsys A) (h : A -> M tsys B) st a st1 :
  (f ;; g) st = Ok a st1 -> (f ;; x ← g; h x) st = h a st1.
Proof. unfold bind. destruct (f st); [|done]. destruct (g s); [|done]. by intros [= -> ->]. Qed.

Lemma idle_kb st i b b' k : idle st i b -> kb_plain b' k -> idle (pressed 0 (with_kb k st)) i b'.
Proof. intros [] Hk. by split. Qed.

Lemma event_quiet c st i b b' : idle st i b -> 0 <= c < 256 -> c <> 0xE0 -> c <> 0xE1 -> quiet c i b b' ->
  exists k, key_event c st = Ok tt (pressed 0 (with_kb k st)) /\ idle (pressed 0 (with_kb k st)) i b'.
Proof.
  intros Hid Hc H0 H1 Hq. destruct (event_read c st i b Hid Hc H0 H1) as (k & Hp & Hz & k0 & E0 & E).
  destruct (Hq k (pressed 0 (with_kb k st)) Hp Hz eq_refl) as (k' & Ek & Hp').
  pose proof (id_i _ _ _ Hid) as Hi.
  exists k'. assert (Hid' : idle (pressed 0 (with_kb k' st)) i b') by (by apply (idle_kb _ _ b)).
  split; [|exact Hid'].
  unfold key_event. rewrite (bind_assoc_run _ _ _ _ _ _ E0). apply (pass_run i); [done|exact (id_cur _ _ _ Hid)|exact (id_cur _ _ _ Hid)| |].
  - intros j Hj Hn. cbn. destruct (id_tty _ _ _ Hid j Hj). split; [by apply (id_pcon _ _ _ Hid)|done].
  - apply (poll_cur i _ (pressed 0 (with_kb k' st))); [done| |by rewrite E, Ek| |].
    + cbn. rewrite (id_pcon _ _ _ Hid i Hi). symmetry. apply Hid.
    + unfold tty_dev_write, TTY_FUEL. cbn [tty_write_loop].
      rewrite (bind_run _ _ _ _ _ (gettty_run i _ Hi)). cbn [tty_table pressed with_kb set_tkern set_kb].
      by rewrite (proj2 (id_tty _ _ _ Hid i Hi)).
    + apply (id_tty _ _ _ Hid i Hi).
Qed.

(** a key that is released *)
Lemma quiet_release c i b : is_make c = false -> key_at c (shift_column b) < SHIFT_L -> quiet c i b b.
Proof.
  intros Hm Hk k st Hp Hz <-. destruct (kp_shift _ _ Hp) as [H1 H2].
  rewrite read_key_run by (rewrite ?H1; done). rewrite Hm, H1. eexists. split; [reflexivity|].
  apply (kb_plain_rest b (kb st)); [done| | |done]; apply Hp.
Qed.

(** the left shift key *)
Lemma quiet_shift c i b : Z.land c 0x7F = 0x2A ->
  quiet c i b (if is_make c then 1 else 0).
Proof.
  intros Hc k st Hp Hz <-. destruct (kp_shift _ _ Hp) as [H1 H2].
  unfold read_key. rewrite (bind_run _ _ _ _ _ (choose_column_run st Hz H2)).
  set (k1 := set_column _ (kb st)). rewrite (bind_run get _ _ _ _ eq_refl).
  assert (Ekey : key_at c (column (kb (with_kb k1 st))) = SHIFT_L).
  { unfold key_at. rewrite Hc. cbn [kb with_kb set_kb k1 column set_column]. unfold k1. cbn [column set_column].
    unfold shift_column. by destruct (shift_l (kb st) =? 0). }
  rewrite Ekey. set (bm := if has c FLAG_BREAK then FALSE else TRUE).
  set (k2 := set_shift_l bm k1).
  rewrite (bind_run (state_key SHIFT_L bm) _ (with_kb k1 st) tt (with_kb k2 st) eq_refl).
  exists k2. assert (Ebm : bm = if is_make c then 1 else 0) by (unfold bm, is_make; by destruct (has c FLAG_BREAK)).
  split.
  - unfold when. destruct (negb (bm =? 0)); [|reflexivity]. rewrite (bind_run get _ _ _ _ eq_refl).
    change (is_pad SHIFT_L) with false. cbv iota.
    rewrite (add_flags_plain bm (kb (with_kb k2 st))); [| |apply (kp_ctrl _ _ Hp)|apply (kp_alt _ _ Hp)].
    2: { split; [reflexivity|exact H2]. }
    unfold shifted, flag_if. by destruct (bm =? 0).
  - destruct Hp as [P1 P2 [P3 P4] P5 P6]. split; try done.
Qed.

(** ** A character for the reader *)

(** the parts of a terminal a reader uses *)
Definition tty_given (t : TTY) : TTY :=
  set_tty_trans_bytes (tty_trans_bytes t + 1) (set_tty_bytes_left (tty_bytes_left t - 1) t).

Definition with_tty (i : Z) (t : TTY) (st : tsys) : tsys := set_tty_table (upd (tty_table st) i t) st.

Lemma with_tty_twice i t t' st : with_tty i t' (with_tty i t st) = with_tty i t' st.
Proof. unfold with_tty. cbn. by rewrite upd_upd. Qed.

Lemma give_char_run i ch st :
  let t := tty_table st i in let c := console_table st i in
  0 <= i < NR_TTYS -> p_con t = i -> con_ok i c -> 32 <= ch <= 126 -> 1 < tty_bytes_left t ->
  exists r s c', tty_give mbuf i ch st = Ok tt (with_tty i (tty_given t) (with_crtc r s (with_con i c'
      (with_tmem (upd (cells_after ch c (memory (tkern st))) (u32 (tty_read_buf t + tty_trans_bytes t)) ch) st)))) /\
    con_ok i c'.
Proof.
  intros t c Hi Hpc Hc Hch Hl. unfold tty_give. rewrite (bind_run _ _ _ _ _ (gettty_run i st Hi)). fold t.
  rewrite (proj2 (Z.leb_le 32 ch)), (proj2 (Z.leb_le ch 126)) by lia. cbn [andb]. rewrite Hpc.
  destruct (out_char_run ch i st Hi Hc ltac:(lia)) as (r & s & a & E & Hok & _). fold c in E, Hok.
  set (c' := set_cur_start_addr a _) in *. exists r, s, c'. split; [|exact Hok].
  set (st1 := with_crtc r s _) in E.
  assert (E1 : (out_char ch i ;; pokeb (u32 (tty_read_buf t + tty_trans_bytes t)) ch ;;
    modtty i (fun t => set_tty_bytes_left (tty_bytes_left t - 1) t) ;;
    modtty i (fun t => set_tty_trans_bytes (tty_trans_bytes t + 1) t)) st =
    Ok tt (with_tty i (tty_given t) (with_tmem (upd (memory (tkern st1)) (u32 (tty_read_buf t + tty_trans_bytes t)) ch) st1))).
  { rewrite (bind_run _ _ _ _ _ E). unfold pokeb at 1. rewrite (u8_id ch) by lia.
    rewrite (bind_run (modify _) _ st1 tt _ eq_refl).
    rewrite (bind_run _ _ _ _ _ (modtty_run i _ _ Hi)), modtty_run by done.
    cbn [tty_table set_tty_table set_tkern]. rewrite upd_eq, upd_upd. reflexivity. }
  rewrite (bind_run _ _ _ _ _ E1), (bind_run _ _ _ _ _ (gettty_run i _ Hi)).
  cbn [tty_table with_tty set_tty_table]. rewrite upd_eq. unfold tty_given at 1 2. cbn [tty_bytes_left set_tty_trans_bytes set_tty_bytes_left].
  rewrite (proj2 (Z.eqb_neq 0 _)), (proj2 (Z.eqb_neq ch 10)) by lia. reflexivity.
Qed.

(** [tty_dev_write] of a terminal with one key in its buffer *)
Lemma dev_write_one i x st : 0 <= i < NR_TTYS -> tty_ok (tty_table st i) -> tty_queue (tty_table st i) = [x] ->
  exists t1, tty_ok t1 /\ inbuf_count t1 = 0 /\ tty_rest t1 = tty_rest (tty_table st i) /\
    forall st2, (when (0 <? tty_bytes_left (tty_table st i)) (tty_give mbuf i (u8 x))) (with_tty i t1 st) = Ok tt st2 ->
      inbuf_count (tty_table st2 i) = 0 -> tty_dev_write mbuf i st = Ok tt st2.
Proof.
  intros Hi Hok Hq. destruct (contents_cons _ _ _ _ _ _ _ Hok Hq) as (Hc & Hb & Hl).
  set (t := tty_table st i) in *.
  set (t1 := set_inbuf_count (inbuf_count t - 1) (set_p_inbuf_tail (ring_next TTY_IN_BYTES (p_inbuf_tail t)) t)).
  assert (Hok1 : tty_ok t1) by exact (ring_get_ok _ tty_pos _ _ _ Hok Hc).
  assert (H0 : inbuf_count t1 = 0).
  { pose proof (tty_queue_length t Hok) as Hlen. rewrite Hq in Hlen. cbn in Hlen. unfold t1. cbn. lia. }
  exists t1. split; [done|]. split; [done|]. split; [done|]. intros st2 E2 Hz.
  unfold tty_dev_write, TTY_FUEL. change 257%nat with (S 256). cbn [tty_write_loop].
  rewrite (bind_run _ _ _ _ _ (gettty_run i st Hi)). fold t. rewrite (proj2 (Z.ltb_lt _ _) Hc).
  assert (Et : tty_take mbuf i st = Ok tt st2).
  { unfold tty_take. rewrite (bind_run _ _ _ _ _ (gettty_run i st Hi)). fold t. rewrite Hb.
    rewrite (bind_run _ _ _ _ _ (modtty_run i _ st Hi)), (bind_run _ _ _ _ _ (modtty_run i _ _ Hi)).
    cbn [tty_table set_tty_table]. rewrite upd_eq, upd_upd. exact E2. }
  rewrite (bind_run _ _ _ _ _ Et). change 256%nat with (S 255). cbn [tty_write_loop].
  rewrite (bind_run _ _ _ _ _ (gettty_run i st2 Hi)). by rewrite Hz.
Qed.

Lemma tty_rest_inv t t' : tty_rest t = tty_rest t' ->
  tty_caller t = tty_caller t' /\ tty_pro_nr t = tty_pro_nr t' /\ tty_read_buf t = tty_read_buf t' /\
  tty_bytes_left t = tty_bytes_left t' /\ tty_trans_bytes t = tty_trans_bytes t' /\ p_con t = p_con t'.
Proof. unfold tty_rest. intros H. by injection H. Qed.

(** what a key event that gives a character leaves *)
Record gave (ch i : Z) (st st' : tsys) : Prop := {
  gv_rest : let t := tty_table st i in tty_rest (tty_table st' i) = tty_rest (tty_given t);
  gv_ttys : forall j, j <> i -> tty_table st' j = tty_table st j;
  gv_kern : exists m, tkern st' = set_key_pressed 0 (set_memory m (tkern st)) /\
    forall a, a < V_MEM_BASE \/ V_MEM_BASE + V_MEM_SIZE <= a ->
      m a = if decide (a = u32 (tty_read_buf (tty_table st i) + tty_trans_bytes (tty_table st i)))
            then ch else memory (tkern st) a }.

Lemma cells_after_out ch i c m a : 0 <= i < NR_TTYS -> con_ok i c -> a < V_MEM_BASE \/ V_MEM_BASE + V_MEM_SIZE <= a ->
  cells_after ch c m a = m a.
Proof.
  intros Hi Hc Ha. pose proof (con_range i c Hi Hc) as Hr. unfold V_MEM_BASE, V_MEM_SIZE in *.
  assert (H : forall p x, 0 <= p < 16384 -> set_cell p x m a = m a).
  { intros p x Hp. unfold set_cell, V_MEM_BASE. rewrite !upd_ne by lia. done. }
  unfold cells_after, CON_SIZE. repeat case_match; zbool; try done; apply H; lia.
Qed.

Lemma make_code s : 0 <= s < 128 -> is_make s = true.
Proof.
  intros Hs. unfold is_make, has, FLAG_BREAK. rewrite negb_involutive, Z.eqb_eq. apply Z.bits_inj'. intros n Hn.
  rewrite Z.land_spec, Z.bits_0. change 128 with (2 ^ 7).
  destruct (decide (n = 7)) as [->|Hne]; [|rewrite Z.pow2_bits_false by done; apply andb_false_r].
  assert (T : Z.testbit s 7 = false).
  { apply Z.testbit_false; [lia|]. by rewrite (Z.div_small s (2 ^ 7)) by (change (2 ^ 7) with 128; lia). }
  by rewrite T.
Qed.

(** a key that gives the character [x] puts it into the empty buffer of the terminal *)
Lemma event_put c st i b x : idle st i b -> 0 <= c < 128 -> 0 <= x < 4294967296 ->
  (forall k st1, kb st1 = k -> kb_plain b k -> code_with_E0 k = 0 ->
     exists k1, read_key c i st1 = put_key i x (with_kb k1 st1) /\ kb_plain b k1) ->
  exists k0 k1 t1, (keyboard_handler c ;; tty_serve mbuf obuf hard_int) st = Ok tt (pressed 0 (with_kb k0 st)) /\
    keyboard_read i (pressed 0 (with_kb k0 st)) = Ok tt (with_tty i t1 (pressed 0 (with_kb k1 st))) /\
    kb_plain b k1 /\ tty_ok t1 /\ tty_queue t1 = [x] /\ tty_rest t1 = tty_rest (tty_table st i).
Proof.
  intros Hid Hc Hx Hkey. pose proof (id_i _ _ _ Hid) as Hi.
  destruct (event_read c st i b Hid ltac:(lia) ltac:(lia) ltac:(lia)) as (k & Hp & Hz & k0 & E0 & E).
  destruct (Hkey k (pressed 0 (with_kb k st)) eq_refl Hp Hz) as (k1 & E1 & Hp1).
  destruct (id_tty _ _ _ Hid i Hi) as [Hok H0].
  destruct (put_key_run i x (with_kb k1 (pressed 0 (with_kb k st))) Hi Hok Hx) as (t1 & E2 & Hok1 & Hr1 & Hq1).
  exists k0, k1, t1. split; [exact E0|]. split; [rewrite E, E1; exact E2|]. split; [done|]. split; [done|]. split; [|exact Hr1].
  rewrite Hq1. cbn [tty_table with_kb pressed set_tkern set_kb]. rewrite H0. cbn.
  replace (tty_queue (tty_table st i)) with (@nil Z); [done|]. unfold tty_queue. by rewrite H0.
Qed.

Lemma read_char c i b ch k st : 0 <= c < 128 -> key_at c (shift_column b) = ch -> 0 <= ch < 256 ->
  kb st = k -> kb_plain b k -> code_with_E0 k = 0 ->
  exists k1, read_key c i st = put_key i (shifted b ch) (with_kb k1 st) /\ kb_plain b k1.
Proof.
  intros Hc Hk Hch <- Hp Hz. destruct (kp_shift _ _ Hp) as [H1 H2].
  assert (Hlt : ch < SHIFT_L) by (unfold SHIFT_L, FLAG_EXT; lia).
  rewrite read_key_run by (rewrite ?H1, ?Hk; done). rewrite H1, Hk, (make_code c Hc).
  set (k1 := set_column _ _). unfold when.
  assert (Epad : is_pad ch = false).
  { unfold is_pad. rewrite (proj2 (Z.leb_gt PAD_SLASH ch)); [done|]. unfold PAD_SLASH, FLAG_EXT. lia. }
  rewrite Epad. rewrite (add_flags_plain b k1); [|split; assumption|apply (kp_ctrl _ _ Hp)|apply (kp_alt _ _ Hp)].
  unfold in_process. destruct (shifted_props b ch Hch) as (_ & _ & Hext). rewrite Hext. cbn [negb].
  exists k1. split; [reflexivity|]. apply (kb_plain_rest b (kb st)); [done| | |done]; apply Hp.
Qed.

(** the ring of a terminal *)
Definition same_ring (t t' : TTY) : Prop :=
  p_inbuf_head t' = p_inbuf_head t /\ p_inbuf_tail t' = p_inbuf_tail t /\ inbuf_count t' = inbuf_count t.

(** a key that gives [x], and what [tty_give] does with it *)
Lemma event_give c st i b x (P : TTY -> kstate -> Prop) : idle st i b -> 0 <= c < 128 -> 0 <= x < 4294967296 ->
  0 < tty_bytes_left (tty_table st i) ->
  (forall k st1, kb st1 = k -> kb_plain b k -> code_with_E0 k = 0 ->
     exists k1, read_key c i st1 = put_key i x (with_kb k1 st1) /\ kb_plain b k1) ->
  (forall st2, tty_rest (tty_table st2 i) = tty_rest (tty_table st i) -> console_table st2 = console_table st ->
     tkern st2 = set_key_pressed 0 (tkern st) ->
     exists r s c' t3 k', tty_give mbuf i (u8 x) st2 =
         Ok tt (with_tty i t3 (with_crtc r s (with_con i c' (set_tkern k' st2)))) /\
       con_ok i c' /\ same_ring (tty_table st2 i) t3 /\ p_con t3 = p_con (tty_table st2 i) /\ P t3 k') ->
  exists st', key_event c st = Ok tt st' /\ idle st' i b /\ (forall j, j <> i -> tty_table st' j = tty_table st j) /\
    P (tty_table st' i) (tkern st').
Proof.
  intros Hid Hc Hx Hleft Hkey Hgive. pose proof (id_i _ _ _ Hid) as Hi.
  destruct (event_put c st i b x Hid Hc Hx Hkey) as (k0 & k1 & t1 & E0 & E1 & Hp1 & Hok1 & Hq1 & Hr1).
  set (st1 := with_tty i t1 (pressed 0 (with_kb k1 st))) in *.
  assert (Et1 : tty_table st1 i = t1) by apply upd_eq.
  destruct (dev_write_one i x st1 Hi) as (t2 & Hok2 & H02 & Hr2 & Hw); rewrite ?Et1 in *; [done|done|].
  set (st2 := with_tty i t2 st1) in *.
  assert (Et2 : tty_table st2 i = t2) by apply upd_eq.
  assert (Hrest : tty_rest t2 = tty_rest (tty_table st i)) by congruence.
  destruct (tty_rest_inv _ _ Hr1) as (_ & _ & _ & Hb1 & _).
  destruct (tty_rest_inv _ _ Hrest) as (_ & _ & _ & _ & _ & Q6).
  destruct (Hgive st2) as (r & s & c' & t3 & k' & E2 & Hok' & (G1 & G2 & G3) & Hpc & HP); [by rewrite Et2|done|done|].
  rewrite Et2 in *. set (st3 := with_tty i t3 _) in E2.
  assert (Et3 : tty_table st3 i = t3) by apply upd_eq.
  assert (Eo3 : forall j, j <> i -> tty_table st3 j = tty_table st j) by (intros j Hj; unfold st3, st2, st1; cbn; by rewrite !upd_ne).
  assert (E3 : tty_dev_write mbuf i st1 = Ok tt st3).
  { apply Hw; [|rewrite Et3; congruence]. by rewrite Hb1, (proj2 (Z.ltb_lt 0 _)) by lia. }
  exists st3. split; [|split; [|split; [exact Eo3|by rewrite Et3]]].
  - unfold key_event. rewrite (bind_assoc_run _ _ _ _ _ _ E0). apply (pass_run i); [done|apply (id_cur _ _ _ Hid)|apply (id_cur _ _ _ Hid)| |].
    + intros j Hj Hn. rewrite (Eo3 j Hn). destruct (id_tty _ _ _ Hid j Hj). split; [by apply (id_pcon _ _ _ Hid)|done].
    + apply (poll_cur i _ st1); [done| |done|done|rewrite Et3; congruence].
      rewrite (id_pcon _ _ _ Hid i Hi : p_con (tty_table (pressed 0 (with_kb k0 st)) i) = i). symmetry. apply (id_cur _ _ _ Hid).
  - split; [done|apply (id_cur _ _ _ Hid)| | |exact Hp1|].
    + intros j Hj. destruct (decide (j = i)) as [->|Hn]; [rewrite Et3, Hpc, Q6|rewrite Eo3 by done]; by apply (id_pcon _ _ _ Hid).
    + intros j Hj. change (console_table st3) with (upd (console_table st) i c'). rewrite upd_case.
      case_decide as Ej; [rewrite Ej; exact Hok'|by apply (id_cons _ _ _ Hid)].
    + intros j Hj. destruct (decide (j = i)) as [->|Hn]; [rewrite Et3|rewrite Eo3 by done; by apply (id_tty _ _ _ Hid)].
      split; [|congruence]. unfold tty_ok. by rewrite G1, G2, G3.
Qed.

Lemma event_char c st i b ch : idle st i b -> 0 <= c < 128 -> key_at c (shift_column b) = ch -> 32 <= ch <= 126 ->
  1 < tty_bytes_left (tty_table st i) ->
  exists st', key_event c st = Ok tt st' /\ idle st' i b /\ gave ch i st st'.
Proof.
  intros Hid Hc Hk Hch Hleft. pose proof (id_i _ _ _ Hid) as Hi.
  destruct (shifted_props b ch ltac:(lia)) as (Hx & Hu & _).
  destruct (event_give c st i b (shifted b ch) (fun t k => tty_rest t = tty_rest (tty_given (tty_table st i)) /\
      exists m, k = set_key_pressed 0 (set_memory m (tkern st)) /\
      forall a, a < V_MEM_BASE \/ V_MEM_BASE + V_MEM_SIZE <= a ->
        m a = if decide (a = u32 (tty_read_buf (tty_table st i) + tty_trans_bytes (tty_table st i)))
              then ch else memory (tkern st) a) Hid Hc Hx ltac:(lia)) as (st' & E & Hid' & Ho & HP & Hm).
  - intros k st1. apply read_char; [done|done|lia].
  - intros st2 Hr Ht Hkn. rewrite Hu. destruct (tty_rest_inv _ _ Hr) as (Q1 & Q2 & Q3 & Q4 & Q5 & Q6).
    destruct (give_char_run i ch st2 Hi) as (r & s & c' & E2 & Hok').
    { rewrite Q6. by apply (id_pcon _ _ _ Hid). }
    { rewrite Ht. by apply (id_cons _ _ _ Hid). }
    { done. }
    { lia. }
    exists r, s, c', (tty_given (tty_table st2 i)). eexists. split; [exact E2|]. split; [done|].
    split; [done|]. split; [done|]. split; [unfold tty_rest, tty_given; cbn; congruence|].
    exists (upd (cells_after ch (console_table st2 i) (memory (tkern st2))) (u32 (tty_read_buf (tty_table st2 i) + tty_trans_bytes (tty_table st2 i))) ch).
    rewrite Hkn. split; [reflexivity|]. intros a Ha. rewrite upd_case, Q3, Q5. case_decide; [done|].
    rewrite Ht. apply (cells_after_out ch i); [done|by apply (id_cons _ _ _ Hid)|done].
  - exists st'. split; [done|]. split; [done|]. by split.
Qed.

(** ** The enter key *)

Lemma answers_ext k k' who dst : answers k who mbuf dst -> k_reenter k' = k_reenter k -> proc_table k' = proc_table k ->
  answers k' who mbuf dst.
Proof.
  intros [A1 A2 A3 A4 A5 A6 A7 A8 A9 A10 A11 A12] E1 E2. split; rewrite ?E1, ?E2; try done.
  intros j Hj. rewrite E2. by apply A2.
Qed.

Definition resume_msg (t : TTY) (m : MESSAGE) : MESSAGE :=
  set_m3i2 (tty_trans_bytes t) (set_m3i3 (tty_pro_nr t) (set_type RESUME_PROC m)).

Lemma resume_msg_ok t m : -2147483648 <= tty_trans_bytes t < 2147483648 -> -2147483648 <= tty_pro_nr t < 2147483648 ->
  msg_ok m -> msg_ok (resume_msg t m).
Proof. intros H1 H2 (?&?&?&?&?&?&?&?&?&?). unfold resume_msg, RESUME_PROC. repeat split; cbn; try done; lia. Qed.

Lemma give_enter_run i st :
  let t := tty_table st i in let c := console_table st i in
  0 <= i < NR_TTYS -> p_con t = i -> con_ok i c -> answers (tkern st) TASK_TTY mbuf (tty_caller t) ->
  exists r s c', tty_give mbuf i 10 st = Ok tt (with_tty i (set_tty_bytes_left 0 t) (with_crtc r s (with_con i c'
      (set_tkern (let k := set_memory (cells_after 10 c (memory (tkern st))) (tkern st) in
         delivered TASK_TTY mbuf (tty_caller t) (resume_msg t (msg_at (memory k) mbuf)) k) st)))) /\ con_ok i c'.
Proof.
  intros t c Hi Hpc Hc Ha. unfold tty_give. rewrite (bind_run _ _ _ _ _ (gettty_run i st Hi)). fold t.
  change ((32 <=? 10) && (10 <=? 126)) with false. change (10 =? 8) with false. cbv iota.
  rewrite (bind_run (when false _) _ st tt st eq_refl). rewrite (bind_run _ _ _ _ _ (gettty_run i st Hi)). fold t.
  change (10 =? 10) with true. rewrite orb_true_r. unfold when, tty_resume.
  rewrite (bind_run _ _ _ _ _ (gettty_run i st Hi)). fold t. rewrite Hpc.
  destruct (out_char_run 10 i st Hi Hc ltac:(lia)) as (r & s & a & E & Hok & _). fold c in E, Hok.
  set (c' := set_cur_start_addr a _) in *. exists r, s, c'. split; [|exact Hok].
  rewrite (bind_run _ _ _ _ _ E). set (st1 := with_crtc r s _).
  set (k1 := set_memory (cells_after 10 c (memory (tkern st))) (tkern st)).
  assert (Ek : tkern st1 = k1) by reflexivity.
  assert (Ha1 : answers k1 TASK_TTY mbuf (tty_caller t)) by (by apply (answers_ext (tkern st))).
  change (fun m => set_m3i2 (tty_trans_bytes t) (set_m3i3 (tty_pro_nr t) (set_type RESUME_PROC m))) with (resume_msg t).
  assert (Es : forall K, delivered TASK_TTY mbuf (tty_caller t) (resume_msg t (msg_at (memory k1) mbuf)) k1 = K ->
    tty_send mbuf (tty_caller t) (resume_msg t) st1 = Ok tt (set_tkern K st1)).
  { intros K <-. unfold tty_send. rewrite (bind_run get _ st1 st1 st1 eq_refl). unfold klift. rewrite Ek.
    by rewrite (task_send_run _ _ _ _ _ Ha1). }
  cbv zeta. fold k1. revert Es. generalize (delivered TASK_TTY mbuf (tty_caller t) (resume_msg t (msg_at (memory k1) mbuf)) k1).
  intros K Es. rewrite (bind_run _ _ _ _ _ (Es K eq_refl)), modtty_run by done. reflexivity.
Qed.

Lemma read_enter i b k st : kb st = k -> kb_plain b k -> code_with_E0 k = 0 ->
  exists k1, read_key 0x1C i st = put_key i 10 (with_kb k1 st) /\ kb_plain b k1.
Proof.
  intros <- Hp Hz. destruct (kp_shift _ _ Hp) as [H1 H2].
  assert (Ek : key_at 0x1C (shift_column b) = ENTER) by (unfold shift_column; by destruct (b =? 0)).
  rewrite read_key_run by (rewrite ?H1, ?Ek; done). rewrite H1, Ek.
  change (is_make 0x1C) with true. change (is_pad ENTER) with false. unfold when. cbv iota.
  set (k1 := set_column _ _).
  rewrite (add_flags_plain b k1); [|split; assumption|apply (kp_ctrl _ _ Hp)|apply (kp_alt _ _ Hp)].
  exists k1. split; [|apply (kb_plain_rest b (kb st)); [done| | |done]; apply Hp].
  unfold shifted, flag_if. by destruct (b =? 0).
Qed.

(** what is left when the line is complete *)
Record line_done (i : Z) (st st' : tsys) : Prop := {
  ld_left : tty_bytes_left (tty_table st' i) = 0;
  ld_kern : exists m, let k := set_key_pressed 0 (set_memory m (tkern st)) in let t := tty_table st i in
    tkern st' = delivered TASK_TTY mbuf (tty_caller t) (resume_msg t (msg_at m mbuf)) k /\
    forall a, a < V_MEM_BASE \/ V_MEM_BASE + V_MEM_SIZE <= a -> m a = memory (tkern st) a }.

Lemma event_enter st i b : idle st i b -> 0 < tty_bytes_left (tty_table st i) ->
  answers (tkern st) TASK_TTY mbuf (tty_caller (tty_table st i)) ->
  exists st', key_event 0x1C st = Ok tt st' /\ idle st' i b /\ line_done i st st'.
Proof.
  intros Hid Hleft Hans. pose proof (id_i _ _ _ Hid) as Hi.
  destruct (event_give 0x1C st i b 10 (fun t k' => tty_bytes_left t = 0 /\
      exists m, let k := set_key_pressed 0 (set_memory m (tkern st)) in let t := tty_table st i in
        k' = delivered TASK_TTY mbuf (tty_caller t) (resume_msg t (msg_at m mbuf)) k /\
        forall a, a < V_MEM_BASE \/ V_MEM_BASE + V_MEM_SIZE <= a -> m a = memory (tkern st) a)
      Hid ltac:(lia) ltac:(lia) Hleft) as (st' & E & Hid' & Ho & HP & Hm).
  - intros k st1. apply read_enter.
  - intros st2 Hr Ht Hkn. change (u8 10) with 10. destruct (tty_rest_inv _ _ Hr) as (Q1 & Q2 & Q3 & Q4 & Q5 & Q6).
    destruct (give_enter_run i st2 Hi) as (r & s & c' & E2 & Hok').
    { rewrite Q6. by apply (id_pcon _ _ _ Hid). }
    { rewrite Ht. by apply (id_cons _ _ _ Hid). }
    { rewrite Q1, Hkn. by apply (answers_ext (tkern st)). }
    exists r, s, c', (set_tty_bytes_left 0 (tty_table st2 i)). eexists. split; [exact E2|]. split; [done|].
    split; [done|]. split; [done|]. split; [done|].
    exists (cells_after 10 (console_table st2 i) (memory (tkern st2))). cbv zeta. split.
    + assert (Em : forall m, resume_msg (tty_table st2 i) m = resume_msg (tty_table st i) m)
        by (intros m; unfold resume_msg; by rewrite Q2, Q5).
      rewrite Em, Q1, Hkn. reflexivity.
    + rewrite Hkn, Ht. intros a Ha. apply (cells_after_out 10 i); [done|by apply (id_cons _ _ _ Hid)|done].
  - exists st'. split; [done|]. split; [done|]. by split.
Qed.

(** ** Texts *)

(** the codes of a key pressed and released, with the shift key if need be *)
Definition typed (ch : Z) : list Z :=
  match find_first (fun s => key_at s 0 =? ch) 128 0 with
  | Some s => [s; s + 128]
  | None => match find_first (fun s => key_at s 1 =? ch) 128 0 with
            | Some s => [0x2A; s; s + 128; 0xAA]
            | None => []
            end
  end.
Fixpoint run_keys (l : list Z) : M tsys unit :=
  match l with [] => ret tt | c :: l' => key_event c ;; run_keys l' end.

Lemma run_keys_app l l' st st1 : run_keys l st = Ok tt st1 -> run_keys (l ++ l') st = run_keys l' st1.
Proof.
  revert st. induction l as [|c l IH]; intros st; cbn [run_keys app]; [by intros [= ->]|].
  unfold bind. destruct (key_event c st); [|done]. apply IH.
Qed.

(** a scan code that gives [ch] in column [col], and the code of its release *)
Definition good_code (ch col s : Z) : bool :=
  (0 <=? s) && (s <? 128) && (key_at s col =? ch) && (key_at (s + 128) col <? SHIFT_L) &&
  negb (is_make (s + 128)) && negb (s + 128 =? 0xE0) && negb (s + 128 =? 0xE1).
Definition typed_b (ch : Z) : bool :=
  match typed ch with
  | [s; s'] => (s' =? s + 128) && good_code ch 0 s
  | [a; s; s'; a'] => (a =? 0x2A) && (s' =? s + 128) && (a' =? 0xAA) && good_code ch 1 s
  | _ => false
  end.
(** every printable character has a key *)
Lemma typed_all ch : 32 <= ch <= 126 -> typed_b ch = true.
Proof.
  intros Hc. assert (H : forallb typed_b (seqZ 32 95) = true) by (vm_compute; reflexivity).
  rewrite forallb_forall in H. apply H. apply list_elem_of_In, elem_of_seqZ. lia.
Qed.

Lemma good_code_spec ch col s : good_code ch col s = true ->
  0 <= s < 128 /\ key_at s col = ch /\ key_at (s + 128) col < SHIFT_L /\ is_make (s + 128) = false /\
  s + 128 <> 0xE0 /\ s + 128 <> 0xE1.
Proof.
  unfold good_code. intros [[[[[[H1 H2]%andb_true_iff H3]%andb_true_iff H4]%andb_true_iff H5]%andb_true_iff
    H6]%andb_true_iff H7]%andb_true_iff. zbool. split; [lia|]. done.
Qed.

Lemma gave_after ch i st st1 k : gave ch i st st1 -> gave ch i st (pressed 0 (with_kb k st1)).
Proof. intros [H1 H2 (m & H3 & H4)]. split; try done. exists m. split; [|done]. cbn. by rewrite H3. Qed.
Lemma gave_before ch i st st1 k : gave ch i (pressed 0 (with_kb k st)) st1 -> gave ch i st st1.
Proof. intros [H1 H2 (m & H3 & H4)]. split; try done. exists m. by split. Qed.

(** a character and the release of its key *)
Lemma press_release ch s st i b : idle st i b -> 32 <= ch <= 126 -> good_code ch (shift_column b) s = true ->
  1 < tty_bytes_left (tty_table st i) ->
  exists st', run_keys [s; s + 128] st = Ok tt st' /\ idle st' i b /\ gave ch i st st'.
Proof.
  intros Hid Hch (Hs & Hk & Hk' & Hm & H0 & H1)%good_code_spec Hl.
  destruct (event_char s st i b ch Hid Hs Hk Hch Hl) as (st1 & E1 & Hid1 & Hg).
  destruct (event_quiet (s + 128) st1 i b b Hid1 ltac:(lia) H0 H1) as (k & E2 & Hid2).
  { by apply quiet_release. }
  eexists. cbn [run_keys]. rewrite (bind_run _ _ _ _ _ E1), (bind_run _ _ _ _ _ E2).
  split; [reflexivity|]. split; [done|]. by apply gave_after.
Qed.

Lemma type_char ch st i : idle st i 0 -> 32 <= ch <= 126 -> 1 < tty_bytes_left (tty_table st i) ->
  exists st', run_keys (typed ch) st = Ok tt st' /\ idle st' i 0 /\ gave ch i st st'.
Proof.
  intros Hid Hch Hl. pose proof (typed_all ch Hch) as Ht. unfold typed_b in Ht.
  destruct (typed ch) as [|a [|b [|c [|d [|? ?]]]]]; try done.
  - apply andb_true_iff in Ht as [->%Z.eqb_eq Hg]. by apply press_release.
  - apply andb_true_iff in Ht as [[[->%Z.eqb_eq ->%Z.eqb_eq]%andb_true_iff ->%Z.eqb_eq]%andb_true_iff Hg].
    destruct (event_quiet 0x2A st i 0 1 Hid ltac:(lia) ltac:(lia) ltac:(lia)) as (k1 & E1 & Hid1).
    { by apply (quiet_shift 0x2A i 0). }
    destruct (press_release ch b _ i 1 Hid1 Hch Hg Hl) as (st2 & E2 & Hid2 & Hg2).
    destruct (event_quiet 0xAA st2 i 1 0 Hid2 ltac:(lia) ltac:(lia) ltac:(lia)) as (k3 & E3 & Hid3).
    { by apply (quiet_shift 0xAA i 1). }
    change [0x2A; b; b + 128; 0xAA] with ([0x2A] ++ [b; b + 128] ++ [0xAA]).
    eexists. split; [|split; [exact Hid3|]].
    + rewrite (run_keys_app [0x2A] _ st (pressed 0 (with_kb k1 st))) by (cbn [run_keys]; by rewrite (bind_run _ _ _ _ _ E1)).
      rewrite (run_keys_app _ _ _ _ E2). cbn [run_keys]. by rewrite (bind_run _ _ _ _ _ E3).
    + apply gave_after. by apply (gave_before _ _ _ _ k1).
Qed.

(** ** The line *)

Definition outside_video (a n : Z) : Prop := a + n <= V_MEM_BASE \/ V_MEM_BASE + V_MEM_SIZE <= a.

(** the text [s] has arrived *)
Record given (s : list Z) (i : Z) (st st' : tsys) : Prop := {
  gn_rest : let t := tty_table st i in let n := Z.of_nat (length s) in
    tty_rest (tty_table st' i) = tty_rest (set_tty_trans_bytes (tty_trans_bytes t + n) (set_tty_bytes_left (tty_bytes_left t - n) t));
  gn_kern : exists m v, tkern st' = set_key_pressed v (set_memory m (tkern st)) /\
    forall a, outside_video a 1 ->
      m a = let o := a - (tty_read_buf (tty_table st i) + tty_trans_bytes (tty_table st i)) in
            if decide (0 <= o) then default (memory (tkern st) a) (s !! Z.to_nat o) else memory (tkern st) a }.

Lemma given_nil i st : given [] i st st.
Proof.
  split.
  - unfold tty_rest. cbn. by rewrite Z.add_0_r, Z.sub_0_r.
  - exists (memory (tkern st)), (key_pressed (tkern st)). split; [by destruct (tkern st)|].
    intros a _. cbn. by case_decide.
Qed.

Lemma given_cons ch s i st st1 st2 : gave ch i st st1 -> given s i st1 st2 ->
  let t := tty_table st i in
  0 <= tty_read_buf t + tty_trans_bytes t < 4294967296 -> given (ch :: s) i st st2.
Proof.
  intros [G1 _ (m1 & G2 & G3)] [N1 (m2 & v & N2 & N3)] t Hb. cbv zeta in *. fold t in G1, G3.
  destruct (tty_rest_inv _ _ G1) as (A1 & A2 & A3 & A4 & A5 & A6). cbn in A1, A2, A3, A4, A5, A6. split.
  - cbv zeta. fold t. rewrite N1. unfold tty_rest. cbn [length tty_caller tty_pro_nr tty_read_buf tty_bytes_left tty_trans_bytes p_con set_tty_trans_bytes set_tty_bytes_left].
    rewrite A1, A2, A3, A4, A5, A6.
    replace (tty_bytes_left t - 1 - Z.of_nat (length s)) with (tty_bytes_left t - Z.of_nat (S (length s))) by lia.
    by replace (tty_trans_bytes t + 1 + Z.of_nat (length s)) with (tty_trans_bytes t + Z.of_nat (S (length s))) by lia.
  - exists m2, v. split; [rewrite N2, G2; reflexivity|]. intros a Ha. rewrite (N3 a Ha). cbv zeta. fold t.
    rewrite A3, A5, G2. cbn [memory set_key_pressed set_memory].
    rewrite (G3 a ltac:(unfold outside_video in Ha; lia)). rewrite u32_id by exact Hb.
    destruct (decide (a = tty_read_buf t + tty_trans_bytes t)) as [->|Hn].
    + rewrite decide_False by lia. rewrite Z.sub_diag. done.
    + destruct (decide (0 <= a - (tty_read_buf t + tty_trans_bytes t))) as [Ho|Ho].
      * rewrite decide_True by lia.
        replace (Z.to_nat (a - (tty_read_buf t + tty_trans_bytes t))) with
          (S (Z.to_nat (a - (tty_read_buf t + (tty_trans_bytes t + 1))))) by lia. done.
      * by rewrite decide_False by lia.
Qed.

Lemma type_text s st i : idle st i 0 -> Forall (fun ch => 32 <= ch <= 126) s ->
  let t := tty_table st i in
  Z.of_nat (length s) < tty_bytes_left t -> 0 <= tty_read_buf t + tty_trans_bytes t ->
  tty_read_buf t + tty_trans_bytes t + Z.of_nat (length s) <= 4294967296 ->
  exists st', run_keys (concat (typed <$> s)) st = Ok tt st' /\ idle st' i 0 /\ given s i st st'.
Proof.
  revert st. induction s as [|ch s IH]; intros st Hid Hs t Hl Hb1 Hb2.
  { exists st. split; [done|]. split; [done|]. apply given_nil. }
  apply Forall_cons in Hs as [Hch Hs]. cbn [length] in Hl, Hb2.
  destruct (type_char ch st i Hid Hch ltac:(fold t; lia)) as (st1 & E1 & Hid1 & Hg).
  destruct (tty_rest_inv _ _ (gv_rest _ _ _ _ Hg)) as (A1 & A2 & A3 & A4 & A5 & A6). cbn in A1, A2, A3, A4, A5, A6. fold t in A1, A2, A3, A4, A5, A6.
  destruct (IH st1 Hid1 Hs) as (st2 & E2 & Hid2 & Hn); [lia|lia|lia|].
  exists st2. cbn [fmap list_fmap concat]. rewrite (run_keys_app _ _ _ _ E1). split; [done|]. split; [done|].
  apply (given_cons ch s i st st1); [done|done|]. fold t. lia.
Qed.
End line.

(** ** Properties *)

(** C7: A line typed at a terminal. A process reads terminal [i] and waits; nothing
    is pending and no key is down. For every text of printable characters that is
    shorter than the request, pressing and releasing its keys (with the shift key
    where the key map needs it) and then the enter key, each code being an
    interrupt followed by a pass of the terminal task, the task never stops or
    blocks; the reader's buffer holds exactly the text, the task that asked is
    ready and its message says that the process can go on, with the number of
    characters; the keyboard and the terminals are idle again. *)
Theorem tty_line_roundtrip mbuf obuf i s st :
  let t := tty_table st i in let n := Z.of_nat (length s) in
  let la := la_of (tkern st) (tty_caller t) (p_msg (proc_table (tkern st) (tty_caller t))) in
  idle st i 0 -> Forall (fun ch => 32 <= ch <= 126) s -> n < tty_bytes_left t -> n < 2147483648 -> tty_trans_bytes t = 0 ->
  answers (tkern st) TASK_TTY mbuf (tty_caller t) -> 0 <= tty_pro_nr t < NR_ALL ->
  0 <= tty_read_buf t /\ tty_read_buf t + n <= 4294967296 -> outside_video (tty_read_buf t) n ->
  outside_video mbuf SIZEOF_MESSAGE -> disjoint_msgs la mbuf ->
  mbuf + SIZEOF_MESSAGE <= tty_read_buf t \/ tty_read_buf t + n <= mbuf ->
  la + SIZEOF_MESSAGE <= tty_read_buf t \/ tty_read_buf t + n <= la ->
  (forall a, 0 <= memory (tkern st) a < 256) ->
  exists st', run_keys mbuf obuf (concat (typed <$> s) ++ [0x1C; 0x9C]) st = Ok tt st' /\ idle st' i 0 /\
    (forall j, 0 <= j < n -> s !! Z.to_nat j = Some (memory (tkern st') (tty_read_buf t + j))) /\
    p_flags (proc_table (tkern st') (tty_caller t)) = 0 /\ tty_bytes_left (tty_table st' i) = 0 /\
    let r := msg_at (memory (tkern st')) la in
    type r = RESUME_PROC /\ source r = TASK_TTY /\ CNT r = n /\ PROC_NR r = tty_pro_nr t.
Proof.
  intros t n la Hid Hs Hn Hn2 Ht0 Hans Hpn [Hb1 Hb2] Hvb Hvm Hd Hdm Hdl Hbytes.
  destruct (type_text mbuf obuf s st i Hid Hs) as (st1 & E1 & Hid1 & [G1 (m1 & v1 & G2 & G3)]); fold t; rewrite ?Ht0; try lia.
  cbv zeta in G1. fold t in G1, G3. destruct (tty_rest_inv _ _ G1) as (A1 & A2 & A3 & A4 & A5 & A6).
  cbn in A1, A2, A3, A4, A5. fold n in A4, A5. rewrite Ht0 in *.
  assert (Hans1 : answers (tkern st1) TASK_TTY mbuf (tty_caller (tty_table st1 i))).
  { rewrite A1, G2. by apply (answers_ext mbuf (tkern st)). }
  destruct (event_enter mbuf obuf st1 i 0 Hid1 ltac:(lia) Hans1) as (st2 & E2 & Hid2 & [L1 (m2 & L2 & L3)]).
  destruct (event_quiet mbuf obuf 0x9C st2 i 0 0 Hid2 ltac:(lia) ltac:(lia) ltac:(lia)) as (k & E3 & Hid3).
  { by apply quiet_release. }
  exists (pressed 0 (with_kb k st2)). split; [|split; [exact Hid3|]].
  { rewrite (run_keys_app _ _ _ _ _ _ E1). cbn [run_keys]. by rewrite (bind_run _ _ _ _ _ E2), (bind_run _ _ _ _ _ E3). }
  cbv zeta in L2. rewrite A1 in L2. rewrite G2 in L2, L3. cbn [memory set_key_pressed set_memory] in L3.
  change (memory (tkern (pressed 0 (with_kb k st2)))) with (memory (tkern st2)).
  change (proc_table (tkern (pressed 0 (with_kb k st2)))) with (proc_table (tkern st2)).
  set (k2 := set_key_pressed 0 (set_memory m2 (set_key_pressed v1 (set_memory m1 (tkern st))))) in L2.
  assert (Ela : la_of k2 (tty_caller t) (p_msg (proc_table k2 (tty_caller t))) = la) by reflexivity.
  assert (Hm2 : forall a, outside_video a 1 -> m2 a = let o := a - tty_read_buf t in
    if decide (0 <= o) then default (memory (tkern st) a) (s !! Z.to_nat o) else memory (tkern st) a).
  { intros a Ha. rewrite (L3 a) by (unfold outside_video in Ha; lia). rewrite (G3 a Ha). cbv zeta. rewrite Z.add_0_r. done. }
  assert (Hmb : forall o, 0 <= o < SIZEOF_MESSAGE -> 0 <= m2 (mbuf + o) < 256).
  { intros o Ho. rewrite Hm2 by (unfold outside_video in *; lia). cbv zeta. case_decide; [|apply Hbytes].
    destruct (s !! _) eqn:E; [|apply Hbytes]. cbn. rewrite Forall_forall in Hs.
    apply list_elem_of_lookup_2, Hs in E. lia. }
  split; [|split; [|split; [exact L1|]]].
  - intros j Hj. rewrite L2, delivered_out; rewrite ?Ela; [|lia|lia].
    change (memory k2) with m2. rewrite Hm2 by (unfold outside_video in *; lia). cbv zeta.
    replace (tty_read_buf t + j - tty_read_buf t) with j by lia. rewrite decide_True by lia.
    destruct (s !! Z.to_nat j) eqn:E; [done|]. apply lookup_ge_None in E. lia.
  - rewrite L2. unfold delivered. cbn [proc_table set_memory set_proc_table]. rewrite upd_eq.
    unfold woken. cbn. by rewrite (an_wait _ _ _ _ Hans).
  - rewrite L2. assert (Er : forall a, a = la -> msg_at (memory (delivered TASK_TTY mbuf (tty_caller t)
      (resume_msg (tty_table st1 i) (msg_at m2 mbuf)) k2)) a =
      set_source TASK_TTY (resume_msg (tty_table st1 i) (msg_at m2 mbuf))).
    { intros a ->. rewrite <- Ela. apply delivered_msg; [clia| |rewrite Ela; exact Hd].
      apply resume_msg_ok; [lia|clia|by apply msg_at_ok_part]. }
    rewrite (Er la eq_refl). unfold resume_msg, CNT, PROC_NR. cbn. rewrite A5, A2. repeat split; lia.
Qed.

(** C40: The terminal task takes the codes of one key per message. With further codes
    waiting behind the code of a key that is released, the message of the
    interrupt and the pass over the terminals leave them in the buffer and
    [key_pressed] at 0, so no clock tick informs the task of them: they wait for
    the next key. *)
Theorem tty_leaves_codes mbuf obuf c l i b st :
  0 <= i < NR_TTYS -> nr_cur_console st = i ->
  (forall j, 0 <= j < NR_TTYS -> p_con (tty_table st j) = j /\ inbuf_count (tty_table st j) = 0) ->
  kb_ok (kb st) -> kb_queue (kb st) = c :: l -> shift_l (kb st) = b -> shift_r (kb st) = 0 ->
  128 <= c < 256 -> c <> 0xE0 -> c <> 0xE1 -> key_at c (shift_column b) < SHIFT_L -> is_make c = false ->
  exists st', (tty_serve mbuf obuf hard_int ;; tty_pass mbuf) st = Ok tt st' /\
    kb_queue (kb st') = l /\ key_pressed (tkern st') = 0.
Proof.
  intros Hi Hcur Ht Hk Hq Hb Hr Hc H0 H1 Hkey Hm.
  rewrite (bind_run (tty_serve mbuf obuf hard_int) _ st tt (pressed 0 st) eq_refl).
  destruct (keyboard_read_code c l i (pressed 0 st) Hk Hq ltac:(lia) H0 H1) as (k1 & E1 & Hk1 & Hq1 & Hr1).
  unfold kb_rest in Hr1. cbn in Hr1. injection Hr1 as R1 R2 R3 R4 R5 R6 R7 R8 R9 R10 R11.
  set (st1 := with_kb k1 (pressed 0 st)) in *.
  rewrite read_key_run in E1 by (change (kb st1) with k1; first [congruence|rewrite R2, Hb; done]).
  rewrite Hm in E1. set (k2 := set_column _ _) in E1. exists (with_kb k2 st1). split; [|split; [exact Hq1|done]].
  apply (pass_run mbuf i); [done|done|done| |].
  - intros j Hj Hn. destruct (Ht j Hj). done.
  - apply (poll_cur mbuf i _ (with_kb k2 st1)); [done| |exact E1| |].
    + rewrite (proj1 (Ht i Hi) : p_con (tty_table (pressed 0 st) i) = i). by symmetry.
    + unfold tty_dev_write, TTY_FUEL. cbn [tty_write_loop]. rewrite (bind_run _ _ _ _ _ (gettty_run i _ Hi)).
      cbn [tty_table with_kb st1 pressed set_tkern set_kb]. by rewrite (proj2 (Ht i Hi) : inbuf_count (tty_table st i) = 0).
    + exact (proj2 (Ht i Hi)).
Qed.

Definition tty_taken_back (t : TTY) : TTY :=
  set_tty_trans_bytes (tty_trans_bytes t - 1) (set_tty_bytes_left (tty_bytes_left t + 1) t).

Lemma give_back_run mbuf i st :
  let t := tty_table st i in let c := console_table st i in
  0 <= i < NR_TTYS -> p_con t = i -> con_ok i c -> 0 < tty_bytes_left t ->
  exists r s c', tty_give mbuf i 8 st = Ok tt (with_tty i (tty_taken_back t) (with_crtc r s (with_con i c'
      (with_tmem (cells_after 8 c (memory (tkern st))) st)))) /\ con_ok i c'.
Proof.
  intros t c Hi Hpc Hc Hl. unfold tty_give. rewrite (bind_run _ _ _ _ _ (gettty_run i st Hi)). fold t.
  change ((32 <=? 8) && (8 <=? 126)) with false. change (8 =? 8) with true. cbv iota. unfold when at 1. rewrite Hpc.
  destruct (out_char_run 8 i st Hi Hc ltac:(lia)) as (r & s & a & E & Hok & _). fold c in E, Hok.
  set (c' := set_cur_start_addr a _) in *. exists r, s, c'. split; [|exact Hok]. set (st1 := with_crtc r s _) in E |- *.
  assert (E1 : (out_char 8 i ;; modtty i (fun t => set_tty_bytes_left (tty_bytes_left t + 1) t) ;;
    modtty i (fun t => set_tty_trans_bytes (tty_trans_bytes t - 1) t)) st = Ok tt (with_tty i (tty_taken_back t) st1)).
  { rewrite (bind_run _ _ _ _ _ E), (bind_run _ _ _ _ _ (modtty_run i _ _ Hi)), modtty_run by done.
    cbn [tty_table set_tty_table]. rewrite upd_eq, upd_upd. reflexivity. }
  rewrite (bind_run _ _ _ _ _ E1), (bind_run _ _ _ _ _ (gettty_run i _ Hi)).
  cbn [tty_table with_tty set_tty_table]. rewrite upd_eq. unfold tty_taken_back at 1 2.
  cbn [tty_bytes_left set_tty_trans_bytes set_tty_bytes_left].
  rewrite (proj2 (Z.eqb_neq 0 _)) by lia. reflexivity.
Qed.

(** A backspace at the start of the line is not refused: the count of
    characters becomes negative, and the next character is stored in front of the
    reader's buffer. *)
Theorem backspace_leaves_buffer mbuf i ch st :
  let t := tty_table st i in
  0 <= i < NR_TTYS -> p_con t = i -> con_ok i (console_table st i) -> 0 < tty_bytes_left t -> tty_trans_bytes t = 0 ->
  32 <= ch <= 126 ->
  exists st', (tty_give mbuf i 8 ;; tty_give mbuf i ch) st = Ok tt st' /\
    memory (tkern st') (u32 (tty_read_buf t - 1)) = ch /\ tty_trans_bytes (tty_table st' i) = 0.
Proof.
  intros t Hi Hpc Hc Hl H0 Hch. destruct (give_back_run mbuf i st Hi Hpc Hc Hl) as (r & s & c' & E & Hc').
  rewrite (bind_run _ _ _ _ _ E). fold t. set (st1 := with_tty i (tty_taken_back t) _).
  assert (Et : tty_table st1 i = tty_taken_back t) by apply upd_eq.
  destruct (give_char_run mbuf i ch st1 Hi) as (r2 & s2 & c2 & E2 & _).
  - rewrite Et. exact Hpc.
  - change (console_table st1) with (upd (console_table st) i c'). by rewrite upd_eq.
  - done.
  - rewrite Et. cbn. fold t in Hl. lia.
  - eexists. split; [exact E2|]. rewrite Et. split.
    + cbn [tkern with_tty set_tty_table with_crtc set_crtc_sel set_crtc with_con set_console_table with_tmem set_tkern memory set_memory].
      cbn [tty_read_buf tty_trans_bytes tty_taken_back set_tty_trans_bytes set_tty_bytes_left]. rewrite H0.
      replace (tty_read_buf t + (0 - 1)) with (tty_read_buf t - 1) by lia. apply upd_eq.
    + cbn [tty_table with_tty set_tty_table]. rewrite upd_eq. cbn. fold t. lia.
Qed.
