(* ===== verification/TtyWrite.v ===== *)
(** * Writing to a terminal (kernel/tty.c: tty_do_write)

    A write request of FS is carried out in pieces through the output buffer of the
    task, character by character. The screen is specified by a fold: [shown] is what
    a text does to the cursor and to the cells. The theorem is that the request ends,
    leaves that screen, and is answered with the number of characters. *)
From S2P Require Import Prelude Const CLib Protect Proc Sched Ipc IpcInv IpcRun IpcFrame IpcThm IpcSpec Task Ring.
From S2P Require Import TtyState Console Keymap Tty TtyTask TtyLem TtyLine.

(** ** The screen after a text *)

Definition con_step (s : CONSOLE * mem) (ch : Z) : CONSOLE * mem :=
  (set_cur_cursor_pos (cursor_after ch (fst s)) (fst s), cells_after ch (fst s) (snd s)).
Definition shown (l : list Z) (c : CONSOLE) (m : mem) : CONSOLE * mem := foldl con_step (c, m) l.
Definition cursor_at (c : CONSOLE) : Z * Z := (orig_start_addr c, cur_cursor_pos c).

Lemma shown_app l l' c m : shown (l ++ l') c m = shown l' (fst (shown l c m)) (snd (shown l c m)).
Proof. unfold shown. rewrite foldl_app. by destruct (foldl _ _ l). Qed.
Lemma shown_cons ch l c m :
  shown (ch :: l) c m = shown l (set_cur_cursor_pos (cursor_after ch c) c) (cells_after ch c m).
Proof. done. Qed.

Lemma set_cell_local p ch m m' a : m a = m' a -> set_cell p ch m a = set_cell p ch m' a.
Proof. intros H. unfold set_cell. rewrite !upd_case. by repeat case_decide. Qed.

(** only the position of the cursor and the byte itself matter *)
Lemma cursor_step ch c c' : cursor_at c = cursor_at c' ->
  cursor_at (set_cur_cursor_pos (cursor_after ch c) c) = cursor_at (set_cur_cursor_pos (cursor_after ch c') c').
Proof. unfold cursor_at, cursor_after. cbn. by intros [= -> ->]. Qed.

Lemma shown_cursor l : forall c c' m m', cursor_at c = cursor_at c' ->
  cursor_at (fst (shown l c m)) = cursor_at (fst (shown l c' m')).
Proof.
  induction l as [|ch l IH]; intros c c' m m' Hc; [done|]. rewrite !shown_cons. by apply IH, cursor_step.
Qed.

Lemma shown_local l : forall c c' m m' a, cursor_at c = cursor_at c' -> m a = m' a ->
  snd (shown l c m) a = snd (shown l c' m') a.
Proof.
  induction l as [|ch l IH]; intros c c' m m' a Hc Hm; [done|]. rewrite !shown_cons.
  apply IH; [by apply cursor_step|].
  unfold cursor_at, cells_after in *. injection Hc as -> ->. repeat case_match; by try apply set_cell_local.
Qed.

Lemma shown_ok l : forall i c m, 0 <= i < NR_TTYS -> con_ok i c -> con_ok i (fst (shown l c m)).
Proof.
  induction l as [|ch l IH]; intros i c m Hi Hc; [done|]. rewrite shown_cons. apply IH; [done|].
  by apply cursor_after_ok.
Qed.

Lemma shown_other l : forall i c m a, 0 <= i < NR_TTYS -> con_ok i c ->
  a < V_MEM_BASE + 2 * CON_SIZE * i \/ V_MEM_BASE + 2 * CON_SIZE * (i + 1) <= a -> snd (shown l c m) a = m a.
Proof.
  induction l as [|ch l IH]; intros i c m a Hi Hc Ha; [done|]. rewrite shown_cons, (IH i); try done.
  - by apply (cells_after_other ch i).
  - by apply cursor_after_ok.
Qed.
Lemma shown_out l i c m a : 0 <= i < NR_TTYS -> con_ok i c -> outside_video a 1 -> snd (shown l c m) a = m a.
Proof.
  intros Hi Hc Ha. apply (shown_other l i); [done|done|]. unfold outside_video in Ha.
  unfold V_MEM_BASE, V_MEM_SIZE, CON_SIZE, NR_TTYS in *. lia.
Qed.

(** a text without control characters stays as it is, from the cursor on *)
Lemma shown_plain l : forall c m, Forall (fun ch => ch <> 10 /\ ch <> 8) l ->
  cur_cursor_pos c + Z.of_nat (length l) < orig_start_addr c + CON_SIZE ->
  cur_cursor_pos (fst (shown l c m)) = cur_cursor_pos c + Z.of_nat (length l) /\
  (forall a, a < V_MEM_BASE + 2 * cur_cursor_pos c -> snd (shown l c m) a = m a) /\
  (forall j, 0 <= j < Z.of_nat (length l) -> l !! Z.to_nat j = Some (snd (shown l c m) (V_MEM_BASE + 2 * (cur_cursor_pos c + j)))).
Proof.
  induction l as [|ch l IH]; intros c m Hl Hf; [cbn; repeat split; try lia; intros; lia|].
  apply Forall_cons in Hl as [[H1 H2] Hl]. rewrite length_cons in Hf. rewrite shown_cons, length_cons.
  assert (Ec : cursor_after ch c = cur_cursor_pos c + 1).
  { unfold cursor_after. rewrite (proj2 (Z.eqb_neq ch 10)), (proj2 (Z.eqb_neq ch 8)), (proj2 (Z.ltb_lt _ _)) by (done || lia). done. }
  assert (Em : cells_after ch c m = set_cell (cur_cursor_pos c) ch m).
  { unfold cells_after. rewrite (proj2 (Z.eqb_neq ch 10)), (proj2 (Z.eqb_neq ch 8)), (proj2 (Z.ltb_lt _ _)) by (done || lia). done. }
  rewrite Ec, Em. set (c1 := set_cur_cursor_pos _ c).
  assert (E1 : cur_cursor_pos c1 = cur_cursor_pos c + 1) by done.
  assert (E2 : orig_start_addr c1 = orig_start_addr c) by done.
  destruct (IH c1 (set_cell (cur_cursor_pos c) ch m) Hl ltac:(lia)) as (I1 & I2 & I3). rewrite E1 in *.
  split; [lia|]. split.
  - intros a Ha. rewrite I2 by lia. unfold set_cell. by rewrite !upd_ne by lia.
  - intros j Hj. destruct (decide (j = 0)) as [->|Hn].
    + rewrite Z.add_0_r, I2 by lia. unfold set_cell. rewrite upd_ne, upd_eq by lia. done.
    + replace (Z.to_nat j) with (S (Z.to_nat (j - 1))) by lia.
      change ((ch :: l) !! S (Z.to_nat (j - 1))) with (l !! Z.to_nat (j - 1)).
      rewrite (I3 (j - 1)) by lia. do 3 f_equal. lia.
Qed.

(** ** The loops *)

(** the text [l] has been written to console [i]: the memory outside the [n] bytes at
    [a] and the console are those of [shown]; nothing else has changed but the
    display's registers *)
Record wrote (a n i : Z) (l : list Z) (st st' : tsys) : Prop := {
  wt_con : con_ok i (console_table st' i);
  wt_cursor : cursor_at (console_table st' i) =
    cursor_at (fst (shown l (console_table st i) (memory (tkern st))));
  wt_mem : forall x, x < a \/ a + n <= x ->
    memory (tkern st') x = snd (shown l (console_table st i) (memory (tkern st))) x;
  wt_kern : tkern st' = set_memory (memory (tkern st')) (tkern st);
  wt_ttys : tty_table st' = tty_table st;
  wt_cons : forall j, j <> i -> console_table st' j = console_table st j;
  wt_kb : kb st' = kb st /\ nr_cur_console st' = nr_cur_console st }.

Lemma wrote_nil a n i st : con_ok i (console_table st i) -> wrote a n i [] st st.
Proof. intros Hc. split; try done. by destruct (tkern st). Qed.

Lemma wrote_app a n i l l' st st1 st2 :
  wrote a n i l st st1 -> wrote a n i l' st1 st2 -> wrote a n i (l ++ l') st st2.
Proof.
  intros [A1 A2 A3 A4 A5 A6 [A7 A8]] [B1 B2 B3 B4 B5 B6 [B7 B8]]. split; [done| | | | | |].
  - rewrite B2, shown_app. by apply shown_cursor.
  - intros x Hx. rewrite B3, shown_app by done. apply shown_local; [done|by apply A3].
  - rewrite B4 at 1. rewrite A4. by destruct (tkern st).
  - congruence.
  - intros j Hj. rewrite B6, A6 by done. done.
  - split; congruence.
Qed.

Lemma wrote_weaken a n a' n' i l st st' : a' <= a -> a + n <= a' + n' -> wrote a n i l st st' -> wrote a' n' i l st st'.
Proof. intros H1 H2 [? ? H ? ? ? ?]. split; try done. intros x Hx. apply H. lia. Qed.

Lemma out_char_wrote ch i st : 0 <= i < NR_TTYS -> con_ok i (console_table st i) -> 0 <= ch < 256 ->
  exists st', out_char ch i st = Ok tt st' /\ wrote 0 0 i [ch] st st'.
Proof.
  intros Hi Hc Hch. destruct (out_char_run ch i st Hi Hc Hch) as (r & s & a & E & Hok & _).
  eexists. split; [exact E|]. split; try done; cbn.
  - rewrite upd_eq. exact Hok.
  - by rewrite upd_eq.
  - intros j Hj. by rewrite upd_ne.
Qed.

Lemma out_chars_run l : forall p i st, 0 <= i < NR_TTYS -> con_ok i (console_table st i) ->
  bytes_at (memory (tkern st)) p l -> Forall (fun ch => 0 <= ch < 256) l -> outside_video p (Z.of_nat (length l)) ->
  exists st', out_chars (length l) p i st = Ok tt st' /\ wrote 0 0 i l st st'.
Proof.
  induction l as [|ch l IH]; intros p i st Hi Hc Hb Hl Hv.
  { exists st. split; [done|by apply wrote_nil]. }
  apply bytes_at_cons in Hb as [Hp Hb]. apply Forall_cons in Hl as [Hch Hl].
  cbn [length] in *. cbn [out_chars]. rewrite (bind_run get _ st st st eq_refl), Hp.
  destruct (out_char_wrote ch i st Hi Hc Hch) as (st1 & E1 & W1). rewrite (bind_run _ _ _ _ _ E1).
  destruct (IH (p + 1) i st1 Hi) as (st2 & E2 & W2); try done; [apply W1| |unfold outside_video in *; lia|].
  - intros j x Hj. pose proof (lookup_lt_Some _ _ _ Hj). rewrite (wt_mem _ _ _ _ _ _ W1) by lia.
    rewrite (shown_out _ i) by (done || unfold outside_video in *; lia). by apply Hb.
  - exists st2. split; [done|]. by apply (wrote_app _ _ _ [ch] l _ st1).
Qed.

Lemma klift_va2la pid va st : 0 <= pid < NR_ALL -> flat (tkern st) ->
  klift (va2la pid va) st = Ok (la_of (tkern st) pid va) st.
Proof. intros Hp Hf. unfold klift. rewrite va2la_run by done. by destruct st. Qed.

Section copy.
(** the output buffer of the task, the process that writes, and its text at [b] *)
Context (obuf i pid buf b : Z).
Context (Hi : 0 <= i < NR_TTYS) (Hpid : 0 <= pid < NR_ALL).
Context (Ho : 0 <= obuf /\ obuf + TTY_OUT_IN_BYTES <= 4294967296) (Hov : outside_video obuf TTY_OUT_IN_BYTES).

(** the text [l] of the process from position [k] on, outside the buffer and the
    video memory *)
Record pending (st : tsys) (k : Z) (l : list Z) : Prop := {
  pd_flat : flat (tkern st);
  pd_con : con_ok i (console_table st i);
  pd_tty : p_con (tty_table st i) = i;
  pd_la : forall j, k <= j < k + Z.of_nat (length l) -> la_of (tkern st) pid (u32 (buf + j)) = b + j;
  pd_text : bytes_at (memory (tkern st)) (b + k) l;
  pd_chars : Forall (fun ch => 0 <= ch < 256) l;
  pd_video : outside_video (b + k) (Z.of_nat (length l));
  pd_obuf : b + k + Z.of_nat (length l) <= obuf \/ obuf + TTY_OUT_IN_BYTES <= b + k }.

Lemma copy_piece st k l n : pending st k l -> (0 < n <= length l)%nat -> Z.of_nat n <= TTY_OUT_IN_BYTES ->
  exists st', (d ← klift (va2la TASK_TTY obuf);
     s ← klift (va2la pid (u32 (buf + k)));
     klift (modmem (memcpy d s (Z.of_nat n))) ;;
     t ← gettty i;
     out_chars n obuf (p_con t)) st = Ok tt st' /\
    wrote obuf TTY_OUT_IN_BYTES i (take n l) st st' /\ pending st' (k + Z.of_nat n) (drop n l).
Proof.
  intros [H1 H2 H3 H4 H5 H6 H7 H8] Hn Hb.
  assert (Hl : length (take n l) = n) by (rewrite length_take; lia).
  rewrite (bind_run _ _ _ _ _ (klift_va2la TASK_TTY obuf st ltac:(clia) H1)).
  rewrite (la_task _ TASK_TTY) by (done || clia).
  rewrite (bind_run _ _ _ _ _ (klift_va2la pid _ st Hpid H1)), H4 by lia.
  set (m1 := memcpy obuf (b + k) (Z.of_nat n) (memory (tkern st))).
  set (st1 := with_tmem m1 st). rewrite (bind_run (klift (modmem _)) _ st tt st1 eq_refl).
  rewrite (bind_run _ _ _ _ _ (gettty_run i st1 Hi)). change (p_con (tty_table st1 i)) with (p_con (tty_table st i)). rewrite H3.
  assert (Hm1 : forall x, x < obuf \/ obuf + TTY_OUT_IN_BYTES <= x -> m1 x = memory (tkern st) x)
    by (intros x Hx; apply memcpy_out; lia).
  destruct (out_chars_run (take n l) obuf i st1) as (st2 & E & [W1 W2 W3 W4 W5 W6 W7]); try done.
  { intros j ch Hj. pose proof (lookup_lt_Some _ _ _ Hj). change (memory (tkern st1)) with m1. unfold m1.
    rewrite memcpy_in by lia. apply lookup_take_Some in Hj as [Hj _]. rewrite <- (H5 j ch Hj). f_equal. lia. }
  { by apply Forall_take. }
  { rewrite Hl. unfold outside_video in *. lia. }
  rewrite Hl in E. exists st2. split; [exact E|].
  assert (W : wrote obuf TTY_OUT_IN_BYTES i (take n l) st st2).
  { split; try done.
    - rewrite W2. by apply shown_cursor.
    - intros x Hx. rewrite W3 by lia. apply shown_local; [done|by apply Hm1]. }
  split; [exact W|]. destruct W as [_ _ X3 X4 X5 _ _].
  assert (Hlen : length (drop n l) = (length l - n)%nat) by apply length_drop.
  split.
  - rewrite X4. exact H1.
  - done.
  - by rewrite X5.
  - intros j Hj. rewrite X4. change (la_of (set_memory (memory (tkern st2)) (tkern st)) pid) with (la_of (tkern st) pid).
    apply H4. lia.
  - intros j ch Hj. rewrite lookup_drop in Hj. pose proof (lookup_lt_Some _ _ _ Hj).
    rewrite X3 by lia. rewrite (shown_out _ i) by (done || unfold outside_video in *; lia).
    rewrite <- (H5 _ ch Hj). f_equal. lia.
  - by apply Forall_drop.
  - unfold outside_video in *. rewrite Hlen. lia.
  - rewrite Hlen. lia.
Qed.

Lemma copy_loop_run fuel : forall st k l, pending st k l -> (length l < fuel)%nat ->
  exists st', tty_copy_loop obuf fuel i pid buf (Z.of_nat (length l)) k st = Ok (k + Z.of_nat (length l)) st' /\
    wrote obuf TTY_OUT_IN_BYTES i l st st'.
Proof.
  induction fuel as [|fuel IH]; intros st k l Hp Hf; [lia|]. destruct l as [|ch l'] eqn:El.
  { exists st. rewrite Z.add_0_r. split; [done|]. apply wrote_nil, Hp. }
  rewrite <- El in *. assert (0 < length l)%nat by (subst l; cbn; lia). clear El ch l'.
  cbn [tty_copy_loop]. rewrite (proj2 (Z.leb_gt _ 0)) by lia.
  set (n := Z.to_nat (MIN TTY_OUT_IN_BYTES (Z.of_nat (length l)))).
  assert (Hn : (0 < n <= length l)%nat /\ Z.of_nat n <= TTY_OUT_IN_BYTES /\
    MIN TTY_OUT_IN_BYTES (Z.of_nat (length l)) = Z.of_nat n).
  { unfold n, MIN, TTY_OUT_IN_BYTES. case_match; zbool; lia. }
  destruct Hn as (Hn & Hb & En). rewrite En.
  destruct (copy_piece st k l n Hp Hn Hb) as (st1 & E1 & W1 & P1).
  assert (Hlen : length (drop n l) = (length l - n)%nat) by apply length_drop.
  destruct (IH st1 (k + Z.of_nat n) (drop n l) P1) as (st2 & E2 & W2); [lia|].
  exists st2. split.
  - rewrite Hlen in E2. replace (Z.of_nat (length l) - Z.of_nat n) with (Z.of_nat (length l - n)) by lia.
    replace (k + Z.of_nat (length l)) with (k + Z.of_nat n + Z.of_nat (length l - n)) by lia.
    rewrite <- E2. revert E1. unfold bind. repeat case_match; try done. by intros [= -> ->].
  - rewrite <- (take_drop n l). by apply (wrote_app _ _ _ _ _ _ st1).
Qed.
End copy.

(** ** Property *)

(** C12: A text written to a terminal. The request ends whatever the length of the
    text, each turn of the loop moving at most the size of the output buffer. The
    memory outside the task's buffer and the two message objects, the cursor and so
    the screen are those of [shown]: every character of the process, in order, has
    its effect on that console; a text without newline and backspace that fits
    stands cell by cell from the cursor on. The caller is ready, and its message
    holds the number of characters. The other consoles, the terminals and the
    keyboard are unchanged. *)
Theorem tty_write_spec mbuf obuf i b s msg st :
  let c := console_table st i in let n := Z.of_nat (length s) in let k := tkern st in
  let la := la_of k (source msg) (p_msg (proc_table k (source msg))) in
  type msg = DEV_WRITE -> DEVICE msg = i -> CNT msg = n -> msg_ok msg ->
  0 <= i < NR_TTYS -> cons_ok st -> 0 <= PROC_NR msg < NR_ALL ->
  0 <= obuf /\ obuf + TTY_OUT_IN_BYTES <= 4294967296 -> outside_video obuf TTY_OUT_IN_BYTES ->
  outside_video mbuf SIZEOF_MESSAGE -> outside_video la SIZEOF_MESSAGE -> disjoint_msgs la mbuf ->
  answers k TASK_TTY mbuf (source msg) -> pending obuf i (PROC_NR msg) (BUF msg) b st 0 s ->
  exists st', tty_serve mbuf obuf msg st = Ok tt st' /\ cons_ok st' /\
    cursor_at (console_table st' i) = cursor_at (fst (shown s c (memory k))) /\
    (forall a, ~ obuf <= a < obuf + TTY_OUT_IN_BYTES -> ~ mbuf <= a < mbuf + SIZEOF_MESSAGE ->
       ~ la <= a < la + SIZEOF_MESSAGE -> memory (tkern st') a = snd (shown s c (memory k)) a) /\
    (Forall (fun ch => ch <> 10 /\ ch <> 8) s -> cur_cursor_pos c + n < orig_start_addr c + CON_SIZE ->
       cur_cursor_pos (console_table st' i) = cur_cursor_pos c + n /\
       forall j, 0 <= j < n -> s !! Z.to_nat j = Some (memory (tkern st') (V_MEM_BASE + 2 * (cur_cursor_pos c + j)))) /\
    p_flags (proc_table (tkern st') (source msg)) = 0 /\
    msg_at (memory (tkern st')) la = set_source TASK_TTY msg /\
    (forall j, j <> i -> console_table st' j = console_table st j) /\
    tty_table st' = tty_table st /\ kb st' = kb st.
Proof.
  intros c n k la Ht Hd Hn Hok Hi Hcons Hpn Ho Hov Hmv Hlv Hdis Hans Hp.
  unfold tty_serve. rewrite Ht, Hd. change (DEV_WRITE =? DEV_OPEN) with false. change (DEV_WRITE =? DEV_READ) with false.
  change (DEV_WRITE =? DEV_WRITE) with true. cbv iota. unfold tty_do_write. rewrite Hn.
  destruct (copy_loop_run obuf i (PROC_NR msg) (BUF msg) b Hi Hpn Ho Hov (S (Z.to_nat n)) st 0 s Hp) as (st1 & E1 & W); [lia|].
  fold n in E1. rewrite Z.add_0_l in E1. rewrite (bind_run _ _ _ _ _ E1).
  destruct W as [W1 W2 W3 W4 W5 W6 [W7 W8]]. fold c k in W2, W3. fold k in W4.
  assert (Hans1 : answers (tkern st1) TASK_TTY mbuf (source msg)) by (rewrite W4; by apply (answers_ext mbuf k)).
  assert (Em : set_m3i2 n msg = msg) by (destruct msg; cbn in *; unfold CNT in Hn; cbn in Hn; by subst).
  rewrite Em. set (k1 := tkern st1) in *.
  assert (Ela : la_of k1 (source msg) (p_msg (proc_table k1 (source msg))) = la) by (rewrite W4; done).
  set (k2 := delivered TASK_TTY mbuf (source msg) msg k1).
  assert (Es : klift (task_send TASK_TTY mbuf (source msg) msg) st1 = Ok tt (set_tkern k2 st1))
    by (unfold klift; fold k1; by rewrite (task_send_run _ _ _ _ _ Hans1)).
  rewrite Es. exists (set_tkern k2 st1). split; [done|].
  cbn [console_table tkern tty_table kb set_tkern].
  assert (Hmem : forall a, ~ obuf <= a < obuf + TTY_OUT_IN_BYTES -> ~ mbuf <= a < mbuf + SIZEOF_MESSAGE ->
       ~ la <= a < la + SIZEOF_MESSAGE -> memory k2 a = snd (shown s c (memory k)) a).
  { intros a H1 H2 H3. unfold k2. rewrite delivered_out; rewrite ?Ela; [|lia|lia]. apply W3. lia. }
  split; [|split; [done|split; [done|split; [|split; [|split; [|split; [done|split; done]]]]]]].
  - intros j Hj. destruct (decide (j = i)) as [->|Hne]; [done|]. cbn. rewrite W6 by done. by apply Hcons.
  - intros Hpl Hfit. destruct (shown_plain s c (memory k) Hpl Hfit) as (S1 & S2 & S3). fold n in S1, S3.
    unfold cursor_at in W2. injection W2 as _ W2. split; [by rewrite W2|]. intros j Hj. rewrite (S3 j Hj). f_equal. symmetry.
    pose proof (con_range i c Hi (Hcons i Hi)) as Hr.
    apply Hmem; unfold outside_video, V_MEM_BASE, V_MEM_SIZE, CON_SIZE in *; lia.
  - unfold k2, delivered. cbn [proc_table set_memory set_proc_table]. rewrite upd_eq. unfold woken. cbn.
    by rewrite (an_wait _ _ _ _ Hans1).
  - rewrite <- Ela. unfold k2. apply delivered_msg; [clia|done|]. by rewrite Ela.
Qed.
