(* ===== verification/FsMap.v ===== *)
(** * The allocation maps (fs/open.c: alloc_imap_bit, alloc_smap_bit)

    A map is a run of bits on the disk. [alloc_imap_bit] takes the first clear bit of
    the inode map; [alloc_smap_bit] takes the first [n] clear bits of the sector map
    and returns the sector of the first: the code treats the [n] sectors from there
    on as the file, which is right only when the bits are consecutive. *)
From Stdlib Require Import FunctionalExtensionality.
From S2P Require Import Prelude Const CLib Protect Proc Sys Fs FsOps FsLem FsRw Task.

(** ** Bits of a byte *)

Lemma shiftl_1_bit v k : 0 <= k -> (Z.land v (Z.shiftl 1 k) =? 0) = negb (Z.testbit v k).
Proof.
  intros Hk. destruct (Z.testbit v k) eqn:E; simpl.
  - apply Z.eqb_neq. intros H. assert (Z.testbit (Z.land v (Z.shiftl 1 k)) k = false) as H' by (rewrite H; apply Z.bits_0).
    rewrite Z.land_spec, E, Z.shiftl_spec, Z.sub_diag in H' by lia. done.
  - apply Z.eqb_eq. apply Z.bits_inj'. intros n Hn. rewrite Z.land_spec, Z.bits_0, Z.shiftl_spec by lia.
    destruct (decide (n = k)) as [->|Hne]; [by rewrite E|].
    destruct (decide (n < k)); [by rewrite (Z.testbit_neg_r 1) by lia; rewrite andb_false_r|].
    rewrite (Z.bits_above_log2 1 (n - k)) by (simpl; lia). by rewrite andb_false_r.
Qed.

(** setting one bit *)
Lemma set_bit_spec v k t : 0 <= k -> 0 <= t ->
  Z.testbit (Z.lor v (Z.shiftl 1 k)) t = Z.testbit v t || (t =? k).
Proof.
  intros Hk Ht. rewrite Z.lor_spec, Z.shiftl_spec by lia. destruct (t =? k) eqn:E; zbool.
  - subst. by rewrite Z.sub_diag, !orb_true_r.
  - rewrite orb_false_r. destruct (decide (t < k)).
    + rewrite (Z.testbit_neg_r 1) by lia. by rewrite orb_false_r.
    + rewrite (Z.bits_above_log2 1) by (simpl; lia). by rewrite orb_false_r.
Qed.

Lemma byte_ok_bits v : byte_ok v <-> 0 <= v /\ (forall t, 8 <= t -> Z.testbit v t = false).
Proof.
  unfold byte_ok. change 256 with (2 ^ 8). split.
  - intros H. split; [lia|]. rewrite (Z.bounded_iff_bits_nonneg 8 v) in H by lia. intros t Ht. apply H. lia.
  - intros [H0 H]. split; [done|]. destruct (decide (v = 0)) as [->|]; [lia|].
    apply Z.log2_lt_pow2; [lia|]. destruct (decide (Z.log2 v < 8)); [done|].
    pose proof (Z.bit_log2 v ltac:(lia)) as E. rewrite H in E by lia. done.
Qed.

Lemma set_bit_byte v k : byte_ok v -> 0 <= k < 8 -> byte_ok (Z.lor v (Z.shiftl 1 k)).
Proof.
  intros [H0 H]%byte_ok_bits Hk. apply byte_ok_bits. split.
  - apply Z.lor_nonneg. split; [done|]. apply Z.shiftl_nonneg. lia.
  - intros t Ht. rewrite set_bit_spec, H by lia. simpl. apply Z.eqb_neq. lia.
Qed.

Lemma byte_full v t : byte_ok v -> v = 255 -> 0 <= t < 8 -> Z.testbit v t = true.
Proof. intros _ -> Ht. change 255 with (Z.ones 8). apply Z.ones_spec_low. lia. Qed.

(** ** Counting clear bits *)

(** the clear bits among [i .. i + n - 1] *)
Fixpoint nclear (f : Z -> bool) (n : nat) (i : Z) : Z :=
  match n with O => 0 | S n' => (if f i then 0 else 1) + nclear f n' (i + 1) end.

Lemma nclear_bounds f n i : 0 <= nclear f n i <= Z.of_nat n.
Proof. revert i. induction n as [|n IH]; intros i; simpl; [lia|]. specialize (IH (i + 1)). destruct (f i); lia. Qed.
Lemma nclear_app f a b i : nclear f (a + b) i = nclear f a i + nclear f b (i + Z.of_nat a).
Proof.
  revert i. induction a as [|a IH]; intros i; simpl; [by rewrite Z.add_0_r|]. rewrite IH.
  replace (i + 1 + Z.of_nat a) with (i + Z.of_nat (S a)) by lia. simpl. lia.
Qed.
Lemma nclear_ext f g n i j : (forall k, 0 <= k < Z.of_nat n -> f (i + k) = g (j + k)) -> nclear f n i = nclear g n j.
Proof.
  revert i j. induction n as [|n IH]; intros i j H; simpl; [done|].
  pose proof (H 0 ltac:(lia)) as H0. rewrite !Z.add_0_r in H0. rewrite H0. f_equal. apply IH.
  intros k Hk. rewrite <- !Z.add_assoc. apply H. lia.
Qed.
Lemma find_first_app f a b i :
  find_first f (a + b) i = match find_first f a i with Some k => Some k | None => find_first f b (i + Z.of_nat a) end.
Proof.
  revert i. induction a as [|a IH]; intros i; simpl; [by rewrite Z.add_0_r|].
  destruct (f i); [done|]. rewrite IH. by replace (i + 1 + Z.of_nat a) with (i + Z.of_nat (S a)) by lia.
Qed.
Lemma find_first_shift f g n i j : (forall k, 0 <= k < Z.of_nat n -> f (i + k) = g (j + k)) ->
  find_first f n i = (fun x => x - j + i) <$> find_first g n j.
Proof.
  revert i j. induction n as [|n IH]; intros i j H; simpl; [done|].
  pose proof (H 0 ltac:(lia)) as H0. rewrite !Z.add_0_r in H0. rewrite H0. destruct (g j).
  - simpl. f_equal. lia.
  - rewrite (IH (i + 1) (j + 1)).
    + destruct (find_first g n (j + 1)); simpl; [|done]. f_equal. lia.
    + intros k Hk. rewrite <- !Z.add_assoc. apply H. lia.
Qed.

(** ** Bits of a map *)

(** bit [x] of the map that starts at byte [a] of [d] *)
Definition mbit (d : mem) (a x : Z) : bool := Z.testbit (d (a + x / 8)) (x `mod` 8).

Lemma mbit_byte d a j k : 0 <= k < 8 -> mbit d a (8 * j + k) = Z.testbit (d (a + j)) k.
Proof.
  intros Hk. unfold mbit. replace ((8 * j + k) / 8) with j by (Z.div_mod_to_equations; lia).
  by replace ((8 * j + k) `mod` 8) with k by (Z.div_mod_to_equations; lia).
Qed.

Lemma mbit_ext d d' a a' x : d' (a' + x / 8) = d (a + x / 8) -> mbit d' a' x = mbit d a x.
Proof. intros H. unfold mbit. by rewrite H. Qed.

(** two bytes with the same bits *)
Lemma byte_ext v w : byte_ok v -> byte_ok w -> (forall t, 0 <= t < 8 -> Z.testbit v t = Z.testbit w t) -> v = w.
Proof.
  intros [_ Hv]%byte_ok_bits [_ Hw]%byte_ok_bits H. apply Z.bits_inj'. intros n Hn.
  destruct (decide (n < 8)); [by apply H|]. by rewrite Hv, Hw by lia.
Qed.

(** ** The inode map *)

Lemma free_bit_find n k b : 0 <= k -> free_bit n k b = find_first (fun t => negb (Z.testbit b t)) n k.
Proof.
  revert k. induction n as [|n IH]; intros k Hk; simpl; [done|]. rewrite shiftl_1_bit by done.
  destruct (negb (Z.testbit b k)); [done|]. apply IH. lia.
Qed.

(** the scan of a sector finds the first clear bit *)
Lemma imap_scan_find n : forall j m, bytes_ok m -> 0 <= j ->
  match imap_scan n j m with
  | Some (j', k) => 0 <= k < 8 /\ j <= j' < j + Z.of_nat n /\
      find_first (fun x => negb (mbit m fsbuf x)) (8 * n) (8 * j) = Some (8 * j' + k)
  | None => find_first (fun x => negb (mbit m fsbuf x)) (8 * n) (8 * j) = None
  end.
Proof.
  induction n as [|n IH]; intros j m Hb Hj; [done|]. cbn [imap_scan].
  replace (8 * S n)%nat with (8 + 8 * n)%nat by lia. rewrite find_first_app.
  assert (E8 : find_first (fun x => negb (mbit m fsbuf x)) 8 (8 * j) =
    (fun x => x - 0 + 8 * j) <$> free_bit 8 0 (m (fsbuf + j))).
  { rewrite free_bit_find by lia. apply find_first_shift. intros k Hk. f_equal. by apply mbit_byte. }
  replace (8 * j + Z.of_nat 8) with (8 * (j + 1)) by lia.
  assert (Hnext : free_bit 8 0 (m (fsbuf + j)) = None ->
    match imap_scan n (j + 1) m with
    | Some (j', k) => 0 <= k < 8 /\ j <= j' < j + Z.of_nat (S n) /\
        match find_first (fun x => negb (mbit m fsbuf x)) 8 (8 * j) with
        | Some k => Some k | None => find_first (fun x => negb (mbit m fsbuf x)) (8 * n) (8 * (j + 1)) end = Some (8 * j' + k)
    | None => match find_first (fun x => negb (mbit m fsbuf x)) 8 (8 * j) with
        | Some k => Some k | None => find_first (fun x => negb (mbit m fsbuf x)) (8 * n) (8 * (j + 1)) end = None
    end).
  { intros E. rewrite E8, E. specialize (IH (j + 1) m Hb ltac:(lia)). destruct (imap_scan n (j + 1) m) as [[j' k]|]; [|done].
    destruct IH as (H1 & H2 & H3). split; [done|]. split; [lia|done]. }
  destruct (m (fsbuf + j) =? 255) eqn:E255; zbool.
  - apply Hnext. rewrite free_bit_find by lia. apply find_first_None. intros k Hk.
    rewrite byte_full; [done|apply Hb|done|lia].
  - destruct (free_bit 8 0 (m (fsbuf + j))) as [k|] eqn:Ef; [|by apply Hnext].
    rewrite free_bit_find in Ef by lia. apply find_first_Some in Ef as (Hk & _ & _).
    split; [lia|]. split; [lia|]. rewrite E8. simpl. f_equal. lia.
Qed.

Definition IMAP_POS : Z := 2 * SECTOR_SIZE.
Definition imap_first (d : mem) : option Z := find_first (fun x => negb (mbit d IMAP_POS x)) 4096 0.

(** the disk with bit [x] of the map at [a] set *)
Definition set_mbit (a x : Z) (d : mem) : mem := upd d (a + x / 8) (Z.lor (d (a + x / 8)) (Z.shiftl 1 (x `mod` 8))).

Lemma mbit_set d a x y : 0 <= x -> 0 <= y -> mbit (set_mbit a x d) a y = mbit d a y || (y =? x).
Proof.
  intros Hx Hy. unfold mbit, set_mbit. rewrite upd_case. case_decide as E.
  - rewrite set_bit_spec by (apply Z.mod_pos_bound; lia). rewrite E. f_equal.
    destruct (y =? x) eqn:Eq; zbool; [subst; apply Z.eqb_refl|]. apply Z.eqb_neq. Z.div_mod_to_equations. lia.
  - destruct (y =? x) eqn:Eq; zbool; [subst; done|]. by rewrite orb_false_r.
Qed.

Lemma bytes_ok_set d a x : bytes_ok d -> 0 <= x -> bytes_ok (set_mbit a x d).
Proof.
  intros Hd Hx y. unfold set_mbit. rewrite upd_case. case_decide; [|apply Hd].
  apply set_bit_byte; [apply Hd|]. apply Z.mod_pos_bound. lia.
Qed.

Lemma bytes_ok_rd n st : bytes_ok (fmem st) -> bytes_ok (rdisk st) -> bytes_ok (fmem (rd_state n st)).
Proof. intros Hm Hd a. unfold rd_state. rewrite fmem_with_mem. unfold disk_read. destruct (_ && _); [apply Hd|apply Hm]. Qed.

(** the buffer is the sector, so a changed byte of it is a changed byte of the disk *)
Lemma wr_changed n st m j v : 0 <= j < SECTOR_SIZE ->
  (forall i, 0 <= i < SECTOR_SIZE -> m (fsbuf + i) = rdisk st (n * SECTOR_SIZE + i)) ->
  rdisk (wr_state n (with_mem (upd m (fsbuf + j) v) st)) = upd (rdisk st) (n * SECTOR_SIZE + j) v.
Proof.
  intros Hj Hm. extensionality a. unfold wr_state. rewrite rdisk_with_disk, fmem_with_mem.
  unfold disk_write. change (rdisk (with_mem (upd m (fsbuf + j) v) st)) with (rdisk st).
  destruct ((n * SECTOR_SIZE <=? a) && (a <? n * SECTOR_SIZE + SECTOR_SIZE)) eqn:E.
  - zbool. rewrite !upd_case. case_decide; case_decide; try lia. rewrite Hm by lia. f_equal. lia.
  - rewrite upd_case. case_decide; [|done]. apply andb_false_iff in E as [E|E]; zbool; lia.
Qed.

Lemma alloc_imap_run st : mounted st -> bytes_ok (fmem st) -> bytes_ok (rdisk st) ->
  match imap_first (rdisk st) with
  | Some x => exists st', alloc_imap_bit ROOT_DEV st = Ok x st' /\ only_buf st st' /\
      inode_table st' = inode_table st /\ rdisk st' = set_mbit IMAP_POS x (rdisk st) /\ 0 <= x < 4096 /\ bytes_ok (fmem st')
  | None => alloc_imap_bit ROOT_DEV st = Halt HPanic
  end.
Proof.
  intros Hm Hbm Hbd. unfold alloc_imap_bit. rewrite (bind_run _ _ _ _ _ (sb_of_run st Hm)), (mnt_imap _ Hm).
  assert (Hs : sect_ok 2) by (unfold sect_ok; lia).
  change (Z.to_nat 1) with 1%nat. cbn [alloc_imap_loop]. rewrite Z.add_0_r.
  rewrite !(bind_run _ _ _ _ _ (RD_SECT_run 2 st Hs)). set (st1 := rd_state 2 st).
  rewrite !(bind_run getmem _ st1 (fmem st1) st1 eq_refl).
  assert (Hbuf : forall i, 0 <= i < SECTOR_SIZE -> fmem st1 (fsbuf + i) = rdisk st (2 * SECTOR_SIZE + i))
    by (intros i Hi; by apply rd_state_buf).
  pose proof (imap_scan_find (Z.to_nat SECTOR_SIZE) 0 (fmem st1) (bytes_ok_rd 2 st Hbm Hbd) ltac:(lia)) as Hscan.
  assert (Hf : find_first (fun x => negb (mbit (fmem st1) fsbuf x)) (8 * Z.to_nat SECTOR_SIZE) (8 * 0) = imap_first (rdisk st)).
  { unfold imap_first. change (8 * Z.to_nat SECTOR_SIZE)%nat with 4096%nat. change (8 * 0) with 0.
    rewrite (find_first_shift _ (fun x => negb (mbit (rdisk st) IMAP_POS x)) 4096 0 0);
      [destruct (find_first _ _ _) as [x|]; simpl; [f_equal; lia|done]|].
    intros k Hk. f_equal. apply mbit_ext. apply Hbuf. unfold SECTOR_SIZE. Z.div_mod_to_equations. lia. }
  rewrite Hf in Hscan. destruct (imap_scan _ _ _) as [[j k]|].
  - destruct Hscan as (Hk & Hj & ->). rewrite Z.add_0_l, Z2Nat.id in Hj by clia.
    assert (Hv : byte_ok (Z.lor (fmem st1 (fsbuf + j)) (Z.shiftl 1 k)))
      by (apply set_bit_byte; [apply (bytes_ok_rd 2 st Hbm Hbd)|lia]).
    set (st2 := with_mem (upd (fmem st1) (fsbuf + j) (Z.lor (fmem st1 (fsbuf + j)) (Z.shiftl 1 k))) st1).
    assert (E2 : setb j (Z.lor (fmem st1 (fsbuf + j)) (Z.shiftl 1 k)) st1 = Ok tt st2).
    { unfold setb. rewrite u8_id by done. reflexivity. }
    rewrite (bind_run _ _ _ _ _ E2), (bind_run _ _ _ _ _ (WR_SECT_run 2 st2 Hs)).
    exists (wr_state 2 st2). split; [unfold ret; f_equal; lia|]. split; [|split; [done|split]].
    + eapply only_buf_trans; [apply only_buf_rd|]. eapply only_buf_trans; [|apply only_buf_wr].
      apply only_buf_mem. intros x Hx. apply upd_ne. unfold fsbuf, FSBUF_SIZE in *. clia.
    + unfold st2. rewrite (wr_changed 2 st1 (fmem st1) j) by (clia || done).
      change (rdisk st1) with (rdisk st). unfold set_mbit, IMAP_POS.
      replace ((8 * j + k) / 8) with j by (Z.div_mod_to_equations; lia).
      replace ((8 * j + k) `mod` 8) with k by (Z.div_mod_to_equations; lia). by rewrite Hbuf by clia.
    + split; [unfold SECTOR_SIZE in *; lia|]. intros a. change (fmem (wr_state 2 st2)) with (fmem st2). unfold st2.
      rewrite fmem_with_mem, upd_case. case_decide; [exact Hv|apply (bytes_ok_rd 2 st Hbm Hbd)].
  - by rewrite Hscan.
Qed.

(** ** The sector map *)

(** [taken f n i todo x]: bit [x] after the first [todo] clear bits from [i] on are set *)
Definition taken (f : Z -> bool) (i todo x : Z) : bool := f x || (nclear f (Z.to_nat (x - i)) i <? todo).
(** the sector of the first clear bit, when none is chosen yet *)
Definition first_sect (f : Z -> bool) (n : nat) (i n1 sect : Z) : Z :=
  if sect =? 0 then match find_first (fun x => negb (f x)) n i with Some x => x - 1 + n1 | None => 0 end else sect.

Lemma smap_bits_spec j i n1 : forall n k sect todo b, byte_ok b -> 0 <= k -> k + Z.of_nat n = 8 -> 0 <= todo ->
  2 <= n1 -> 0 <= j -> 0 <= i ->
  let base := (j + i * SECTOR_SIZE) * 8 in
  let f x := Z.testbit b (x - base) in
  let '(sect', todo', b') := smap_bits n k j i n1 sect todo b in
  byte_ok b' /\ todo' = Z.max 0 (todo - nclear f n (base + k)) /\ sect' = first_sect f n (base + k) n1 sect /\
  (forall t, 0 <= t < 8 -> Z.testbit b' t = if k <=? t then taken f (base + k) todo (base + t) else Z.testbit b t).
Proof.
  induction n as [|n IH]; intros k sect todo b Hb Hk Hn Ht Hn1 Hj Hi base f.
  { simpl. split; [done|]. split; [lia|]. split; [unfold first_sect; simpl; destruct (sect =? 0) eqn:E; zbool; lia|].
    intros t Ht'. rewrite (proj2 (Z.leb_gt k t)) by lia. done. }
  cbn [smap_bits]. rewrite shiftl_1_bit, negb_involutive by done.
  assert (Ef : f (base + k) = Z.testbit b k) by (unfold f; f_equal; lia).
  assert (Hbase : 0 <= base) by (unfold base; clia).
  destruct (Z.testbit b k) eqn:Ebk.
  - specialize (IH (k + 1) sect todo b Hb ltac:(lia) ltac:(lia) Ht Hn1 Hj Hi). cbv zeta in IH. fold base in IH. fold f in IH.
    destruct (smap_bits n (k + 1) j i n1 sect todo b) as [[sect' todo'] b'].
    rewrite Z.add_assoc in IH. destruct IH as (I1 & I2 & I3 & I4).
    split; [done|]. split; [simpl; rewrite Ef; lia|]. split.
    + rewrite I3. unfold first_sect. simpl. by rewrite Ef.
    + intros t Ht'. rewrite I4 by done. unfold taken.
      destruct (k <=? t) eqn:E1; destruct (k + 1 <=? t) eqn:E2; zbool; try lia; try done.
      * replace (Z.to_nat (base + t - (base + k))) with (S (Z.to_nat (base + t - (base + k + 1)))) by lia.
        simpl. by rewrite Ef.
      * assert (t = k) as -> by lia. by rewrite Ef, Ebk.
  - set (sect1 := if sect =? 0 then _ else sect).
    assert (Hs1 : sect1 <> 0 /\ sect1 = first_sect f (S n) (base + k) n1 sect).
    { unfold sect1, first_sect. simpl. rewrite Ef. simpl. fold base. destruct (sect =? 0) eqn:E; zbool; lia. }
    destruct (0 <? todo) eqn:Et; zbool.
    + assert (Hb1 : byte_ok (Z.lor b (Z.shiftl 1 k))) by (apply set_bit_byte; [done|lia]). rewrite u8_id by done.
      specialize (IH (k + 1) sect1 (todo - 1) (Z.lor b (Z.shiftl 1 k)) Hb1 ltac:(lia) ltac:(lia) ltac:(lia) Hn1 Hj Hi).
      cbv zeta in IH. fold base in IH. set (g := fun x => Z.testbit (Z.lor b (Z.shiftl 1 k)) (x - base)) in IH.
      assert (Hg : forall x, base + k < x < base + 8 -> g x = f x).
      { intros x Hx. unfold g, f. rewrite set_bit_spec by lia. rewrite (proj2 (Z.eqb_neq _ _)) by lia. by rewrite orb_false_r. }
      destruct (smap_bits n (k + 1) j i n1 sect1 (todo - 1) (Z.lor b (Z.shiftl 1 k))) as [[sect' todo'] b'].
      rewrite Z.add_assoc in IH. destruct IH as (I1 & I2 & I3 & I4).
      assert (Hnc : forall q, (q <= n)%nat -> nclear g q (base + k + 1) = nclear f q (base + k + 1))
        by (intros q Hq; apply nclear_ext; intros x Hx; apply Hg; lia).
      rewrite Hnc in I2 by lia.
      split; [done|]. split; [simpl; rewrite Ef; lia|]. split.
      * rewrite I3. unfold first_sect at 1. rewrite (proj2 (Z.eqb_neq sect1 0)) by (apply Hs1). apply Hs1.
      * intros t Ht'. rewrite I4 by done. unfold taken.
        destruct (k <=? t) eqn:E1; destruct (k + 1 <=? t) eqn:E2; zbool; try lia.
        -- rewrite Hg, Hnc by lia. f_equal.
           replace (Z.to_nat (base + t - (base + k))) with (S (Z.to_nat (base + t - (base + k + 1)))) by lia.
           simpl. rewrite Ef. destruct (_ <? _) eqn:E3; symmetry; zbool; [apply Z.ltb_lt|apply Z.ltb_ge]; lia.
        -- assert (t = k) as -> by lia. rewrite set_bit_spec by lia. rewrite Z.eqb_refl, orb_true_r.
           rewrite Z.sub_diag. simpl. symmetry. rewrite (proj2 (Z.ltb_lt 0 todo)) by lia. by rewrite orb_true_r.
        -- rewrite set_bit_spec by lia. rewrite (proj2 (Z.eqb_neq t k)) by lia. by rewrite orb_false_r.
    + assert (todo = 0) as -> by lia. pose proof (nclear_bounds f n (base + k + 1)).
      split; [done|]. split; [simpl; rewrite Ef; lia|]. split; [apply Hs1|].
      intros t Ht'. unfold taken. pose proof (nclear_bounds f (Z.to_nat (base + t - (base + k))) (base + k)).
      rewrite (proj2 (Z.ltb_ge _ 0)) by lia. rewrite orb_false_r. unfold f.
      replace (base + t - base) with t by lia. by destruct (k <=? t).
Qed.

Lemma first_sect_app f a b i n1 sect : 2 <= n1 -> 0 <= i ->
  first_sect f b (i + Z.of_nat a) n1 (first_sect f a i n1 sect) = first_sect f (a + b) i n1 sect.
Proof.
  intros Hn Hi. unfold first_sect. rewrite find_first_app. destruct (sect =? 0) eqn:E; [|by rewrite E].
  destruct (find_first _ a i) as [x|] eqn:Ex; [|done]. apply find_first_Some in Ex as (Hx & _).
  by rewrite (proj2 (Z.eqb_neq (x - 1 + n1) 0)) by lia.
Qed.
Lemma first_sect_ext f g n i n1 sect : (forall x, i <= x < i + Z.of_nat n -> f x = g x) ->
  first_sect f n i n1 sect = first_sect g n i n1 sect.
Proof.
  intros H. unfold first_sect. rewrite (find_first_shift (fun x => negb (f x)) (fun x => negb (g x)) n i i).
  - destruct (find_first _ n i); simpl; [|done]. by replace (z - i + i) with z by lia.
  - intros k Hk. by rewrite H by lia.
Qed.

(** the second half of a run: what the first half took is not taken again *)
Lemma taken_app f a i todo x : 0 <= todo -> i + Z.of_nat a <= x ->
  taken f (i + Z.of_nat a) (Z.max 0 (todo - nclear f a i)) x = taken f i todo x.
Proof.
  intros Ht Hx. unfold taken. f_equal.
  replace (Z.to_nat (x - i)) with (a + Z.to_nat (x - (i + Z.of_nat a)))%nat by lia. rewrite nclear_app.
  pose proof (nclear_bounds f a i). pose proof (nclear_bounds f (Z.to_nat (x - (i + Z.of_nat a))) (i + Z.of_nat a)).
  destruct (_ <? Z.max _ _) eqn:E; symmetry; zbool; [apply Z.ltb_lt|apply Z.ltb_ge]; lia.
Qed.
Lemma taken_ext f g i todo x : i <= x -> (forall y, i <= y <= x -> f y = g y) -> taken f i todo x = taken g i todo x.
Proof.
  intros Hx H. unfold taken. rewrite H by lia. f_equal. f_equal. apply nclear_ext. intros k Hk. apply H. lia.
Qed.
Lemma first_sect_none f n i n1 sect : (forall x, i <= x < i + Z.of_nat n -> f x = true) -> first_sect f n i n1 sect = sect.
Proof.
  intros H. unfold first_sect. destruct (sect =? 0) eqn:E; zbool; [|done].
  rewrite (proj2 (find_first_None _ _ _)); [done|]. intros k Hk. by rewrite H.
Qed.
Lemma nclear_full f n i : (forall x, i <= x < i + Z.of_nat n -> f x = true) -> nclear f n i = 0.
Proof.
  revert i. induction n as [|n IH]; intros i H; simpl; [done|]. rewrite H by lia. rewrite IH; [done|].
  intros x Hx. apply H. lia.
Qed.

Lemma first_sect_done f n i n1 sect : sect <> 0 -> first_sect f n i n1 sect = sect.
Proof. intros H. unfold first_sect. by rewrite (proj2 (Z.eqb_neq sect 0) H). Qed.
Lemma first_sect_found f n i n1 sect : 2 <= n1 -> 0 <= i -> 0 < nclear f n i -> first_sect f n i n1 sect <> 0.
Proof.
  intros Hn Hi H. unfold first_sect. destruct (sect =? 0) eqn:E; zbool; [|done].
  destruct (find_first _ n i) as [y|] eqn:Ey; [apply find_first_Some in Ey as (Hy & _); lia|].
  rewrite find_first_None in Ey. rewrite nclear_full in H; [lia|].
  intros x Hx. specialize (Ey x Hx). by destruct (f x).
Qed.

(** bit [x] of the map as sector [i] of it lies in the buffer *)
Definition bufbit (i : Z) (m : mem) (x : Z) : bool := mbit m (fsbuf - i * SECTOR_SIZE) x.

Lemma bufbit_byte i m j t : 0 <= t < 8 ->
  bufbit i m ((j + i * SECTOR_SIZE) * 8 + t) = Z.testbit (m (fsbuf + j)) t.
Proof.
  intros Ht. unfold bufbit. rewrite (Z.mul_comm _ 8), mbit_byte by done. do 2 f_equal. lia.
Qed.

(** what the loop over the bytes of one sector has done *)
Record scanned (i n1 j : Z) (n : nat) (sect todo : Z) (m : mem) (sect' todo' : Z) (m' : mem) : Prop := mkScanned {
  sc_bytes : bytes_ok m';
  sc_out : forall a, a < fsbuf + j \/ fsbuf + j + Z.of_nat n <= a -> m' a = m a;
  sc_todo : todo' = Z.max 0 (todo - nclear (bufbit i m) (8 * n) ((j + i * SECTOR_SIZE) * 8));
  sc_sect : sect' = first_sect (bufbit i m) (8 * n) ((j + i * SECTOR_SIZE) * 8) n1 sect;
  sc_bits : forall x, (j + i * SECTOR_SIZE) * 8 <= x < (j + Z.of_nat n + i * SECTOR_SIZE) * 8 ->
    bufbit i m' x = taken (bufbit i m) ((j + i * SECTOR_SIZE) * 8) todo x }.

(** one byte, full or not *)
Lemma smap_byte i n1 j sect todo m : bytes_ok m -> 0 <= j -> 0 <= i -> 0 <= todo -> 2 <= n1 ->
  let '(sect', todo', b) := if m (fsbuf + j) =? 255 then (sect, todo, m (fsbuf + j))
                            else smap_bits 8 0 j i n1 sect todo (m (fsbuf + j)) in
  scanned i n1 j 1 sect todo m sect' todo' (upd m (fsbuf + j) b).
Proof.
  intros Hb Hj Hi Ht Hn1. set (base := (j + i * SECTOR_SIZE) * 8).
  assert (Hf : forall x, base <= x < base + 8 -> bufbit i m x = Z.testbit (m (fsbuf + j)) (x - base)).
  { intros x Hx. rewrite <- (bufbit_byte i m j (x - base)) by lia. f_equal. fold base. lia. }
  destruct (m (fsbuf + j) =? 255) eqn:E; zbool.
  - assert (Hfull : forall x, base <= x < base + Z.of_nat 8 -> bufbit i m x = true)
      by (intros x Hx; rewrite Hf by lia; apply byte_full; [apply Hb|done|lia]).
    rewrite upd_same. split; try done; fold base.
    + rewrite nclear_full by done. lia.
    + by rewrite first_sect_none.
    + intros x Hx. unfold taken. by rewrite Hfull by lia.
  - pose proof (smap_bits_spec j i n1 8 0 sect todo (m (fsbuf + j)) (Hb _) ltac:(lia) ltac:(lia) Ht Hn1 Hj Hi) as H.
    cbv zeta in H. fold base in H. destruct (smap_bits 8 0 j i n1 sect todo (m (fsbuf + j))) as [[sect' todo'] b].
    rewrite Z.add_0_r in H. destruct H as (H1 & H2 & H3 & H4).
    split; fold base.
    + intros a. rewrite upd_case. case_decide; [done|apply Hb].
    + intros a Ha. apply upd_ne. lia.
    + rewrite H2. f_equal. f_equal. apply nclear_ext. intros k Hk. symmetry. apply Hf. lia.
    + rewrite H3. apply first_sect_ext. intros x Hx. symmetry. apply Hf. lia.
    + intros x Hx. change (Z.of_nat 1) with 1 in Hx.
      replace x with (base + (x - base)) at 1 by lia. unfold base at 1. rewrite bufbit_byte by lia. rewrite upd_eq.
      rewrite H4 by lia. rewrite (proj2 (Z.leb_le 0 _)) by lia. replace (base + (x - base)) with x by lia.
      apply taken_ext; [lia|]. intros y Hy. symmetry. apply Hf. lia.
Qed.

Lemma bufbit_upd_ne i m j b x : 0 <= j -> 0 <= i -> x < (j + i * SECTOR_SIZE) * 8 \/ (j + 1 + i * SECTOR_SIZE) * 8 <= x ->
  bufbit i (upd m (fsbuf + j) b) x = bufbit i m x.
Proof.
  intros Hj Hi Hx. apply mbit_ext. apply upd_ne. Z.div_mod_to_equations. lia.
Qed.

Lemma smap_bytes_spec i n1 : 0 <= i -> 2 <= n1 -> forall n j sect todo m, bytes_ok m -> 0 <= j -> 0 <= todo ->
  let '(sect', todo', m') := smap_bytes n j i n1 sect todo m in scanned i n1 j n sect todo m sect' todo' m'.
Proof.
  intros Hi Hn1. induction n as [|n IH]; intros j sect todo m Hb Hj Ht.
  { simpl. split; try done; [simpl; lia|unfold first_sect; simpl; destruct (sect =? 0) eqn:E; zbool; lia|lia]. }
  pose proof (smap_byte i n1 j sect todo m Hb Hj Hi Ht Hn1) as H1.
  set (base := (j + i * SECTOR_SIZE) * 8) in *.
  assert (Hstep : exists sect1 todo1 b, (if m (fsbuf + j) =? 255 then (sect, todo, m (fsbuf + j))
      else smap_bits 8 0 j i n1 sect todo (m (fsbuf + j))) = (sect1, todo1, b) /\
    smap_bytes (S n) j i n1 sect todo m = smap_bytes n (j + 1) i n1 sect1 todo1 (upd m (fsbuf + j) b)).
  { cbn [smap_bytes]. destruct (m (fsbuf + j) =? 255) eqn:E.
    - exists sect, todo, (m (fsbuf + j)). by rewrite upd_same.
    - destruct (smap_bits 8 0 j i n1 sect todo (m (fsbuf + j))) as [[s1 t1] b1]. by exists s1, t1, b1. }
  destruct Hstep as (sect1 & todo1 & b & Eb & ->). rewrite Eb in H1. destruct H1 as [B1 O1 T1 S1 X1].
  change (8 * 1)%nat with 8%nat in *. fold base in T1, S1, X1.
  set (m1 := upd m (fsbuf + j) b) in *.
  specialize (IH (j + 1) sect1 todo1 m1 B1 ltac:(lia) ltac:(lia)).
  destruct (smap_bytes n (j + 1) i n1 sect1 todo1 m1) as [[sect' todo'] m'].
  replace ((j + 1 + i * SECTOR_SIZE) * 8) with (base + Z.of_nat 8) in IH by lia.
  destruct IH as [B2 O2 T2 S2 X2]. replace ((j + 1 + i * SECTOR_SIZE) * 8) with (base + Z.of_nat 8) in * by lia.
  assert (Hsame : forall x, base + Z.of_nat 8 <= x -> bufbit i m1 x = bufbit i m x)
    by (intros x Hx; apply bufbit_upd_ne; lia).
  assert (Hnc : nclear (bufbit i m1) (8 * n) (base + Z.of_nat 8) = nclear (bufbit i m) (8 * n) (base + Z.of_nat 8))
    by (apply nclear_ext; intros k Hk; apply Hsame; lia).
  assert (0 <= base) as Hb0 by (unfold base; clia).
  replace (8 * S n)%nat with (8 + 8 * n)%nat by lia.
  split; fold base; replace (8 * S n)%nat with (8 + 8 * n)%nat by lia.
  - done.
  - intros a Ha. rewrite O2 by lia. apply O1. lia.
  - rewrite T2, Hnc, T1, nclear_app. pose proof (nclear_bounds (bufbit i m) (8 * n) (base + Z.of_nat 8)). lia.
  - rewrite S2, S1. rewrite (first_sect_ext _ (bufbit i m)) by (intros; apply Hsame; lia). by apply first_sect_app.
  - intros x Hx. destruct (decide (x < base + Z.of_nat 8)) as [Hlt|Hge].
    + rewrite <- X1 by lia. apply mbit_ext. apply O2. left. unfold base in *. Z.div_mod_to_equations. lia.
    + rewrite X2 by lia. rewrite (taken_ext _ (bufbit i m)) by (try lia; intros; apply Hsame; lia).
      rewrite T1. apply taken_app; lia.
Qed.

(** the bits of one sector *)
Definition SBITS : nat := (8 * Z.to_nat SECTOR_SIZE)%nat.
Lemma SBITS_Z n : Z.of_nat (SBITS * n) = 8 * SECTOR_SIZE * Z.of_nat n.
Proof. rewrite Nat2Z.inj_mul. done. Qed.

Section smap_loop.
Context (blk0 n1 : Z) (Hn1 : 2 <= n1).

(** bit [x] of the sector map on the disk *)
Definition sbit (st : sys) (x : Z) : bool := mbit (rdisk st) (blk0 * SECTOR_SIZE) x.

(** what the loop over [n] sectors from sector [i] on has done *)
Record allocated (n : nat) (i sect todo : Z) (st st' : sys) : Prop := mkAlloc {
  al_buf : only_buf st st';
  al_inodes : inode_table st' = inode_table st;
  al_mem : bytes_ok (fmem st');
  al_disk : bytes_ok (rdisk st');
  al_out : forall a, a < (blk0 + i) * SECTOR_SIZE \/ (blk0 + i + Z.of_nat n) * SECTOR_SIZE <= a -> rdisk st' a = rdisk st a;
  al_bits : forall x, 8 * SECTOR_SIZE * i <= x < 8 * SECTOR_SIZE * (i + Z.of_nat n) ->
    sbit st' x = taken (sbit st) (8 * SECTOR_SIZE * i) todo x }.

(** one sector: read, scan, write back *)
Lemma smap_sector i sect todo st :
  bytes_ok (fmem st) -> bytes_ok (rdisk st) -> 0 <= i -> sect_ok (blk0 + i) -> 0 <= todo ->
  exists m' todo' st1, smap_bytes (Z.to_nat SECTOR_SIZE) 0 i n1 sect todo (fmem (rd_state (blk0 + i) st)) =
      (first_sect (sbit st) SBITS (8 * SECTOR_SIZE * i) n1 sect, todo', m') /\
    todo' = Z.max 0 (todo - nclear (sbit st) SBITS (8 * SECTOR_SIZE * i)) /\
    (modm (fun _ => m') ;; when (negb (first_sect (sbit st) SBITS (8 * SECTOR_SIZE * i) n1 sect =? 0))
       (WR_SECT ROOT_DEV (blk0 + i))) (rd_state (blk0 + i) st) = Ok tt st1 /\
    allocated 1 i sect todo st st1.
Proof.
  intros Hbm Hbd Hi Hs Ht. set (stR := rd_state (blk0 + i) st).
  assert (Hbit : forall x, 8 * SECTOR_SIZE * i <= x < 8 * SECTOR_SIZE * (i + 1) -> bufbit i (fmem stR) x = sbit st x).
  { intros x Hx. apply mbit_ext. unfold stR.
    replace (fsbuf - i * SECTOR_SIZE + x / 8) with (fsbuf + (x / 8 - i * SECTOR_SIZE)) by lia.
    rewrite rd_state_buf by (autounfold with consts in *; Z.div_mod_to_equations; lia). f_equal. lia. }
  assert (Hbase : (0 + i * SECTOR_SIZE) * 8 = 8 * SECTOR_SIZE * i) by lia.
  pose proof (smap_bytes_spec i n1 Hi Hn1 (Z.to_nat SECTOR_SIZE) 0 sect todo (fmem stR)
    (bytes_ok_rd _ _ Hbm Hbd) ltac:(lia) Ht) as H.
  destruct (smap_bytes _ _ _ _ _ _ _) as [[sect' todo'] m']. destruct H as [B O T S X].
  rewrite Hbase in *. rewrite Z.add_0_r, Z2Nat.id in * by clia.
  assert (Hcov : 8 * SECTOR_SIZE * i + Z.of_nat (8 * Z.to_nat SECTOR_SIZE) = 8 * SECTOR_SIZE * (i + 1)) by (autounfold with consts; lia).
  rewrite (first_sect_ext _ (sbit st)) in S by (intros x Hx; apply Hbit; lia).
  assert (Tn : nclear (bufbit i (fmem stR)) (8 * Z.to_nat SECTOR_SIZE) (8 * SECTOR_SIZE * i) = nclear (sbit st) SBITS (8 * SECTOR_SIZE * i))
    by (apply nclear_ext; intros k Hk; apply Hbit; rewrite <- Hcov; fold SBITS; lia).
  rewrite Tn in T. subst sect'. fold SBITS. set (sect' := first_sect (sbit st) SBITS (8 * SECTOR_SIZE * i) n1 sect).
  set (st2 := with_mem m' stR).
  assert (Hob : only_buf st st2).
  { eapply only_buf_trans; [apply only_buf_rd|]. apply only_buf_mem. intros a Ha. apply O. unfold fsbuf, FSBUF_SIZE in *. clia. }
  assert (Hbits : forall x, 8 * SECTOR_SIZE * i <= x < 8 * SECTOR_SIZE * (i + 1) ->
    bufbit i m' x = taken (sbit st) (8 * SECTOR_SIZE * i) todo x).
  { intros x Hx. rewrite X by lia. apply taken_ext; [lia|]. intros y Hy. apply Hbit. lia. }
  exists m', todo', (if sect' =? 0 then st2 else wr_state (blk0 + i) st2). split; [done|]. split; [done|]. split.
  { rewrite (bind_run (modm (fun _ => m')) _ stR tt st2) by (by destruct st as [[] ? ? ? ? ? ?]).
    unfold when. destruct (sect' =? 0); [done|]. simpl. by apply WR_SECT_run. }
  destruct (sect' =? 0) eqn:E; zbool.
  - split; try done. intros x Hx. change (Z.of_nat 1) with 1 in Hx. change (sbit st2 x) with (sbit st x).
    assert (sbit st x = true) as Hset.
    { unfold sect', first_sect in E. destruct (sect =? 0) eqn:E0; zbool; [|done].
      destruct (find_first _ _ _) as [y|] eqn:Ey.
      - apply find_first_Some in Ey as (Hy & _). autounfold with consts in *. lia.
      - rewrite find_first_None in Ey. specialize (Ey x). unfold SBITS in Ey. rewrite Hcov in Ey.
        specialize (Ey Hx). by destruct (sbit st x). }
    unfold taken. by rewrite Hset.
  - assert (Hw : forall k, 0 <= k < SECTOR_SIZE -> rdisk (wr_state (blk0 + i) st2) ((blk0 + i) * SECTOR_SIZE + k) = m' (fsbuf + k))
      by (intros k Hk; by rewrite wr_state_disk).
    split; try done.
    + eapply only_buf_trans; [exact Hob|apply only_buf_wr].
    + intros a. destruct (decide ((blk0 + i) * SECTOR_SIZE <= a < (blk0 + i + 1) * SECTOR_SIZE)) as [Hin|Hout].
      * replace a with ((blk0 + i) * SECTOR_SIZE + (a - (blk0 + i) * SECTOR_SIZE)) by lia. rewrite Hw by clia. apply B.
      * rewrite wr_state_other by lia. apply Hbd.
    + intros a Ha. change (Z.of_nat 1) with 1 in Ha. rewrite wr_state_other by lia. done.
    + intros x Hx. change (Z.of_nat 1) with 1 in Hx. rewrite <- Hbits by done. apply mbit_ext.
      replace (blk0 * SECTOR_SIZE + x / 8) with ((blk0 + i) * SECTOR_SIZE + (x / 8 - i * SECTOR_SIZE)) by lia.
      rewrite Hw by (autounfold with consts in *; Z.div_mod_to_equations; lia). f_equal. lia.
Qed.

(** the loop's body on sector [i]: [todo'] bits are left *)
Lemma smap_step (n : nat) i sect todo st :
  bytes_ok (fmem st) -> bytes_ok (rdisk st) -> 0 <= i -> sect_ok (blk0 + i) -> 0 <= todo ->
  let sect' := first_sect (sbit st) SBITS (8 * SECTOR_SIZE * i) n1 sect in
  exists todo' st1, todo' = Z.max 0 (todo - nclear (sbit st) SBITS (8 * SECTOR_SIZE * i)) /\ allocated 1 i sect todo st st1 /\
    alloc_smap_loop (S n) i ROOT_DEV blk0 n1 sect todo st =
      (if todo' =? 0 then ret sect' else alloc_smap_loop n (i + 1) ROOT_DEV blk0 n1 sect' todo') st1.
Proof.
  intros Hbm Hbd Hi Hs Ht sect'. destruct (smap_sector i sect todo st) as (m' & todo' & st1 & Es & Et & Er & A); try done.
  exists todo', st1. split; [done|]. split; [done|]. cbn [alloc_smap_loop]. rewrite (bind_run _ _ _ _ _ (RD_SECT_run _ st Hs)).
  rewrite (bind_run getmem _ (rd_state (blk0 + i) st) (fmem (rd_state (blk0 + i) st)) _ eq_refl). rewrite Es.
  apply bind_Ok in Er as (u & s & E1 & E2). destruct u. rewrite (bind_run _ _ _ _ _ E1). by rewrite (bind_run _ _ _ _ _ E2).
Qed.

(** the bits behind a sector that has been done *)
Lemma allocated_rest i sect todo st st1 x : allocated 1 i sect todo st st1 -> 8 * SECTOR_SIZE * (i + 1) <= x -> sbit st1 x = sbit st x.
Proof.
  intros A Hx. apply mbit_ext. apply A. change (Z.of_nat 1) with 1. autounfold with consts in *. Z.div_mod_to_equations. lia.
Qed.
Lemma SBITS_next i : 8 * SECTOR_SIZE * i + Z.of_nat SBITS = 8 * SECTOR_SIZE * (i + 1).
Proof. unfold SBITS. autounfold with consts. lia. Qed.

(** all the bits were in sector [i] *)
Lemma allocated_more n i sect todo st st1 : 0 <= i -> 0 <= todo <= nclear (sbit st) SBITS (8 * SECTOR_SIZE * i) ->
  allocated 1 i sect todo st st1 -> allocated (S n) i sect todo st st1.
Proof.
  intros Hi Ht A. pose proof A as [A1 A2 A3 A4 A5 A6]. split; try done.
  - intros a Ha. apply A5. autounfold with consts in *. lia.
  - intros x Hx. set (b0 := 8 * SECTOR_SIZE * i) in *. pose proof (SBITS_next i) as Hb1. fold b0 in Hb1.
    destruct (decide (x < 8 * SECTOR_SIZE * (i + 1))); [apply A6; lia|].
    rewrite (allocated_rest i sect todo st st1) by (done || lia). unfold taken.
    replace (Z.to_nat (x - b0)) with (SBITS + Z.to_nat (x - (b0 + Z.of_nat SBITS)))%nat by lia. rewrite nclear_app.
    pose proof (nclear_bounds (sbit st) (Z.to_nat (x - (b0 + Z.of_nat SBITS))) (b0 + Z.of_nat SBITS)).
    rewrite (proj2 (Z.ltb_ge _ _)) by lia. by rewrite orb_false_r.
Qed.

(** sector [i], then the [n] sectors behind it *)
Lemma allocated_cons n i sect sect' todo st st1 st' : 0 <= i -> let c := nclear (sbit st) SBITS (8 * SECTOR_SIZE * i) in
  c <= todo -> allocated 1 i sect todo st st1 -> allocated n (i + 1) sect' (todo - c) st1 st' -> allocated (S n) i sect todo st st'.
Proof.
  intros Hi c Hc A C. pose proof (nclear_bounds (sbit st) SBITS (8 * SECTOR_SIZE * i)) as Hc0. fold c in Hc0.
  pose proof A as [A1 A2 A3 A4 A5 A6]. destruct C as [C1 C2 C3 C4 C5 C6]. split; try done.
  - by eapply only_buf_trans.
  - congruence.
  - intros a Ha. rewrite C5 by (autounfold with consts in *; lia). apply A5. autounfold with consts in *. lia.
  - intros x Hx. pose proof (SBITS_next i) as Hb1. destruct (decide (x < 8 * SECTOR_SIZE * (i + 1))) as [Hlt|Hge].
    + rewrite <- A6 by lia. apply mbit_ext. apply C5. left. autounfold with consts in *. Z.div_mod_to_equations. lia.
    + rewrite C6 by lia. rewrite (taken_ext _ (sbit st)) by (try lia; intros; apply (allocated_rest i sect todo); done || lia).
      replace (todo - c) with (Z.max 0 (todo - c)) by lia. rewrite <- Hb1. apply taken_app; lia.
Qed.

Lemma alloc_smap_loop_run : forall n i sect todo st,
  bytes_ok (fmem st) -> bytes_ok (rdisk st) -> 0 <= i -> 0 <= blk0 -> blk0 + i + Z.of_nat n < 4194304 -> 0 < todo ->
  if todo <=? nclear (sbit st) (SBITS * n) (8 * SECTOR_SIZE * i) then
    exists st', alloc_smap_loop n i ROOT_DEV blk0 n1 sect todo st =
        Ok (first_sect (sbit st) (SBITS * n) (8 * SECTOR_SIZE * i) n1 sect) st' /\ allocated n i sect todo st st'
  else alloc_smap_loop n i ROOT_DEV blk0 n1 sect todo st = Halt HAssert.
Proof.
  induction n as [|n IH]; intros i sect todo st Hbm Hbd Hi Hb0 Hb Ht.
  { rewrite Nat.mul_0_r. simpl. destruct (todo <=? 0) eqn:E; zbool; [lia|]. unfold bind, assert_.
    by rewrite (proj2 (Z.eqb_neq todo 0)) by lia. }
  destruct (smap_step n i sect todo st) as (todo' & st1 & Et & A & ->); try done; try lia; [unfold sect_ok; lia|].
  assert (Hbase : 0 <= 8 * SECTOR_SIZE * i) by clia. pose proof (SBITS_next i) as Hb1.
  pose proof (first_sect_app (sbit st) SBITS (SBITS * n) (8 * SECTOR_SIZE * i) n1 sect Hn1 Hbase) as Hfs.
  replace (SBITS * S n)%nat with (SBITS + SBITS * n)%nat by lia. rewrite nclear_app. rewrite Hb1 in Hfs |- *.
  set (sect' := first_sect (sbit st) SBITS _ n1 sect) in *. set (c1 := nclear (sbit st) SBITS (8 * SECTOR_SIZE * i)) in *.
  set (c2 := nclear (sbit st) (SBITS * n) (8 * SECTOR_SIZE * (i + 1))).
  assert (Hc2 : 0 <= c2) by apply nclear_bounds. assert (Hc1 : 0 <= c1) by apply nclear_bounds.
  assert (Hsame : forall x, 8 * SECTOR_SIZE * (i + 1) <= x -> sbit st1 x = sbit st x) by (intros x Hx; by eapply allocated_rest).
  destruct (todo' =? 0) eqn:E0; zbool.
  - rewrite (proj2 (Z.leb_le _ _)) by lia. exists st1. split; [|apply allocated_more; [done|fold c1; lia|done]].
    rewrite <- Hfs, (first_sect_done _ _ _ _ sect'); [reflexivity|]. apply first_sect_found; [done..|fold c1; lia].
  - assert (todo' = todo - c1) as -> by lia.
    specialize (IH (i + 1) sect' (todo - c1) st1 (al_mem _ _ _ _ _ _ A) (al_disk _ _ _ _ _ _ A) ltac:(lia) Hb0 ltac:(lia) ltac:(lia)).
    rewrite (nclear_ext _ (sbit st) _ _ (8 * SECTOR_SIZE * (i + 1))) in IH by (intros k Hk; apply Hsame; lia). fold c2 in IH.
    rewrite (first_sect_ext (sbit st1) (sbit st)), Hfs in IH by (intros x Hx; apply Hsame; lia).
    destruct (todo - c1 <=? c2) eqn:E2; zbool; [rewrite (proj2 (Z.leb_le _ _)) by lia|by rewrite (proj2 (Z.leb_gt _ _)) by lia].
    destruct IH as (st' & R & C). exists st'. split; [done|]. eapply allocated_cons; [done| |exact A|exact C]. fold c1. lia.
Qed.
End smap_loop.

(** ** The first free run *)

(** the bits of the sector map; bit [x] stands for sector [n_1st_sect - 1 + x] *)
Definition SMAP_SECT : Z := 3.
Definition nr_bits (st : sys) : nat := (SBITS * Z.to_nat (nr_smap_sects (super_blocks st 0%Z)))%nat.
Definition smap_free (st : sys) : Z := nclear (sbit SMAP_SECT st) (nr_bits st) 0.
Definition smap_first (st : sys) : option Z := find_first (fun x => negb (sbit SMAP_SECT st x)) (nr_bits st) 0.

(** before the first clear bit there is none, and from there on each counts *)
Lemma nclear_run f n x i y : i <= x -> (forall y, i <= y < x -> f y = true) -> (forall y, x <= y < x + n -> f y = false) ->
  i <= y <= x + n -> nclear f (Z.to_nat (y - i)) i = Z.max 0 (y - x).
Proof.
  intros Hi Hfull Hclear Hy. destruct (decide (y <= x)).
  { rewrite nclear_full by (intros z Hz; apply Hfull; lia). lia. }
  replace (Z.to_nat (y - i)) with (Z.to_nat (x - i) + Z.to_nat (y - x))%nat by lia.
  rewrite nclear_app, nclear_full by (intros z Hz; apply Hfull; lia).
  replace (i + Z.of_nat (Z.to_nat (x - i))) with x by lia.
  assert (Hc : forall k z, x <= z -> z + Z.of_nat k <= x + n -> nclear f k z = Z.of_nat k).
  { induction k as [|k IH]; intros z Hz Hzk; simpl; [done|]. rewrite Hclear, IH by lia. lia. }
  rewrite Hc by lia. lia.
Qed.
Lemma nclear_mono f n n' i : (n <= n')%nat -> nclear f n i <= nclear f n' i.
Proof.
  intros H. replace n' with (n + (n' - n))%nat by lia. rewrite nclear_app.
  pose proof (nclear_bounds f (n' - n) (i + Z.of_nat n)). lia.
Qed.

(** when the first [n] clear bits are consecutive, they are the ones taken *)
Lemma taken_run f n x i y : i <= x -> 0 < n -> (forall y, i <= y < x -> f y = true) ->
  (forall y, x <= y < x + n -> f y = false) -> i <= y ->
  taken f i n y = f y || ((x <=? y) && (y <? x + n)).
Proof.
  intros Hi Hn Hfull Hclear Hy. unfold taken. destruct (decide (y < x)) as [Hlt|Hge]; [by rewrite Hfull by lia|].
  f_equal. rewrite (proj2 (Z.leb_le x y)) by lia. simpl.
  destruct (y <? x + n) eqn:E; zbool; [apply Z.ltb_lt|apply Z.ltb_ge].
  - rewrite (nclear_run f n x i y) by (done || lia). lia.
  - etrans; [|apply (nclear_mono f (Z.to_nat (x + n - i))); lia]. rewrite (nclear_run f n x i) by (done || lia). lia.
Qed.

Lemma alloc_smap_run st n : mounted st -> bytes_ok (fmem st) -> bytes_ok (rdisk st) -> 0 < n ->
  if n <=? smap_free st then
    exists st' x, smap_first st = Some x /\
      alloc_smap_bit ROOT_DEV n st = Ok (n_1st_sect (super_blocks st 0) - 1 + x) st' /\
      allocated SMAP_SECT (Z.to_nat (nr_smap_sects (super_blocks st 0))) 0 0 n st st'
  else alloc_smap_bit ROOT_DEV n st = Halt HAssert.
Proof.
  intros Hm Hbm Hbd Hn. pose proof (mnt_smap _ Hm) as Hs. pose proof (mnt_n1 _ Hm) as Hn1.
  unfold alloc_smap_bit. rewrite !(bind_run _ _ _ _ _ (sb_of_run st Hm)), (mnt_imap _ Hm).
  change (1 + 1 + 1) with SMAP_SECT. set (n1 := n_1st_sect (super_blocks st 0)) in *.
  unfold smap_free, smap_first, nr_bits. set (ns := Z.to_nat (nr_smap_sects (super_blocks st 0))).
  assert (Hns : Z.of_nat ns <= 1024) by (unfold ns; lia). clearbody ns.
  pose proof (alloc_smap_loop_run SMAP_SECT n1 ltac:(lia) ns 0 0 n st Hbm Hbd) as H.
  rewrite Z.mul_0_r in H.
  assert (Hb : SMAP_SECT + 0 + Z.of_nat ns < 4194304) by (unfold SMAP_SECT; lia).
  specialize (H ltac:(lia) ltac:(unfold SMAP_SECT; lia) Hb Hn).
  destruct (n <=? _) eqn:E; [|done]. destruct H as (st' & R & A). exists st'.
  destruct (find_first _ (SBITS * ns) 0) as [x|] eqn:Ex.
  - exists x. split; [done|]. split; [|done]. rewrite R. unfold first_sect. rewrite Ex.
    by replace (n1 - 1 + x) with (x - 1 + n1) by lia.
  - exfalso. zbool. rewrite find_first_None in Ex. rewrite nclear_full in E; [lia|].
    intros y Hy. specialize (Ex y Hy). by destruct (sbit SMAP_SECT st y).
Qed.

(** [f] is set up to the first clear bit *)
Lemma smap_first_Some st x : smap_first st = Some x ->
  0 <= x < Z.of_nat (nr_bits st) /\ sbit SMAP_SECT st x = false /\ forall y, 0 <= y < x -> sbit SMAP_SECT st y = true.
Proof.
  intros (H1 & H2 & H3)%find_first_Some. split; [lia|]. split; [by destruct (sbit SMAP_SECT st x)|].
  intros y Hy. specialize (H3 y ltac:(lia)). by destruct (sbit SMAP_SECT st y).
Qed.

Lemma nr_bits_Z st : mounted st -> Z.of_nat (nr_bits st) = 8 * SECTOR_SIZE * nr_smap_sects (super_blocks st 0).
Proof. intros Hm. pose proof (mnt_smap _ Hm). unfold nr_bits. rewrite SBITS_Z, Z2Nat.id by lia. done. Qed.

(** a set bit leaves fewer clear ones than there are bits *)
Lemma nclear_hole f n i k : i <= k < i + Z.of_nat n -> f k = true -> nclear f n i < Z.of_nat n.
Proof.
  intros Hk Hf. replace n with (Z.to_nat (k - i) + S (n - Z.to_nat (k - i) - 1))%nat by lia.
  rewrite nclear_app. cbn [nclear]. replace (i + Z.of_nat (Z.to_nat (k - i))) with k by lia. rewrite Hf.
  pose proof (nclear_bounds f (Z.to_nat (k - i)) i).
  pose proof (nclear_bounds f (n - Z.to_nat (k - i) - 1) (k + 1)). lia.
Qed.

(** C28: [alloc_smap_bit] for [n] sectors halts on its assertion when fewer than [n] bits of
    the sector map are clear. Otherwise it marks exactly the first [n] clear ones, changes
    nothing else on the disk, and returns the sector of the first clear bit. When the bits
    that follow that one are clear, the marked bits are those of the [n] sectors from the
    returned one on. *)
Theorem alloc_smap_spec st n : mounted st -> bytes_ok (fmem st) -> bytes_ok (rdisk st) -> 0 < n ->
  if n <=? smap_free st then
    exists st' x, smap_first st = Some x /\
      alloc_smap_bit ROOT_DEV n st = Ok (n_1st_sect (super_blocks st 0) - 1 + x) st' /\
      only_buf st st' /\ inode_table st' = inode_table st /\
      (forall a, a < SMAP_SECT * SECTOR_SIZE \/
         (SMAP_SECT + nr_smap_sects (super_blocks st 0)) * SECTOR_SIZE <= a -> rdisk st' a = rdisk st a) /\
      (forall k, 0 <= k < Z.of_nat (nr_bits st) ->
         sbit SMAP_SECT st' k =
           sbit SMAP_SECT st k || (nclear (sbit SMAP_SECT st) (Z.to_nat k) 0 <? n)) /\
      ((forall k, x <= k < x + n -> sbit SMAP_SECT st k = false) ->
       forall k, 0 <= k < Z.of_nat (nr_bits st) ->
         sbit SMAP_SECT st' k = sbit SMAP_SECT st k || ((x <=? k) && (k <? x + n)))
  else alloc_smap_bit ROOT_DEV n st = Halt HAssert.
Proof.
  intros Hm Hbm Hbd Hn. pose proof (alloc_smap_run st n Hm Hbm Hbd Hn) as H. destruct (n <=? smap_free st); [|done].
  destruct H as (st' & x & Hx & R & [A1 A2 A3 A4 A5 A6]). pose proof (mnt_smap _ Hm).
  rewrite !Z2Nat.id, Z.add_0_r, Z.add_0_l, ?Z.mul_0_r in * by lia. rewrite <- nr_bits_Z in * by done.
  apply smap_first_Some in Hx as Hx'. destruct Hx' as (Hx1 & Hx2 & Hx3).
  exists st', x. repeat (split; [done|]). split.
  - intros k Hk. rewrite A6 by done. unfold taken. by rewrite Z.sub_0_r.
  - intros Hrun k Hk. rewrite A6 by done. apply taken_run; (done || lia).
Qed.

(** C38: The first-fit search does not look for a run of free sectors: when one of the [n - 1]
    bits that follow the first clear one is set, [alloc_smap_bit] still returns the sector of
    the first clear bit, so the [n] sectors the caller takes include sector
    [n_1st_sect - 1 + k], which was already in use, while a sector behind them is marked. *)
Theorem alloc_smap_overlap st n x k : mounted st -> bytes_ok (fmem st) -> bytes_ok (rdisk st) ->
  n <= smap_free st -> smap_first st = Some x -> x < k < x + n -> sbit SMAP_SECT st k = true ->
  exists st' y, alloc_smap_bit ROOT_DEV n st = Ok (n_1st_sect (super_blocks st 0) - 1 + x) st' /\
    x + n <= y < Z.of_nat (nr_bits st) /\ sbit SMAP_SECT st y = false /\ sbit SMAP_SECT st' y = true.
Proof.
  intros Hm Hbm Hbd Hn Hx Hk Hset. pose proof (alloc_smap_run st n Hm Hbm Hbd ltac:(lia)) as H.
  rewrite (proj2 (Z.leb_le _ _) Hn) in H. destruct H as (st' & x' & Hx' & R & [A1 A2 A3 A4 A5 A6]).
  assert (x' = x) as -> by congruence. pose proof (mnt_smap _ Hm).
  rewrite !Z2Nat.id, Z.add_0_r, Z.add_0_l, ?Z.mul_0_r in * by lia. rewrite <- nr_bits_Z in A6 by done.
  apply smap_first_Some in Hx as (Hx1 & Hx2 & Hx3). set (f := sbit SMAP_SECT st) in *.
  assert (Hhead : nclear f (Z.to_nat (x + n)) 0 < n).
  { replace (Z.to_nat (x + n)) with (Z.to_nat x + Z.to_nat n)%nat by lia.
    rewrite nclear_app, nclear_full by (intros y Hy; apply Hx3; lia).
    replace (0 + Z.of_nat (Z.to_nat x)) with x by lia.
    pose proof (nclear_hole f (Z.to_nat n) x k ltac:(lia) Hset). lia. }
  assert (Hlen : (Z.to_nat (x + n) < nr_bits st)%nat).
  { destruct (decide (Z.to_nat (x + n) < nr_bits st)%nat); [done|].
    pose proof (nclear_mono f (nr_bits st) (Z.to_nat (x + n)) 0 ltac:(lia)). unfold smap_free in Hn. fold f in Hn. lia. }
  destruct (find_first (fun z => negb (f z)) (nr_bits st - Z.to_nat (x + n)) (x + n)) as [y|] eqn:Ey.
  - apply find_first_Some in Ey as (Hy & Hfy & Hbefore). exists st', y. split; [done|]. split; [lia|].
    split; [by destruct (f y)|]. rewrite A6 by lia. unfold taken. apply orb_true_iff. right. apply Z.ltb_lt.
    replace (Z.to_nat (y - 0)) with (Z.to_nat (x + n) + Z.to_nat (y - (x + n)))%nat by lia.
    rewrite nclear_app, (nclear_full f (Z.to_nat (y - (x + n)))); [lia|].
    intros z Hz. specialize (Hbefore z ltac:(lia)). by destruct (f z).
  - exfalso. unfold smap_free in Hn. fold f in Hn. rewrite find_first_None in Ey.
    replace (nr_bits st) with (Z.to_nat (x + n) + (nr_bits st - Z.to_nat (x + n)))%nat in Hn by lia.
    rewrite nclear_app, (nclear_full f (nr_bits st - _)) in Hn; [lia|].
    intros z Hz. specialize (Ey z ltac:(lia)). by destruct (f z).
Qed.
