(* ===== verification/FsDir.v ===== *)
(** * The root directory (fs/misc.c: search_file; fs/open.c: new_directory_entry,
    create_file; fs/link.c: do_unlink)

    A directory is an array of 16-byte entries in the sectors of its inode. Looking
    a name up is a search through that array, creating a file fills the first hole
    or appends an entry. The properties relate the code, which works sector by sector
    in FS's buffer, to the array on the disk. *)
From S2P Require Import Prelude Const CLib Protect Proc Sys Fs FsOps FsLem FsRw Task FsMap.

(** ** Entries on the disk *)

(** entry [k] of a directory that starts at sector [s] *)
Definition PER_SECT : Z := SECTOR_SIZE / DIR_ENT_SIZE.
Lemma PER_SECT_32 : PER_SECT = 32.
Proof. done. Qed.
Definition ent_pos (s k : Z) : Z := s * SECTOR_SIZE + k * DIR_ENT_SIZE.
Definition ent_nr (d : mem) (s k : Z) : Z := ld32s d (ent_pos s k).
Definition ent_is (d : mem) (s : Z) (l : list Z) (k : Z) : bool := strcmp_at l d (ent_pos s k + 4) =? 0.

(** the entries [search_file] looks at in a directory of [size] bytes *)
Definition dir_bound (size : Z) : Z :=
  Z.min (size / DIR_ENT_SIZE + 1) (PER_SECT * ((size + SECTOR_SIZE - 1) / SECTOR_SIZE)).
(** the entry with the name, and its inode number *)
Definition dir_find (d : mem) (s size : Z) (l : list Z) : option Z :=
  find_first (ent_is d s l) (Z.to_nat (dir_bound size)) 0.
Definition dir_lookup (d : mem) (s size : Z) (l : list Z) : Z :=
  match dir_find d s size l with Some k => ent_nr d s k | None => 0 end.

(** names that fit an entry with their terminating zero *)
Definition name_ok (l : list Z) : Prop := 0 < Z.of_nat (length l) < MAX_FILENAME_LEN.

Lemma strcmp_at_shift l m m' a b : (forall i, 0 <= i <= Z.of_nat (length l) -> m (a + i) = m' (b + i)) ->
  strcmp_at l m a = strcmp_at l m' b.
Proof.
  revert a b. induction l as [|c l IH]; intros a b H; simpl; pose proof (H 0 ltac:(lia)) as H0; rewrite !Z.add_0_r in H0;
    rewrite H0; [done|]. rewrite (IH (a + 1) (b + 1)); [done|]. intros i Hi. rewrite <- !Z.add_assoc. apply H. simpl. lia.
Qed.

Lemma ld32s_shift m m' a b : (forall i, 0 <= i < 4 -> m (a + i) = m' (b + i)) -> ld32s m a = ld32s m' b.
Proof. intros H. unfold ld32s. by rewrite (ld32_shift m m' a b H). Qed.

(** ** The search of one sector *)

Lemma search_sect_spec nr name mm : forall n j m, m <= nr ->
  search_sect n j m nr name mm =
    match find_first (fun k => strcmp_at name mm (de_name k) =? 0) (Z.to_nat (Z.min (Z.of_nat n) (nr - m + 1))) j with
    | Some k => inl (de_inode_nr mm k)
    | None => inr (m + Z.min (Z.of_nat n) (nr - m + 1))
    end.
Proof.
  induction n as [|n IH]; intros j m Hm.
  { cbn [search_sect]. rewrite Z.min_l by lia. simpl. f_equal. lia. }
  cbn [search_sect]. replace (Z.to_nat (Z.min (Z.of_nat (S n)) (nr - m + 1)))
    with (S (Z.to_nat (Z.min (Z.of_nat n) (nr - m)))) by lia. cbn [find_first].
  destruct (strcmp_at name mm (de_name j) =? 0); [done|]. destruct (nr <? m + 1) eqn:E; zbool.
  - replace (nr - m) with 0 by lia. rewrite Z.min_r by lia. simpl. f_equal. lia.
  - rewrite IH by lia. replace (nr - (m + 1) + 1) with (nr - m) by lia.
    destruct (find_first _ _ _); [done|]. f_equal. lia.
Qed.

(** a search only fills the buffer *)
Record looked (st st' : sys) : Prop := mkLooked {
  lk_buf : only_buf st st';
  lk_inodes : inode_table st' = inode_table st;
  lk_disk : disk st' = disk st;
  lk_bytes : bytes_ok (fmem st) -> bytes_ok (rdisk st) -> bytes_ok (fmem st') }.
Lemma looked_refl st : looked st st.
Proof. split; [apply only_buf_refl|done..]. Qed.
Lemma looked_trans st1 st2 st3 : looked st1 st2 -> looked st2 st3 -> looked st1 st3.
Proof.
  intros [A1 A2 A3 A4] [B1 B2 B3 B4]. split; [by eapply only_buf_trans|congruence..|].
  intros Hm Hd. apply B4; [by apply A4|]. unfold rdisk in *. by rewrite A3.
Qed.
Lemma looked_rd n st : looked st (rd_state n st).
Proof. split; [apply only_buf_rd|done..|]. apply bytes_ok_rd. Qed.
Lemma looked_rdisk st st' : looked st st' -> rdisk st' = rdisk st.
Proof. intros H. unfold rdisk. by rewrite (lk_disk _ _ H). Qed.

(** the entries of the sector in the buffer are those on the disk *)
Lemma buf_ent_is st s i l j : name_ok l -> 0 <= j < PER_SECT ->
  (strcmp_at l (fmem (rd_state (s + i) st)) (de_name j) =? 0) = ent_is (rdisk st) s l (PER_SECT * i + j).
Proof.
  intros Hl Hj. unfold ent_is. f_equal. apply strcmp_at_shift. intros k Hk. unfold name_ok in Hl.
  unfold de_name, de_addr, ent_pos. rewrite <- !Z.add_assoc. rewrite PER_SECT_32 in *.
  rewrite rd_state_buf by (autounfold with consts in *; lia). f_equal. autounfold with consts in *. lia.
Qed.
Lemma buf_ent_nr st s i j : 0 <= j < PER_SECT ->
  de_inode_nr (fmem (rd_state (s + i) st)) j = ent_nr (rdisk st) s (PER_SECT * i + j).
Proof.
  intros Hj. apply ld32s_shift. intros k Hk. unfold de_addr, ent_pos. rewrite PER_SECT_32 in *. rewrite <- !Z.add_assoc.
  rewrite rd_state_buf by (autounfold with consts in *; lia). f_equal. autounfold with consts in *. lia.
Qed.

Lemma find_first_ext f g n i : (forall k, i <= k < i + Z.of_nat n -> f k = g k) -> find_first f n i = find_first g n i.
Proof.
  intros H. rewrite (find_first_shift f g n i i); [destruct (find_first g n i); simpl; f_equal; lia|].
  intros k Hk. apply H. lia.
Qed.

(** ** The search of a directory *)

Lemma search_loop_run s name nr : name_ok name -> forall n i st,
  0 <= s -> 0 <= i -> s + i + Z.of_nat n < 4194304 -> PER_SECT * i <= nr ->
  exists st', search_loop n i ROOT_DEV s (PER_SECT * i) nr name st =
    Ok match find_first (ent_is (rdisk st) s name)
             (Z.to_nat (Z.min (PER_SECT * Z.of_nat n) (nr - PER_SECT * i + 1))) (PER_SECT * i) with
       | Some k => ent_nr (rdisk st) s k | None => 0 end st' /\ looked st st'.
Proof.
  intros Hl. induction n as [|n IH]; intros i st Hs Hi Hb Hm.
  { exists st. split; [|apply looked_refl]. rewrite Z.min_l by lia. by rewrite Z.mul_0_r. }
  cbn [search_loop]. assert (Hsec : sect_ok (s + i)) by (unfold sect_ok; lia).
  rewrite !(bind_run _ _ _ _ _ (RD_SECT_run _ st Hsec)). set (st1 := rd_state (s + i) st).
  rewrite !(bind_run getmem _ st1 (fmem st1) st1 eq_refl). change (SECTOR_SIZE / DIR_ENT_SIZE) with PER_SECT.
  rewrite (search_sect_spec nr name (fmem st1) (Z.to_nat PER_SECT) 0 (PER_SECT * i) Hm).
  change (Z.of_nat (Z.to_nat PER_SECT)) with PER_SECT. set (c := Z.min PER_SECT (nr - PER_SECT * i + 1)).
  assert (HP : PER_SECT = 32) by done. assert (Hc : 0 <= c <= PER_SECT) by lia.
  rewrite (find_first_shift _ (ent_is (rdisk st) s name) (Z.to_nat c) 0 (PER_SECT * i))
    by (intros k Hk; apply buf_ent_is; [done|lia]).
  replace (Z.to_nat (Z.min (PER_SECT * Z.of_nat (S n)) (nr - PER_SECT * i + 1)))
    with (Z.to_nat c + Z.to_nat (Z.min (PER_SECT * Z.of_nat n) (nr - PER_SECT * i + 1 - c)))%nat by lia.
  rewrite find_first_app. destruct (find_first (ent_is (rdisk st) s name) (Z.to_nat c) (PER_SECT * i)) as [k|] eqn:Ek.
  - apply find_first_Some in Ek as (Hk & _). simpl. exists st1. split; [|apply looked_rd].
    unfold st1, ret. rewrite buf_ent_nr by lia. f_equal. f_equal. lia.
  - simpl. destruct (nr <? PER_SECT * i + c) eqn:E; zbool.
    + exists st1. split; [|apply looked_rd].
      replace (Z.to_nat (Z.min (PER_SECT * Z.of_nat n) (nr - PER_SECT * i + 1 - c))) with 0%nat by lia. done.
    + assert (c = PER_SECT) as -> by lia. destruct (IH (i + 1) st1) as (st' & R & L); try lia.
      replace (PER_SECT * i + PER_SECT) with (PER_SECT * (i + 1)) by lia.
      exists st'. split; [|eapply looked_trans; [apply looked_rd|done]]. rewrite R.
      change (rdisk st1) with (rdisk st).
      replace (PER_SECT * i + Z.of_nat (Z.to_nat PER_SECT)) with (PER_SECT * (i + 1)) by lia.
      by replace (nr - PER_SECT * (i + 1) + 1) with (nr - PER_SECT * i + 1 - PER_SECT) by lia.
Qed.

(** the root directory of the mounted file system *)
Definition root_dir (st : sys) : inode := inode_table st (root_inode st).
Record dir_ok (st : sys) : Prop := mkDirOk {
  dk_start : n_1st_sect (super_blocks st 0) <= i_start_sect (root_dir st);
  dk_end : i_start_sect (root_dir st) + i_nr_sects (root_dir st) < 4194304;
  dk_size : 0 <= i_size (root_dir st) <= i_nr_sects (root_dir st) * SECTOR_SIZE;
  dk_whole : i_size (root_dir st) `mod` DIR_ENT_SIZE = 0;
  dk_mode : 0 <= i_mode (root_dir st) < 4294967296 }.

(** what a path means: the inode number, 0 for no file *)
Definition path_lookup (d : mem) (dir : inode) (path : list Z) : Z :=
  match strip_path path with
  | None => 0
  | Some [] => i_num dir
  | Some l => dir_lookup d (i_start_sect dir) (i_size dir) l
  end.
Definition path_ok (path : list Z) : Prop :=
  match strip_path path with Some l => Z.of_nat (length l) < MAX_FILENAME_LEN | None => True end.

Lemma search_file_run st path : fs_inv st -> dir_ok st -> path_ok path ->
  exists st', search_file path st = Ok (path_lookup (rdisk st) (root_dir st) path) st' /\ looked st st'.
Proof.
  intros Hinv [D1 D2 D3 D4 D5] Hp. unfold search_file, path_lookup, path_ok in *.
  destruct (strip_path path) as [l|]; [|exists st; split; [done|apply looked_refl]].
  rewrite (bind_run get _ st st st eq_refl).
  pose proof (mnt_root _ (fi_mnt _ Hinv)) as Hr. destruct (fi_root _ Hinv) as [Hlive _].
  destruct (fi_nr _ Hinv _ Hr Hlive) as (_ & Hdev & _). pose proof (mnt_n1 _ (fi_mnt _ Hinv)). pose proof (mnt_smap _ (fi_mnt _ Hinv)).
  rewrite (bind_run _ _ _ _ _ (geti_run _ st Hr)). fold (root_dir st) in *.
  destruct l as [|c l]; [exists st; split; [done|apply looked_refl]|].
  rewrite bind_assert by (by rewrite Hdev). rewrite Hdev.
  set (size := i_size (root_dir st)) in *. set (s := i_start_sect (root_dir st)) in *.
  assert (Hblk : 0 <= (size + SECTOR_SIZE - 1) / SECTOR_SIZE <= i_nr_sects (root_dir st))
    by (autounfold with consts in *; Z.div_mod_to_equations; lia).
  destruct (search_loop_run s (c :: l) (size / DIR_ENT_SIZE)) with (n := Z.to_nat ((size + SECTOR_SIZE - 1) / SECTOR_SIZE))
    (i := 0) (st := st) as (st' & R & L); try lia.
  - unfold name_ok. simpl in *. lia.
  - rewrite Z.mul_0_r. apply Z.div_pos; [lia|done].
  - exists st'. split; [|done]. rewrite Z.mul_0_r in R. rewrite R. unfold dir_lookup, dir_find, dir_bound.
    rewrite Z2Nat.id, Z.sub_0_r by lia. by rewrite Z.min_comm.
Qed.

(** ** The slot of a new entry *)

(** the first hole among the [N] entries, or the end *)
Definition is_hole (d : mem) (s k : Z) : bool := ent_nr d s k =? 0.
Definition dir_slot (d : mem) (s N : Z) : Z :=
  match find_first (is_hole d s) (Z.to_nat N) 0 with Some k => k | None => N end.
(** the sector the search for a hole stops in, when there is none *)
Definition last_sect (N : Z) : Z := (Z.max 1 N - 1) / PER_SECT.

Lemma de_scan_spec m : forall n j nr, 0 <= nr ->
  de_scan n j nr m =
    match find_first (fun k => de_inode_nr m k =? 0) (Z.to_nat (Z.min (Z.of_nat n) nr)) j with
    | Some k => (Some k, k, nr - (k - j))
    | None => (None, j + Z.min (Z.of_nat n) nr, nr - Z.min (Z.of_nat n) nr)
    end.
Proof.
  induction n as [|n IH]; intros j nr Hnr.
  { cbn [de_scan]. rewrite Z.min_l by lia. simpl. by rewrite Z.add_0_r, Z.sub_0_r. }
  cbn [de_scan]. destruct (0 <? nr) eqn:E; zbool.
  - replace (Z.to_nat (Z.min (Z.of_nat (S n)) nr)) with (S (Z.to_nat (Z.min (Z.of_nat n) (nr - 1)))) by lia.
    cbn [find_first]. destruct (de_inode_nr m j =? 0); [by rewrite Z.sub_diag, Z.sub_0_r|].
    rewrite IH by lia. destruct (find_first _ _ _) as [k|]; [f_equal; lia|].
    f_equal; [f_equal|]; lia.
  - assert (nr = 0) as -> by lia. rewrite Z.min_r by lia. simpl. by rewrite Z.add_0_r.
Qed.

Lemma new_de_loop_run s p : forall n i nr st,
  0 <= s -> 0 <= i -> s + i + Z.of_nat n < 4194304 -> 0 <= nr <= PER_SECT * Z.of_nat n -> (0 < n)%nat ->
  i = 0 \/ 0 < nr ->
  exists st1, looked st st1 /\
    match find_first (is_hole (rdisk st) s) (Z.to_nat nr) (PER_SECT * i) with
    | Some k => new_de_loop n i ROOT_DEV s nr p st =
        Ok (Some (k `mod` PER_SECT, k / PER_SECT)) (rd_state (s + k / PER_SECT) st1)
    | None => let N := PER_SECT * i + nr in new_de_loop n i ROOT_DEV s nr p st =
        (modi p (fun x => set_i_size (u32 (i_size x + DIR_ENT_SIZE)) x) ;;
         ret (Some (N - PER_SECT * last_sect N, last_sect N))) (rd_state (s + last_sect N) st1)
    end.
Proof.
  assert (HP : PER_SECT = 32) by done.
  induction n as [|n IH]; intros i nr st Hs Hi Hb Hnr Hn Hstart; [lia|].
  cbn [new_de_loop]. assert (Hsec : sect_ok (s + i)) by (unfold sect_ok; lia).
  rewrite (bind_run _ _ _ _ _ (RD_SECT_run _ st Hsec)). set (st1 := rd_state (s + i) st).
  rewrite (bind_run getmem _ st1 (fmem st1) st1 eq_refl). change (SECTOR_SIZE / DIR_ENT_SIZE) with PER_SECT.
  rewrite (de_scan_spec (fmem st1) (Z.to_nat PER_SECT) 0 nr) by lia.
  change (Z.of_nat (Z.to_nat PER_SECT)) with PER_SECT. set (c := Z.min PER_SECT nr).
  rewrite (find_first_shift _ (is_hole (rdisk st) s) (Z.to_nat c) 0 (PER_SECT * i))
    by (intros k Hk; unfold is_hole, st1; rewrite buf_ent_nr by lia; done).
  replace (Z.to_nat nr) with (Z.to_nat c + Z.to_nat (nr - c))%nat by lia. rewrite find_first_app.
  destruct (find_first (is_hole (rdisk st) s) (Z.to_nat c) (PER_SECT * i)) as [k|] eqn:Ek.
  - apply find_first_Some in Ek as (Hk & _). exists st. split; [apply looked_refl|]. simpl.
    assert (Ei : k / PER_SECT = i) by (rewrite HP in *; Z.div_mod_to_equations; lia).
    rewrite (Z.mod_eq k PER_SECT), Ei by lia. unfold ret. by replace (k - PER_SECT * i + 0) with (k - PER_SECT * i) by lia.
  - simpl. destruct (nr - c =? 0) eqn:E; zbool.
    + replace (Z.to_nat (nr - c)) with 0%nat by lia. exists st. split; [apply looked_refl|]. simpl.
      assert (El : last_sect (PER_SECT * i + nr) = i)
        by (unfold last_sect; rewrite HP in *; Z.div_mod_to_equations; lia).
      rewrite El. fold st1. by replace (PER_SECT * i + nr - PER_SECT * i) with c by lia.
    + destruct (IH (i + 1) (nr - c) st1) as (st2 & L & R); try lia.
      exists st2. split; [eapply looked_trans; [apply looked_rd|done]|].
      change (rdisk st1) with (rdisk st) in R.
      replace (PER_SECT * i + Z.of_nat (Z.to_nat c)) with (PER_SECT * (i + 1)) by lia.
      destruct (find_first _ _ (PER_SECT * (i + 1))); [done|].
      by replace (PER_SECT * (i + 1) + (nr - c)) with (PER_SECT * i + nr) in R by lia.
Qed.

(** ** Filling an entry *)

Definition fill_entry (a : Z) (l : list Z) (nr : Z) (m : mem) : mem :=
  put_bytes (a + 4) (l ++ [0]) (st32 a nr m).
Definition chars_ok (l : list Z) : Prop := Forall (fun c => 1 <= c < 256) l.

Lemma fill_entry_out a l nr m b : name_ok l -> b < a \/ a + DIR_ENT_SIZE <= b -> fill_entry a l nr m b = m b.
Proof.
  intros Hl Hb. unfold fill_entry, name_ok in *. autounfold with consts in *.
  rewrite put_bytes_out by (rewrite length_app; simpl; lia). apply st32_out. lia.
Qed.
Lemma fill_entry_nr a l nr m : 0 <= nr < 2147483648 -> ld32s (fill_entry a l nr m) a = nr.
Proof.
  intros Hnr. unfold ld32s, fill_entry. rewrite (ld32_shift _ (st32 a nr m) a a).
  - rewrite ld32_st32, u32_id by lia. apply i32_id. lia.
  - intros i Hi. apply put_bytes_out. lia.
Qed.
Lemma strcmp_put l m p : chars_ok l -> strcmp_at l (put_bytes p (l ++ [0]) m) p = 0.
Proof.
  intros H. revert p m. induction H as [|c l Hc H IH]; intros p m; simpl.
  - by rewrite upd_eq.
  - assert (Ec : put_bytes (p + 1) (l ++ [0]) (upd m p c) p = c) by (rewrite put_bytes_out by lia; apply upd_eq).
    rewrite Ec, (proj2 (Z.eqb_neq c 0)), Z.eqb_refl by lia. apply IH.
Qed.
(** a name is equal to no other *)
Lemma strcmp_put_other l l' m p : chars_ok l -> chars_ok l' ->
  strcmp_at l' (put_bytes p (l ++ [0]) m) p = 0 -> l' = l.
Proof.
  intros Hl. revert l' p m. induction Hl as [|c l Hc Hl IH]; intros l' p m Hl'.
  - simpl. destruct Hl' as [|c' l' Hc' Hl']; [done|]. simpl. rewrite upd_eq. simpl. intros E.
    apply (i8_inj c' 0) in E; lia.
  - simpl. assert (Ec : put_bytes (p + 1) (l ++ [0]) (upd m p c) p = c) by (rewrite put_bytes_out by lia; apply upd_eq).
    destruct Hl' as [|c' l' Hc' Hl']; simpl; rewrite Ec.
    + intros E. assert (c = 0) by (apply i8_inj; [lia..|]; change (i8 0) with 0; lia). lia.
    + rewrite (proj2 (Z.eqb_neq c 0)) by lia. destruct (i8 c' =? i8 c) eqn:E; zbool; [|lia].
      apply i8_inj in E; [|lia..]. subst c'. intros H. by rewrite (IH _ _ _ Hl' H).
Qed.

(** ** Writing the directory back *)

(** [sync_inode] after the cached inode and the data area have changed *)
Lemma resync st st' p f :
  fs_inv st -> 0 <= p < NR_INODE -> live (inode_table st) p ->
  let x := inode_table st p in
  i_dev (f x) = i_dev x -> i_cnt (f x) = i_cnt x -> i_num (f x) = i_num x -> words_ok (f x) ->
  only_buf st st' -> inode_table st' = upd (inode_table st) p (f x) ->
  (forall a, a < n_1st_sect (super_blocks st 0) * SECTOR_SIZE -> rdisk st' a = rdisk st a) ->
  let pos := inode_pos (super_blocks st 0) (i_num x) in
  exists st2, sync_inode p st' = Ok tt st2 /\ fs_inv st2 /\ only_buf st st2 /\
    inode_table st2 = upd (inode_table st) p (f x) /\
    (forall a, a < pos \/ pos + 16 <= a -> rdisk st2 a = rdisk st' a).
Proof.
  intros Hinv Hp Hl x H1 H2 H3 Hw Hb Ht Hd pos. set (st1 := set_inode_table (inode_table st) st').
  assert (Hi1 : fs_inv st1) by (apply (fs_inv_data st); [done|apply Hb|apply Hb|done|done]).
  destruct (update_sync st1 p f) as (st2 & R & I & B & T & O); try done.
  change (inode_table st1) with (inode_table st) in *. fold x in R, T, O.
  change (super_blocks st1 0) with (super_blocks st' 0) in O. rewrite (ob_sb _ _ Hb) in O. fold pos in O.
  exists st2. split; [|split; [done|]; split; [|done]].
  - rewrite (bind_run _ _ _ _ _ (modi_run p f st1 Hp)) in R. rewrite <- R. f_equal.
    change (inode_table st1 p) with x. change (inode_table st1) with (inode_table st). rewrite <- Ht.
    by destruct st'.
  - eapply only_buf_trans; [exact Hb|]. eapply only_buf_trans; [apply (only_buf_inodes _ (inode_table st))|exact B].
Qed.

(** the entry is in the buffer, in front of or behind the end of the sector *)
Lemma fill_entry_run st st1 f b j l nr : let s := i_start_sect (root_dir st) in let r := root_inode st in
  fs_inv st -> dir_ok st -> 0 <= b < i_nr_sects (root_dir st) -> 0 <= j <= PER_SECT -> name_ok l ->
  i_dev (f (root_dir st)) = i_dev (root_dir st) -> i_cnt (f (root_dir st)) = i_cnt (root_dir st) ->
  i_num (f (root_dir st)) = i_num (root_dir st) -> words_ok (f (root_dir st)) ->
  only_buf st st1 -> inode_table st1 = upd (inode_table st) r (f (root_dir st)) -> rdisk st1 = rdisk st ->
  let pos := inode_pos (super_blocks st 0) (i_num (root_dir st)) in
  exists st', (modm (st32 (de_addr j) nr) ;; modm (put_bytes (de_name j) (l ++ [0])) ;;
      WR_SECT ROOT_DEV (b + s) ;; sync_inode r) st1 = Ok tt st' /\
    fs_inv st' /\ only_buf st st' /\ inode_table st' = inode_table st1 /\
    (forall i, 0 <= i < SECTOR_SIZE -> rdisk st' ((s + b) * SECTOR_SIZE + i) = fill_entry (de_addr j) l nr (fmem st1) (fsbuf + i)) /\
    (forall a, a < (s + b) * SECTOR_SIZE \/ (s + b + 1) * SECTOR_SIZE <= a -> a < pos \/ pos + 16 <= a -> rdisk st' a = rdisk st a).
Proof.
  intros s r Hinv [D1 D2 D3 D4 D5] Hb Hj Hl F1 F2 F3 F4 B T D pos. fold s in D1, D2.
  pose proof (mnt_root _ (fi_mnt _ Hinv)) as Hr. destruct (fi_root _ Hinv) as [Hlive Hnum].
  pose proof (mnt_n1 _ (fi_mnt _ Hinv)) as Hn1. pose proof (mnt_smap _ (fi_mnt _ Hinv)) as Hsm.
  destruct (fi_nr _ Hinv _ Hr Hlive) as (_ & _ & Hnr). fold (root_dir st) in Hnr, Hnum.
  pose proof (inode_pos_linear st _ (fi_mnt _ Hinv) Hnr) as Hpos. fold pos in Hpos. rewrite Hnum in Hpos.
  assert (Hsec : sect_ok (b + s)) by (unfold sect_ok; lia).
  rewrite (bind_run _ _ _ _ _ (modm_run (st32 (de_addr j) nr) st1)).
  rewrite (bind_run _ _ _ _ _ (modm_run (put_bytes (de_name j) (l ++ [0])) _)). set (st2 := with_mem _ _).
  assert (Em : fmem st2 = fill_entry (de_addr j) l nr (fmem st1)) by done.
  rewrite (bind_run _ _ _ _ _ (WR_SECT_run (b + s) st2 Hsec)). rewrite Z.add_comm. set (st3 := wr_state (s + b) st2).
  assert (Hb3 : only_buf st st3).
  { eapply only_buf_trans; [exact B|]. eapply only_buf_trans; [|apply only_buf_wr].
    assert (st2 = with_mem (fmem st2) st1) as -> by done. apply only_buf_mem. intros a Ha. rewrite Em.
    apply fill_entry_out; [done|]. rewrite PER_SECT_32 in Hj. unfold de_addr, fsbuf, FSBUF_SIZE in *. autounfold with consts in *. lia. }
  assert (Hout : forall a, a < (s + b) * SECTOR_SIZE \/ (s + b + 1) * SECTOR_SIZE <= a -> rdisk st3 a = rdisk st a).
  { intros a Ha. unfold st3. rewrite wr_state_other by lia. change (rdisk st2) with (rdisk st1). by rewrite D. }
  destruct (resync st st3 r f) as (st' & R & I & B' & T' & O); try done.
  { intros a Ha. apply Hout. left. autounfold with consts in *. lia. }
  assert (O' : forall a, a < pos \/ pos + 16 <= a -> rdisk st' a = rdisk st3 a) by exact O. clear O. clearbody pos.
  exists st'. split; [exact R|]. split; [done|]. split; [done|]. split; [by rewrite T', T|]. split.
  - intros i Hi. rewrite O'. { unfold st3. rewrite wr_state_disk by done. by rewrite Em. }
    right. rewrite Hpos. unfold ROOT_INODE, INODE_SIZE, SECTOR_SIZE in *. lia.
  - intros a Ha Ha'. rewrite O' by done. by apply Hout.
Qed.

(** ** [new_directory_entry] *)

(** entry [k] of the directory is now the name [l] with inode [nr]; the directory
    reaches up to it, and nothing else has changed *)
Record entered (st st' : sys) (k : Z) (l : list Z) (nr : Z) : Prop := mkEntered {
  en_inv : fs_inv st';
  en_buf : only_buf st st';
  en_inodes : inode_table st' = upd (inode_table st) (root_inode st)
    (set_i_size (Z.max (i_size (root_dir st)) ((k + 1) * DIR_ENT_SIZE)) (root_dir st));
  en_nr : ent_nr (rdisk st') (i_start_sect (root_dir st)) k = nr;
  en_name : forall l', chars_ok l' -> name_ok l' ->
    ent_is (rdisk st') (i_start_sect (root_dir st)) l' k = bool_decide (l' = l);
  en_first : rdisk st' (ent_pos (i_start_sect (root_dir st)) k + 4) <> 0;
  en_other : forall a, a < ent_pos (i_start_sect (root_dir st)) k \/
      ent_pos (i_start_sect (root_dir st)) k + DIR_ENT_SIZE <= a ->
    a < inode_pos (super_blocks st 0) ROOT_INODE \/ inode_pos (super_blocks st 0) ROOT_INODE + 16 <= a ->
    rdisk st' a = rdisk st a }.

(** the run up to the place of the entry: [j] may be one past the sector *)
Lemma new_entry_place st l nr : let d := root_dir st in let s := i_start_sect d in let N := i_size d / DIR_ENT_SIZE in
  fs_inv st -> dir_ok st -> name_ok l -> 0 < i_nr_sects d -> N < PER_SECT * i_nr_sects d \/ 0 < N ->
  exists st1 b j, 0 <= b < i_nr_sects d /\ 0 <= j <= PER_SECT /\ PER_SECT * b + j = dir_slot (rdisk st) s N /\
    (j = PER_SECT -> 0 < N /\ N `mod` PER_SECT = 0 /\ dir_slot (rdisk st) s N = N) /\
    (N `mod` PER_SECT = 0 -> 0 < N -> dir_slot (rdisk st) s N = N -> j = PER_SECT) /\
    only_buf st st1 /\ rdisk st1 = rdisk st /\
    inode_table st1 = upd (inode_table st) (root_inode st)
      (set_i_size (Z.max (i_size d) ((dir_slot (rdisk st) s N + 1) * DIR_ENT_SIZE)) d) /\
    (forall i, 0 <= i < SECTOR_SIZE -> fmem st1 (fsbuf + i) = rdisk st ((s + b) * SECTOR_SIZE + i)) /\
    new_directory_entry (root_inode st) l nr st =
      (modm (st32 (de_addr j) nr) ;; modm (put_bytes (de_name j) (l ++ [0])) ;;
       WR_SECT ROOT_DEV (b + s) ;; sync_inode (root_inode st)) st1.
Proof.
  intros d s N Hinv [D1 D2 D3 D4 D5] Hl Hsects Hroom. fold d s in D1, D2, D3, D4, D5.
  pose proof (mnt_root _ (fi_mnt _ Hinv)) as Hr. destruct (fi_root _ Hinv) as [Hlive _].
  pose proof (mnt_n1 _ (fi_mnt _ Hinv)) as Hn1. pose proof (mnt_smap _ (fi_mnt _ Hinv)) as Hsm.
  destruct (fi_nr _ Hinv _ Hr Hlive) as (_ & Hdev & _). fold (root_dir st) in Hdev. fold d in Hdev.
  assert (HN : 0 <= N <= PER_SECT * i_nr_sects d /\ i_size d = DIR_ENT_SIZE * N)
    by (unfold N; rewrite PER_SECT_32; autounfold with consts in *; Z.div_mod_to_equations; lia).
  destruct HN as [HN Hsize]. unfold new_directory_entry. rewrite (bind_run _ _ _ _ _ (geti_run _ st Hr)).
  fold (root_dir st). fold d. rewrite Hdev. fold s N.
  destruct (new_de_loop_run s (root_inode st) (Z.to_nat (i_nr_sects d)) 0 N st) as (st0 & L & R); try lia.
  rewrite Z.mul_0_r in R. unfold dir_slot. destruct (find_first (is_hole (rdisk st) s) (Z.to_nat N) 0) as [k|] eqn:Ek.
  - apply find_first_Some in Ek as (Hk & _). rewrite PER_SECT_32 in *.
    assert (Hb : 0 <= k / 32 < i_nr_sects d) by (Z.div_mod_to_equations; lia).
    assert (Hj : 0 <= k `mod` 32 < 32) by (apply Z.mod_pos_bound; lia).
    exists (rd_state (s + k / 32) st0), (k / 32), (k `mod` 32).
    split; [done|]. split; [lia|]. split; [Z.div_mod_to_equations; lia|]. split; [lia|]. split; [lia|].
    split; [eapply only_buf_trans; [apply L|apply only_buf_rd]|]. split; [exact (looked_rdisk _ _ L)|].
    split; [|split].
    + change (inode_table (rd_state (s + k / 32) st0)) with (inode_table st0). rewrite (lk_inodes _ _ L).
      rewrite Z.max_l by (autounfold with consts in *; lia). rewrite set_i_size_same. unfold d, root_dir. by rewrite upd_same.
    + intros i Hi. rewrite rd_state_buf by done. by rewrite (looked_rdisk _ _ L).
    + by rewrite (bind_run _ _ _ _ _ R).
  - rewrite Z.add_0_l in R. cbv zeta in R. set (b := last_sect N) in *.
    assert (Hb : 0 <= b < i_nr_sects d /\ 0 <= N - PER_SECT * b <= PER_SECT /\
      (N - PER_SECT * b = PER_SECT -> 0 < N /\ N `mod` PER_SECT = 0) /\ (N `mod` PER_SECT = 0 -> 0 < N -> N - PER_SECT * b = PER_SECT))
      by (unfold b, last_sect; rewrite PER_SECT_32 in *; Z.div_mod_to_equations; lia).
    destruct Hb as (Hb & Hj & Hj1 & Hj2).
    rewrite (bind_run _ _ _ _ _ (modi_run (root_inode st) _ (rd_state (s + b) st0) Hr)) in R.
    set (st1 := set_inode_table _ (rd_state (s + b) st0)) in R.
    exists st1, b, (N - PER_SECT * b). split; [done|]. split; [done|]. split; [lia|].
    split; [intros E; destruct (Hj1 E); auto|]. split; [auto|].
    split; [eapply only_buf_trans; [apply L|]; eapply only_buf_trans; [apply only_buf_rd|apply only_buf_inodes]|].
    split; [exact (looked_rdisk _ _ L)|]. split; [|split].
    + unfold st1. cbn [inode_table set_inode_table]. change (inode_table (rd_state (s + b) st0)) with (inode_table st0).
      rewrite (lk_inodes _ _ L). fold (root_dir st). fold d. f_equal. f_equal.
      rewrite u32_id; [autounfold with consts in *; lia|]. clear -D2 D3 D1 Hn1 Hsm. autounfold with consts in *. lia.
    + intros i Hi. change (fmem st1) with (fmem (rd_state (s + b) st0)). rewrite rd_state_buf by done. by rewrite (looked_rdisk _ _ L).
    + by rewrite (bind_run _ _ _ _ _ R).
Qed.

(** the inode of the directory with a new size *)
Lemma dir_size_words st size : fs_inv st -> dir_ok st -> 0 <= size < 4294967296 ->
  words_ok (set_i_size size (root_dir st)).
Proof.
  intros Hinv [D1 D2 D3 D4 D5] Hs. pose proof (mnt_n1 _ (fi_mnt _ Hinv)). pose proof (mnt_smap _ (fi_mnt _ Hinv)).
  unfold words_ok. cbn. split; [done|]. split; [done|]. autounfold with consts in *. lia.
Qed.

Definition dir_len (st : sys) : Z := i_size (root_dir st) / DIR_ENT_SIZE.
Definition new_slot (st : sys) : Z := dir_slot (rdisk st) (i_start_sect (root_dir st)) (dir_len st).
(** the directory has no hole and its last sector is full *)
Definition sect_full (st : sys) : Prop :=
  0 < dir_len st /\ dir_len st `mod` PER_SECT = 0 /\ new_slot st = dir_len st.

Lemma new_slot_bounds st : dir_ok st -> 0 <= new_slot st <= dir_len st /\
  0 <= dir_len st <= PER_SECT * i_nr_sects (root_dir st) /\ i_size (root_dir st) = DIR_ENT_SIZE * dir_len st.
Proof.
  intros [D1 D2 D3 D4 D5].
  assert (HN : 0 <= dir_len st <= PER_SECT * i_nr_sects (root_dir st) /\ i_size (root_dir st) = DIR_ENT_SIZE * dir_len st)
    by (unfold dir_len; rewrite PER_SECT_32; autounfold with consts in *; Z.div_mod_to_equations; lia).
  split; [|done]. unfold new_slot, dir_slot. destruct (find_first _ _ _) as [k|] eqn:E; [|lia].
  apply find_first_Some in E as (Hk & _). lia.
Qed.

Lemma new_entry_run st l nr :
  fs_inv st -> dir_ok st -> name_ok l -> chars_ok l -> 0 <= nr < 2147483648 ->
  dir_len st < PER_SECT * i_nr_sects (root_dir st) -> ~ sect_full st ->
  exists st', new_directory_entry (root_inode st) l nr st = Ok tt st' /\ entered st st' (new_slot st) l nr.
Proof.
  intros Hinv Hd Hl Hc Hnr Hroom Hfull. destruct (new_slot_bounds st Hd) as (Hk & HN & Hsize).
  pose proof (mnt_n1 _ (fi_mnt _ Hinv)) as Hn1. pose proof (mnt_smap _ (fi_mnt _ Hinv)) as Hsm.
  rewrite PER_SECT_32 in *. pose proof (dk_start _ Hd) as D1. pose proof (dk_end _ Hd) as D2.
  destruct (new_entry_place st l nr Hinv Hd Hl) as (st1 & b & j & Hb & Hj & Hslot & Hj1 & _ & B & D & T & Hbuf & R);
    rewrite ?PER_SECT_32 in *; [lia|left; exact Hroom|].
  set (s := i_start_sect (root_dir st)) in *. set (k := new_slot st) in *.
  fold (dir_len st) in *. change (dir_slot (rdisk st) s (dir_len st)) with k in *.
  assert (Hj' : j < 32). { destruct (decide (j = 32)) as [->|]; [|lia]. exfalso. apply Hfull. unfold sect_full. rewrite PER_SECT_32. by apply Hj1. }
  destruct (fill_entry_run st st1 (set_i_size (Z.max (i_size (root_dir st)) ((k + 1) * DIR_ENT_SIZE))) b j l nr)
    as (st' & R' & I & B' & T' & W & O); try done.
  { apply dir_size_words; [done..|]. autounfold with consts in *. lia. }
  fold s in R', W, O. exists st'. split; [by rewrite R|].
  assert (Hpos : ent_pos s k = (s + b) * SECTOR_SIZE + j * DIR_ENT_SIZE)
    by (unfold ent_pos; rewrite <- Hslot; autounfold with consts; lia).
  assert (Hent : forall i, 0 <= i < DIR_ENT_SIZE -> rdisk st' (ent_pos s k + i) = fill_entry (de_addr j) l nr (fmem st1) (de_addr j + i)).
  { intros i Hi. rewrite Hpos, <- Z.add_assoc, W by (autounfold with consts in *; lia). unfold de_addr. f_equal. lia. }
  assert (Hname : forall i, 0 <= i < 12 -> rdisk st' (ent_pos s k + 4 + i) =
    put_bytes (de_addr j + 4) (l ++ [0]) (st32 (de_addr j) nr (fmem st1)) (de_addr j + 4 + i)).
  { intros i Hi. rewrite <- !Z.add_assoc. apply Hent. autounfold with consts. lia. }
  split; try done.
  - by rewrite T', T.
  - fold s. unfold ent_nr. rewrite <- (fill_entry_nr (de_addr j) l nr (fmem st1) Hnr). apply ld32s_shift.
    intros i Hi. apply Hent. autounfold with consts. lia.
  - fold s. intros l' Hl1 Hl2. unfold ent_is.
    rewrite (strcmp_at_shift l' _ (put_bytes (de_addr j + 4) (l ++ [0]) (st32 (de_addr j) nr (fmem st1))) _ (de_addr j + 4))
      by (intros i Hi; apply Hname; unfold name_ok in Hl2; autounfold with consts in *; lia).
    case_bool_decide as E; [subst l'; rewrite strcmp_put by done; done|].
    apply Z.eqb_neq. intros E'. apply E. by eapply strcmp_put_other.
  - fold s. pose proof (Hname 0 ltac:(lia)) as E. rewrite !Z.add_0_r in E. rewrite E.
    destruct Hc as [|c l Hc _]; [unfold name_ok in Hl; simpl in Hl; lia|]. simpl. rewrite put_bytes_out by lia. rewrite upd_eq. lia.
  - fold s. intros a Ha Ha'. destruct (fi_root _ Hinv) as [_ Hnum]. fold (root_dir st) in Hnum. rewrite Hnum in O.
    destruct (decide ((s + b) * SECTOR_SIZE <= a < (s + b + 1) * SECTOR_SIZE)) as [Hin|Hout]; [|apply O; [lia|exact Ha']].
    replace a with ((s + b) * SECTOR_SIZE + (a - (s + b) * SECTOR_SIZE)) by lia.
    rewrite W, fill_entry_out by (try done; unfold de_addr; autounfold with consts in *; lia).
    apply Hbuf. autounfold with consts in *. lia.
Qed.

(** ** The directory as a map from names to inode numbers *)

Definition dir_map (st : sys) (l : list Z) : Z :=
  dir_lookup (rdisk st) (i_start_sect (root_dir st)) (i_size (root_dir st)) l.
(** holes and the entries behind the end have the empty name *)
Definition dir_clean (st : sys) : Prop :=
  forall k, 0 <= k < PER_SECT * i_nr_sects (root_dir st) ->
    dir_len st <= k \/ ent_nr (rdisk st) (i_start_sect (root_dir st)) k = 0 ->
    rdisk st (ent_pos (i_start_sect (root_dir st)) k + 4) = 0.

Lemma empty_no_name d s l k : chars_ok l -> name_ok l -> d (ent_pos s k + 4) = 0 -> ent_is d s l k = false.
Proof.
  intros Hc Hl E. unfold ent_is. destruct Hc as [|c l Hc _]; [unfold name_ok in Hl; simpl in Hl; lia|].
  simpl. rewrite E. simpl. apply Z.eqb_neq. intros E'. apply (i8_inj c 0) in E'; lia.
Qed.

Lemma find_first_is f n i k : i <= k < i + Z.of_nat n -> f k = true -> (forall j, i <= j < k -> f j = false) ->
  find_first f n i = Some k.
Proof.
  intros Hk Hf Hb. destruct (find_first f n i) as [k'|] eqn:E.
  - apply find_first_Some in E as (Hk' & Hf' & Hb'). f_equal.
    destruct (decide (k' < k)); [by rewrite Hb in Hf' by lia|].
    destruct (decide (k < k')); [by rewrite Hb' in Hf by lia|lia].
  - rewrite find_first_None in E. by rewrite E in Hf by lia.
Qed.

(** the entry behind the end, which [search_file] looks at too, is never found *)
Lemma dir_find_clean st l : dir_ok st -> dir_clean st -> chars_ok l -> name_ok l ->
  dir_find (rdisk st) (i_start_sect (root_dir st)) (i_size (root_dir st)) l =
    find_first (ent_is (rdisk st) (i_start_sect (root_dir st)) l) (Z.to_nat (dir_len st)) 0.
Proof.
  intros Hd Hclean Hc Hl. destruct (new_slot_bounds st Hd) as (_ & HN & Hsize). unfold dir_find, dir_bound.
  fold (dir_len st). set (N := dir_len st) in *. set (s := i_start_sect (root_dir st)) in *.
  assert (Hb : N <= PER_SECT * ((i_size (root_dir st) + SECTOR_SIZE - 1) / SECTOR_SIZE) <= PER_SECT * i_nr_sects (root_dir st)).
  { rewrite Hsize, PER_SECT_32 in *. autounfold with consts. Z.div_mod_to_equations. lia. }
  set (c := PER_SECT * (_ / _)) in *. destruct (decide (N + 1 <= c)).
  - rewrite Z.min_l by lia. replace (Z.to_nat (N + 1)) with (Z.to_nat N + 1)%nat by lia. rewrite find_first_app.
    destruct (find_first _ (Z.to_nat N) 0); [done|]. simpl. rewrite Z2Nat.id by lia.
    rewrite empty_no_name; [done..|]. apply Hclean; [|left; fold N]; lia.
  - rewrite Z.min_r by lia. by replace c with N by lia.
Qed.

(** a name that is found has an inode number *)
Lemma dir_map_zero st l : dir_ok st -> dir_clean st -> chars_ok l -> name_ok l -> dir_map st l = 0 ->
  forall k, 0 <= k < dir_len st -> ent_is (rdisk st) (i_start_sect (root_dir st)) l k = false.
Proof.
  intros Hd Hclean Hc Hl. destruct (new_slot_bounds st Hd) as (_ & HN & Hsize).
  unfold dir_map, dir_lookup. rewrite dir_find_clean by done.
  destruct (find_first _ _ _) as [k|] eqn:E; [|rewrite find_first_None in E; intros _ k Hk; apply E; lia].
  intros Hz. apply find_first_Some in E as (Hk & Hm & _). rewrite empty_no_name in Hm; [done..|].
  apply Hclean; [lia|by right].
Qed.

Lemma new_slot_empty st : dir_ok st -> dir_clean st -> dir_len st < PER_SECT * i_nr_sects (root_dir st) ->
  rdisk st (ent_pos (i_start_sect (root_dir st)) (new_slot st) + 4) = 0.
Proof.
  intros Hd Hclean Hroom. destruct (new_slot_bounds st Hd) as (Hk & HN & _). apply Hclean; [lia|].
  unfold new_slot, dir_slot. destruct (find_first _ _ _) as [k|] eqn:E; [|lia].
  apply find_first_Some in E as (_ & E & _). right. unfold is_hole in E. by zbool.
Qed.

Section entered.
Context (st st' : sys) (l : list Z) (nr : Z).
Context (Hinv : fs_inv st) (Hd : dir_ok st) (Hclean : dir_clean st) (Hl : name_ok l) (Hc : chars_ok l) (Hnr : 0 < nr).
Context (Hroom : dir_len st < PER_SECT * i_nr_sects (root_dir st)) (He : entered st st' (new_slot st) l nr).

Lemma entered_root : root_dir st' =
  set_i_size (Z.max (i_size (root_dir st)) ((new_slot st + 1) * DIR_ENT_SIZE)) (root_dir st).
Proof. unfold root_dir at 1. rewrite (ob_root _ _ (en_buf _ _ _ _ _ He)), (en_inodes _ _ _ _ _ He). apply upd_eq. Qed.
Lemma entered_start : i_start_sect (root_dir st') = i_start_sect (root_dir st).
Proof. by rewrite entered_root. Qed.
Lemma entered_len : dir_len st' = Z.max (dir_len st) (new_slot st + 1).
Proof.
  destruct (new_slot_bounds st Hd) as (Hk & HN & Hsize). unfold dir_len. rewrite entered_root. cbn [i_size set_i_size].
  fold (dir_len st). rewrite Hsize. autounfold with consts. Z.div_mod_to_equations. lia.
Qed.
Lemma entered_byte k i : 0 <= k < PER_SECT * i_nr_sects (root_dir st) -> k <> new_slot st -> 0 <= i < DIR_ENT_SIZE ->
  rdisk st' (ent_pos (i_start_sect (root_dir st)) k + i) = rdisk st (ent_pos (i_start_sect (root_dir st)) k + i).
Proof.
  intros Hk Hne Hi. apply (en_other _ _ _ _ _ He); unfold ent_pos; [autounfold with consts in *; lia|].
  right. pose proof (dk_start _ Hd). pose proof (mnt_n1 _ (fi_mnt _ Hinv)). pose proof (mnt_smap _ (fi_mnt _ Hinv)).
  rewrite (inode_pos_linear st) by (try apply Hinv; unfold nr_ok; autounfold with consts; lia).
  autounfold with consts in *. lia.
Qed.
Lemma entered_nr k : 0 <= k < PER_SECT * i_nr_sects (root_dir st) -> k <> new_slot st ->
  ent_nr (rdisk st') (i_start_sect (root_dir st)) k = ent_nr (rdisk st) (i_start_sect (root_dir st)) k.
Proof. intros Hk Hne. apply ld32s_shift. intros i Hi. apply entered_byte; [done..|autounfold with consts; lia]. Qed.
Lemma entered_is k l' : name_ok l' -> 0 <= k < PER_SECT * i_nr_sects (root_dir st) -> k <> new_slot st ->
  ent_is (rdisk st') (i_start_sect (root_dir st)) l' k = ent_is (rdisk st) (i_start_sect (root_dir st)) l' k.
Proof.
  intros Hl' Hk Hne. unfold ent_is. f_equal. apply strcmp_at_shift. intros i Hi. rewrite <- !Z.add_assoc.
  unfold name_ok in Hl'. apply entered_byte; [done..|autounfold with consts in *; lia].
Qed.

Lemma entered_dir_ok : dir_ok st'.
Proof.
  destruct (new_slot_bounds st Hd) as (Hk & HN & Hsize). destruct Hd as [D1 D2 D3 D4 D5]. rewrite PER_SECT_32 in *.
  split; rewrite entered_root; cbn [i_start_sect i_size i_mode i_nr_sects set_i_size]; try done.
  - by rewrite (ob_sb _ _ (en_buf _ _ _ _ _ He)).
  - autounfold with consts in *. lia.
  - rewrite Hsize. autounfold with consts in *. Z.div_mod_to_equations. lia.
Qed.

Lemma entered_clean : dir_clean st'.
Proof.
  destruct (new_slot_bounds st Hd) as (Hk & HN & Hsize). intros k. rewrite entered_start, entered_len.
  rewrite entered_root at 1. cbn [i_nr_sects set_i_size]. intros Hk' Hcase.
  destruct (decide (k = new_slot st)) as [->|Hne].
  - exfalso. destruct Hcase as [?|E]; [lia|]. rewrite (en_nr _ _ _ _ _ He) in E. lia.
  - rewrite entered_byte by (done || autounfold with consts; lia). apply Hclean; [done|].
    rewrite entered_nr in Hcase by done. lia.
Qed.

(** creating an entry is an insertion *)
Lemma entered_map l' : chars_ok l' -> name_ok l' -> dir_map st l = 0 ->
  dir_map st' l' = if decide (l' = l) then nr else dir_map st l'.
Proof.
  intros Hc' Hl' Hz. destruct (new_slot_bounds st Hd) as (Hk & HN & Hsize).
  unfold dir_map, dir_lookup. rewrite !dir_find_clean by (done || apply entered_dir_ok || apply entered_clean).
  rewrite entered_start, entered_len. set (s := i_start_sect (root_dir st)) in *. set (k := new_slot st) in *.
  pose proof (en_name _ _ _ _ _ He l' Hc' Hl') as Hname. fold s k in Hname. case_decide as E.
  - subst l'. rewrite bool_decide_eq_true_2 in Hname by done. 
    assert (Hbefore : forall j, 0 <= j < k -> ent_is (rdisk st') s l j = false).
    { intros j Hj. etrans; [apply entered_is; try done; fold k; lia|]. apply dir_map_zero; try done; lia. }
    rewrite (find_first_is _ _ 0 k) by (done || lia). exact (en_nr _ _ _ _ _ He).
  - rewrite bool_decide_eq_false_2 in Hname by done.
    pose proof (new_slot_empty st Hd Hclean Hroom) as Hempty. fold s k in Hempty.
    assert (Hsame : forall j, 0 <= j < Z.max (dir_len st) (k + 1) -> ent_is (rdisk st') s l' j = ent_is (rdisk st) s l' j).
    { intros j Hj. destruct (decide (j = k)) as [->|Hne]; [|apply entered_is; try done; lia].
      rewrite Hname. symmetry. by apply empty_no_name. }
    rewrite (find_first_ext _ (ent_is (rdisk st) s l')) by (intros j Hj; apply Hsame; lia).
    replace (Z.to_nat (Z.max (dir_len st) (k + 1))) with
      (Z.to_nat (dir_len st) + Z.to_nat (Z.max (dir_len st) (k + 1) - dir_len st))%nat by lia.
    rewrite find_first_app. destruct (find_first _ (Z.to_nat (dir_len st)) 0) as [j|] eqn:Ej.
    + apply find_first_Some in Ej as (Hj & Hm & _). apply entered_nr; [lia|]. intros ->.
      by rewrite empty_no_name in Hm.
    + rewrite (proj2 (find_first_None _ _ _)); [done|]. intros j Hj. assert (j = k) as -> by lia.
      by apply empty_no_name.
Qed.
End entered.

(** the entry is written behind the sector, which goes back as it was *)
Lemma new_entry_full_run st l nr : fs_inv st -> dir_ok st -> name_ok l -> sect_full st ->
  dir_len st < PER_SECT * i_nr_sects (root_dir st) ->
  exists st', new_directory_entry (root_inode st) l nr st = Ok tt st' /\ fs_inv st' /\ only_buf st st' /\
    root_dir st' = set_i_size (i_size (root_dir st) + DIR_ENT_SIZE) (root_dir st) /\
    (forall a, a < inode_pos (super_blocks st 0) ROOT_INODE \/ inode_pos (super_blocks st 0) ROOT_INODE + 16 <= a ->
       rdisk st' a = rdisk st a).
Proof.
  intros Hinv Hd Hl (HN0 & Hmod & Hend) Hroom. destruct (new_slot_bounds st Hd) as (Hk & HN & Hsize).
  destruct (new_entry_place st l nr Hinv Hd Hl) as (st1 & b & j & Hb & Hj & Hslot & _ & Hj2 & B & D & T & Hbuf & R);
    [rewrite PER_SECT_32 in *; lia|by left|].
  set (s := i_start_sect (root_dir st)) in *. fold (dir_len st) in *.
  change (dir_slot (rdisk st) s (dir_len st)) with (new_slot st) in *.
  specialize (Hj2 Hmod HN0 Hend). subst j. rewrite Hend in *. rewrite PER_SECT_32 in *.
  pose proof (mnt_n1 _ (fi_mnt _ Hinv)) as Hn1. pose proof (mnt_smap _ (fi_mnt _ Hinv)) as Hsm.
  pose proof (dk_start _ Hd) as D1. pose proof (dk_end _ Hd) as D2. fold s in D1, D2.
  destruct (fill_entry_run st st1 (set_i_size (Z.max (i_size (root_dir st)) ((dir_len st + 1) * DIR_ENT_SIZE))) b 32 l nr)
    as (st' & R' & I & B' & T' & W & O); try done.
  { apply dir_size_words; [done..|]. autounfold with consts in *. lia. }
  fold s in R', W, O. exists st'. split; [by rewrite R|]. split; [done|]. split; [done|]. split.
  - unfold root_dir at 1. rewrite (ob_root _ _ B'), T', T, upd_eq. f_equal. autounfold with consts in *. lia.
  - destruct (fi_root _ Hinv) as [_ Hnum]. fold (root_dir st) in Hnum. rewrite Hnum in O. intros a Ha.
    destruct (decide ((s + b) * SECTOR_SIZE <= a < (s + b + 1) * SECTOR_SIZE)) as [Hin|Hout]; [|apply O; [lia|exact Ha]].
    replace a with ((s + b) * SECTOR_SIZE + (a - (s + b) * SECTOR_SIZE)) by lia.
    rewrite W, fill_entry_out by (try done; unfold de_addr; autounfold with consts in *; lia).
    apply Hbuf. autounfold with consts in *. lia.
Qed.

(** ** Properties *)

(** C27: [search_file] on the mounted file system always answers, and its answer is that of
    the reference lookup: 0 for a path with an inner slash, the root inode for the root, and
    else the inode number of the first of the directory's entries with the name, or 0. It
    changes nothing but FS's buffer. *)
Theorem search_file_spec st path : fs_inv st -> dir_ok st -> path_ok path ->
  exists st', search_file path st = Ok (path_lookup (rdisk st) (root_dir st) path) st' /\
    only_buf st st' /\ inode_table st' = inode_table st /\ disk st' = disk st.
Proof. intros H1 H2 H3. destruct (search_file_run st path H1 H2 H3) as (st' & R & L). destruct L. by exists st'. Qed.

(** [new_directory_entry] for a name that is not in the directory is an insertion into the
    map from names to inode numbers that the directory stands for: afterwards the new name is
    found with its number and every other name as before; the directory stays well formed
    and the inode cache coherent. The directory has room, and its last sector is not full. *)
Theorem new_entry_refines_insert st l nr : fs_inv st -> dir_ok st -> dir_clean st -> name_ok l -> chars_ok l ->
  0 < nr < 2147483648 -> dir_len st < PER_SECT * i_nr_sects (root_dir st) -> ~ sect_full st -> dir_map st l = 0 ->
  exists st', new_directory_entry (root_inode st) l nr st = Ok tt st' /\ fs_inv st' /\ dir_ok st' /\ dir_clean st' /\
    forall l', chars_ok l' -> name_ok l' -> dir_map st' l' = if decide (l' = l) then nr else dir_map st l'.
Proof.
  intros Hinv Hd Hclean Hl Hc Hnr Hroom Hfull Hz.
  destruct (new_entry_run st l nr) as (st' & R & He); try done; [lia|]. exists st'. split; [done|]. split; [apply He|].
  split; [by eapply entered_dir_ok|]. split; [eapply entered_clean; (done || apply Hnr || lia)|].
  intros l' H1 H2. eapply entered_map; (done || lia).
Qed.

(** C36: When the directory has no hole and its last sector is full, [new_directory_entry]
    counts the new entry in the size of the directory but writes it behind the sector in the
    buffer: the entries on the disk stay as they are and the new name is not found. *)
Theorem new_entry_lost st l nr : fs_inv st -> dir_ok st -> dir_clean st -> name_ok l -> chars_ok l ->
  sect_full st -> dir_len st < PER_SECT * i_nr_sects (root_dir st) -> dir_map st l = 0 ->
  exists st', new_directory_entry (root_inode st) l nr st = Ok tt st' /\
    dir_len st' = dir_len st + 1 /\
    (forall a, n_1st_sect (super_blocks st 0) * SECTOR_SIZE <= a -> rdisk st' a = rdisk st a) /\ dir_map st' l = 0.
Proof.
  intros Hinv Hd Hclean Hl Hc Hfull Hroom Hz.
  destruct (new_entry_full_run st l nr Hinv Hd Hl Hfull Hroom) as (st' & R & I & B & T & O).
  destruct (new_slot_bounds st Hd) as (Hk & HN & Hsize). destruct Hfull as (HN0 & Hmod & _). rewrite PER_SECT_32 in *.
  pose proof (mnt_n1 _ (fi_mnt _ Hinv)) as Hn1. pose proof (mnt_smap _ (fi_mnt _ Hinv)) as Hsm.
  pose proof (dk_start _ Hd) as D1.
  assert (Hdata : forall a, n_1st_sect (super_blocks st 0) * SECTOR_SIZE <= a -> rdisk st' a = rdisk st a).
  { intros a Ha. apply O. right. rewrite (inode_pos_linear st) by (try apply Hinv; unfold nr_ok; autounfold with consts; lia).
    autounfold with consts in *. lia. }
  exists st'. split; [done|]. split; [|split; [done|]].
  - unfold dir_len. rewrite T. cbn [i_size set_i_size]. rewrite Hsize. autounfold with consts. Z.div_mod_to_equations. lia.
  - unfold dir_map, dir_lookup, dir_find. rewrite T. cbn [i_size i_start_sect set_i_size].
    rewrite (proj2 (find_first_None _ _ _)); [done|]. intros k Hk'.
    assert (Hk2 : k < dir_len st + 2).
    { revert Hk'. unfold dir_bound. rewrite PER_SECT_32, Hsize. autounfold with consts. Z.div_mod_to_equations. lia. }
    assert (E : ent_is (rdisk st') (i_start_sect (root_dir st)) l k = ent_is (rdisk st) (i_start_sect (root_dir st)) l k).
    { unfold ent_is. f_equal. apply strcmp_at_shift. intros i Hi. apply Hdata. unfold ent_pos. autounfold with consts in *. lia. }
    rewrite E. destruct (decide (k < dir_len st)); [apply dir_map_zero; (done || lia)|].
    apply empty_no_name; [done..|]. apply Hclean; [|left; lia]. rewrite PER_SECT_32. Z.div_mod_to_equations. lia.
Qed.
