(* ===== verification/FsCreate.v ===== *)
(** * Creating and deleting files (fs/open.c: create_file, do_open; fs/link.c: do_unlink)

    The composition of the allocation maps (FsMap.v), the inode cache (FsLem.v) and the
    directory (FsDir.v). *)
From S2P Require Import Prelude Const CLib Protect Proc Sys Fs FsOps FsLem FsRw FsRef Task FsMap FsDir.

(** ** States that agree on the inodes and on the directory *)

(** a change of the maps: the inode array stays *)
Lemma fs_inv_maps st st' :
  fs_inv st -> only_buf st st' -> inode_table st' = inode_table st ->
  (forall a, (3 + nr_smap_sects (super_blocks st 0)) * SECTOR_SIZE <= a -> rdisk st' a = rdisk st a) -> fs_inv st'.
Proof.
  intros Hinv Hb Ei Hd. split; rewrite ?(ob_sb _ _ Hb), ?(ob_root _ _ Hb), ?Ei; try apply Hinv.
  - eapply mounted_buf; [exact Hb|apply Hinv].
  - intros x Hx Hl. rewrite (fi_coh _ Hinv x Hx Hl). symmetry. apply disk_inode_ext.
    intros a Ha. apply Hd. destruct (fi_nr _ Hinv x Hx Hl) as (_ & _ & Hn).
    rewrite (inode_pos_linear st _ (fi_mnt _ Hinv) Hn) in Ha. unfold nr_ok, INODE_SIZE in *. lia.
Qed.

(** the directory is as it was *)
Record same_dir (st st' : sys) : Prop := mkSameDir {
  sd_root : root_dir st' = root_dir st;
  sd_sb : super_blocks st' = super_blocks st;
  sd_data : forall a, n_1st_sect (super_blocks st 0) * SECTOR_SIZE <= a -> rdisk st' a = rdisk st a }.

Section same_dir.
Context (st st' : sys) (Hd : dir_ok st) (Hs : same_dir st st').

Lemma same_dir_ok : dir_ok st'.
Proof. destruct Hd, Hs as [R S _]. split; rewrite R, ?S; done. Qed.
Lemma same_dir_byte k i : 0 <= k -> 0 <= i ->
  rdisk st' (ent_pos (i_start_sect (root_dir st)) k + i) = rdisk st (ent_pos (i_start_sect (root_dir st)) k + i).
Proof. intros Hk Hi. apply Hs. pose proof (dk_start _ Hd). unfold ent_pos. autounfold with consts in *. lia. Qed.
Lemma same_dir_nr k : 0 <= k ->
  ent_nr (rdisk st') (i_start_sect (root_dir st)) k = ent_nr (rdisk st) (i_start_sect (root_dir st)) k.
Proof. intros Hk. apply ld32s_shift. intros i Hi. apply same_dir_byte; lia. Qed.
Lemma same_dir_len : dir_len st' = dir_len st.
Proof. unfold dir_len. by rewrite (sd_root _ _ Hs). Qed.
Lemma same_dir_clean : dir_clean st -> dir_clean st'.
Proof.
  intros Hc k. rewrite same_dir_len, (sd_root _ _ Hs). intros Hk Hcase. rewrite same_dir_byte by lia.
  apply Hc; [done|]. by rewrite same_dir_nr in Hcase by lia.
Qed.
Lemma same_dir_slot : new_slot st' = new_slot st.
Proof.
  unfold new_slot, dir_slot. rewrite same_dir_len, (sd_root _ _ Hs).
  rewrite (find_first_ext _ (is_hole (rdisk st) (i_start_sect (root_dir st)))); [done|].
  intros k Hk. unfold is_hole. by rewrite same_dir_nr by lia.
Qed.
Lemma same_dir_map l : dir_map st' l = dir_map st l.
Proof.
  unfold dir_map, dir_lookup, dir_find. rewrite (sd_root _ _ Hs).
  rewrite (find_first_ext _ (ent_is (rdisk st) (i_start_sect (root_dir st)) l)).
  - destruct (find_first _ _ _) as [k|] eqn:E; [|done]. apply find_first_Some in E as (Hk & _). apply same_dir_nr. lia.
  - intros k Hk. unfold ent_is. f_equal. apply strcmp_at_shift. intros i Hi. rewrite <- !Z.add_assoc. apply same_dir_byte; lia.
Qed.
Lemma same_dir_full : sect_full st' <-> sect_full st.
Proof. unfold sect_full. by rewrite same_dir_len, same_dir_slot. Qed.
End same_dir.

(** ** [create_file] *)

(** the inode map: bit 0 is reserved, and every cached inode is marked *)
Record imap_ok (st : sys) : Prop := mkImapOk {
  io_zero : mbit (rdisk st) IMAP_POS 0 = true;
  io_live : forall x, 0 <= x < NR_INODE -> live (inode_table st) x ->
    i_num (inode_table st x) < 4096 /\ mbit (rdisk st) IMAP_POS (i_num (inode_table st x)) = true }.

(** room for a file: the first free inode [x], the first free sector bit [y] and a
    free slot of the inode cache *)
Record room (st : sys) (x y : Z) : Prop := mkRoom {
  rm_imap : imap_first (rdisk st) = Some x;
  rm_smap : smap_first st = Some y;
  rm_sects : NR_DEFAULT_FILE_SECTS <= smap_free st;
  rm_cache : exists q, 0 <= q < NR_INODE /\ ~ live (inode_table st) q;
  rm_dir : dir_len st < PER_SECT * i_nr_sects (root_dir st) /\ ~ sect_full st }.

Definition new_file (st : sys) (x y : Z) : inode :=
  mkInode I_REGULAR 0 (n_1st_sect (super_blocks st 0) - 1 + y) NR_DEFAULT_FILE_SECTS ROOT_DEV 1 x.

Lemma room_nr st x y : imap_ok st -> room st x y -> nr_ok x /\ x < 4096 /\ mbit (rdisk st) IMAP_POS x = false.
Proof.
  intros [Hz _] [Hx _ _ _ _]. apply find_first_Some in Hx as (Hx & Hc & _).
  assert (x <> 0) by (intros ->; by rewrite Hz in Hc). split; [unfold nr_ok; lia|]. split; [lia|]. by destruct (mbit _ _ x).
Qed.

Lemma smap_ext st st' : mounted st -> super_blocks st' = super_blocks st ->
  (forall a, SMAP_SECT * SECTOR_SIZE <= a -> rdisk st' a = rdisk st a) ->
  smap_first st' = smap_first st /\ smap_free st' = smap_free st.
Proof.
  intros Hm Hs Hd. unfold smap_first, smap_free, nr_bits. rewrite Hs.
  assert (E : forall k, 0 <= k -> sbit SMAP_SECT st' k = sbit SMAP_SECT st k).
  { intros k Hk. apply mbit_ext, Hd. pose proof (Z.div_pos k 8 Hk ltac:(lia)). lia. }
  split.
  - apply find_first_ext. intros k Hk. by rewrite E by lia.
  - apply nclear_ext. intros k Hk. apply E. lia.
Qed.

(** the two maps: only they and the buffer change *)
Lemma alloc_run st x y : fs_inv st -> imap_ok st -> room st x y -> bytes_ok (fmem st) -> bytes_ok (rdisk st) ->
  exists st1 st2, alloc_imap_bit ROOT_DEV st = Ok x st1 /\
    alloc_smap_bit ROOT_DEV NR_DEFAULT_FILE_SECTS st1 = Ok (n_1st_sect (super_blocks st 0) - 1 + y) st2 /\
    only_buf st st2 /\ inode_table st2 = inode_table st /\
    (forall a, (3 + nr_smap_sects (super_blocks st 0)) * SECTOR_SIZE <= a -> rdisk st2 a = rdisk st a) /\
    (forall k, 0 <= k < 4096 -> mbit (rdisk st2) IMAP_POS k = mbit (rdisk st) IMAP_POS k || (k =? x)).
Proof.
  intros Hinv Hio Hroom Hbm Hbd. pose proof (fi_mnt _ Hinv) as Hm.
  destruct (room_nr st x y Hio Hroom) as (Hx & Hx' & _). unfold nr_ok in Hx. pose proof (mnt_smap _ Hm) as Hsm.
  pose proof (alloc_imap_run st Hm Hbm Hbd) as H. rewrite (rm_imap _ _ _ Hroom) in H.
  destruct H as (st1 & R1 & B1 & T1 & D1 & Hx1 & Hbm1).
  assert (Hm1 : mounted st1) by (by eapply mounted_buf).
  assert (Hbd1 : bytes_ok (rdisk st1)) by (rewrite D1; apply bytes_ok_set; [done|lia]).
  assert (Hd1 : forall a, SMAP_SECT * SECTOR_SIZE <= a -> rdisk st1 a = rdisk st a).
  { intros a Ha. rewrite D1. apply upd_ne. unfold IMAP_POS, SMAP_SECT in *. autounfold with consts in *. Z.div_mod_to_equations. lia. }
  destruct (smap_ext st st1 Hm (ob_sb _ _ B1) Hd1) as [Ef En].
  pose proof (alloc_smap_run st1 NR_DEFAULT_FILE_SECTS Hm1 Hbm1 Hbd1 ltac:(done)) as H.
  rewrite Ef, En, (rm_smap _ _ _ Hroom), (proj2 (Z.leb_le _ _) (rm_sects _ _ _ Hroom)), (ob_sb _ _ B1) in H.
  destruct H as (st2 & y' & Ey & R2 & [A1 A2 A3 A4 A5 A6]). assert (y' = y) as -> by congruence.
  exists st1, st2. split; [done|]. split; [done|]. split; [by eapply only_buf_trans|]. split; [congruence|]. split.
  - intros a Ha. rewrite A5, Hd1 by (unfold SMAP_SECT; autounfold with consts in *; lia). done.
  - intros k Hk. rewrite <- (mbit_set (rdisk st) IMAP_POS x k) by lia. rewrite <- D1. apply mbit_ext. apply A5.
    left. unfold IMAP_POS, SMAP_SECT in *. autounfold with consts in *. Z.div_mod_to_equations. lia.
Qed.

(** a new inode in a free slot of the cache *)
Lemma new_inode_run st nr sect : fs_inv st -> nr_ok nr -> 0 <= sect < 4294967296 ->
  (exists q, 0 <= q < NR_INODE /\ ~ live (inode_table st) q) ->
  (forall q, 0 <= q < NR_INODE -> live (inode_table st) q -> i_num (inode_table st q) <> nr) ->
  exists p st', new_inode ROOT_DEV nr sect st = Ok p st' /\ fs_inv st' /\ only_buf st st' /\
    0 <= p < NR_INODE /\ ~ live (inode_table st) p /\
    inode_table st' p = mkInode I_REGULAR 0 sect NR_DEFAULT_FILE_SECTS ROOT_DEV 1 nr /\
    (forall q, q <> p -> inode_table st' q = inode_table st q) /\
    (forall a, a < inode_pos (super_blocks st 0) nr \/ inode_pos (super_blocks st 0) nr + 16 <= a -> rdisk st' a = rdisk st a).
Proof.
  intros Hinv Hn Hsect Hfree Hnew.
  destruct (get_inode_run st nr Hinv Hn) as (p & st1 & R1 & Hg); [by right|].
  pose proof (got_inode_inv st st1 nr p Hinv Hn Hg) as Hi1. destruct Hg as [B D Hp (Hl1 & Hdev & Hnum) O C W].
  destruct C as [[(Hl & _ & Hnr) _]|(_ & Hz & Hone)]; [by destruct (Hnew p Hp Hl)|].
  set (f := fun _ : inode => mkInode I_REGULAR 0 sect NR_DEFAULT_FILE_SECTS ROOT_DEV 1 nr).
  destruct (update_sync st1 p f) as (st2 & R2 & Hi2 & B2 & T2 & O2); try done.
  rewrite Hnum, (ob_sb _ _ B) in O2. rewrite D in O2. unfold new_inode.
  exists p, st2. split; [|split; [done|]; split; [by eapply only_buf_trans|]; split; [done|]; split; [unfold live; lia|]; split; [|split; [|done]]].
  - rewrite (bind_run _ _ _ _ _ R1). apply bind_Ok in R2 as ([] & s & E1 & E2).
    change (modi p (fun _ => mkInode I_REGULAR 0 sect NR_DEFAULT_FILE_SECTS ROOT_DEV 1 nr)) with (modi p f).
    by rewrite (bind_run _ _ _ _ _ E1), (bind_run _ _ _ _ _ E2).
  - by rewrite T2, upd_eq.
  - intros q Hq. rewrite T2, upd_ne by done. by apply O.
Qed.

(** what creating the file [l] has done *)
Record created (st st' : sys) (p x y : Z) (l : list Z) : Prop := mkCreated {
  cr_inv : fs_inv st';
  cr_buf : only_buf st st';
  cr_dir : dir_ok st' /\ dir_clean st';
  cr_imap : imap_ok st';
  cr_slot : 0 <= p < NR_INODE /\ ~ live (inode_table st) p /\ p <> root_inode st;
  cr_inode : inode_table st' p = new_file st x y;
  cr_others : forall q, q <> p -> q <> root_inode st -> inode_table st' q = inode_table st q;
  cr_root : root_dir st' =
    set_i_size (Z.max (i_size (root_dir st)) ((new_slot st + 1) * DIR_ENT_SIZE)) (root_dir st);
  cr_map : forall l', chars_ok l' -> name_ok l' ->
    dir_map st' l' = if decide (l' = l) then x else dir_map st l' }.

Section create.
Context (st : sys) (path l : list Z) (x y : Z).
Context (Hinv : fs_inv st) (Hd : dir_ok st) (Hclean : dir_clean st) (Hio : imap_ok st).
Context (Hbm : bytes_ok (fmem st)) (Hbd : bytes_ok (rdisk st)) (Hroom : room st x y).
Context (Hpath : strip_path path = Some l) (Hl : name_ok l) (Hc : chars_ok l) (Hnew : dir_map st l = 0).

(** before the directory entry: the maps are updated and the inode is on the disk *)
Lemma create_inode : exists st1 st2 st3 p,
  alloc_imap_bit ROOT_DEV st = Ok x st1 /\
  alloc_smap_bit ROOT_DEV NR_DEFAULT_FILE_SECTS st1 = Ok (n_1st_sect (super_blocks st 0) - 1 + y) st2 /\
  new_inode ROOT_DEV x (n_1st_sect (super_blocks st 0) - 1 + y) st2 = Ok p st3 /\
  fs_inv st3 /\ only_buf st st3 /\ same_dir st st3 /\ 0 <= p < NR_INODE /\ ~ live (inode_table st) p /\
  p <> root_inode st /\ inode_table st3 p = new_file st x y /\
  (forall q, q <> p -> inode_table st3 q = inode_table st q) /\
  (forall k, 0 <= k < 4096 -> mbit (rdisk st3) IMAP_POS k = mbit (rdisk st) IMAP_POS k || (k =? x)).
Proof.
  pose proof (fi_mnt _ Hinv) as Hm. pose proof (mnt_smap _ Hm) as Hsm. pose proof (mnt_n1 _ Hm) as Hn1.
  destruct (room_nr st x y Hio Hroom) as (Hx & _ & Hclear).
  destruct (alloc_run st x y Hinv Hio Hroom Hbm Hbd) as (st1 & st2 & R1 & R2 & B2 & T2 & D2 & M2).
  assert (Hi2 : fs_inv st2) by (by eapply fs_inv_maps).
  destruct (smap_first_Some st y (rm_smap _ _ _ Hroom)) as (Hy & _ & _). rewrite nr_bits_Z in Hy by done.
  destruct (new_inode_run st2 x (n_1st_sect (super_blocks st 0) - 1 + y)) as (p & st3 & R3 & Hi3 & B3 & Hp & Hfree & Ip & Io & D3);
    try done; rewrite ?T2.
  { autounfold with consts in *. lia. }
  { apply Hroom. }
  { intros q Hq Hl' E. destruct (io_live _ Hio q Hq Hl') as [_ Hb]. rewrite E in Hb. congruence. }
  rewrite (ob_sb _ _ B2) in D3. rewrite T2 in Hfree, Io. rewrite (inode_pos_linear st) in D3 by done. unfold nr_ok in Hx.
  assert (Hne : p <> root_inode st) by (intros ->; apply Hfree; apply Hinv).
  assert (B : only_buf st st3) by (by eapply only_buf_trans).
  exists st1, st2, st3, p. split_and!; try (done || lia).
  - split; [|apply B|].
    + unfold root_dir. rewrite (ob_root _ _ B). by apply Io.
    + intros a Ha. rewrite D3, D2; [done| |]; autounfold with consts in *; lia.
  - intros k Hk. rewrite <- M2 by done. apply mbit_ext. apply D3. left.
    unfold IMAP_POS. autounfold with consts in *. Z.div_mod_to_equations. lia.
Qed.

Lemma create_file_run : exists st' p, create_file path st = Ok (Some p) st' /\ created st st' p x y l.
Proof.
  destruct create_inode as (st1 & st2 & st3 & p & R1 & R2 & R3 & Hi3 & B3 & Sd & Hp & Hfree & Hne & Ip & Io & M).
  pose proof (mnt_root _ (fi_mnt _ Hinv)) as Hr. destruct (fi_root _ Hinv) as [Hlive Hrn].
  destruct (fi_nr _ Hinv _ Hr Hlive) as (_ & Hdev & _).
  destruct (room_nr st x y Hio Hroom) as (Hx & Hx' & _). unfold nr_ok in Hx. destruct (rm_dir _ _ _ Hroom) as [Hdir Hfull].
  assert (Hd3 : dir_ok st3) by exact (same_dir_ok st st3 Hd Sd).
  assert (Hc3 : dir_clean st3) by exact (same_dir_clean st st3 Hd Sd Hclean).
  assert (Er : root_inode st3 = root_inode st) by apply B3.
  assert (Hroom3 : dir_len st3 < PER_SECT * i_nr_sects (root_dir st3)) by (by rewrite (same_dir_len st), (sd_root _ _ Sd)).
  destruct (new_entry_run st3 l x) as (st' & R4 & He); try done; [lia|by rewrite (same_dir_full st)|].
  exists st', p. split.
  { unfold create_file. rewrite Hpath, (bind_run get _ st st st eq_refl).
    rewrite (bind_run _ _ _ _ _ (geti_run _ st Hr)), Hdev.
    rewrite (bind_run _ _ _ _ _ R1), (bind_run _ _ _ _ _ R2), (bind_run _ _ _ _ _ R3).
    rewrite Er in R4. by rewrite (bind_run _ _ _ _ _ R4). }
  assert (Hother : forall q, q <> root_inode st -> inode_table st' q = inode_table st3 q).
  { intros q Hq. rewrite (en_inodes _ _ _ _ _ He), Er. by apply upd_ne. }
  assert (Hroot : root_dir st' = set_i_size (Z.max (i_size (root_dir st)) ((new_slot st + 1) * DIR_ENT_SIZE)) (root_dir st)).
  { rewrite (entered_root st3 st' l x He). by rewrite (sd_root _ _ Sd), (same_dir_slot st). }
  split; try done.
  - apply He.
  - eapply only_buf_trans; [exact B3|apply He].
  - split; [exact (entered_dir_ok st3 st' l x Hd3 Hroom3 He)|]. apply (entered_clean st3 st' l x); (done || lia).
  - assert (Himap : forall k, 0 <= k < 4096 -> mbit (rdisk st') IMAP_POS k = mbit (rdisk st) IMAP_POS k || (k =? x)).
    { intros k Hk. rewrite <- M by done. apply mbit_ext. pose proof (fi_mnt _ Hinv) as Hm.
      pose proof (mnt_smap _ Hm). pose proof (mnt_n1 _ Hm). pose proof (dk_start _ Hd).
      destruct (new_slot_bounds st Hd) as (Hs & _). 
      apply (en_other _ _ _ _ _ He); rewrite ?(sd_root _ _ Sd), ?(same_dir_slot st), ?(ob_sb _ _ B3) by done;
        [|rewrite (inode_pos_linear st) by (done || unfold nr_ok; autounfold with consts; lia)];
        left; unfold IMAP_POS, ent_pos; autounfold with consts in *; Z.div_mod_to_equations; lia. }
    split; [rewrite Himap by lia; by rewrite (io_zero _ Hio)|].
    intros q Hq Hlq. destruct (decide (q = root_inode st)) as [->|Hqr].
    + assert (E : i_num (inode_table st' (root_inode st)) = ROOT_INODE).
      { rewrite (en_inodes _ _ _ _ _ He), Er, upd_eq. cbn. rewrite (sd_root _ _ Sd). exact Hrn. }
      rewrite E. split; [done|]. rewrite Himap by (autounfold with consts; lia). rewrite <- Hrn. by rewrite (proj2 (io_live _ Hio _ Hr Hlive)).
    + unfold live in Hlq. rewrite Hother in Hlq |- * by done.
      destruct (decide (q = p)) as [->|Hqp].
      * rewrite Ip. cbn [i_num new_file]. split; [done|]. rewrite Himap, Z.eqb_refl by lia. by rewrite orb_true_r.
      * rewrite Io in Hlq |- * by done. destruct (fi_nr _ Hinv q Hq Hlq) as (_ & _ & Hnq). unfold nr_ok in Hnq.
        destruct (io_live _ Hio q Hq Hlq) as [Hlt Hbit].
        split; [done|]. rewrite Himap by lia. by rewrite Hbit.
  - by rewrite Hother.
  - intros q Hqp Hqr. rewrite Hother by done. by apply Io.
  - intros l' Hc' Hl'. rewrite (entered_map st3 st' l x Hi3 Hd3 Hc3 ltac:(lia) Hroom3 He l' Hc' Hl').
    + by rewrite (same_dir_map st).
    + by rewrite (same_dir_map st).
Qed.
End create.

(** ** [do_open] *)

(** the invariants of a search and of the maps hold after a search *)
Section looked.
Context (st st' : sys) (L : looked st st').

Lemma looked_same_dir : same_dir st st'.
Proof.
  split; [unfold root_dir; by rewrite (ob_root _ _ (lk_buf _ _ L)), (lk_inodes _ _ L)|apply L|].
  intros a _. by rewrite (looked_rdisk _ _ L).
Qed.
Lemma looked_inv : fs_inv st -> fs_inv st'.
Proof. intros H. eapply fs_inv_maps; [exact H|apply L|apply L|]. intros a _. by rewrite (looked_rdisk _ _ L). Qed.
Lemma looked_imap : imap_ok st -> imap_ok st'.
Proof. intros [H1 H2]. split; by rewrite (looked_rdisk _ _ L), ?(lk_inodes _ _ L). Qed.
Lemma looked_room x y : mounted st -> dir_ok st -> room st x y -> room st' x y.
Proof.
  intros Hm Hd [H1 H2 H3 H4 [H5 H6]].
  destruct (smap_ext st st' Hm) as [E1 E2]; [apply L|intros a _; by rewrite (looked_rdisk _ _ L)|].
  split; rewrite ?(looked_rdisk _ _ L), ?(lk_inodes _ _ L), ?E1, ?E2; try done.
  rewrite (same_dir_len st st' looked_same_dir), (sd_root _ _ looked_same_dir).
  by rewrite (same_dir_full st st' Hd looked_same_dir).
Qed.
End looked.

(** the path of the request *)
Definition request_path (st : sys) (pc : Z) (msg : MESSAGE) : list Z :=
  cstring (bytes_from (fmem st) (la_of (kern st) pc (PATHNAME msg)) (Z.to_nat (NAME_LEN msg))).

(** a request of process [pc] that names [l], with a free slot [fd] and a free descriptor [f] *)
Record open_request (st : sys) (pc : Z) (msg : MESSAGE) (l : list Z) (fd f : Z) : Prop := mkOpenReq {
  or_proc : 0 <= pc < NR_ALL;
  or_flat : flat (kern st);
  or_len : 0 <= NAME_LEN msg < MAX_PATH;
  or_path : strip_path (request_path st pc msg) = Some l;
  or_name : name_ok l /\ chars_ok l;
  or_fd : find_first (fun i => bool_decide (filp (proc_table (kern st) pc) i = None)) (Z.to_nat NR_FILES) 0 = Some fd;
  or_desc : find_first (fun i => bool_decide (fd_inode (fd_table st i) = None)) (Z.to_nat NR_FILE_DESC) 0 = Some f }.

(** the tables with slot [fd] of [pc] on descriptor [f], which is on inode [p] *)
Definition opened (pc fd f p flags : Z) (st : sys) : sys :=
  set_fd_table (upd (fd_table st) f (mkFd flags 0 1 (Some p))) (set_kern (with_filp pc fd (Some f) (kern st)) st).

Lemma opened_inodes pc fd f p flags st : inode_table (opened pc fd f p flags st) = inode_table st.
Proof. reflexivity. Qed.
Lemma opened_slot pc fd f p flags st : filp (proc_table (kern (opened pc fd f p flags st)) pc) fd = Some f.
Proof. unfold opened. cbn. rewrite !upd_eq. cbn. by rewrite upd_eq. Qed.
Lemma opened_desc pc fd f p flags st : fd_table (opened pc fd f p flags st) f = mkFd flags 0 1 (Some p).
Proof. unfold opened. cbn. by rewrite upd_eq. Qed.
Lemma opened_map pc fd f p flags st l : dir_map (opened pc fd f p flags st) l = dir_map st l.
Proof. reflexivity. Qed.

Lemma fetch_path_run pc va len st : 0 <= pc < NR_ALL -> flat (kern st) -> 0 <= len < MAX_PATH ->
  fetch_path pc va len st = Ok (cstring (bytes_from (fmem st) (la_of (kern st) pc va) (Z.to_nat len))) st.
Proof.
  intros Hp Hf Hl. unfold fetch_path. rewrite (proj2 (Z.leb_le _ _)), (proj2 (Z.ltb_lt _ _)) by lia. simpl.
  rewrite (bind_run _ _ _ _ _ (lift_va2la pc va st Hp Hf)).
  by rewrite (bind_run getmem _ st (fmem st) st eq_refl).
Qed.

(** from the inode on: the tables are filled *)
Lemma open_tail drv pc fd f p flags st : 0 <= pc < NR_ALL -> 0 <= f < NR_FILE_DESC -> 0 <= p < NR_INODE ->
  i_mode (inode_table st p) = I_REGULAR ->
  (set_filp_at pc fd (Some f) ;; modfd f (fun _ => mkFd flags 0 1 (Some p)) ;; open_device drv p ;; ret fd) st =
    Ok fd (opened pc fd f p flags st).
Proof.
  intros Hpc Hf Hp Hmode. rewrite (bind_run _ _ _ _ _ (set_filp_run pc fd (Some f) st Hpc)).
  set (st1 := set_kern _ st). rewrite (bind_run _ _ _ _ _ (modfd_run f (fun _ => mkFd flags 0 1 (Some p)) st1 Hf)).
  set (st2 := set_fd_table _ st1).
  assert (E : open_device drv p st2 = Ok tt st2).
  { unfold open_device. rewrite (bind_run _ _ _ _ _ (geti_run p st2 Hp)).
    change (inode_table st2 p) with (inode_table st p). by rewrite Hmode. }
  by rewrite (bind_run _ _ _ _ _ E).
Qed.

(** [O_TRUNC]: the size of inode [p] becomes 0 *)
Lemma truncate_run st p flags : fs_inv st -> 0 <= p < NR_INODE -> live (inode_table st) p -> words_ok (inode_table st p) ->
  let x := if has flags O_TRUNC then set_i_size 0 (inode_table st p) else inode_table st p in
  let pos := inode_pos (super_blocks st 0) (i_num (inode_table st p)) in
  exists st', when (has flags O_TRUNC) (modi p (set_i_size 0) ;; sync_inode p) st = Ok tt st' /\
    fs_inv st' /\ only_buf st st' /\ inode_table st' = upd (inode_table st) p x /\
    (forall a, a < pos \/ pos + 16 <= a -> rdisk st' a = rdisk st a).
Proof.
  intros Hinv Hp Hl Hw x pos. unfold when. destruct (has flags O_TRUNC).
  - destruct Hw as (W1 & W2 & W3 & W4). destruct (update_sync st p (set_i_size 0)) as (st' & R & I & B & T & O); try done.
    by exists st'.
  - exists st. split; [done|]. split; [done|]. split; [apply only_buf_refl|]. split; [|done]. unfold x. by rewrite upd_same.
Qed.

(** what the rest of the system sees of the file system *)
Record fs_wf (st : sys) : Prop := mkFsWf {
  wf_inv : fs_inv st;
  wf_dir : dir_ok st;
  wf_clean : dir_clean st;
  wf_imap : imap_ok st;
  wf_fd : fd_ok st }.

(** a change of one file's inode, which keeps its number and count *)
Lemma inode_change st st' p x : fs_inv st -> dir_ok st -> imap_ok st -> 0 <= p < NR_INODE -> live (inode_table st) p ->
  p <> root_inode st -> only_buf st st' -> inode_table st' = upd (inode_table st) p x ->
  i_num x = i_num (inode_table st p) ->
  (forall a, let pos := inode_pos (super_blocks st 0) (i_num (inode_table st p)) in
     a < pos \/ pos + 16 <= a -> rdisk st' a = rdisk st a) ->
  same_dir st st' /\ imap_ok st'.
Proof.
  intros Hinv Hd [Z0 Zl] Hp Hl Hne B T Hn O. destruct (fi_nr _ Hinv p Hp Hl) as (_ & _ & Hnr).
  destruct (inode_pos_bounds st _ (fi_mnt _ Hinv) Hnr) as [P1 P2].
  pose proof (mnt_smap _ (fi_mnt _ Hinv)).
  assert (Hmap : forall k, 0 <= k < 4096 -> mbit (rdisk st') IMAP_POS k = mbit (rdisk st) IMAP_POS k).
  { intros k Hk. apply mbit_ext. apply O. left. unfold IMAP_POS. autounfold with consts in *. Z.div_mod_to_equations. lia. }
  split.
  - split; [|apply B|].
    + unfold root_dir. by rewrite (ob_root _ _ B), T, upd_ne.
    + intros a Ha. apply O. right. lia.
  - split; [by rewrite Hmap|]. intros q Hq Hlq.
    assert (E : i_num (inode_table st' q) = i_num (inode_table st q)) by (rewrite T, upd_case; case_decide; congruence).
    assert (Hlq' : live (inode_table st) q).
    { unfold live in *. rewrite T, upd_case in Hlq. case_decide; [by subst|done]. }
    rewrite E. destruct (Zl q Hq Hlq') as [L1 L2]. split; [done|].
    destruct (fi_nr _ Hinv q Hq Hlq') as (_ & _ & Hnq). unfold nr_ok in Hnq. rewrite Hmap by lia. done.
Qed.

(** the slot and the descriptor a request takes are free *)
Lemma open_request_free st pc msg l fd f : open_request st pc msg l fd f ->
  0 <= fd < NR_FILES /\ filp (proc_table (kern st) pc) fd = None /\
  0 <= f < NR_FILE_DESC /\ fd_inode (fd_table st f) = None.
Proof.
  intros [_ _ _ _ _ Hfd Hdesc]. apply find_first_Some in Hfd as (H1 & H2 & _).
  apply find_first_Some in Hdesc as (H3 & H4 & _). apply bool_decide_eq_true in H2, H4.
  change (Z.of_nat (Z.to_nat NR_FILES)) with NR_FILES in H1. change (Z.of_nat (Z.to_nat NR_FILE_DESC)) with NR_FILE_DESC in H3.
  split_and!; try done; lia.
Qed.

(** the tables after opening: one reference more to inode [p] *)
Lemma opened_fd_ok st st1 pc msg l fd f p flags : open_request st pc msg l fd f -> fd_ok st -> only_buf st st1 ->
  0 <= p < NR_INODE -> i_cnt (inode_table st1 p) = i_cnt (inode_table st p) + 1 ->
  (forall q, q <> p -> i_cnt (inode_table st1 q) = i_cnt (inode_table st q)) ->
  fd_ok (opened pc fd f p flags st1).
Proof.
  intros Hreq Hfd B Hp H1 H2. destruct (open_request_free _ _ _ _ _ _ Hreq) as (Hr1 & Hr2 & Hr3 & Hr4).
  unfold fd_ok, opened. cbn [kern fd_table inode_table root_inode set_fd_table set_kern].
  rewrite filps_with_filp, (ob_kern _ _ B), (ob_fd _ _ B), (ob_root _ _ B).
  apply (fd_inv_new _ _ (inode_table st)); try done. apply Hreq.
Qed.

(** up to the inode *)
Lemma do_open_start drv st pc msg l fd f r st1 : open_request st pc msg l fd f ->
  open_inode (request_path st pc msg) (FLAGS msg) st = Ok r st1 ->
  do_open drv pc msg st =
    match r with
    | None => Ok (-1) st1
    | Some (nr, p) =>
        (when (has (FLAGS msg) O_TRUNC) (modi p (set_i_size 0) ;; sync_inode p) ;;
         assert_ (negb (nr =? 0)) ;; set_filp_at pc fd (Some f) ;;
         modfd f (fun _ => mkFd (FLAGS msg) 0 1 (Some p)) ;; open_device drv p ;; ret fd) st1
    end.
Proof.
  intros [Hpc Hflat Hlen _ _ Hfd Hdesc] R. unfold do_open.
  rewrite (bind_run _ _ _ _ _ (fetch_path_run pc (PATHNAME msg) (NAME_LEN msg) st Hpc Hflat Hlen)).
  assert (Ep : lift (getp pc) st = Ok (proc_table (kern st) pc) st)
    by (unfold lift; rewrite getp_run by done; by destruct st).
  rewrite (bind_run _ _ _ _ _ Ep), Hfd, (bind_run get _ st st st eq_refl), Hdesc.
  rewrite (bind_run _ _ _ _ _ R). by destruct r as [[nr p]|].
Qed.

Lemma do_open_run drv st pc msg l fd f p nr st1 st2 : open_request st pc msg l fd f ->
  open_inode (request_path st pc msg) (FLAGS msg) st = Ok (Some (nr, p)) st1 ->
  when (has (FLAGS msg) O_TRUNC) (modi p (set_i_size 0) ;; sync_inode p) st1 = Ok tt st2 ->
  nr <> 0 -> 0 <= p < NR_INODE -> i_mode (inode_table st2 p) = I_REGULAR ->
  do_open drv pc msg st = Ok fd (opened pc fd f p (FLAGS msg) st2).
Proof.
  intros Hreq R1 R2 Hnr Hp Hmode. destruct (open_request_free _ _ _ _ _ _ Hreq) as (_ & _ & Hf & _).
  rewrite (do_open_start drv st pc msg l fd f _ _ Hreq R1), (bind_run _ _ _ _ _ R2).
  rewrite bind_assert by (by apply negb_true_iff, Z.eqb_neq). apply open_tail; try done. apply Hreq.
Qed.

Lemma path_lookup_map st path l : strip_path path = Some l -> name_ok l ->
  path_lookup (rdisk st) (root_dir st) path = dir_map st l /\ path_ok path.
Proof.
  intros Hs Hl. unfold path_lookup, path_ok. rewrite Hs. split; [|apply Hl].
  destruct l as [|c l]; [unfold name_ok in Hl; simpl in Hl; lia|done].
Qed.

(** the invariants only look at the tables and the disk *)
Lemma opened_wf st st1 pc msg l fd f p flags : open_request st pc msg l fd f -> fd_ok st -> only_buf st st1 ->
  0 <= p < NR_INODE -> i_cnt (inode_table st1 p) = i_cnt (inode_table st p) + 1 ->
  (forall q, q <> p -> i_cnt (inode_table st1 q) = i_cnt (inode_table st q)) ->
  fs_inv st1 -> dir_ok st1 -> dir_clean st1 -> imap_ok st1 -> fs_wf (opened pc fd f p flags st1).
Proof.
  intros Hreq Hfd B Hp H1 H2 Hinv Hd Hclean Hio. assert (S : same_dir st1 (opened pc fd f p flags st1)) by done.
  split; [by apply (fs_inv_data st1)|by apply (same_dir_ok st1)|by apply (same_dir_clean st1)| |by eapply opened_fd_ok].
  destruct Hio as [Z1 Z2]. by split.
Qed.

(** C16: Opening a file that does not exist with [O_CREAT] creates it: the request succeeds and
    returns the first free slot of the process, which refers to a new descriptor at position 0
    on a new, empty regular inode; the inode has the first free number of the inode map and
    its sectors begin at the first free bit of the sector map. From then on the directory
    finds the name with that number and every other name as before. The inode cache, the
    directory, the inode map and all reference counts stay consistent. *)
Theorem open_creates drv st pc msg l fd f x y :
  open_request st pc msg l fd f -> fs_wf st -> room st x y -> bytes_ok (fmem st) -> bytes_ok (rdisk st) ->
  has (FLAGS msg) O_CREAT = true -> dir_map st l = 0 ->
  exists st' p, do_open drv pc msg st = Ok fd st' /\ fs_wf st' /\
    filp (proc_table (kern st') pc) fd = Some f /\ fd_table st' f = mkFd (FLAGS msg) 0 1 (Some p) /\
    inode_table st' p = new_file st x y /\
    forall l', chars_ok l' -> name_ok l' -> dir_map st' l' = if decide (l' = l) then x else dir_map st l'.
Proof.
  intros Hreq [Hinv Hd Hclean Hio Hfd] Hroom Hbm Hbd Hcreat Hnew.
  pose proof (or_path _ _ _ _ _ _ Hreq) as Hpath. destruct (or_name _ _ _ _ _ _ Hreq) as [Hl Hc].
  destruct (path_lookup_map st _ _ Hpath Hl) as [Elook Hpok].
  destruct (search_file_run st _ Hinv Hd Hpok) as (st0 & R0 & L). rewrite Elook, Hnew in R0.
  pose proof (looked_same_dir st st0 L) as S0. destruct (fi_mnt _ Hinv) as [M1 M2 M3 M4 M5].
  destruct (create_file_run st0 (request_path st pc msg) l x y) as (st1 & p & R1 & C); try done.
  { by eapply looked_inv. } { by eapply (same_dir_ok st). } { by eapply (same_dir_clean st). } { by eapply looked_imap. }
  { by apply (lk_bytes _ _ L). } { by rewrite (looked_rdisk _ _ L). } { by eapply looked_room. }
  { by rewrite (same_dir_map st). }
  destruct C as [Hi1 B1 [Hd1 Hc1] Hio1 (Hp & Hfree & Hne) Ep Eo Er Emap].
  rewrite (lk_inodes _ _ L) in Hfree, Eo. assert (Er0 : root_inode st0 = root_inode st) by apply L. rewrite Er0 in Hne, Eo.
  assert (Enew : new_file st0 x y = new_file st x y) by (unfold new_file; by rewrite (ob_sb _ _ (lk_buf _ _ L))).
  rewrite Enew in Ep.
  assert (Hopen : open_inode (request_path st pc msg) (FLAGS msg) st = Ok (Some (x, p)) st1).
  { unfold open_inode. rewrite (bind_run _ _ _ _ _ R0), Hcreat. change (0 =? INVALID_INODE) with true. cbv iota.
    rewrite (bind_run _ _ _ _ _ R1). cbn [deref]. rewrite (bind_run (ret p) _ st1 p st1 eq_refl).
    rewrite (bind_run _ _ _ _ _ (geti_run p st1 Hp)), Ep. done. }
  assert (Hlive1 : live (inode_table st1) p) by (unfold live; by rewrite Ep).
  destruct (room_nr st x y Hio Hroom) as (Hx & _ & _). unfold nr_ok in Hx.
  destruct (smap_first_Some st y (rm_smap _ _ _ Hroom)) as (Hy & _ & _). rewrite nr_bits_Z in Hy by apply Hinv.
  destruct (truncate_run st1 p (FLAGS msg)) as (st2 & R2 & Hi2 & B2 & T2 & O2); try done.
  { rewrite Ep. unfold new_file, words_ok. cbn. unfold SECTOR_SIZE in Hy. split_and!; (done || lia). }
  assert (Ex : (if has (FLAGS msg) O_TRUNC then set_i_size 0 (inode_table st1 p) else inode_table st1 p) = new_file st x y)
    by (rewrite Ep; destruct (has (FLAGS msg) O_TRUNC); reflexivity). rewrite Ex in T2.
  assert (Er1 : root_inode st1 = root_inode st) by (rewrite (ob_root _ _ B1); exact Er0).
  destruct (inode_change st1 st2 p (new_file st x y)) as [S2 Hio2]; try done; [congruence|by rewrite Ep|].
  assert (B : only_buf st st2) by (eapply only_buf_trans; [apply L|]; by eapply only_buf_trans).
  assert (Ep2 : inode_table st2 p = new_file st x y) by (by rewrite T2, upd_eq).
  exists (opened pc fd f p (FLAGS msg) st2), p. split_and!.
  - eapply do_open_run; try done; [lia|by rewrite Ep2].
  - apply (opened_wf st _ _ msg l); try done.
    + rewrite Ep2. unfold live in Hfree. cbn. lia.
    + intros q Hq. rewrite T2, upd_ne by done. destruct (decide (q = root_inode st)) as [->|Hqr]; [|by rewrite Eo].
      pose proof (f_equal i_cnt Er) as Ec. unfold root_dir in Ec. rewrite Er1, Er0, (lk_inodes _ _ L) in Ec. exact Ec.
    + by apply (same_dir_ok st1).
    + by apply (same_dir_clean st1).
  - apply opened_slot.
  - apply opened_desc.
  - by rewrite opened_inodes.
  - intros l' Hc' Hl'. rewrite opened_map.
    rewrite (same_dir_map st1 st2 Hd1 S2), Emap by done. by rewrite (same_dir_map st st0 Hd S0).
Qed.

(** an existing regular file: its inode number is marked and its inode is on the disk *)
Record file_on_disk (st : sys) (nr : Z) : Prop := mkOnDisk {
  of_nr : nr_ok nr /\ nr < 4096 /\ nr <> ROOT_INODE;
  of_bit : mbit (rdisk st) IMAP_POS nr = true;
  of_mode : ld32 (rdisk st) (inode_pos (super_blocks st 0) nr) = I_REGULAR;
  of_cache : (exists q, 0 <= q < NR_INODE /\ is_inode (inode_table st) ROOT_DEV nr q) \/
             (exists q, 0 <= q < NR_INODE /\ ~ live (inode_table st) q) }.

(** the cache with one reference more *)
Lemma got_inode_wf st st' nr p : fs_inv st -> dir_ok st -> imap_ok st -> file_on_disk st nr -> got_inode st st' nr p ->
  fs_inv st' /\ same_dir st st' /\ imap_ok st' /\ p <> root_inode st /\
  i_cnt (inode_table st' p) = i_cnt (inode_table st p) + 1 /\ i_mode (inode_table st' p) = I_REGULAR.
Proof.
  intros Hinv Hd Hio [(Hn & Hlt & Hnr) Hbit Hmode _] G. assert (Hi : fs_inv st') by (by eapply got_inode_inv).
  destruct G as [B D Hp (Hl & Hdev & Hnum) O C W]. destruct (fi_root _ Hinv) as [Hlr Hnumr].
  assert (Hne : p <> root_inode st).
  { intros ->. destruct (fi_root _ Hi) as [_ E]. rewrite (ob_root _ _ B), Hnum in E. done. }
  assert (Hcnt : i_cnt (inode_table st' p) = i_cnt (inode_table st p) + 1)
    by (destruct C as [[_ ->]|(_ & E1 & E2)]; [done|lia]).
  split; [done|]. split; [|split; [|split; [done|]; split; [done|]]].
  - split; [unfold root_dir; rewrite (ob_root _ _ B); by apply O|apply B|]. intros a _. by rewrite D.
  - split; rewrite D; [apply Hio|]. intros q Hq Hlq. destruct (decide (q = p)) as [->|Hqp]; [by rewrite Hnum|].
    unfold live in *. rewrite O in Hlq |- * by done. by apply Hio.
  - unfold disk_words, disk_inode in W. injection W as W1 _ _ _. by rewrite W1.
Qed.

Lemma words_on_disk st nr p : bytes_ok (rdisk st) ->
  disk_words (inode_table st p) = disk_inode (rdisk st) (super_blocks st 0) nr -> words_ok (inode_table st p).
Proof.
  intros Hb W. unfold disk_words, disk_inode in W. injection W as W1 W2 W3 W4.
  unfold words_ok. rewrite W1, W2, W3, W4. split_and!; by apply ld32_range.
Qed.

(** the branches of [open_inode] after the search *)
Lemma open_inode_found st path flags nr st0 : fs_inv st -> search_file path st = Ok nr st0 -> looked st st0 ->
  open_inode path flags st =
    if nr =? INVALID_INODE then
      if has flags O_CREAT then (c ← create_file path; p ← deref c; x ← geti p; ret (Some (i_num x, p))) st0
      else Ok None st0
    else if has flags O_RDWR && negb (has flags O_CREAT && negb (has flags O_TRUNC))
      then (p ← get_inode ROOT_DEV nr; ret (Some (nr, p))) st0
    else Ok None st0.
Proof.
  intros Hinv R L. unfold open_inode. rewrite (bind_run _ _ _ _ _ R). destruct (nr =? INVALID_INODE); [by destruct (has _ _)|].
  destruct (has flags O_RDWR); [|done]. destruct (has flags O_CREAT && negb (has flags O_TRUNC)); [done|].
  rewrite (bind_run get _ st0 st0 st0 eq_refl). pose proof (looked_inv st st0 L Hinv) as Hi0.
  pose proof (mnt_root _ (fi_mnt _ Hi0)) as Hr. destruct (fi_root _ Hi0) as [Hl _].
  destruct (fi_nr _ Hi0 _ Hr Hl) as (_ & Hdev & _).
  rewrite (bind_run _ _ _ _ _ (geti_run _ st0 Hr)), Hdev. cbn [andb negb]. cbv iota. reflexivity.
Qed.

(** a name that is found, with the flags that open it *)
Lemma open_found st pc msg l fd f : open_request st pc msg l fd f -> fs_wf st -> bytes_ok (rdisk st) ->
  file_on_disk st (dir_map st l) ->
  has (FLAGS msg) O_RDWR = true -> has (FLAGS msg) O_CREAT && negb (has (FLAGS msg) O_TRUNC) = false ->
  exists st1 p, open_inode (request_path st pc msg) (FLAGS msg) st = Ok (Some (dir_map st l, p)) st1 /\
    got_inode st st1 (dir_map st l) p.
Proof.
  intros Hreq [Hinv Hd Hclean Hio Hfd] Hbd Hfile Hrw Hcr.
  destruct (or_name _ _ _ _ _ _ Hreq) as [Hl Hc].
  destruct (path_lookup_map st _ _ (or_path _ _ _ _ _ _ Hreq) Hl) as [Elook Hpok].
  destruct (search_file_run st _ Hinv Hd Hpok) as (st0 & R0 & L). rewrite Elook in R0.
  pose proof (of_nr _ _ Hfile) as (Hn & Hlt & Hnr).
  destruct (get_inode_run st0 (dir_map st l)) as (p & st1 & R1 & G);
    [by eapply looked_inv|done|rewrite (lk_inodes _ _ L); apply Hfile|].
  exists st1, p. split.
  - rewrite (open_inode_found st _ (FLAGS msg) _ _ Hinv R0 L).
    rewrite (proj2 (Z.eqb_neq _ INVALID_INODE)) by (unfold nr_ok, INVALID_INODE in *; lia).
    rewrite Hrw, Hcr. cbn [andb negb]. cbv iota. by rewrite (bind_run _ _ _ _ _ R1).
  - destruct G as [B D Hp I O C W]. rewrite (lk_inodes _ _ L) in *. rewrite (looked_rdisk _ _ L) in *.
    rewrite (ob_sb _ _ (lk_buf _ _ L)) in W. split; try done. eapply only_buf_trans; [apply L|done].
Qed.

Lemma open_refused drv st pc msg l fd f : open_request st pc msg l fd f -> fs_wf st ->
  (if dir_map st l =? INVALID_INODE then has (FLAGS msg) O_CREAT = false
   else has (FLAGS msg) O_RDWR && negb (has (FLAGS msg) O_CREAT && negb (has (FLAGS msg) O_TRUNC)) = false) ->
  exists st', do_open drv pc msg st = Ok (-1) st' /\ looked st st'.
Proof.
  intros Hreq [Hinv Hd Hclean Hio Hfd] Hcase. destruct (or_name _ _ _ _ _ _ Hreq) as [Hl Hc].
  destruct (path_lookup_map st _ _ (or_path _ _ _ _ _ _ Hreq) Hl) as [Elook Hpok].
  destruct (search_file_run st _ Hinv Hd Hpok) as (st0 & R0 & L). rewrite Elook in R0.
  exists st0. split; [|done].
  assert (Hopen : open_inode (request_path st pc msg) (FLAGS msg) st = Ok None st0).
  { rewrite (open_inode_found st _ (FLAGS msg) _ _ Hinv R0 L).
    destruct (dir_map st l =? INVALID_INODE); by rewrite Hcase. }
  by rewrite (do_open_start drv _ _ _ _ _ _ _ _ Hreq Hopen).
Qed.

(** the file is open: the state after the whole request *)
Lemma open_found_run drv st pc msg l fd f st1 p : open_request st pc msg l fd f -> fs_wf st -> bytes_ok (rdisk st) ->
  file_on_disk st (dir_map st l) ->
  open_inode (request_path st pc msg) (FLAGS msg) st = Ok (Some (dir_map st l, p)) st1 ->
  got_inode st st1 (dir_map st l) p ->
  exists st2, do_open drv pc msg st = Ok fd (opened pc fd f p (FLAGS msg) st2) /\
    fs_wf (opened pc fd f p (FLAGS msg) st2) /\ is_inode (inode_table st2) ROOT_DEV (dir_map st l) p /\
    i_cnt (inode_table st2 p) = i_cnt (inode_table st p) + 1 /\
    i_size (inode_table st2 p) =
      (if has (FLAGS msg) O_TRUNC then 0 else ld32 (rdisk st) (inode_pos (super_blocks st 0) (dir_map st l) + 4)) /\
    same_dir st st2.
Proof.
  intros Hreq [Hinv Hd Hclean Hio Hfd] Hbd Hfile Hopen Hg.
  destruct (got_inode_wf st st1 _ p Hinv Hd Hio Hfile Hg) as (Hi1 & S1 & Hio1 & Hne & Hcnt & Hmode).
  destruct Hg as [B1 D1 Hp I1 O1 _ W1]. pose proof I1 as (Hl1 & Hdev1 & Hnum1).
  pose proof W1 as W1'. rewrite <- (ob_sb _ _ B1), <- D1 in W1'.
  assert (Hw : words_ok (inode_table st1 p)) by (eapply words_on_disk; [by rewrite D1|exact W1']).
  destruct (truncate_run st1 p (FLAGS msg) Hi1 Hp Hl1 Hw) as (st2 & R2 & Hi2 & B2 & T2 & O2).
  set (x := if has (FLAGS msg) O_TRUNC then _ else _) in T2.
  assert (Hx : i_dev x = ROOT_DEV /\ i_num x = dir_map st l /\ i_cnt x = i_cnt (inode_table st1 p) /\ i_mode x = I_REGULAR /\
    i_size x = if has (FLAGS msg) O_TRUNC then 0 else ld32 (rdisk st) (inode_pos (super_blocks st 0) (dir_map st l) + 4)).
  { unfold disk_words, disk_inode in W1. injection W1 as _ W1 _ _.
    unfold x. destruct (has (FLAGS msg) O_TRUNC); cbn; done. }
  destruct Hx as (X1 & X2 & X3 & X4 & X5).
  assert (Hd1 : dir_ok st1) by exact (same_dir_ok st st1 Hd S1).
  destruct (inode_change st1 st2 p x) as [S2 Hio2]; try done; [by rewrite (ob_root _ _ B1)|congruence|].
  assert (Ep2 : inode_table st2 p = x) by (by rewrite T2, upd_eq).
  exists st2. unfold is_inode, live. rewrite Ep2. split_and!; try done.
  - eapply do_open_run; try done; [|by rewrite Ep2]. pose proof (of_nr _ _ Hfile) as (Hn & _). unfold nr_ok in Hn. lia.
  - apply (opened_wf st _ _ msg l); try done.
    + by eapply only_buf_trans.
    + by rewrite Ep2, X3.
    + intros q Hq. rewrite T2, upd_ne by done. by rewrite O1.
    + exact (same_dir_ok st1 st2 Hd1 S2).
    + exact (same_dir_clean st1 st2 Hd1 S2 (same_dir_clean st st1 Hd S1 Hclean)).
  - rewrite X3. by destruct I1.
  - by rewrite X3.
  - destruct S1 as [E1 E2 E3], S2 as [F1 F2 F3]. split; [congruence..|].
    intros a Ha. rewrite F3, E3 by (rewrite ?E2; done). done.
Qed.

(** C25: Opening a name, on the branches that do not create a file. A name that is not in the
    directory is refused with -1 without [O_CREAT]; one that is there is refused without
    [O_RDWR], and with [O_CREAT] unless [O_TRUNC] is given too; a refusal changes nothing but
    FS's buffer. Else the first free slot of the process comes to refer to a new descriptor at
    position 0 on the cached inode of the file, which has one reference more and, with
    [O_TRUNC], size 0; the directory and all invariants stay. *)
Theorem open_existing drv st pc msg l fd f : open_request st pc msg l fd f -> fs_wf st -> bytes_ok (rdisk st) ->
  (dir_map st l = 0 -> has (FLAGS msg) O_CREAT = false ->
     exists st', do_open drv pc msg st = Ok (-1) st' /\ looked st st') /\
  (dir_map st l <> 0 ->
     has (FLAGS msg) O_RDWR = false \/ has (FLAGS msg) O_CREAT && negb (has (FLAGS msg) O_TRUNC) = true ->
     exists st', do_open drv pc msg st = Ok (-1) st' /\ looked st st') /\
  (file_on_disk st (dir_map st l) ->
     has (FLAGS msg) O_RDWR = true -> has (FLAGS msg) O_CREAT && negb (has (FLAGS msg) O_TRUNC) = false ->
     exists st' p, do_open drv pc msg st = Ok fd st' /\ fs_wf st' /\
       filp (proc_table (kern st') pc) fd = Some f /\ fd_table st' f = mkFd (FLAGS msg) 0 1 (Some p) /\
       is_inode (inode_table st') ROOT_DEV (dir_map st l) p /\
       i_cnt (inode_table st' p) = i_cnt (inode_table st p) + 1 /\
       i_size (inode_table st' p) =
         (if has (FLAGS msg) O_TRUNC then 0 else ld32 (rdisk st) (inode_pos (super_blocks st 0) (dir_map st l) + 4)) /\
       forall l', dir_map st' l' = dir_map st l').
Proof.
  intros Hreq Hwf Hbd. split; [|split].
  - intros Hz Hn. eapply open_refused; [done..|]. by rewrite Hz.
  - intros Hz Hn. eapply open_refused; [done..|]. rewrite (proj2 (Z.eqb_neq _ INVALID_INODE) Hz).
    destruct Hn as [-> | ->]; [done|]. by rewrite andb_false_r.
  - intros Hfile Hrw Hcr. destruct (open_found st pc msg l fd f) as (st1 & p & R & G); try done.
    destruct (open_found_run drv st pc msg l fd f st1 p) as (st2 & R2 & W & I & C & S & D); try done.
    exists (opened pc fd f p (FLAGS msg) st2), p. rewrite opened_slot, opened_desc, opened_inodes.
    split_and!; try done; [apply I..|]. intros l'. rewrite opened_map. apply same_dir_map; [apply Hwf|done].
Qed.
