(* ===== verification/FsStat.v ===== *)
(** * [do_stat] (fs/misc.c)

    [do_stat] takes the inode of a file into the cache, reads it and gives it back: what is
    left is the answer in the caller's buffer. A cache entry that was not in use may hold the
    inode's words afterwards, with count 0; the invariants do not see it ([same_files]). *)
From S2P Require Import Prelude Const CLib Protect Proc Sys Fs FsOps FsLem FsRw FsRef Task FsMap FsDir FsCreate.

(** ** States with the same files *)

Record same_files (st st' : sys) : Prop := mkSameFiles {
  sf_kern : kern st' = set_memory (fmem st') (kern st);
  sf_fd : fd_table st' = fd_table st;
  sf_sb : super_blocks st' = super_blocks st;
  sf_root : root_inode st' = root_inode st;
  sf_disk : rdisk st' = rdisk st;
  sf_cnt : forall q, i_cnt (inode_table st' q) = i_cnt (inode_table st q);
  sf_live : forall q, live (inode_table st) q -> inode_table st' q = inode_table st q }.

Lemma same_files_refl st : same_files st st.
Proof. split; try done. by destruct st as [[] ? ? ? ? ? ?]. Qed.
Lemma same_files_trans st1 st2 st3 : same_files st1 st2 -> same_files st2 st3 -> same_files st1 st3.
Proof.
  intros [A1 A2 A3 A4 A5 A6 A7] [B1 B2 B3 B4 B5 B6 B7]. split; try congruence.
  - by rewrite B1, A1.
  - intros q Hq. rewrite B7; [by apply A7|]. unfold live in *. by rewrite A6.
Qed.
Lemma same_files_mem st m : same_files st (with_mem m st).
Proof. by split. Qed.
Lemma same_files_looked st st' : looked st st' -> same_files st st'.
Proof.
  intros [[B1 B2 B3 B4 B5] I D _]. split; try done; [unfold rdisk; by rewrite D|by rewrite I..].
Qed.
#[export] Hint Resolve same_files_refl same_files_trans same_files_mem same_files_looked : bazinga.

Section same_files.
Context (st st' : sys) (Hs : same_files st st').

Lemma same_files_live q : live (inode_table st') q <-> live (inode_table st) q.
Proof. unfold live. by rewrite (sf_cnt _ _ Hs). Qed.
Lemma same_files_inode q dev nr : is_inode (inode_table st) dev nr q -> is_inode (inode_table st') dev nr q.
Proof. intros (H1 & H2 & H3). unfold is_inode. rewrite same_files_live, (sf_live _ _ Hs) by done. done. Qed.

Lemma same_files_dir : fs_inv st -> same_dir st st'.
Proof.
  intros Hinv. split; [|apply Hs|intros a _; by rewrite (sf_disk _ _ Hs)].
  unfold root_dir. rewrite (sf_root _ _ Hs). apply Hs, (fi_root _ Hinv).
Qed.
Lemma same_files_inv : fs_inv st -> fs_inv st'.
Proof.
  intros Hinv. split; rewrite ?(sf_sb _ _ Hs), ?(sf_root _ _ Hs).
  - apply (mounted_ext st); [apply Hs..|apply Hinv].
  - intros x Hx Hl%same_files_live. rewrite (sf_live _ _ Hs) by done. by apply Hinv.
  - intros x y Hx Hy Hlx%same_files_live Hly%same_files_live. rewrite !(sf_live _ _ Hs) by done. by apply Hinv.
  - intros x Hx Hl%same_files_live. rewrite (sf_live _ _ Hs), (sf_disk _ _ Hs) by done. by apply Hinv.
  - destruct (fi_root _ Hinv) as [H1 H2]. rewrite same_files_live, (sf_live _ _ Hs) by done. done.
Qed.
Lemma same_files_wf : fs_wf st -> fs_wf st'.
Proof.
  intros [Hinv Hd Hc [Z1 Z2] [F1 F2 F3]]. pose proof (same_files_dir Hinv) as Hsd. split.
  - by apply same_files_inv.
  - by apply (same_dir_ok st).
  - by apply (same_dir_clean st).
  - split; rewrite (sf_disk _ _ Hs); [done|]. intros x Hx Hl%same_files_live. rewrite (sf_live _ _ Hs) by done. by apply Z2.
  - unfold fd_ok. rewrite (sf_kern _ _ Hs), (sf_fd _ _ Hs), (sf_root _ _ Hs). split; [done..|].
    intros p Hp. rewrite (sf_cnt _ _ Hs). by apply F3.
Qed.
Lemma same_files_on_disk nr : file_on_disk st nr -> file_on_disk st' nr.
Proof.
  intros [H1 H2 H3 H4]. split; rewrite ?(sf_disk _ _ Hs), ?(sf_sb _ _ Hs); try done.
  destruct H4 as [(q & Hq & Hi)|(q & Hq & Hi)]; [left|right]; exists q; (split; [done|]).
  - by apply same_files_inode.
  - by rewrite same_files_live.
Qed.
End same_files.

(** ** The request *)

(** the inode of file [nr] on the disk *)
Definition disk_size (st : sys) (nr : Z) : Z := ld32 (rdisk st) (inode_pos (super_blocks st 0) nr + 4).

(** an inode that was taken and is given back *)
Lemma got_put st st1 nr p : fs_inv st -> got_inode st st1 nr p ->
  exists st2, put_inode p st1 = Ok tt st2 /\ same_files st st2 /\ only_buf st st2.
Proof.
  intros Hinv [B D Hp (Hl & Hdev & Hnum) O C W].
  assert (Hcnt : i_cnt (inode_table st1 p) = i_cnt (inode_table st p) + 1) by (destruct C as [[_ E1]|(_ & E1 & E2)]; [by rewrite E1|lia]).
  assert (Hpos : 0 < i_cnt (inode_table st1 p)).
  { destruct C as [[(Hlp & _) _]|(_ & _ & E2)]; [|lia]. destruct (fi_nr _ Hinv p Hp Hlp) as [H _]. rewrite Hcnt. lia. }
  unfold put_inode. rewrite (bind_run _ _ _ _ _ (geti_run p st1 Hp)), bind_assert by (by apply Z.ltb_lt).
  rewrite modi_run by done. eexists. split; [reflexivity|]. set (st2 := set_inode_table _ st1).
  assert (B2 : only_buf st st2) by (eapply only_buf_trans; [exact B|apply only_buf_inodes]).
  split; [|exact B2]. destruct B2 as [B1 B2 B3 B4 B5]. split; try done.
  - intros q. cbn [inode_table set_inode_table st2]. rewrite upd_case. case_decide as Eq; [rewrite Eq; change (i_cnt (inode_table st1 p) - 1 = i_cnt (inode_table st p)); lia|by rewrite O].
  - intros q Hq. cbn [inode_table set_inode_table st2]. rewrite upd_case. case_decide as E; [subst q|by apply O].
    destruct C as [[_ ->]|(_ & E1 & _)]; [|by unfold live in Hq]. destruct (inode_table st p) as [b1 b2 b3 b4 b5 b6 b7]. unfold set_i_cnt.
    cbn [i_cnt i_mode i_size i_start_sect i_nr_sects i_dev i_num]. by rewrite Z.add_simpl_r.
Qed.

(** a request of process [pc] that names the file [l], the answer at [d] *)
Record stat_request (st : sys) (pc : Z) (msg : MESSAGE) (l : list Z) (d : Z) : Prop := mkStatReq {
  sr_proc : 0 <= pc < NR_ALL /\ source msg = pc;
  sr_flat : flat (kern st);
  sr_len : 0 <= NAME_LEN msg < MAX_PATH;
  sr_path : strip_path (request_path st pc msg) = Some l;
  sr_name : name_ok l;
  sr_buf : d = la_of (kern st) pc (BUF msg) }.

Lemma do_stat_search st pc msg l d : stat_request st pc msg l d -> fs_inv st -> dir_ok st ->
  exists st0, looked st st0 /\ do_stat msg st =
    if dir_map st l =? 0 then Ok (-1) st0
    else (p ← get_inode ROOT_DEV (dir_map st l); x ← geti p;
          let rdev := if is_special (i_mode x) then i_start_sect x else NO_DEV in
          put_inode p ;; la ← lift (va2la pc (BUF msg));
          modm (put_words la [i_dev x; i_num x; i_mode x; rdev; i_size x]) ;; ret 0) st0.
Proof.
  intros [[Hpc Esrc] Hflat Hlen Hpath Hname _] Hinv Hd. unfold do_stat. rewrite Esrc, bind_assert by (apply Z.ltb_lt; lia).
  rewrite (bind_run _ _ _ _ _ (fetch_path_run pc (PATHNAME msg) (NAME_LEN msg) st Hpc Hflat Hlen)).
  fold (request_path st pc msg). destruct (path_lookup_map st _ _ Hpath Hname) as [Elook Hpok].
  destruct (search_file_run st _ Hinv Hd Hpok) as (st0 & R0 & L). rewrite Elook in R0. exists st0. split; [done|].
  rewrite (bind_run _ _ _ _ _ R0), Hpath. destruct (dir_map st l =? 0); [done|].
  rewrite (bind_run get _ st0 st0 st0 eq_refl). pose proof (looked_inv st st0 L Hinv) as Hi0.
  pose proof (mnt_root _ (fi_mnt _ Hi0)) as Hr. destruct (fi_root _ Hi0) as [Hl _].
  destruct (fi_nr _ Hi0 _ Hr Hl) as (_ & Hdev & _). by rewrite (bind_run _ _ _ _ _ (geti_run _ st0 Hr)), Hdev.
Qed.

Lemma do_stat_run st pc msg l d : stat_request st pc msg l d -> fs_wf st -> file_on_disk st (dir_map st l) ->
  exists st' m, do_stat msg st = Ok 0 st' /\ same_files st st' /\ agree_out fsbuf FSBUF_SIZE (fmem st) m /\
    fmem st' = put_words d [ROOT_DEV; dir_map st l; I_REGULAR; NO_DEV; disk_size st (dir_map st l)] m.
Proof.
  intros Hreq Hwf Hfile. destruct (do_stat_search st pc msg l d Hreq) as (st0 & L & R); [apply Hwf..|].
  pose proof (of_nr _ _ Hfile) as (Hn & _). rewrite (proj2 (Z.eqb_neq _ 0)) in R by (unfold nr_ok in Hn; lia).
  rewrite R. clear R. pose proof (looked_inv st st0 L (wf_inv _ Hwf)) as Hi0.
  destruct (get_inode_run st0 (dir_map st l)) as (p & st1 & R1 & G); [done|done|rewrite (lk_inodes _ _ L); apply Hfile|].
  rewrite (bind_run _ _ _ _ _ R1). destruct (got_put st0 st1 _ p Hi0 G) as (st2 & R2 & S2 & B2).
  destruct G as [B D Hp (_ & Hdev & Hnum) O C W]. rewrite (bind_run _ _ _ _ _ (geti_run p st1 Hp)). cbv zeta.
  rewrite (bind_run _ _ _ _ _ R2). unfold disk_words, disk_inode in W. injection W as W1 W2 W3 W4.
  rewrite Hdev, Hnum, W1, W2, (looked_rdisk _ _ L), (ob_sb _ _ (lk_buf _ _ L)), (of_mode _ _ Hfile).
  change (is_special I_REGULAR) with false. cbv iota. fold (disk_size st (dir_map st l)).
  pose proof (only_buf_trans _ _ _ (lk_buf _ _ L) B2) as B02.
  assert (Hf2 : flat (kern st2)) by (rewrite (ob_kern _ _ B02); apply (sr_flat _ _ _ _ _ Hreq)).
  rewrite (bind_run _ _ _ _ _ (lift_va2la pc _ st2 (proj1 (sr_proc _ _ _ _ _ Hreq)) Hf2)), bind_modm.
  assert (la_of (kern st2) pc (BUF msg) = d) as -> by (rewrite (ob_kern _ _ B02), (sr_buf _ _ _ _ _ Hreq); done).
  eexists _, (fmem st2). split; [reflexivity|]. split; [|split; [apply B02|done]].
  eapply same_files_trans; [by eapply same_files_looked|]. eapply same_files_trans; [exact S2|apply same_files_mem].
Qed.

(** C26: [stat] reports a file and leaves everything as it was. A name that is not in the
    directory is answered with -1, and only FS's buffer has changed. For a regular file the
    answer is 0 and the five words at the caller's buffer are the device, the inode number, the
    mode, [NO_DEV] and the size on the disk; besides these words and FS's buffer no memory
    changes, and the directory, the reference counts, the cached inodes in use, the open files
    and the disk are the same: the inode the request takes into the cache is given back. *)
Theorem stat_spec st pc msg l d : stat_request st pc msg l d -> fs_wf st ->
  (dir_map st l = 0 -> exists st', do_stat msg st = Ok (-1) st' /\ looked st st') /\
  (file_on_disk st (dir_map st l) -> bytes_ok (rdisk st) ->
     exists st', do_stat msg st = Ok 0 st' /\ same_files st st' /\ fs_wf st' /\ same_dir st st' /\
       (forall k v, [ROOT_DEV; dir_map st l; I_REGULAR; NO_DEV; disk_size st (dir_map st l)] !! k = Some v ->
          ld32 (fmem st') (d + 4 * Z.of_nat k) = v) /\
       (forall a, a < d \/ d + 20 <= a -> a < fsbuf \/ fsbuf + FSBUF_SIZE <= a -> fmem st' a = fmem st a)).
Proof.
  intros Hreq Hwf. split.
  - intros Hz. destruct (do_stat_search st pc msg l d Hreq) as (st0 & L & R); [apply Hwf..|]. exists st0. by rewrite R, Hz.
  - intros Hfile Hb. destruct (do_stat_run st pc msg l d Hreq Hwf Hfile) as (st' & m & R & S & A & E). exists st'.
    split; [done|]. split; [done|]. split; [by eapply same_files_wf|]. split; [apply same_files_dir; [done|apply Hwf]|].
    pose proof (of_nr _ _ Hfile) as (Hn & Hn' & _). unfold nr_ok in Hn. split.
    + intros k v Hk. rewrite E. apply put_words_at; [done|].
      pose proof (ld32_range (rdisk st) (inode_pos (super_blocks st 0) (dir_map st l) + 4) Hb) as Hr. fold (disk_size st (dir_map st l)) in Hr.
      assert (Hw : Forall word [ROOT_DEV; dir_map st l; I_REGULAR; NO_DEV; disk_size st (dir_map st l)]).
      { assert (C : word ROOT_DEV /\ word I_REGULAR /\ word NO_DEV) by (split_and!; by vm_compute). destruct C as (C1 & C2 & C3).
        repeat apply Forall_cons_2; try done. unfold word. lia. }
      by eapply Forall_lookup_1.
    + intros a H1 H2. rewrite E, put_words_out by (cbn [length]; lia). by apply A.
Qed.
