(* ===== verification/FsUnlink.v ===== *)
(** * Deleting files (fs/link.c: do_unlink)

    [do_unlink] clears the bit of the inode and the bits of its sectors in the maps,
    clears the inode and then the directory entry. The bits of the sectors may span
    sectors of the map: the code works on the one in the buffer and writes it back
    when it goes on to the next, which is described here by the disk as it will be
    once the buffer is written back. *)
From Stdlib Require Import FunctionalExtensionality.
From S2P Require Import Prelude Const CLib Protect Proc Sys Fs FsOps FsLem FsRw FsRef Task FsMap FsDir FsCreate.

(** ** The disk with the buffer written back *)

(** the disk once the buffer is back in sector [s] *)
Definition vdisk (s : Z) (st : sys) : mem := rdisk (wr_state s st).

(** the buffer and the disk may have changed, nothing else *)
Record touched (st st' : sys) : Prop := mkTouched {
  tc_buf : only_buf st st';
  tc_inodes : inode_table st' = inode_table st }.
Lemma touched_refl st : touched st st.
Proof. split; [apply only_buf_refl|done]. Qed.
Lemma touched_trans st1 st2 st3 : touched st1 st2 -> touched st2 st3 -> touched st1 st3.
Proof. intros [A1 A2] [B1 B2]. split; [by eapply only_buf_trans|congruence]. Qed.
Lemma touched_rd n st : touched st (rd_state n st).
Proof. split; [apply only_buf_rd|done]. Qed.
Lemma touched_wr n st : touched st (wr_state n st).
Proof. split; [apply only_buf_wr|done]. Qed.

Lemma vdisk_at s st j : 0 <= j < SECTOR_SIZE -> vdisk s st (s * SECTOR_SIZE + j) = fmem st (fsbuf + j).
Proof. apply wr_state_disk. Qed.
Lemma vdisk_other s st a : a < s * SECTOR_SIZE \/ (s + 1) * SECTOR_SIZE <= a -> vdisk s st a = rdisk st a.
Proof. apply wr_state_other. Qed.
Lemma vdisk_rd s st : vdisk s (rd_state s st) = rdisk st.
Proof.
  extensionality a. destruct (decide (s * SECTOR_SIZE <= a < (s + 1) * SECTOR_SIZE)) as [Hin|Hout].
  - replace a with (s * SECTOR_SIZE + (a - s * SECTOR_SIZE)) by lia.
    rewrite vdisk_at, rd_state_buf by (autounfold with consts in *; lia). done.
  - rewrite vdisk_other by lia. done.
Qed.

Lemma getb_run s j st : 0 <= j < SECTOR_SIZE -> getb j st = Ok (vdisk s st (s * SECTOR_SIZE + j)) st.
Proof. intros Hj. by rewrite vdisk_at. Qed.
Lemma setb_run s j v st : 0 <= j < SECTOR_SIZE ->
  exists st', setb j v st = Ok tt st' /\ touched st st' /\ vdisk s st' = upd (vdisk s st) (s * SECTOR_SIZE + j) (u8 v).
Proof.
  intros Hj. exists (with_mem (upd (fmem st) (fsbuf + j) (u8 v)) st). split; [done|]. split; [split; [|done]|].
  - apply only_buf_mem. intros a Ha. apply upd_ne. unfold fsbuf, FSBUF_SIZE in *. autounfold with consts in *. lia.
  - extensionality a. destruct (decide (s * SECTOR_SIZE <= a < (s + 1) * SECTOR_SIZE)) as [Hin|Hout].
    + replace a with (s * SECTOR_SIZE + (a - s * SECTOR_SIZE)) by lia.
      rewrite vdisk_at, fmem_with_mem, !upd_case by (autounfold with consts in *; lia).
      repeat case_decide; first [lia | done | rewrite vdisk_at by (autounfold with consts in *; lia); done].
    + rewrite vdisk_other, upd_ne, vdisk_other by (autounfold with consts in *; lia). done.
Qed.

(** the next sector of the map, at the end of this one *)
Lemma next_sect_run i s st : sect_ok s -> sect_ok (s + 1) -> 0 <= i <= SECTOR_SIZE ->
  exists i' s' st', next_sect ROOT_DEV i s st = Ok (i', s') st' /\ touched st st' /\
    vdisk s' st' = vdisk s st /\ s' * SECTOR_SIZE + i' = s * SECTOR_SIZE + i /\ 0 <= i' < SECTOR_SIZE.
Proof.
  intros Hs Hs1 Hi. unfold next_sect. destruct (i =? SECTOR_SIZE) eqn:E; zbool.
  - rewrite (bind_run _ _ _ _ _ (WR_SECT_run s st Hs)), (bind_run _ _ _ _ _ (RD_SECT_run (s + 1) _ Hs1)).
    exists 0, (s + 1), (rd_state (s + 1) (wr_state s st)). split; [done|].
    split; [eapply touched_trans; [apply touched_wr|apply touched_rd]|]. split; [apply vdisk_rd|].
    split; [lia|]. autounfold with consts. lia.
  - exists i, s, st. split; [done|]. split; [apply touched_refl|]. split; [done|]. lia.
Qed.

(** ** Clearing a run of bits *)

(** bits [lo .. hi - 1] of the map at byte [A] are cleared *)
Record bits_cleared (A lo hi : Z) (d d' : mem) : Prop := mkCleared {
  bc_bytes : bytes_ok d';
  bc_bits : forall k, 0 <= k -> mbit d' A k = mbit d A k && negb ((lo <=? k) && (k <? hi));
  bc_out : forall a, a < A + lo / 8 \/ A + (hi + 7) / 8 <= a -> d' a = d a }.

Lemma bits_cleared_refl A lo d : bytes_ok d -> bits_cleared A lo lo d d.
Proof.
  intros Hb. split; try done. intros k Hk. destruct ((lo <=? k) && (k <? lo)) eqn:E; [|by rewrite andb_true_r]. zbool. lia.
Qed.
Lemma bits_cleared_trans A lo mid hi d d1 d2 : lo <= mid <= hi ->
  bits_cleared A lo mid d d1 -> bits_cleared A mid hi d1 d2 -> bits_cleared A lo hi d d2.
Proof.
  intros Hm [A1 A2 A3] [B1 B2 B3]. split; [done| |].
  - intros k Hk. rewrite B2, A2, <- andb_assoc, <- negb_orb by done. f_equal. f_equal.
    apply eq_true_iff_eq. rewrite orb_true_iff, !andb_true_iff, !Z.leb_le, !Z.ltb_lt. lia.
  - intros a Ha. rewrite B3, A3; [done|..]; Z.div_mod_to_equations; lia.
Qed.

(** one byte *)
Lemma bits_cleared_byte A q e e' d v : bytes_ok d -> 0 <= q -> 0 <= e < e' -> e' <= 8 -> byte_ok v ->
  (forall t, 0 <= t < 8 -> Z.testbit v t = Z.testbit (d (A + q)) t && negb ((e <=? t) && (t <? e'))) ->
  bits_cleared A (8 * q + e) (8 * q + e') d (upd d (A + q) v).
Proof.
  intros Hb Hq He He' Hv Ht. split.
  - intros a. rewrite upd_case. case_decide; [done|apply Hb].
  - intros k Hk. unfold mbit. rewrite upd_case. case_decide as E.
    + assert (Eq : k = 8 * q + k `mod` 8) by (Z.div_mod_to_equations; lia). pose proof (Z.mod_pos_bound k 8 ltac:(lia)).
      rewrite Ht, E by done. f_equal. f_equal. apply eq_true_iff_eq. rewrite !andb_true_iff, !Z.leb_le, !Z.ltb_lt. lia.
    + destruct ((8 * q + e <=? k) && (k <? 8 * q + e')) eqn:E'; [|by rewrite andb_true_r]. zbool. exfalso. apply E. Z.div_mod_to_equations. lia.
  - intros a Ha. apply upd_ne. Z.div_mod_to_equations. lia.
Qed.

Lemma land_byte v w : byte_ok v -> byte_ok (Z.land v w).
Proof.
  intros [H0 H]%byte_ok_bits. apply byte_ok_bits. split; [apply Z.land_nonneg; by left|].
  intros t Ht. by rewrite Z.land_spec, H.
Qed.
Lemma clear_bit_spec v i t : 0 <= i -> 0 <= t ->
  Z.testbit (Z.land v (Z.lnot (Z.shiftl 1 i))) t = Z.testbit v t && negb (t =? i).
Proof.
  intros Hi Ht. rewrite Z.land_spec, Z.lnot_spec by done. f_equal. f_equal.
  pose proof (set_bit_spec 0 i t Hi Ht) as E. by rewrite Z.lor_0_l, Z.bits_0 in E.
Qed.
Lemma high_mask_spec v n t : 0 <= n -> 0 <= t ->
  Z.testbit (Z.land v (Z.shiftl (-1) n)) t = Z.testbit v t && (n <=? t).
Proof.
  intros Hn Ht. rewrite Z.land_spec, Z.shiftl_spec by done. f_equal. destruct (n <=? t) eqn:E; zbool.
  - apply Z.bits_m1. lia.
  - apply Z.testbit_neg_r. lia.
Qed.

Section clear.
Context (A : Z).

(** where byte [q] of the map lies *)
Definition at_byte (s j q : Z) : Prop := s * SECTOR_SIZE + j = A + q /\ 0 <= j < SECTOR_SIZE /\ 0 <= q.

Lemma clear_bit_run s j q i st : at_byte s j q -> 0 <= i < 8 -> bytes_ok (vdisk s st) ->
  mbit (vdisk s st) A (8 * q + i) = true ->
  exists st', clear_bit j i st = Ok tt st' /\ touched st st' /\
    bits_cleared A (8 * q + i) (8 * q + i + 1) (vdisk s st) (vdisk s st').
Proof.
  intros (Hpos & Hj & Hq) Hi Hb Hset. rewrite mbit_byte in Hset by done. unfold clear_bit.
  rewrite (bind_run _ _ _ _ _ (getb_run s j st Hj)), Hpos.
  rewrite bind_assert by (rewrite shiftl_1_bit, Hset by lia; done).
  destruct (setb_run s j (Z.land (vdisk s st (A + q)) (Z.lnot (Z.shiftl 1 i))) st Hj) as (st' & R & T & V).
  exists st'. split; [done|]. split; [done|]. rewrite V, Hpos.
  rewrite u8_id by (apply (land_byte (vdisk s st (A + q))), Hb). rewrite <- Z.add_assoc.
  apply bits_cleared_byte; try done; try lia; [apply land_byte, Hb|].
  intros t Ht. rewrite clear_bit_spec by lia. f_equal. f_equal. apply eq_true_iff_eq.
  rewrite andb_true_iff, Z.leb_le, Z.ltb_lt, Z.eqb_eq. lia.
Qed.

(** the first byte *)
Lemma unlink_first_run s j q : at_byte s j q -> forall n i left st, 0 <= i -> i + Z.of_nat n >= 8 -> i <= 8 -> 8 - i <= left ->
  bytes_ok (vdisk s st) -> (forall t, i <= t < 8 -> mbit (vdisk s st) A (8 * q + t) = true) ->
  exists st', unlink_first n j i left st = Ok (left - (8 - i)) st' /\ touched st st' /\
    bits_cleared A (8 * q + i) (8 * q + 8) (vdisk s st) (vdisk s st').
Proof.
  intros Hat. induction n as [|n IH]; intros i left st Hi Hn Hi8 Hleft Hb Hset.
  { assert (i = 8) as -> by lia. exists st. split; [simpl; unfold ret; f_equal; lia|]. split; [apply touched_refl|].
    by apply bits_cleared_refl. }
  cbn [unlink_first]. destruct (decide (i = 8)) as [->|Hne].
  { exists st. split; [simpl; unfold ret; f_equal; lia|]. split; [apply touched_refl|]. by apply bits_cleared_refl. }
  rewrite (proj2 (Z.ltb_lt i 8)), (proj2 (Z.ltb_lt 0 left)) by lia. simpl.
  destruct (clear_bit_run s j q i st) as (st1 & R1 & T1 & C1); [done|lia|done|apply Hset; lia|].
  destruct (IH (i + 1) (left - 1) st1) as (st2 & R2 & T2 & C2); try lia; [apply C1| |].
  { intros t Ht. rewrite (bc_bits _ _ _ _ _ C1), Hset by (destruct Hat; lia).
    rewrite (proj2 (Z.ltb_ge (8 * q + t) _)) by lia. by rewrite andb_false_r. }
  exists st2. rewrite (bind_run _ _ _ _ _ R1), R2. split; [f_equal; lia|]. split; [by eapply touched_trans|].
  eapply bits_cleared_trans; [|exact C1|]; [lia|]. by rewrite <- Z.add_assoc.
Qed.

(** the whole bytes, over the sectors of the map *)
Lemma unlink_bytes_run : forall n i q left s st, s * SECTOR_SIZE + i = A + q -> 0 <= i <= SECTOR_SIZE -> 0 <= q ->
  sect_ok s -> sect_ok (s + Z.of_nat n + 1) -> 8 * Z.of_nat n <= left -> bytes_ok (vdisk s st) ->
  (forall k, 8 * q <= k < 8 * (q + Z.of_nat n) -> mbit (vdisk s st) A k = true) ->
  exists st' i' s', unlink_bytes n ROOT_DEV i left s st = Ok (i', left - 8 * Z.of_nat n, s') st' /\ touched st st' /\
    s' * SECTOR_SIZE + i' = A + q + Z.of_nat n /\ 0 <= i' <= SECTOR_SIZE /\ s <= s' <= s + Z.of_nat n /\
    bits_cleared A (8 * q) (8 * (q + Z.of_nat n)) (vdisk s st) (vdisk s' st').
Proof.
  induction n as [|n IH]; intros i q left s st Hpos Hi Hq Hs Hs1 Hleft Hb Hset.
  { exists st, i, s. split; [by replace (left - 8 * Z.of_nat 0) with left by lia|].
    split; [apply touched_refl|]. split; [lia|]. split; [done|].
    split; [lia|]. rewrite Z.add_0_r. by apply bits_cleared_refl. }
  cbn [unlink_bytes]. rewrite (proj2 (Z.ltb_lt 0 left)) by lia.
  destruct (next_sect_run i s st) as (i1 & s1 & st1 & R1 & T1 & V1 & P1 & H1); [done|unfold sect_ok in *; lia|done|].
  assert (Hs' : s <= s1 <= s + 1) by (autounfold with consts in *; lia).
  rewrite (bind_run _ _ _ _ _ R1), (bind_run _ _ _ _ _ (getb_run s1 i1 st1 H1)), P1, Hpos, V1.
  assert (E255 : vdisk s st (A + q) = 255).
  { apply byte_ext; [apply Hb|unfold byte_ok; lia|]. intros t Ht. rewrite (byte_full 255) by (unfold byte_ok; lia).
    rewrite <- mbit_byte by done. apply Hset. lia. }
  rewrite bind_assert by (by rewrite E255).
  destruct (setb_run s1 i1 0 st1 H1) as (st2 & R2 & T2 & V2). rewrite (bind_run _ _ _ _ _ R2).
  rewrite V1, P1, Hpos in V2. change (u8 0) with 0 in V2.
  assert (C : bits_cleared A (8 * q + 0) (8 * q + 8) (vdisk s st) (vdisk s1 st2)).
  { rewrite V2. apply bits_cleared_byte; try done; try lia. intros t Ht. rewrite Z.bits_0.
    rewrite (proj2 (Z.leb_le 0 t)), (proj2 (Z.ltb_lt t 8)) by lia. by rewrite andb_false_r. }
  rewrite Z.add_0_r in C. replace (8 * q + 8) with (8 * (q + 1)) in C by lia.
  destruct (IH (i1 + 1) (q + 1) (left - 8) s1 st2) as (st3 & i3 & s3 & R3 & T3 & P3 & H3 & Hs3 & C3);
    try lia; [unfold sect_ok in *; lia|unfold sect_ok in *; lia|apply C| |].
  { intros k Hk. rewrite (bc_bits _ _ _ _ _ C), Hset by lia. rewrite (proj2 (Z.ltb_ge k _)) by lia. by rewrite andb_false_r. }
  exists st3, i3, s3. split; [rewrite R3; by replace (left - 8 - 8 * Z.of_nat n) with (left - 8 * Z.of_nat (S n)) by lia|].
  split; [eapply touched_trans; [|exact T3]; by eapply touched_trans|].
  split; [lia|]. split; [done|]. split; [lia|]. replace (q + Z.of_nat (S n)) with (q + 1 + Z.of_nat n) by lia.
  eapply bits_cleared_trans; [|exact C|exact C3]. lia.
Qed.
End clear.

(** ** The maps *)

Definition SMAP_POS : Z := SMAP_SECT * SECTOR_SIZE.
(** the first bit of the sectors of an inode *)
Definition smap_bit (st : sys) (x : inode) : Z := i_start_sect x - n_1st_sect (super_blocks st 0) + 1.

(** the sectors of [x] are marked, and the run does not end at the end of a byte *)
Record extent_ok (st : sys) (x : inode) : Prop := mkExtentOk {
  ex_start : 0 <= smap_bit st x;
  ex_len : 8 <= i_nr_sects x;
  ex_end : smap_bit st x + i_nr_sects x <= Z.of_nat (nr_bits st);
  ex_last : (smap_bit st x + i_nr_sects x) `mod` 8 <> 0;
  ex_set : forall k, smap_bit st x <= k < smap_bit st x + i_nr_sects x -> sbit SMAP_SECT st k = true }.

(** the last byte, which keeps its high bits *)
Lemma unlink_last_run A s i q r st : s * SECTOR_SIZE + i = A + q -> 0 <= i <= SECTOR_SIZE -> 0 <= q -> 0 < r < 8 ->
  0 <= s -> s + 1 < 4194304 -> bytes_ok (vdisk s st) -> mbit (vdisk s st) A (8 * q) = true ->
  exists st', (r1 ← next_sect ROOT_DEV i s;
      let '(i, sect_beg) := r1 in
      assert_ (r <? 8) ;;
      v ← getb i;
      assert_ (negb (Z.land v 1 =? 0)) ;;
      setb i (Z.land v (Z.shiftl (-1) r)) ;;
      WR_SECT ROOT_DEV sect_beg) st = Ok tt st' /\ touched st st' /\
    bits_cleared A (8 * q) (8 * q + r) (vdisk s st) (rdisk st').
Proof.
  intros Hpos Hi Hq Hr Hs Hs1 Hb Hbit.
  destruct (next_sect_run i s st) as (i4 & s4 & st4 & R4 & T4 & V4 & P4 & H4); [unfold sect_ok; lia..|done|].
  assert (Hs4 : sect_ok s4) by (unfold sect_ok; autounfold with consts in *; lia).
  rewrite (bind_run _ _ _ _ _ R4). rewrite bind_assert by (apply Z.ltb_lt; lia).
  rewrite (bind_run _ _ _ _ _ (getb_run s4 i4 st4 H4)), P4, V4, Hpos. rewrite <- (Z.add_0_r (8 * q)), mbit_byte in Hbit by lia.
  rewrite bind_assert by (rewrite <- (Z.shiftl_0_r 1), shiftl_1_bit, Hbit by lia; done).
  destruct (setb_run s4 i4 (Z.land (vdisk s st (A + q)) (Z.shiftl (-1) r)) st4 H4) as (st5 & R5 & T5 & V5).
  rewrite (bind_run _ _ _ _ _ R5). rewrite P4, V4, Hpos in V5.
  rewrite u8_id in V5 by (apply (land_byte (vdisk s st (A + q))), Hb).
  exists (wr_state s4 st5). split; [apply WR_SECT_run; done|]. split.
  { eapply touched_trans; [exact T4|]. eapply touched_trans; [exact T5|apply touched_wr]. }
  change (rdisk (wr_state s4 st5)) with (vdisk s4 st5). rewrite V5. rewrite <- (Z.add_0_r (8 * q)) at 1.
  apply bits_cleared_byte; try done; try lia; [apply land_byte, Hb|].
  intros t Ht. rewrite high_mask_spec by lia. f_equal. rewrite (proj2 (Z.leb_le 0 t)) by lia. simpl.
  destruct (r <=? t) eqn:Er; zbool; [rewrite (proj2 (Z.ltb_ge t r)) by lia|rewrite (proj2 (Z.ltb_lt t r)) by lia]; done.
Qed.

(** a run of [n] bits from bit [e] of byte [q] on: the rest of that byte, [cnt] whole
    bytes and [r] bits of another *)
Lemma clear_extent_run A st s0 j0 q e cnt r n : at_byte A s0 j0 q -> 0 <= e < 8 -> 0 <= cnt ->
  n = 8 - e + 8 * cnt + r -> 0 < r < 8 -> 0 <= s0 -> s0 + cnt + 2 < 4194304 -> bytes_ok (rdisk st) ->
  (forall k, 8 * q + e <= k < 8 * q + e + n -> mbit (rdisk st) A k = true) ->
  exists st', (RD_SECT ROOT_DEV s0 ;;
      bits_left ← unlink_first 8 j0 e n;
      r1 ← unlink_bytes (Z.to_nat cnt) ROOT_DEV (j0 + 1) bits_left s0;
      let '(i, bits_left, sect_beg) := r1 in
      r2 ← next_sect ROOT_DEV i sect_beg;
      let '(i, sect_beg) := r2 in
      assert_ (bits_left <? 8) ;;
      v ← getb i;
      assert_ (negb (Z.land v 1 =? 0)) ;;
      setb i (Z.land v (Z.shiftl (-1) bits_left)) ;;
      WR_SECT ROOT_DEV sect_beg) st = Ok tt st' /\ touched st st' /\
    bits_cleared A (8 * q + e) (8 * q + e + n) (rdisk st) (rdisk st').
Proof.
  intros Hat He Hcnt Hn Hr Hs0 Hs Hb Hset. assert (Hsec : sect_ok s0) by (unfold sect_ok; lia).
  rewrite (bind_run _ _ _ _ _ (RD_SECT_run s0 st Hsec)). set (st1 := rd_state s0 st).
  assert (V1 : vdisk s0 st1 = rdisk st) by apply vdisk_rd.
  destruct (unlink_first_run A s0 j0 q Hat 8 e n st1) as (st2 & R2 & T2 & C2); rewrite ?V1 in *; try lia; try done.
  { intros t Ht. apply Hset. lia. }
  rewrite (bind_run _ _ _ _ _ R2). destruct Hat as (Hpos & Hj0 & Hq0). replace (8 * q + 8) with (8 * (q + 1)) in C2 by lia.
  assert (Hset2 : forall k, 8 * (q + 1) <= k < 8 * q + e + n -> mbit (vdisk s0 st2) A k = true).
  { intros k Hk. rewrite (bc_bits _ _ _ _ _ C2), Hset by lia. rewrite (proj2 (Z.ltb_ge k _)) by lia. by rewrite andb_false_r. }
  destruct (unlink_bytes_run A (Z.to_nat cnt) (j0 + 1) (q + 1) (n - (8 - e)) s0 st2)
    as (st3 & i3 & s3 & R3 & T3 & P3 & H3 & Hs3 & C3); rewrite ?Z2Nat.id by lia; try lia; try done.
  { unfold sect_ok. lia. } { apply C2. } { intros k Hk. apply Hset2. lia. }
  rewrite (bind_run _ _ _ _ _ R3). rewrite !Z2Nat.id in * by lia. replace (n - (8 - e) - 8 * cnt) with r by lia.
  destruct (unlink_last_run A s3 i3 (q + 1 + cnt) r st3) as (st4 & R4 & T4 & C4); try lia; try done.
  { apply C3. }
  { rewrite (bc_bits _ _ _ _ _ C3), Hset2 by lia. rewrite (proj2 (Z.ltb_ge _ (8 * (q + 1 + cnt)))) by lia. by rewrite andb_false_r. }
  exists st4. split; [exact R4|]. split.
  { eapply touched_trans; [apply touched_rd|]. eapply touched_trans; [exact T2|]. by eapply touched_trans. }
  replace (8 * q + e + n) with (8 * (q + 1 + cnt) + r) by lia.
  eapply bits_cleared_trans; [|exact C2|]; [lia|]. eapply bits_cleared_trans; [|exact C3|exact C4]. lia.
Qed.

Lemma unlink_smap_run st x : mounted st -> bytes_ok (rdisk st) -> extent_ok st x ->
  exists st', unlink_smap ROOT_DEV x st = Ok tt st' /\ touched st st' /\
    bits_cleared SMAP_POS (smap_bit st x) (smap_bit st x + i_nr_sects x) (rdisk st) (rdisk st').
Proof.
  intros Hm Hb [E1 E2 E3 E4 E5]. rewrite nr_bits_Z in E3 by done. pose proof (mnt_smap _ Hm) as Hsm.
  unfold unlink_smap. rewrite (bind_run _ _ _ _ _ (sb_of_run st Hm)). fold (smap_bit st x).
  revert E1 E3 E4 E5. generalize (smap_bit st x). intros b0 E1 E3 E4 E5. revert E2 E3 E4 E5. generalize (i_nr_sects x). intros n E2 E3 E4 E5.
  pose proof (Z.mod_pos_bound b0 8 ltac:(lia)) as He. pose proof (Z.div_pos b0 8 ltac:(lia) ltac:(lia)) as Hq.
  pose proof (Z.div_mod b0 8 ltac:(lia)) as Hb0. pose proof (Z.mod_pos_bound (b0 + n) 8 ltac:(lia)) as Hr.
  rewrite !(Z.rem_mod_nonneg b0), !(Z.quot_div_nonneg b0) by lia.
  rewrite (Z.quot_div_nonneg (n - _)), (Z.quot_div_nonneg (b0 / 8)), (Z.rem_mod_nonneg (b0 / 8)) by (done || lia).
  assert (Hn : 0 <= (n - (8 - b0 `mod` 8)) / 8 /\ n = 8 - b0 `mod` 8 + 8 * ((n - (8 - b0 `mod` 8)) / 8) + (b0 + n) `mod` 8)
    by (clear -He E2; Z.div_mod_to_equations; lia).
  destruct (clear_extent_run SMAP_POS st (1 + 1 + 1 + b0 / 8 / SECTOR_SIZE) ((b0 / 8) `mod` SECTOR_SIZE) (b0 / 8) (b0 `mod` 8)
    ((n - (8 - b0 `mod` 8)) / 8) ((b0 + n) `mod` 8) n) as (st' & R & T & C); try done; try lia.
  - unfold at_byte, SMAP_POS, SMAP_SECT. autounfold with consts. clear -Hq. Z.div_mod_to_equations. lia.
  - autounfold with consts. clear -Hq. Z.div_mod_to_equations. lia.
  - clear -E1 E2 E3 Hsm. autounfold with consts in *. Z.div_mod_to_equations. lia.
  - intros k Hk. apply E5. lia.
  - rewrite <- Hb0 in C. by exists st'.
Qed.

Lemma unlink_imap_run st nr : bytes_ok (rdisk st) -> 0 <= nr < 4096 -> mbit (rdisk st) IMAP_POS nr = true ->
  exists st', unlink_imap ROOT_DEV nr st = Ok tt st' /\ touched st st' /\
    bits_cleared IMAP_POS nr (nr + 1) (rdisk st) (rdisk st').
Proof.
  intros Hb Hnr Hset. unfold unlink_imap. assert (Hsec : sect_ok (1 + 1)) by (unfold sect_ok; lia).
  rewrite (bind_run _ _ _ _ _ (RD_SECT_run (1 + 1) st Hsec)). set (st1 := rd_state (1 + 1) st).
  assert (V1 : vdisk (1 + 1) st1 = rdisk st) by apply vdisk_rd.
  rewrite Z.quot_div_nonneg, (Z.rem_mod_nonneg nr) by lia.
  assert (Hq : 0 <= nr / 8 < SECTOR_SIZE) by (autounfold with consts; Z.div_mod_to_equations; lia).
  pose proof (Z.mod_pos_bound nr 8 ltac:(lia)) as He. pose proof (Z.div_mod nr 8 ltac:(lia)) as Hn.
  rewrite bind_assert by (apply Z.ltb_lt; lia). rewrite Z.rem_small by lia.
  destruct (clear_bit_run IMAP_POS (1 + 1) (nr / 8) (nr / 8) (nr `mod` 8) st1) as (st2 & R & T & C).
  - split; [done|]. lia.
  - done.
  - by rewrite V1.
  - by rewrite V1, <- Hn.
  - rewrite V1, <- Hn in C. rewrite (bind_run _ _ _ _ _ R). exists (wr_state (1 + 1) st2).
    split; [by apply WR_SECT_run|]. split; [|exact C].
    eapply touched_trans; [apply touched_rd|]. eapply touched_trans; [exact T|apply touched_wr].
Qed.

(** ** The directory entry *)

(** the entries in use among [n] from [i] on *)
Definition used (d : mem) (s : Z) (n : nat) (i : Z) : Z := nclear (is_hole d s) n i.

Lemma used_app d s a b i : used d s (a + b) i = used d s a i + used d s b (i + Z.of_nat a).
Proof. apply nclear_app. Qed.

Lemma unlink_sect_spec nr N mm : forall n j m ds, m <= N ->
  unlink_sect n j nr m N ds mm =
    let c := Z.to_nat (Z.min (Z.of_nat n) (N - m)) in
    match find_first (fun k => nr =? de_inode_nr mm k) c j with
    | Some k => (Some k, m + (k - j) + 1, ds + DIR_ENT_SIZE * nclear (fun k => de_inode_nr mm k =? 0) (Z.to_nat (k - j)) j)
    | None => (None, m + Z.of_nat c, ds + DIR_ENT_SIZE * nclear (fun k => de_inode_nr mm k =? 0) c j)
    end.
Proof.
  induction n as [|n IH]; intros j m ds Hm; cbv zeta.
  { cbn [unlink_sect]. rewrite Z.min_l by lia. simpl. rewrite Z.mul_0_r, !Z.add_0_r. done. }
  cbn [unlink_sect]. destruct (m <? N) eqn:E; zbool.
  - replace (Z.to_nat (Z.min (Z.of_nat (S n)) (N - m))) with (S (Z.to_nat (Z.min (Z.of_nat n) (N - (m + 1))))) by lia.
    cbn [find_first]. destruct (nr =? de_inode_nr mm j) eqn:Ej.
    { rewrite Z.sub_diag. simpl. rewrite Z.mul_0_r, !Z.add_0_r. done. }
    rewrite IH by lia. cbv zeta. set (c := Z.to_nat (Z.min (Z.of_nat n) (N - (m + 1)))).
    assert (Hone : (if negb (de_inode_nr mm j =? INVALID_INODE) then ds + DIR_ENT_SIZE else ds) =
      ds + DIR_ENT_SIZE * (if de_inode_nr mm j =? 0 then 0 else 1)).
    { change INVALID_INODE with 0. destruct (de_inode_nr mm j =? 0); simpl; lia. }
    rewrite Hone. destruct (find_first _ c (j + 1)) as [k|] eqn:Ek.
    + apply find_first_Some in Ek as (Hk & _). replace (Z.to_nat (k - j)) with (S (Z.to_nat (k - (j + 1)))) by lia.
      cbn [nclear]. f_equal; [f_equal; lia|]. rewrite Z.mul_add_distr_l. lia.
    + cbn [nclear]. f_equal; [f_equal; lia|]. rewrite Z.mul_add_distr_l. lia.
  - replace (Z.to_nat (Z.min (Z.of_nat (S n)) (N - m))) with 0%nat by lia. simpl. rewrite Z.mul_0_r, !Z.add_0_r. done.
Qed.

(** the buffer with entry [j] cleared *)
Definition clear_entry (j : Z) (m : mem) : mem :=
  memset (de_name j) 0 MAX_FILENAME_LEN (st32 (de_addr j) INVALID_INODE m).

Lemma unlink_entry_run s nr N : forall n i ds st k,
  0 <= s -> 0 <= i -> s + i + Z.of_nat n < 4194304 -> PER_SECT * i <= N -> N <= PER_SECT * (i + Z.of_nat n) ->
  find_first (fun k => nr =? ent_nr (rdisk st) s k) (Z.to_nat (N - PER_SECT * i)) (PER_SECT * i) = Some k ->
  exists st1, looked st st1 /\
    unlink_entry n i ROOT_DEV s nr (PER_SECT * i) N ds st =
      Ok (k + 1, ds + DIR_ENT_SIZE * used (rdisk st) s (Z.to_nat (k - PER_SECT * i)) (PER_SECT * i))
        (wr_state (s + k / PER_SECT) (with_mem (clear_entry (k `mod` PER_SECT) (fmem (rd_state (s + k / PER_SECT) st1)))
          (rd_state (s + k / PER_SECT) st1))).
Proof.
  assert (HP : PER_SECT = 32) by done.
  induction n as [|n IH]; intros i ds st k Hs Hi Hb Hm HN Hk.
  { exfalso. apply find_first_Some in Hk as (Hk & _). lia. }
  cbn [unlink_entry]. assert (Hsec : sect_ok (s + i)) by (unfold sect_ok; lia).
  rewrite !(bind_run _ _ _ _ _ (RD_SECT_run _ st Hsec)). set (st1 := rd_state (s + i) st).
  rewrite !(bind_run getmem _ st1 (fmem st1) st1 eq_refl). change (SECTOR_SIZE / DIR_ENT_SIZE) with PER_SECT.
  rewrite unlink_sect_spec by lia. cbv zeta. change (Z.of_nat (Z.to_nat PER_SECT)) with PER_SECT.
  set (c := Z.to_nat (Z.min PER_SECT (N - PER_SECT * i))). assert (Hc : Z.of_nat c <= PER_SECT) by lia.
  assert (Hu : forall q, (q <= c)%nat -> nclear (fun k => de_inode_nr (fmem st1) k =? 0) q 0 = used (rdisk st) s q (PER_SECT * i)).
  { intros q Hq. apply nclear_ext. intros t Ht. unfold is_hole, st1. by rewrite buf_ent_nr by lia. }
  rewrite (find_first_shift _ (fun k => nr =? ent_nr (rdisk st) s k) c 0 (PER_SECT * i))
    by (intros t Ht; unfold st1; rewrite buf_ent_nr by lia; done).
  replace (Z.to_nat (N - PER_SECT * i)) with (c + Z.to_nat (N - PER_SECT * i - Z.of_nat c))%nat in Hk by lia.
  rewrite find_first_app in Hk.
  destruct (find_first (fun k => nr =? ent_nr (rdisk st) s k) c (PER_SECT * i)) as [k0|] eqn:Ek.
  - injection Hk as ->. apply find_first_Some in Ek as (Hk & _). simpl. exists st. split; [apply looked_refl|].
    assert (Ei : k / PER_SECT = i) by (rewrite HP in *; Z.div_mod_to_equations; lia).
    rewrite (Z.mod_eq k PER_SECT), Ei by lia. fold st1. replace (k - PER_SECT * i + 0) with (k - PER_SECT * i) by lia.
    rewrite (bind_run _ _ _ _ _ (modm_run (st32 (de_addr (k - PER_SECT * i)) INVALID_INODE) st1)).
    rewrite (bind_run _ _ _ _ _ (modm_run (memset (de_name (k - PER_SECT * i)) 0 MAX_FILENAME_LEN) _)).
    rewrite (bind_run _ _ _ _ _ (WR_SECT_run (s + i) _ Hsec)).
    rewrite Z.sub_0_r, Hu by lia. unfold ret. by replace (PER_SECT * i + (k - PER_SECT * i) + 1) with (k + 1) by lia.
  - simpl. pose proof Hk as Hk'. apply find_first_Some in Hk' as (Hk' & _).
    assert (Hcc : Z.of_nat c = PER_SECT) by lia. rewrite Hcc, Hu by lia. rewrite Hcc in Hk, Hk'.
    replace (PER_SECT * i + PER_SECT) with (PER_SECT * (i + 1)) in * by lia.
    destruct (IH (i + 1) (ds + DIR_ENT_SIZE * used (rdisk st) s c (PER_SECT * i)) st1 k) as (st2 & L & R); try lia.
    { rewrite <- Hk. f_equal. lia. }
    exists st2. split; [eapply looked_trans; [apply looked_rd|done]|]. rewrite R. change (rdisk st1) with (rdisk st).
    replace (Z.to_nat (k - PER_SECT * i)) with (c + Z.to_nat (k - PER_SECT * (i + 1)))%nat by lia.
    rewrite used_app. replace (PER_SECT * i + Z.of_nat c) with (PER_SECT * (i + 1)) by lia.
    set (u1 := used _ _ c _). set (u2 := used _ _ _ _). by replace (ds + DIR_ENT_SIZE * (u1 + u2)) with (ds + DIR_ENT_SIZE * u1 + DIR_ENT_SIZE * u2) by lia.
Qed.

(** ** The directory without the entry *)

Lemma clear_entry_in j m i : 0 <= i < DIR_ENT_SIZE -> clear_entry j m (de_addr j + i) = 0.
Proof.
  intros Hi. unfold clear_entry, de_name. rewrite memset_spec. case_decide; [done|].
  autounfold with consts in *. assert (i = 0 \/ i = 1 \/ i = 2 \/ i = 3) as Hc by lia. unfold st32. rewrite !upd_case.
  destruct Hc as [-> | [-> | [-> | ->]]]; repeat case_decide; (done || lia).
Qed.
Lemma clear_entry_out j m a : a < de_addr j \/ de_addr j + DIR_ENT_SIZE <= a -> clear_entry j m a = m a.
Proof.
  intros Ha. unfold clear_entry, de_name. autounfold with consts in *. rewrite memset_spec. case_decide; [lia|].
  apply st32_out. lia.
Qed.

(** the sector is back on the disk with entry [k] cleared *)
Lemma clear_entry_disk st s k : 0 <= k ->
  let b := s + k / PER_SECT in
  let st' := wr_state b (with_mem (clear_entry (k `mod` PER_SECT) (fmem (rd_state b st))) (rd_state b st)) in
  touched st st' /\ (forall i, 0 <= i < DIR_ENT_SIZE -> rdisk st' (ent_pos s k + i) = 0) /\
  (forall a, a < ent_pos s k \/ ent_pos s k + DIR_ENT_SIZE <= a -> rdisk st' a = rdisk st a).
Proof.
  intros Hk b st'. pose proof (Z.mod_pos_bound k PER_SECT ltac:(done)) as Hj.
  assert (Hpos : ent_pos s k = b * SECTOR_SIZE + k `mod` PER_SECT * DIR_ENT_SIZE)
    by (unfold ent_pos, b; rewrite PER_SECT_32; autounfold with consts; Z.div_mod_to_equations; lia).
  pose proof PER_SECT_32 as HP. set (j := k `mod` PER_SECT) in *. split; [|split].
  - split; [|done]. eapply only_buf_trans; [apply only_buf_rd|]. eapply only_buf_trans; [|apply only_buf_wr].
    apply only_buf_mem. intros a Ha. apply clear_entry_out. unfold de_addr, fsbuf, FSBUF_SIZE in *. autounfold with consts in *. lia.
  - intros i Hi. rewrite Hpos, <- Z.add_assoc. unfold st'. rewrite wr_state_disk by (autounfold with consts in *; lia).
    rewrite fmem_with_mem. rewrite <- (clear_entry_in j (fmem (rd_state b st)) i Hi).
    f_equal. unfold de_addr. lia.
  - intros a Ha. destruct (decide (b * SECTOR_SIZE <= a < (b + 1) * SECTOR_SIZE)) as [Hin|Hout].
    + replace a with (b * SECTOR_SIZE + (a - b * SECTOR_SIZE)) by lia. unfold st'.
      rewrite wr_state_disk by (autounfold with consts in *; lia). rewrite fmem_with_mem.
      rewrite clear_entry_out by (unfold de_addr; autounfold with consts in *; lia).
      apply rd_state_buf. autounfold with consts in *. lia.
    + unfold st'. by rewrite wr_state_other by lia.
Qed.

(** entry [k] is gone; the directory has shrunk if it was the last one *)
Definition size_without (st : sys) (k : Z) : Z :=
  if k + 1 =? dir_len st then DIR_ENT_SIZE * used (rdisk st) (i_start_sect (root_dir st)) (Z.to_nat k) 0
  else i_size (root_dir st).
Record removed (st st' : sys) (k : Z) : Prop := mkRemoved {
  rv_inv : fs_inv st';
  rv_buf : only_buf st st';
  rv_inodes : inode_table st' = upd (inode_table st) (root_inode st) (set_i_size (size_without st k) (root_dir st));
  rv_zero : forall i, 0 <= i < DIR_ENT_SIZE -> rdisk st' (ent_pos (i_start_sect (root_dir st)) k + i) = 0;
  rv_other : forall a, a < ent_pos (i_start_sect (root_dir st)) k \/
      ent_pos (i_start_sect (root_dir st)) k + DIR_ENT_SIZE <= a ->
    a < inode_pos (super_blocks st 0) ROOT_INODE \/ inode_pos (super_blocks st 0) ROOT_INODE + 16 <= a ->
    rdisk st' a = rdisk st a }.

Lemma used_bounds d s n i : 0 <= used d s n i <= Z.of_nat n.
Proof. apply nclear_bounds. Qed.

(** the last part of [do_unlink] *)
Lemma unlink_dir_run st nr k : fs_inv st -> dir_ok st ->
  find_first (fun k => nr =? ent_nr (rdisk st) (i_start_sect (root_dir st)) k) (Z.to_nat (dir_len st)) 0 = Some k ->
  exists st', (d ← geti (root_inode st);
      let nr_dir := i_size d / DIR_ENT_SIZE in
      r ← unlink_entry (Z.to_nat (i_nr_sects d)) 0 ROOT_DEV (i_start_sect d) nr 0 nr_dir 0;
      let '(m, dir_size) := r in
      when (m =? nr_dir) (modi (root_inode st) (set_i_size dir_size) ;; sync_inode (root_inode st)) ;;
      ret 0) st = Ok 0 st' /\ removed st st' k.
Proof.
  intros Hinv Hd Hk. destruct (new_slot_bounds st Hd) as (_ & HN & Hsize). pose proof Hk as Hk'.
  apply find_first_Some in Hk' as (Hk' & _). pose proof (mnt_root _ (fi_mnt _ Hinv)) as Hr.
  destruct (fi_root _ Hinv) as [Hlive Hnum]. pose proof (mnt_n1 _ (fi_mnt _ Hinv)) as Hn1. pose proof (mnt_smap _ (fi_mnt _ Hinv)) as Hsm.
  pose proof (dk_start _ Hd) as D1. pose proof (dk_end _ Hd) as D2. pose proof (dk_size _ Hd) as D3.
  rewrite (bind_run _ _ _ _ _ (geti_run _ st Hr)). fold (root_dir st). fold (dir_len st).
  set (s := i_start_sect (root_dir st)) in *.
  destruct (unlink_entry_run s nr (dir_len st) (Z.to_nat (i_nr_sects (root_dir st))) 0 0 st k) as (st0 & L & R);
    rewrite ?Z.mul_0_r, ?Z.sub_0_r in *; try (autounfold with consts in *; lia); try done.
  cbv zeta.
  rewrite (bind_run _ _ _ _ _ R). clear R.
  destruct (clear_entry_disk st0 s k ltac:(lia)) as ([T1 T2] & Z1 & Z2). cbv zeta in *. set (st1 := wr_state _ _) in *.
  rewrite (lk_inodes _ _ L) in T2. rewrite (looked_rdisk _ _ L) in Z2.
  assert (B1 : only_buf st st1) by (eapply only_buf_trans; [apply L|done]).
  assert (Hu : 0 <= used (rdisk st) s (Z.to_nat k) 0 <= k) by (pose proof (used_bounds (rdisk st) s (Z.to_nat k) 0); lia).
  assert (Hlow : forall a, a < n_1st_sect (super_blocks st 0) * SECTOR_SIZE -> rdisk st1 a = rdisk st a).
  { intros a Ha. apply Z2. left. unfold ent_pos. autounfold with consts in *. lia. }
  assert (Hi1 : fs_inv st1) by (apply (fs_inv_data st); try done; apply B1).
  assert (Er : root_inode st1 = root_inode st) by apply B1.
  unfold when. destruct (k + 1 =? dir_len st) eqn:E.
  - destruct (update_sync st1 (root_inode st) (set_i_size (0 + DIR_ENT_SIZE * used (rdisk st) s (Z.to_nat k) 0)))
      as (st2 & R2 & I2 & B2 & T3 & O2); rewrite ?T2; try done.
    { apply (dir_size_words st); try done. rewrite PER_SECT_32 in *. autounfold with consts in *. lia. }
    rewrite T2 in T3, O2. fold (root_dir st) in T3, O2, Hnum. rewrite Hnum, (ob_sb _ _ B1) in O2.
    rewrite (bind_run _ _ _ _ _ R2). exists st2. split; [done|]. split; fold s; try done.
    + by eapply only_buf_trans.
    + unfold size_without. by rewrite E, T3.
    + intros i Hi. rewrite O2; [by apply Z1|]. right.
      rewrite (inode_pos_linear st) by (try apply Hinv; unfold nr_ok; autounfold with consts; lia).
      unfold ent_pos. autounfold with consts in *. lia.
    + intros a Ha Ha'. rewrite O2 by done. by apply Z2.
  - exists st1. split; [done|]. split; fold s; try done.
    + unfold size_without. rewrite E, set_i_size_same, T2. unfold root_dir. by rewrite upd_same.
    + intros a Ha _. by apply Z2.
Qed.

(** two strings with the same bytes *)
Lemma strcmp_inj m : bytes_ok m -> forall l l' p, chars_ok l -> chars_ok l' ->
  strcmp_at l m p = 0 -> strcmp_at l' m p = 0 -> l = l'.
Proof.
  intros Hm. assert (Hnz : forall c, 1 <= c < 256 -> i8 c <> 0) by (intros c Hc E; apply (i8_inj c 0) in E; lia).
  assert (Hz : forall p, 0 - i8 (m p) = 0 -> m p = 0) by (intros p E; apply i8_inj; [apply Hm|lia|change (i8 0) with 0; lia]).
  induction l as [|c l IH]; intros l' p Hl Hl'; simpl.
  - intros E%Hz. destruct l' as [|c' l']; [done|]. simpl. rewrite E. simpl. apply Forall_cons in Hl' as [Hc _].
    intros E'. by apply Hnz in E'.
  - apply Forall_cons in Hl as [Hc Hl]. destruct (m p =? 0) eqn:E0; [intros E'; by apply Hnz in E'|].
    destruct (i8 c =? i8 (m p)) eqn:Ec; zbool; [|lia]. intros H1. apply i8_inj in Ec; [|lia|apply Hm].
    destruct l' as [|c' l']; simpl; [intros E; apply Hz in E; lia|]. apply Forall_cons in Hl' as [Hc' Hl'].
    rewrite (proj2 (Z.eqb_neq _ 0) E0). destruct (i8 c' =? i8 (m p)) eqn:Ec'; zbool; [|lia].
    intros H2. apply i8_inj in Ec'; [|lia|apply Hm]. f_equal; [congruence|]. by eapply IH.
Qed.

Section removed.
Context (st st' : sys) (k : Z).
Context (Hinv : fs_inv st) (Hd : dir_ok st) (Hclean : dir_clean st) (Hk : 0 <= k < dir_len st) (Hrm : removed st st' k).

Lemma removed_root : root_dir st' = set_i_size (size_without st k) (root_dir st).
Proof. unfold root_dir at 1. rewrite (ob_root _ _ (rv_buf _ _ _ Hrm)), (rv_inodes _ _ _ Hrm). apply upd_eq. Qed.
Lemma removed_start : i_start_sect (root_dir st') = i_start_sect (root_dir st).
Proof. by rewrite removed_root. Qed.
Lemma removed_len : dir_len st' =
  if k + 1 =? dir_len st then used (rdisk st) (i_start_sect (root_dir st)) (Z.to_nat k) 0 else dir_len st.
Proof.
  unfold dir_len at 1. rewrite removed_root. unfold size_without. cbn [i_size set_i_size].
  destruct (k + 1 =? dir_len st); [|done]. rewrite Z.mul_comm. by apply Z.div_mul.
Qed.
Lemma removed_byte j i : 0 <= j -> j <> k -> 0 <= i < DIR_ENT_SIZE ->
  rdisk st' (ent_pos (i_start_sect (root_dir st)) j + i) = rdisk st (ent_pos (i_start_sect (root_dir st)) j + i).
Proof.
  intros Hj Hne Hi. apply (rv_other _ _ _ Hrm); unfold ent_pos; [autounfold with consts in *; lia|].
  right. pose proof (dk_start _ Hd). pose proof (mnt_n1 _ (fi_mnt _ Hinv)). pose proof (mnt_smap _ (fi_mnt _ Hinv)).
  rewrite (inode_pos_linear st) by (try apply Hinv; unfold nr_ok; autounfold with consts; lia).
  autounfold with consts in *. lia.
Qed.
Lemma removed_nr j : 0 <= j -> ent_nr (rdisk st') (i_start_sect (root_dir st)) j =
  if decide (j = k) then 0 else ent_nr (rdisk st) (i_start_sect (root_dir st)) j.
Proof.
  intros Hj. case_decide as E.
  - subst j. change 0 with (ld32s (fun _ => 0) 0). apply ld32s_shift. intros i Hi. apply (rv_zero _ _ _ Hrm). autounfold with consts. lia.
  - apply ld32s_shift. intros i Hi. apply removed_byte; [done..|autounfold with consts; lia].
Qed.
Lemma removed_first j : 0 <= j -> rdisk st' (ent_pos (i_start_sect (root_dir st)) j + 4) =
  if decide (j = k) then 0 else rdisk st (ent_pos (i_start_sect (root_dir st)) j + 4).
Proof.
  intros Hj. case_decide as E; [subst j; apply (rv_zero _ _ _ Hrm)|apply removed_byte; try done]; autounfold with consts; lia.
Qed.
Lemma removed_is j l : chars_ok l -> name_ok l -> 0 <= j -> ent_is (rdisk st') (i_start_sect (root_dir st)) l j =
  if decide (j = k) then false else ent_is (rdisk st) (i_start_sect (root_dir st)) l j.
Proof.
  intros Hc Hl Hj. pose proof (removed_first j Hj) as H1. case_decide as E; [by apply empty_no_name|].
  unfold ent_is. f_equal. apply strcmp_at_shift. intros i Hi. rewrite <- !Z.add_assoc. unfold name_ok in Hl.
  apply removed_byte; [done..|autounfold with consts in *; lia].
Qed.

Lemma removed_dir_ok : dir_ok st'.
Proof.
  destruct (new_slot_bounds st Hd) as (_ & HN & Hsize). pose proof removed_len as Hlen. destruct Hd as [D1 D2 D3 D4 D5].
  pose proof (used_bounds (rdisk st) (i_start_sect (root_dir st)) (Z.to_nat k) 0) as Hu.
  split; rewrite removed_root; cbn [i_start_sect i_size i_mode i_nr_sects set_i_size]; try done.
  - by rewrite (ob_sb _ _ (rv_buf _ _ _ Hrm)).
  - unfold size_without. destruct (_ =? _); [|done]. rewrite PER_SECT_32 in *. autounfold with consts in *. lia.
  - unfold size_without. destruct (_ =? _); [|done]. rewrite Z.mul_comm. by apply Z.mod_mul.
Qed.

(** the entry was not the last one, or there is no hole in front of it *)
Definition whole : Prop := k + 1 < dir_len st \/ used (rdisk st) (i_start_sect (root_dir st)) (Z.to_nat k) 0 = k.

Lemma removed_len_whole : whole -> dir_len st' = if k + 1 =? dir_len st then k else dir_len st.
Proof. intros Hw. rewrite removed_len. destruct (k + 1 =? dir_len st) eqn:E; zbool; [|done]. destruct Hw; [lia|done]. Qed.

Lemma removed_clean : whole -> dir_clean st'.
Proof.
  intros Hw j. rewrite (removed_len_whole Hw), removed_start. rewrite removed_root at 1. cbn [i_nr_sects set_i_size].
  intros Hj Hcase. rewrite removed_first by lia. rewrite removed_nr in Hcase by lia. case_decide as E; [done|].
  apply Hclean; [done|]. destruct (k + 1 =? dir_len st) eqn:E'; zbool; destruct Hcase; auto. left. lia.
Qed.

(** deleting an entry is a deletion from the map *)
Lemma removed_map l : whole -> chars_ok l -> name_ok l ->
  (forall l', chars_ok l' -> ent_is (rdisk st) (i_start_sect (root_dir st)) l' k = true -> l' = l) ->
  (forall j, 0 <= j < dir_len st -> ent_is (rdisk st) (i_start_sect (root_dir st)) l j = true -> j = k) ->
  forall l', chars_ok l' -> name_ok l' -> dir_map st' l' = if decide (l' = l) then 0 else dir_map st l'.
Proof.
  intros Hw Hc Hl Hkl Honly l' Hc' Hl'. unfold dir_map, dir_lookup.
  rewrite !dir_find_clean by (done || apply removed_dir_ok || by apply removed_clean).
  rewrite removed_start, (removed_len_whole Hw). set (s := i_start_sect (root_dir st)) in *. case_decide as E.
  - subst l'. rewrite (proj2 (find_first_None _ _ _)); [done|]. intros j Hj. fold s. unfold s. rewrite removed_is by (done || lia).
    case_decide as E; [done|]. fold s. destruct (ent_is (rdisk st) s l j) eqn:Ej; [|done]. exfalso. apply E, Honly; [|done].
    destruct (k + 1 =? dir_len st); lia.
  - assert (Hk' : ent_is (rdisk st) s l' k = false).
    { destruct (ent_is (rdisk st) s l' k) eqn:Ek; [|done]. exfalso. by apply E, Hkl. }
    set (N' := if k + 1 =? dir_len st then k else dir_len st).
    assert (HN' : N' = dir_len st \/ N' = k /\ k + 1 = dir_len st) by (unfold N'; destruct (k + 1 =? dir_len st) eqn:E'; zbool; auto).
    rewrite (find_first_ext _ (ent_is (rdisk st) s l')).
    2:{ intros j Hj. unfold s. rewrite removed_is by (done || lia). fold s. case_decide; [by subst|done]. }
    assert (Hsame : find_first (ent_is (rdisk st) s l') (Z.to_nat N') 0 = find_first (ent_is (rdisk st) s l') (Z.to_nat (dir_len st)) 0).
    { destruct HN' as [->|[-> Hlast]]; [done|]. replace (Z.to_nat (dir_len st)) with (Z.to_nat k + 1)%nat by lia.
      rewrite find_first_app. destruct (find_first _ (Z.to_nat k) 0); [done|]. cbn [find_first].
      rewrite Z.add_0_l, Z2Nat.id by lia. by rewrite Hk'. }
    rewrite Hsame. clear Hsame. destruct (find_first (ent_is (rdisk st) s l') (Z.to_nat (dir_len st)) 0) as [j|] eqn:Ej; [|reflexivity]. apply find_first_Some in Ej as (Hj & Hm & _).
    unfold s. rewrite removed_nr by lia. case_decide; [|done]. subst j. congruence.
Qed.
End removed.

(** ** [do_unlink] *)

(** the inode of file [nr] on the disk *)
Definition on_disk (st : sys) (nr : Z) : inode :=
  load_inode (rdisk st) (inode_pos (super_blocks st 0) nr) (mkInode 0 0 0 0 ROOT_DEV 0 nr).

Lemma extent_ok_ext st st' x x' : super_blocks st' = super_blocks st ->
  (forall a, SMAP_POS <= a -> rdisk st' a = rdisk st a) ->
  i_start_sect x' = i_start_sect x -> i_nr_sects x' = i_nr_sects x -> extent_ok st x -> extent_ok st' x'.
Proof.
  intros Es Hd E1 E2 [X1 X2 X3 X4 X5]. unfold smap_bit in *.
  split; unfold smap_bit, nr_bits; rewrite ?Es, ?E1, ?E2; try done.
  intros k Hk. rewrite <- (X5 k Hk). apply mbit_ext, Hd. pose proof (Z.div_pos k 8 ltac:(lia) ltac:(lia)). unfold SMAP_POS. lia.
Qed.

(** a cached inode is gone, and with it the inode on the disk *)
Lemma fs_inv_dead st st' p nr : fs_inv st -> only_buf st st' -> nr_ok nr ->
  ~ live (inode_table st) p -> ~ live (inode_table st') p ->
  (forall q, q <> p -> inode_table st' q = inode_table st q) ->
  (forall q, 0 <= q < NR_INODE -> live (inode_table st) q -> i_num (inode_table st q) <> nr) ->
  (forall a, (3 + nr_smap_sects (super_blocks st 0)) * SECTOR_SIZE <= a ->
     a < inode_pos (super_blocks st 0) nr \/ inode_pos (super_blocks st 0) nr + 16 <= a -> rdisk st' a = rdisk st a) ->
  fs_inv st'.
Proof.
  intros Hinv B Hn Hp Hp' Ho Hnew Hd.
  assert (Hl : forall q, live (inode_table st') q -> q <> p /\ inode_table st' q = inode_table st q /\ live (inode_table st) q).
  { intros q Hq. destruct (decide (q = p)) as [->|Hne]; [done|]. pose proof (Ho q Hne) as E. split; [done|]. split; [done|].
    unfold live in *. by rewrite <- E. }
  split.
  - eapply mounted_buf; [exact B|apply Hinv].
  - intros q Hq (_ & -> & Hlq)%Hl. by apply Hinv.
  - intros q r Hq Hr (_ & -> & Hlq)%Hl (_ & -> & Hlr)%Hl. by apply Hinv.
  - intros q Hq (_ & -> & Hlq)%Hl. rewrite (ob_sb _ _ B), (fi_coh _ Hinv q Hq Hlq). symmetry. apply disk_inode_ext.
    destruct (fi_nr _ Hinv q Hq Hlq) as (_ & _ & Hnq). intros a Ha.
    destruct (inode_pos_bounds st _ (fi_mnt _ Hinv) Hnq) as [P1 _].
    pose proof (inode_pos_apart st _ _ (fi_mnt _ Hinv) Hn Hnq (not_eq_sym (Hnew q Hq Hlq))). apply Hd; lia.
  - rewrite (ob_root _ _ B). destruct (fi_root _ Hinv) as [H1 H2].
    assert (E : inode_table st' (root_inode st) = inode_table st (root_inode st)) by (apply Ho; intros <-; done).
    unfold live in *. by rewrite E.
Qed.

(** the reference counts only look at the counts of the inodes *)
Lemma fd_ok_counts st st' : only_buf st st' ->
  (forall q, i_cnt (inode_table st' q) = i_cnt (inode_table st q)) -> fd_ok st -> fd_ok st'.
Proof.
  intros B Hc [H1 H2 H3]. unfold fd_ok. rewrite (ob_kern _ _ B), (ob_fd _ _ B), (ob_root _ _ B). split; try done.
  intros p Hp. rewrite Hc. by apply H3.
Qed.

(** a closed regular file: the inode is not cached, its sectors are marked and its
    name is entry [k], the only one for it *)
Record closed_file (st : sys) (l : list Z) (nr k : Z) : Prop := mkClosedFile {
  cf_disk : file_on_disk st nr;
  cf_closed : forall q, 0 <= q < NR_INODE -> live (inode_table st) q -> i_num (inode_table st q) <> nr;
  cf_extent : extent_ok st (on_disk st nr);
  cf_entry : 0 <= k < dir_len st;
  cf_name : ent_is (rdisk st) (i_start_sect (root_dir st)) l k = true;
  cf_nr : ent_nr (rdisk st) (i_start_sect (root_dir st)) k = nr;
  cf_only : forall j, 0 <= j < dir_len st ->
    ent_is (rdisk st) (i_start_sect (root_dir st)) l j = true \/ ent_nr (rdisk st) (i_start_sect (root_dir st)) j = nr -> j = k }.

Lemma closed_file_map st l nr k : dir_ok st -> dir_clean st -> name_ok l -> chars_ok l -> closed_file st l nr k ->
  dir_map st l = nr.
Proof.
  intros Hd Hclean Hl Hc [_ _ _ Hk Hn Hnr Honly]. unfold dir_map, dir_lookup. rewrite dir_find_clean by done.
  rewrite (find_first_is _ _ 0 k); [done|lia|done|]. intros j Hj. destruct (ent_is _ _ l j) eqn:E; [|done].
  assert (j = k) by (apply Honly; [lia|by left]). lia.
Qed.

(** before the directory: the space is given back and the inode cleared *)
Record freed (st st' : sys) (nr : Z) : Prop := mkFreed {
  fr_inv : fs_inv st';
  fr_buf : only_buf st st';
  fr_dir : same_dir st st';
  fr_counts : forall q, i_cnt (inode_table st' q) = i_cnt (inode_table st q);
  fr_nums : forall q, live (inode_table st) q -> inode_table st' q = inode_table st q;
  fr_imap : forall j, 0 <= j < 4096 -> mbit (rdisk st') IMAP_POS j = mbit (rdisk st) IMAP_POS j && negb (j =? nr);
  fr_smap : forall j, 0 <= j < Z.of_nat (nr_bits st) ->
    let x := on_disk st nr in
    sbit SMAP_SECT st' j = sbit SMAP_SECT st j && negb ((smap_bit st x <=? j) && (j <? smap_bit st x + i_nr_sects x)) }.

(** the inode is cleared, given up and written back *)
Lemma drop_inode_run st p : mounted st -> 0 <= p < NR_INODE -> i_dev (inode_table st p) = ROOT_DEV ->
  i_cnt (inode_table st p) = 1 -> nr_ok (i_num (inode_table st p)) ->
  let pos := inode_pos (super_blocks st 0) (i_num (inode_table st p)) in
  exists st', (modi p (fun x => mkInode 0 0 0 0 (i_dev x) (i_cnt x) (i_num x)) ;; put_inode p ;; sync_inode p) st = Ok tt st' /\
    only_buf st st' /\ i_cnt (inode_table st' p) = 0 /\
    (forall q, q <> p -> inode_table st' q = inode_table st q) /\
    (forall a, a < pos \/ pos + 16 <= a -> rdisk st' a = rdisk st a).
Proof.
  intros Hm Hp Hdev Hcnt Hn pos. set (nr := i_num (inode_table st p)) in *.
  set (f := fun x => mkInode 0 0 0 0 (i_dev x) (i_cnt x) (i_num x)).
  rewrite (bind_run _ _ _ _ _ (modi_run p f st Hp)). set (st1 := set_inode_table _ st).
  assert (E1 : inode_table st1 p = mkInode 0 0 0 0 ROOT_DEV 1 nr) by (unfold st1; cbn; rewrite upd_eq; unfold f; by rewrite Hdev, Hcnt).
  assert (Ep : put_inode p st1 = Ok tt (set_inode_table (upd (inode_table st1) p (mkInode 0 0 0 0 ROOT_DEV 0 nr)) st1)).
  { unfold put_inode. rewrite (bind_run _ _ _ _ _ (geti_run p st1 Hp)), E1. rewrite bind_assert by done.
    rewrite (modi_run p _ st1 Hp), E1. done. }
  rewrite (bind_run _ _ _ _ _ Ep). set (st2 := set_inode_table _ st1).
  assert (E2 : inode_table st2 p = mkInode 0 0 0 0 ROOT_DEV 0 nr) by (unfold st2; cbn; by rewrite upd_eq).
  destruct (sync_inode_run st2 p) as (st' & R & B & T & _ & O); rewrite ?E2; try done;
    [by apply (mounted_ext st)|].
  rewrite E2 in O. exists st'. split; [exact R|]. split; [|split; [by rewrite T, E2|split; [|exact O]]].
  - eapply only_buf_trans; [apply only_buf_inodes|]. eapply only_buf_trans; [apply only_buf_inodes|exact B].
  - intros q Hq. rewrite T. unfold st2, st1. cbn. by rewrite !upd_ne.
Qed.

Lemma free_run st st1 nr p : fs_inv st -> bytes_ok (rdisk st) -> file_on_disk st nr ->
  (forall q, 0 <= q < NR_INODE -> live (inode_table st) q -> i_num (inode_table st q) <> nr) ->
  extent_ok st (on_disk st nr) -> got_inode st st1 nr p ->
  i_cnt (inode_table st1 p) = 1 /\
  exists st', (unlink_imap ROOT_DEV nr ;; unlink_smap ROOT_DEV (inode_table st1 p) ;;
      modi p (fun x => mkInode 0 0 0 0 (i_dev x) (i_cnt x) (i_num x)) ;; put_inode p ;; sync_inode p) st1 = Ok tt st' /\
    freed st st' nr.
Proof.
  intros Hinv Hb [(Hn & Hlt & Hnr) Hbit _ _] Hnew Hex [B1 D1 Hp (Hl1 & Hdev & Hnum) O1 C W].
  pose proof (fi_mnt _ Hinv) as Hm. destruct C as [[(Hl & _ & E) _]|(_ & Hz & Hone)]; [by destruct (Hnew p Hp Hl)|].
  split; [done|]. assert (Hfree : ~ live (inode_table st) p) by (unfold live; lia). unfold nr_ok in Hn.
  destruct (unlink_imap_run st1 nr) as (st2 & R2 & T2 & C2); rewrite ?D1 in *; [done|lia|done|].
  assert (B2 : only_buf st st2) by (eapply only_buf_trans; [exact B1|apply T2]).
  set (x := inode_table st1 p) in *.
  assert (Hx : i_start_sect x = i_start_sect (on_disk st nr) /\ i_nr_sects x = i_nr_sects (on_disk st nr))
    by (unfold disk_words, disk_inode in W; injection W as _ _ W3 W4; by rewrite W3, W4). destruct Hx as [X1 X2].
  assert (Hsm2 : forall a, a < IMAP_POS \/ SMAP_POS <= a -> rdisk st2 a = rdisk st a).
  { intros a Ha. apply C2. unfold IMAP_POS, SMAP_POS, SMAP_SECT in *. autounfold with consts in *. Z.div_mod_to_equations. lia. }
  destruct (unlink_smap_run st2 x) as (st3 & R3 & T3 & C3); [by eapply mounted_buf|apply C2| |].
  { eapply (extent_ok_ext st); try done; [apply B2|]. intros a Ha. apply Hsm2. by right. }
  assert (Eb : smap_bit st2 x = smap_bit st (on_disk st nr)) by (unfold smap_bit; by rewrite (ob_sb _ _ B2), X1).
  rewrite Eb, X2 in C3. destruct Hex as [Y1 Y2 Y3 Y4 Y5]. rewrite nr_bits_Z in Y3 by done.
  pose proof (mnt_smap _ Hm) as Hsm. 
  assert (Hlen : exists b n, b = smap_bit st (on_disk st nr) /\ n = i_nr_sects (on_disk st nr)) by eauto.
  destruct Hlen as (b & n & Hbe & Hne). rewrite <- Hbe, <- Hne in *.
  assert (B3 : only_buf st st3) by (eapply only_buf_trans; [exact B2|apply T3]).
  assert (T : inode_table st3 = inode_table st1) by (by rewrite (tc_inodes _ _ T3), (tc_inodes _ _ T2)).
  assert (Hd3 : forall a, (3 + nr_smap_sects (super_blocks st 0)) * SECTOR_SIZE <= a -> rdisk st3 a = rdisk st a).
  { intros a Ha. rewrite (bc_out _ _ _ _ _ C3), Hsm2; [done|..]; unfold SMAP_POS, SMAP_SECT in *;
      autounfold with consts in *; Z.div_mod_to_equations; lia. }
  destruct (drop_inode_run st3 p) as (st4 & R4 & B4 & Z4 & O4 & D4); rewrite ?T; fold x; try done; [by eapply mounted_buf|by rewrite Hnum|].
  rewrite T in O4, D4. fold x in D4. rewrite Hnum, (ob_sb _ _ B3) in D4.
  destruct (inode_pos_bounds st nr Hm Hn) as [P1 P2].
  exists st4. split; [by rewrite (bind_run _ _ _ _ _ R2), (bind_run _ _ _ _ _ R3)|].
  assert (B : only_buf st st4) by (by eapply only_buf_trans).
  assert (Oq : forall q, q <> p -> inode_table st4 q = inode_table st q) by (intros q Hq; by rewrite O4, O1).
  split; try done.
  - apply (fs_inv_dead st st4 p nr); try done; [unfold live; lia|]. intros a Ha Ha'. by rewrite D4, Hd3.
  - split; [|apply B|].
    + unfold root_dir. rewrite (ob_root _ _ B). apply Oq. intros E. apply Hfree. rewrite <- E. apply Hinv.
    + intros a Ha. rewrite D4, Hd3 by lia. done.
  - intros q. destruct (decide (q = p)) as [->|Hq]; [by rewrite Z4, Hz|by rewrite Oq].
  - intros q Hq. apply Oq. by intros ->.
  - intros j Hj. transitivity (mbit (rdisk st2) IMAP_POS j).
    + apply mbit_ext. assert (IMAP_POS + j / 8 < SMAP_POS) by (unfold IMAP_POS, SMAP_POS, SMAP_SECT; autounfold with consts; Z.div_mod_to_equations; lia).
      rewrite D4, (bc_out _ _ _ _ _ C3); [done|..]; left; [pose proof (Z.div_pos b 8 Y1 ltac:(lia)); lia|].
      unfold SMAP_POS, SMAP_SECT in *. autounfold with consts in *. lia.
    + rewrite (bc_bits _ _ _ _ _ C2) by lia. f_equal. f_equal. apply eq_true_iff_eq.
      rewrite andb_true_iff, Z.leb_le, Z.ltb_lt, Z.eqb_eq. lia.
  - intros j Hj. cbv zeta. rewrite <- Hbe, <- Hne. rewrite nr_bits_Z in Hj by done. transitivity (mbit (rdisk st3) SMAP_POS j).
    + apply mbit_ext. apply D4. left. unfold SMAP_POS, SMAP_SECT. autounfold with consts in *. Z.div_mod_to_equations. lia.
    + rewrite (bc_bits _ _ _ _ _ C3) by lia. f_equal. apply mbit_ext. apply Hsm2. right.
      pose proof (Z.div_pos j 8 ltac:(lia) ltac:(lia)). unfold SMAP_POS. lia.
Qed.

(** a request of process [pc] that names [l] *)
Record unlink_request (st : sys) (pc : Z) (msg : MESSAGE) (l : list Z) : Prop := mkUnlinkReq {
  ur_proc : 0 <= pc < NR_ALL;
  ur_flat : flat (kern st);
  ur_len : 0 <= NAME_LEN msg < MAX_PATH;
  ur_path : strip_path (request_path st pc msg) = Some l;
  ur_name : name_ok l /\ chars_ok l }.

Lemma looked_got st st0 st1 nr p : looked st st0 -> got_inode st0 st1 nr p -> got_inode st st1 nr p.
Proof.
  intros L [B D Hp I O C W]. rewrite (lk_inodes _ _ L) in *. rewrite (looked_rdisk _ _ L) in *.
  rewrite (ob_sb _ _ (lk_buf _ _ L)) in W. split; try done. eapply only_buf_trans; [apply L|done].
Qed.

(** the entry of the file, found by its inode number *)
Lemma closed_file_find st st2 l nr k : dir_ok st -> closed_file st l nr k -> same_dir st st2 ->
  find_first (fun k => nr =? ent_nr (rdisk st2) (i_start_sect (root_dir st2)) k) (Z.to_nat (dir_len st2)) 0 = Some k.
Proof.
  intros Hd [_ _ _ Hk _ Hnr Honly] S. rewrite (sd_root _ _ S), (same_dir_len st st2 S). apply find_first_is; [lia| |].
  - rewrite (same_dir_nr st) by (done || lia). rewrite Hnr. apply Z.eqb_refl.
  - intros j Hj. rewrite (same_dir_nr st) by (done || lia). apply Z.eqb_neq. intros E.
    assert (j = k) by (apply Honly; [lia|by right]). lia.
Qed.

Lemma do_unlink_run st pc msg l nr k : unlink_request st pc msg l -> fs_wf st -> bytes_ok (rdisk st) ->
  closed_file st l nr k ->
  exists st2 st', do_unlink pc msg st = Ok 0 st' /\ freed st st2 nr /\ removed st2 st' k.
Proof.
  intros [Hpc Hflat Hlen Hpath [Hl Hc]] [Hinv Hd Hclean Hio Hfd] Hb Hf.
  destruct (path_lookup_map st _ _ Hpath Hl) as [Elook Hpok]. rewrite (closed_file_map st l nr k) in Elook by done.
  destruct (search_file_run st _ Hinv Hd Hpok) as (st0 & R0 & L). rewrite Elook in R0.
  pose proof (of_nr _ _ (cf_disk _ _ _ _ Hf)) as (Hn & Hlt & Hnr).
  destruct (get_inode_run st0 nr) as (p & st1 & R1 & G);
    [by eapply looked_inv|done|rewrite (lk_inodes _ _ L); apply Hf|]. apply (looked_got st) in G; [|done].
  pose proof (got_inode_wf st st1 nr p Hinv Hd Hio (cf_disk _ _ _ _ Hf) G) as (_ & _ & _ & _ & _ & Hmode).
  destruct (free_run st st1 nr p) as (Hcnt & st2 & R2 & Fr); try done; try apply Hf.
  assert (Er : root_inode st2 = root_inode st) by exact (ob_root _ _ (fr_buf _ _ _ Fr)).
  pose proof (fr_dir _ _ _ Fr) as Sd.
  destruct (unlink_dir_run st2 nr k) as (st' & R3 & Rm); [apply Fr|by apply (same_dir_ok st)|by apply (closed_file_find st st2 l)|].
  exists st2, st'. split; [|done]. unfold do_unlink. rewrite bind_assert by (apply Z.ltb_lt; lia).
  rewrite (bind_run _ _ _ _ _ (fetch_path_run pc (PATHNAME msg) (NAME_LEN msg) st Hpc Hflat Hlen)).
  fold (request_path st pc msg). rewrite bool_decide_eq_false_2.
  2:{ intros E. rewrite E in Hpath. injection Hpath as <-. unfold name_ok in Hl. simpl in Hl. lia. }
  rewrite (bind_run _ _ _ _ _ R0). rewrite (proj2 (Z.eqb_neq nr INVALID_INODE)) by (unfold nr_ok, INVALID_INODE in *; lia).
  rewrite Hpath, (bind_run get _ st0 st0 st0 eq_refl).
  pose proof (looked_inv st st0 L Hinv) as Hi0. pose proof (mnt_root _ (fi_mnt _ Hi0)) as Hr.
  destruct (fi_root _ Hi0) as [Hl0 _]. destruct (fi_nr _ Hi0 _ Hr Hl0) as (_ & Hdev & _). cbv zeta.
  rewrite (bind_run _ _ _ _ _ (geti_run _ st0 Hr)), Hdev, (bind_run _ _ _ _ _ R1).
  rewrite (bind_run _ _ _ _ _ (geti_run p st1 (gi_range _ _ _ _ G))), Hmode, Hcnt. change (negb (I_REGULAR =? I_REGULAR)) with false.
  change (1 <? 1) with false. cbv iota.
  apply bind_Ok in R2 as ([] & s2 & E2 & R2). apply bind_Ok in R2 as ([] & s3 & E3 & R2).
  apply bind_Ok in R2 as ([] & s4 & E4 & R2). apply bind_Ok in R2 as ([] & s5 & E5 & R2).
  rewrite (bind_run _ _ _ _ _ E2), (bind_run _ _ _ _ _ E3), (bind_run _ _ _ _ _ E4), (bind_run _ _ _ _ _ E5), (bind_run _ _ _ _ _ R2).
  rewrite (ob_root _ _ (lk_buf _ _ L)), <- Er. exact R3.
Qed.

(** ** Properties *)

(** the maps lie in front of the inodes and the directory *)
Lemma removed_maps st st' k : fs_inv st -> dir_ok st -> 0 <= k -> removed st st' k ->
  forall a, a < (3 + nr_smap_sects (super_blocks st 0)) * SECTOR_SIZE -> rdisk st' a = rdisk st a.
Proof.
  intros Hinv Hd Hk Hrm a Ha. pose proof (dk_start _ Hd). pose proof (mnt_n1 _ (fi_mnt _ Hinv)).
  destruct (inode_pos_bounds st ROOT_INODE (fi_mnt _ Hinv)) as [P1 _]; [unfold nr_ok; autounfold with consts; lia|].
  apply (rv_other _ _ _ Hrm); left; [unfold ent_pos; autounfold with consts in *; lia|lia].
Qed.

Lemma same_dir_used st st2 n : dir_ok st -> same_dir st st2 ->
  used (rdisk st2) (i_start_sect (root_dir st2)) n 0 = used (rdisk st) (i_start_sect (root_dir st)) n 0.
Proof.
  intros Hd S. rewrite (sd_root _ _ S). apply nclear_ext. intros i Hi. unfold is_hole. by rewrite (same_dir_nr st) by (done || lia).
Qed.
Lemma whole_same st st2 k : dir_ok st -> same_dir st st2 -> whole st k -> whole st2 k.
Proof. intros Hd S Hw. unfold whole. by rewrite (same_dir_len st st2 S), (same_dir_used st). Qed.
Lemma same_dir_is st st2 : dir_ok st -> same_dir st st2 -> forall l j, 0 <= j ->
  ent_is (rdisk st2) (i_start_sect (root_dir st2)) l j = ent_is (rdisk st) (i_start_sect (root_dir st)) l j.
Proof.
  intros Hd S l j Hj. rewrite (sd_root _ _ S). unfold ent_is. f_equal. apply strcmp_at_shift. intros i Hi. rewrite <- !Z.add_assoc.
  apply same_dir_byte; (done || lia).
Qed.

Lemma removed_table st st' k q : removed st st' k ->
  i_cnt (inode_table st' q) = i_cnt (inode_table st q) /\ i_num (inode_table st' q) = i_num (inode_table st q).
Proof.
  intros Hrm. rewrite (rv_inodes _ _ _ Hrm), upd_case. case_decide; [subst q; by split|done].
Qed.

(** the file is gone, and the rest of the system is as it was *)
Lemma unlinked_wf st st2 st' l nr k : fs_wf st -> closed_file st l nr k -> freed st st2 nr -> removed st2 st' k ->
  whole st k -> fs_wf st' /\
  (forall j, 0 <= j < 4096 -> mbit (rdisk st') IMAP_POS j = mbit (rdisk st) IMAP_POS j && negb (j =? nr)) /\
  (forall j, 0 <= j < Z.of_nat (nr_bits st) -> sbit SMAP_SECT st' j = sbit SMAP_SECT st2 j).
Proof.
  intros [Hinv Hd Hclean Hio Hfd] Hf [F1 F2 F3 F4 F5 F6 F7] Rm Hw. pose proof (cf_entry _ _ _ _ Hf) as Hk.
  pose proof (same_dir_ok st st2 Hd F3) as Hd2. pose proof (same_dir_clean st st2 Hd F3 Hclean) as Hc2.
  assert (Hk2 : 0 <= k < dir_len st2) by (by rewrite (same_dir_len st)).
  assert (Hw2 : whole st2 k) by (by apply (whole_same st)).
  pose proof (removed_maps st2 st' k F1 Hd2 ltac:(lia) Rm) as Hmaps. rewrite (ob_sb _ _ F2) in Hmaps.
  pose proof (mnt_smap _ (fi_mnt _ Hinv)) as Hsm.
  assert (Himap : forall j, 0 <= j < 4096 -> mbit (rdisk st') IMAP_POS j = mbit (rdisk st) IMAP_POS j && negb (j =? nr)).
  { intros j Hj. rewrite <- F6 by done. apply mbit_ext, Hmaps. unfold IMAP_POS. autounfold with consts. Z.div_mod_to_equations. lia. }
  split; [|split; [done|]].
  - assert (Bf : only_buf st st') by (eapply only_buf_trans; [exact F2|apply Rm]). split.
    + apply Rm.
    + by eapply removed_dir_ok.
    + apply (removed_clean st2 st' k); done.
    + pose proof (of_nr _ _ (cf_disk _ _ _ _ Hf)) as (Hn & _ & Hnr). unfold nr_ok in Hn. split.
      * rewrite Himap, (io_zero _ Hio), (proj2 (Z.eqb_neq 0 nr)) by lia. done.
      * intros q Hq Hlq. destruct (removed_table st2 st' k q Rm) as [Ec En].
        assert (Hl : live (inode_table st) q) by (unfold live in *; by rewrite <- F4, <- Ec).
        rewrite En, F5 by done. destruct (io_live _ Hio q Hq Hl) as [L1 L2]. split; [done|].
        destruct (fi_nr _ Hinv q Hq Hl) as (_ & _ & Hnq). unfold nr_ok in Hnq. rewrite Himap, L2 by lia. simpl.
        apply negb_true_iff, Z.eqb_neq. by apply Hf.
    + apply (fd_ok_counts st); try done. intros q. destruct (removed_table st2 st' k q Rm) as [-> _]. apply F4.
  - intros j Hj. apply mbit_ext, Hmaps. rewrite nr_bits_Z in Hj by apply Hinv. unfold SMAP_SECT.
    autounfold with consts in *. Z.div_mod_to_equations. lia.
Qed.


(** C35: Deleting the last entry of a directory with holes loses files: the size becomes that
    of the entries in use, although they do not lie at the front. A name at a place behind
    that new end (and not only just behind it, where [search_file] still looks) is found
    before the request and not afterwards, though nothing was to happen to it. *)
Theorem unlink_loses_names st pc msg l nr k l' j : unlink_request st pc msg l -> fs_wf st -> bytes_ok (rdisk st) ->
  closed_file st l nr k -> k + 1 = dir_len st ->
  let s := i_start_sect (root_dir st) in
  used (rdisk st) s (Z.to_nat k) 0 < j < k -> chars_ok l' -> name_ok l' -> ent_is (rdisk st) s l' j = true ->
  (forall i, 0 <= i < j -> ent_is (rdisk st) s l' i = false) ->
  dir_map st l' = ent_nr (rdisk st) s j /\ dir_map st l' <> 0 /\
  exists st', do_unlink pc msg st = Ok 0 st' /\ dir_map st' l' = 0.
Proof.
  intros Hreq Hwf Hb Hf Hlast s Hj Hc' Hl' Hm Hbefore.
  destruct (do_unlink_run st pc msg l nr k Hreq Hwf Hb Hf) as (st2 & st' & R & Fr & Rm).
  destruct Hwf as [Hinv Hd Hclean Hio Hfd]. pose proof (fr_dir _ _ _ Fr) as Sd.
  pose proof (used_bounds (rdisk st) s (Z.to_nat k) 0) as Hu. destruct (new_slot_bounds st Hd) as (_ & HN & _).
  assert (E : dir_map st l' = ent_nr (rdisk st) s j).
  { unfold dir_map, dir_lookup. rewrite dir_find_clean by done. fold s. rewrite (find_first_is _ _ 0 j); (done || lia). }
  split; [done|]. split.
  { rewrite E. intros Ez. rewrite (empty_no_name _ s l' j) in Hm; [done..|]. apply Hclean; [lia|by right]. }
  exists st'. split; [done|]. unfold dir_map, dir_lookup, dir_find.
  assert (Hk2 : 0 <= k < dir_len st2) by (rewrite (same_dir_len st st2 Sd); lia).
  rewrite (removed_start st2 st' k Rm), (removed_root st2 st' k Rm). cbn [i_size set_i_size].
  assert (Esize : size_without st2 k = DIR_ENT_SIZE * used (rdisk st) s (Z.to_nat k) 0).
  { unfold size_without. rewrite (same_dir_len st st2 Sd), (proj2 (Z.eqb_eq _ _) Hlast). by rewrite (same_dir_used st). }
  rewrite Esize, (proj2 (find_first_None _ _ _)); [done|]. intros i Hi.
  assert (Hi' : i <= used (rdisk st) s (Z.to_nat k) 0).
  { revert Hi. unfold dir_bound. rewrite PER_SECT_32. autounfold with consts. Z.div_mod_to_equations. lia. }
  rewrite (removed_is st2 st' k); try done; [|apply Fr|by apply (same_dir_ok st)|lia].
  case_decide; [done|]. rewrite (same_dir_is st) by (done || lia). apply Hbefore. lia.
Qed.
