(* ===== verification/FsType.v ===== *)
(** * The type invariant of the file system task

    Memory and disks hold bytes: every cell is between 0 and 255. [typed c Q] says that a
    run of [c] from such a state that returns leaves such a state, and that its value
    satisfies [Q]. The judgement is closed under the commands of the monad, so that every
    handler of FS is typed by its structure, and with them the whole task. *)
From S2P Require Import Prelude Const CLib Protect Proc Sys Fs FsOps FsLem FsRw Task FsMap.

Definition byte_state (st : sys) : Prop :=
  bytes_ok (memory (kern st)) /\ forall d, bytes_ok (dev_data (disk st d)).

Definition typed {A} (c : M sys A) (Q : A -> Prop) : Prop :=
  forall st a st', byte_state st -> c st = Ok a st' -> byte_state st' /\ Q a.
Definition any {A} (_ : A) : Prop := True.
Definition bytes (l : list Z) : Prop := Forall byte_ok l.

Create HintDb typing discriminated.
#[export] Hint Constants Opaque : typing.

(** ** The commands *)

Lemma typed_ret {A} (a : A) (Q : A -> Prop) : Q a -> typed (ret a) Q.
Proof. intros H st b st' Hb [= <- <-]. done. Qed.
Lemma typed_bind {A B} (c : M sys A) (k : A -> M sys B) Q R :
  typed c Q -> (forall a, Q a -> typed (k a) R) -> typed (bind c k) R.
Proof.
  intros Hc Hk st b st' Hb (a & s & E1 & E2)%bind_Ok. destruct (Hc _ _ _ Hb E1) as [Hs Ha]. by apply (Hk a Ha s).
Qed.
Lemma typed_stop {A} h (Q : A -> Prop) : typed (stop h) Q.
Proof. by intros st a st' _ H. Qed.
Lemma typed_weaken {A} (c : M sys A) Q : typed c Q -> typed c any.
Proof. intros H st a st' Hb E. split; [|done]. by eapply H. Qed.
Lemma typed_assert b : typed (assert_ b) any.
Proof. unfold assert_. destruct b; [by apply typed_ret|apply typed_stop]. Qed.
Lemma typed_when b c : typed c any -> typed (when b c) any.
Proof. intros H. unfold when. destruct b; [done|by apply typed_ret]. Qed.
Lemma typed_get : typed get byte_state.
Proof. intros st a st' Hb [= <- <-]. done. Qed.

(** a change of the tables *)
Lemma typed_frame (f : sys -> sys) : (forall st, kern (f st) = kern st) -> (forall st, disk (f st) = disk st) -> typed (modify f) any.
Proof. intros Hk Hd st a st' Hb [= <- <-]. split; [|done]. unfold byte_state. by rewrite Hk, Hd. Qed.
Lemma typed_geti p : typed (geti p) any.
Proof. intros st a st' Hb. unfold geti. destruct (in_inode_table p); [|done]. intros [= <- <-]. done. Qed.
Lemma typed_modi p f : typed (modi p f) any.
Proof. intros st a st' Hb. unfold modi. destruct (in_inode_table p); [|done]. intros [= <- <-]. done. Qed.
Lemma typed_getfd p : typed (getfd p) any.
Proof. intros st a st' Hb. unfold getfd. destruct (in_fd_table p); [|done]. intros [= <- <-]. done. Qed.
Lemma typed_modfd p f : typed (modfd p f) any.
Proof. intros st a st' Hb. unfold modfd. destruct (in_fd_table p); [|done]. intros [= <- <-]. done. Qed.
Lemma typed_deref o : typed (deref o) any.
Proof. destruct o; [by apply typed_ret|apply typed_stop]. Qed.

(** the kernel's part of the state *)
Lemma typed_lift {A} (c : M kstate A) : (forall k a k', c k = Ok a k' -> memory k' = memory k) -> typed (lift c) any.
Proof.
  intros H st a st' [Hm Hd] E. unfold lift in E. destruct (c (kern st)) as [b k|] eqn:Ec; [|done]. injection E as <- <-.
  split; [|done]. split; [|done]. cbn. by rewrite (H _ _ _ Ec).
Qed.
Lemma typed_getp p : typed (lift (getp p)) any.
Proof. apply typed_lift. intros k a k'. unfold getp. destruct (in_table p); [|done]. by intros [= <- <-]. Qed.
Lemma typed_modp p f : typed (lift (modp p f)) any.
Proof. apply typed_lift. intros k a k'. unfold modp. destruct (in_table p); [|done]. by intros [= <- <-]. Qed.
Lemma typed_va2la p va : typed (lift (va2la p va)) any.
Proof.
  apply typed_lift. intros k a k' H. unfold va2la, getp in H. inv_ok H. destruct (in_table p); [|done].
  injection E as <- <-. injection H as _ <-. unfold when, assert_ in E0.
  destruct (p <? _); [destruct (_ =? _); [|done]|]; by injection E0 as <- <-.
Qed.

(** ** Memory *)

Lemma typed_getmem : typed getmem bytes_ok.
Proof. intros st a st' Hb [= <- <-]. split; [done|apply Hb]. Qed.
Lemma typed_modm f : (forall m, bytes_ok m -> bytes_ok (f m)) -> typed (modm f) any.
Proof. intros Hf st a st' [Hm Hd] [= <- <-]. split; [|done]. split; [by apply Hf|done]. Qed.

Lemma bytes_upd m a v : bytes_ok m -> byte_ok v -> bytes_ok (upd m a v).
Proof. intros Hm Hv x. rewrite upd_case. case_decide; [done|apply Hm]. Qed.
Lemma bytes_st32 a v m : bytes_ok m -> bytes_ok (st32 a v m).
Proof. intros Hm. unfold st32. repeat apply bytes_upd; try done; apply u8_range. Qed.
Lemma bytes_put_words l : forall a m, bytes_ok m -> bytes_ok (put_words a l m).
Proof. induction l as [|w l IH]; intros a m Hm; simpl; [done|]. apply IH. by apply bytes_st32. Qed.
Lemma bytes_put_inode_at a x m : bytes_ok m -> bytes_ok (put_inode_at a x m).
Proof. apply bytes_put_words. Qed.
Lemma bytes_put_bytes l : bytes l -> forall a m, bytes_ok m -> bytes_ok (put_bytes a l m).
Proof. induction 1 as [|c l Hc Hl IH]; intros a m Hm; simpl; [done|]. apply IH. by apply bytes_upd. Qed.
Lemma bytes_memset a c n m : bytes_ok m -> bytes_ok (memset a c n m).
Proof. intros Hm x. rewrite memset_spec. case_decide; [apply u8_range|apply Hm]. Qed.
Lemma bytes_memcpy_n n : forall d s m, bytes_ok m -> bytes_ok (memcpy_n n d s m).
Proof. induction n as [|n IH]; intros d s m Hm; simpl; [done|]. apply IH. apply bytes_upd; [done|apply Hm]. Qed.
Lemma bytes_memcpy d s n m : bytes_ok m -> bytes_ok (memcpy d s n m).
Proof. apply bytes_memcpy_n. Qed.
#[export] Hint Resolve bytes_st32 bytes_put_words bytes_put_inode_at bytes_put_bytes bytes_memset bytes_memcpy : typing.

Lemma typed_getb j : typed (getb j) byte_ok.
Proof. unfold getb. eapply typed_bind; [apply typed_getmem|]. intros m Hm. apply typed_ret, Hm. Qed.
Lemma typed_setb j v : typed (setb j v) any.
Proof. apply typed_modm. intros m Hm. apply bytes_upd; [done|apply u8_range]. Qed.

#[export] Hint Resolve typed_stop typed_assert typed_get typed_geti typed_modi typed_getfd typed_modfd typed_deref
  typed_getp typed_modp typed_va2la typed_getmem typed_getb typed_setb : typing.
#[export] Hint Extern 1 (typed (modm _) _) => (apply typed_modm; intros; cbv beta; eauto with typing) : typing.
#[export] Hint Extern 1 (typed panic _) => apply typed_stop : typing.

(** [typing]: type a handler along its structure. *)
Ltac typing :=
  repeat lazymatch goal with
  | |- typed (ret _) _ => apply typed_ret; done
  | |- typed (bind (ret _) _) _ => apply (typed_bind _ _ any); [by apply typed_ret|intros ? _]
  | |- typed (bind (stop _) _) _ => apply (typed_bind _ _ any); [apply typed_stop|intros ? _]
  | |- typed (bind (when _ _) _) _ => eapply typed_bind; [apply typed_when|intros ? _]
  | |- typed (bind (bind _ _) _) _ => eapply (typed_bind _ _ any); [|intros ? _]
  | |- typed (bind (if ?b then _ else _) _) _ => destruct b eqn:?
  | |- typed (bind (match ?x with _ => _ end) _) _ => destruct x eqn:?
  | |- typed (bind _ _) _ => eapply typed_bind; [solve [eauto with typing]|intros ? ?]
  | |- typed (when _ _) _ => apply typed_when
  | |- typed (if ?b then _ else _) _ => destruct b eqn:?
  | |- typed (match ?x with _ => _ end) _ => destruct x eqn:?
  | |- typed (let _ := _ in _) _ => cbv zeta
  | |- typed _ _ => solve [eauto with typing]
  end.

(** ** Sectors, super blocks and inodes *)

Lemma typed_driver_of dev : typed (driver_of dev) any.
Proof. unfold driver_of. typing. Qed.
#[export] Hint Resolve typed_driver_of : typing.

Lemma typed_rw_sector ty dev pos n buf : typed (rw_sector ty dev pos n buf) any.
Proof.
  unfold rw_sector. typing. intros st r st' [Hm Hd] [= <- <-]. split; [|done]. split.
  - destruct (ty =? DEV_READ); cbn; [|done]. intros x. unfold disk_read. destruct (_ && _); [apply Hd|apply Hm].
  - destruct (ty =? DEV_READ); cbn; [done|]. intros d. rewrite upd_case. case_decide; [|apply Hd]. cbn.
    intros x. unfold disk_write. destruct (_ && _); [apply Hm|apply Hd].
Qed.
Lemma typed_RD_SECT dev n : typed (RD_SECT dev n) any.
Proof. apply typed_rw_sector. Qed.
Lemma typed_WR_SECT dev n : typed (WR_SECT dev n) any.
Proof. apply typed_rw_sector. Qed.
#[export] Hint Resolve typed_rw_sector typed_RD_SECT typed_WR_SECT : typing.

Lemma typed_sb_of dev : typed (sb_of dev) any.
Proof.
  assert (H : forall n i, typed (get_super_block_loop n i dev) any).
  { induction n as [|n IH]; intros i; cbn [get_super_block_loop]; [apply typed_stop|].
    eapply typed_bind; [by apply typed_frame|]. intros ? _. typing. }
  unfold sb_of, get_super_block. eapply typed_bind; [apply H|]. intros ? _. typing.
Qed.
#[export] Hint Resolve typed_sb_of : typing.

Lemma typed_get_inode dev nr : typed (get_inode dev nr) any.
Proof. unfold get_inode. typing. Qed.
Lemma typed_put_inode p : typed (put_inode p) any.
Proof. unfold put_inode. typing. Qed.
Lemma typed_sync_inode p : typed (sync_inode p) any.
Proof. unfold sync_inode. typing. Qed.
#[export] Hint Resolve typed_get_inode typed_put_inode typed_sync_inode : typing.

(** ** Paths *)

Lemma bytes_strip_loop n : forall l r, bytes l -> strip_loop n l = Some r -> bytes r.
Proof.
  assert (Hnil : bytes []) by constructor. assert (Hcons : forall c l, byte_ok c -> bytes l -> bytes (c :: l)) by (by constructor).
  induction n as [|n IH]; intros l r Hl; destruct Hl as [|c l Hc Hl]; simpl; try by intros [= <-].
  - destruct (c =? 0); [by intros [= <-]|]. destruct (c =? 47); [done|]. by intros [= <-].
  - destruct (c =? 0); [by intros [= <-]|]. destruct (c =? 47); [done|].
    destruct n as [|n]; [intros [= <-]; auto|].
    destruct (strip_loop (S n) l) as [r'|] eqn:E; [|done]. intros [= <-]. apply Hcons; [done|]. by eapply IH.
Qed.
Lemma bytes_strip_path l r : bytes l -> strip_path l = Some r -> bytes r.
Proof.
  intros Hl. unfold strip_path. destruct Hl as [|c l Hc Hl]; [intros [= <-]; constructor|].
  destruct (c =? 47); intros E; eapply bytes_strip_loop in E; try done. by constructor.
Qed.
Lemma bytes_cstring l : bytes l -> bytes (cstring l).
Proof. induction 1 as [|c l Hc Hl IH]; simpl; [constructor|]. destruct (c =? 0); [constructor|]. by constructor. Qed.

Lemma typed_fetch_path pid va len : typed (fetch_path pid va len) bytes.
Proof.
  unfold fetch_path. typing. apply typed_ret. apply bytes_cstring. unfold bytes_from. apply Forall_fmap.
  apply Forall_forall. intros i _. cbn. match goal with H : bytes_ok _ |- _ => apply H end.
Qed.
Lemma typed_search_file path : typed (search_file path) any.
Proof.
  assert (H : forall n i dev b m nr l, typed (search_loop n i dev b m nr l) any).
  { induction n as [|n IH]; intros i dev b m nr l; cbn [search_loop]; [by apply typed_ret|]. typing. }
  unfold search_file. typing.
Qed.
#[export] Hint Resolve typed_fetch_path typed_search_file : typing.

Lemma typed_do_stat msg : typed (do_stat msg) any.
Proof. unfold do_stat. typing. Qed.

(** ** Creating files *)

Lemma typed_alloc_imap dev : typed (alloc_imap_bit dev) any.
Proof.
  assert (H : forall n i, typed (alloc_imap_loop n i dev) any).
  { induction n as [|n IH]; intros i; cbn [alloc_imap_loop]; [apply typed_stop|]. typing. }
  unfold alloc_imap_bit. typing.
Qed.

Lemma smap_bits_byte j i n1 : forall n k sect todo b, byte_ok b -> byte_ok (snd (smap_bits n k j i n1 sect todo b)).
Proof.
  induction n as [|n IH]; intros k sect todo b Hb; cbn [smap_bits]; [done|].
  destruct (negb _); [by apply IH|]. destruct (0 <? todo); [|done]. apply IH. apply u8_range.
Qed.
Lemma smap_bytes_bytes i n1 : forall n j sect todo m, bytes_ok m -> bytes_ok (snd (smap_bytes n j i n1 sect todo m)).
Proof.
  induction n as [|n IH]; intros j sect todo m Hm; cbn [smap_bytes]; [done|]. destruct (_ =? _); [by apply IH|].
  pose proof (smap_bits_byte j i n1 8 0 sect todo (m (fsbuf + j)) (Hm _)) as Hb.
  destruct (smap_bits _ _ _ _ _ _ _ _) as [[s t] b]. apply IH. by apply bytes_upd.
Qed.
Lemma typed_alloc_smap dev n : typed (alloc_smap_bit dev n) any.
Proof.
  assert (H : forall k i b n1 sect todo, typed (alloc_smap_loop k i dev b n1 sect todo) any).
  { induction k as [|k IH]; intros i b n1 sect todo; cbn [alloc_smap_loop]; [typing|].
    eapply typed_bind; [apply typed_RD_SECT|intros ? _]. eapply typed_bind; [apply typed_getmem|intros m Hm].
    pose proof (smap_bytes_bytes i n1 (Z.to_nat SECTOR_SIZE) 0 sect todo m Hm) as Hm'.
    destruct (smap_bytes _ _ _ _ _ _ _) as [[s t] m']. typing. }
  unfold alloc_smap_bit. typing.
Qed.
#[export] Hint Resolve typed_alloc_imap typed_alloc_smap : typing.

Lemma typed_new_inode dev nr sect : typed (new_inode dev nr sect) any.
Proof. unfold new_inode. typing. Qed.
Lemma typed_new_directory_entry p l nr : bytes l -> typed (new_directory_entry p l nr) any.
Proof.
  intros Hl. assert (H : forall n i dev s nd q, typed (new_de_loop n i dev s nd q) any).
  { induction n as [|n IH]; intros i dev s nd q; cbn [new_de_loop]; [by apply typed_ret|]. typing. }
  assert (Hl0 : bytes (l ++ [0])) by (apply Forall_app; split; [done|repeat constructor]; lia).
  unfold new_directory_entry. typing.
Qed.
#[export] Hint Resolve typed_new_inode typed_new_directory_entry bytes_strip_path : typing.
Lemma typed_create_file path : bytes path -> typed (create_file path) any.
Proof. intros Hp. unfold create_file. typing. Qed.
#[export] Hint Resolve typed_create_file : typing.

(** ** The handlers *)

Lemma typed_get_filp pc fd : typed (get_filp pc fd) any.
Proof. unfold get_filp. typing. Qed.
Lemma typed_set_filp pc fd o : typed (set_filp_at pc fd o) any.
Proof. apply typed_modp. Qed.
#[export] Hint Resolve typed_get_filp typed_set_filp : typing.

Section handlers.
Context (char_driver : Z -> MESSAGE -> M sys MESSAGE) (Hdrv : forall d msg, typed (char_driver d msg) any).
#[local] Hint Resolve Hdrv : typing.

Lemma typed_open_inode path flags : bytes path -> typed (open_inode path flags) any.
Proof. intros Hp. unfold open_inode. typing. Qed.
Lemma typed_open_device p : typed (open_device char_driver p) any.
Proof. unfold open_device. typing. Qed.
#[local] Hint Resolve typed_open_inode typed_open_device : typing.
Lemma typed_do_open pc msg : typed (do_open char_driver pc msg) any.
Proof. unfold do_open. typing. Qed.
Lemma typed_do_close pc msg : typed (do_close pc msg) any.
Proof. unfold do_close. typing. Qed.

Lemma typed_rdwt_loop : forall n ty f src buf dev pe i se chunk off todo proc,
  typed (rdwt_loop n ty f src buf dev pe i se chunk off todo proc) any.
Proof.
  induction n as [|n IH]; intros; cbn [rdwt_loop]; [by apply typed_ret|]. typing.
Qed.
#[local] Hint Resolve typed_rdwt_loop : typing.
Lemma typed_do_rdwt pc msg : typed (do_rdwt char_driver pc msg) any.
Proof. unfold do_rdwt. typing. Qed.
Lemma typed_do_lseek pc msg : typed (do_lseek pc msg) any.
Proof. unfold do_lseek. typing. Qed.

Lemma typed_clear_bit b i : typed (clear_bit b i) any.
Proof. unfold clear_bit. typing. Qed.
Lemma typed_next_sect dev i s : typed (next_sect dev i s) any.
Proof. unfold next_sect. typing. Qed.
#[local] Hint Resolve typed_clear_bit typed_next_sect : typing.
Lemma typed_unlink_first : forall n b i left, typed (unlink_first n b i left) any.
Proof. induction n as [|n IH]; intros; cbn [unlink_first]; [by apply typed_ret|]. typing. Qed.
Lemma typed_unlink_bytes : forall n dev i left s, typed (unlink_bytes n dev i left s) any.
Proof. induction n as [|n IH]; intros; cbn [unlink_bytes]; [by apply typed_ret|]. typing. Qed.
#[local] Hint Resolve typed_unlink_first typed_unlink_bytes : typing.
Lemma typed_unlink_smap dev x : typed (unlink_smap dev x) any.
Proof. unfold unlink_smap. typing. Qed.
Lemma typed_unlink_imap dev nr : typed (unlink_imap dev nr) any.
Proof. unfold unlink_imap. typing. Qed.
Lemma typed_unlink_entry : forall n i dev s nr m nd ds, typed (unlink_entry n i dev s nr m nd ds) any.
Proof. induction n as [|n IH]; intros; cbn [unlink_entry]; [apply typed_stop|]. typing. Qed.
#[local] Hint Resolve typed_unlink_smap typed_unlink_imap typed_unlink_entry : typing.
Lemma typed_do_unlink pc msg : typed (do_unlink pc msg) any.
Proof. unfold do_unlink. typing. Qed.

Lemma typed_fs_fork pid : typed (fs_fork pid) any.
Proof.
  unfold fs_fork. generalize (Z.to_nat NR_FILES), 0. induction n as [|n IH]; intros i; cbn [fs_fork_loop]; [by apply typed_ret|].
  typing.
Qed.
Lemma typed_fs_exit pid : typed (fs_exit pid) any.
Proof.
  unfold fs_exit. generalize (Z.to_nat NR_FILES), 0. induction n as [|n IH]; intros i; cbn [fs_exit_loop]; [by apply typed_ret|].
  typing.
Qed.
#[local] Hint Resolve typed_do_open typed_do_close typed_do_rdwt typed_do_lseek typed_do_unlink typed_do_stat
  typed_fs_fork typed_fs_exit : typing.

Lemma typed_fs_serve msg : typed (fs_serve char_driver msg) any.
Proof. unfold fs_serve. typing. Qed.
End handlers.

(** ** Properties *)

