(* ===== verification/FsFormat.v ===== *)
(** * Formatting (fs/main.c: mkfs, init_fs)

    [init_fs] on a disk without a file system writes one and mounts it. The theorem
    is that this establishes the invariant that every request then keeps: FsCreate and
    FsUnlink start where this file ends. The sectors are described by the disk after
    each step; the map of sectors, which [mkfs] marks across several of its own
    sectors, by the disk with the buffer written back, as in FsUnlink. *)
From Stdlib Require Import FunctionalExtensionality String.
From S2P Require Import Prelude Const CLib Protect Proc Sys Fs FsOps FsInit FsLem FsRw FsRef Task FsMap FsDir FsCreate FsUnlink.
From S2P Require Import FsType.

(** ** Loops over the buffer *)

(** [for_z] over a pure change of the memory *)
Fixpoint fold_z (n : nat) (i : Z) (f : Z -> mem -> mem) (m : mem) : mem :=
  match n with O => m | S n' => fold_z n' (i + 1) f (f i m) end.

Lemma for_z_run body f : (forall i st, body i st = Ok tt (with_mem (f i (fmem st)) st)) ->
  forall n i st, for_z n i body st = Ok tt (with_mem (fold_z n i f (fmem st)) st).
Proof.
  intros Hb. induction n as [|n IH]; intros i st; cbn [for_z fold_z]; [by rewrite with_mem_self|].
  rewrite (bind_run _ _ _ _ _ (Hb i st)), IH. by rewrite with_mem_twice.
Qed.

Lemma fold_z_out f a b : (forall i m x, x < a \/ b <= x -> f i m x = m x) ->
  forall n i m x, x < a \/ b <= x -> fold_z n i f m x = m x.
Proof.
  intros Hf. induction n as [|n IH]; intros i m x Hx; cbn [fold_z]; [done|]. by rewrite IH, Hf.
Qed.

(** the same byte in a row of places *)
Lemma fold_z_fill base v n : forall i m x,
  fold_z n i (fun i m => upd m (base + i) v) m x = if decide (base + i <= x < base + i + Z.of_nat n) then v else m x.
Proof.
  induction n as [|n IH]; intros i m x; cbn [fold_z]; [case_decide; [lia|done]|].
  rewrite IH, upd_case. repeat case_decide; done || lia.
Qed.

(** ** What formatting leaves alone *)

(** the buffer, the disk and the static super block may have changed *)
Record formats (st st' : sys) : Prop := {
  fm_touched : touched st st';
  fm_tmp : sb_tmp st' = sb_tmp st;
  fm_sects : dev_sects (disk st' (MINOR ROOT_DEV)) = dev_sects (disk st (MINOR ROOT_DEV)) }.

Lemma formats_refl st : formats st st.
Proof. split; [apply touched_refl|done|done]. Qed.
Lemma formats_trans st1 st2 st3 : formats st1 st2 -> formats st2 st3 -> formats st1 st3.
Proof. intros [A1 A2 A3] [B1 B2 B3]. split; [by eapply touched_trans|congruence|congruence]. Qed.
Lemma formats_wr n st : formats st (wr_state n st).
Proof. split; [apply touched_wr|done|]. cbn [wr_state with_disk disk set_disk]. by rewrite upd_eq. Qed.
Lemma formats_rd n st : formats st (rd_state n st).
Proof. split; [apply touched_rd|done|done]. Qed.
Lemma formats_mem m st : agree_out fsbuf SECTOR_SIZE (fmem st) m -> formats st (with_mem m st).
Proof.
  intros H. split; [split; [|done]|done|done]. apply only_buf_mem. eapply agree_out_weaken; [| |exact H]; unfold FSBUF_SIZE;
    autounfold with consts; lia.
Qed.
#[export] Hint Resolve formats_refl formats_wr formats_rd : bazinga.

(** the sector [n] is written from a buffer holding [m] *)
Definition sect_written (n : Z) (m d d' : mem) : Prop :=
  (forall j, 0 <= j < SECTOR_SIZE -> d' (n * SECTOR_SIZE + j) = m (fsbuf + j)) /\
  (forall a, a < n * SECTOR_SIZE \/ (n + 1) * SECTOR_SIZE <= a -> d' a = d a).

Lemma write_buffer n m st : agree_out fsbuf SECTOR_SIZE (fmem st) m ->
  formats st (wr_state n (with_mem m st)) /\ sect_written n m (rdisk st) (rdisk (wr_state n (with_mem m st))).
Proof.
  intros H. split; [eapply formats_trans; [by apply formats_mem|apply formats_wr]|]. split.
  - intros j Hj. by rewrite wr_state_disk.
  - intros a Ha. by rewrite wr_state_other.
Qed.

Lemma memset_out v m : agree_out fsbuf SECTOR_SIZE m (memset fsbuf v SECTOR_SIZE m).
Proof. intros x Hx. rewrite memset_spec. case_decide; [lia|done]. Qed.

(** ** The super block *)

Definition sb_words (s : super_block) : list Z :=
  [magic s; nr_inodes s; nr_sects s; nr_imap_sects s; nr_smap_sects s; n_1st_sect s; nr_inode_sects s; sb_root_inode s;
   inode_size s; inode_iszie_off s; inode_start_off s; dir_ent_size s; dir_ent_inode_off s; dir_ent_fname_off s].

(** the super block that is read back from a sector *)
Lemma sb_at_put a s m : Forall word (sb_words s) -> set_sb_dev 0 (sb_at (put_sb a s m) a) = set_sb_dev 0 s.
Proof.
  intros Hw. assert (H : forall i w, sb_words s !! i = Some w -> ld32 (put_sb a s m) (a + 4 * Z.of_nat i) = w).
  { intros i w Hi. apply put_words_at; [|by eapply Forall_lookup_1].
    change ((sb_words s ++ [sb_dev s]) !! i = Some w). by apply lookup_app_l_Some. }
  set (m' := put_sb a s m) in *. clearbody m'. unfold sb_at, set_sb_dev. cbn.
  pose proof (H 0%nat _ eq_refl) as H0. rewrite Z.add_0_r in H0. rewrite H0.
  f_equal; first [exact (H 1%nat _ eq_refl)|exact (H 2%nat _ eq_refl)|exact (H 3%nat _ eq_refl)|exact (H 4%nat _ eq_refl)
    |exact (H 5%nat _ eq_refl)|exact (H 6%nat _ eq_refl)|exact (H 7%nat _ eq_refl)|exact (H 8%nat _ eq_refl)
    |exact (H 9%nat _ eq_refl)|exact (H 10%nat _ eq_refl)|exact (H 11%nat _ eq_refl)|exact (H 12%nat _ eq_refl)
    |exact (H 13%nat _ eq_refl)].
Qed.

Lemma set_superblock_run st :
  let s := make_sb (dev_sects (disk st (MINOR ROOT_DEV))) (sb_tmp st) in
  exists m st', set_superblock st = Ok tt st' /\ formats (set_sb_tmp s st) st' /\
    sect_written 1 (put_sb fsbuf s m) (rdisk st) (rdisk st').
Proof.
  intros s. unfold set_superblock. rewrite (bind_run _ _ _ _ _ (driver_root st)).
  set (st1 := set_sb_tmp s st). rewrite bind_modify. fold s st1.
  set (f := fun i m => upd m (fsbuf + i) (u8 0xF0)).
  rewrite (bind_run _ _ _ _ _ (for_z_run _ f (fun i st => eq_refl) _ 0 st1)).
  set (m1 := fold_z _ _ _ _). rewrite (bind_run get _ _ (with_mem m1 st1) (with_mem m1 st1) eq_refl).
  change (sb_tmp (with_mem m1 st1)) with s.
  rewrite bind_modm, with_mem_twice. change (fmem (with_mem m1 st1)) with m1.
  rewrite WR_SECT_run by (unfold sect_ok; lia). exists m1. eexists. split; [done|]. apply (write_buffer 1 _ st1).
  intros x Hx. unfold put_sb. rewrite put_words_out by (cbn [List.length]; autounfold with consts in *; lia).
  unfold m1. rewrite (fold_z_fill fsbuf (u8 0xF0)). case_decide; [|done]. autounfold with consts in *. lia.
Qed.

(** ** The map of inodes *)

Lemma set_imap_run st : exists st', set_imap st = Ok tt st' /\ formats st st' /\
  (forall j, 0 <= j < SECTOR_SIZE -> rdisk st' (IMAP_POS + j) = if decide (j = 0) then 0x3F else 0) /\
  (forall a, a < IMAP_POS \/ IMAP_POS + SECTOR_SIZE <= a -> rdisk st' a = rdisk st a).
Proof.
  unfold set_imap. rewrite bind_modm. set (m0 := memset _ _ _ _).
  set (f := fun i (m : mem) => upd m (fsbuf + 0) (u8 (Z.lor (m (fsbuf + 0)) (Z.shiftl 1 i)))).
  rewrite (bind_run _ _ _ _ _ (for_z_run _ f (fun i st => eq_refl) _ 0 (with_mem m0 st))).
  set (m1 := fold_z _ _ _ _). rewrite with_mem_twice.
  change (setb 0 0x3F) with (modm (fun m => upd m (fsbuf + 0) 0x3F)). rewrite bind_modm, with_mem_twice.
  change (fmem (with_mem m1 st)) with m1.
  set (m2 := upd m1 _ _). rewrite WR_SECT_run by (unfold sect_ok; lia).
  assert (Hm : forall x, x <> fsbuf -> m2 x = m0 x).
  { intros x Hx. unfold m2, m1. rewrite upd_ne by lia. apply (fold_z_out f fsbuf (fsbuf + 1)); [|lia].
    intros i m y Hy. apply upd_ne. lia. }
  destruct (write_buffer 2 m2 st) as [F [W1 W2]].
  { intros x Hx. rewrite Hm by (autounfold with consts in *; lia). by apply memset_out. }
  eexists. split; [done|]. split; [exact F|]. unfold IMAP_POS. split; [|intros a Ha; apply W2; lia].
  intros j Hj. rewrite W1 by done. case_decide as E; [subst j; unfold m2; by rewrite upd_eq|].
  rewrite Hm by lia. unfold m0. rewrite memset_spec, decide_True by lia. done.
Qed.

(** ** The map of sectors *)

(** the bytes of the map before the sectors of cmd.tar are marked *)
Definition smap_byte0 (j : Z) : Z := if decide (j < 256) then 0xFF else if decide (j = 256) then 1 else 0.

Lemma smap_bit0 j k : 0 <= j -> 0 <= k < 8 -> Z.testbit (smap_byte0 j) k = (8 * j + k <=? NR_DEFAULT_FILE_SECTS).
Proof.
  intros Hj Hk. unfold smap_byte0. change NR_DEFAULT_FILE_SECTS with 2048.
  case_decide; [|case_decide].
  - rewrite (proj2 (Z.leb_le _ _)) by lia. change 0xFF with (Z.ones 8). apply Z.ones_spec_low. lia.
  - subst j. destruct (decide (k = 0)) as [->|]; [done|]. rewrite (proj2 (Z.leb_gt _ _)) by lia.
    change 1 with (Z.ones 1). apply Z.ones_spec_high. lia.
  - rewrite (proj2 (Z.leb_gt _ _)) by lia. apply Z.bits_0.
Qed.

(** the sectors of the map behind the first one *)
Lemma zero_sects_run n : forall i st, 0 <= i -> sect_ok (3 + i + Z.of_nat n) ->
  (forall j, 0 <= j < SECTOR_SIZE -> fmem st (fsbuf + j) = 0) ->
  exists st', for_z n i (fun i => WR_SECT ROOT_DEV (3 + i)) st = Ok tt st' /\ formats st st' /\ fmem st' = fmem st /\
    (forall a, (3 + i) * SECTOR_SIZE <= a < (3 + i + Z.of_nat n) * SECTOR_SIZE -> rdisk st' a = 0) /\
    (forall a, a < (3 + i) * SECTOR_SIZE \/ (3 + i + Z.of_nat n) * SECTOR_SIZE <= a -> rdisk st' a = rdisk st a).
Proof.
  induction n as [|n IH]; intros i st Hi Hs Hz; cbn [for_z].
  { exists st. split; [done|]. split; [apply formats_refl|]. split; [done|]. split; [intros a Ha; lia|done]. }
  rewrite (bind_run _ _ _ _ _ (WR_SECT_run (3 + i) st ltac:(unfold sect_ok in *; lia))).
  destruct (IH (i + 1) (wr_state (3 + i) st)) as (st' & E & F & M & Z1 & Z2); [lia|unfold sect_ok in *; lia|done|].
  exists st'. split; [done|]. split; [eapply formats_trans; [apply formats_wr|exact F]|]. split; [by rewrite M|]. split.
  - intros a Ha. destruct (decide ((3 + (i + 1)) * SECTOR_SIZE <= a)) as [H|H]; [apply Z1; autounfold with consts in *; lia|].
    rewrite Z2 by (autounfold with consts in *; lia). replace a with ((3 + i) * SECTOR_SIZE + (a - (3 + i) * SECTOR_SIZE)) by lia.
    rewrite wr_state_disk by (autounfold with consts in *; lia). apply Hz. autounfold with consts in *. lia.
  - intros a Ha. autounfold with consts in *. rewrite Z2 by lia. apply wr_state_other. autounfold with consts. lia.
Qed.

(** bits [x .. x + n - 1] of the map at [A] are set *)
Record bits_set (A x n : Z) (d d' : mem) : Prop := {
  bs_bytes : bytes_ok d';
  bs_bits : forall k, 0 <= k -> mbit d' A k = mbit d A k || ((x <=? k) && (k <? x + n));
  bs_out : forall a, a < A + x / 8 \/ A + (x + n + 7) / 8 <= a -> d' a = d a }.

Lemma bits_set_nil A x d : bytes_ok d -> bits_set A x 0 d d.
Proof.
  intros Hd. split; [done| |done]. intros k Hk. destruct ((x <=? k) && (k <? x + 0)) eqn:E; [zbool; lia|by rewrite orb_false_r].
Qed.

Lemma bits_set_cons A x n d d' : 0 <= x -> 0 <= n -> bytes_ok d -> bits_set A (x + 1) n (set_mbit A x d) d' ->
  bits_set A x (n + 1) d d'.
Proof.
  intros Hx Hn Hd [B1 B2 B3]. split; [done| |].
  - intros k Hk. rewrite B2, mbit_set by done. rewrite <- orb_assoc. f_equal.
    apply eq_bool_prop_intro. rewrite !orb_True, !andb_True, !Is_true_true, !Z.eqb_eq, !Z.leb_le, !Z.ltb_lt. lia.
  - intros a Ha. rewrite B3 by (Z.div_mod_to_equations; lia). unfold set_mbit. apply upd_ne. Z.div_mod_to_equations. lia.
Qed.

Lemma set_bit_run s byte bit st : 0 <= byte < SECTOR_SIZE -> 0 <= bit < 8 -> bytes_ok (vdisk s st) ->
  exists st', (b ← getb byte; setb byte (Z.lor b (Z.shiftl 1 bit))) st = Ok tt st' /\ formats st st' /\
    vdisk s st' = upd (vdisk s st) (s * SECTOR_SIZE + byte) (Z.lor (vdisk s st (s * SECTOR_SIZE + byte)) (Z.shiftl 1 bit)).
Proof.
  intros Hb Hk Hd. rewrite (bind_run _ _ _ _ _ (getb_run s byte st Hb)). set (v := Z.lor _ _).
  assert (Hv : byte_ok v) by (apply set_bit_byte; [apply Hd|done]).
  destruct (setb_run s byte v st Hb) as (st' & E & T & V). exists st'. split; [done|].
  rewrite u8_id in V by exact Hv. split; [|done].
  injection E as <-. by split.
Qed.

Lemma bytes_ok_set_mbit A x d : 0 <= x -> bytes_ok d -> bytes_ok (set_mbit A x d).
Proof.
  intros Hx Hd a. unfold set_mbit. rewrite upd_case. case_decide; [|apply Hd].
  apply set_bit_byte; [apply Hd|apply Z.mod_pos_bound; lia].
Qed.

(** the sector behind the last byte of this one *)
Lemma cross_sect_run {A} s (k : M sys A) st : sect_ok s -> sect_ok (s + 1) ->
  exists st', (WR_SECT ROOT_DEV s ;; RD_SECT ROOT_DEV (s + 1) ;; k) st = k st' /\ formats st st' /\
    vdisk (s + 1) st' = vdisk s st.
Proof.
  intros H1 H2. rewrite (bind_run _ _ _ _ _ (WR_SECT_run s st H1)), (bind_run _ _ _ _ _ (RD_SECT_run (s + 1) _ H2)).
  exists (rd_state (s + 1) (wr_state s st)). split; [done|]. split; [|apply vdisk_rd].
  eapply formats_trans; [apply formats_wr|apply formats_rd].
Qed.

(** the bits of cmd.tar, which may reach into further sectors of the map *)
Lemma install_run n : forall sect byte bit st, 0 <= sect -> 0 <= byte < SECTOR_SIZE -> 0 <= bit < 8 ->
  sect_ok (3 + sect + Z.of_nat n) -> bytes_ok (vdisk (3 + sect) st) ->
  exists sect' st', install_bits n 3 sect byte bit st = Ok sect' st' /\ formats st st' /\ sect <= sect' <= sect + Z.of_nat n /\
    bits_set SMAP_POS (8 * (sect * SECTOR_SIZE + byte) + bit) (Z.of_nat n) (vdisk (3 + sect) st) (vdisk (3 + sect') st').
Proof.
  induction n as [|n IH]; intros sect byte bit st Hs Hb Hk Hok Hd.
  { exists sect, st. split; [done|]. split; [apply formats_refl|]. split; [lia|by apply bits_set_nil]. }
  cbn [install_bits]. set (x := 8 * (sect * SECTOR_SIZE + byte) + bit).
  destruct (set_bit_run (3 + sect) byte bit st Hb Hk Hd) as (st1 & E1 & F1 & V1).
  assert (Ex : x / 8 = sect * SECTOR_SIZE + byte /\ x `mod` 8 = bit) by (unfold x; Z.div_mod_to_equations; lia).
  assert (V1' : vdisk (3 + sect) st1 = set_mbit SMAP_POS x (vdisk (3 + sect) st)).
  { rewrite V1. unfold set_mbit, SMAP_POS, SMAP_SECT. destruct Ex as [-> ->].
    by replace (3 * SECTOR_SIZE + (sect * SECTOR_SIZE + byte)) with ((3 + sect) * SECTOR_SIZE + byte) by lia. }
  assert (Hx : 0 <= x) by (unfold x; autounfold with consts in *; lia).
  assert (Hd1 : bytes_ok (vdisk (3 + sect) st1)) by (rewrite V1'; by apply bytes_ok_set_mbit).
  assert (Hstep : forall sect1 byte1 bit1 st2, formats st st2 -> vdisk (3 + sect1) st2 = vdisk (3 + sect) st1 ->
    0 <= byte1 < SECTOR_SIZE -> 0 <= bit1 < 8 -> sect <= sect1 <= sect + 1 ->
    8 * (sect1 * SECTOR_SIZE + byte1) + bit1 = x + 1 ->
    exists sect' st', install_bits n 3 sect1 byte1 bit1 st2 = Ok sect' st' /\ formats st st' /\ sect <= sect' <= sect + Z.of_nat (S n) /\
      bits_set SMAP_POS x (Z.of_nat (S n)) (vdisk (3 + sect) st) (vdisk (3 + sect') st')).
  { intros sect1 byte1 bit1 st2 F2 V2 Hb1 Hk1 Hs1 Hx1.
    destruct (IH sect1 byte1 bit1 st2) as (sect' & st' & E & F & Hs' & B); try done; [lia|unfold sect_ok in *; lia|by rewrite V2|].
    exists sect', st'. split; [done|]. split; [by eapply formats_trans|]. split; [lia|].
    rewrite Hx1, V2, V1' in B. replace (Z.of_nat (S n)) with (Z.of_nat n + 1) by lia. apply bits_set_cons; try done. lia. }
  assert (Eb : forall K : M sys Z, (b ← getb byte; setb byte (Z.lor b (Z.shiftl 1 bit)) ;; K) st = K st1).
  { intros K. pose proof (getb_run (3 + sect) byte st Hb) as Eg. rewrite (bind_run _ _ _ _ _ Eg) in E1.
    rewrite (bind_run _ _ _ _ _ Eg). by rewrite (bind_run _ _ _ _ _ E1). }
  rewrite Eb. destruct (bit + 1 =? 8) eqn:E8; zbool; [destruct (byte + 1 =? SECTOR_SIZE) eqn:E5; zbool|].
  - replace (3 + (sect + 1)) with (3 + sect + 1) by lia.
    destruct (cross_sect_run (3 + sect) (install_bits n 3 (sect + 1) 0 0) st1) as (st2 & E2 & F2 & V2);
      [unfold sect_ok in *; lia..|].
    rewrite E2. apply Hstep; [by eapply formats_trans|by replace (3 + (sect + 1)) with (3 + sect + 1) by lia|clia|lia|lia|].
    unfold x. autounfold with consts in *. lia.
  - apply Hstep; try done; unfold x; autounfold with consts in *; lia.
  - apply Hstep; try done; unfold x; autounfold with consts in *; lia.
Qed.

(** the bit of the first sector of cmd.tar *)
Definition tar_bit (n1 : Z) : Z := INSTALL_START_SECT - n1 + 1.
(** the sector map of a new file system: the reserved bit, the root directory and
    cmd.tar *)
Definition smap_new (n1 k : Z) : bool :=
  (k <=? NR_DEFAULT_FILE_SECTS) || ((tar_bit n1 <=? k) && (k <? tar_bit n1 + INSTALL_NR_SECTS)).

(** the fields of the super block that the other steps use, for [N] map sectors *)
Record sb_layout (s : super_block) (N : Z) : Prop := {
  ly_imap : nr_imap_sects s = 1;
  ly_smap : nr_smap_sects s = N;
  ly_n1 : n_1st_sect s = 259 + N;
  ly_range : 9 <= N <= 1024 }.

Lemma for_z_ext n : forall i f g, (forall j, f j = g j) -> for_z n i f = for_z n i g.
Proof. induction n as [|n IH]; intros i f g H; cbn [for_z]; [done|]. by rewrite H, (IH _ f g H). Qed.

(** the part of the map that is written first *)
Lemma smap_clear_run {A} (K : M sys A) N st : sb_layout (sb_tmp st) N ->
  exists st', (modm (memset fsbuf 0 SECTOR_SIZE) ;;
      for_z (Z.to_nat ((NR_DEFAULT_FILE_SECTS + 1) / 8)) 0 (fun i => setb i 0xFF) ;;
      for_z (Z.to_nat ((NR_DEFAULT_FILE_SECTS + 1) `mod` 8)) 0 (fun i => b ← getb ((NR_DEFAULT_FILE_SECTS + 1) / 8);
        setb ((NR_DEFAULT_FILE_SECTS + 1) / 8) (Z.lor b (Z.shiftl 1 i))) ;;
      WR_SECT ROOT_DEV 3 ;;
      modm (memset fsbuf 0 SECTOR_SIZE) ;;
      for_z (Z.to_nat (N - 1)) 1 (fun i => WR_SECT ROOT_DEV (3 + i)) ;; K) st = K st' /\ formats st st' /\
    (forall j, 0 <= j < N * SECTOR_SIZE -> rdisk st' (SMAP_POS + j) = smap_byte0 j) /\
    (forall a, a < SMAP_POS \/ SMAP_POS + N * SECTOR_SIZE <= a -> rdisk st' a = rdisk st a).
Proof.
  intros [_ _ _ HN]. rewrite bind_modm. set (m0 := memset _ _ _ _).
  rewrite (bind_run _ _ _ _ _ (for_z_run _ (fun i m => upd m (fsbuf + i) (u8 0xFF)) (fun i st => eq_refl) _ 0 (with_mem m0 st))).
  rewrite with_mem_twice. set (m1 := fold_z _ _ _ _).
  change (Z.to_nat ((NR_DEFAULT_FILE_SECTS + 1) `mod` 8)) with 1%nat. change ((NR_DEFAULT_FILE_SECTS + 1) / 8) with 256.
  set (f := fun i (m : mem) => upd m (fsbuf + 256) (u8 (Z.lor (m (fsbuf + 256)) (Z.shiftl 1 i)))).
  rewrite (bind_run _ _ _ _ _ (for_z_run _ f (fun i st => eq_refl) _ 0 (with_mem m1 st))).
  rewrite with_mem_twice. set (m2 := fold_z _ _ _ _).
  assert (M2 : forall j, 0 <= j < SECTOR_SIZE -> m2 (fsbuf + j) = smap_byte0 j).
  { intros j Hj. unfold m2. cbn [fold_z]. unfold f. change (fmem (with_mem m1 st)) with m1.
    assert (M1 : forall j, 0 <= j < SECTOR_SIZE -> m1 (fsbuf + j) = if decide (j < 256) then 0xFF else 0).
    { intros j' Hj'. unfold m1. rewrite (fold_z_fill fsbuf (u8 0xFF)). change (Z.of_nat (Z.to_nat ((NR_DEFAULT_FILE_SECTS + 1) / 8))) with 256.
      change (fmem (with_mem m0 st)) with m0. repeat case_decide; try lia; [done|].
      unfold m0. rewrite memset_spec, decide_True by lia. done. }
    rewrite upd_case. unfold smap_byte0. rewrite (M1 256) by clia.
    rewrite (decide_False (P := 256 < 256)) by lia.
    destruct (decide (fsbuf + j = fsbuf + 256)).
    - rewrite (decide_False (P := j < 256)), (decide_True (P := j = 256)) by lia. done.
    - rewrite M1 by done. repeat case_decide; done || lia. }
  assert (M2' : agree_out fsbuf SECTOR_SIZE (fmem st) m2).
  { intros x Hx. unfold m2. change (fmem (with_mem m1 st)) with m1. rewrite (fold_z_out f (fsbuf + 256) (fsbuf + 257)); [|intros i m y Hy; apply upd_ne; lia|autounfold with consts in *; lia].
    unfold m1. rewrite (fold_z_fill fsbuf (u8 0xFF)). change (Z.of_nat (Z.to_nat ((NR_DEFAULT_FILE_SECTS + 1) / 8))) with 256.
    case_decide; [autounfold with consts in *; lia|]. by apply memset_out. }
  rewrite (bind_run _ _ _ _ _ (WR_SECT_run 3 (with_mem m2 st) ltac:(unfold sect_ok; lia))).
  destruct (write_buffer 3 m2 st M2') as [F1 [W1 W2]]. set (st1 := wr_state 3 (with_mem m2 st)) in *.
  rewrite bind_modm. set (m3 := memset fsbuf 0 SECTOR_SIZE (fmem st1)).
  destruct (zero_sects_run (Z.to_nat (N - 1)) 1 (with_mem m3 st1)) as (st2 & E & F2 & _ & Z1 & Z2);
    [lia|unfold sect_ok; lia| |].
  { intros j Hj. change (fmem (with_mem m3 st1)) with m3. unfold m3. by rewrite memset_spec, decide_True by lia. }
  rewrite (bind_run _ _ _ _ _ E). exists st2. split; [done|].
  assert (Fm : formats st1 (with_mem m3 st1)) by (apply formats_mem, memset_out).
  split; [exact (formats_trans _ _ _ F1 (formats_trans _ _ _ Fm F2))|].
  change (rdisk (with_mem m3 st1)) with (rdisk st1) in Z2. unfold SMAP_POS, SMAP_SECT. rewrite Z2Nat.id in Z1, Z2 by lia. split.
  - intros j Hj. destruct (decide (j < SECTOR_SIZE)).
    + rewrite Z2 by (autounfold with consts in *; lia). rewrite W1 by lia. apply M2. lia.
    + rewrite Z1 by (autounfold with consts in *; lia). unfold smap_byte0. rewrite !decide_False by clia. done.
  - intros a Ha. rewrite Z2 by (autounfold with consts in *; lia). apply W2. autounfold with consts in *. lia.
Qed.

Lemma smap_bits0 d N : (forall j, 0 <= j < N * SECTOR_SIZE -> d (SMAP_POS + j) = smap_byte0 j) ->
  forall k, 0 <= k < N * 4096 -> mbit d SMAP_POS k = (k <=? NR_DEFAULT_FILE_SECTS).
Proof.
  intros H k Hk. unfold mbit. assert (0 <= k / 8 < N * SECTOR_SIZE) by (autounfold with consts; Z.div_mod_to_equations; lia).
  rewrite H, smap_bit0 by (try apply Z.mod_pos_bound; lia). f_equal. Z.div_mod_to_equations. lia.
Qed.

Lemma set_smap_run N st : sb_layout (sb_tmp st) N -> bytes_ok (rdisk st) ->
  exists st', set_smap st = Ok tt st' /\ formats st st' /\
    (forall k, 0 <= k < N * 4096 -> mbit (rdisk st') SMAP_POS k = smap_new (259 + N) k) /\
    (forall a, a < SMAP_POS \/ SMAP_POS + N * SECTOR_SIZE <= a -> rdisk st' a = rdisk st a).
Proof.
  intros Hly Hd. unfold set_smap. rewrite (bind_run get _ st st st eq_refl).
  pose proof Hly as [L1 L2 L3 L4]. rewrite L1, L2, L3. change (2 + 1) with 3. cbv zeta.
  assert (Ex : i32 (INSTALL_START_SECT - (259 + N) + 1) = tar_bit (259 + N)) by (unfold tar_bit; apply i32_id; clia). rewrite Ex. clear Ex.
  assert (Hx : 31486 <= tar_bit (259 + N) <= 32501) by (unfold tar_bit; clia).
  set (K := RD_SECT ROOT_DEV _ ;; _). destruct (smap_clear_run K N st Hly) as (st1 & E1 & F1 & D1 & O1).
  rewrite E1. unfold K. clear E1 K. set (x := tar_bit (259 + N)) in *.
  assert (Eq : Z.quot (Z.quot x 8) SECTOR_SIZE = x / 8 / SECTOR_SIZE /\ Z.rem (Z.quot x 8) SECTOR_SIZE = (x / 8) `mod` SECTOR_SIZE /\
    Z.rem x 8 = x `mod` 8).
  { assert (0 <= x / 8) by (apply Z.div_pos; lia). rewrite !(Z.quot_div_nonneg x 8) by lia.
    rewrite Z.quot_div_nonneg, !Z.rem_mod_nonneg by clia. done. }
  destruct Eq as (-> & -> & ->). set (sect := x / 8 / SECTOR_SIZE).
  assert (Hs : sect = 7) by (unfold sect; autounfold with consts; Z.div_mod_to_equations; lia).
  assert (Hd1 : bytes_ok (rdisk st1)).
  { intros a. destruct (decide (SMAP_POS <= a < SMAP_POS + N * SECTOR_SIZE)); [|rewrite O1 by lia; apply Hd].
    replace a with (SMAP_POS + (a - SMAP_POS)) by lia. rewrite D1 by lia. unfold smap_byte0, byte_ok.
    repeat case_decide; lia. }
  rewrite (bind_run _ _ _ _ _ (RD_SECT_run (3 + sect) st1 ltac:(unfold sect_ok; lia))).
  destruct (install_run (Z.to_nat INSTALL_NR_SECTS) sect ((x / 8) `mod` SECTOR_SIZE) (x `mod` 8) (rd_state (3 + sect) st1))
    as (sect' & st2 & E2 & F2 & Hs2 & B); [lia|apply Z.mod_pos_bound; clia|apply Z.mod_pos_bound; lia
      |change (Z.of_nat (Z.to_nat INSTALL_NR_SECTS)) with 2048; unfold sect_ok; lia|by rewrite vdisk_rd|].
  change (Z.of_nat (Z.to_nat INSTALL_NR_SECTS)) with INSTALL_NR_SECTS in *.
  rewrite (bind_run _ _ _ _ _ E2), WR_SECT_run by (unfold sect_ok; clia).
  exists (wr_state (3 + sect') st2). split; [done|].
  split; [exact (formats_trans _ _ _ F1 (formats_trans _ _ _ (formats_rd _ _) (formats_trans _ _ _ F2 (formats_wr _ _))))|].
  change (rdisk (wr_state (3 + sect') st2)) with (vdisk (3 + sect') st2). rewrite vdisk_rd in B.
  assert (Exx : 8 * (sect * SECTOR_SIZE + (x / 8) `mod` SECTOR_SIZE) + x `mod` 8 = x)
    by (unfold sect; autounfold with consts; Z.div_mod_to_equations; lia).
  rewrite Exx in B. destruct B as [_ B2 B3]. split.
  - intros k Hk. rewrite B2, (smap_bits0 _ N D1) by lia. done.
  - intros a Ha. rewrite B3; [by apply O1|]. autounfold with consts in *. Z.div_mod_to_equations. lia.
Qed.

(** ** The inode array *)

(** the inodes of a new file system, from number 1 on *)
Definition new_inodes (n1 : Z) : list inode :=
  [mkInode I_DIRECTORY (5 * DIR_ENT_SIZE) n1 NR_DEFAULT_FILE_SECTS 0 0 0;
   mkInode I_CHAR_SPECIAL 0 (MAKE_DEV DEV_CHAR_TTY 0) 0 0 0 0; mkInode I_CHAR_SPECIAL 0 (MAKE_DEV DEV_CHAR_TTY 1) 0 0 0 0;
   mkInode I_CHAR_SPECIAL 0 (MAKE_DEV DEV_CHAR_TTY 2) 0 0 0 0;
   mkInode I_REGULAR (INSTALL_NR_SECTS * SECTOR_SIZE) INSTALL_START_SECT INSTALL_NR_SECTS 0 0 0].

Fixpoint put_inodes (a : Z) (l : list inode) (m : mem) : mem :=
  match l with [] => m | x :: l' => put_inodes (a + INODE_SIZE) l' (put_inode_at a x m) end.

Lemma put_inodes_out l : forall a m b, b < a \/ a + INODE_SIZE * Z.of_nat (List.length l) <= b -> put_inodes a l m b = m b.
Proof.
  induction l as [|x l IH]; intros a m b Hb; [done|]. cbn [put_inodes List.length] in *.
  rewrite IH by (autounfold with consts in *; lia). apply put_inode_at_out. autounfold with consts in *. lia.
Qed.

Definition words_at (m : mem) (a : Z) := (ld32 m a, ld32 m (a + 4), ld32 m (a + 8), ld32 m (a + 12)).
Lemma words_at_ext m m' a a' : (forall i, 0 <= i < 16 -> m (a + i) = m' (a' + i)) -> words_at m a = words_at m' a'.
Proof.
  intros H. unfold words_at. rewrite (ld32_shift m m' a a') by (intros; apply H; lia).
  rewrite (ld32_shift m m' (a + 4) (a' + 4)), (ld32_shift m m' (a + 8) (a' + 8)), (ld32_shift m m' (a + 12) (a' + 12));
    [done|intros i Hi; rewrite <- !Z.add_assoc; apply H; lia..].
Qed.

Lemma put_inodes_at l : forall a m i x, l !! i = Some x -> words_ok x ->
  words_at (put_inodes a l m) (a + INODE_SIZE * Z.of_nat i) = disk_words x.
Proof.
  induction l as [|y l IH]; intros a m i x Hi Hx; [done|]. cbn [put_inodes]. destruct i as [|i].
  - injection Hi as ->. rewrite Z.mul_0_r, Z.add_0_r. rewrite <- (put_inode_at_words a x m Hx). apply words_at_ext.
    intros i Hi. apply put_inodes_out. autounfold with consts. lia.
  - replace (a + INODE_SIZE * Z.of_nat (S i)) with (a + INODE_SIZE + INODE_SIZE * Z.of_nat i) by lia. by apply IH.
Qed.

Lemma new_inodes_ok n1 : 0 <= n1 < 4294967296 -> Forall words_ok (new_inodes n1).
Proof.
  intros H. apply Forall_cons. split; [split; [done|split; [done|split; [exact H|done]]]|].
  repeat (apply Forall_cons; split; [done|]). by apply Forall_nil.
Qed.

Lemma set_inode_array_run N st : sb_layout (sb_tmp st) N ->
  exists st', set_inode_array st = Ok tt st' /\ formats st st' /\
    (forall i x, new_inodes (259 + N) !! i = Some x ->
       words_at (rdisk st') ((3 + N) * SECTOR_SIZE + INODE_SIZE * Z.of_nat i) = disk_words x) /\
    (forall a, a < (3 + N) * SECTOR_SIZE \/ (4 + N) * SECTOR_SIZE <= a -> rdisk st' a = rdisk st a).
Proof.
  intros [L1 L2 L3 L4]. unfold set_inode_array. rewrite (bind_run get _ st st st eq_refl), L1, L2, L3. cbv zeta.
  rewrite bind_modm. set (m0 := memset _ _ _ _). rewrite bind_modm, with_mem_twice. set (m1 := put_inode_at _ _ _).
  set (f := fun i => put_inode_at (fsbuf + (i + 1) * INODE_SIZE) (mkInode I_CHAR_SPECIAL 0 (MAKE_DEV DEV_CHAR_TTY i) 0 0 0 0)).
  rewrite (bind_run _ _ _ _ _ (for_z_run _ f (fun i st => eq_refl) _ 0 (with_mem m1 st))).
  rewrite with_mem_twice, bind_modm, with_mem_twice. set (m2 := put_inode_at _ _ _).
  assert (Em : m2 = put_inodes fsbuf (new_inodes (259 + N)) m0) by reflexivity.
  rewrite WR_SECT_run by (unfold sect_ok; lia).
  destruct (write_buffer (2 + 1 + N) m2 st) as [F [W1 W2]].
  { intros a Ha. rewrite Em, put_inodes_out by (change (List.length (new_inodes (259 + N))) with 5%nat; autounfold with consts in *; lia).
    by apply memset_out. }
  eexists. split; [done|]. split; [exact F|]. replace (3 + N) with (2 + 1 + N) by lia. split; [|intros a Ha; apply W2; lia].
  intros i x Hi. pose proof (lookup_lt_Some _ _ _ Hi) as Hlt. change (List.length (new_inodes (259 + N))) with 5%nat in Hlt.
  assert (Hx : words_ok x) by (eapply Forall_lookup_1; [apply (new_inodes_ok (259 + N)); lia|exact Hi]).
  rewrite <- (put_inodes_at _ fsbuf m0 i x Hi Hx), <- Em. apply words_at_ext. intros j Hj.
  rewrite <- (Z.add_assoc (_ * SECTOR_SIZE)), <- (Z.add_assoc fsbuf). apply W1. autounfold with consts. lia.
Qed.

(** ** The root directory *)

Definition put_entry (j nr : Z) (name : list Z) (m : mem) : mem := put_bytes (de_name j) name (st32 (de_addr j) nr m).
Definition put_tty (i : Z) (m : mem) : mem := put_entry (i + 1) (i + 2) (text "dev_tty" ++ decimal i) m.
(** the entries of a new root directory, in a buffer *)
Definition root_entries (m : mem) : mem :=
  put_entry 4 5 (text "cmd.tar") (fold_z 3 0 put_tty (put_entry 0 1 (text "." ++ [0]) m)).
(** the first sector of the directory *)
Definition root_sector (j : Z) : Z := root_entries (fun _ => 0) (fsbuf + j).
Definition root_names : list (list Z) := [text "."; text "dev_tty0"; text "dev_tty1"; text "dev_tty2"; text "cmd.tar"].

Lemma put_de_run j nr name st : put_de j nr name st = Ok tt (with_mem (put_entry j nr name (fmem st)) st).
Proof. unfold put_de. rewrite bind_modm. by destruct st as [[] ? ? ? ? ? ?]. Qed.

Lemma st32_local a w m m' x : m x = m' x -> st32 a w m x = st32 a w m' x.
Proof. intros H. unfold st32. rewrite !upd_case. by repeat case_decide. Qed.
Lemma put_bytes_local l : forall p m m' x, m x = m' x -> put_bytes p l m x = put_bytes p l m' x.
Proof.
  induction l as [|c l IH]; intros p m m' x H; [done|]. cbn [put_bytes]. apply IH. rewrite !upd_case. by case_decide.
Qed.
Lemma put_entry_local j nr name m m' x : m x = m' x -> put_entry j nr name m x = put_entry j nr name m' x.
Proof. intros H. by apply put_bytes_local, st32_local. Qed.
Lemma root_entries_local m m' x : m x = m' x -> root_entries m x = root_entries m' x.
Proof. intros H. unfold root_entries. cbn [fold_z]. unfold put_tty. by do 5 apply put_entry_local. Qed.

Lemma put_entry_out j nr name m x : 0 <= j -> (List.length name <= 12)%nat ->
  x < fsbuf \/ fsbuf + (j + 1) * DIR_ENT_SIZE <= x -> put_entry j nr name m x = m x.
Proof.
  intros Hj Hl Hx. unfold put_entry, de_name, de_addr. autounfold with consts in *.
  rewrite put_bytes_out by lia. apply st32_out. lia.
Qed.
Lemma tty_name_len i : 0 <= i < 3 -> (List.length (text "dev_tty" ++ decimal i) <= 12)%nat.
Proof. intros Hi. assert (i = 0 \/ i = 1 \/ i = 2) as [-> |[-> | ->]] by lia; apply Nat.leb_le; vm_compute; reflexivity. Qed.
Lemma put_tty_out i m x : 0 <= i < 3 -> x < fsbuf \/ fsbuf + 5 * DIR_ENT_SIZE <= x -> put_tty i m x = m x.
Proof. intros Hi Hx. apply put_entry_out; [lia|by apply tty_name_len|]. autounfold with consts in *. lia. Qed.
Lemma root_entries_out m x : x < fsbuf \/ fsbuf + 5 * DIR_ENT_SIZE <= x -> root_entries m x = m x.
Proof.
  intros Hx. unfold root_entries. cbn [fold_z].
  rewrite put_entry_out; [|lia|apply Nat.leb_le; vm_compute; reflexivity|autounfold with consts in *; lia].
  rewrite !put_tty_out by (done || lia).
  apply put_entry_out; [lia|apply Nat.leb_le; vm_compute; reflexivity|autounfold with consts in *; lia].
Qed.

Lemma set_root_de_run N st : sb_layout (sb_tmp st) N ->
  exists st', set_root_de st = Ok tt st' /\ formats st st' /\
    (forall j, 0 <= j < SECTOR_SIZE -> rdisk st' ((259 + N) * SECTOR_SIZE + j) = root_sector j) /\
    (forall a, a < (259 + N) * SECTOR_SIZE \/ (260 + N) * SECTOR_SIZE <= a -> rdisk st' a = rdisk st a).
Proof.
  intros [L1 L2 L3 L4]. unfold set_root_de. rewrite bind_modm. set (m0 := memset _ _ _ _).
  rewrite (bind_run _ _ _ _ _ (put_de_run _ _ _ _)), with_mem_twice.
  rewrite (bind_run _ _ _ _ _ (for_z_run _ put_tty (fun i st => put_de_run _ _ _ st) _ 0 _)), with_mem_twice.
  rewrite (bind_run _ _ _ _ _ (put_de_run _ _ _ _)), with_mem_twice.
  set (m1 := put_entry (NR_CONSOLES + 1) _ _ _). assert (Em : m1 = root_entries m0) by reflexivity. clearbody m1.
  rewrite (bind_run get _ _ (with_mem m1 st) (with_mem m1 st) eq_refl).
  change (sb_tmp (with_mem m1 st)) with (sb_tmp st). rewrite L3, WR_SECT_run by (unfold sect_ok; lia).
  destruct (write_buffer (259 + N) m1 st) as [F [W1 W2]].
  { intros x Hx. rewrite Em, root_entries_out by (autounfold with consts in *; lia). by apply memset_out. }
  eexists. split; [done|]. split; [exact F|]. split; [|intros a Ha; apply W2; lia].
  intros j Hj. rewrite W1, Em by done. apply root_entries_local. unfold m0. by rewrite memset_spec, decide_True by lia.
Qed.

(** what the first sector says *)
Lemma root_sector_names i l : root_names !! i = Some l -> strcmp_at l root_sector (DIR_ENT_SIZE * Z.of_nat i + 4) = 0.
Proof.
  intros Hi. do 5 (destruct i as [|i]; [injection Hi as <-; vm_compute; reflexivity|]). by destruct i.
Qed.
Lemma root_sector_nrs i : (i < 5)%nat -> ld32s root_sector (DIR_ENT_SIZE * Z.of_nat i) = Z.of_nat i + 1.
Proof. intros Hi. do 5 (destruct i as [|i]; [vm_compute; reflexivity|]). lia. Qed.
Lemma root_sector_rest k : 5 <= k < PER_SECT -> root_sector (DIR_ENT_SIZE * k + 4) = 0.
Proof.
  intros Hk. unfold root_sector. rewrite root_entries_out; [done|]. autounfold with consts in *. lia.
Qed.
Lemma root_sector_bytes : bytes_ok root_sector.
Proof.
  intros j. unfold root_sector, root_entries. cbn [fold_z]. unfold put_tty, put_entry.
  repeat (apply bytes_put_bytes; [repeat constructor; vm_compute; done|]; apply bytes_st32). intros x. by split.
Qed.

(** ** Bytes *)

Lemma typed_for_z n : forall i body, (forall i, typed (body i) any) -> typed (for_z n i body) any.
Proof.
  induction n as [|n IH]; intros i body H; cbn [for_z]; [by apply typed_ret|].
  eapply typed_bind; [apply H|]. intros _ _. by apply IH.
Qed.
#[local] Hint Extern 1 (typed (for_z _ _ _) _) => (apply typed_for_z; intros ?; typing) : typing.
#[export] Hint Extern 1 (typed (modify _) _) => (apply typed_frame; intros ?; reflexivity) : typing.

Lemma typed_set_superblock : typed set_superblock any.
Proof. unfold set_superblock, put_sb. typing. Qed.
Lemma typed_set_imap : typed set_imap any.
Proof. unfold set_imap. typing. Qed.
Lemma typed_install_bits n : forall s sect byte bit, typed (install_bits n s sect byte bit) any.
Proof. induction n as [|n IH]; intros s sect byte bit; cbn [install_bits]; typing; apply IH. Qed.
#[local] Hint Resolve typed_install_bits : typing.
Lemma typed_set_smap : typed set_smap any.
Proof. unfold set_smap. typing. Qed.
Lemma typed_set_inode_array : typed set_inode_array any.
Proof. unfold set_inode_array. typing. Qed.
Lemma typed_put_de j nr name : bytes name -> typed (put_de j nr name) any.
Proof. intros H. unfold put_de. typing. Qed.
Lemma bytes_text s : bytes (text s).
Proof.
  unfold bytes, text, byte_ok. apply Forall_fmap, Forall_true. intros c. cbn. destruct c as [b0 b1 b2 b3 b4 b5 b6 b7].
  by destruct b0, b1, b2, b3, b4, b5, b6, b7.
Qed.
Lemma bytes_decimal v : bytes (decimal v).
Proof.
  unfold bytes, decimal. apply Forall_fmap, Forall_forall. intros d Hd. apply digits_range in Hd; [|lia]. cbn.
  unfold digit_char, byte_ok. case_match; zbool; lia.
Qed.
Lemma bytes_app l l' : bytes l -> bytes l' -> bytes (l ++ l').
Proof. apply Forall_app_2. Qed.
Lemma bytes_nul : bytes [0].
Proof. by repeat constructor. Qed.
#[local] Hint Resolve typed_put_de bytes_app bytes_text bytes_decimal bytes_nul : typing.
Lemma typed_set_root_de : typed set_root_de any.
Proof. unfold set_root_de. typing. Qed.
#[local] Hint Resolve typed_set_superblock typed_set_imap typed_set_smap typed_set_inode_array typed_set_root_de : typing.
Lemma typed_mkfs : typed mkfs any.
Proof. unfold mkfs. typing. Qed.

(** ** [mkfs] *)

(** the disk [d'] holds a new file system with [N] sectors of sector map *)
Record new_fs (s : super_block) (N : Z) (d d' : mem) : Prop := {
  nf_sb : exists m, forall j, 0 <= j < SECTOR_SIZE -> d' (SECTOR_SIZE + j) = put_sb fsbuf s m (fsbuf + j);
  nf_imap : forall k, 0 <= k < 4096 -> mbit d' IMAP_POS k = (k <=? 5);
  nf_smap : forall k, 0 <= k < N * 4096 -> mbit d' SMAP_POS k = smap_new (259 + N) k;
  nf_inodes : forall i x, new_inodes (259 + N) !! i = Some x ->
    words_at d' ((3 + N) * SECTOR_SIZE + INODE_SIZE * Z.of_nat i) = disk_words x;
  nf_root : forall j, 0 <= j < SECTOR_SIZE -> d' ((259 + N) * SECTOR_SIZE + j) = root_sector j;
  nf_rest : forall a, (260 + N) * SECTOR_SIZE <= a -> d' a = d a }.

Definition map_sects (size : Z) : Z := size / 4096 + 1.

Lemma make_sb_layout size s : INSTALL_START_SECT <= size < 4190208 ->
  sb_layout (make_sb size s) (map_sects size).
Proof.
  intros H. unfold make_sb, map_sects. rewrite u32_id by clia. change bits_per_sects with 4096.
  split; cbn [nr_imap_sects nr_smap_sects n_1st_sect]; [done|done| |autounfold with consts in *; Z.div_mod_to_equations; lia].
  change (4096 * INODE_SIZE / SECTOR_SIZE) with 256. lia.
Qed.
Lemma make_sb_words size s : INSTALL_START_SECT <= size < 4190208 -> word (dir_ent_size s) -> Forall word (sb_words (make_sb size s)).
Proof.
  intros H Hw. destruct (make_sb_layout size s H) as [L1 L2 L3 L4]. unfold sb_words. rewrite L1, L2, L3.
  unfold make_sb. cbn. unfold word in *. rewrite u32_id by clia.
  repeat (apply Forall_cons; split; [first [done|clia]|]). by apply Forall_nil.
Qed.

Lemma map_positions : IMAP_POS = 2 * SECTOR_SIZE /\ SMAP_POS = 3 * SECTOR_SIZE /\ SECTOR_SIZE = 512.
Proof. split; [reflexivity|split; reflexivity]. Qed.

Lemma mkfs_run st : let size := dev_sects (disk st (MINOR ROOT_DEV)) in
  let s := make_sb size (sb_tmp st) in
  INSTALL_START_SECT <= size < 4190208 -> byte_state st ->
  exists st', mkfs st = Ok tt st' /\ formats (set_sb_tmp s st) st' /\ new_fs s (map_sects size) (rdisk st) (rdisk st').
Proof.
  intros size s Hsize Hb. set (N := map_sects size). pose proof (make_sb_layout size (sb_tmp st) Hsize) as Hly. fold s N in Hly.
  pose proof (ly_range _ _ Hly) as HN. unfold mkfs.
  destruct (set_superblock_run st) as (m & st1 & E1 & F1 & W1 & O1). fold size s in F1, W1.
  pose proof (typed_set_superblock _ _ _ Hb E1) as [B1 _]. rewrite (bind_run _ _ _ _ _ E1).
  destruct (set_imap_run st1) as (st2 & E2 & F2 & W2 & O2). pose proof (typed_set_imap _ _ _ B1 E2) as [B2 _].
  rewrite (bind_run _ _ _ _ _ E2). pose proof (formats_trans _ _ _ F1 F2) as F12.
  assert (Hs : forall st', formats (set_sb_tmp s st) st' -> sb_layout (sb_tmp st') N) by (intros st' F; by rewrite (fm_tmp _ _ F)).
  destruct (set_smap_run N st2 (Hs _ F12)) as (st3 & E3 & F3 & W3 & O3); [apply B2|].
  rewrite (bind_run _ _ _ _ _ E3). pose proof (formats_trans _ _ _ F12 F3) as F13.
  destruct (set_inode_array_run N st3 (Hs _ F13)) as (st4 & E4 & F4 & W4 & O4).
  rewrite (bind_run _ _ _ _ _ E4). pose proof (formats_trans _ _ _ F13 F4) as F14.
  destruct (set_root_de_run N st4 (Hs _ F14)) as (st5 & E5 & F5 & W5 & O5).
  rewrite E5. exists st5. split; [done|]. split; [exact (formats_trans _ _ _ F14 F5)|].
  destruct map_positions as (P1 & P2 & P3).
  assert (C1 : forall a, a < (3 + N) * SECTOR_SIZE -> rdisk st5 a = rdisk st3 a) by (intros a Ha; rewrite O5, O4 by lia; done).
  assert (C2 : forall a, a < 3 * SECTOR_SIZE -> rdisk st5 a = rdisk st2 a) by (intros a Ha; rewrite C1, O3 by lia; done).
  split.
  - exists m. intros j Hj. rewrite C2, O2 by lia. replace (SECTOR_SIZE + j) with (1 * SECTOR_SIZE + j) by lia. by apply W1.
  - intros k Hk. unfold mbit. assert (0 <= k / 8 < SECTOR_SIZE) by (Z.div_mod_to_equations; lia).
    rewrite C2, W2 by lia. case_decide as E.
    + assert (0 <= k < 8) by (Z.div_mod_to_equations; lia). rewrite Z.mod_small by lia. change 0x3F with (Z.ones 6).
      rewrite Z.testbit_ones_nonneg by lia. apply eq_bool_prop_intro. rewrite !Is_true_true, Z.leb_le, Z.ltb_lt. lia.
    + rewrite Z.bits_0. symmetry. apply Z.leb_gt. Z.div_mod_to_equations. lia.
  - intros k Hk. rewrite <- W3 by done. apply mbit_ext. apply C1. Z.div_mod_to_equations. lia.
  - intros i x Hi. rewrite <- (W4 i x Hi). apply words_at_ext. intros j Hj. pose proof (lookup_lt_Some _ _ _ Hi) as Hlt.
    change (List.length (new_inodes (259 + N))) with 5%nat in Hlt. apply O5. unfold INODE_SIZE. lia.
  - done.
  - intros a Ha. rewrite O5, O4, O3, O2, O1 by lia. done.
Qed.
