(* ===== verification/FsMount.v ===== *)
(** * Mounting a new file system (fs/main.c: init_fs, read_super_block)

    On a disk without a file system [init_fs] runs [mkfs] (FsFormat.v), reads the super
    block back and takes the root directory into the inode cache. The result is the
    state every request then starts from: [fs_wf], which opening, writing, deleting and
    closing files keep. *)
From Stdlib Require Import String.
From S2P Require Import Prelude Const CLib Protect Proc Sys Fs FsOps FsInit FsLem FsRw FsRef Task FsMap FsDir FsCreate FsUnlink.
From S2P Require Import FsType FsFormat.

(** ** Reading the super block *)

Lemma sb_at_ext m m' a b : (forall j, 0 <= j < 60 -> m (a + j) = m' (b + j)) -> sb_at m a = sb_at m' b.
Proof.
  intros H. assert (E : forall k, 0 <= k < 57 -> ld32 m (a + k) = ld32 m' (b + k)).
  { intros k Hk. apply ld32_shift. intros i Hi. rewrite <- (Z.add_assoc a), <- (Z.add_assoc b). apply H. lia. }
  unfold sb_at, ld32s. rewrite !E by lia. pose proof (E 0 ltac:(lia)) as E0. rewrite !Z.add_0_r in E0. by rewrite E0.
Qed.

Lemma read_super_block_run st : sb_dev (super_blocks st 0) = NO_DEV ->
  read_super_block ROOT_DEV st = Ok tt
    (set_super_blocks (upd (super_blocks st) 0 (set_sb_dev ROOT_DEV (sb_at (fmem (rd_state 1 st)) fsbuf))) (rd_state 1 st)).
Proof.
  intros H. unfold read_super_block.
  pose proof (rw_sector_run DEV_READ 1 SECTOR_SIZE fsbuf st ltac:(lia) ltac:(done)) as R.
  change (1 * SECTOR_SIZE) with (SECTOR_SIZE * 1) in R. rewrite (bind_run _ _ _ _ _ R).
  change (DEV_READ =? DEV_READ) with true. cbv iota. change (SECTOR_SIZE * 1) with (1 * SECTOR_SIZE). fold (rd_state 1 st).
  rewrite (bind_run get _ _ _ _ eq_refl). change (super_blocks (rd_state 1 st)) with (super_blocks st).
  change (Z.to_nat NR_SUPER_BLOCK) with (S (pred (Z.to_nat NR_SUPER_BLOCK))). cbn [find_first]. rewrite H, Z.eqb_refl.
  by rewrite bind_assert.
Qed.

(** ** The tables before the root directory is taken *)

(** no process has a file open *)
Definition no_open_files (st : sys) : Prop :=
  forall p i, 0 <= p < NR_ALL -> 0 <= i < NR_FILES -> filp (proc_table (kern st) p) i = None.

Record ready (st : sys) : Prop := {
  rd_sb : sb_dev (super_blocks st 0) = NO_DEV;
  rd_inodes : forall i, 0 <= i < NR_INODE -> i_cnt (inode_table st i) = 0;
  rd_fds : forall i, 0 <= i < NR_FILE_DESC -> fd_table st i = zero_fd;
  rd_files : no_open_files st;
  rd_root : 0 <= root_inode st < NR_INODE }.

Lemma ready_ext st st' : only_buf st st' -> inode_table st' = inode_table st -> ready st -> ready st'.
Proof.
  intros B T [H1 H2 H3 H4 H5]. split; rewrite ?(ob_sb _ _ B), ?T, ?(ob_fd _ _ B), ?(ob_root _ _ B); try done.
  intros p i Hp Hi. rewrite (ob_kern _ _ B). by apply H4.
Qed.

(** the root directory of a new file system in the cache *)
Definition root_new (N : Z) : inode := mkInode I_DIRECTORY (5 * DIR_ENT_SIZE) (259 + N) NR_DEFAULT_FILE_SECTS ROOT_DEV 1 ROOT_INODE.

Record mounts (st : sys) (s : super_block) (N : Z) (st' : sys) : Prop := {
  mo_disk : rdisk st' = rdisk st;
  mo_kern : proc_table (kern st') = proc_table (kern st);
  mo_fd : fd_table st' = fd_table st;
  mo_sb : super_blocks st' 0 = set_sb_dev ROOT_DEV s;
  mo_range : 0 <= root_inode st' < NR_INODE;
  mo_root : inode_table st' (root_inode st') = root_new N;
  mo_other : forall i, 0 <= i < NR_INODE -> i <> root_inode st' -> i_cnt (inode_table st' i) = 0 }.

(** the part of [init_fs] behind [mkfs] *)
Definition mount_root : M sys unit :=
  read_super_block ROOT_DEV ;;
  s ← sb_of ROOT_DEV;
  assert_ (magic s =? MAGIC_V1) ;;
  p ← get_inode ROOT_DEV ROOT_INODE;
  modify (set_root_inode p).

Lemma set_sb_dev_twice s d d' : set_sb_dev d (set_sb_dev d' s) = set_sb_dev d s.
Proof. by destruct s. Qed.

Lemma inode_words x m sz s n d c nr : disk_words x = (m, sz, s, n) -> i_dev x = d -> i_cnt x = c -> i_num x = nr ->
  x = mkInode m sz s n d c nr.
Proof. destruct x. cbn. intros [= -> -> -> ->] -> -> ->. done. Qed.

Lemma mount_run st s N d : ready st -> sb_layout s N -> Forall word (sb_words s) -> magic s = MAGIC_V1 ->
  new_fs s N d (rdisk st) -> exists st', mount_root st = Ok tt st' /\ mounts st s N st'.
Proof.
  intros [R1 R2 R3 R4 R5] [L1 L2 L3 L4] Hw Hmag [Hsb _ _ Hino _ _]. unfold mount_root.
  rewrite (bind_run _ _ _ _ _ (read_super_block_run st R1)).
  assert (Es : set_sb_dev ROOT_DEV (sb_at (fmem (rd_state 1 st)) fsbuf) = set_sb_dev ROOT_DEV s).
  { destruct Hsb as [m Hsb]. rewrite (sb_at_ext _ (put_sb fsbuf s m) fsbuf fsbuf).
    - rewrite <- (set_sb_dev_twice _ _ 0), sb_at_put by done. apply set_sb_dev_twice.
    - intros j Hj. rewrite rd_state_buf by (autounfold with consts; lia). rewrite Z.mul_1_l. apply Hsb. autounfold with consts. lia. }
  rewrite Es. set (st1 := set_super_blocks _ _).
  assert (E1 : super_blocks st1 0 = set_sb_dev ROOT_DEV s) by (unfold st1; cbn [super_blocks set_super_blocks]; apply upd_eq).
  assert (Hm : mounted st1) by (split; rewrite ?E1; cbn; [done|done|lia|lia|exact R5]).
  rewrite (bind_run _ _ _ _ _ (sb_of_run st1 Hm)), E1. rewrite bind_assert by (cbn; by rewrite Hmag).
  destruct (get_inode_cache st1 ROOT_INODE Hm) as (p & st2 & E2 & G); [by split| | |].
  { intros x Hx [Hl _]. exfalso. by apply Hl, R2. }
  { right. exists 0. split; [done|]. intros Hl. by apply Hl, R2. }
  rewrite (bind_run _ _ _ _ _ E2). exists (set_root_inode p st2). split; [done|].
  destruct G as [B D P (_ & Id & In) O C W]. split.
  - exact D.
  - change (proc_table (kern st2) = proc_table (kern st)). by rewrite (ob_kern _ _ B).
  - change (fd_table st2 = fd_table st). by rewrite (ob_fd _ _ B).
  - change (super_blocks st2 0 = set_sb_dev ROOT_DEV s). by rewrite (ob_sb _ _ B).
  - exact P.
  - change (inode_table st2 p = root_new N). apply inode_words; [|done| |done].
    + rewrite W. unfold disk_inode. rewrite (inode_pos_linear st1 ROOT_INODE Hm) by done. rewrite E1. cbn [set_sb_dev nr_smap_sects].
      rewrite L2. change (rdisk st1) with (rdisk st). exact (Hino 0%nat _ eq_refl).
    + destruct C as [[[Hl _] _]|(_ & _ & C)]; [|done]. exfalso. by apply Hl, R2.
  - intros i Hi Hne. change (i_cnt (inode_table st2 i) = 0). rewrite O by exact Hne. by apply R2.
Qed.

(** ** The invariant *)

Section new.
Context (st st' : sys) (s : super_block) (N : Z) (d : mem).
Context (Hr : ready st) (Hly : sb_layout s N) (Hnew : new_fs s N d (rdisk st)) (Hmo : mounts st s N st').
Context (Hblank : forall k, PER_SECT <= k < PER_SECT * NR_DEFAULT_FILE_SECTS -> d (ent_pos (259 + N) k + 4) = 0).

Lemma new_root_dir : root_dir st' = root_new N.
Proof. apply Hmo. Qed.
Lemma new_live i : 0 <= i < NR_INODE -> live (inode_table st') i -> i = root_inode st'.
Proof.
  intros Hi Hl. destruct (decide (i = root_inode st')) as [|Hne]; [done|]. exfalso. by apply Hl, (mo_other _ _ _ _ Hmo).
Qed.
Lemma new_mounted : mounted st'.
Proof. destruct Hly. split; rewrite ?(mo_sb _ _ _ _ Hmo); cbn; [done|done|lia|lia|apply Hmo]. Qed.

Lemma new_fs_inv : fs_inv st'.
Proof.
  pose proof (mo_root _ _ _ _ Hmo) as E. assert (Hz : inode_table st' (root_inode st') = root_new N) by done. split.
  - apply new_mounted.
  - intros i Hi Hl. rewrite (new_live i Hi Hl), E. by repeat split.
  - intros i j Hi Hj Hl Hl' _. by rewrite (new_live i Hi Hl), (new_live j Hj Hl').
  - intros i Hi Hl. rewrite (new_live i Hi Hl), E. cbn [i_num root_new]. unfold disk_inode.
    rewrite (inode_pos_linear st' ROOT_INODE new_mounted) by done. rewrite (mo_sb _ _ _ _ Hmo), (mo_disk _ _ _ _ Hmo).
    cbn [set_sb_dev nr_smap_sects]. rewrite (ly_smap _ _ Hly). symmetry. exact (nf_inodes _ _ _ _ Hnew 0%nat _ eq_refl).
  - unfold live. by rewrite E.
Qed.

Lemma new_dir_ok : dir_ok st'.
Proof.
  destruct Hly. split; rewrite new_root_dir, ?(mo_sb _ _ _ _ Hmo); cbn [set_sb_dev n_1st_sect root_new i_start_sect i_nr_sects i_size i_mode];
    [lia|clia|done|done|done].
Qed.

(** the bytes of an entry of the directory *)
Lemma new_ent_first k i : 0 <= k < PER_SECT -> 0 <= i < DIR_ENT_SIZE ->
  rdisk st' (ent_pos (259 + N) k + i) = root_sector (DIR_ENT_SIZE * k + i).
Proof.
  intros Hk Hi. rewrite (mo_disk _ _ _ _ Hmo). rewrite <- (nf_root _ _ _ _ Hnew) by (rewrite PER_SECT_32 in *; autounfold with consts in *; lia).
  f_equal. unfold ent_pos. lia.
Qed.
Lemma new_ent_nr k : 0 <= k < 5 -> ent_nr (rdisk st') (259 + N) k = k + 1.
Proof.
  intros Hk. pose proof (root_sector_nrs (Z.to_nat k) ltac:(lia)) as E. rewrite Z2Nat.id in E by lia. rewrite <- E.
  apply ld32s_shift. intros i Hi. apply new_ent_first; [rewrite PER_SECT_32; lia|autounfold with consts; lia].
Qed.
Lemma new_ent_is k l : 0 <= k < PER_SECT -> name_ok l ->
  ent_is (rdisk st') (259 + N) l k = (strcmp_at l root_sector (DIR_ENT_SIZE * k + 4) =? 0).
Proof.
  intros Hk Hl. unfold ent_is. f_equal. apply strcmp_at_shift. intros i Hi. rewrite <- !(Z.add_assoc _ 4 i).
  apply new_ent_first; [done|]. unfold name_ok in Hl. autounfold with consts in *. lia.
Qed.

Lemma new_dir_clean : dir_clean st'.
Proof.
  intros k. unfold dir_len. rewrite new_root_dir. cbn [root_new i_size i_start_sect i_nr_sects]. intros Hk Hcase.
  destruct (decide (k < PER_SECT)).
  - rewrite new_ent_first by clia. apply root_sector_rest. destruct (decide (k < 5)); [|lia].
    exfalso. change (5 * DIR_ENT_SIZE / DIR_ENT_SIZE) with 5 in Hcase. destruct Hcase as [H|H]; [lia|]. rewrite new_ent_nr in H by lia. lia.
  - rewrite (mo_disk _ _ _ _ Hmo), (nf_rest _ _ _ _ Hnew); [apply Hblank; lia|].
    unfold ent_pos. rewrite PER_SECT_32 in *. autounfold with consts. lia.
Qed.

Lemma new_imap_ok : imap_ok st'.
Proof.
  split; [rewrite (mo_disk _ _ _ _ Hmo); by rewrite (nf_imap _ _ _ _ Hnew)|].
  intros i Hi Hl. rewrite (new_live i Hi Hl), (mo_root _ _ _ _ Hmo), (mo_disk _ _ _ _ Hmo). cbn [i_num root_new].
  split; [done|]. by rewrite (nf_imap _ _ _ _ Hnew).
Qed.

Lemma zsum_zero n g : (forall i, 0 <= i < n -> g i = 0) -> zsum n g = 0.
Proof.
  intros H. rewrite (zsum_ext n g (fun _ => 0) H). unfold zsum. induction (Z.to_nat n) as [|m IH]; cbn; [done|by rewrite IH].
Qed.
Lemma new_fd_ok : fd_ok st'.
Proof.
  unfold fd_ok. rewrite (mo_kern _ _ _ _ Hmo), (mo_fd _ _ _ _ Hmo).
  pose proof (rd_files _ Hr) as Hf. change (forall p i, 0 <= p < NR_ALL -> 0 <= i < NR_FILES ->
    filps (proc_table (kern st)) p i = None) in Hf. split.
  - intros p i f Hp Hi E. by rewrite Hf in E.
  - intros f Hfd. rewrite (rd_fds _ Hr f Hfd). apply zsum_zero. intros p Hp. apply zsum_zero. intros i Hi. by rewrite Hf.
  - intros p Hp. unfold uses. rewrite zsum_zero by (intros f Hfd; by rewrite (rd_fds _ Hr f Hfd)).
    case_decide as E; [by rewrite E, (mo_root _ _ _ _ Hmo)|]. by rewrite (mo_other _ _ _ _ Hmo).
Qed.

Lemma new_wf : fs_wf st'.
Proof. split; [apply new_fs_inv|apply new_dir_ok|apply new_dir_clean|apply new_imap_ok|apply new_fd_ok]. Qed.

(** ** What it holds *)

Lemma new_smap k : 0 <= k < N * 4096 -> sbit SMAP_SECT st' k = smap_new (259 + N) k.
Proof. intros Hk. unfold sbit. rewrite (mo_disk _ _ _ _ Hmo). by apply (nf_smap _ _ _ _ Hnew). Qed.
Lemma new_nr_bits : Z.of_nat (nr_bits st') = N * 4096.
Proof. rewrite (nr_bits_Z st' new_mounted), (mo_sb _ _ _ _ Hmo). cbn. rewrite (ly_smap _ _ Hly). clia. Qed.

(** the bits of the root directory are set, the next ones up to cmd.tar are clear *)
Lemma smap_new_head k : 0 <= k <= NR_DEFAULT_FILE_SECTS -> smap_new (259 + N) k = true.
Proof. intros Hk. unfold smap_new. by rewrite (proj2 (Z.leb_le _ _)) by lia. Qed.
Lemma smap_new_gap k : NR_DEFAULT_FILE_SECTS < k < 31486 -> smap_new (259 + N) k = false.
Proof.
  intros Hk. destruct Hly. unfold smap_new. rewrite (proj2 (Z.leb_gt _ _)) by lia. rewrite (proj2 (Z.leb_gt _ _)); [done|].
  unfold tar_bit. clia.
Qed.

Lemma new_room : room st' 6 2049.
Proof.
  pose proof new_nr_bits as Hbits. pose proof (ly_range _ _ Hly) as HN. change NR_DEFAULT_FILE_SECTS with 2048 in *. split.
  - apply find_first_is; [lia| |]; [by rewrite (mo_disk _ _ _ _ Hmo), (nf_imap _ _ _ _ Hnew)|].
    intros j Hj. rewrite (mo_disk _ _ _ _ Hmo), (nf_imap _ _ _ _ Hnew) by lia. by rewrite (proj2 (Z.leb_le _ _)) by lia.
  - apply find_first_is; [lia| |].
    + rewrite new_smap, smap_new_gap by (change NR_DEFAULT_FILE_SECTS with 2048; lia). done.
    + intros j Hj. rewrite new_smap, smap_new_head by (change NR_DEFAULT_FILE_SECTS with 2048; lia). done.
  - unfold smap_free. etrans; [|apply (nclear_mono _ (Z.to_nat (4097 - 0))); lia].
    rewrite (nclear_run _ 2048 2049); [done|lia| | |lia].
    + intros y Hy. rewrite new_smap by lia. apply smap_new_head. change NR_DEFAULT_FILE_SECTS with 2048. lia.
    + intros y Hy. rewrite new_smap by lia. apply smap_new_gap. change NR_DEFAULT_FILE_SECTS with 2048. lia.
  - pose proof (mo_range _ _ _ _ Hmo). exists (if decide (root_inode st' = 0) then 1 else 0).
    split; [case_decide; clia|]. intros Hl. apply new_live in Hl; [|case_decide; clia]. case_decide; lia.
  - unfold sect_full, dir_len. rewrite new_root_dir. cbn [root_new i_size i_nr_sects]. split; [done|]. intros (_ & H & _). done.
Qed.

(** the directory as a map *)
Lemma root_names_ok : Forall chars_ok root_names.
Proof. apply (bool_decide_unpack _). vm_compute. done. Qed.
Definition new_dir (l : list Z) : Z := match list_find (eq l) root_names with Some (i, _) => Z.of_nat i + 1 | None => 0 end.

Lemma new_dir_map l : chars_ok l -> name_ok l -> dir_map st' l = new_dir l.
Proof.
  intros Hc Hl. unfold dir_map, dir_lookup. rewrite (dir_find_clean st' l new_dir_ok new_dir_clean Hc Hl).
  unfold dir_len. rewrite new_root_dir. cbn [root_new i_size i_start_sect].
  change (Z.to_nat (5 * DIR_ENT_SIZE / DIR_ENT_SIZE)) with 5%nat.
  assert (His : forall k, 0 <= k < 5 -> ent_is (rdisk st') (259 + N) l k = bool_decide (root_names !! Z.to_nat k = Some l)).
  { intros k Hk. rewrite new_ent_is by (try done; rewrite PER_SECT_32; lia). apply eq_bool_prop_intro.
    rewrite Is_true_true, bool_decide_spec, Z.eqb_eq. destruct (lookup_lt_is_Some_2 root_names (Z.to_nat k)) as [l' El];
      [change (List.length root_names) with 5%nat; lia|].
    pose proof (root_sector_names _ _ El) as E. rewrite Z2Nat.id in E by lia. rewrite El. split; [|by intros [= ->]].
    intros E'. f_equal. eapply strcmp_inj; [apply root_sector_bytes|..|exact E|exact E']; [|done].
    eapply Forall_lookup_1; [apply root_names_ok|exact El]. }
  rewrite (find_first_ext _ _ 5 0) by (intros k Hk; apply His; lia). unfold new_dir.
  destruct (list_find (eq l) root_names) as [[i l']|] eqn:E.
  - apply list_find_Some in E as (Ei & <- & Hb). pose proof (lookup_lt_Some _ _ _ Ei) as Hlt.
    change (List.length root_names) with 5%nat in Hlt. rewrite (find_first_is _ 5 0 (Z.of_nat i)).
    + apply new_ent_nr. lia.
    + lia.
    + rewrite Nat2Z.id. by apply bool_decide_eq_true.
    + intros j Hj. apply bool_decide_eq_false. intros Ej. by apply (Hb (Z.to_nat j) l Ej ltac:(lia)).
  - rewrite (proj2 (find_first_None _ 5 0)); [done|]. intros j Hj. apply bool_decide_eq_false. intros Ej.
    apply list_find_None in E. by apply (Forall_lookup_1 _ _ _ _ E Ej).
Qed.
End new.

(** ** [init_fs] *)

(** the state at the start: the static tables, no process has a file open *)
Definition init_tables (st : sys) : sys :=
  set_super_blocks (fun i => if (0 <=? i) && (i <? NR_SUPER_BLOCK)
      then set_sb_dev NO_DEV (super_blocks st i) else super_blocks st i)
    (set_inode_table (fun i => if in_inode_table i then zero_inode else inode_table st i)
    (set_fd_table (fun i => if in_fd_table i then zero_fd else fd_table st i) st)).

Record cold (st : sys) : Prop := {
  cd_size : INSTALL_START_SECT <= dev_sects (disk st (MINOR ROOT_DEV)) < 4190208;
  cd_bytes : byte_state st;
  cd_magic : ld32 (rdisk st) SECTOR_SIZE <> MAGIC_V1;
  cd_sb : sb_tmp st = zero_sb;
  cd_root : 0 <= root_inode st < NR_INODE;
  cd_files : no_open_files st }.

(** the first sector of the root directory *)
Definition root_start (st : sys) : Z := 259 + map_sects (dev_sects (disk st (MINOR ROOT_DEV))).

Lemma init_ready st : 0 <= root_inode st < NR_INODE -> no_open_files st -> ready (init_tables st).
Proof.
  intros Hr Hf. split; [done| | |exact Hf|exact Hr]; intros i Hi; cbn.
  - by rewrite (proj2 (in_inode_table_iff i) Hi).
  - by rewrite (proj2 (in_fd_table_iff i) Hi).
Qed.

Lemma typed_read_super_block dev : typed (read_super_block dev) any.
Proof. unfold read_super_block. typing. Qed.
#[local] Hint Resolve typed_read_super_block typed_mkfs : typing.
Lemma typed_init_fs : typed init_fs any.
Proof. unfold init_fs. typing. Qed.

Lemma init_fs_run st : cold st -> let N := map_sects (dev_sects (disk st (MINOR ROOT_DEV))) in
  exists s st1 st', init_fs st = Ok tt st' /\
    ready st1 /\ sb_layout s N /\ new_fs s N (rdisk st) (rdisk st1) /\ mounts st1 s N st'.
Proof.
  intros [Hsize Hb Hmag Htmp Hroot Hfiles] N. unfold init_fs. rewrite bind_modify. fold (init_tables st).
  set (st0 := init_tables st). pose proof (RD_SECT_run 1 st0 ltac:(unfold sect_ok; lia)) as E0. rewrite (bind_run _ _ _ _ _ E0).
  set (st2 := rd_state 1 st0) in *. rewrite (bind_run getmem _ st2 (fmem st2) st2 eq_refl).
  assert (Em : ld32 (fmem st2) fsbuf = ld32 (rdisk st) SECTOR_SIZE).
  { pose proof (rd_state_word 1 st0 0 ltac:(autounfold with consts; lia)) as E. rewrite !Z.add_0_r in E. exact E. }
  rewrite Em, (proj2 (Z.eqb_neq _ _) Hmag). cbv iota beta delta [negb].
  destruct (typed_RD_SECT _ _ st0 _ _ Hb E0) as [B2 _].
  destruct (mkfs_run st2 Hsize B2) as (st1 & E1 & F1 & W1). rewrite (bind_run _ _ _ _ _ E1). fold mount_root.
  change (sb_tmp st2) with (sb_tmp st) in *. rewrite Htmp in *. set (size := dev_sects (disk st2 (MINOR ROOT_DEV))) in *.
  set (s := make_sb size zero_sb) in *. change (map_sects size) with N in W1.
  assert (Hrd : ready st1).
  { apply (ready_ext (set_sb_tmp s st2)); [apply F1|apply F1|].
    apply (ready_ext (set_sb_tmp s st0)); [exact (only_buf_rd 1 (set_sb_tmp s st0))|done|]. exact (init_ready (set_sb_tmp s st) Hroot Hfiles). }
  pose proof (make_sb_layout size zero_sb Hsize) as Hly. change (map_sects size) with N in Hly.
  destruct (mount_run st1 s N (rdisk st) Hrd Hly) as (st' & E' & M).
  - apply (make_sb_words size zero_sb Hsize). unfold word. cbn. lia.
  - reflexivity.
  - exact W1.
  - exists s, st1, st'. repeat (split; [assumption|]). exact M.
Qed.

