(* ===== verification/Display.v ===== *)
(** * Text before there are terminals (lib/kliba.asm: disp_str, disp_color_str;
    lib/klib.c: disp_int; kernel/protect.c: exception_handler; kernel/start.c: cstart)

    The kernel writes into the video memory at [disp_pos], a byte offset, before the
    terminal task runs and when the processor reports an exception. A cell of the screen is
    two bytes, the character and its colour. *)
From Stdlib Require Import String.
From S2P Require Import Prelude Const CLib Protect Proc Boot.

(** ** The display *)

Record disp := mkDisp { vmem : mem; disp_pos : Z }.
Definition at_pos (x : Z) (r : disp) : disp := mkDisp (vmem r) x.

(** the last offset of the segment [gs] *)
Definition VIDEO_LIMIT : Z := 0xffff.

(** a line feed: [div bl] faults on a quotient of more than a byte, [mul bl] takes a byte *)
Definition next_line : M disp unit :=
  st ← get;
  let q := u16 (disp_pos st) / 160 in
  if 255 <? q then stop HFault else modify (at_pos (u8 (q + 1) * 160)).
(** [mov [gs:edi], ax] *)
Definition disp_cell (c color : Z) : M disp unit :=
  st ← get;
  if (0 <=? disp_pos st) && (disp_pos st + 1 <=? VIDEO_LIMIT) then
    modify (fun st => mkDisp (upd (upd (vmem st) (disp_pos st) c) (disp_pos st + 1) (u8 color)) (disp_pos st + 2))
  else stop HFault.

Fixpoint disp_color_str (info : list Z) (color : Z) : M disp unit :=
  match info with
  | [] => ret tt
  | c :: info' => (if c =? 10 then next_line else disp_cell c color) ;; disp_color_str info' color
  end.
Definition disp_str (info : list Z) : M disp unit := disp_color_str info 0x0F.

(** the text of a zero-terminated array of [n] bytes *)
Fixpoint text_at (n : nat) (m : mem) (a : Z) : list Z :=
  match n with O => [] | S n' => if m a =? 0 then [] else m a :: text_at n' m (a + 1) end.
(** [output] holds [junk] before *)
Definition disp_int (junk : mem) (input : Z) : M disp unit := disp_str (text_at 40 (itoa 0 input junk) 0).

Definition err_msg : list string :=
  ["#DE Divide Error"; "#DB RESERVED"; "—  NMI Interrupt"; "#BP Breakpoint"; "#OF Overflow"; "#BR BOUND Range Exceeded";
   "#UD Invalid Opcode (Undefined Opcode)"; "#NM Device Not Available (No Math Coprocessor)"; "#DF Double Fault";
   "    Coprocessor Segment Overrun (reserved)"; "#TS Invalid TSS"; "#NP Segment Not Present"; "#SS Stack-Segment Fault";
   "#GP General Protection"; "#PF Page Fault"; "—  (Intel reserved. Do not use.)";
   "#MF x87 FPU Floating-Point Error (Math Fault)"; "#AC Alignment Check"; "#MC Machine Check";
   "#XF SIMD Floating-Point Exception"]%string.
Definition EXC_COLOR : Z := 0x74.

Fixpoint times (n : nat) (c : M disp unit) : M disp unit :=
  match n with O => ret tt | S n' => c ;; times n' c end.

Definition exception_handler (junk : mem) (vec_no err_code eip cs eflags : Z) : M disp unit :=
  modify (at_pos 0) ;;
  times (Z.to_nat (80 * 5)) (disp_str (bytes_of " ")) ;;
  modify (at_pos 0) ;;
  disp_color_str (bytes_of "Exception! --> ") EXC_COLOR ;;
  (if vec_no <? 0 then stop HFault
   else match err_msg !! Z.to_nat vec_no with
        | None => stop HFault
        | Some s => disp_color_str (bytes_of s) EXC_COLOR
        end) ;;
  disp_color_str [10; 10] EXC_COLOR ;;
  disp_color_str (bytes_of "EFLAGS:") EXC_COLOR ;;
  disp_int junk eflags ;;
  disp_color_str (bytes_of "CS:") EXC_COLOR ;;
  disp_int junk cs ;;
  disp_color_str (bytes_of "EIP:") EXC_COLOR ;;
  disp_int junk eip ;;
  when (negb (u32 err_code =? 0xFFFFFFFF))
    (disp_color_str (bytes_of "Error code:") EXC_COLOR ;; disp_int junk err_code).

(** ** Text in the video memory *)

Definition cells (color : Z) (l : list Z) : list Z := l ≫= (fun c => [c; color]).
(** no line feed *)
Definition plain (l : list Z) : Prop := Forall (fun c => c <> 10) l.

Lemma length_cells color l : List.length (cells color l) = (2 * List.length l)%nat.
Proof. unfold cells. induction l as [|c l IH]; cbn; [done|]. cbn in IH. lia. Qed.
Lemma cells_app color l l' : cells color (l ++ l') = cells color l ++ cells color l'.
Proof. apply bind_app. Qed.

(** a state in which [l] has been put on the screen *)
Definition disp_shown (color : Z) (l : list Z) (st : disp) : disp :=
  mkDisp (put_bytes (disp_pos st) (cells color l) (vmem st)) (disp_pos st + 2 * Z.of_nat (List.length l)).

Lemma disp_color_run color l : 0 <= color < 256 -> plain l -> forall st,
  0 <= disp_pos st -> disp_pos st + 2 * Z.of_nat (List.length l) <= VIDEO_LIMIT -> disp_color_str l color st = Ok tt (disp_shown color l st).
Proof.
  intros Hc Hl. induction Hl as [|c l Hne Hl IH]; intros st Hp Hv; cbn [disp_color_str].
  { unfold disp_shown. cbn. rewrite Z.add_0_r. by destruct st. }
  cbn [List.length] in Hv. rewrite (proj2 (Z.eqb_neq c 10)) by done.
  set (st1 := mkDisp (upd (upd (vmem st) (disp_pos st) c) (disp_pos st + 1) color) (disp_pos st + 2)).
  assert (R : disp_cell c color st = Ok tt st1).
  { unfold disp_cell. rewrite (bind_run get _ st st st eq_refl). rewrite (proj2 (Z.leb_le _ _)), (proj2 (Z.leb_le _ _)) by lia. cbn [andb].
    unfold modify, st1. by rewrite u8_id. }
  rewrite (bind_run _ _ _ _ _ R), IH by (cbn [st1 disp_pos]; lia). f_equal. unfold disp_shown, st1. cbn [disp_pos vmem List.length].
  f_equal; [|lia]. change (cells color (c :: l)) with (c :: color :: cells color l). cbn [put_bytes].
  by replace (disp_pos st + 1 + 1) with (disp_pos st + 2) by lia.
Qed.

(** ** [itoa]'s text *)

(** the digits of an [int], from the highest; [itoa] leaves the zeros out *)
Definition nibble (num i : Z) : Z := Z.land (Z.shiftr num i) 0xf.
Definition hex_char (d : Z) : Z := if 9 <? d then d + 55 else d + 48.
Fixpoint hex_digits (n : nat) (i num : Z) : list Z :=
  match n with
  | O => []
  | S n' => (if nibble num i =? 0 then [] else [hex_char (nibble num i)]) ++ hex_digits n' (i - 4) num
  end.
Definition hex_text (num : Z) : list Z := [48; 120] ++ if num =? 0 then [48] else hex_digits 8 28 num.

Lemma nibble_range num i : 0 <= nibble num i < 16.
Proof. unfold nibble. rewrite land_f. apply Z.mod_pos_bound. lia. Qed.
Lemma hex_char_range d : 0 <= d < 16 -> 48 <= hex_char d < 71.
Proof. intros H. unfold hex_char. destruct (9 <? d) eqn:E; zbool; lia. Qed.

Lemma itoa_loop_run num : forall n i p m,
  itoa_loop n i num 0 p m = (p + Z.of_nat (List.length (hex_digits n i num)), put_bytes p (hex_digits n i num) m).
Proof.
  induction n as [|n IH]; intros i p m; cbn [itoa_loop hex_digits]; [by rewrite Z.add_0_r|].
  fold (nibble num i). pose proof (nibble_range num i) as Hr. set (d := nibble num i) in *. change (1 =? 0) with false. cbn [orb].
  destruct (d =? 0) eqn:E; cbn [negb app List.length]; rewrite IH; [done|]. f_equal; [lia|]. cbn [put_bytes]. f_equal.
  unfold hex_char. rewrite u8_id by lia. destruct (9 <? d) eqn:E9; zbool; [|done].
  rewrite upd_eq, u8_id by lia. rewrite upd_upd. f_equal. lia.
Qed.

Lemma hex_digits_ok n num : forall i, Forall (fun c => 48 <= c < 71) (hex_digits n i num) /\ (List.length (hex_digits n i num) <= n)%nat.
Proof.
  induction n as [|n IH]; intros i; cbn [hex_digits]; [by split; [apply Forall_nil|]|]. destruct (IH (i - 4)) as [H1 H2].
  destruct (nibble num i =? 0); cbn [app List.length]; [split; [done|lia]|].
  split; [apply Forall_cons; split; [apply hex_char_range, nibble_range|done]|lia].
Qed.
Lemma hex_text_ok num : Forall (fun c => 48 <= c < 121) (hex_text num) /\ (List.length (hex_text num) <= 10)%nat.
Proof.
  unfold hex_text. destruct (hex_digits_ok 8 num 28) as [H1 H2].
  destruct (num =? 0); cbn [app List.length]; (split; [|lia]); repeat (apply Forall_cons; split; [lia|]); [by apply Forall_nil|].
  eapply Forall_impl; [exact H1|]. intros c Hc. cbv beta in *. lia.
Qed.

Lemma text_at_put l : Forall (fun c => c <> 0) l -> forall n a m, (List.length l < n)%nat -> text_at n (put_bytes a (l ++ [0]) m) a = l.
Proof.
  intros Hl. induction Hl as [|c l Hc Hl IH]; intros n a m Hn; (destruct n as [|n]; [cbn in Hn; lia|]); cbn [text_at app put_bytes].
  - by rewrite upd_eq.
  - assert (E : put_bytes (a + 1) (l ++ [0]) (upd m a c) a = c) by (rewrite put_bytes_out by lia; apply upd_eq).
    rewrite E, (proj2 (Z.eqb_neq c 0)) by done. f_equal. apply IH. cbn in Hn. lia.
Qed.

Lemma itoa_text num junk : text_at 40 (itoa 0 num junk) 0 = hex_text num.
Proof.
  destruct (hex_text_ok num) as [H1 H2].
  assert (E : itoa 0 num junk = put_bytes 0 (hex_text num ++ [0]) junk).
  { unfold itoa, hex_text. rewrite (Z.eqb_sym 0 num). destruct (num =? 0); [done|]. rewrite itoa_loop_run.
    cbn [app put_bytes]. rewrite put_bytes_app. done. }
  rewrite E. apply text_at_put; [|lia]. eapply Forall_impl; [exact H1|]. intros c Hc. cbv beta in *. lia.
Qed.

(** ** [exception_handler] *)

(** a line that begins at [a] and holds the bytes [b] so far *)
Definition line (a : Z) (b : list Z) (v : mem) : disp := mkDisp (put_bytes a b v) (a + Z.of_nat (List.length b)).

Lemma line_color color l a b v : 0 <= color < 256 -> plain l -> 0 <= a ->
  a + Z.of_nat (List.length b) + 2 * Z.of_nat (List.length l) <= VIDEO_LIMIT ->
  disp_color_str l color (line a b v) = Ok tt (line a (b ++ cells color l) v).
Proof.
  intros Hc Hl Ha Hv. rewrite disp_color_run by (try done; cbn [line disp_pos]; lia). unfold disp_shown, line. cbn [vmem disp_pos].
  rewrite put_bytes_app, length_app, length_cells. f_equal. f_equal. lia.
Qed.
Lemma plain_hex num : plain (hex_text num).
Proof. eapply Forall_impl; [apply hex_text_ok|]. intros c Hc. cbv beta in *. lia. Qed.
Lemma line_int junk num a b v : 0 <= a -> a + Z.of_nat (List.length b) + 20 <= VIDEO_LIMIT ->
  disp_int junk num (line a b v) = Ok tt (line a (b ++ cells 0x0F (hex_text num)) v).
Proof.
  intros Ha Hv. unfold disp_int, disp_str. rewrite itoa_text. destruct (hex_text_ok num) as [_ Hl].
  apply line_color; [lia|apply plain_hex|done|lia].
Qed.

Definition blanks (n : nat) : list Z := cells 0x0F (replicate n 32).
Lemma blanks_run n : forall k v, Z.of_nat (k + n) <= 400 ->
  times n (disp_str (bytes_of " ")) (line 0 (blanks k) v) = Ok tt (line 0 (blanks (k + n)) v).
Proof.
  induction n as [|n IH]; intros k v Hk; cbn [times]; [by rewrite Nat.add_0_r|].
  assert (R : disp_str (bytes_of " ") (line 0 (blanks k) v) = Ok tt (line 0 (blanks (k + 1)) v)).
  { unfold disp_str. rewrite line_color; [|lia|by repeat constructor|lia|].
    - unfold blanks. by rewrite <- cells_app, replicate_add.
    - unfold blanks, VIDEO_LIMIT. rewrite length_cells, length_replicate. cbn. lia. }
  rewrite (bind_run _ _ _ _ _ R), IH by lia. by replace (k + 1 + n)%nat with (k + S n)%nat by lia.
Qed.

Lemma next_line_run st : 0 <= disp_pos st < 40800 -> next_line st = Ok tt (at_pos ((disp_pos st / 160 + 1) * 160) st).
Proof.
  intros H. unfold next_line. rewrite (bind_run get _ st st st eq_refl). assert (u16 (disp_pos st) = disp_pos st) as ->
    by (unfold u16; apply Z.mod_small; lia).
  rewrite (proj2 (Z.ltb_ge _ _)) by (Z.div_mod_to_equations; lia). unfold modify. rewrite u8_id by (Z.div_mod_to_equations; lia). done.
Qed.

Lemma err_msg_ok i s : err_msg !! i = Some s -> plain (bytes_of s) /\ (List.length (bytes_of s) <= 60)%nat.
Proof.
  assert (H : Forall (fun s => plain (bytes_of s) /\ (List.length (bytes_of s) <= 60)%nat) err_msg)
    by (apply (bool_decide_unpack _); vm_compute; exact I).
  intros E. exact (Forall_lookup_1 _ _ _ _ H E).
Qed.

(** the two lines of text *)
Definition exc_head (s : string) : list Z := cells EXC_COLOR (bytes_of "Exception! --> " ++ bytes_of s).
Definition exc_item (name : string) (v : Z) : list Z := cells EXC_COLOR (bytes_of name) ++ cells 0x0F (hex_text v).
Definition exc_line (err_code eip cs eflags : Z) : list Z :=
  exc_item "EFLAGS:" eflags ++ exc_item "CS:" cs ++ exc_item "EIP:" eip ++
  (if u32 err_code =? 0xFFFFFFFF then [] else exc_item "Error code:" err_code).

Lemma length_item name v : (List.length (exc_item name v) <= 2 * List.length (bytes_of name) + 20)%nat.
Proof. unfold exc_item. rewrite length_app, !length_cells. destruct (hex_text_ok v). lia. Qed.

Lemma item_run {A} junk name v a b vm (k : M disp A) : plain (bytes_of name) -> 0 <= a ->
  a + Z.of_nat (List.length b) + 2 * Z.of_nat (List.length (bytes_of name)) + 20 <= VIDEO_LIMIT ->
  (disp_color_str (bytes_of name) EXC_COLOR ;; disp_int junk v ;; k) (line a b vm) = k (line a (b ++ exc_item name v) vm).
Proof.
  intros Hp Ha Hv. rewrite (bind_run _ _ _ tt (line a (b ++ cells EXC_COLOR (bytes_of name)) vm))
    by (apply line_color; [unfold EXC_COLOR; lia|done|done|lia]).
  rewrite (bind_run _ _ _ tt (line a ((b ++ cells EXC_COLOR (bytes_of name)) ++ cells 0x0F (hex_text v)) vm))
    by (apply line_int; [done|rewrite length_app, length_cells; lia]).
  unfold exc_item. by rewrite app_assoc.
Qed.

Lemma item_last junk name v a b vm : plain (bytes_of name) -> 0 <= a ->
  a + Z.of_nat (List.length b) + 2 * Z.of_nat (List.length (bytes_of name)) + 20 <= VIDEO_LIMIT ->
  (disp_color_str (bytes_of name) EXC_COLOR ;; disp_int junk v) (line a b vm) = Ok tt (line a (b ++ exc_item name v) vm).
Proof.
  intros Hp Ha Hv. pose proof (item_run junk name v a b vm (ret tt) Hp Ha Hv) as E. etrans; [|exact E].
  unfold bind. destruct (disp_color_str _ _ _); [|done]. by destruct (disp_int _ _ _) as [[]|].
Qed.

(** [exception_handler] ends for every exception vector 0 to 19 and every value of the
    registers. The first five lines of the screen are blank except for the name of the
    exception on the first line and, on the third, the flags, CS, EIP and the error code if
    there is one, in the hexadecimal text of [itoa]; nothing else in the video memory changes. *)
Theorem exception_shows junk vec_no err_code eip cs eflags st s : 0 <= vec_no -> err_msg !! Z.to_nat vec_no = Some s ->
  exists st', exception_handler junk vec_no err_code eip cs eflags st = Ok tt st' /\
    vmem st' = put_bytes 320 (exc_line err_code eip cs eflags) (put_bytes 0 (exc_head s) (put_bytes 0 (blanks 400) (vmem st))) /\
    disp_pos st' = 320 + Z.of_nat (List.length (exc_line err_code eip cs eflags)).
Proof.
  intros Hv Hs. destruct (err_msg_ok _ _ Hs) as [Hp Hl]. unfold exception_handler. rewrite bind_modify.
  change (at_pos 0 st) with (line 0 (blanks 0) (vmem st)). change (Z.to_nat (80 * 5)) with 400%nat.
  rewrite (bind_run _ _ _ _ _ (blanks_run 400 0 (vmem st) ltac:(lia))). rewrite bind_modify.
  set (v1 := put_bytes 0 (blanks 400) (vmem st)). change (at_pos 0 _) with (line 0 [] v1). clearbody v1.
  set (h := bytes_of "Exception! --> "). assert (Eh : List.length h = 15%nat) by reflexivity.
  assert (Ph : plain h) by (apply (bool_decide_unpack _); vm_compute; exact I). assert (Hx : 0 <= EXC_COLOR < 256) by (unfold EXC_COLOR; lia).
  unfold VIDEO_LIMIT in *.
  rewrite (bind_run _ _ _ tt (line 0 (cells EXC_COLOR h) v1)) by (apply line_color; [done|done|lia|unfold VIDEO_LIMIT; cbn; lia]).
  rewrite (proj2 (Z.ltb_ge vec_no 0)), Hs by lia.
  rewrite (bind_run _ _ _ tt (line 0 (exc_head s) v1)).
  2:{ unfold exc_head. rewrite cells_app. apply line_color; [done|done|lia|unfold VIDEO_LIMIT; rewrite length_cells; fold h; lia]. }
  assert (Hh : (List.length (exc_head s) <= 150)%nat) by (unfold exc_head; rewrite length_cells, length_app; fold h; lia).
  set (v2 := put_bytes 0 (exc_head s) v1).
  assert (R : disp_color_str [10; 10] EXC_COLOR (line 0 (exc_head s) v1) = Ok tt (line 320 [] v2)).
  { change (disp_color_str [10; 10] EXC_COLOR) with (next_line ;; next_line ;; ret tt).
    rewrite (bind_run _ _ _ _ _ (next_line_run (line 0 (exc_head s) v1) ltac:(cbn [line disp_pos]; lia))).
    cbn [line disp_pos]. rewrite (Z.div_small (0 + _) 160) by lia. done. }
  rewrite (bind_run _ _ _ _ _ R). fold v2. clearbody v2.
  rewrite item_run; [|apply (bool_decide_unpack _); vm_compute; exact I|lia|unfold VIDEO_LIMIT; cbn; lia].
  pose proof (length_item "EFLAGS:" eflags) as L1. change (List.length (bytes_of "EFLAGS:")) with 7%nat in L1.
  rewrite item_run; [|apply (bool_decide_unpack _); vm_compute; exact I|lia|].
  2:{ unfold VIDEO_LIMIT. rewrite length_app. change (List.length (bytes_of "CS:")) with 3%nat. cbn [List.length]. lia. }
  pose proof (length_item "CS:" cs) as L2. change (List.length (bytes_of "CS:")) with 3%nat in L2.
  rewrite item_run; [|apply (bool_decide_unpack _); vm_compute; exact I|lia|].
  2:{ unfold VIDEO_LIMIT. rewrite !length_app. change (List.length (bytes_of "EIP:")) with 4%nat. cbn [List.length]. lia. }
  pose proof (length_item "EIP:" eip) as L3. change (List.length (bytes_of "EIP:")) with 4%nat in L3.
  unfold exc_line. unfold when. destruct (u32 err_code =? 0xFFFFFFFF); cbn [negb].
  - eexists. split; [reflexivity|]. cbn [line vmem disp_pos]. rewrite app_nil_r. cbn [app]. by rewrite <- !app_assoc.
  - rewrite item_last; [|apply (bool_decide_unpack _); vm_compute; exact I|lia|].
    + eexists. split; [reflexivity|]. cbn [line vmem disp_pos app]. by rewrite <- !app_assoc.
    + unfold VIDEO_LIMIT. rewrite !length_app. change (List.length (bytes_of "Error code:")) with 11%nat. cbn [List.length]. lia.
Qed.

(** ** [cstart] *)

Definition IDT_SIZE : Z := 256.
Definition SIZEOF_GATE : Z := 8.

(** the bytes of a descriptor, and the descriptor in 8 bytes *)
Definition desc_bytes (d : DESCRIPTOR) : list Z :=
  [limit_low d `mod` 256; limit_low d / 256; base_low d `mod` 256; base_low d / 256; base_mid d; attrl d;
   limit_high_attr2 d; base_high d].
Definition desc_of (b : Z -> Z) : DESCRIPTOR :=
  mkDesc (b 0 + 256 * b 1) (b 2 + 256 * b 3) (b 4) (b 5) (b 6) (b 7).
(** entry [i] after [n] bytes from [src] have been copied over the table *)
Definition copy_desc (m : mem) (src n : Z) (old : arr DESCRIPTOR) (i : Z) : DESCRIPTOR :=
  desc_of (fun k => if 8 * i + k <? n then m (src + 8 * i + k) else default 0 (desc_bytes (old i) !! Z.to_nat k)).

(** a limit and an address, as [sgdt], [lgdt] and [lidt] take them *)
Record table_ptr := mkPtr { ptr_limit : Z; ptr_base : Z }.
Record cstate := mkCs { cdisp : disp; cprot : prot; gdt_ptr : table_ptr; idt_ptr : table_ptr }.
Definition on_disp (c : M disp unit) : M cstate unit := fun st =>
  match c (cdisp st) with Ok _ d => Ok tt (mkCs d (cprot st) (gdt_ptr st) (idt_ptr st)) | Halt h => Halt h end.

Section cstart.
(** the memory the loader has left; the addresses of the tables and of the handlers *)
Context (m : mem) (gdt_addr idt_addr : Z) (addr : entry -> Z) (proc_table_addr tss_addr : Z).

Definition cstart : M cstate unit :=
  on_disp (disp_color_str (replicate 15 10 ++ bytes_of "-----" ++ [34] ++ bytes_of "cstart" ++ [34] ++ bytes_of " begins-----" ++ [10]) 0x7c) ;;
  st ← get;
  let n := ptr_limit (gdt_ptr st) + 1 in
  (if GDT_SIZE * SIZEOF_DESCRIPTOR <? n then stop HFault else ret tt) ;;
  modify (fun st => mkCs (cdisp st)
    (init_prot addr proc_table_addr tss_addr
      (mkProt (copy_desc m (ptr_base (gdt_ptr st)) n (gdt (cprot st))) (idt (cprot st)) (tss (cprot st)) (procs (cprot st))))
    (mkPtr (SIZEOF_DESCRIPTOR * GDT_SIZE - 1) gdt_addr) (mkPtr (SIZEOF_GATE * IDT_SIZE - 1) idt_addr)) ;;
  on_disp (disp_color_str (bytes_of "-----" ++ [34] ++ bytes_of "cstart" ++ [34] ++ bytes_of " ends-----" ++ [10]) 0x7c).

(** text of any kind that stays on the screen *)
Lemma disp_color_total color l : 0 <= color < 256 -> forall st, 0 <= disp_pos st -> disp_pos st + 160 * Z.of_nat (List.length l) <= 40000 ->
  exists st', disp_color_str l color st = Ok tt st' /\ 0 <= disp_pos st' <= disp_pos st + 160 * Z.of_nat (List.length l).
Proof.
  intros Hc. induction l as [|c l IH]; intros st H0 Hl; cbn [disp_color_str List.length] in *; [exists st; split; [done|lia]|].
  assert (Hstep : exists st1, (if c =? 10 then next_line else disp_cell c color) st = Ok tt st1 /\ 0 <= disp_pos st1 <= disp_pos st + 160).
  { destruct (c =? 10).
    - rewrite next_line_run by lia. eexists. split; [done|]. cbn. Z.div_mod_to_equations. lia.
    - unfold disp_cell. rewrite (bind_run get _ st st st eq_refl). unfold VIDEO_LIMIT.
      rewrite (proj2 (Z.leb_le _ _)), (proj2 (Z.leb_le _ _)) by lia. eexists. split; [done|]. cbn. lia. }
  destruct Hstep as (st1 & R & B). rewrite (bind_run _ _ _ _ _ R). destruct (IH st1) as (st' & R' & B'); [lia|lia|].
  exists st'. split; [done|lia].
Qed.

(** [cstart] leaves the tables of [init_prot_spec]: the loader's four descriptors are the
    first of the kernel's table, so the base of its data segment is the loader's, and the
    table pointers cover the new tables *)
Lemma cstart_tables st : disp_pos (cdisp st) = 0 -> ptr_limit (gdt_ptr st) = 31 ->
  exists st', cstart st = Ok tt st' /\
    gdt_ptr st' = mkPtr 1023 gdt_addr /\ idt_ptr st' = mkPtr 2047 idt_addr /\
    (forall j, 0 <= j < INDEX_TSS -> gdt (cprot st') j = desc_of (fun k => m (ptr_base (gdt_ptr st) + 8 * j + k))) /\
    exists s, cprot st' = init_prot addr proc_table_addr tss_addr s /\
      gdt s (Z.shiftr SELECTOR_KERNEL_DS 3) = desc_of (fun k => m (ptr_base (gdt_ptr st) + 16 + k)).
Proof.
  intros Hd Hp. unfold cstart. set (t1 := replicate 15 10 ++ _). set (t2 := bytes_of "-----" ++ _).
  assert (L1 : List.length t1 = 41%nat) by reflexivity. assert (L2 : List.length t2 = 24%nat) by reflexivity. clearbody t1 t2.
  destruct (disp_color_total 0x7c t1 ltac:(lia) (cdisp st)) as (d1 & R1 & B1); [lia|lia|].
  rewrite (bind_run _ _ st tt (mkCs d1 (cprot st) (gdt_ptr st) (idt_ptr st))) by (unfold on_disp; by rewrite R1).
  rewrite (bind_run get _ _ _ _ eq_refl). cbn [gdt_ptr]. rewrite Hp.
  change (GDT_SIZE * SIZEOF_DESCRIPTOR <? 31 + 1) with false. cbv iota.
  rewrite (bind_run (ret tt) _ _ tt _ eq_refl), bind_modify. cbn [gdt_ptr cprot cdisp].
  set (s := mkProt _ _ _ _). destruct (disp_color_total 0x7c t2 ltac:(lia) d1) as (d2 & R2 & B2); [lia|lia|].
  eexists. split; [unfold on_disp; cbn [cdisp]; rewrite R2; reflexivity|]. cbn [gdt_ptr idt_ptr cprot].
  assert (Hs : forall j, 0 <= j < INDEX_TSS -> gdt s j = desc_of (fun k => m (ptr_base (gdt_ptr st) + 8 * j + k))).
  { intros j Hj. unfold s. cbn [gdt]. unfold copy_desc, desc_of. by rewrite !(proj2 (Z.ltb_lt _ (31 + 1))) by (unfold INDEX_TSS in Hj; lia). }
  split; [done|]. split; [done|]. split.
  - intros j Hj. rewrite <- (Hs j Hj). destruct (init_prot_tables addr proc_table_addr tss_addr s j) as (_ & _ & H & _). by apply H.
  - exists s. split; [done|]. apply (Hs 2). unfold INDEX_TSS. lia.
Qed.
End cstart.
