(* ===== verification/Lib.v ===== *)
(** * System call stubs (lib/*.c)

    Each stub fills a message, exchanges it with a task by
    [send_rec(BOTH, task, &msg)] and returns a field of the answer. The exchange
    is the parameter [call]; [fs_call] is the exchange with the file system, by
    [fs_serve]. [junk] is what the local message holds before it is filled: fields
    a stub does not set reach the task as they are. *)
From S2P Require Import Prelude Const CLib Protect Proc Sys Fs FsOps.

(** ** The exchange with the file system *)

(** the answer carries FS as its source; a suspended caller stays blocked *)
Definition fs_call (drv : Z -> MESSAGE -> M sys MESSAGE) (pid : Z) (m : MESSAGE) : M sys MESSAGE :=
  o ← fs_serve drv (set_source pid m);
  match o with
  | Some (_, r) => ret (set_source TASK_FS r)
  | None => stop HBlock
  end.

(** the branch of [fs_serve] for the message type [t] *)
Ltac pick_request t :=
  repeat match goal with |- context [t =? ?u] => let b := eval vm_compute in (t =? u) in change (t =? u) with b end;
  cbn [orb]; cbv iota.

Section stubs.
(** [call dst m]: [send_rec(BOTH, dst, &m)] by process [pid]; [slen] bounds the
    strings [strlen] walks over *)
Context (call : Z -> MESSAGE -> M sys MESSAGE) (junk : MESSAGE) (pid : Z) (slen : nat).

(** [strlen] of a string of the process *)
Definition str_len (va : Z) : M sys Z :=
  st ← get;
  match strlen slen (memory (kern st)) (la_of (kern st) pid va) with
  | Some n => ret n
  | None => stop HSpin
  end.

Definition open (pathname flags : Z) : M sys Z :=
  n ← str_len pathname;
  r ← call TASK_FS (set_m3i2 n (set_m3i1 flags (set_m3p1 pathname (set_type OPEN junk))));
  assert_ (type r =? SYSCALL_RET) ;;
  ret (FD r).

Definition close (fd : Z) : M sys Z :=
  call TASK_FS (set_m3i1 fd (set_type CLOSE junk)) ;;
  ret 0.

Definition read (fd buf size : Z) : M sys Z :=
  r ← call TASK_FS (set_m3i1 fd (set_m3i2 size (set_m3p2 buf (set_type READ junk))));
  ret (CNT r).

Definition write (fd buf size : Z) : M sys Z :=
  r ← call TASK_FS (set_m3i1 fd (set_m3i2 size (set_m3p2 buf (set_type WRITE junk))));
  ret (CNT r).

Definition lseek (fd offset whence : Z) : M sys Z :=
  r ← call TASK_FS (set_m3i3 whence (set_m3i2 offset (set_m3i1 fd (set_type LSEEK junk))));
  assert_ (type r =? SYSCALL_RET) ;;
  ret (OFFSET r).

Definition stat (path s : Z) : M sys Z :=
  n ← str_len path;
  r ← call TASK_FS (set_m3p2 s (set_m3i2 n (set_m3p1 path (set_type STAT junk))));
  assert_ (type r =? SYSCALL_RET) ;;
  ret (RETVAL r).

Definition unlink (pathname : Z) : M sys Z :=
  n ← str_len pathname;
  r ← call TASK_FS (set_m3i2 n (set_m3p1 pathname (set_type UNLINK junk)));
  ret (RETVAL r).

Definition fork : M sys Z :=
  r ← call TASK_MM (set_type FORK junk);
  assert_ (type r =? SYSCALL_RET) ;;
  assert_ (RETVAL r =? 0) ;;
  ret (PID r).

(** the status it stores and the process it returns *)
Definition wait : M sys (Z * Z) :=
  r ← call TASK_MM (set_type WAIT junk);
  assert_ (type r =? SYSCALL_RET) ;;
  ret (STATUS r, PID r).

Definition exit (status : Z) : M sys unit :=
  r ← call TASK_MM (set_m3i1 status (set_type EXIT junk));
  assert_ (type r =? SYSCALL_RET).

(** [get_ticks] of kernel/main.c: the message is zeroed first *)
Definition get_ticks : M sys Z :=
  r ← call TASK_SYS (set_type GET_TICKS (mkMsg 0 0 0 0 0 0 0 0 0 0));
  ret (RETVAL r).

Definition getpid : M sys Z :=
  r ← call TASK_SYS (set_type GET_PID junk);
  assert_ (type r =? SYSCALL_RET) ;;
  ret (PID r).
End stubs.
