(* ===== verification/Mm.v ===== *)
(** * The memory manager: definitions (mm/main.c, forkexit.c, exec.c)

    MM creates, ends and replaces processes: [do_fork], [do_exit], [do_wait],
    [do_exec], and the body of [task_mm]. Its exchanges with the file system are
    the parameter [fs] (Lib.v gives [fs_call]); its answers to the processes go
    through the real system call ([task_send]). The addresses of its local
    objects (message, path, stat buffer, argument stack) are parameters; the
    message objects of its functions, of which one at a time is filled and sent,
    share the address [mbuf]. *)
From Stdlib Require Import String.
From S2P Require Import Prelude Const CLib Protect Proc Sys Fs FsOps Sched Ipc IpcInv IpcRun.
From S2P Require Import IpcSpec Task Boot Lib.

Definition PROC_ALLOC_BASE : Z := 0xA00000.
Definition PROC_DEFAULT_IMG_SIZE : Z := 0x100000.
Definition PROC_ORIGIN_STACK : Z := 0x400.
Definition mmbuf : Z := 0x700000.
Definition MMBUF_SIZE : Z := 0x100000.
Definition P_NAME_SIZE : Z := 16.

(** [init_mm]: the value of [memory_size] *)
Definition init_mm : M sys Z := bp ← lift get_boot_param; ret (fst bp).

Section mm.
Context (fs : MESSAGE -> M sys MESSAGE) (memory_size mbuf : Z).

Definition alloc_mem (pid mem_size : Z) : M sys Z :=
  assert_ (NR_TASKS + NR_NATIVE_PROCS <=? pid) ;;
  (if PROC_DEFAULT_IMG_SIZE <? mem_size then panic else ret tt) ;;
  let base := PROC_ALLOC_BASE + (pid - (NR_TASKS + NR_NATIVE_PROCS)) * PROC_DEFAULT_IMG_SIZE in
  (if memory_size <? i32 (base + mem_size) then panic else ret tt) ;;
  ret base.

(** ** [do_fork] *)

(** [sprintf(pChild->p_name, "%s_%d", p_name, pid)]: the bytes of the array after
    it; a name without end or a text longer than the array leaves the array *)
Definition fork_name (name : list Z) (pid : Z) : option (list Z) :=
  let s := cstring name in
  match render (bytes_of "%s_%d") [AStr s; AInt pid] with
  | Some l => if (Z.of_nat (length s) <? P_NAME_SIZE) && (Z.of_nat (length l) <=? P_NAME_SIZE)
              then Some (overwrite l name) else None
  | None => None
  end.

(** the attributes of the child's code and data segments *)
Definition user_attr (ty : Z) : Z :=
  Z.lor (Z.lor (Z.lor DA_32 ty) (Z.shiftl PRIVILEGE_USER 5)) DA_LIMIT_4K.
Definition child_ldts (base : Z) (l : arr DESCRIPTOR) : arr DESCRIPTOR :=
  let lim := Z.shiftr (PROC_DEFAULT_IMG_SIZE - 1) LIMIT_4K_SHIFT in
  upd (upd l INDEX_LDT_C (init_descriptor base lim (user_attr DA_C)))
    INDEX_LDT_RW (init_descriptor base lim (user_attr DA_DRW)).

(** the answer MM sends the child: the fields that are set, over what the object
    at [mbuf] holds *)
Definition child_msg (m : MESSAGE) : MESSAGE := set_type SYSCALL_RET (set_m3i1 0 (set_m3i2 0 m)).

(** the return value and the message *)
Definition do_fork (msg : MESSAGE) : M sys (Z * MESSAGE) :=
  let parent_pid := source msg in
  st ← get;
  let t := proc_table (kern st) in
  match find_first (fun i => p_flags (t i) =? FREE_SLOT) (Z.to_nat NR_ALL) 0 with
  | None => ret (-1, msg)
  | Some pid =>
      assert_ (NR_TASKS + NR_NATIVE_PROCS <=? pid) ;;
      pp ← lift (getp parent_pid);
      pc ← lift (getp pid);
      lift (modp pid (fun _ => set_ldt_sel (ldt_sel pc) pp)) ;;
      lift (modp pid (set_p_parent parent_pid)) ;;
      match fork_name (p_name pp) pid with
      | None => stop HFault
      | Some nm => lift (modp pid (set_p_name nm))
      end ;;
      let TD := ldts pp INDEX_LDT_C in
      let DD := ldts pp INDEX_LDT_RW in
      assert_ ((desc_base TD =? desc_base DD) && (desc_limit TD =? desc_limit DD)
               && (desc_size TD =? desc_size DD)) ;;
      child_base ← alloc_mem pid (desc_size TD);
      modm (memcpy child_base (desc_base TD) (desc_size TD)) ;;
      lift (modp pid (fun p => set_ldts (child_ldts child_base (ldts p)) p)) ;;
      m ← getmem;
      fs (set_m3i2 pid (set_type FORK (msg_at m mbuf))) ;;
      m ← getmem;
      lift (task_send TASK_MM mbuf pid (child_msg (msg_at m mbuf))) ;;
      ret (0, set_m3i2 pid msg)
  end.

(** ** [do_exit], [do_wait] *)

(** [cleanup(&proc_table[i])] *)
Definition cleanup (i : Z) : M sys unit :=
  p ← lift (getp i);
  m ← getmem;
  lift (task_send TASK_MM mbuf (p_parent p)
    (set_m3i1 (exit_status p) (set_m3i2 i (set_type SYSCALL_RET (msg_at m mbuf))))) ;;
  lift (modp i (set_p_flags FREE_SLOT)).

Definition clear_waiting (i : Z) : M sys unit :=
  lift (modp i (fun p => set_p_flags (Z.land (p_flags p) (Z.lnot WAITING)) p)).

(** the children of the process that exits go to INIT *)
Fixpoint reparent (n : nat) (i pid : Z) : M sys unit :=
  match n with
  | O => ret tt
  | S n' =>
      p ← lift (getp i);
      when (p_parent p =? pid) (
        lift (modp i (set_p_parent INIT)) ;;
        p ← lift (getp i);
        q ← lift (getp INIT);
        when (has (p_flags p) HANGING && has (p_flags q) WAITING) (
          clear_waiting INIT ;; cleanup i)) ;;
      reparent n' (i + 1) pid
  end.

(** [free_mem] does nothing *)
Definition do_exit (msg : MESSAGE) : M sys unit :=
  let pid := source msg in
  m ← getmem;
  fs (set_m3i2 pid (set_type EXIT (msg_at m mbuf))) ;;
  lift (modp pid (set_exit_status (STATUS msg))) ;;
  p ← lift (getp pid);
  let parent := p_parent p in
  q ← lift (getp parent);
  (if has (p_flags q) WAITING then clear_waiting parent ;; cleanup pid
   else lift (modp pid (fun p => set_p_flags (Z.lor (p_flags p) HANGING) p))) ;;
  reparent (Z.to_nat NR_ALL) 0 pid.

(** the search of [do_wait]: [inl i] a child that has exited, [inr b] whether
    there is a child *)
Fixpoint wait_scan (n : nat) (i pid : Z) (has_child : bool) (t : arr PROCESS) : Z + bool :=
  match n with
  | O => inr has_child
  | S n' =>
      if negb (p_parent (t i) =? pid) then wait_scan n' (i + 1) pid has_child t
      else if has (p_flags (t i)) HANGING then inl i
      else wait_scan n' (i + 1) pid true t
  end.

Definition do_wait (msg : MESSAGE) : M sys unit :=
  let pid := source msg in
  st ← get;
  match wait_scan (Z.to_nat NR_ALL) 0 pid false (proc_table (kern st)) with
  | inl i => cleanup i
  | inr true => lift (modp pid (fun p => set_p_flags (Z.lor (p_flags p) WAITING) p))
  | inr false =>
      m ← getmem;
      lift (task_send TASK_MM mbuf pid
        (set_m3i1 (-1) (set_m3i2 NO_TASK (set_type SYSCALL_RET (msg_at m mbuf)))))
  end.

(** ** [do_exec] *)

Context (path_addr stat_addr stk_addr : Z) (slen : nat).

Definition e_entry (m : mem) (f : Z) : Z := ld32 m (f + 24).
Definition p_offset (m : mem) (ph : Z) : Z := ld32 m (ph + 4).
Definition p_filesz (m : mem) (ph : Z) : Z := ld32 m (ph + 16).

(** the loop over the program headers of the file in [mmbuf] *)
Fixpoint exec_segments (n : nat) (i src : Z) : M sys unit :=
  match n with
  | O => ret tt
  | S n' =>
      m ← getmem;
      let ph := phdr m mmbuf i in
      when (p_type m ph =? PT_LOAD) (
        d ← lift (va2la src (p_vaddr m ph));
        s ← lift (va2la TASK_MM (mmbuf + p_offset m ph));
        modm (memcpy d s (p_filesz m ph)) ;;
        assert_ (p_vaddr m ph <? PROC_DEFAULT_IMG_SIZE)) ;;
      exec_segments n' (i + 1) src
  end.

(** the loop that adds [delta] to every word up to the first zero word: the number
    of words; [None]: no zero word within the [n] words of the array *)
Fixpoint fix_args (n : nat) (p delta argc : Z) (m : mem) : option (Z * mem) :=
  match n with
  | O => None
  | S n' =>
      if ld32 m p =? 0 then Some (argc, m)
      else fix_args n' (p + 4) delta (argc + 1) (st32 p (u32 (ld32 m p + delta)) m)
  end.

Definition stk_pos : Z := PROC_DEFAULT_IMG_SIZE - PROC_ORIGIN_STACK.

(** the argument stack: copied, relocated, copied to the end of the image *)
Definition exec_stack (src buf buf_len : Z) : M sys Z :=
  if (buf_len <? 0) || (PROC_ORIGIN_STACK <? buf_len) then stop HFault
  else
    d ← lift (va2la TASK_MM stk_addr);
    s ← lift (va2la src buf);
    modm (memcpy d s buf_len) ;;
    m ← getmem;
    match fix_args (Z.to_nat (PROC_ORIGIN_STACK / 4)) stk_addr (i32 (stk_pos - i32 buf)) 0 m with
    | None => stop HFault
    | Some (argc, m') =>
        modm (fun _ => m') ;;
        d ← lift (va2la src stk_pos);
        s ← lift (va2la TASK_MM stk_addr);
        modm (memcpy d s buf_len) ;;
        ret argc
    end.

(** [stat], [open], [read] and [close] of the file, into [mmbuf]: [false] is the
    return value -1 *)
Definition exec_read : M sys bool :=
  st ← get;
  let junk := msg_at (memory (kern st)) mbuf in
  let call (_ : Z) (m : MESSAGE) := fs m in
  r ← stat call junk TASK_MM slen path_addr stat_addr;
  if negb (r =? 0) then ret false
  else
    fd ← open call junk TASK_MM slen path_addr O_RDWR;
    if fd <? 0 then ret false
    else
      m ← getmem;
      let size := ld32s m (stat_addr + 16) in
      assert_ (size <=? MMBUF_SIZE) ;;
      read call junk fd mmbuf size ;;
      close call junk fd ;;
      ret true.

(** the path into MM's array; 0 ends it *)
Definition exec_path (src va len : Z) : M sys unit :=
  assert_ (len <? MAX_PATH) ;;
  if len <? 0 then stop HFault
  else
    d ← lift (va2la TASK_MM path_addr);
    s ← lift (va2la src va);
    modm (memcpy d s len) ;;
    modm (fun m => upd m (path_addr + len) 0).

(** [strcpy(proc_table[src].p_name, path)] *)
Definition exec_name (src len : Z) : M sys unit :=
  m ← getmem;
  let l := cstring (bytes_from m path_addr (Z.to_nat len)) in
  if P_NAME_SIZE <? Z.of_nat (length l) + 1 then stop HFault
  else lift (modp src (fun p => set_p_name (overwrite (l ++ [0]) (p_name p)) p)).

Definition do_exec (msg : MESSAGE) : M sys Z :=
  let src := source msg in
  exec_path src (PATHNAME msg) (NAME_LEN msg) ;;
  ok ← exec_read;
  if negb ok then ret (-1)
  else
    m ← getmem;
    exec_segments (Z.to_nat (e_phnum m mmbuf)) 0 src ;;
    argc ← exec_stack src (BUF msg) (BUF_LEN msg);
    m ← getmem;
    lift (modp src (fun p => set_regs (set_esp stk_pos (set_eip (e_entry m mmbuf)
      (set_ecx argc (set_eax stk_pos (regs p))))) p)) ;;
    exec_name src (NAME_LEN msg) ;;
    ret 0.

(** ** The body of [task_mm], for one message *)

Definition mm_reply (src : Z) (msg : MESSAGE) : M sys unit :=
  lift (task_send TASK_MM mbuf src (set_type SYSCALL_RET msg)).

Definition mm_serve (msg : MESSAGE) : M sys unit :=
  let src := source msg in
  if type msg =? FORK then r ← do_fork msg; mm_reply src (set_m3i1 (fst r) (snd r))
  else if type msg =? EXIT then do_exit msg
  else if type msg =? WAIT then do_wait msg
  else if type msg =? EXEC then r ← do_exec msg; mm_reply src (set_m3i1 r msg)
  else panic.
End mm.
