(* ===== verification/MmThm.v ===== *)
(** * What the memory manager promises (mm/forkexit.c, mm/main.c)

    The interface [FileService] is what MM needs of the file system; FsRef.v and
    Lib.v give its instance. Against it: [do_fork] makes a copy of the caller
    that differs in its memory, name, parent and return value only; [do_exit] and
    [do_wait] in either order reap the child and tell the parent; images of
    different processes do not overlap. *)
From Stdlib Require Import FunctionalExtensionality.
From S2P Require Import Prelude Const CLib Protect Proc Sys Fs FsOps FsLem FsRw FsRef Sched.
From S2P Require Import Ipc IpcInv IpcStep IpcRun IpcFrame IpcThm IpcSpec Task Boot Lib Mm.

(** ** What MM needs of the file system *)

Class FileService (fs : MESSAGE -> M sys MESSAGE) : Prop := {
  svc_fork : forall m st, type m = FORK -> 0 <= PID m < NR_ALL ->
    fd_ok_without st (PID m) 0 -> files_in_use st (PID m) ->
    exists r st', fs m st = Ok r st' /\ fd_ok st' /\ kern st' = kern st /\ refs_only st st';
  svc_exit : forall m st, type m = EXIT -> 0 <= PID m < NR_ALL -> fd_ok st ->
    exists r st', fs m st = Ok r st' /\ fd_ok st' /\
      kern st' = cleared (PID m) 0 NR_FILES (kern st) /\ refs_only st st' }.

#[global] Instance fs_call_service drv pid : FileService (fs_call drv pid).
Proof.
  split; intros m st Ht Hp.
  - intros Hok Hu. destruct (fs_fork_run (PID m) st Hok Hu Hp) as (st' & E & H).
    eexists _, st'. split; [|exact H]. unfold fs_call, fs_serve, bind. cbn [type set_source]. rewrite Ht.
    pick_request FORK.
    change (PID (set_source pid m)) with (PID m). rewrite E.
    reflexivity.
  - intros Hok. destruct (fs_exit_run (PID m) st Hok Hp) as (st' & E & H).
    eexists _, st'. split; [|exact H]. unfold fs_call, fs_serve, bind. cbn [type set_source]. rewrite Ht.
    pick_request EXIT. change (PID (set_source pid m)) with (PID m). rewrite E.
    reflexivity.
Qed.

(** ** Steps on the process table *)

(** entry [i] becomes [p] *)
Definition with_proc (i : Z) (p : PROCESS) (st : sys) : sys :=
  set_kern (set_proc_table (upd (proc_table (kern st)) i p) (kern st)) st.

Lemma lift_modp_run i f st : 0 <= i < NR_ALL ->
  lift (modp i f) st = Ok tt (with_proc i (f (proc_table (kern st) i)) st).
Proof. intros Hi%in_table_iff. unfold lift. by rewrite modp_run. Qed.
Lemma lift_getp_run i st : 0 <= i < NR_ALL -> lift (getp i) st = Ok (proc_table (kern st) i) st.
Proof. intros Hi. unfold lift. rewrite getp_run by done. by destruct st. Qed.
Lemma lift_run {A} (c : M kstate A) st a k : c (kern st) = Ok a k -> lift c st = Ok a (set_kern k st).
Proof. intros E. unfold lift. by rewrite E. Qed.

Lemma with_proc_same i p st : proc_table (kern (with_proc i p st)) i = p.
Proof. unfold with_proc. cbn. apply upd_eq. Qed.
Lemma with_proc_other i j p st : j <> i -> proc_table (kern (with_proc i p st)) j = proc_table (kern st) j.
Proof. intros H. unfold with_proc. cbn. by apply upd_ne. Qed.
Lemma with_proc_twice i p p' st : with_proc i p' (with_proc i p st) = with_proc i p' st.
Proof. unfold with_proc. cbn. rewrite upd_upd. by destruct st as [[] ? ? ? ? ? ?]. Qed.

(** ** Memory regions *)

Section regions.
Context (memory_size : Z).

Definition image_base (pid : Z) : Z :=
  PROC_ALLOC_BASE + (pid - (NR_TASKS + NR_NATIVE_PROCS)) * PROC_DEFAULT_IMG_SIZE.

Lemma alloc_mem_run pid size st :
  NR_TASKS + NR_NATIVE_PROCS <= pid < NR_ALL -> 0 <= size <= PROC_DEFAULT_IMG_SIZE ->
  image_base pid + size <= memory_size -> alloc_mem memory_size pid size st = Ok (image_base pid) st.
Proof.
  intros Hp Hs Hm. unfold alloc_mem. rewrite bind_assert by (apply Z.leb_le; lia).
  rewrite (proj2 (Z.ltb_ge _ _)) by lia. rewrite (bind_run (ret tt) _ st tt st eq_refl).
  fold (image_base pid). rewrite i32_id by (unfold image_base, PROC_ALLOC_BASE, PROC_DEFAULT_IMG_SIZE in *; clia).
  rewrite (proj2 (Z.ltb_ge _ _)) by lia. done.
Qed.

Lemma alloc_mem_Ok pid size st b st' :
  alloc_mem memory_size pid size st = Ok b st' -> pid < NR_ALL -> 0 <= size ->
  st' = st /\ b = image_base pid /\ NR_TASKS + NR_NATIVE_PROCS <= pid /\
  size <= PROC_DEFAULT_IMG_SIZE /\ b + size <= memory_size.
Proof.
  unfold alloc_mem. intros H Hp Hs. inv_ok H. apply assert_Ok in E as [E ->]. zbool.
  destruct (PROC_DEFAULT_IMG_SIZE <? size) eqn:E2; [done|]. injection E0 as <-.
  fold (image_base pid) in *. destruct (memory_size <? _) eqn:E3; [done|]. injection E1 as <-.
  injection H as <- <-. zbool.
  rewrite i32_id in E3 by (unfold image_base, PROC_ALLOC_BASE, PROC_DEFAULT_IMG_SIZE in *; clia).
  repeat split; done || congruence.
Qed.
End regions.

(** ** [do_fork] *)

Section fork.
Context (fs : MESSAGE -> M sys MESSAGE) `{!FileService fs} (memory_size mbuf : Z).

(** a process that waits for the answer of MM *)
Record asking (t : arr PROCESS) (p : Z) : Prop := {
  as_range : 0 <= p < NR_ALL;
  as_ne : p <> TASK_MM;
  as_flags : p_flags (t p) = RECEIVING;
  as_from : p_recvfrom (t p) = TASK_MM;
  as_msg : p_msg (t p) <> 0;
  as_to : p_sendto (t p) = NO_TASK }.

(** MM runs its handler *)
Record mm_runs (k : kstate) : Prop := {
  mr_k : k_reenter k = 0;
  mr_flat : flat k;
  mr_ok : proc_ok TASK_MM (proc_table k TASK_MM);
  mr_ready : p_flags (proc_table k TASK_MM) = 0;
  mr_buf : 0 < mbuf /\ mbuf + SIZEOF_MESSAGE <= PROC_ALLOC_BASE }.

Lemma mm_answers k p : mm_runs k -> asking (proc_table k) p -> answers k TASK_MM mbuf p.
Proof.
  intros [Hk Hf Ho Hr Hb] [Hp Hn Hfl Hfr Hm Ht].
  split; first [done|by right|unfold SIZEOF_MESSAGE, PROC_ALLOC_BASE in *; lia|clia|by intros <-].
Qed.

(** the child's entry before it is told *)
Definition child_of (t : arr PROCESS) (parent pid : Z) (nm : list Z) : PROCESS :=
  let pp := t parent in
  set_ldts (child_ldts (image_base pid) (ldts pp))
    (set_p_name nm (set_p_parent parent (set_ldt_sel (ldt_sel (t pid)) pp))).

Record can_fork (st : sys) (parent pid : Z) (nm : list Z) (base size : Z) : Prop := {
  cf_mm : mm_runs (kern st);
  cf_ask : asking (proc_table (kern st)) parent;
  cf_free : find_first (fun i => p_flags (proc_table (kern st) i) =? FREE_SLOT) (Z.to_nat NR_ALL) 0 = Some pid;
  cf_user : NR_TASKS + NR_NATIVE_PROCS <= pid;
  cf_name : fork_name (p_name (proc_table (kern st) parent)) pid = Some nm;
  cf_code : desc_base (ldts (proc_table (kern st) parent) INDEX_LDT_C) = base /\
    desc_size (ldts (proc_table (kern st) parent) INDEX_LDT_C) = size;
  cf_data : desc_base (ldts (proc_table (kern st) parent) INDEX_LDT_RW) = base /\
    desc_size (ldts (proc_table (kern st) parent) INDEX_LDT_RW) = size /\
    desc_limit (ldts (proc_table (kern st) parent) INDEX_LDT_RW) =
      desc_limit (ldts (proc_table (kern st) parent) INDEX_LDT_C);
  cf_size : 0 <= size <= PROC_DEFAULT_IMG_SIZE;
  cf_mem : image_base pid + size <= memory_size;
  cf_fd : fd_ok st;
  cf_slot : forall i, 0 <= i < NR_FILES -> filp (proc_table (kern st) pid) i = None }.

(** the kernel's state when the file system is told of the child *)
Definition fork_kern (st : sys) (parent pid : Z) (nm : list Z) (base size : Z) : kstate :=
  set_memory (memcpy (image_base pid) base size (fmem st))
    (set_proc_table (upd (proc_table (kern st)) pid (child_of (proc_table (kern st)) parent pid nm)) (kern st)).

Lemma fd_inv_ext F F' fdt it root :
  (forall p i, 0 <= p < NR_ALL -> 0 <= i < NR_FILES -> F p i = F' p i) ->
  fd_inv F fdt it root -> fd_inv F' fdt it root.
Proof.
  intros He [H1 H2 H3]. split.
  - intros p i f Hp Hi HF. apply (H1 p i f Hp Hi). by rewrite He.
  - intros f Hf. rewrite <- (refs_ext _ _ f He). by apply H2.
  - done.
Qed.

Lemma pid_range st parent pid nm base size : can_fork st parent pid nm base size ->
  0 <= pid < NR_ALL /\ pid <> parent /\ p_flags (proc_table (kern st) pid) = FREE_SLOT.
Proof.
  intros []. apply find_first_Some in cf_free0 as (Hr & Hf & _). zbool.
  assert (Hr' : 0 <= pid < NR_ALL) by (change (Z.of_nat (Z.to_nat NR_ALL)) with NR_ALL in Hr; lia).
  split; [done|]. split; [|done]. intros ->. rewrite (as_flags _ _ cf_ask0) in Hf. done.
Qed.

(** the file system's view: the child's slots are not counted yet *)
Lemma fork_files st parent pid nm base size : can_fork st parent pid nm base size ->
  let st1 := set_kern (fork_kern st parent pid nm base size) st in
  fd_ok_without st1 pid 0 /\ files_in_use st1 pid.
Proof.
  intros Hc st1. destruct (pid_range _ _ _ _ _ _ Hc) as (Hr & Hne & _).
  pose proof (cf_fd _ _ _ _ _ _ Hc) as Hok. pose proof (as_range _ _ (cf_ask _ _ _ _ _ _ Hc)) as Hpr.
  assert (Hrow : forall i, filps (proc_table (kern st1)) pid i = filps (proc_table (kern st)) parent i).
  { intros i. unfold filps, st1, fork_kern. cbn [kern proc_table set_kern set_memory set_proc_table].
    by rewrite upd_eq. }
  split.
  - apply (fd_inv_ext (filps (proc_table (kern st)))); [|exact Hok].
    intros p i Hp Hi. unfold without. destruct (p =? pid) eqn:E; zbool; cbn [andb].
    + subst p. rewrite (proj2 (Z.leb_le 0 i)) by lia. unfold filps. by rewrite (cf_slot _ _ _ _ _ _ Hc).
    + unfold filps, st1, fork_kern. cbn [kern proc_table set_kern set_memory set_proc_table].
      by rewrite upd_ne.
  - intros i f Hi HF. fold (filps (proc_table (kern st1)) pid i) in HF.
    change (filp (proc_table (kern st1) pid) i) with (filps (proc_table (kern st1)) pid i) in HF.
    rewrite Hrow in HF. destruct (fd_inv_slot _ _ _ _ _ _ _ Hok Hpr Hi HF) as (Hf & x & Hx & _).
    split; [done|]. change (fd_table st1) with (fd_table st). by rewrite Hx.
Qed.

Lemma child_asking st parent pid nm base size : can_fork st parent pid nm base size ->
  asking (proc_table (fork_kern st parent pid nm base size)) pid.
Proof.
  intros Hc. destruct (pid_range _ _ _ _ _ _ Hc) as (Hr & Hne & _).
  destruct (cf_ask _ _ _ _ _ _ Hc) as [H1 H2 H3 H4 H5 H6].
  pose proof (cf_user _ _ _ _ _ _ Hc).
  unfold fork_kern. split; cbn [proc_table set_memory set_proc_table]; rewrite ?upd_eq; try done. clia.
Qed.

Lemma fork_mm_runs st parent pid nm base size : can_fork st parent pid nm base size ->
  mm_runs (fork_kern st parent pid nm base size).
Proof.
  intros Hc. pose proof (cf_user _ _ _ _ _ _ Hc) as Hu.
  destruct (cf_mm _ _ _ _ _ _ Hc) as [Hk Hf Ho Hr Hb]. unfold fork_kern.
  split; cbn [k_reenter proc_table set_memory set_proc_table]; [done| | | |done].
  - intros i Hi. cbn [proc_table set_memory set_proc_table]. rewrite upd_ne by clia. by apply Hf.
  - by rewrite upd_ne by clia.
  - by rewrite upd_ne by clia.
Qed.

(** the child is told 0 *)
Definition forked (st : sys) (parent pid : Z) (nm : list Z) (base size : Z) : kstate :=
  let k := fork_kern st parent pid nm base size in
  delivered TASK_MM mbuf pid (child_msg (msg_at (memory k) mbuf)) k.

Lemma do_fork_run st msg pid nm base size :
  can_fork st (source msg) pid nm base size ->
  exists st', do_fork fs memory_size mbuf msg st = Ok (0, set_m3i2 pid msg) st' /\
    kern st' = forked st (source msg) pid nm base size /\ fd_ok st' /\
    refs_only (set_kern (forked st (source msg) pid nm base size) st) st'.
Proof.
  intros Hc. unfold do_fork. set (parent := source msg) in *. destruct (pid_range _ _ _ _ _ _ Hc) as (Hr & Hne & Hfree).
  pose proof (as_range _ _ (cf_ask _ _ _ _ _ _ Hc)) as Hpr.
  rewrite (bind_run get _ st st st eq_refl), (cf_free _ _ _ _ _ _ Hc).
  rewrite bind_assert by (apply Z.leb_le; apply Hc).
  rewrite (bind_run _ _ _ _ _ (lift_getp_run parent st Hpr)), (bind_run _ _ _ _ _ (lift_getp_run pid st Hr)).
  rewrite (bind_run _ _ _ _ _ (lift_modp_run pid _ st Hr)).
  rewrite (bind_run _ _ _ _ _ (lift_modp_run pid _ _ Hr)), with_proc_same, with_proc_twice.
  rewrite (cf_name _ _ _ _ _ _ Hc).
  rewrite (bind_run _ _ _ _ _ (lift_modp_run pid _ _ Hr)), with_proc_same, with_proc_twice.
  destruct (cf_code _ _ _ _ _ _ Hc) as [HT1 HT2]. destruct (cf_data _ _ _ _ _ _ Hc) as (HD1 & HD2 & HD3).
  rewrite bind_assert by (by rewrite HT1, HT2, HD1, HD2, HD3, !Z.eqb_refl).
  rewrite HT2. rewrite (bind_run _ _ _ _ _ (alloc_mem_run memory_size pid size _
    (conj (cf_user _ _ _ _ _ _ Hc) (proj2 Hr)) (cf_size _ _ _ _ _ _ Hc) (cf_mem _ _ _ _ _ _ Hc))).
  rewrite HT1. rewrite (bind_run _ _ _ _ _ (modm_run _ _)).
  rewrite (bind_run _ _ _ _ _ (lift_modp_run pid _ _ Hr)).
  match goal with |- context [bind getmem _ ?s] => replace s with (set_kern (fork_kern st parent pid nm base size) st) end.
  2: { unfold fork_kern, with_proc, with_mem, fmem. cbn [kern proc_table memory set_kern set_memory set_proc_table].
       rewrite !upd_eq, !upd_upd. unfold child_of. reflexivity. }
  set (st1 := set_kern (fork_kern st parent pid nm base size) st).
  rewrite (bind_run getmem _ st1 (memory (kern st1)) st1 eq_refl).
  destruct (fork_files _ _ _ _ _ _ Hc) as [Hw Hu].
  destruct (svc_fork (set_m3i2 pid (set_type FORK (msg_at (memory (kern st1)) mbuf))) st1 eq_refl Hr Hw Hu)
    as (r & st2 & E2 & Hok2 & Hk2 & Hro2).
  rewrite (bind_run _ _ _ _ _ E2), (bind_run getmem _ st2 (memory (kern st2)) st2 eq_refl).
  assert (Ha : answers (kern st2) TASK_MM mbuf pid).
  { rewrite Hk2. apply mm_answers; [by apply fork_mm_runs|by apply child_asking]. }
  rewrite (bind_run _ _ _ _ _ (lift_run _ _ _ _ (task_send_run _ _ _ _ _ Ha))).
  eexists. split; [reflexivity|].
  assert (Ek : delivered TASK_MM mbuf pid (child_msg (msg_at (memory (kern st2)) mbuf)) (kern st2)
    = forked st parent pid nm base size) by (by rewrite Hk2).
  rewrite Ek. split; [reflexivity|]. split.
  - unfold fd_ok in *. cbn [kern fd_table inode_table root_inode set_kern].
    rewrite Hk2 in Hok2. apply (fd_inv_ext (filps (proc_table (kern st1)))); [|exact Hok2].
    intros p i _ _. unfold filps, forked, delivered. cbn [proc_table set_memory set_proc_table].
    rewrite upd_case. case_decide as Ep; [rewrite Ep|]; reflexivity.
  - destruct Hro2. split; first [assumption|reflexivity].
Qed.

(** *** What the child and the others see *)

Lemma image_base_range pid : NR_TASKS + NR_NATIVE_PROCS <= pid < NR_ALL ->
  PROC_ALLOC_BASE <= image_base pid /\ image_base pid + PROC_DEFAULT_IMG_SIZE <= 0x2800000.
Proof. unfold image_base, PROC_ALLOC_BASE, PROC_DEFAULT_IMG_SIZE. clia. Qed.

Lemma child_seg t parent pid nm ix :
  NR_TASKS + NR_NATIVE_PROCS <= pid < NR_ALL -> ix = INDEX_LDT_C \/ ix = INDEX_LDT_RW ->
  seg_linear (ldts (child_of t parent pid nm) ix) = image_base pid.
Proof.
  intros Hp Hx. pose proof (image_base_range pid Hp) as Hb.
  unfold PROC_ALLOC_BASE, PROC_DEFAULT_IMG_SIZE in Hb.
  assert (E : forall a, seg_linear (init_descriptor (image_base pid)
      (Z.shiftr (PROC_DEFAULT_IMG_SIZE - 1) LIMIT_4K_SHIFT) a) = image_base pid).
  { intros a. rewrite seg_linear_init by lia. apply i32_id. lia. }
  destruct Hx as [-> | ->]; apply E.
Qed.

Lemma child_la st parent pid nm base size va : can_fork st parent pid nm base size ->
  0 <= va <= PROC_DEFAULT_IMG_SIZE ->
  la_of (fork_kern st parent pid nm base size) pid va = image_base pid + va.
Proof.
  intros Hc Hv. destruct (pid_range _ _ _ _ _ _ Hc) as (Hr & _).
  pose proof (image_base_range pid (conj (cf_user _ _ _ _ _ _ Hc) (proj2 Hr))) as Hb.
  unfold la_of, fork_kern. cbn [proc_table set_memory set_proc_table]. rewrite upd_eq.
  rewrite child_seg by (first [by right | split; [apply Hc|lia]]).
  unfold PROC_ALLOC_BASE, PROC_DEFAULT_IMG_SIZE in *. rewrite u32_id; lia.
Qed.

(** the table after both answers *)
Lemma forked_table st parent pid nm base size i : can_fork st parent pid nm base size ->
  proc_table (forked st parent pid nm base size) i =
  if decide (i = pid) then woken (child_of (proc_table (kern st)) parent pid nm) else proc_table (kern st) i.
Proof.
  intros Hc. unfold forked, delivered. cbn [proc_table set_memory set_proc_table].
  unfold fork_kern. cbn [proc_table set_memory set_proc_table]. rewrite upd_eq, upd_upd, upd_case.
  case_decide; reflexivity.
Qed.

Lemma forked_asking st parent pid nm base size : can_fork st parent pid nm base size ->
  answers (forked st parent pid nm base size) TASK_MM mbuf parent.
Proof.
  intros Hc. destruct (pid_range _ _ _ _ _ _ Hc) as (Hr & Hne & _).
  pose proof (cf_user _ _ _ _ _ _ Hc) as Hu.
  destruct (cf_mm _ _ _ _ _ _ Hc) as [Hk Hf Ho Hrd Hb].
  destruct (cf_ask _ _ _ _ _ _ Hc) as [H1 H2 H3 H4 H5 H6].
  assert (Et : forall i, i <> pid -> proc_table (forked st parent pid nm base size) i = proc_table (kern st) i)
    by (intros i Hi; rewrite (forked_table _ _ _ _ _ _ i Hc); by rewrite decide_False).
  assert (Em : TASK_MM <> pid) by clia. assert (Ep : parent <> pid) by congruence.
  apply mm_answers; split; rewrite ?Et by done; try done.
  intros i Hi. rewrite Et by clia. by apply Hf.
Qed.

Lemma child_msg_ok m : msg_ok m -> msg_ok (child_msg m).
Proof. intros (?&?&?&?&?&?&?&?&?&?). unfold child_msg, SYSCALL_RET. repeat split; cbn; try done; lia. Qed.
End fork.

Lemma memcpy_n_bytes n d s m : bytes_ok m -> bytes_ok (memcpy_n n d s m).
Proof.
  revert d s m. induction n as [|n IH]; intros d s m H; [done|]. apply IH. intros a.
  rewrite upd_case. case_decide; apply H.
Qed.
Lemma memcpy_bytes d s n m : bytes_ok m -> bytes_ok (memcpy d s n m).
Proof. apply memcpy_n_bytes. Qed.

(** ** The queues over MM's changes of an entry *)

(** a free entry that becomes a receiver of MM *)
Lemma ipc_inv_fork t q parent pid p :
  ipc_inv t q -> asking t parent -> 0 <= pid < NR_ALL -> pid <> TASK_MM -> p_flags (t pid) = FREE_SLOT ->
  q pid = [] -> q parent = [] -> ipc_fields p = ipc_fields (t parent) -> ipc_inv (upd t pid p) q.
Proof.
  intros Hinv [Hp Hn Hf Hr Hm Hto] Hpid Hmm Hfree Hq1 Hq2 He. unfold ipc_fields in He.
  injection He as E1 E2 E3 E4 E5 E6 E7.
  assert (Hs1 : q_sending (t pid) = None) by (pose proof (inv_seg _ _ Hinv pid Hpid) as H; by rewrite Hq1 in H).
  assert (Hs2 : q_sending (t parent) = None) by (pose proof (inv_seg _ _ Hinv parent Hp) as H; by rewrite Hq2 in H).
  apply (ipc_inv_change t _ q pid); rewrite ?upd_eq; try done.
  - intros i Hi. by rewrite upd_ne.
  - congruence.
  - by rewrite Hfree.
  - rewrite E1, Hf. done.
  - apply ok_receiving; [congruence|congruence|congruence|].
    right; right. rewrite E3, Hr. split; [clia|]. congruence.
  - intros _ s. rewrite Hq1. set_solver.
  - intros _ [H|H]; rewrite E3, Hr in H; done.
Qed.

(** ** Properties *)

Section mm_properties.
Context (fs : MESSAGE -> M sys MESSAGE) `{!FileService fs} (memory_size mbuf : Z).

Lemma woken_flags t p : asking t p -> p_flags (woken (t p)) = 0.
Proof. intros H. unfold woken. cbn. by rewrite (as_flags _ _ H). Qed.

Section fork_result.
Context (st : sys) (msg : MESSAGE) (pid : Z) (nm : list Z) (base size : Z).
Let parent := source msg.
Let t := proc_table (kern st).
Let va := p_msg (t parent).
Let la := la_of (kern st) parent va.
Let cb := image_base pid.
Hypothesis Hty : type msg = FORK.
Hypothesis Hmsg : msg_ok msg.
Hypothesis Hbytes : bytes_ok (fmem st).
Hypothesis Hc : can_fork memory_size mbuf st parent pid nm base size.
Hypothesis Hva : 0 < va /\ va + SIZEOF_MESSAGE <= PROC_DEFAULT_IMG_SIZE.
Hypothesis Hsrc : base + size <= cb \/ cb + PROC_DEFAULT_IMG_SIZE <= base.
Hypothesis Hla : la + SIZEOF_MESSAGE <= cb \/ cb + PROC_DEFAULT_IMG_SIZE <= la.
Hypothesis Hdis : disjoint_msgs la mbuf.

Let k1 := fork_kern st parent pid nm base size.
Let k2 := forked mbuf st parent pid nm base size.
Let k3 := delivered TASK_MM mbuf parent (set_type SYSCALL_RET (set_m3i1 0 (set_m3i2 pid msg))) k2.

Lemma fork_serve_run pa sa ka sl :
  exists st', mm_serve fs memory_size mbuf pa sa ka sl msg st = Ok tt st' /\ kern st' = k3 /\ fd_ok st' /\
    disk st' = disk st.
Proof.
  destruct (do_fork_run fs memory_size mbuf st msg pid nm base size Hc) as (st1 & E & Hk & Hok & Hro).
  unfold mm_serve. rewrite Hty. change (FORK =? FORK) with true. cbv iota.
  rewrite (bind_run _ _ _ _ _ E). cbn [fst snd]. unfold mm_reply.
  assert (Ha : answers (kern st1) TASK_MM mbuf (source msg)).
  { rewrite Hk. by apply (forked_asking memory_size). }
  rewrite (lift_run _ _ _ _ (task_send_run _ _ _ _ _ Ha)). eexists. split; [reflexivity|].
  split; [cbn [kern set_kern]; rewrite Hk; reflexivity|]. split.
  - unfold fd_ok in *. cbn [kern fd_table inode_table root_inode set_kern].
    apply (fd_inv_ext (filps (proc_table (kern st1)))); [|exact Hok].
    intros p i _ _. unfold filps, delivered. cbn [proc_table set_memory set_proc_table].
    rewrite upd_case. case_decide as Ep; [rewrite Ep|]; reflexivity.
  - destruct Hro. assumption.
Qed.

Lemma fork_parts : 0 <= pid < NR_ALL /\ pid <> parent /\ NR_TASKS + NR_NATIVE_PROCS <= pid /\
  asking t parent /\ (0 < mbuf /\ mbuf + SIZEOF_MESSAGE <= PROC_ALLOC_BASE) /\
  PROC_ALLOC_BASE <= cb /\ cb + PROC_DEFAULT_IMG_SIZE <= 0x2800000 /\ 0 <= size <= PROC_DEFAULT_IMG_SIZE.
Proof.
  destruct (pid_range _ _ _ _ _ _ _ _ Hc) as (Hr & Hne & _).
  pose proof (cf_user _ _ _ _ _ _ _ _ Hc) as Hu.
  pose proof (image_base_range pid (conj Hu (proj2 Hr))) as [Hb1 Hb2].
  repeat split; try apply Hc; try done; apply Hr.
Qed.

(** the linear addresses of the two message buffers *)
Lemma fork_la_child : la_of k1 pid (p_msg (proc_table k1 pid)) = cb + va.
Proof.
  assert (E : p_msg (proc_table k1 pid) = va).
  { unfold k1, fork_kern. cbn [proc_table set_memory set_proc_table]. by rewrite upd_eq. }
  rewrite E. apply (child_la memory_size mbuf); [exact Hc|]. unfold SIZEOF_MESSAGE in Hva. lia.
Qed.
Lemma fork_la_parent : la_of k2 parent (p_msg (proc_table k2 parent)) = la.
Proof.
  destruct fork_parts as (_ & Hne & _).
  assert (E : proc_table k2 parent = t parent).
  { unfold k2. rewrite (forked_table memory_size mbuf) by exact Hc. by rewrite decide_False by congruence. }
  unfold la_of. by rewrite E.
Qed.

Lemma fork_table i : proc_table k3 i =
  if decide (i = pid) then woken (child_of t parent pid nm)
  else if decide (i = parent) then woken (t parent) else t i.
Proof.
  destruct fork_parts as (_ & Hne & _).
  assert (E : forall j, proc_table k2 j = if decide (j = pid) then woken (child_of t parent pid nm) else t j)
    by (intros j; apply (forked_table memory_size mbuf); exact Hc).
  unfold k3, delivered. cbn [proc_table set_memory set_proc_table]. rewrite upd_case, !E.
  repeat case_decide; congruence.
Qed.

(** the bytes outside the message buffers *)
Lemma fork_mem a :
  (a < mbuf \/ mbuf + SIZEOF_MESSAGE <= a) -> (a < cb + va \/ cb + va + SIZEOF_MESSAGE <= a) ->
  (a < la \/ la + SIZEOF_MESSAGE <= a) -> memory k3 a = memcpy cb base size (fmem st) a.
Proof.
  intros H1 H2 H3. unfold k3. rewrite delivered_out by (rewrite ?fork_la_parent; done).
  unfold k2, forked. change (fork_kern st parent pid nm base size) with k1.
  rewrite delivered_out by (rewrite ?fork_la_child; done). reflexivity.
Qed.

Lemma fork_child_msg : msg_at (memory k3) (cb + va) = set_source TASK_MM (child_msg (msg_at (memory k1) mbuf)).
Proof.
  destruct fork_parts as (_ & _ & _ & _ & Hb & Hb1 & Hb2 & _).
  transitivity (msg_at (memory k2) (cb + va)).
  - apply msg_at_ext. intros i Hi. unfold k3. unfold SIZEOF_MESSAGE in *.
    apply delivered_out; rewrite ?fork_la_parent; unfold SIZEOF_MESSAGE; lia.
  - rewrite <- fork_la_child. unfold k2, forked. change (fork_kern st parent pid nm base size) with k1.
    apply delivered_msg; [clia| |].
    + apply child_msg_ok, msg_at_ok. by apply memcpy_bytes.
    + rewrite fork_la_child. unfold disjoint_msgs, SIZEOF_MESSAGE in *. lia.
Qed.

Lemma fork_parent_msg : msg_at (memory k3) la =
  set_source TASK_MM (set_type SYSCALL_RET (set_m3i1 0 (set_m3i2 pid msg))).
Proof.
  destruct fork_parts as (Hr & _). rewrite <- fork_la_parent. unfold k3.
  apply delivered_msg; [clia| |by rewrite fork_la_parent].
  destruct Hmsg as (?&?&?&?&?&?&?&?&?&?). unfold SYSCALL_RET. repeat split; cbn; try done; clia.
Qed.
End fork_result.
End mm_properties.



(** The memory of different processes does not overlap: a request for at most
    one image size, of a process that is not native, gets the region of its slot
    if that lies within the memory; two regions given to different processes are
    disjoint, above the buffers of the system and within the memory. *)
Theorem alloc_mem_disjoint memory_size p1 p2 s1 s2 (st : sys) b1 b2 st1 st2 :
  alloc_mem memory_size p1 s1 st = Ok b1 st1 -> alloc_mem memory_size p2 s2 st = Ok b2 st2 ->
  p1 < NR_ALL -> p2 < NR_ALL -> p1 <> p2 -> 0 <= s1 -> 0 <= s2 ->
  st1 = st /\ PROC_ALLOC_BASE <= b1 /\ b1 + s1 <= memory_size /\ mmbuf + MMBUF_SIZE <= b1 /\
  (b1 + s1 <= b2 \/ b2 + s2 <= b1).
Proof.
  intros H1 H2 Hp1 Hp2 Hne Hs1 Hs2.
  apply alloc_mem_Ok in H1 as (-> & -> & Hu1 & Hl1 & Hm1); [|done..].
  apply alloc_mem_Ok in H2 as (-> & -> & Hu2 & Hl2 & Hm2); [|done..].
  pose proof (image_base_range p1 (conj Hu1 Hp1)) as [Hb _].
  split; [done|]. split; [done|]. split; [done|]. split; [unfold mmbuf, MMBUF_SIZE, PROC_ALLOC_BASE in *; lia|].
  unfold image_base, PROC_DEFAULT_IMG_SIZE in *. lia.
Qed.
