(* ===== verification/MmExit.v ===== *)
(** * Exit and wait (mm/forkexit.c)

    The life of a process ends in one of two orders: it exits while its parent
    waits, or its parent waits for it later. Both orders end in the same state:
    the parent has the child's number and status, the child's entry is free, its
    files are closed. The children of a process that exits go to INIT. *)
From Stdlib Require Import FunctionalExtensionality.
From S2P Require Import Prelude Const CLib Protect Proc Sys Fs FsOps FsLem FsRw FsRef Sched.
From S2P Require Import Ipc IpcInv IpcStep IpcRun IpcFrame IpcThm IpcSpec Task Boot Lib Mm MmThm.

(** ** Frames *)

Lemma fd_ok_kern st k : fd_ok st ->
  (forall p i, 0 <= p < NR_ALL -> filp (proc_table k p) i = filp (proc_table (kern st) p) i) -> fd_ok (set_kern k st).
Proof.
  intros Hok He. apply (fd_inv_ext (filps (proc_table (kern st)))); [|exact Hok].
  intros p i Hp _. symmetry. by apply He.
Qed.

Lemma with_proc_fd_ok i p st : fd_ok st -> filp p = filp (proc_table (kern st) i) -> fd_ok (with_proc i p st).
Proof.
  intros Hok He. apply fd_ok_kern; [done|]. intros j x _. cbn. rewrite upd_case. case_decide as E; [subst j; by rewrite He|done].
Qed.

Section exit.
Context (fs : MESSAGE -> M sys MESSAGE) `{!FileService fs} (mbuf : Z).

(** a process that waits in [wait] *)
Record parked (t : arr PROCESS) (p : Z) : Prop := {
  pk_range : 0 <= p < NR_ALL;
  pk_ne : p <> TASK_MM;
  pk_flags : p_flags (t p) = Z.lor RECEIVING WAITING;
  pk_from : p_recvfrom (t p) = TASK_MM;
  pk_msg : p_msg (t p) <> 0;
  pk_to : p_sendto (t p) = NO_TASK }.

Definition unparked (p : PROCESS) : PROCESS := set_p_flags (Z.land (p_flags p) (Z.lnot WAITING)) p.

Lemma unparked_asking t p : parked t p -> asking (upd t p (unparked (t p))) p.
Proof.
  intros [H1 H2 H3 H4 H5 H6]. split; rewrite ?upd_eq; try done. unfold unparked. cbn. by rewrite H3.
Qed.

Lemma mm_runs_upd k i p : mm_runs mbuf k -> i <> TASK_MM -> ldts p = ldts (proc_table k i) ->
  mm_runs mbuf (set_proc_table (upd (proc_table k) i p) k).
Proof.
  intros [Hk Hf Ho Hr Hb] Hi Hl. split; try done; cbn [proc_table set_proc_table]; rewrite ?upd_ne by congruence; try done.
  intros j Hj. cbn [proc_table set_proc_table]. rewrite upd_case. case_decide as E; [|by apply Hf].
  subst. rewrite Hl. by apply Hf.
Qed.

Lemma mm_runs_delivered k p m : mm_runs mbuf k -> p <> TASK_MM -> mm_runs mbuf (delivered TASK_MM mbuf p m k).
Proof.
  intros Hk Hp. destruct (mm_runs_upd k p (woken (proc_table k p)) Hk Hp eq_refl) as [H1 H2 H3 H4 H5]. by split.
Qed.

(** ** [cleanup] *)

(** what the parent is told of the child [c] *)
Definition reap_msg (c status : Z) (m : MESSAGE) : MESSAGE :=
  set_m3i1 status (set_m3i2 c (set_type SYSCALL_RET m)).

Lemma cleanup_run c st : mm_runs mbuf (kern st) -> 0 <= c < NR_ALL ->
  asking (proc_table (kern st)) (p_parent (proc_table (kern st) c)) ->
  let p := proc_table (kern st) c in
  cleanup mbuf c st = Ok tt (with_proc c
    (set_p_flags FREE_SLOT (if decide (c = p_parent p) then woken p else p))
    (set_kern (delivered TASK_MM mbuf (p_parent p) (reap_msg c (exit_status p) (msg_at (fmem st) mbuf)) (kern st)) st)).
Proof.
  intros Hmm Hc Ha p. unfold cleanup. rewrite (bind_run _ _ _ _ _ (lift_getp_run c st Hc)).
  rewrite (bind_run getmem _ st (fmem st) st eq_refl).
  rewrite (bind_run _ _ _ _ _ (lift_run _ _ _ _ (task_send_run _ _ _ _ _ (mm_answers _ _ _ Hmm Ha)))).
  rewrite lift_modp_run by done. do 2 f_equal.
  unfold delivered. cbn [proc_table set_memory set_proc_table kern set_kern]. rewrite upd_case.
  unfold p. case_decide as E; [by rewrite <- E|done].
Qed.

(** ** [reparent] *)

Lemma reparent_none n i pid st :
  (forall j, i <= j < i + Z.of_nat n -> 0 <= j < NR_ALL /\ p_parent (proc_table (kern st) j) <> pid) ->
  reparent mbuf n i pid st = Ok tt st.
Proof.
  revert i. induction n as [|n IH]; intros i H; cbn [reparent]; [done|].
  destruct (H i ltac:(lia)) as [Hi Hp]. rewrite (bind_run _ _ _ _ _ (lift_getp_run i st Hi)).
  rewrite (proj2 (Z.eqb_neq _ _) Hp). rewrite (bind_run (when false _) _ st tt st eq_refl).
  apply IH. intros j Hj. apply H. lia.
Qed.

(** INIT can be told of a child: it is not waiting, or properly *)
Definition init_ready (t : arr PROCESS) : Prop := has (p_flags (t INIT)) WAITING = false \/ parked t INIT.

(** what the loop has done to the entries it has passed *)
Record reparented (t t' : arr PROCESS) (pid i n : Z) : Prop := {
  rp_parent : forall j, p_parent (t' j) =
    if decide (i <= j < i + n /\ p_parent (t j) = pid) then INIT else p_parent (t j);
  rp_filp : forall j, filp (t' j) = filp (t j) /\ exit_status (t' j) = exit_status (t j);
  rp_flags : forall j, j <> INIT -> p_flags (t' j) = p_flags (t j) \/ (p_flags (t' j) = FREE_SLOT /\
    p_parent (t j) = pid /\ has (p_flags (t j)) HANGING = true) }.

Lemma reparented_refl t pid i : reparented t t pid i 0.
Proof. split; try done; [|by left]. intros j. rewrite decide_False by lia. done. Qed.

Lemma reparented_step t t1 t' pid i n :
  0 <= n -> pid <> INIT -> reparented t t1 pid i 1 -> reparented t1 t' pid (i + 1) n ->
  reparented t t' pid i (n + 1).
Proof.
  intros Hn Hp [A1 A2 A3] [B1 B2 B3]. split.
  - intros j. rewrite B1, A1. repeat case_decide; try done; try lia; naive_solver lia.
  - intros j. destruct (A2 j), (B2 j). split; congruence.
  - intros j Hj. destruct (B3 j Hj) as [-> | (E & Hq & Hh)]; [by apply A3|].
    right. split; [done|]. rewrite A1 in Hq. case_decide as E1; [congruence|].
    split; [done|]. destruct (A3 j Hj) as [E2|(E2 & _)]; [by rewrite <- E2|]. by rewrite E2 in Hh.
Qed.

(** the state after one entry has been passed *)
Definition passed (t t1 : arr PROCESS) (pid i : Z) : Prop := reparented t t1 pid i 1.

Lemma passed_move st i pid : 0 <= i < NR_ALL -> p_parent (proc_table (kern st) i) = pid ->
  let p := proc_table (kern st) i in
  passed (proc_table (kern st)) (proc_table (kern (with_proc i (set_p_parent INIT p) st))) pid i.
Proof.
  intros Hi Hp p. unfold passed. cbn [kern with_proc set_kern proc_table set_proc_table]. split; intros j.
  - rewrite upd_case. repeat case_decide; subst; try done; try lia; cbn; naive_solver lia.
  - rewrite upd_case. case_decide; [by subst|done].
  - intros _. left. rewrite upd_case. case_decide; [by subst|done].
Qed.

Lemma init_ready_upd t i p : init_ready t -> p_flags p = p_flags (t i) -> p_recvfrom p = p_recvfrom (t i) ->
  p_msg p = p_msg (t i) -> p_sendto p = p_sendto (t i) -> init_ready (upd t i p).
Proof.
  intros [H|[H1 H2 H3 H4 H5 H6]] E1 E2 E3 E4; [left|right; split; try done];
    rewrite upd_case; case_decide as E; subst; congruence.
Qed.

(** a child that has exited and INIT that waits: INIT is told *)
Lemma reap_orphan_run i pid st :
  let t := proc_table (kern st) in
  mm_runs mbuf (kern st) -> parked t INIT -> fd_ok st -> 0 <= i < NR_ALL ->
  p_parent (t i) = pid -> pid <> INIT -> has (p_flags (t i)) HANGING = true ->
  exists st', (clear_waiting INIT ;; cleanup mbuf i) (with_proc i (set_p_parent INIT (t i)) st) = Ok tt st' /\
    mm_runs mbuf (kern st') /\ has (p_flags (proc_table (kern st') INIT)) WAITING = false /\
    passed t (proc_table (kern st')) pid i /\ fd_ok st'.
Proof.
  intros t Hmm Hpk Hok Hi Hp Hpid Hh.
  assert (Hin : i <> INIT) by (intros ->; by rewrite (pk_flags _ _ Hpk) in Hh).
  assert (Him : i <> TASK_MM) by (intros ->; unfold t in Hh; by rewrite (mr_ready _ _ Hmm) in Hh).
  assert (HI : 0 <= INIT < NR_ALL) by clia.
  set (st1 := with_proc i (set_p_parent INIT (t i)) st).
  assert (Ei : proc_table (kern st1) INIT = t INIT) by (by apply with_proc_other).
  unfold clear_waiting. rewrite (bind_run _ _ _ _ _ (lift_modp_run INIT _ st1 HI)), Ei.
  fold (unparked (t INIT)). set (st2 := with_proc INIT (unparked (t INIT)) st1).
  assert (E2 : proc_table (kern st2) i = set_p_parent INIT (t i)).
  { unfold st2. rewrite with_proc_other by done. apply with_proc_same. }
  assert (Hmm2 : mm_runs mbuf (kern st2)).
  { apply mm_runs_upd; [apply mm_runs_upd; done|done|by rewrite Ei]. }
  assert (E3 : proc_table (kern st2) INIT = unparked (t INIT)) by (apply with_proc_same).
  assert (Ha : asking (proc_table (kern st2)) INIT).
  { pose proof (unparked_asking _ _ Hpk) as [H1 H2 H3 H4 H5 H6].
    rewrite upd_eq in H3, H4, H5, H6. split; rewrite ?E3; done. }
  assert (Hok2 : fd_ok st2).
  { apply with_proc_fd_ok; [by apply with_proc_fd_ok|by rewrite Ei]. }
  rewrite (cleanup_run i st2 Hmm2 Hi) by (rewrite E2; exact Ha). rewrite E2. cbn [p_parent set_p_parent].
  rewrite decide_False by done. eexists. split; [reflexivity|].
  set (k3 := delivered _ _ _ _ _). assert (Hmm3 : mm_runs mbuf k3) by (by apply mm_runs_delivered).
  assert (Et : forall j, proc_table k3 j = if decide (j = INIT) then woken (unparked (t INIT))
    else if decide (j = i) then set_p_parent INIT (t i) else t j).
  { intros j. unfold k3, delivered. cbn [proc_table set_memory set_proc_table]. rewrite upd_case, E3.
    case_decide as E; [done|]. unfold st2. rewrite with_proc_other by done.
    unfold st1, with_proc. cbn [kern set_kern proc_table set_proc_table]. apply upd_case. }
  split; [|split; [|split]].
  - apply mm_runs_upd; [done|done|]. by rewrite Et, decide_False, decide_True.
  - cbn [kern with_proc set_kern proc_table set_proc_table]. rewrite upd_ne by done.
    rewrite Et, decide_True by done. unfold woken, unparked. cbn. by rewrite (pk_flags _ _ Hpk).
  - assert (Ef : forall j, proc_table (kern (with_proc i (set_p_flags FREE_SLOT (set_p_parent INIT (t i))) (set_kern k3 st2))) j
      = if decide (j = i) then set_p_flags FREE_SLOT (set_p_parent INIT (t i))
        else if decide (j = INIT) then woken (unparked (t INIT)) else t j).
    { intros j. cbn [kern with_proc set_kern proc_table set_proc_table]. rewrite upd_case, Et. repeat case_decide; congruence. }
    split; intros j; rewrite Ef; fold t.
    + repeat case_decide; subst; cbn; try done; try lia; naive_solver lia.
    + repeat case_decide; by subst.
    + intros Hj. rewrite (decide_False (P := j = INIT)) by done. case_decide; [subst; right; done|by left].
  - apply with_proc_fd_ok.
    + apply fd_ok_kern; [done|]. intros p x _. rewrite Et. unfold st2, st1, with_proc.
      cbn [kern set_kern proc_table set_proc_table]. rewrite !upd_case. repeat case_decide; subst; done.
    + cbn [kern set_kern]. by rewrite Et, decide_False, decide_True.
Qed.

Lemma reparent_run n i pid st :
  let t := proc_table (kern st) in
  mm_runs mbuf (kern st) -> init_ready t -> fd_ok st -> pid <> INIT -> 0 <= i -> i + Z.of_nat n <= NR_ALL ->
  exists st', reparent mbuf n i pid st = Ok tt st' /\ mm_runs mbuf (kern st') /\ fd_ok st' /\
    reparented t (proc_table (kern st')) pid i (Z.of_nat n).
Proof.
  revert i st. induction n as [|n IH]; intros i st t Hmm Hin Hok Hpid Hi Hn; cbn [reparent].
  { exists st. split; [done|]. split; [done|]. split; [done|apply reparented_refl]. }
  assert (Hir : 0 <= i < NR_ALL) by lia.
  assert (Hgo : forall st1, mm_runs mbuf (kern st1) -> init_ready (proc_table (kern st1)) -> fd_ok st1 ->
    passed t (proc_table (kern st1)) pid i ->
    exists st', reparent mbuf n (i + 1) pid st1 = Ok tt st' /\ mm_runs mbuf (kern st') /\ fd_ok st' /\
      reparented t (proc_table (kern st')) pid i (Z.of_nat (S n))).
  { intros st1 H1 H2 H3 H4. destruct (IH (i + 1) st1 H1 H2 H3 Hpid ltac:(lia) ltac:(lia)) as (st' & E & A & B & C).
    exists st'. split; [done|]. split; [done|]. split; [done|].
    replace (Z.of_nat (S n)) with (Z.of_nat n + 1) by lia. by eapply reparented_step; [lia| | |]. }
  rewrite (bind_run _ _ _ _ _ (lift_getp_run i st Hir)).
  destruct (p_parent (proc_table (kern st) i) =? pid) eqn:Ep; zbool.
  - unfold when at 1. set (st1 := with_proc i (set_p_parent INIT (t i)) st).
    assert (Hs : passed t (proc_table (kern st1)) pid i) by (by apply passed_move).
    assert (Ei : proc_table (kern st1) i = set_p_parent INIT (t i)) by apply with_proc_same.
    assert (EI : p_flags (proc_table (kern st1) INIT) = p_flags (t INIT)).
    { destruct (decide (i = INIT)) as [E|E]; [rewrite <- E, Ei; by rewrite E|]. unfold st1. by rewrite with_proc_other by congruence. }
    assert (Hrest : exists st2, (lift (modp i (set_p_parent INIT)) ;; p ← lift (getp i); q ← lift (getp INIT);
        when (has (p_flags p) HANGING && has (p_flags q) WAITING) (clear_waiting INIT ;; cleanup mbuf i)) st
        = Ok tt st2 /\ mm_runs mbuf (kern st2) /\ init_ready (proc_table (kern st2)) /\ fd_ok st2 /\
        passed t (proc_table (kern st2)) pid i).
    { rewrite (bind_run _ _ _ _ _ (lift_modp_run i _ st Hir)). fold t st1.
      rewrite (bind_run _ _ _ _ _ (lift_getp_run i st1 Hir)).
      rewrite (bind_run _ _ _ _ _ (lift_getp_run INIT st1 ltac:(clia))). rewrite Ei, EI. cbn [p_flags set_p_parent].
      destruct (has (p_flags (t i)) HANGING && has (p_flags (t INIT)) WAITING) eqn:Eh.
      - apply andb_true_iff in Eh as [Eh Ew]. destruct Hin as [Hin|Hin]; [congruence|].
        destruct (reap_orphan_run i pid st Hmm Hin Hok Hir Ep Hpid Eh) as (st2 & E2 & A & B & C & D).
        exists st2. split; [exact E2|]. split; [done|]. split; [by left|]. done.
      - exists st1. split; [reflexivity|]. split; [|split; [by apply init_ready_upd|split; [by apply with_proc_fd_ok|done]]].
        destruct (decide (i = TASK_MM)) as [->|Hne]; [|by apply mm_runs_upd].
        destruct Hmm as [Hk Hf Ho Hr Hb]. split; try done; cbn [kern st1 with_proc set_kern]; rewrite ?upd_eq; try done.
        + intros j Hj. cbn [proc_table set_proc_table]. rewrite upd_case. case_decide; [subst|]; by apply Hf.
        + cbn [proc_table set_proc_table]. rewrite upd_eq. by apply (proc_ok_ext TASK_MM (proc_table (kern st) TASK_MM)). }
    destruct Hrest as (st2 & E2 & A & B & C & D). rewrite (bind_run _ _ _ _ _ E2). by apply Hgo.
  - rewrite (bind_run (when false _) _ st tt st eq_refl). apply Hgo; [done..|].
    split; [|done|by left]. intros j. rewrite decide_False; [done|]. intros [Hj E]. replace j with i in E by lia. done.
Qed.

(** ** [do_exit] *)

(** the entry of a process whose files are closed and whose status is set *)
Definition closing (status : Z) (p : PROCESS) : PROCESS :=
  set_exit_status status (set_filp (fun j => if (0 <=? j) && (j <? NR_FILES) then None else filp p j) p).

(** what is left when the file system has closed the files *)
Definition exit_rest (c : Z) : M sys unit :=
  p ← lift (getp c);
  q ← lift (getp (p_parent p));
  (if has (p_flags q) WAITING then clear_waiting (p_parent p) ;; cleanup mbuf c
   else lift (modp c (fun p => set_p_flags (Z.lor (p_flags p) HANGING) p))) ;;
  reparent mbuf (Z.to_nat NR_ALL) 0 c.

Lemma exit_start msg st :
  let c := source msg in
  0 <= c < NR_ALL -> fd_ok st ->
  exists st1, do_exit fs mbuf msg st = exit_rest c st1 /\ fd_ok st1 /\ disk st1 = disk st /\
    kern st1 = set_proc_table (upd (proc_table (kern st)) c (closing (STATUS msg) (proc_table (kern st) c))) (kern st).
Proof.
  intros c Hc Hok. unfold do_exit. fold c. rewrite (bind_run getmem _ st (memory (kern st)) st eq_refl).
  destruct (svc_exit (set_m3i2 c (set_type EXIT (msg_at (memory (kern st)) mbuf))) st eq_refl Hc Hok)
    as (r & st0 & E & Hok0 & Hk0 & Hro).
  rewrite (bind_run _ _ _ _ _ E), (bind_run _ _ _ _ _ (lift_modp_run c _ st0 Hc)).
  change (PID (set_m3i2 c (set_type EXIT (msg_at (memory (kern st)) mbuf)))) with c in Hk0.
  assert (E0 : proc_table (kern st0) c = set_filp (fun j => if (0 <=? j) && (j <? NR_FILES) then None
    else filp (proc_table (kern st) c) j) (proc_table (kern st) c)).
  { rewrite Hk0. unfold cleared. cbn [proc_table set_proc_table]. apply upd_eq. }
  exists (with_proc c (set_exit_status (STATUS msg) (proc_table (kern st0) c)) st0).
  split; [reflexivity|]. split; [by apply with_proc_fd_ok|]. split; [apply Hro|].
  unfold with_proc. cbn [kern set_kern]. rewrite E0, Hk0. unfold cleared.
  cbn [proc_table set_proc_table]. rewrite upd_upd. by destruct (kern st).
Qed.

(** the parent's part: it is told, or the child stays for it *)
Lemma exit_parent_run c st :
  let t := proc_table (kern st) in let p := p_parent (t c) in
  mm_runs mbuf (kern st) -> 0 <= c < NR_ALL -> c <> TASK_MM -> p <> c -> fd_ok st ->
  parked t p \/ (0 <= p < NR_ALL /\ has (p_flags (t p)) WAITING = false) ->
  let told := delivered TASK_MM mbuf p (reap_msg c (exit_status (t c)) (msg_at (fmem st) mbuf))
    (set_proc_table (upd t p (unparked (t p))) (kern st)) in
  let st2 := if has (p_flags (t p)) WAITING then with_proc c (set_p_flags FREE_SLOT (t c)) (set_kern told st)
    else with_proc c (set_p_flags (Z.lor (p_flags (t c)) HANGING) (t c)) st in
  exit_rest c st = reparent mbuf (Z.to_nat NR_ALL) 0 c st2 /\ mm_runs mbuf (kern st2) /\ fd_ok st2 /\
  (forall j, j <> c -> j <> p -> proc_table (kern st2) j = t j) /\
  (proc_table (kern st2) p = if has (p_flags (t p)) WAITING then woken (unparked (t p)) else t p).
Proof.
  intros t p Hmm Hc Hcm Hpc Hok Hcase told st2.
  assert (Hp : 0 <= p < NR_ALL) by (destruct Hcase as [[]|[]]; done).
  unfold exit_rest. rewrite (bind_run _ _ _ _ _ (lift_getp_run c st Hc)). fold t p.
  rewrite (bind_run _ _ _ _ _ (lift_getp_run p st Hp)). fold t.
  destruct Hcase as [Hpk|[_ Hw]].
  - assert (Ew : has (p_flags (t p)) WAITING = true) by (by rewrite (pk_flags _ _ Hpk)).
    unfold st2. rewrite Ew. clear st2.
    set (st1 := with_proc p (unparked (t p)) st).
    assert (E1 : proc_table (kern st1) c = t c) by (apply with_proc_other; congruence).
    assert (Hmm1 : mm_runs mbuf (kern st1)) by (apply mm_runs_upd; [done|apply Hpk|done]).
    assert (Ha : asking (proc_table (kern st1)) p) by (exact (unparked_asking _ _ Hpk)).
    assert (Ec : (clear_waiting p ;; cleanup mbuf c) st =
      Ok tt (with_proc c (set_p_flags FREE_SLOT (t c)) (set_kern told st))).
    { unfold clear_waiting. rewrite (bind_run _ _ _ _ _ (lift_modp_run p _ st Hp)). fold t. fold (unparked (t p)).
      fold st1. rewrite (cleanup_run c st1 Hmm1 Hc) by (rewrite E1; exact Ha). rewrite E1. fold p.
      rewrite decide_False by congruence. reflexivity. }
    rewrite (bind_run _ _ _ _ _ Ec). split; [reflexivity|].
    assert (Et : forall j, proc_table told j = if decide (j = p) then woken (unparked (t p)) else t j).
    { intros j. unfold told, delivered. cbn [proc_table set_memory set_proc_table]. rewrite upd_eq, upd_upd. apply upd_case. }
    split; [|split; [|split]].
    + apply mm_runs_upd; [by apply (mm_runs_delivered (kern st1)); [|apply Hpk]|done|].
      by rewrite Et, decide_False by congruence.
    + apply with_proc_fd_ok.
      * apply fd_ok_kern; [done|]. intros j x _. rewrite Et. case_decide as E; [rewrite E|]; done.
      * cbn [kern set_kern]. by rewrite Et, decide_False by congruence.
    + intros j H1 H2. rewrite with_proc_other by done. cbn [kern set_kern]. by rewrite Et, decide_False.
    + rewrite with_proc_other by done. cbn [kern set_kern]. by rewrite Et, decide_True.
  - unfold st2. rewrite Hw. rewrite (bind_run _ _ _ _ _ (lift_modp_run c _ st Hc)). fold t.
    split; [reflexivity|]. split; [by apply mm_runs_upd|]. split; [by apply with_proc_fd_ok|].
    split; [intros j H1 _; by apply with_proc_other|by apply with_proc_other].
Qed.
End exit.

