(* ===== verification/MmWait.v ===== *)
(** * Waiting for children (mm/forkexit.c)

    [do_wait] answers with the first child that has exited, parks a caller that
    has children but none that has exited, and answers -1 otherwise. A child that
    exits and a parent that waits may come to MM in either order. *)
From Stdlib Require Import FunctionalExtensionality.
From S2P Require Import Prelude Const CLib Protect Proc Sys Fs FsOps FsLem FsRw FsRef Sched.
From S2P Require Import Ipc IpcInv IpcStep IpcRun IpcFrame IpcThm IpcSpec Task Boot Lib Mm MmThm MmExit.

#[local] Strategy 1000 [memcpy put_msg st32].

(** ** The search *)

Definition exited_child (t : arr PROCESS) (p i : Z) : bool :=
  (p_parent (t i) =? p) && has (p_flags (t i)) HANGING.
Definition child (t : arr PROCESS) (p i : Z) : bool := p_parent (t i) =? p.

Lemma wait_scan_spec n i p b t :
  wait_scan n i p b t =
  match find_first (exited_child t p) n i with
  | Some c => inl c
  | None => inr (b || if find_first (child t p) n i then true else false)
  end.
Proof.
  revert i b. induction n as [|n IH]; intros i b; cbn [wait_scan find_first]; [by rewrite orb_false_r|].
  unfold exited_child at 1, child at 1. destruct (p_parent (t i) =? p); cbn [negb andb]; [|apply IH].
  destruct (has (p_flags (t i)) HANGING); [done|]. rewrite IH.
  destruct (find_first _ n (i + 1)); [done|]. cbn [orb]. by rewrite orb_true_r.
Qed.

Section wait.
Context (fs : MESSAGE -> M sys MESSAGE) `{!FileService fs} (mbuf : Z).

Definition parking (p : PROCESS) : PROCESS := set_p_flags (Z.lor (p_flags p) WAITING) p.

Lemma parking_parked t p : asking t p -> parked (upd t p (parking (t p))) p.
Proof. intros [H1 H2 H3 H4 H5 H6]. split; rewrite ?upd_eq; try done. unfold parking. cbn. by rewrite H3. Qed.

Lemma unparked_parking t p : asking t p -> unparked (parking (t p)) = t p.
Proof.
  intros H. unfold unparked, parking. cbn [p_flags set_p_flags]. rewrite (as_flags _ _ H).
  change (Z.land (Z.lor RECEIVING WAITING) (Z.lnot WAITING)) with RECEIVING.
  rewrite <- (as_flags _ _ H). by destruct (t p).
Qed.

(** what the caller is told when it has no child *)
Definition no_child_msg (m : MESSAGE) : MESSAGE := set_m3i1 (-1) (set_m3i2 NO_TASK (set_type SYSCALL_RET m)).

(** the state of the kernel after [wait]: [e] the child found, [b] whether there
    is a child *)
Definition waited (p : Z) (e : option Z) (b : bool) (k : kstate) : kstate :=
  match e with
  | Some c => let k' := delivered TASK_MM mbuf p
                (reap_msg c (exit_status (proc_table k c)) (msg_at (memory k) mbuf)) k in
              set_proc_table (upd (proc_table k') c (set_p_flags FREE_SLOT (proc_table k c))) k'
  | None => if b then set_proc_table (upd (proc_table k) p (parking (proc_table k p))) k
            else delivered TASK_MM mbuf p (no_child_msg (msg_at (memory k) mbuf)) k
  end.

Lemma do_wait_run msg st :
  let p := source msg in let t := proc_table (kern st) in
  mm_runs mbuf (kern st) -> asking t p ->
  do_wait mbuf msg st = Ok tt (set_kern (waited p (find_first (exited_child t p) (Z.to_nat NR_ALL) 0)
    (if find_first (child t p) (Z.to_nat NR_ALL) 0 then true else false) (kern st)) st).
Proof.
  intros p t Hmm Ha. unfold do_wait. fold p. rewrite (bind_run get _ st st st eq_refl). fold t.
  rewrite wait_scan_spec. destruct (find_first (exited_child t p) _ 0) as [c|] eqn:Ec.
  - apply find_first_Some in Ec as (Hr & Hf & _). change (Z.of_nat (Z.to_nat NR_ALL)) with NR_ALL in Hr.
    unfold exited_child in Hf. apply andb_true_iff in Hf as [Hf Hh]. zbool.
    assert (Hcp : c <> p) by (intros ->; by rewrite (as_flags _ _ Ha) in Hh).
    rewrite (cleanup_run mbuf c st Hmm) by (first [lia|fold t; rewrite Hf; exact Ha]).
    fold t. rewrite Hf, decide_False by done. reflexivity.
  - cbn [orb]. destruct (find_first (child t p) _ 0).
    + rewrite lift_modp_run by apply Ha. reflexivity.
    + rewrite (bind_run getmem _ st (memory (kern st)) st eq_refl).
      apply (lift_run (task_send TASK_MM mbuf p (no_child_msg (msg_at (memory (kern st)) mbuf)))).
      by apply task_send_run, mm_answers.
Qed.

Lemma set_table_twice t t' k : set_proc_table t' (set_proc_table t k) = set_proc_table t' k.
Proof. reflexivity. Qed.

(** ** Exit before wait, wait before exit *)

Lemma delivered_upd p m c x k : c <> p ->
  delivered TASK_MM mbuf p m (set_proc_table (upd (proc_table k) c x) k) =
  set_proc_table (upd (proc_table (delivered TASK_MM mbuf p m k)) c x) (delivered TASK_MM mbuf p m k).
Proof.
  intros Hc. unfold delivered, la_of. cbn [proc_table memory set_memory set_proc_table].
  rewrite !upd_ne by congruence. rewrite (upd_comm (proc_table k) c p) by congruence. reflexivity.
Qed.

(** the child [c] is gone, its parent [p] has been told *)
Definition reaped (p c status : Z) (k : kstate) : kstate :=
  let k' := delivered TASK_MM mbuf p (reap_msg c status (msg_at (memory k) mbuf)) k in
  set_proc_table (upd (proc_table k') c (set_p_flags FREE_SLOT (closing status (proc_table k c)))) k'.

(** a child and its parent, both at MM *)
Record pair (k : kstate) (p c : Z) : Prop := {
  pr_mm : mm_runs mbuf k;
  pr_p : asking (proc_table k) p;
  pr_c : asking (proc_table k) c;
  pr_ne : c <> p;
  pr_parent : p_parent (proc_table k c) = p;
  pr_none : find_first (exited_child (proc_table k) p) (Z.to_nat NR_ALL) 0 = None;
  pr_leaf : forall j, 0 <= j < NR_ALL -> p_parent (proc_table k j) <> c }.

(** [exit] of a process without children *)
Lemma exit_leaf_run msg st :
  let c := source msg in let t := proc_table (kern st) in let p := p_parent (t c) in
  mm_runs mbuf (kern st) -> 0 <= c < NR_ALL -> c <> TASK_MM -> p <> c -> fd_ok st ->
  (forall j, 0 <= j < NR_ALL -> p_parent (t j) <> c) ->
  parked t p \/ (0 <= p < NR_ALL /\ has (p_flags (t p)) WAITING = false) ->
  exists st', do_exit fs mbuf msg st = Ok tt st' /\ fd_ok st' /\ disk st' = disk st /\
    kern st' = let x := closing (STATUS msg) (t c) in
      if has (p_flags (t p)) WAITING
      then reaped p c (STATUS msg) (set_proc_table (upd t p (unparked (t p))) (kern st))
      else set_proc_table (upd t c (set_p_flags (Z.lor (p_flags (t c)) HANGING) x)) (kern st).
Proof.
  intros c t p Hmm Hc Hcm Hpc Hok Hleaf Hcase.
  destruct (exit_start fs mbuf msg st Hc Hok) as (st1 & E1 & Hok1 & Hd1 & Hk1).
  fold c t in E1, Hk1.
  assert (Et1 : proc_table (kern st1) = upd t c (closing (STATUS msg) (t c))) by (by rewrite Hk1).
  assert (Ec1 : proc_table (kern st1) c = closing (STATUS msg) (t c)) by (rewrite Et1; apply upd_eq).
  assert (Eo1 : forall j, j <> c -> proc_table (kern st1) j = t j) by (intros; rewrite Et1; by apply upd_ne).
  assert (Hmm1 : mm_runs mbuf (kern st1)) by (rewrite Hk1; by apply mm_runs_upd).
  assert (Ep1 : p_parent (proc_table (kern st1) c) = p) by (by rewrite Ec1).
  destruct (exit_parent_run mbuf c st1) as (E2 & Hmm2 & Hok2 & Ho2 & Hp2); try done.
  { by rewrite Ep1. }
  { rewrite Ep1. destruct Hcase as [[]|[]]; [left|right]; rewrite ?Eo1 by done; [split; rewrite ?Eo1 by done|]; done. }
  rewrite Ep1, (Eo1 p Hpc), Ec1 in *. set (st2 := if has (p_flags (t p)) WAITING then _ else _) in *.
  assert (Epar : forall j, p_parent (proc_table (kern st2) j) = p_parent (t j)).
  { intros j. destruct (decide (j = c)) as [->|Hj].
    - unfold st2. destruct (has (p_flags (t p)) WAITING); by rewrite with_proc_same.
    - destruct (decide (j = p)) as [->|Hjp]; [|by rewrite Ho2, Eo1].
      rewrite Hp2. by destruct (has (p_flags (t p)) WAITING). }
  exists st2. split; [|split; [exact Hok2|split]].
  - etransitivity; [exact E1|]. etransitivity; [exact E2|]. apply reparent_none.
    intros j Hj. rewrite Epar. change (Z.of_nat (Z.to_nat NR_ALL)) with NR_ALL in Hj.
    split; [lia|]. apply Hleaf. lia.
  - unfold st2. destruct (has (p_flags (t p)) WAITING); exact Hd1.
  - unfold st2. clear st2 E2 Hmm2 Hok2 Ho2 Hp2 Epar. destruct (has (p_flags (t p)) WAITING).
    + unfold reaped, with_proc, fmem. cbn [kern set_kern]. rewrite Et1, Hk1.
      cbn [proc_table set_proc_table memory exit_status closing set_exit_status].
      rewrite (upd_comm t c p) by congruence.
      assert (E := delivered_upd p (reap_msg c (STATUS msg) (msg_at (memory (kern st)) mbuf)) c
        (closing (STATUS msg) (t c)) (set_proc_table (upd t p (unparked (t p))) (kern st)) ltac:(congruence)).
      cbn [proc_table set_proc_table] in E. rewrite upd_ne by congruence.
      change (set_proc_table (upd (upd t p (unparked (t p))) c (closing (STATUS msg) (t c)))
        (set_proc_table (upd t c (closing (STATUS msg) (t c))) (kern st))) with
        (set_proc_table (upd (upd t p (unparked (t p))) c (closing (STATUS msg) (t c)))
          (set_proc_table (upd t p (unparked (t p))) (kern st))).
      rewrite E. cbn [proc_table set_proc_table]. rewrite upd_upd. apply set_table_twice.
    + unfold with_proc. cbn [kern set_kern]. rewrite Et1, Hk1, upd_upd. reflexivity.
Qed.

(** the child first: it hangs until its parent waits *)
Lemma exit_wait_run me mw st p c :
  source me = c -> source mw = p -> pair (kern st) p c -> fd_ok st ->
  exists st', (do_exit fs mbuf me ;; do_wait mbuf mw) st = Ok tt st' /\ fd_ok st' /\ disk st' = disk st /\
    kern st' = reaped p c (STATUS me) (kern st).
Proof.
  intros <- <- [Hmm Hp Hc Hne Hpar Hno Hleaf] Hok. set (c := source me) in *. set (p := source mw) in *.
  assert (Hw : has (p_flags (proc_table (kern st) p)) WAITING = false) by (by rewrite (as_flags _ _ Hp)).
  destruct (exit_leaf_run me st Hmm (as_range _ _ Hc) (as_ne _ _ Hc)) as (st1 & E1 & Hok1 & Hd1 & Hk1);
    fold c; rewrite ?Hpar; [congruence|done|done| |].
  { right. split; [apply Hp|done]. }
  fold c in Hk1. rewrite Hpar, Hw, (as_flags _ _ Hc) in Hk1. cbv zeta in Hk1.
  rewrite (bind_run _ _ _ _ _ E1).
  assert (Hmm1 : mm_runs mbuf (kern st1)) by (rewrite Hk1; apply mm_runs_upd; [done|apply Hc|done]).
  assert (Et : forall j, proc_table (kern st1) j =
    if decide (j = c) then set_p_flags (Z.lor RECEIVING HANGING) (closing (STATUS me) (proc_table (kern st) c))
    else proc_table (kern st) j) by (intros j; rewrite Hk1; apply upd_case).
  assert (Ha1 : asking (proc_table (kern st1)) p).
  { assert (Ep : proc_table (kern st1) p = proc_table (kern st) p) by (rewrite Et; apply decide_False; congruence).
    destruct Hp. by split; rewrite ?Ep. }
  rewrite (do_wait_run mw st1 Hmm1 Ha1). fold p.
  replace (find_first (exited_child (proc_table (kern st1)) p) (Z.to_nat NR_ALL) 0) with (Some c).
  2: { symmetry. apply find_first_Some. split; [|split].
    - change (Z.of_nat (Z.to_nat NR_ALL)) with NR_ALL. pose proof (as_range _ _ Hc). lia.
    - unfold exited_child. rewrite Et, decide_True by done. cbn. by rewrite Hpar, Z.eqb_refl.
    - intros j Hj. unfold exited_child. rewrite Et, decide_False by lia.
      apply (proj1 (find_first_None _ _ _) Hno). pose proof (as_range _ _ Hc). clia. }
  eexists. split; [reflexivity|]. split; [|split; [exact Hd1|]].
  - apply fd_ok_kern; [done|]. intros j x _. unfold waited, delivered.
    cbn [proc_table set_proc_table set_memory]. rewrite !upd_case.
    case_decide as Ej; [rewrite Ej; reflexivity|].
    case_decide as Ek; [rewrite Ek|]; reflexivity.
  - cbn [kern set_kern]. unfold waited, reaped. rewrite (Et c), decide_True by done.
    cbn [exit_status closing set_exit_status set_p_flags]. rewrite Hk1. cbn [memory set_proc_table].
    rewrite delivered_upd by done. rewrite set_table_twice. cbn [proc_table set_proc_table]. rewrite upd_upd. reflexivity.
Qed.

(** the parent first: it is parked until its child exits *)
Lemma wait_exit_run me mw st p c :
  source me = c -> source mw = p -> pair (kern st) p c -> fd_ok st ->
  exists st', (do_wait mbuf mw ;; do_exit fs mbuf me) st = Ok tt st' /\ fd_ok st' /\ disk st' = disk st /\
    kern st' = reaped p c (STATUS me) (kern st).
Proof.
  intros <- <- [Hmm Hp Hc Hne Hpar Hno Hleaf] Hok. set (c := source me) in *. set (p := source mw) in *.
  assert (Hch : exists i, find_first (child (proc_table (kern st)) p) (Z.to_nat NR_ALL) 0 = Some i).
  { destruct (find_first (child _ p) _ 0) eqn:E; [by eexists|]. exfalso.
    pose proof (proj1 (find_first_None _ _ _) E c) as H. unfold child in H. rewrite Hpar, Z.eqb_refl in H.
    assert (0 <= c < 0 + Z.of_nat (Z.to_nat NR_ALL)) by (pose proof (as_range _ _ Hc); clia). by discriminate H. }
  destruct Hch as [i Hch].
  pose proof (do_wait_run mw st Hmm Hp) as E1. fold p in E1. rewrite Hno, Hch in E1. cbn [waited] in E1.
  set (st1 := set_kern _ st) in E1. rewrite (bind_run _ _ _ _ _ E1).
  assert (Et : forall j, proc_table (kern st1) j =
    if decide (j = p) then parking (proc_table (kern st) p) else proc_table (kern st) j) by (intros j; apply upd_case).
  assert (Ec : proc_table (kern st1) c = proc_table (kern st) c) by (by rewrite Et, decide_False).
  assert (Epp : proc_table (kern st1) p = parking (proc_table (kern st) p)) by (by rewrite Et, decide_True).
  destruct (exit_leaf_run me st1) as (st2 & E2 & Hok2 & Hd2 & Hk2); fold c; rewrite ?Ec, ?Hpar.
  - apply mm_runs_upd; [done|apply Hp|done].
  - apply Hc.
  - apply Hc.
  - congruence.
  - apply with_proc_fd_ok; done.
  - intros j Hj. rewrite Et. case_decide as E; [subst j|]; by apply (Hleaf _ Hj).
  - left. exact (parking_parked _ _ Hp).
  - exists st2. split; [exact E2|]. split; [done|]. split; [by rewrite Hd2|]. rewrite Hk2. fold c.
    rewrite Ec, Hpar, Epp, (unparked_parking _ _ Hp).
    assert (Ew : has (p_flags (parking (proc_table (kern st) p))) WAITING = true)
      by (unfold parking; cbn; by rewrite (as_flags _ _ Hp)).
    rewrite Ew. replace (set_proc_table (upd (proc_table (kern st1)) p (proc_table (kern st) p)) (kern st1)) with (kern st); [done|].
    unfold st1. cbn [kern set_kern proc_table set_proc_table]. rewrite upd_upd, upd_same, set_table_twice.
    by destruct (kern st).
Qed.

(** what the parent reads *)
Lemma reap_msg_ok c status m : -2147483648 <= c < 2147483648 -> -2147483648 <= status < 2147483648 -> msg_ok m ->
  msg_ok (reap_msg c status m).
Proof. intros Hc Hs (?&?&?&?&?&?&?&?&?&?). unfold reap_msg, SYSCALL_RET. repeat split; cbn; try done; clia. Qed.

Lemma delivered_table p m k j :
  proc_table (delivered TASK_MM mbuf p m k) j = if decide (j = p) then woken (proc_table k p) else proc_table k j.
Proof. unfold delivered. cbn [proc_table set_memory set_proc_table]. apply upd_case. Qed.

Lemma waited_reap p c b k :
  let la := la_of k p (p_msg (proc_table k p)) in
  bytes_ok (memory k) -> 0 <= c < NR_ALL -> disjoint_msgs la mbuf ->
  -2147483648 <= exit_status (proc_table k c) < 2147483648 ->
  (forall j, proc_table (waited p (Some c) b k) j = if decide (j = c) then set_p_flags FREE_SLOT (proc_table k c)
     else if decide (j = p) then woken (proc_table k p) else proc_table k j) /\
  msg_at (memory (waited p (Some c) b k)) la =
    set_source TASK_MM (reap_msg c (exit_status (proc_table k c)) (msg_at (memory k) mbuf)).
Proof.
  intros la Hb Hc Hd Hs. assert (E : forall t k', memory (set_proc_table t k') = memory k') by reflexivity. split.
  - intros j. unfold waited. cbv zeta. cbn [proc_table set_proc_table]. by rewrite upd_case, delivered_table.
  - unfold waited. cbv zeta. rewrite E. unfold la in *. clear la. apply delivered_msg; [clia| |exact Hd].
    apply reap_msg_ok; [clia|done|by apply msg_at_ok].
Qed.

Lemma waited_no_child p k :
  let la := la_of k p (p_msg (proc_table k p)) in
  bytes_ok (memory k) -> disjoint_msgs la mbuf ->
  (forall j, proc_table (waited p None false k) j = if decide (j = p) then woken (proc_table k p) else proc_table k j) /\
  msg_at (memory (waited p None false k)) la = set_source TASK_MM (no_child_msg (msg_at (memory k) mbuf)).
Proof.
  intros la Hb Hd. split; [intros j; apply delivered_table|].
  unfold la in *. clear la. apply delivered_msg; [clia| |exact Hd].
  apply (reap_msg_ok NO_TASK (-1)); [clia|lia|by apply msg_at_ok].
Qed.

Lemma reaped_msg p c status k :
  let la := la_of k p (p_msg (proc_table k p)) in
  bytes_ok (memory k) -> 0 <= c < NR_ALL -> -2147483648 <= status < 2147483648 -> disjoint_msgs la mbuf ->
  msg_at (memory (reaped p c status k)) la =
  set_source TASK_MM (reap_msg c status (msg_at (memory k) mbuf)).
Proof.
  intros la Hb Hc Hs Hd. assert (E : forall t k', memory (set_proc_table t k') = memory k') by reflexivity.
  unfold reaped. cbv zeta. rewrite E. unfold la in *. clear la. apply delivered_msg; [clia| |exact Hd].
  apply reap_msg_ok; [clia|done|by apply msg_at_ok].
Qed.
End wait.

(** ** Properties *)

(** C8: Exit and wait meet in either order. When a process without children asks
    to exit and its parent asks to wait, and no other child of the parent has
    exited, then serving the exit first (the child hangs until the parent waits)
    and serving the wait first (the parent is parked until the child exits) both
    end, in the same state of the kernel: the parent is ready and its message
    holds the child's number and status, the child's entry is free, its files are
    closed, all other processes are as before. *)
Theorem exit_wait_commute fs `{!FileService fs} mbuf me mw st :
  let c := source me in let p := source mw in let t := proc_table (kern st) in
  let la := la_of (kern st) p (p_msg (t p)) in
  pair mbuf (kern st) p c -> fd_ok st -> bytes_ok (fmem st) ->
  -2147483648 <= STATUS me < 2147483648 -> disjoint_msgs la mbuf ->
  exists st1 st2, (do_exit fs mbuf me ;; do_wait mbuf mw) st = Ok tt st1 /\
    (do_wait mbuf mw ;; do_exit fs mbuf me) st = Ok tt st2 /\
    kern st1 = kern st2 /\ fd_ok st1 /\ fd_ok st2 /\ disk st1 = disk st2 /\
    let t' := proc_table (kern st1) in
    p_flags (t' p) = 0 /\ p_flags (t' c) = FREE_SLOT /\
    (forall i, 0 <= i < NR_FILES -> filp (t' c) i = None) /\
    PID (msg_at (fmem st1) la) = c /\ STATUS (msg_at (fmem st1) la) = STATUS me /\
    (forall i, i <> p -> i <> c -> t' i = t i).
Proof.
  intros c p t la Hpr Hok Hb Hs Hd.
  destruct (exit_wait_run fs mbuf me mw st p c eq_refl eq_refl Hpr Hok) as (st1 & E1 & Hok1 & Hd1 & Hk1).
  destruct (wait_exit_run fs mbuf me mw st p c eq_refl eq_refl Hpr Hok) as (st2 & E2 & Hok2 & Hd2 & Hk2).
  destruct Hpr as [Hmm Hp Hc Hne _ _ _].
  exists st1, st2. split; [exact E1|]. split; [exact E2|]. split; [by rewrite Hk1, Hk2|].
  split; [done|]. split; [done|]. split; [congruence|]. unfold fmem. rewrite Hk1.
  set (t' := proc_table (reaped mbuf p c (STATUS me) (kern st))).
  assert (Et : forall j, t' j = if decide (j = c) then set_p_flags FREE_SLOT (closing (STATUS me) (t c))
    else if decide (j = p) then woken (t p) else t j).
  { intros j. unfold t', reaped, delivered. cbn [proc_table set_proc_table set_memory]. by rewrite !upd_case. }
  pose proof (reaped_msg mbuf p c (STATUS me) (kern st) Hb (as_range _ _ Hc) Hs Hd) as Hm.
  fold t in Hm. fold la in Hm. rewrite Hm. rewrite !Et, (decide_False (P := p = c)), !decide_True by congruence.
  split; [by apply woken_flags|]. split; [reflexivity|]. split.
  - intros i Hi. cbn. by rewrite (proj2 (Z.leb_le 0 i)), (proj2 (Z.ltb_lt i NR_FILES)) by lia.
  - split; [reflexivity|]. split; [reflexivity|]. intros i Hi1 Hi2. by rewrite Et, !decide_False.
Qed.

(** C24: Wait, on its three branches: the caller gets the number and the status of
    its first child that has exited, whose entry becomes free; if none has
    exited it is parked, nothing else changes; if it has no child it is told
    [NO_TASK] and -1. All other entries stay as they are. *)
Theorem wait_spec mbuf mw st :
  let p := source mw in let t := proc_table (kern st) in let la := la_of (kern st) p (p_msg (t p)) in
  mm_runs mbuf (kern st) -> asking t p -> bytes_ok (fmem st) -> disjoint_msgs la mbuf ->
  (forall i, 0 <= i < NR_ALL -> -2147483648 <= exit_status (t i) < 2147483648) ->
  exists st', do_wait mbuf mw st = Ok tt st' /\ disk st' = disk st /\
    let t' := proc_table (kern st') in let r := msg_at (fmem st') la in
    (forall c, find_first (exited_child t p) (Z.to_nat NR_ALL) 0 = Some c ->
       p_flags (t' p) = 0 /\ PID r = c /\ STATUS r = exit_status (t c) /\ p_flags (t' c) = FREE_SLOT /\
       forall i, i <> p -> i <> c -> t' i = t i) /\
    ((forall i, 0 <= i < NR_ALL -> exited_child t p i = false) ->
       (forall i, i <> p -> t' i = t i) /\
       ((exists i, 0 <= i < NR_ALL /\ p_parent (t i) = p) -> parked t' p /\ fmem st' = fmem st) /\
       ((forall i, 0 <= i < NR_ALL -> p_parent (t i) <> p) ->
          p_flags (t' p) = 0 /\ PID r = NO_TASK /\ STATUS r = -1)).
Proof.
  intros p t la Hmm Ha Hb Hd Hst. eexists. split; [apply do_wait_run; done|]. split; [done|].
  fold p t. cbn [kern set_kern]. unfold fmem. cbn [kern set_kern]. split.
  - intros c Ec. rewrite Ec. apply find_first_Some in Ec as (Hr & Hf & _).
    change (Z.of_nat (Z.to_nat NR_ALL)) with NR_ALL in Hr.
    assert (Hcp : c <> p).
    { intros ->. unfold exited_child in Hf. rewrite (as_flags _ _ Ha) in Hf. by rewrite andb_false_r in Hf. }
    destruct (waited_reap mbuf p c (if find_first (child t p) (Z.to_nat NR_ALL) 0 then true else false) (kern st)
      Hb ltac:(lia) Hd (Hst c ltac:(lia))) as [Et Em].
    fold t in Et, Em. fold la in Em. set (k' := waited mbuf p _ _ _) in *. clearbody k'.
    rewrite Em, !Et, (decide_False (P := p = c)), !decide_True by congruence.
    split; [by apply woken_flags|]. repeat (split; [reflexivity|]). intros i H1 H2. by rewrite Et, !decide_False.
  - intros Hno. replace (find_first (exited_child t p) _ 0) with (@None Z).
    2: { symmetry. apply find_first_None. intros i Hi. apply Hno. clia. }
    destruct (find_first (child t p) _ 0) as [i|] eqn:Ei.
    + apply find_first_Some in Ei as (Hr & Hf & _). unfold child in Hf. zbool.
      split; [intros j Hj; by apply upd_ne|]. split; [intros _; split; [by apply parking_parked|reflexivity]|].
      intros Hc. exfalso. apply (Hc i); [clia|done].
    + destruct (waited_no_child mbuf p (kern st) Hb Hd) as [Et Em].
      fold t in Et, Em. fold la in Em. set (k' := waited mbuf p _ _ _) in *. clearbody k'.
      split; [intros j Hj; by rewrite Et, decide_False|]. split.
      * intros (i & Hi & Hpi). exfalso. pose proof (proj1 (find_first_None _ _ _) Ei i) as H.
        unfold child in H. rewrite Hpi, Z.eqb_refl in H. specialize (H ltac:(clia)). discriminate H.
      * intros _. rewrite Em, Et, decide_True by done. split; [by apply woken_flags|]. split; reflexivity.
Qed.

