(* ===== verification/Exec.v ===== *)
(** * The arguments of a new program (lib/exec.c, mm/exec.c)

    [execv] builds the argument stack in an array of the caller: a word per
    argument, a zero word, the strings. MM copies it, moves every word by the
    distance to the end of the image, and puts it there. The first half runs on the
    memory as the caller addresses it, [base] being where its image starts; the
    theorem is that the new program finds the arguments the caller gave. *)
From S2P Require Import Prelude Const CLib Protect Proc Sys Fs FsOps FsLem FsRw Lib Mm.

Section execv.
(** the start of the caller's image, its array [stk], and bounds for [strlen] *)
Context (base stk : Z) (slen : nat).

(** the loop that counts the words of [argv]; the assertion bounds [n] *)
Fixpoint count_args (n : nat) (p stack_len : Z) : M mem Z :=
  match n with
  | O => stop HSpin
  | S n' =>
      m ← get;
      if ld32 m (base + p) =? 0 then ret stack_len
      else
        assert_ (stack_len + 2 * 4 <? PROC_ORIGIN_STACK) ;;
        count_args n' (p + 4) (stack_len + 4)
  end.

(** the loop over [argv]. Nothing bounds the strings: a string that does not fit
    [stk] is a fault. [stk] is a local array, so the strings lie outside it. *)
Fixpoint fill_args (n : nat) (p q stack_len : Z) : M mem Z :=
  match n with
  | O => stop HSpin
  | S n' =>
      m ← get;
      let s := ld32 m (base + p) in
      if s =? 0 then ret stack_len
      else
        modify (st32 (base + q) (stk + stack_len)) ;;
        m ← get;
        match strlen slen m (base + s) with
        | None => stop HSpin
        | Some len =>
            if PROC_ORIGIN_STACK <? stack_len + len + 1 then stop HFault
            else
              modify (strcpy_n slen (base + (stk + stack_len)) (base + s)) ;;
              modify (fun m => upd m (base + (stk + (stack_len + len))) 0) ;;
              fill_args n' (p + 4) (q + 4) (stack_len + len + 1)
        end
  end.

Definition ARG_FUEL : nat := 257.

(** [stk] of [execv]; the result is [stack_len] *)
Definition execv_stack (argv : Z) : M mem Z :=
  stack_len ← count_args ARG_FUEL argv 0;
  modify (st32 (base + (stk + stack_len)) 0) ;;
  fill_args ARG_FUEL argv stk (stack_len + 4).
End execv.

(** a command on the memory alone *)
Definition on_mem {A} (c : M mem A) : M sys A :=
  fun st => match c (memory (kern st)) with
            | Ok a m => Ok a (set_kern (set_memory m (kern st)) st)
            | Halt h => Halt h
            end.

(** [execv]: the stack, and the message to MM *)
Definition execv (call : Z -> MESSAGE -> M sys MESSAGE) (junk : MESSAGE) (pid base stk : Z) (slen : nat)
    (path argv : Z) : M sys Z :=
  stack_len ← on_mem (execv_stack base stk slen argv);
  n ← str_len pid slen path;
  r ← call TASK_MM (set_m3i3 stack_len (set_m3p2 stk (set_m3i2 n (set_m3p1 path (set_type EXEC junk)))));
  assert_ (type r =? SYSCALL_RET) ;;
  ret (RETVAL r).

(** [execl]: its variable arguments are the array *)
Definition execl (call : Z -> MESSAGE -> M sys MESSAGE) (junk : MESSAGE) (pid base stk : Z) (slen : nat)
    (path arg_addr : Z) : M sys Z := execv call junk pid base stk slen path arg_addr.

(** ** Argument stacks *)

(** the words at [a]: pointers to consecutive strings from [ptr] on, then 0 *)
Fixpoint ptrs_at (m : mem) (a ptr : Z) (ls : list (list Z)) : Prop :=
  match ls with
  | [] => True
  | l :: ls' => ld32 m a = ptr /\ ptrs_at m (a + 4) (ptr + Z.of_nat (length l) + 1) ls'
  end.
(** the strings at [a], one after the other *)
Fixpoint strs_at (m : mem) (a : Z) (ls : list (list Z)) : Prop :=
  match ls with
  | [] => True
  | l :: ls' => cstr m a l /\ strs_at m (a + Z.of_nat (length l) + 1) ls'
  end.
Fixpoint strs_size (ls : list (list Z)) : Z :=
  match ls with [] => 0 | l :: ls' => Z.of_nat (length l) + 1 + strs_size ls' end.

Definition nargs (ls : list (list Z)) : Z := Z.of_nat (length ls).
Definition stack_size (ls : list (list Z)) : Z := 4 * (nargs ls + 1) + strs_size ls.

(** an argument stack for [ls] that a program whose image starts at [base] finds
    at its address [v] *)
Definition arg_stack (m : mem) (base v : Z) (ls : list (list Z)) : Prop :=
  ptrs_at m (base + v) (v + 4 * (nargs ls + 1)) ls /\ ld32 m (base + v + 4 * nargs ls) = 0 /\
  strs_at m (base + v + 4 * (nargs ls + 1)) ls.

(** the array [argv] of the caller: nonzero pointers to strings, all outside [stk] *)
Fixpoint argv_at (m : mem) (base stk argv : Z) (ls : list (list Z)) : Prop :=
  (argv + 4 <= stk \/ stk + PROC_ORIGIN_STACK <= argv) /\
  match ls with
  | [] => ld32 m (base + argv) = 0
  | l :: ls' =>
      let s := ld32 m (base + argv) in
      s <> 0 /\ cstr m (base + s) l /\ (s + Z.of_nat (length l) < stk \/ stk + PROC_ORIGIN_STACK <= s) /\
      argv_at m base stk (argv + 4) ls'
  end.

Lemma strs_size_pos ls : nargs ls <= strs_size ls.
Proof. induction ls as [|l ls IH]; unfold nargs in *; simpl; lia. Qed.

(** ** Moving argument stacks *)

Lemma cstr_shift m m' a a' l :
  (forall i, 0 <= i <= Z.of_nat (length l) -> m' (a' + i) = m (a + i)) -> cstr m a l -> cstr m' a' l.
Proof.
  revert a a'. induction l as [|c l IH]; intros a a' H; simpl in *.
  - specialize (H 0 ltac:(lia)). rewrite !Z.add_0_r in H. by rewrite H.
  - intros (<- & Hc & Hl). pose proof (H 0 ltac:(lia)) as H0. rewrite !Z.add_0_r in H0. rewrite H0.
    split; [done|]. split; [done|]. apply (IH (a + 1)); [|done]. intros i Hi.
    rewrite <- !Z.add_assoc. apply H. lia.
Qed.

Lemma ptrs_shift m m' a a' ptr ls :
  (forall i, 0 <= i < 4 * nargs ls -> m' (a' + i) = m (a + i)) -> ptrs_at m a ptr ls -> ptrs_at m' a' ptr ls.
Proof.
  revert a a' ptr. induction ls as [|l ls IH]; intros a a' ptr H; [done|]. unfold nargs in *. simpl in *.
  intros [H1 H2]. split; [rewrite <- H1; apply ld32_shift; intros; apply H; lia|].
  apply (IH (a + 4)); [|done]. intros i Hi. rewrite <- !Z.add_assoc. apply H. lia.
Qed.

Lemma strs_shift m m' a a' ls :
  (forall i, 0 <= i < strs_size ls -> m' (a' + i) = m (a + i)) -> strs_at m a ls -> strs_at m' a' ls.
Proof.
  revert a a'. induction ls as [|l ls IH]; intros a a' H; [done|]. pose proof (strs_size_pos ls).
  unfold nargs in *. simpl in *. intros [H1 H2]. split; [apply (cstr_shift m _ a); [|done]; intros; apply H; lia|].
  apply (IH (a + Z.of_nat (length l) + 1)); [|done]. intros i Hi.
  rewrite <- !Z.add_assoc. apply H. lia.
Qed.

Lemma argv_frame m m' base stk argv ls :
  agree_out (base + stk) PROC_ORIGIN_STACK m m' -> argv_at m base stk argv ls -> argv_at m' base stk argv ls.
Proof.
  intros Ha. revert argv. induction ls as [|l ls IH]; intros argv; simpl; intros [Hd H]; (split; [done|]);
    rewrite (ld32_agree _ _ m m') by (done || lia); [done|].
  destruct H as (H1 & H2 & H3 & H4). split; [done|]. split; [|split; [done|by apply IH]].
  eapply cstr_agree; [done| |done]. lia.
Qed.

(** ** The caller's half *)

Lemma cstr_chars m a l : cstr m a l -> Forall (fun c => 1 <= c < 256) l.
Proof. revert a. induction l as [|c l IH]; intros a; simpl; [done|]. intros (_ & Hc & Hl). eauto. Qed.

Lemma put_cstr p l m : Forall (fun c => 1 <= c < 256) l -> cstr (put_bytes p (l ++ [0]) m) p l.
Proof.
  revert p m. induction l as [|c l IH]; intros p m H; simpl; [apply upd_eq|].
  apply Forall_cons in H as [Hc H]. split; [|by split; [|apply IH]].
  rewrite put_bytes_out by lia. apply upd_eq.
Qed.

Lemma put_cstr_end p l m : put_bytes p (l ++ [0]) m (p + Z.of_nat (length l)) = 0.
Proof.
  pose proof (put_bytes_in p (l ++ [0]) m (Z.of_nat (length l))) as H.
  rewrite Nat2Z.id, lookup_app_r, Nat.sub_diag in H by lia. rewrite length_app in H. simpl in H.
  specialize (H ltac:(lia)). congruence.
Qed.

Section build.
Context (base stk : Z) (slen : nat).

Lemma count_run ls : forall fuel p len m,
  argv_at m base stk p ls -> (length ls < fuel)%nat -> len + 4 * nargs ls + 4 < PROC_ORIGIN_STACK \/ ls = [] ->
  count_args base fuel p len m = Ok (len + 4 * nargs ls) m.
Proof.
  induction ls as [|l ls IH]; intros [|fuel] p len m; try (simpl; lia); intros [_ H] Hf Hl; simpl in *;
    rewrite (bind_run get _ m m m eq_refl).
  - rewrite H. simpl. unfold ret, nargs. simpl. by rewrite Z.add_0_r.
  - destruct H as (H1 & _ & _ & H). rewrite (proj2 (Z.eqb_neq _ 0) H1). unfold nargs in *. simpl in *.
    destruct Hl as [Hl|?]; [|done]. rewrite bind_assert by (apply Z.ltb_lt; lia).
    rewrite IH; [f_equal; lia|done|lia|]. destruct ls; [by right|left; simpl in *; lia].
Qed.

Lemma fill_run ls : forall fuel p q len m,
  argv_at m base stk p ls -> (length ls < fuel)%nat -> Forall (fun l => (length l < slen)%nat) ls ->
  stk <= q -> q + 4 * nargs ls <= stk + len -> len + strs_size ls <= PROC_ORIGIN_STACK ->
  0 <= stk -> stk + PROC_ORIGIN_STACK <= 4294967296 -> 0 <= len ->
  exists m', fill_args base stk slen fuel p q len m = Ok (len + strs_size ls) m' /\
    ptrs_at m' (base + q) (stk + len) ls /\ strs_at m' (base + (stk + len)) ls /\
    (forall x, ~ base + q <= x < base + q + 4 * nargs ls ->
       ~ base + (stk + len) <= x < base + (stk + len) + strs_size ls -> m' x = m x).
Proof.
  induction ls as [|l ls IH]; intros [|fuel] p q len m; try (simpl; lia); intros [_ H] Hf Hs Hq Hr Hz H0 Hm Hl.
  { exists m. simpl in *. rewrite (bind_run get _ m m m eq_refl), H. simpl. unfold ret. by rewrite Z.add_0_r. }
  pose proof (strs_size_pos ls) as Hpos. unfold nargs in *. cbn [strs_size length] in *.
  apply Forall_cons in Hs as [Hsl Hs]. destruct H as (H1 & H2 & H3 & H4).
  set (k := Z.of_nat (length l)) in *. set (s := ld32 m (base + p)) in *.
  cbn [fill_args]. rewrite (bind_run get _ m m m eq_refl). fold s. rewrite (proj2 (Z.eqb_neq s 0) H1).
  set (m1 := st32 (base + q) (stk + len) m).
  assert (A1 : agree_out (base + stk) PROC_ORIGIN_STACK m m1) by (intros x Hx; apply st32_out; lia).
  assert (C1 : cstr m1 (base + s) l) by (eapply cstr_agree; [exact A1| |done]; lia).
  rewrite (bind_run (modify (st32 (base + q) (stk + len))) _ m tt m1 eq_refl), (bind_run get _ m1 m1 m1 eq_refl).
  unfold strlen. rewrite (strlen_n_spec slen m1 (base + s) l 0 C1 Hsl). fold k. rewrite Z.add_0_l.
  rewrite (proj2 (Z.ltb_ge PROC_ORIGIN_STACK (len + k + 1))) by lia.
  set (m2 := put_bytes (base + (stk + len)) (l ++ [0]) m1).
  assert (E2 : strcpy_n slen (base + (stk + len)) (base + s) m1 = m2)
    by (apply strcpy_n_spec; [done|done|lia]).
  rewrite (bind_run (modify (strcpy_n slen _ _)) _ m1 tt m2) by (unfold modify; by rewrite E2).
  assert (E3 : upd m2 (base + (stk + (len + k))) 0 = m2).
  { rewrite <- (upd_same m2 (base + (stk + (len + k)))) at 2. f_equal. unfold m2.
    replace (base + (stk + (len + k))) with (base + (stk + len) + k) by lia. symmetry. apply put_cstr_end. }
  rewrite (bind_run (modify (fun m => upd m _ 0)) _ m2 tt m2) by (unfold modify; by rewrite E3).
  assert (A2 : agree_out (base + (stk + len)) (k + 1) m1 m2).
  { unfold m2, k. replace (Z.of_nat (length l) + 1) with (Z.of_nat (length (l ++ [0])))
      by (rewrite length_app; simpl; lia). apply put_bytes_out. }
  assert (C2 : cstr m2 (base + (stk + len)) l) by (apply put_cstr; by eapply cstr_chars).
  assert (A3 : agree_out (base + stk) PROC_ORIGIN_STACK m m2).
  { intros x Hx. rewrite A2 by lia. apply A1. lia. }
  destruct (IH fuel (p + 4) (q + 4) (len + k + 1) m2) as (m' & R & P1 & P2 & P3); try lia; try done.
  { by apply (argv_frame m). }
  exists m'. split; [rewrite R; f_equal; lia|]. unfold nargs in *. split; [|split].
  - cbn [ptrs_at]. split.
    + rewrite (ld32_ext m' m1); [unfold m1; rewrite ld32_st32; apply u32_id; lia|].
      intros i Hi. rewrite P3 by lia. apply A2. lia.
    + replace (base + q + 4) with (base + (q + 4)) by lia.
      by replace (stk + len + Z.of_nat (length l) + 1) with (stk + (len + k + 1)) by lia.
  - cbn [strs_at]. split.
    + apply (cstr_shift m2 m' (base + (stk + len))); [|done]. intros i Hi. apply P3; lia.
    + by replace (base + (stk + len) + Z.of_nat (length l) + 1) with (base + (stk + (len + k + 1))) by lia.
  - intros x Hx1 Hx2. rewrite P3 by lia. rewrite A2 by lia. apply st32_out. lia.
Qed.

(** the stack [execv] builds *)
Lemma execv_stack_run argv ls m :
  argv_at m base stk argv ls -> Forall (fun l => (length l < slen)%nat) ls ->
  stack_size ls <= PROC_ORIGIN_STACK -> 0 <= stk -> stk + PROC_ORIGIN_STACK <= 4294967296 ->
  exists m', execv_stack base stk slen argv m = Ok (stack_size ls) m' /\ arg_stack m' base stk ls /\
    agree_out (base + stk) (stack_size ls) m m'.
Proof.
  intros Ha Hs Hz H0 Hm. pose proof (strs_size_pos ls) as Hpos. unfold stack_size in *. unfold nargs in *.
  assert (Hn : (length ls < ARG_FUEL)%nat) by (unfold ARG_FUEL, PROC_ORIGIN_STACK in *; lia).
  unfold execv_stack. rewrite (bind_run _ _ _ _ _ (count_run ls ARG_FUEL argv 0 m Ha Hn
    ltac:(unfold nargs; destruct ls; [by right|left; simpl in *; lia]))).
  rewrite Z.add_0_l. unfold nargs in *. set (n := Z.of_nat (length ls)) in *.
  set (m1 := st32 (base + (stk + 4 * n)) 0 m).
  rewrite (bind_run (modify (st32 (base + (stk + 4 * n)) 0)) _ m tt m1 eq_refl).
  assert (A1 : agree_out (base + stk) PROC_ORIGIN_STACK m m1) by (intros x Hx; apply st32_out; lia).
  destruct (fill_run ls ARG_FUEL argv stk (4 * n + 4) m1) as (m' & R & P1 & P2 & P3); unfold nargs in *;
    try lia; try done; [by apply (argv_frame m)|].
  exists m'. split; [rewrite R; f_equal; lia|]. split.
  - unfold arg_stack, nargs. fold n.
    replace (stk + 4 * (n + 1)) with (stk + (4 * n + 4)) by lia. split; [done|]. split.
    + rewrite (ld32_ext m' m1); [|intros i Hi; apply P3; lia]. unfold m1.
      replace (base + stk + 4 * n) with (base + (stk + 4 * n)) by lia. by rewrite ld32_st32.
    + by replace (base + stk + 4 * (n + 1)) with (base + (stk + (4 * n + 4))) by lia.
  - intros x Hx. rewrite P3 by lia. apply st32_out. lia.
Qed.
End build.

(** ** MM's half *)

Lemma fix_args_run delta ls : forall n a ptr argc m,
  ptrs_at m a ptr ls -> ld32 m (a + 4 * nargs ls) = 0 -> (length ls < n)%nat ->
  0 < ptr -> ptr + strs_size ls <= 4294967296 -> 0 < ptr + delta -> ptr + delta + strs_size ls <= 4294967296 ->
  exists m', fix_args n a delta argc m = Some (argc + nargs ls, m') /\ ptrs_at m' a (ptr + delta) ls /\
    agree_out a (4 * nargs ls) m m'.
Proof.
  induction ls as [|l ls IH]; intros [|n] a ptr argc m Hp Hz Hn Hb Hb' Hd Hd'; unfold nargs in *; simpl in Hn; try lia.
  - simpl in *. rewrite Z.add_0_r in Hz. rewrite Hz. exists m. by rewrite Z.add_0_r.
  - pose proof (strs_size_pos ls) as Hpos. unfold nargs in *. cbn [length strs_size ptrs_at fix_args] in *.
    destruct Hp as [H1 H2]. rewrite H1. rewrite (proj2 (Z.eqb_neq ptr 0)) by lia. rewrite u32_id by lia.
    set (m1 := st32 a (ptr + delta) m).
    destruct (IH n (a + 4) (ptr + Z.of_nat (length l) + 1) (argc + 1) m1) as (m' & R & P & A); try lia.
    + apply (ptrs_shift m _ (a + 4)); [|done]. intros i Hi. apply st32_out. lia.
    + rewrite <- Hz. unfold m1. rewrite ld32_st32_ne by lia. f_equal. lia.
    + exists m'. split; [rewrite R; do 2 f_equal; lia|]. split; [split|].
      * rewrite (ld32_ext m' m1) by (intros i Hi; apply A; lia). unfold m1. rewrite ld32_st32. apply u32_id. lia.
      * by replace (ptr + delta + Z.of_nat (length l) + 1) with (ptr + Z.of_nat (length l) + 1 + delta) by lia.
      * intros x Hx. rewrite A by lia. apply st32_out. lia.
Qed.

(** the process [pid] has its image at [base], MM's array lies outside it *)
Record placed (st : kstate) (pid base stk_addr : Z) : Prop := mkPlaced {
  pl_pid : 0 <= pid < NR_ALL;
  pl_flat : flat st;
  pl_base : 0 <= base /\ base + PROC_DEFAULT_IMG_SIZE <= 4294967296;
  pl_la : forall va, 0 <= va < PROC_DEFAULT_IMG_SIZE -> la_of st pid va = base + va;
  pl_mm : 0 <= stk_addr /\ stk_addr + PROC_ORIGIN_STACK <= 4294967296;
  pl_out : stk_addr + PROC_ORIGIN_STACK <= base \/ base + PROC_DEFAULT_IMG_SIZE <= stk_addr }.

Lemma exec_stack_run pid base stk_addr stk ls st :
  placed (kern st) pid base stk_addr -> 0 <= stk -> stk + PROC_ORIGIN_STACK <= PROC_DEFAULT_IMG_SIZE ->
  stack_size ls <= PROC_ORIGIN_STACK -> arg_stack (fmem st) base stk ls ->
  exists st', exec_stack stk_addr pid stk (stack_size ls) st = Ok (nargs ls) st' /\
    arg_stack (fmem st') base stk_pos ls /\ st' = with_mem (fmem st') st /\
    (forall a, ~ stk_addr <= a < stk_addr + stack_size ls -> ~ base + stk_pos <= a < base + stk_pos + stack_size ls ->
       fmem st' a = fmem st a).
Proof.
  intros [Hp Hf Hb Hla Hmm Hout] H0 Hs Hz (P1 & P2 & P3). pose proof (strs_size_pos ls) as Hpos.
  set (sz := stack_size ls) in *. assert (Esz : sz = 4 * (nargs ls + 1) + strs_size ls) by done.
  assert (0 <= nargs ls) as Hn0 by (unfold nargs; lia).
  assert (Hsp : stk_pos = 1047552) by done. unfold PROC_ORIGIN_STACK, PROC_DEFAULT_IMG_SIZE in *.
  assert (Lmm : forall k, flat k -> la_of k TASK_MM stk_addr = stk_addr)
    by (intros k Hk; unfold la_of; rewrite Hk by clia; rewrite Z.add_0_r; apply u32_id; lia).
  unfold exec_stack. replace ((sz <? 0) || (PROC_ORIGIN_STACK <? sz)) with false
    by (symmetry; apply orb_false_iff; split; apply Z.ltb_ge; unfold PROC_ORIGIN_STACK; lia).
  rewrite (bind_run _ _ _ _ _ (lift_va2la TASK_MM stk_addr st ltac:(clia) Hf)), Lmm by done.
  rewrite (bind_run _ _ _ _ _ (lift_va2la pid stk st Hp Hf)), Hla by lia.
  set (m1 := memcpy stk_addr (base + stk) sz (fmem st)).
  rewrite (bind_run (modm _) _ st tt (with_mem m1 st) eq_refl).
  rewrite (bind_run getmem _ (with_mem m1 st) m1 (with_mem m1 st) eq_refl).
  assert (M1 : forall i, 0 <= i < sz -> m1 (stk_addr + i) = fmem st (base + stk + i)).
  { intros i Hi. unfold m1. rewrite memcpy_in by lia. f_equal. lia. }
  assert (i32 (stk_pos - i32 stk) = stk_pos - stk) as -> by (rewrite !i32_id by (rewrite ?i32_id; lia); done).
  destruct (fix_args_run (stk_pos - stk) ls (Z.to_nat (PROC_ORIGIN_STACK / 4)) stk_addr
    (stk + 4 * (nargs ls + 1)) 0 m1) as (m2 & R & Q & A).
  { apply (ptrs_shift (fmem st) _ (base + stk)); [|done]. intros i Hi. apply M1. lia. }
  { rewrite <- P2. apply ld32_shift. intros i Hi. rewrite <- !Z.add_assoc. rewrite M1 by lia. f_equal. lia. }
  { change (PROC_ORIGIN_STACK / 4) with 256. unfold nargs in *. lia. }
  all: try lia.
  rewrite R, Z.add_0_l.
  rewrite (bind_run (modm (fun _ => m2)) _ (with_mem m1 st) tt (with_mem m2 st)) by (by destruct st as [[] ? ? ? ? ? ?]).
  rewrite (bind_run _ _ _ _ _ (lift_va2la pid stk_pos (with_mem m2 st) Hp Hf)).
  change (la_of (kern (with_mem m2 st)) pid stk_pos) with (la_of (kern st) pid stk_pos). rewrite Hla by lia.
  rewrite (bind_run _ _ _ _ _ (lift_va2la TASK_MM stk_addr (with_mem m2 st) ltac:(clia) Hf)), Lmm by done.
  set (m3 := memcpy (base + stk_pos) stk_addr sz m2).
  rewrite (bind_run (modm _) _ (with_mem m2 st) tt (with_mem m3 st)) by (by destruct st as [[] ? ? ? ? ? ?]).
  assert (M3 : forall i, 0 <= i < sz -> m3 (base + stk_pos + i) = m2 (stk_addr + i)).
  { intros i Hi. unfold m3. rewrite memcpy_in by lia. f_equal. lia. }
  exists (with_mem m3 st). split; [done|]. change (fmem (with_mem m3 st)) with m3. split; [split; [|split]|split].
  - apply (ptrs_shift m2 _ stk_addr); [intros i Hi; apply M3; lia|].
    by replace (stk_pos + 4 * (nargs ls + 1)) with (stk + 4 * (nargs ls + 1) + (stk_pos - stk)) by lia.
  - rewrite <- P2. apply ld32_shift. intros i Hi. rewrite <- !(Z.add_assoc (base + stk_pos)), M3 by lia.
    rewrite A by lia. rewrite M1 by lia. f_equal. lia.
  - apply (strs_shift (fmem st) _ (base + stk + 4 * (nargs ls + 1))); [|done]. intros i Hi.
    rewrite <- !(Z.add_assoc (base + stk_pos)), M3 by lia. rewrite A by lia. rewrite M1 by lia. f_equal. lia.
  - by destruct st as [[] ? ? ? ? ? ?].
  - intros a H1 H2. unfold m3. rewrite memcpy_out by lia. rewrite A by lia. unfold m1. apply memcpy_out. lia.
Qed.

(** both halves, one after the other *)
Lemma exec_args_run pid base stk_addr stk slen argv ls st :
  placed (kern st) pid base stk_addr -> argv_at (fmem st) base stk argv ls ->
  Forall (fun l => (length l < slen)%nat) ls -> stack_size ls <= PROC_ORIGIN_STACK ->
  0 <= stk -> stk + PROC_ORIGIN_STACK <= PROC_DEFAULT_IMG_SIZE ->
  exists st1 st2, on_mem (execv_stack base stk slen argv) st = Ok (stack_size ls) st1 /\
    exec_stack stk_addr pid stk (stack_size ls) st1 = Ok (nargs ls) st2 /\
    arg_stack (fmem st2) base stk_pos ls /\ st2 = with_mem (fmem st2) st /\
    (forall a, ~ base + stk <= a < base + stk + PROC_ORIGIN_STACK ->
       ~ stk_addr <= a < stk_addr + PROC_ORIGIN_STACK -> ~ base + stk_pos <= a < base + PROC_DEFAULT_IMG_SIZE ->
       fmem st2 a = fmem st a).
Proof.
  intros Hpl Ha Hs Hz H0 Hm.
  destruct (execv_stack_run base stk slen argv ls (fmem st)) as (m1 & R1 & S1 & A1); try done;
    [unfold PROC_ORIGIN_STACK, PROC_DEFAULT_IMG_SIZE in *; lia|].
  assert (Hpl' : placed (kern (with_mem m1 st)) pid base stk_addr) by (destruct Hpl; by split).
  destruct (exec_stack_run pid base stk_addr stk ls (with_mem m1 st)) as (st2 & R2 & S2 & E2 & A2); try done.
  exists (with_mem m1 st), st2. split; [|split; [done|split; [done|split]]].
  - unfold on_mem. fold (fmem st). by rewrite R1.
  - rewrite E2. by destruct st as [[] ? ? ? ? ? ?].
  - intros a X1 X2 X3. assert (stk_pos + PROC_ORIGIN_STACK = PROC_DEFAULT_IMG_SIZE) by done.
    rewrite A2 by lia. change (fmem (with_mem m1 st)) with m1. apply A1. lia.
Qed.

(** The arguments of a new program. For every array of arguments that fits the
    1 KB stack, [execv] builds the argument stack in the caller's array without
    stopping, and MM's copy returns the number of arguments and leaves at the end of
    the image an argument stack for the same strings: a word per argument that
    points, in the addresses of the new program, to the argument's text, then a zero
    word. Nothing else changes but the caller's array and MM's. *)
Theorem exec_args_roundtrip pid base stk_addr stk slen argv ls st :
  placed (kern st) pid base stk_addr -> argv_at (fmem st) base stk argv ls ->
  Forall (fun l => (length l < slen)%nat) ls -> stack_size ls <= PROC_ORIGIN_STACK ->
  0 <= stk -> stk + PROC_ORIGIN_STACK <= PROC_DEFAULT_IMG_SIZE ->
  exists st1 st2, on_mem (execv_stack base stk slen argv) st = Ok (stack_size ls) st1 /\
    exec_stack stk_addr pid stk (stack_size ls) st1 = Ok (nargs ls) st2 /\
    arg_stack (fmem st2) base stk_pos ls /\ st2 = with_mem (fmem st2) st /\
    (forall a, ~ base + stk <= a < base + stk + PROC_ORIGIN_STACK ->
       ~ stk_addr <= a < stk_addr + PROC_ORIGIN_STACK -> ~ base + stk_pos <= a < base + PROC_DEFAULT_IMG_SIZE ->
       fmem st2 a = fmem st a).
Proof. apply exec_args_run. Qed.
