(* ===== verification/ExecThm.v ===== *)
(** * Replacing a program (mm/exec.c: do_exec)

    [do_exec] reads the file into MM's buffer by [stat], [open], [read] and [close], copies
    the loadable segments of the ELF file to their addresses in the image of the caller,
    moves the argument stack to the end of the image and sets the registers. What it needs
    of the file system is the interface [fetches] (the file is in [mmbuf]); the file system
    of the model implements it ([exec_read_fetches]). *)
From Stdlib Require Import FunctionalExtensionality.
From S2P Require Import Prelude Const CLib Protect Proc Sys Fs FsOps FsLem FsRw FsRef Task FsMap FsDir FsCreate Boot Lib Mm Exec.

(** ** The segments of an ELF file *)

Record segment := mkSeg { sg_off : Z; sg_va : Z; sg_size : Z }.
(** program header [i] of the file at [f], if it is to be loaded *)
Definition elf_seg (m : mem) (f i : Z) : option segment :=
  let ph := phdr m f i in
  if p_type m ph =? PT_LOAD then Some (mkSeg (p_offset m ph) (p_vaddr m ph) (p_filesz m ph)) else None.
Definition elf_segs (m : mem) (f : Z) : list segment := omap (elf_seg m f) (seqZ 0 (e_phnum m f)).

(** the headers are in the buffer; a segment comes from the buffer and lies in the image *)
Definition seg_ok (s : segment) : Prop :=
  0 <= sg_off s /\ 0 <= sg_size s /\ sg_off s + sg_size s <= MMBUF_SIZE /\
  0 <= sg_va s < PROC_DEFAULT_IMG_SIZE /\ sg_va s + sg_size s <= PROC_DEFAULT_IMG_SIZE.
(** a file [d] of [n] bytes *)
Record elf_ok (d : mem) (n : Z) : Prop := {
  el_size : 52 <= n <= MMBUF_SIZE;
  el_num : 0 <= e_phnum d 0;
  el_headers : forall i, 0 <= i < e_phnum d 0 -> 0 <= phdr d 0 i /\ phdr d 0 i + 32 <= n;
  el_segs : Forall (fun s => seg_ok s /\ sg_off s + sg_size s <= n) (elf_segs d 0) }.

Definition covers (s : segment) (va : Z) : Prop := sg_va s <= va < sg_va s + sg_size s.
Definition load_seg (base f : Z) (m : mem) (s : segment) : mem := memcpy (base + sg_va s) (f + sg_off s) (sg_size s) m.
Definition load_segs (base f : Z) (l : list segment) (m : mem) : mem := foldl (load_seg base f) m l.

Lemma load_segs_cons base f s l m : load_segs base f (s :: l) m = load_segs base f l (load_seg base f m s).
Proof. done. Qed.
Lemma load_segs_app base f l l' m : load_segs base f (l ++ l') m = load_segs base f l' (load_segs base f l m).
Proof. apply foldl_app. Qed.

Section load.
Context (base f : Z).
Context (Hout : f + MMBUF_SIZE <= base).

Lemma load_segs_out l : Forall seg_ok l -> forall m a, Forall (fun s => ~ covers s (a - base)) l -> load_segs base f l m a = m a.
Proof.
  induction 1 as [|s l Hs Hl IH]; intros m a Hc; [done|]. apply Forall_cons in Hc as [Hc Hc'].
  rewrite load_segs_cons, IH by done. destruct Hs as (S1 & S2 & S3 & S4 & S5). unfold covers in Hc.
  unfold load_seg. apply memcpy_out. lia.
Qed.
Lemma load_segs_below l : Forall seg_ok l -> forall m a, a < base \/ base + PROC_DEFAULT_IMG_SIZE <= a -> load_segs base f l m a = m a.
Proof.
  intros Hl m a Ha. apply load_segs_out; [done|]. eapply Forall_impl; [exact Hl|]. intros s (S1 & S2 & S3 & S4 & S5) [C1 C2]. lia.
Qed.

(** the last segment that covers an address gives its byte *)
Lemma load_segs_in l1 s l2 m k : Forall seg_ok (l1 ++ s :: l2) -> 0 <= k < sg_size s ->
  Forall (fun s' => ~ covers s' (sg_va s + k)) l2 ->
  load_segs base f (l1 ++ s :: l2) m (base + (sg_va s + k)) = m (f + (sg_off s + k)).
Proof.
  intros Hl Hk Hc. apply Forall_app in Hl as [Hl1 Hl]. apply Forall_cons in Hl as [Hs Hl2]. pose proof Hs as (S1 & S2 & S3 & S4 & S5).
  rewrite load_segs_app, load_segs_cons, load_segs_out; [|done|].
  2:{ eapply Forall_impl; [exact Hc|]. intros s' H'. by replace (base + (sg_va s + k) - base) with (sg_va s + k) by lia. }
  unfold load_seg. rewrite memcpy_in by (unfold MMBUF_SIZE, PROC_DEFAULT_IMG_SIZE in *; lia).
  replace (f + sg_off s + (base + (sg_va s + k) - (base + sg_va s))) with (f + (sg_off s + k)) by lia.
  apply load_segs_below; [done|]. unfold MMBUF_SIZE in *. lia.
Qed.
End load.

(** the headers do not change while the image above the buffer does *)
Lemma ld16_shift m m' a : (forall i, 0 <= i < 2 -> m' (a + i) = m (a + i)) -> ld16 m' a = ld16 m a.
Proof. intros H. unfold ld16. pose proof (H 0 ltac:(lia)) as H0. rewrite Z.add_0_r in H0. by rewrite H0, H by lia. Qed.
Lemma elf_seg_ext m m' f i : (forall a, f <= a < f + MMBUF_SIZE -> m' a = m a) ->
  (f <= phdr m f i /\ phdr m f i + 32 <= f + MMBUF_SIZE) -> elf_seg m' f i = elf_seg m f i /\ phdr m' f i = phdr m f i.
Proof.
  intros H Hp. assert (Hw : forall a, f <= a -> a + 4 <= f + MMBUF_SIZE -> ld32 m' a = ld32 m a)
    by (intros a H1 H2; apply ld32_shift; intros k Hk; apply H; lia).
  assert (E : phdr m' f i = phdr m f i).
  { unfold phdr, e_phoff, e_phentsize. rewrite Hw by (unfold MMBUF_SIZE; lia).
    rewrite (ld16_shift m m') by (intros k Hk; apply H; unfold MMBUF_SIZE; lia). done. }
  split; [|done]. unfold elf_seg. rewrite E. unfold p_type, p_offset, p_vaddr, p_filesz. rewrite !Hw by lia. done.
Qed.

Lemma omap_ext_in {A B} (f g : A -> option B) (l : list A) : (forall x, x ∈ l -> f x = g x) -> omap f l = omap g l.
Proof.
  induction l as [|x l IH]; intros H; [done|]. cbn [omap list_omap]. rewrite (H x) by (by left).
  rewrite IH; [done|]. intros y Hy. apply H. by right.
Qed.

(** ** The loop over the headers *)

(** the caller's image lies behind MM's buffer *)
Record exec_place (st : kstate) (pid base stk_addr : Z) : Prop := mkPlace {
  ep_placed : placed st pid base stk_addr;
  ep_above : mmbuf + MMBUF_SIZE <= base }.

(** the memory after header [i] *)
Definition load_header (base : Z) (m : mem) (i : Z) : mem :=
  match elf_seg m mmbuf i with Some s => load_seg base mmbuf m s | None => m end.

Lemma exec_segment_run stk_addr pid base i st : exec_place (kern st) pid base stk_addr ->
  match elf_seg (fmem st) mmbuf i with Some s => seg_ok s | None => True end ->
  let m := fmem st in let ph := phdr m mmbuf i in
  when (p_type m ph =? PT_LOAD) (
    d ← lift (va2la pid (p_vaddr m ph));
    s ← lift (va2la TASK_MM (mmbuf + p_offset m ph));
    modm (memcpy d s (p_filesz m ph)) ;;
    assert_ (p_vaddr m ph <? PROC_DEFAULT_IMG_SIZE)) st = Ok tt (with_mem (load_header base (fmem st) i) st).
Proof.
  intros [[Hp Hf Hb Hla Hmm Ho] Ha] Hs m ph. unfold load_header, elf_seg in *. fold m in Hs |- *. fold ph in Hs |- *.
  destruct (p_type m ph =? PT_LOAD); [|exact (f_equal (Ok tt) (eq_sym (with_mem_self st)))]. destruct Hs as (S1 & S2 & S3 & S4 & S5). cbn [sg_off sg_va sg_size when] in *.
  rewrite (bind_run _ _ _ _ _ (lift_va2la pid _ st Hp Hf)), Hla by done.
  rewrite (bind_run _ _ _ _ _ (lift_va2la TASK_MM (mmbuf + p_offset m ph) st ltac:(clia) Hf)).
  assert (la_of (kern st) TASK_MM (mmbuf + p_offset m ph) = mmbuf + p_offset m ph) as ->
    by (unfold la_of; rewrite Hf by clia; rewrite Z.add_0_r; apply u32_id; unfold mmbuf, MMBUF_SIZE in *; lia).
  rewrite bind_modm. apply assert_run. apply Z.ltb_lt. lia.
Qed.

Lemma exec_segments_run stk_addr pid base : forall n i st, exec_place (kern st) pid base stk_addr -> 0 <= i ->
  (forall j, i <= j < i + Z.of_nat n -> mmbuf <= phdr (fmem st) mmbuf j /\ phdr (fmem st) mmbuf j + 32 <= mmbuf + MMBUF_SIZE) ->
  let l := omap (elf_seg (fmem st) mmbuf) (seqZ i (Z.of_nat n)) in Forall seg_ok l ->
  exec_segments n i pid st = Ok tt (with_mem (load_segs base mmbuf l (fmem st)) st).
Proof.
  induction n as [|n IH]; intros i st Hpl Hi Hh l Hok; cbn [exec_segments].
  { unfold l. rewrite (seqZ_nil i (Z.of_nat 0)) by lia. cbn. by rewrite with_mem_self. }
  unfold l in *. clear l. rewrite (bind_run getmem _ st (fmem st) st eq_refl).
  rewrite (seqZ_cons i (Z.of_nat (S n))) in Hok |- * by lia. replace (Z.pred (Z.of_nat (S n))) with (Z.of_nat n) in * by lia.
  replace (Z.succ i) with (i + 1) in * by lia. cbn [omap list_omap] in *.
  set (l := omap (elf_seg (fmem st) mmbuf) (seqZ (i + 1) (Z.of_nat n))) in *.
  assert (Hs : match elf_seg (fmem st) mmbuf i with Some s => seg_ok s | None => True end /\ Forall seg_ok l).
  { destruct (elf_seg (fmem st) mmbuf i); [by apply Forall_cons in Hok|done]. }
  destruct Hs as [Hs Hl]. rewrite (bind_run _ _ _ _ _ (exec_segment_run stk_addr pid base i st Hpl Hs)).
  set (m1 := load_header base (fmem st) i).
  assert (Hm1 : forall a, mmbuf <= a < mmbuf + MMBUF_SIZE -> m1 a = fmem st a).
  { intros a Ha'. unfold m1, load_header. destruct (elf_seg (fmem st) mmbuf i) as [s|]; [|done].
    apply (load_segs_below base mmbuf [s]); [by apply Forall_singleton|]. pose proof (ep_above _ _ _ _ Hpl). lia. }
  assert (Hsame : forall j, i + 1 <= j < i + 1 + Z.of_nat n -> elf_seg m1 mmbuf j = elf_seg (fmem st) mmbuf j /\ phdr m1 mmbuf j = phdr (fmem st) mmbuf j).
  { intros j Hj. apply elf_seg_ext; [done|]. apply Hh. lia. }
  assert (El : omap (elf_seg m1 mmbuf) (seqZ (i + 1) (Z.of_nat n)) = l).
  { apply omap_ext_in. intros j Hj%elem_of_seqZ. by apply Hsame. }
  rewrite (IH (i + 1) (with_mem m1 st)); change (fmem (with_mem m1 st)) with m1; rewrite ?El; [|by destruct Hpl as [[] ?]|lia| |done].
  - rewrite with_mem_twice. f_equal. f_equal. unfold m1, load_header. by destruct (elf_seg (fmem st) mmbuf i).
  - intros j Hj. destruct (Hsame j Hj) as [_ ->]. apply Hh. lia.
Qed.

(** ** What [do_exec] needs of the file system *)

(** MM's local objects: the path, the stat buffer and the argument stack lie in front of
    FS's and MM's buffers and do not overlap *)
Record mm_locals (path_addr stat_addr stk_addr : Z) : Prop := {
  ml_path : 0 <= path_addr /\ path_addr + MAX_PATH <= fsbuf;
  ml_stat : 0 <= stat_addr /\ stat_addr + 20 <= fsbuf;
  ml_stk : 0 <= stk_addr /\ stk_addr + PROC_ORIGIN_STACK <= fsbuf;
  ml_sep : (path_addr + MAX_PATH <= stat_addr \/ stat_addr + 20 <= path_addr) /\
           (path_addr + MAX_PATH <= stk_addr \/ stk_addr + PROC_ORIGIN_STACK <= path_addr) }.

(** the file's [size] bytes [data] are in [mmbuf]; of the memory only that buffer, FS's buffer
    and the stat buffer have changed; no process, MM with its slots included, has *)
Record fetched (stat_addr : Z) (st st' : sys) (data : Z -> Z) (size : Z) : Prop := {
  fe_data : forall i, 0 <= i < size -> fmem st' (mmbuf + i) = data i;
  fe_mem : forall a, (a < stat_addr \/ stat_addr + 20 <= a) -> (a < fsbuf \/ fsbuf + FSBUF_SIZE <= a) ->
    (a < mmbuf \/ mmbuf + MMBUF_SIZE <= a) -> fmem st' a = fmem st a;
  fe_procs : proc_table (kern st') = proc_table (kern st) }.

Section exec.
Context (fs : MESSAGE -> M sys MESSAGE) (mbuf path_addr stat_addr stk_addr : Z) (slen : nat).

Lemma bytes_from_cstr m a l : cstr m a l -> cstring (bytes_from m a (length l)) = l.
Proof.
  unfold bytes_from. revert a. induction l as [|c l IH]; intros a H; [done|]. destruct H as (H1 & H2 & H3). cbn [length].
  rewrite seqZ_cons by lia. replace (Z.pred (Z.of_nat (S (length l)))) with (Z.of_nat (length l)) by lia.
  cbn [fmap list_fmap]. rewrite Z.add_0_r, H1. cbn [cstring]. rewrite (proj2 (Z.eqb_neq c 0)) by lia. f_equal.
  rewrite <- (IH (a + 1) H3) at 2. f_equal. change (Z.succ 0) with (1 + 0). rewrite <- fmap_add_seqZ, <- list_fmap_compose.
  apply list_fmap_ext. intros k x _. cbn. f_equal. lia.
Qed.

(** the path in MM's array *)
Lemma exec_path_run pid base va l st : exec_place (kern st) pid base stk_addr -> mm_locals path_addr stat_addr stk_addr ->
  cstr (fmem st) (base + va) l -> Z.of_nat (length l) < MAX_PATH -> 0 <= va -> va + Z.of_nat (length l) < PROC_DEFAULT_IMG_SIZE ->
  exists m, exec_path path_addr pid va (Z.of_nat (length l)) st = Ok tt (with_mem m st) /\ cstr m path_addr l /\
    agree_out path_addr MAX_PATH (fmem st) m.
Proof.
  intros [[Hp Hf Hb Hla Hmm Ho] Ha] [P1 _ _ _] Hc Hlen Hv Hv'. unfold exec_path. rewrite bind_assert by (by apply Z.ltb_lt).
  rewrite (proj2 (Z.ltb_ge _ 0)) by lia. rewrite (bind_run _ _ _ _ _ (lift_va2la TASK_MM path_addr st ltac:(clia) Hf)).
  assert (la_of (kern st) TASK_MM path_addr = path_addr) as ->
    by (unfold la_of; rewrite Hf by clia; rewrite Z.add_0_r; apply u32_id; unfold fsbuf in *; clia).
  rewrite (bind_run _ _ _ _ _ (lift_va2la pid va st Hp Hf)), Hla by lia. rewrite bind_modm.
  set (m1 := memcpy path_addr (base + va) (Z.of_nat (length l)) (fmem st)).
  exists (upd m1 (path_addr + Z.of_nat (length l)) 0). split; [by destruct st as [[] ? ? ? ? ? ?]|].
  unfold mmbuf, MMBUF_SIZE, fsbuf in *. split.
  - assert (E : forall i, 0 <= i < Z.of_nat (length l) -> m1 (path_addr + i) = fmem st (base + va + i)).
    { intros i Hi. unfold m1. rewrite memcpy_in by clia. f_equal. lia. }
    clearbody m1. clear -Hc E. revert Hc E. generalize (base + va), path_addr. induction l as [|c l IH]; intros a p Hc E; cbn [cstr length] in *.
    + rewrite Z.add_0_r. apply upd_eq.
    + destruct Hc as (H1 & H2 & H3). rewrite upd_ne by lia. split; [specialize (E 0 ltac:(lia)); rewrite !Z.add_0_r in E; congruence|].
      split; [done|]. replace (p + Z.of_nat (S (length l))) with (p + 1 + Z.of_nat (length l)) by lia. apply (IH (a + 1)); [done|].
      intros i Hi. rewrite <- !Z.add_assoc. apply E. lia.
  - intros x Hx. rewrite upd_ne by lia. unfold m1. apply memcpy_out. lia.
Qed.

(** the file in the buffer *)
Section file.
Context (m d : mem) (n : Z) (Hd : forall i, 0 <= i < n -> m (mmbuf + i) = d i) (Hok : elf_ok d n).

Lemma file_word a : 0 <= a -> a + 4 <= n -> ld32 m (mmbuf + a) = ld32 d a.
Proof. intros H1 H2. apply ld32_shift. intros i Hi. rewrite <- (Z.add_assoc mmbuf). apply Hd. lia. Qed.
Lemma file_half a : 0 <= a -> a + 2 <= n -> ld16 m (mmbuf + a) = ld16 d a.
Proof. intros H1 H2. unfold ld16. rewrite <- (Z.add_assoc mmbuf). by rewrite !Hd by lia. Qed.
Lemma file_head : e_phnum m mmbuf = e_phnum d 0 /\ e_entry m mmbuf = e_entry d 0 /\ forall i, phdr m mmbuf i = mmbuf + phdr d 0 i.
Proof.
  pose proof (el_size _ _ Hok). unfold e_phnum, e_entry, phdr, e_phoff, e_phentsize.
  rewrite !file_word, !file_half by lia. rewrite !Z.add_0_l. split; [done|]. split; [done|]. intros i. lia.
Qed.
Lemma file_segs : elf_segs m mmbuf = elf_segs d 0.
Proof.
  destruct file_head as (E1 & _ & E2). unfold elf_segs. rewrite E1.
  assert (Hin : forall i, i ∈ seqZ 0 (e_phnum d 0) -> elf_seg m mmbuf i = elf_seg d 0 i).
  { intros i Hi%elem_of_seqZ. pose proof (el_headers _ _ Hok i ltac:(lia)) as [H1 H2]. unfold elf_seg. rewrite E2.
    unfold p_type, p_offset, p_vaddr, p_filesz. rewrite <- !(Z.add_assoc mmbuf), !file_word by lia. done. }
  by apply omap_ext_in.
Qed.
End file.

Definition fetches (st : sys) (l : list Z) (d : mem) (n : Z) : Prop :=
  forall m, cstr m path_addr l -> agree_out path_addr MAX_PATH (fmem st) m ->
  exists st', exec_read fs mbuf path_addr stat_addr slen (with_mem m st) = Ok true st' /\ fetched stat_addr (with_mem m st) st' d n.

(** the request: the path and the argument stack of the caller *)
Record exec_request (st : sys) (pid base : Z) (msg : MESSAGE) (l : list Z) (ls : list (list Z)) : Prop := {
  er_place : exec_place (kern st) pid base stk_addr;
  er_locals : mm_locals path_addr stat_addr stk_addr;
  er_src : source msg = pid /\ pid <> TASK_MM;
  er_path : cstr (fmem st) (base + PATHNAME msg) l /\ NAME_LEN msg = Z.of_nat (length l) /\ 0 <= PATHNAME msg /\
    PATHNAME msg + Z.of_nat (length l) < PROC_DEFAULT_IMG_SIZE;
  er_name : Z.of_nat (length l) < P_NAME_SIZE;
  er_stack : arg_stack (fmem st) base (BUF msg) ls /\ BUF_LEN msg = stack_size ls /\ stack_size ls <= PROC_ORIGIN_STACK /\
    0 <= BUF msg /\ BUF msg + PROC_ORIGIN_STACK <= PROC_DEFAULT_IMG_SIZE }.

(** the segments leave the argument stack alone, where it is and where it goes *)
Definition clear_of_stack (stk : Z) (s : segment) : Prop :=
  (sg_va s + sg_size s <= stk \/ stk + PROC_ORIGIN_STACK <= sg_va s) /\ sg_va s + sg_size s <= stk_pos.

(** the registers and the name of the new program *)
Definition exec_proc (l : list Z) (entry argc : Z) (p : PROCESS) : PROCESS :=
  let p' := set_regs (set_esp stk_pos (set_eip entry (set_ecx argc (set_eax stk_pos (regs p))))) p in
  set_p_name (overwrite (l ++ [0]) (p_name p')) p'.

Lemma arg_stack_shift m m' base v ls : (forall i, 0 <= i < stack_size ls -> m' (base + v + i) = m (base + v + i)) ->
  arg_stack m base v ls -> arg_stack m' base v ls.
Proof.
  intros H (P1 & P2 & P3). pose proof (strs_size_pos ls) as Hp. unfold stack_size in H. assert (0 <= nargs ls) by (unfold nargs; lia).
  split; [|split].
  - apply (ptrs_shift m _ (base + v)); [|done]. intros i Hi. apply H. lia.
  - rewrite <- P2. apply ld32_shift. intros i Hi. rewrite <- !Z.add_assoc, !(Z.add_assoc base v). apply H. lia.
  - apply (strs_shift m _ (base + v + 4 * (nargs ls + 1))); [|done]. intros i Hi.
    rewrite <- !(Z.add_assoc (base + v)). apply H. lia.
Qed.

Lemma exec_name_run l pid st : 0 <= pid < NR_ALL -> cstr (fmem st) path_addr l -> Z.of_nat (length l) < P_NAME_SIZE ->
  exec_name path_addr pid (Z.of_nat (length l)) st =
    Ok tt (set_kern (set_proc_table (upd (proc_table (kern st)) pid
      (set_p_name (overwrite (l ++ [0]) (p_name (proc_table (kern st) pid))) (proc_table (kern st) pid))) (kern st)) st).
Proof.
  intros Hp Hc Hl. unfold exec_name. rewrite (bind_run getmem _ st (fmem st) st eq_refl).
  rewrite Nat2Z.id, (bytes_from_cstr _ _ _ Hc). rewrite (proj2 (Z.ltb_ge _ _)) by (unfold P_NAME_SIZE in *; lia).
  unfold lift. rewrite modp_run by (by apply in_table_iff). done.
Qed.

(** [do_exec] behind the reading of the file *)
Lemma exec_load_run st pid base msg l ls st2 d n : exec_place (kern st2) pid base stk_addr -> mm_locals path_addr stat_addr stk_addr ->
  exec_request st pid base msg l ls -> elf_ok d n -> (forall i, 0 <= i < n -> fmem st2 (mmbuf + i) = d i) ->
  Forall (clear_of_stack (BUF msg)) (elf_segs d 0) ->
  (forall a, base <= a < base + PROC_DEFAULT_IMG_SIZE -> fmem st2 a = fmem st a) -> cstr (fmem st2) path_addr l ->
  exists m3 st', (m ← getmem;
    exec_segments (Z.to_nat (e_phnum m mmbuf)) 0 pid ;;
    argc ← exec_stack stk_addr pid (BUF msg) (BUF_LEN msg);
    m ← getmem;
    lift (modp pid (fun p => set_regs (set_esp stk_pos (set_eip (e_entry m mmbuf)
      (set_ecx argc (set_eax stk_pos (regs p))))) p)) ;;
    exec_name path_addr pid (NAME_LEN msg) ;;
    ret 0) st2 = Ok 0 st' /\
    st' = set_kern (set_proc_table (upd (proc_table (kern st2)) pid (exec_proc l (e_entry d 0) (nargs ls) (proc_table (kern st2) pid)))
      (set_memory m3 (kern st2))) st2 /\
    arg_stack m3 base stk_pos ls /\
    (forall a, ~ stk_addr <= a < stk_addr + PROC_ORIGIN_STACK -> ~ base + stk_pos <= a < base + PROC_DEFAULT_IMG_SIZE ->
       m3 a = load_segs base mmbuf (elf_segs d 0) (fmem st2) a).
Proof.
  intros Hpl2 [P1 P2 P3 P4] [_ _ [Esrc Hne] (Hpath & Elen & _) Hname (Hstk & Eblen & Hsz & Hs0 & Hs1)] Hok Hd Hclear Himg Hc.
  destruct (file_head (fmem st2) d n Hd Hok) as (E1 & E2 & E3). pose proof (file_segs (fmem st2) d n Hd Hok) as E4.
  rewrite (bind_run getmem _ st2 (fmem st2) st2 eq_refl), E1.
  pose proof (el_segs _ _ Hok) as Hsegs. assert (Hsegs' : Forall seg_ok (elf_segs d 0)) by (eapply Forall_impl; [exact Hsegs|]; tauto).
  pose proof (el_num _ _ Hok) as Hn0.
  pose proof (el_size _ _ Hok) as Hn. pose proof (ep_above _ _ _ _ Hpl2) as Hab.
  assert (R1 : exec_segments (Z.to_nat (e_phnum d 0)) 0 pid st2 = Ok tt (with_mem (load_segs base mmbuf (elf_segs d 0) (fmem st2)) st2)).
  { rewrite (exec_segments_run stk_addr pid base _ 0 st2 Hpl2); rewrite ?Z2Nat.id by done; rewrite <- ?E1; fold (elf_segs (fmem st2) mmbuf); rewrite ?E4; try done.
    intros j Hj. rewrite E3, E1 in *. pose proof (el_headers _ _ Hok j ltac:(lia)). lia. }
  rewrite (bind_run _ _ _ _ _ R1). set (m2 := load_segs base mmbuf (elf_segs d 0) (fmem st2)).
  assert (Hm2 : forall a, a < base \/ base + PROC_DEFAULT_IMG_SIZE <= a -> m2 a = fmem st2 a) by (intros a Ha; by apply load_segs_below).
  assert (Hst2 : arg_stack m2 base (BUF msg) ls).
  { apply (arg_stack_shift (fmem st)); [|done]. intros i Hi. unfold m2. rewrite load_segs_out; [apply Himg; lia|done|].
    eapply Forall_impl; [exact Hclear|]. intros s [S1 S2] [C1 C2]. lia. }
  pose proof Hpl2 as [Hplaced _]. assert (Hpl' : placed (kern (with_mem m2 st2)) pid base stk_addr) by (by destruct Hplaced).
  destruct (exec_stack_run pid base stk_addr (BUF msg) ls (with_mem m2 st2)) as (st3 & R3 & S3 & T3 & O3); try done.
  rewrite Eblen, (bind_run _ _ _ _ _ R3). set (m3 := fmem st3) in *. change (fmem (with_mem m2 st2)) with m2 in O3.
  rewrite with_mem_twice in T3. rewrite (bind_run getmem _ st3 m3 st3 eq_refl).
  assert (Hsp : stk_pos + PROC_ORIGIN_STACK = PROC_DEFAULT_IMG_SIZE) by done.
  assert (Hbuf : forall i, 0 <= i < n -> m3 (mmbuf + i) = d i).
  { intros i Hi. unfold mmbuf, MMBUF_SIZE, fsbuf, FSBUF_SIZE, PROC_ORIGIN_STACK, PROC_DEFAULT_IMG_SIZE, stk_pos in *.
    rewrite O3, Hm2 by lia. by apply Hd. }
  destruct (file_head m3 d n Hbuf Hok) as (_ & E5 & _). rewrite E5.
  pose proof (pl_pid _ _ _ _ Hplaced) as Hpid.
  assert (R4 : forall f, lift (modp pid f) st3 = Ok tt (set_kern (set_proc_table (upd (proc_table (kern st3)) pid (f (proc_table (kern st3) pid))) (kern st3)) st3)).
  { intros f. unfold lift. by rewrite modp_run by (by apply in_table_iff). }
  rewrite (bind_run _ _ _ _ _ (R4 _)). set (st4 := set_kern _ st3).
  assert (Hc4 : cstr (fmem st4) path_addr l).
  { change (fmem st4) with m3. apply (cstr_shift (fmem st2) _ path_addr); [|done]. intros i Hi. unfold P_NAME_SIZE, MAX_PATH in *.
    unfold mmbuf, MMBUF_SIZE, fsbuf, PROC_ORIGIN_STACK, PROC_DEFAULT_IMG_SIZE, stk_pos in *. rewrite O3, Hm2 by lia. done. }
  rewrite Elen, (bind_run _ _ _ _ _ (exec_name_run l pid st4 Hpid Hc4 Hname)). exists m3. eexists. split; [reflexivity|]. split; [|split; [done|]].
  - unfold st4, exec_proc. rewrite T3. cbn [kern set_kern with_mem proc_table set_proc_table set_memory]. rewrite !upd_eq, !upd_upd.
    by destruct st2 as [[] ? ? ? ? ? ?].
  - intros a H1 H2. apply O3; lia.
Qed.

Lemma placed_kern k k' pid base : placed k pid base stk_addr -> proc_table k' = proc_table k -> placed k' pid base stk_addr.
Proof.
  intros [H1 H2 H3 H4 H5 H6] Hp. split; try done; [unfold flat|intros va Hva; unfold la_of]; rewrite Hp; [done|by apply H4].
Qed.

End exec.
