(* ===== verification/ExecFs.v ===== *)
(** * The file system behind [do_exec] (mm/exec.c, lib/*.c, fs/*.c)

    [do_exec] reads the program by [stat], [open], [read] and [close]: the stubs of Lib.v,
    whose messages [task_fs] serves. On a well-formed file system with the file on the disk
    the four calls deliver it: the file system implements the interface [fetches] against
    which [do_exec] is proved (ExecThm.v). *)
From S2P Require Import Prelude Const CLib Protect Proc Sys Fs FsOps FsLem FsRw FsRef Task FsMap FsDir FsCreate FsStat Boot Lib Mm Exec ExecThm.

(** ** The stubs on the file system *)

Section stubs.
Context (drv : Z -> MESSAGE -> M sys MESSAGE) (pc : Z) (slen : nat) (junk : MESSAGE).
Notation call := (fun (_ : Z) => fs_call drv pc).

Definition ask_stat (va n s : Z) : MESSAGE := set_source pc (set_m3p2 s (set_m3i2 n (set_m3p1 va (set_type STAT junk)))).
Definition ask_open (va n flags : Z) : MESSAGE := set_source pc (set_m3i2 n (set_m3i1 flags (set_m3p1 va (set_type OPEN junk)))).
Definition ask_read (fd buf n : Z) : MESSAGE := set_source pc (set_m3i1 fd (set_m3i2 n (set_m3p2 buf (set_type READ junk)))).
Definition ask_close (fd : Z) : MESSAGE := set_source pc (set_m3i1 fd (set_type CLOSE junk)).

Lemma stat_stub va n s st r st' : str_len pc slen va st = Ok n st -> do_stat (ask_stat va n s) st = Ok r st' ->
  stat call junk pc slen va s st = Ok r st'.
Proof.
  intros E R. unfold stat. rewrite (bind_run _ _ _ _ _ E).
  assert (C : fs_call drv pc (set_m3p2 s (set_m3i2 n (set_m3p1 va (set_type STAT junk)))) st =
    Ok (set_source TASK_FS (set_type SYSCALL_RET (set_m3i1 r (ask_stat va n s)))) st').
  { unfold fs_call. fold (ask_stat va n s). unfold fs_serve, bind. 
    change (type (ask_stat va n s)) with STAT. pick_request STAT. by rewrite R. }
  by rewrite (bind_run _ _ _ _ _ C).
Qed.
Lemma open_stub va n flags st r st' : str_len pc slen va st = Ok n st -> do_open drv pc (ask_open va n flags) st = Ok r st' ->
  open call junk pc slen va flags st = Ok r st'.
Proof.
  intros E R. unfold open. rewrite (bind_run _ _ _ _ _ E).
  assert (C : fs_call drv pc (set_m3i2 n (set_m3i1 flags (set_m3p1 va (set_type OPEN junk)))) st =
    Ok (set_source TASK_FS (set_type SYSCALL_RET (set_m3i1 r (ask_open va n flags)))) st').
  { unfold fs_call. fold (ask_open va n flags). unfold fs_serve, bind. change (source (ask_open va n flags)) with pc.
    change (type (ask_open va n flags)) with OPEN. pick_request OPEN. by rewrite R. }
  by rewrite (bind_run _ _ _ _ _ C).
Qed.
Lemma read_stub fd buf n k st st' : do_rdwt drv pc (ask_read fd buf n) st = Ok (k, ask_read fd buf n) st' ->
  read call junk fd buf n st = Ok k st'.
Proof.
  intros R. unfold read.
  assert (C : fs_call drv pc (set_m3i1 fd (set_m3i2 n (set_m3p2 buf (set_type READ junk)))) st =
    Ok (set_source TASK_FS (set_type SYSCALL_RET (set_m3i2 k (ask_read fd buf n)))) st').
  { unfold fs_call. fold (ask_read fd buf n). unfold fs_serve, bind. change (source (ask_read fd buf n)) with pc.
    change (type (ask_read fd buf n)) with READ. pick_request READ. by rewrite R. }
  by rewrite (bind_run _ _ _ _ _ C).
Qed.
Lemma close_stub fd st r st' : do_close pc (ask_close fd) st = Ok r st' -> close call junk fd st = Ok 0 st'.
Proof.
  intros R. unfold close.
  assert (C : fs_call drv pc (set_m3i1 fd (set_type CLOSE junk)) st =
    Ok (set_source TASK_FS (set_type SYSCALL_RET (set_m3i1 r (ask_close fd)))) st').
  { unfold fs_call. fold (ask_close fd). unfold fs_serve, bind. change (source (ask_close fd)) with pc.
    change (type (ask_close fd)) with CLOSE. pick_request CLOSE. by rewrite R. }
  by rewrite (bind_run _ _ _ _ _ C).
Qed.
End stubs.

(** ** The state of a descriptor that only moves *)

Lemma fd_ok_pos st f n : fd_ok st -> 0 <= f < NR_FILE_DESC ->
  forall m, fd_ok (set_fd_table (upd (fd_table st) f (set_fd_pos n (fd_table st f))) (with_mem m st)).
Proof.
  intros [F1 F2 F3] Hf m. split; cbn [kern fd_table inode_table root_inode set_fd_table with_mem set_kern proc_table set_memory].
  - exact F1.
  - intros g Hg. rewrite upd_case. case_decide as E; [subst g|]; by apply F2.
  - intros p Hp. rewrite uses_upd by done. unfold fd_use. cbn [fd_inode fd_cnt set_fd_pos].
    rewrite F3 by done. lia.
Qed.

Lemma flat_with_filp pc fd o k : flat k -> flat (with_filp pc fd o k).
Proof. intros H i Hi. unfold with_filp. cbn. rewrite upd_case. case_decide as E; [rewrite <- (H i Hi), E; done|by apply H]. Qed.

(** a free slot that is taken and cleared *)
Lemma with_filp_back pc fd o k : filp (proc_table k pc) fd = None ->
  proc_table (with_filp pc fd None (with_filp pc fd o k)) = proc_table k.
Proof.
  intros Hn. unfold with_filp. cbn [proc_table set_proc_table]. rewrite upd_eq, upd_upd. cbn [filp set_filp]. rewrite upd_upd, <- Hn, upd_same.
  transitivity (upd (proc_table k) pc (proc_table k pc)); [|apply upd_same]. f_equal. by destruct (proc_table k pc).
Qed.

(** ** The file *)

(** the inode of file [nr] as it is on the disk *)
Definition file_inode (st : sys) (nr : Z) : inode := load_inode (rdisk st) (inode_pos (super_blocks st 0) nr) (mkInode 0 0 0 0 ROOT_DEV 1 nr).

Lemma same_regular x y : regular x -> disk_words y = disk_words x -> i_dev y = ROOT_DEV ->
  regular y /\ i_size y = i_size x /\ forall i, file_pos y i = file_pos x i.
Proof.
  intros [R1 R2 R3 R4 R5 R6] W Hd. unfold disk_words in W. injection W as W1 W2 W3 W4. split.
  - split; rewrite ?W1, ?W2, ?W3, ?W4; done.
  - split; [done|]. intros i. unfold file_pos. by rewrite W3.
Qed.

Section exec_fs.
Context (drv : Z -> MESSAGE -> M sys MESSAGE) (mbuf path_addr stat_addr stk_addr : Z) (slen : nat).

(** the program [l] is on the disk, and MM can open one more file *)
Record exec_file (st : sys) (l name : list Z) (fd f : Z) : Prop := mkExecFile {
  ef_locals : mm_locals path_addr stat_addr stk_addr;
  ef_wf : fs_wf st;
  ef_bytes : bytes_ok (rdisk st);
  ef_flat : flat (kern st);
  ef_len : Z.of_nat (length l) < MAX_PATH /\ (length l < slen)%nat;
  ef_path : strip_path l = Some name;
  ef_name : name_ok name /\ chars_ok name;
  ef_disk : file_on_disk st (dir_map st name);
  ef_regular : regular (file_inode st (dir_map st name));
  ef_size : i_size (file_inode st (dir_map st name)) < 256 * SECTOR_SIZE;
  ef_slot : find_first (fun i => bool_decide (filp (proc_table (kern st) TASK_MM) i = None)) (Z.to_nat NR_FILES) 0 = Some fd;
  ef_desc : find_first (fun i => bool_decide (fd_inode (fd_table st i) = None)) (Z.to_nat NR_FILE_DESC) 0 = Some f }.

Lemma mm_la k a : flat k -> 0 <= a < 4294967296 -> la_of k TASK_MM a = a.
Proof. intros Hf Ha. unfold la_of. rewrite Hf by clia. rewrite Z.add_0_r. by apply u32_id. Qed.

Section calls.
Context (st : sys) (l name : list Z) (fd f : Z) (He : exec_file st l name fd f).
Notation nr := (dir_map st name).
Notation size := (i_size (file_inode st nr)).

(** a state with the files of [st] and the path in MM's array *)
Record with_path (st1 : sys) : Prop := {
  pth_same : same_files st st1;
  pth_path : cstr (fmem st1) path_addr l }.

Section with_path.
Context (st1 : sys) (Hst : with_path st1).

Lemma pth_flat : flat (kern st1).
Proof. rewrite (sf_kern _ _ (pth_same _ Hst)). apply (ef_flat _ _ _ _ _ He). Qed.
Lemma pth_la a : 0 <= a < 4294967296 -> la_of (kern st1) TASK_MM a = a.
Proof. apply mm_la, pth_flat. Qed.
Lemma path_range : 0 <= path_addr < 4294967296 /\ 0 <= stat_addr < 4294967296.
Proof. destruct (ef_locals _ _ _ _ _ He) as [H1 H2 _ _]. unfold MAX_PATH, fsbuf in *. lia. Qed.
Lemma pth_len : str_len TASK_MM slen path_addr st1 = Ok (Z.of_nat (length l)) st1.
Proof.
  unfold str_len. rewrite (bind_run get _ st1 st1 st1 eq_refl). rewrite pth_la by apply path_range.
  unfold strlen. change (memory (kern st1)) with (fmem st1). rewrite (strlen_n_spec slen _ _ l 0 (pth_path _ Hst)) by apply (ef_len _ _ _ _ _ He). done.
Qed.
Lemma pth_request msg : PATHNAME msg = path_addr -> NAME_LEN msg = Z.of_nat (length l) -> strip_path (request_path st1 TASK_MM msg) = Some name.
Proof.
  intros E1 E2. unfold request_path. rewrite E1, E2, pth_la by apply path_range. rewrite Nat2Z.id, bytes_from_cstr by apply Hst.
  apply (ef_path _ _ _ _ _ He).
Qed.
Lemma pth_wf : fs_wf st1.
Proof. eapply same_files_wf; [apply Hst|apply (ef_wf _ _ _ _ _ He)]. Qed.
Lemma pth_map : dir_map st1 name = nr.
Proof. apply same_dir_map; [apply (ef_wf _ _ _ _ _ He)|]. apply same_files_dir; [apply Hst|apply (ef_wf _ _ _ _ _ He)]. Qed.
Lemma pth_disk : file_on_disk st1 nr.
Proof. eapply same_files_on_disk; [apply Hst|apply (ef_disk _ _ _ _ _ He)]. Qed.
Lemma pth_bytes : bytes_ok (rdisk st1).
Proof. rewrite (sf_disk _ _ (pth_same _ Hst)). apply (ef_bytes _ _ _ _ _ He). Qed.

(** [stat] *)
Lemma exec_stat_run junk : exists st2, stat (fun _ => fs_call drv TASK_MM) junk TASK_MM slen path_addr stat_addr st1 = Ok 0 st2 /\
  with_path st2 /\ ld32 (fmem st2) (stat_addr + 16) = size /\
  forall a, a < stat_addr \/ stat_addr + 20 <= a -> a < fsbuf \/ fsbuf + FSBUF_SIZE <= a -> fmem st2 a = fmem st1 a.
Proof.
  set (msg := ask_stat TASK_MM junk path_addr (Z.of_nat (length l)) stat_addr).
  destruct (do_stat_run st1 TASK_MM msg name stat_addr) as (st2 & m & R & S & A & E).
  { split; [split; [clia|done]|apply pth_flat|change (NAME_LEN msg) with (Z.of_nat (length l)); destruct (ef_len _ _ _ _ _ He); lia
      |by apply pth_request|apply (ef_name _ _ _ _ _ He)|]. symmetry. apply pth_la, path_range. }
  { apply pth_wf. }
  { rewrite pth_map. apply pth_disk. }
  rewrite pth_map in E. exists st2. split; [by apply (stat_stub drv TASK_MM slen junk _ _ _ _ _ _ pth_len)|].
  assert (Hout : forall a, a < stat_addr \/ stat_addr + 20 <= a -> a < fsbuf \/ fsbuf + FSBUF_SIZE <= a -> fmem st2 a = fmem st1 a).
  { intros a H1 H2. rewrite E, put_words_out by (cbn [length]; lia). by apply A. }
  split; [|split; [|done]].
  - split; [eapply same_files_trans; [apply Hst|exact S]|]. apply (cstr_shift (fmem st1) _ path_addr); [|apply Hst].
    intros i Hi. destruct (ef_locals _ _ _ _ _ He) as [H1 H2 _ [H3 _]]. destruct (ef_len _ _ _ _ _ He) as [H4 _].
    apply Hout; lia.
  - rewrite E. change (stat_addr + 16) with (stat_addr + 4 * Z.of_nat 4). apply put_words_at.
    + cbn [lookup list_lookup]. unfold disk_size. rewrite (sf_disk _ _ (pth_same _ Hst)), (sf_sb _ _ (pth_same _ Hst)). done.
    + apply ld32_range, (ef_bytes _ _ _ _ _ He).
Qed.
(** [open] *)
Lemma exec_open_run junk : exists st2 p,
  open (fun _ => fs_call drv TASK_MM) junk TASK_MM slen path_addr O_RDWR st1 = Ok fd (opened TASK_MM fd f p O_RDWR st2) /\
  only_buf st1 st2 /\ rdisk st2 = rdisk st /\ 0 <= p < NR_INODE /\ disk_words (inode_table st2 p) = disk_words (file_inode st nr) /\
  i_dev (inode_table st2 p) = ROOT_DEV /\ fd_ok (opened TASK_MM fd f p O_RDWR st2) /\ 0 <= fd < NR_FILES /\ 0 <= f < NR_FILE_DESC.
Proof.
  set (msg := ask_open TASK_MM junk path_addr (Z.of_nat (length l)) O_RDWR). pose proof (pth_same _ Hst) as Hs.
  assert (Hreq : open_request st1 TASK_MM msg name fd f).
  { split; [clia|apply pth_flat|change (NAME_LEN msg) with (Z.of_nat (length l)); destruct (ef_len _ _ _ _ _ He); lia
      |by apply pth_request|apply (ef_name _ _ _ _ _ He)| |].
    - rewrite (sf_kern _ _ Hs). apply (ef_slot _ _ _ _ _ He).
    - rewrite (sf_fd _ _ Hs). apply (ef_desc _ _ _ _ _ He). }
  destruct (open_request_free _ _ _ _ _ _ Hreq) as (Hfd & _ & Hf & _). pose proof pth_wf as Hwf.
  destruct (open_found st1 TASK_MM msg name fd f Hreq Hwf pth_bytes) as (st2 & p & R & G); [rewrite pth_map; apply pth_disk|done..|].
  rewrite pth_map in R, G. destruct (got_inode_wf st1 st2 nr p (wf_inv _ Hwf) (wf_dir _ Hwf) (wf_imap _ Hwf) pth_disk G) as (_ & _ & _ & _ & Hcnt & Hmode).
  destruct G as [B D Hp (_ & Hdev & _) O _ W]. pose proof (of_nr _ _ pth_disk) as (Hn & _). exists st2, p. split.
  { apply (open_stub drv TASK_MM slen junk _ _ _ _ _ _ pth_len). apply (do_open_run drv st1 TASK_MM msg name fd f p nr st2 st2 Hreq R); try done.
    unfold nr_ok in Hn. lia. }
  split; [done|]. split; [by rewrite D, (sf_disk _ _ Hs)|]. split; [done|]. split; [|split; [done|split; [|done]]].
  - rewrite W, (sf_disk _ _ Hs), (sf_sb _ _ Hs). done.
  - eapply (opened_fd_ok st1 st2); try done; [apply Hwf|]. intros q Hq. by rewrite O.
Qed.
End with_path.

(** [read] and [close]: the file in MM's buffer, the descriptor free again *)
Lemma exec_fetch_run junk st2 p : flat (kern st2) -> rdisk st2 = rdisk st -> 0 <= p < NR_INODE ->
  0 <= fd < NR_FILES -> 0 <= f < NR_FILE_DESC -> disk_words (inode_table st2 p) = disk_words (file_inode st nr) ->
  i_dev (inode_table st2 p) = ROOT_DEV -> fd_ok (opened TASK_MM fd f p O_RDWR st2) ->
  exists m3, let st3 := opened TASK_MM fd f p O_RDWR st2 in
  (read (fun _ => fs_call drv TASK_MM) junk fd mmbuf size ;; close (fun _ => fs_call drv TASK_MM) junk fd ;; ret true) st3 =
    Ok true (drop_slot TASK_MM fd f p (set_fd_table (upd (fd_table st3) f (set_fd_pos size (fd_table st3 f))) (with_mem m3 st3))) /\
  read_into (fmem st2) m3 (rdisk st) (file_inode st nr) 0 size mmbuf.
Proof.
  intros Hflat Hdisk Hp Hfd Hf Hw Hdev Hok. set (st3 := opened _ _ _ _ _ _).
  destruct (same_regular _ _ (ef_regular _ _ _ _ _ He) Hw Hdev) as (Hreg & Hsz & Hpos).
  pose proof (rg_size _ Hreg) as Hs0. pose proof (ef_size _ _ _ _ _ He) as Hs1. rewrite Hsz in Hs0.
  assert (Hflat3 : flat (kern st3)) by (by apply flat_with_filp).
  assert (Hslot : filp (proc_table (kern st3) TASK_MM) fd = Some f) by apply opened_slot.
  assert (Hdesc : fd_table st3 f = mkFd O_RDWR 0 1 (Some p)) by apply opened_desc.
  set (msg := ask_read TASK_MM junk fd mmbuf size).
  assert (Hreq : rw_request st3 TASK_MM fd f p msg size mmbuf).
  { split; try done; try (rewrite Hdesc; cbn; lia).
    - split; try done; rewrite Hdesc; done.
    - autounfold with consts in Hs1. lia.
    - symmetry. by apply mm_la.
    - right. unfold mmbuf, fsbuf, FSBUF_SIZE. lia. }
  destruct (do_read_state drv st3 TASK_MM fd f p msg size mmbuf Hreq eq_refl) as (st4 & R4 & I4 & E4); rewrite ?Hdesc; cbn [fd_pos].
  { change (inode_table st3) with (inode_table st2). lia. }
  { change (inode_table st3) with (inode_table st2). rewrite Hsz, Z.add_0_l, Z.min_l by lia. unfold span. autounfold with consts in *.
    Z.div_mod_to_equations. lia. }
  change (inode_table st3) with (inode_table st2) in R4, I4, E4. rewrite Hdesc in R4, I4, E4. cbn [fd_pos] in R4, I4, E4.
  rewrite Hsz, Z.sub_0_r, Z.min_id in R4, I4. rewrite Hsz, Z.sub_0_r, Z.min_id, Z.add_0_l in E4.
  exists (fmem st4). cbv zeta. rewrite Hdesc. rewrite (bind_run _ _ _ _ _ (read_stub drv TASK_MM junk _ _ _ _ _ _ R4)).
  assert (Hok4 : fd_ok st4) by (rewrite E4, <- Hdesc; by apply fd_ok_pos).
  assert (R5 : do_close TASK_MM (ask_close TASK_MM junk fd) st4 = Ok 0 (drop_slot TASK_MM fd f p st4)).
  { apply (do_close_run TASK_MM (ask_close TASK_MM junk fd) f p st4 Hok4); [clia|done|by rewrite E4|].
    rewrite E4. cbn. by rewrite upd_eq. }
  rewrite (bind_run _ _ _ _ _ (close_stub drv TASK_MM junk _ _ _ _ R5)). split; [by rewrite <- E4|].
  rewrite Hdisk in I4 || change (rdisk st3) with (rdisk st2) in I4. rewrite ?Hdisk in I4. destruct I4 as [I1 I2].
  split; [|exact I2]. intros i Hi. rewrite I1 by done. by rewrite Hpos.
Qed.
End calls.

Lemma fs_fetches st l name fd f : exec_file st l name fd f ->
  fetches (fs_call drv TASK_MM) mbuf path_addr stat_addr slen st l
    (fun i => rdisk st (file_pos (file_inode st (dir_map st name)) i)) (i_size (file_inode st (dir_map st name))).
Proof.
  intros He m Hc _. set (st0 := with_mem m st). set (nr := dir_map st name). set (size := i_size (file_inode st nr)).
  assert (W0 : with_path st l st0) by (split; [apply same_files_mem|done]).
  unfold exec_read. rewrite (bind_run get _ st0 st0 st0 eq_refl). cbv zeta. set (junk := msg_at _ mbuf).
  destruct (exec_stat_run st l name fd f He st0 W0 junk) as (st1 & R1 & W1 & S1 & O1). fold nr size in S1.
  destruct (exec_open_run st l name fd f He st1 W1 junk) as (st2 & p & R2 & B2 & D2 & Hp & Hw & Hdev & Hok & Hfd & Hf). fold nr in Hw.
  assert (F2 : flat (kern st2)) by (rewrite (ob_kern _ _ B2); exact (pth_flat st l name fd f He st1 W1)).
  destruct (exec_fetch_run st l name fd f He junk st2 p F2 D2 Hp Hfd Hf Hw Hdev Hok) as (m3 & R3 & I3). cbv zeta in R3. fold nr size in R3, I3.
  set (st3 := opened TASK_MM fd f p O_RDWR st2) in *. rewrite (bind_run _ _ _ _ _ R1). cbn [negb Z.eqb]. rewrite (bind_run _ _ _ _ _ R2).
  rewrite (proj2 (Z.ltb_ge fd 0)) by lia. rewrite (bind_run getmem _ st3 (fmem st3) st3 eq_refl).
  destruct (ef_locals _ _ _ _ _ He) as [L1 L2 L3 L4]. destruct (same_regular _ _ (ef_regular _ _ _ _ _ He) eq_refl eq_refl) as (Hreg & _).
  pose proof (rg_size _ Hreg) as Hs0. pose proof (ef_size _ _ _ _ _ He) as Hs1. fold nr size in Hs0, Hs1. autounfold with consts in Hs1.
  assert (Es : ld32s (fmem st3) (stat_addr + 16) = size).
  { unfold ld32s. change (fmem st3) with (fmem st2). rewrite (ld32_shift _ (fmem st1) _ (stat_addr + 16)), S1 by (intros i Hi; apply B2; unfold fsbuf in *; lia).
    apply i32_id. lia. }
  assert (Hfree : filp (proc_table (kern st) TASK_MM) fd = None).
  { pose proof (ef_slot _ _ _ _ _ He) as H. apply find_first_Some in H as (_ & H & _). by apply bool_decide_eq_true in H. }
  rewrite Es, bind_assert by (apply Z.leb_le; unfold MMBUF_SIZE; lia). eexists. split; [exact R3|].
  destruct I3 as [I1 I2]. split.
  - intros i Hi. exact (I1 i Hi).
  - intros a A1 A2 A3. change (m3 a = m a). rewrite I2 by (unfold MMBUF_SIZE in *; lia).
    rewrite (ob_mem _ _ B2 a A2). by apply O1.
  - change (proc_table (with_filp TASK_MM fd None (with_filp TASK_MM fd (Some f) (kern st2))) = proc_table (kern st)).
    assert (Ek : proc_table (kern st2) = proc_table (kern st)) by (by rewrite (ob_kern _ _ B2), (sf_kern _ _ (pth_same _ _ _ W1))).
    apply (with_filp_back TASK_MM fd (Some f)) in Hfree. unfold with_filp in Hfree |- *. cbn [proc_table set_proc_table] in *. by rewrite Ek.
Qed.
End exec_fs.
