(* ===== verification/Shell.v ===== *)
(** * The shell (kernel/main.c, [shabby_shell])

    One turn of the shell's loop: the prompt, the line, its words, the command. The
    parser cuts the line in place and fills [argv]; the theorem is that [argv] lists
    the words of the line, in the form [execv] needs. The system calls are the stubs
    of Lib.v over a parameter [call]. *)
From S2P Require Import Prelude Const CLib Protect Proc Sys Fs FsOps FsLem FsRw Lib Mm Exec.

Definition RDBUF_SIZE : Z := 70.

Section parse.
(** the start of the process's image and its arrays *)
Context (base rdbuf argv : Z).

(** the loop over the characters: [word] says that [s] starts a word *)
Fixpoint parse_loop (n : nat) (p s : Z) (word : bool) (argc : Z) : M mem Z :=
  match n with
  | O => stop HSpin
  | S n' =>
      m ← get;
      let c := m (base + p) in
      let start := negb word && negb (c =? 32) && negb (c =? 0) in
      let s := if start then p else s in
      let word := word || start in
      if word && ((c =? 32) || (c =? 0)) then
        modify (st32 (base + (argv + 4 * argc)) s) ;;
        modify (fun m => upd m (base + p) 0) ;;
        if c =? 0 then ret (argc + 1) else parse_loop n' (p + 1) s false (argc + 1)
      else if c =? 0 then ret argc else parse_loop n' (p + 1) s word argc
  end.

(** the words of the line in [rdbuf], and the end of the array *)
Definition parse_line : M mem Z :=
  argc ← parse_loop (S (Z.to_nat RDBUF_SIZE)) rdbuf 0 false 0;
  modify (st32 (base + (argv + 4 * argc)) 0) ;;
  ret argc.
End parse.

(** ** One turn of the loop *)

Section turn.
(** the process, its image, its arrays, and the strings the code writes *)
Context (call : Z -> MESSAGE -> M sys MESSAGE) (junk : MESSAGE) (pid base : Z) (slen : nat).
Context (rdbuf argv stk s_prompt s_open s_close : Z).

Definition shell_turn (fd_stdin fd_stdout : Z) : M sys unit :=
  write call junk fd_stdout s_prompt 2 ;;
  r ← read call junk fd_stdin rdbuf RDBUF_SIZE;
  (if (r <? 0) || (RDBUF_SIZE <=? r) then stop HFault else ret tt) ;;
  modm (fun m => upd m (base + (rdbuf + r)) 0) ;;
  on_mem (parse_line base rdbuf argv) ;;
  st ← get;
  let argv0 := ld32 (memory (kern st)) (base + argv) in
  fd ← open call junk pid slen argv0 O_RDWR;
  if fd <? 0 then
    st ← get;
    when (negb (memory (kern st) (base + rdbuf) =? 0))
      (write call junk fd_stdout s_open 1 ;;
       write call junk fd_stdout rdbuf r ;;
       write call junk fd_stdout s_close 2 ;; ret tt)
  else
    close call junk fd ;;
    child ← fork call junk;
    if negb (child =? 0) then wait call junk ;; ret tt
    else execv call junk pid base stk slen argv0 argv ;; ret tt.
End turn.

(** ** The words of a line *)

(** [w] is the word that has begun *)
Fixpoint words_from (w l : list Z) : list (list Z) :=
  match l with
  | [] => if decide (w = []) then [] else [w]
  | c :: l' =>
      if c =? 32 then (if decide (w = []) then words_from [] l' else w :: words_from [] l')
      else words_from (w ++ [c]) l'
  end.
Definition words (l : list Z) : list (list Z) := words_from [] l.

(** the array at [a]: pointers to the strings [ls], which lie between [lo] and [hi] *)
Fixpoint words_at (m : mem) (base lo hi a : Z) (ls : list (list Z)) : Prop :=
  match ls with
  | [] => True
  | l :: ls' =>
      let s := ld32 m (base + a) in
      lo <= s /\ s + Z.of_nat (length l) < hi /\ cstr m (base + s) l /\ words_at m base lo hi (a + 4) ls'
  end.

Lemma words_at_argv m base lo hi stk a ls :
  0 < lo -> hi <= stk \/ stk + PROC_ORIGIN_STACK <= lo ->
  a + 4 * (nargs ls + 1) <= stk \/ stk + PROC_ORIGIN_STACK <= a ->
  words_at m base lo hi a ls -> ld32 m (base + (a + 4 * nargs ls)) = 0 -> argv_at m base stk a ls.
Proof.
  intros Hlo Hd. revert a. induction ls as [|l ls IH]; intros a Ha Hw Hz; unfold nargs in *; simpl in *.
  - split; [lia|]. by rewrite Z.add_0_r in Hz.
  - destruct Hw as (H1 & H2 & H3 & H4). split; [lia|]. split; [lia|]. split; [done|]. split; [lia|].
    apply IH; [lia|done|]. rewrite <- Hz. do 2 f_equal. lia.
Qed.

Lemma words_at_frame m m' base lo hi a ls :
  (forall x, base + lo <= x < base + hi -> m' x = m x) ->
  (forall x, base + a <= x < base + a + 4 * nargs ls -> m' x = m x) ->
  words_at m base lo hi a ls -> words_at m' base lo hi a ls.
Proof.
  intros Hb. revert a. induction ls as [|l ls IH]; intros a Ha; [done|]. unfold nargs in *. simpl in *.
  intros (H1 & H2 & H3 & H4).
  assert (ld32 m' (base + a) = ld32 m (base + a)) as -> by (apply ld32_ext; intros; apply Ha; lia).
  split; [done|]. split; [done|]. split; [|apply IH; [|done]; intros x Hx; apply Ha; lia].
  eapply cstr_shift; [|exact H3]. intros i Hi. apply Hb. lia.
Qed.

Lemma bytes_cstr m a w : bytes_at m a w -> Forall (fun c => 1 <= c < 256) w ->
  m (a + Z.of_nat (length w)) = 0 -> cstr m a w.
Proof.
  revert a. induction w as [|c w IH]; intros a Hb Hf Hz; simpl in *; [by rewrite Z.add_0_r in Hz|].
  apply Forall_cons in Hf as [Hc Hf]. split; [|split; [done|]].
  - specialize (Hb 0%nat c eq_refl). by rewrite Z.add_0_r in Hb.
  - apply IH; [|done|by rewrite <- Z.add_assoc, (Z.add_comm 1), <- Hz; f_equal; lia].
    intros i x Hi. specialize (Hb (S i) x Hi). rewrite <- Hb. f_equal. lia.
Qed.

Lemma words_count l : forall w, (length (words_from w l) <= (if decide (w = []) then 0 else 1) + length l)%nat.
Proof.
  induction l as [|c l IH]; intros w; simpl; [case_decide; simpl; lia|].
  destruct (c =? 32).
  - specialize (IH []). case_decide; simpl in *; case_decide; simpl in *; try done; lia.
  - specialize (IH (w ++ [c])). rewrite decide_False in IH by (by destruct w). repeat case_decide; lia.
Qed.

Section parser.
Context (base argv lo hi : Z).

(** the word that has begun: the characters [w] from [s] up to [p] *)
Definition begun (m : mem) (p s : Z) (w : list Z) : Prop :=
  w <> [] -> s = p - Z.of_nat (length w) /\ lo <= s /\ bytes_at m (base + s) w /\ Forall (fun c => 1 <= c < 256) w.

Definition parsed (m m' : mem) (p argc : Z) (l : list Z) (ws : list (list Z)) : Prop :=
  words_at m' base lo hi (argv + 4 * argc) ws /\
  (forall x, ~ base + p <= x <= base + p + Z.of_nat (length l) ->
     ~ base + (argv + 4 * argc) <= x < base + (argv + 4 * argc) + 4 * nargs ws -> m' x = m x).

Lemma begun_grow m p s w c : m (base + p) = c -> 1 <= c < 256 -> lo <= p -> begun m p s w ->
  begun m (p + 1) (if decide (w = []) then p else s) (w ++ [c]).
Proof.
  intros Hm Hc Hp Hb _. rewrite length_app. simpl. case_decide as Hw.
  - subst w. simpl. split; [lia|]. split; [done|]. split; [|by apply Forall_singleton].
    intros [|i] x Hi; [|done]. injection Hi as <-. by rewrite Z.add_0_r.
  - destruct (Hb Hw) as (-> & H1 & H2 & H3). split; [lia|]. split; [done|].
    split; [|apply Forall_app; split; [done|by apply Forall_singleton]].
    intros i x Hi. apply lookup_app_Some in Hi as [Hi|[Hi Hx]]; [by apply H2|].
    apply list_lookup_singleton_Some in Hx as [Hx <-]. rewrite <- Hm. f_equal. lia.
Qed.

(** a word ends at [p]: its pointer is stored and its end is marked *)
Lemma word_ends m p s w argc : begun m p s w -> w <> [] -> p < hi -> 0 <= lo -> hi <= 4294967296 ->
  argv + 4 * argc + 4 <= lo \/ hi <= argv + 4 * argc ->
  words_at (upd (st32 (base + (argv + 4 * argc)) s m) (base + p) 0) base lo hi (argv + 4 * argc) [w].
Proof.
  intros Hb Hw Hp Hlo Hhi Ha. destruct (Hb Hw) as (Hs & H1 & H2 & H3).
  assert (0 < Z.of_nat (length w)) by (destruct w; [done|simpl; lia]). simpl.
  set (m2 := upd (st32 (base + (argv + 4 * argc)) s m) (base + p) 0).
  assert (ld32 m2 (base + (argv + 4 * argc)) = s) as ->.
  { rewrite (ld32_ext m2 (st32 (base + (argv + 4 * argc)) s m)) by (intros i Hi; apply upd_ne; lia).
    rewrite ld32_st32. apply u32_id. lia. }
  split; [done|]. split; [lia|]. split; [|done]. apply bytes_cstr; [|done|].
  - intros i c Hi. pose proof (lookup_lt_Some _ _ _ Hi). unfold m2. rewrite upd_ne by lia.
    rewrite st32_out by lia. by apply H2.
  - unfold m2. rewrite <- Z.add_assoc. replace (s + Z.of_nat (length w)) with p by lia. apply upd_eq.
Qed.

Lemma parse_run l : forall n p s w argc m,
  cstr m (base + p) l -> (length l < n)%nat -> begun m p s w ->
  lo <= p -> p + Z.of_nat (length l) < hi -> 0 <= lo -> hi <= 4294967296 -> 0 <= argc ->
  argv + 4 * (argc + nargs (words_from w l)) <= lo \/ hi <= argv ->
  exists m', parse_loop base argv n p s (bool_decide (w <> [])) argc m = Ok (argc + nargs (words_from w l)) m' /\
    parsed m m' p argc l (words_from w l).
Proof.
  induction l as [|c l IH]; intros [|n] p s w argc m Hc Hn Hb Hp Hph Hlo Hhi Hargc Ha; simpl in Hn; try lia;
    cbn [parse_loop words_from cstr length] in *; rewrite (bind_run get _ m m m eq_refl).
  - rewrite Hc. cbn [Z.eqb negb]. rewrite !andb_false_r, orb_false_r.
    destruct (decide (w = [])) as [->|Hw].
    + exists m. split; [unfold nargs; simpl; unfold ret; by rewrite Z.add_0_r|]. by split.
    + rewrite bool_decide_true by done. simpl andb. cbv iota. unfold nargs in *. simpl in Ha. simpl Z.of_nat.
      eexists. split; [reflexivity|]. split; [apply word_ends; (done || lia)|].
      intros x Hx1 Hx2. unfold nargs in *. simpl in *. rewrite upd_ne by lia. apply st32_out. lia.
  - destruct Hc as (Ec & Hc & Hl). rewrite Ec. rewrite (proj2 (Z.eqb_neq c 0)) by lia.
    rewrite orb_false_r, andb_true_r.
    destruct (c =? 32) eqn:E32; zbool.
    + rewrite andb_false_r, orb_false_r, andb_true_r. destruct (decide (w = [])) as [->|Hw].
      * rewrite bool_decide_false by auto. cbv iota.
        destruct (IH n (p + 1) s [] argc m) as (m' & R & P1 & P2); try done; try lia; [by rewrite Z.add_assoc|].
        exists m'. rewrite bool_decide_false in R by auto. split; [done|]. split; [done|].
        intros x Hx1 Hx2. cbn [length] in *. apply P2; lia.
      * rewrite bool_decide_true by done. cbv iota. unfold nargs in Ha. cbn [length] in Ha.
        set (m1 := st32 (base + (argv + 4 * argc)) s m). set (m2 := upd m1 (base + p) 0).
        rewrite (bind_run (modify (st32 (base + (argv + 4 * argc)) s)) _ m tt m1 eq_refl).
        rewrite (bind_run (modify (fun m => upd m (base + p) 0)) _ m1 tt m2 eq_refl).
        assert (F2 : forall x, x <> base + p -> ~ base + (argv + 4 * argc) <= x < base + (argv + 4 * argc) + 4 -> m2 x = m x)
          by (intros x Hx1 Hx2; unfold m2; rewrite upd_ne by done; apply st32_out; lia).
        destruct (IH n (p + 1) s [] (argc + 1) m2) as (m' & R & P1 & P2); try done; try (unfold nargs; lia).
        { apply (cstr_shift m m2 (base + (p + 1))); [|by rewrite Z.add_assoc].
          intros i Hi. apply F2; lia. }
        rewrite bool_decide_false in R by auto. unfold nargs in *. cbn [length].
        exists m'. split; [rewrite R; f_equal; lia|]. split.
        -- pose proof (word_ends m p s w argc Hb Hw ltac:(lia) Hlo Hhi ltac:(lia)) as W.
           fold m1 in W. fold m2 in W.
           cbn [words_at] in *. destruct W as (W1 & W2 & W3 & _). destruct (Hb Hw) as (Hs & Hs1 & _).
           assert (L2 : ld32 m2 (base + (argv + 4 * argc)) = s).
           { rewrite (ld32_ext m2 m1) by (intros i Hi; apply upd_ne; lia). unfold m1. rewrite ld32_st32. apply u32_id. lia. }
           assert (ld32 m' (base + (argv + 4 * argc)) = s) as ->
             by (rewrite <- L2; apply ld32_ext; intros i Hi; apply P2; unfold nargs; lia).
           rewrite L2 in W1, W2, W3. split; [done|]. split; [done|]. split.
           ++ apply (cstr_shift m2 m' (base + s)); [|done]. intros i Hi. apply P2; unfold nargs; lia.
           ++ by replace (argv + 4 * argc + 4) with (argv + 4 * (argc + 1)) by lia.
        -- intros x Hx1 Hx2. unfold nargs in *. cbn [length] in *. rewrite P2; unfold nargs; [|lia|lia]. apply F2; lia.
    + rewrite andb_true_r, andb_false_r.
      pose proof (begun_grow m p s w c Ec Hc Hp Hb) as Hb'.
      destruct (IH n (p + 1) _ (w ++ [c]) argc m ltac:(by rewrite Z.add_assoc) ltac:(lia) Hb') as (m' & R & P1 & P2);
        try done; try lia.
      exists m'. split; [|split; [done|intros x Hx1 Hx2; cbn [length] in *; apply P2; lia]].
      rewrite <- R. rewrite (bool_decide_true (w ++ [c] <> [])) by (by destruct w).
      destruct (decide (w = [])) as [->|Hw]; [by rewrite bool_decide_false by auto|].
      by rewrite bool_decide_true.
Qed.

End parser.

(** The parser of the shell. For every line of at most 69 characters, with the
    arrays of the shell apart from each other, the loop ends and stops nowhere; the
    number it returns is that of the words of the line, and [argv] lists these words
    in order, each as a string inside the line, with a zero word behind the last: an
    array as [execv] takes it. Nothing outside the line and the array changes. *)
Lemma shell_parse_spec base rdbuf argv stk l m :
  cstr m (base + rdbuf) l -> Z.of_nat (length l) < RDBUF_SIZE ->
  0 < rdbuf -> rdbuf + RDBUF_SIZE <= 4294967296 ->
  argv + 4 * (nargs (words l) + 1) <= rdbuf \/ rdbuf + RDBUF_SIZE <= argv ->
  rdbuf + RDBUF_SIZE <= stk \/ stk + PROC_ORIGIN_STACK <= rdbuf ->
  argv + 4 * (nargs (words l) + 1) <= stk \/ stk + PROC_ORIGIN_STACK <= argv ->
  exists m', parse_line base rdbuf argv m = Ok (nargs (words l)) m' /\
    argv_at m' base stk argv (words l) /\
    (forall x, ~ base + rdbuf <= x < base + rdbuf + RDBUF_SIZE ->
       ~ base + argv <= x < base + argv + 4 * (nargs (words l) + 1) -> m' x = m x).
Proof.
  intros Hc Hl H0 Hhi Ha Hd1 Hd2. unfold words in *. unfold RDBUF_SIZE in *.
  destruct (parse_run base argv rdbuf (rdbuf + 70) l (S (Z.to_nat RDBUF_SIZE)) rdbuf 0 [] 0 m) as (m1 & R & P1 & P2); try done; try lia;
    [unfold RDBUF_SIZE; lia|].
  assert (0 <= nargs (words_from [] l)) as Hn by (unfold nargs; lia).
  rewrite bool_decide_false in R by auto. unfold parse_line. rewrite (bind_run _ _ _ _ _ R), Z.add_0_l.
  set (n := nargs (words_from [] l)) in *. set (m2 := st32 (base + (argv + 4 * n)) 0 m1).
  exists m2. split; [reflexivity|]. replace (argv + 4 * 0) with argv in * by lia. split.
  - apply (words_at_argv m2 base rdbuf (rdbuf + 70)); try lia; [|fold n; unfold m2; by rewrite ld32_st32].
    apply (words_at_frame m1); [| |done]; intros x Hx; apply st32_out; lia.
  - intros x Hx1 Hx2. unfold m2. rewrite st32_out by lia. apply P2; lia.
Qed.

(** ** From the line to the program *)

Lemma words_size l : forall w, strs_size (words_from w l) <= Z.of_nat (length w) + Z.of_nat (length l) + 1.
Proof.
  induction l as [|c l IH]; intros w; simpl.
  - case_decide; simpl; lia.
  - destruct (c =? 32).
    + specialize (IH []). simpl in IH. case_decide; cbn [strs_size]; lia.
    + specialize (IH (w ++ [c])). rewrite length_app in IH. simpl in IH. lia.
Qed.

Lemma words_short l : Forall (fun w => (length w <= length l)%nat) (words l).
Proof.
  unfold words. cut (forall w, Forall (fun x => (length x <= length w + length l)%nat) (words_from w l)); [by intros H; apply (H [])|].
  induction l as [|c l IH]; intros w; simpl.
  - case_decide; [constructor|]. apply Forall_singleton. lia.
  - destruct (c =? 32).
    + case_decide; [eapply Forall_impl; [apply IH|]; simpl; lia|]. constructor; [lia|].
      eapply Forall_impl; [apply IH|]. simpl. lia.
    + eapply Forall_impl; [apply IH|]. intros x. rewrite length_app. simpl. lia.
Qed.

(** a line of the shell always fits the argument stack *)
Lemma words_fit l : Z.of_nat (length l) < RDBUF_SIZE -> stack_size (words l) <= PROC_ORIGIN_STACK.
Proof.
  intros Hl. pose proof (words_size l []) as H. pose proof (strs_size_pos (words l)).
  unfold words, stack_size, RDBUF_SIZE, PROC_ORIGIN_STACK in *. simpl in H. lia.
Qed.

