(* ===== verification/Command.v ===== *)
(** * The command programs (command/*.c, lib/printf.c)

    [echo], [pwd] and [dummy] run in an image of their own and print with [printf],
    which formats into a local array and writes it to descriptor 1. What they need
    of the system is the interface [Terminal]: the memory of the program by its own
    addresses, and the system call [write]. The programs are proved against its
    laws; the system with its file system and a terminal driver implements it. *)
From Stdlib Require Import FunctionalExtensionality String.
From S2P Require Import Prelude Const CLib Protect Proc Sys Fs FsOps FsLem FsRw Lib Mm Exec TtyState TtyTask.

(** ** [printl] *)

(** the kernel's and the tasks' printing: the text with its end goes to [sys_printx];
    the caller's addresses are linear, its array is at [pbuf], the variable
    arguments at [pargs] *)
Definition printl (pid pbuf pargs : Z) (slen : nat) (fmt : Z) (vals : list Z) : M tsys unit :=
  klift (modmem (put_words pargs vals)) ;;
  st ← get;
  match vsprintf slen slen pbuf fmt pargs (memory (tkern st)) with
  | None => stop HSpin
  | Some (len, m') =>
      klift (modmem (fun _ => m')) ;;
      pokeb (pbuf + len) 0 ;;
      sys_printx slen pbuf pid
  end.

(** ** The interface *)

(** [ready]: descriptor 1 is open on the terminal; [screen]: what has been written
    to it; the image of the program has [limit] bytes *)
Class Terminal (P : Type) := {
  pmem : P -> mem;
  set_pmem : mem -> P -> P;
  twrite : Z -> Z -> Z -> M P Z;
  limit : Z;
  ready : P -> Prop;
  screen : P -> list Z }.

Class TerminalLaws (P : Type) `{!Terminal P} := {
  pmem_set m st : pmem (set_pmem m st) = m;
  ready_set m st : ready st -> ready (set_pmem m st);
  screen_set m st : (forall x, ~ 0 <= x < limit -> m x = pmem st x) -> screen (set_pmem m st) = screen st;
  twrite_shows st buf out : ready st -> bytes_at (pmem st) buf out -> 0 <= buf ->
    buf + Z.of_nat (List.length out) <= limit -> Forall (fun c => 0 <= c < 256) out ->
    exists st', twrite 1 buf (Z.of_nat (List.length out)) st = Ok (Z.of_nat (List.length out)) st' /\
      ready st' /\ screen st' = screen st ++ out /\ forall x, 0 <= x < limit -> pmem st' x = pmem st x }.

(** ** The arguments of a program *)

(** words with a space between two *)
Fixpoint unwords (ls : list (list Z)) : list Z :=
  match ls with
  | [] => []
  | [l] => l
  | l :: ls' => l ++ 32 :: unwords ls'
  end.
(** the same, each word with the separator before it *)
Fixpoint pieces (first : bool) (ls : list (list Z)) : list Z :=
  match ls with
  | [] => []
  | l :: ls' => (if first then [] else [32]) ++ l ++ pieces false ls'
  end.
Lemma pieces_unwords ls : pieces true ls = unwords ls.
Proof.
  induction ls as [|l [|l' ls] IH]; [done|apply app_nil_r|].
  change (pieces true (l :: l' :: ls)) with (l ++ 32 :: pieces true (l' :: ls)). by rewrite IH.
Qed.

Lemma nth_arg m ls : forall a ptr i l, ptrs_at m a ptr ls -> strs_at m ptr ls -> ls !! i = Some l ->
  let p := ld32 m (a + 4 * Z.of_nat i) in
  cstr m p l /\ ptr <= p /\ p + Z.of_nat (List.length l) + 1 <= ptr + strs_size ls.
Proof.
  induction ls as [|l' ls IH]; intros a ptr i l Hp Hs Hi; [done|].
  pose proof (strs_size_pos ls) as Hz. unfold nargs in Hz. destruct Hp as [Hp Hps], Hs as [Hs Hss].
  destruct i as [|i]; cbn [strs_size] in *.
  - injection Hi as ->. rewrite Z.add_0_r, Hp. split; [done|lia].
  - destruct (IH (a + 4) _ i l Hps Hss Hi) as (I1 & I2 & I3). cbv zeta in *.
    replace (a + 4 * Z.of_nat (S i)) with (a + 4 + 4 * Z.of_nat i) by lia. split; [done|lia].
Qed.

(** ** The programs *)

Section programs.
Context `{T : Terminal P}.
(** the addresses of the string literals, of the array [buf] of [printf] and of its
    variable arguments; [slen] bounds the strings *)
Context (lit : string -> Z) (pbuf pargs : Z) (slen : nat).

Definition cmd_printf (fmt : Z) (vals : list Z) : M P unit :=
  modify (fun st => set_pmem (put_words pargs vals (pmem st)) st) ;;
  st ← get;
  match vsprintf slen slen pbuf fmt pargs (pmem st) with
  | None => stop HSpin
  | Some (len, m') =>
      modify (set_pmem m') ;;
      c ← twrite 1 pbuf len;
      assert_ (c =? len)
  end.

(** the loop of [echo]: the arguments from [i] on *)
Fixpoint echo_loop (n : nat) (i argc argv : Z) : M P unit :=
  if argc <=? i then ret tt
  else match n with
  | O => stop HSpin
  | S n' =>
      st ← get;
      cmd_printf (lit "%s%s") [if i =? 1 then lit "" else lit " "; ld32 (pmem st) (argv + 4 * i)] ;;
      echo_loop n' (i + 1) argc argv
  end.
Definition echo_main (argc argv : Z) : M P Z :=
  echo_loop (Z.to_nat argc) 1 argc argv ;;
  cmd_printf (lit "\n") [] ;;
  ret 0.

Definition pwd_main (argc argv : Z) : M P Z := cmd_printf (lit "/\n") [] ;; ret 0.
Definition dummy_main (argc argv : Z) : M P Z := cmd_printf (lit "/\n") [] ;; ret 0.

(** ** [printf] *)

Definition BUF_SIZE : Z := 256.

(** [n] bytes at [a] outside what [printf] writes: its array and its arguments *)
Definition clear_of (a n : Z) : Prop :=
  (a + n <= pbuf \/ pbuf + BUF_SIZE <= a) /\ (a + n <= pargs \/ pargs + 8 <= a).
Definition kept (m m' : mem) : Prop := forall x, 0 <= x < limit -> clear_of x 1 -> m' x = m x.

Lemma kept_refl m : kept m m.
Proof. done. Qed.
Lemma kept_trans m1 m2 m3 : kept m1 m2 -> kept m2 m3 -> kept m1 m3.
Proof. intros H1 H2 x Hx Hc. by rewrite H2, H1. Qed.

(** a string of the image that [printf] leaves alone *)
Definition str_at (m : mem) (a : Z) (l : list Z) : Prop :=
  cstr m a l /\ 0 <= a /\ a + Z.of_nat (List.length l) < limit /\ clear_of a (Z.of_nat (List.length l) + 1) /\
  (List.length l < slen)%nat.

Lemma str_at_kept m m' a l : kept m m' -> str_at m a l -> str_at m' a l.
Proof.
  intros Hk (H1 & H2 & H3 & H4 & H5). split; [|done]. unfold clear_of in *. apply (cstr_shift m _ a); [|done].
  intros i Hi. apply Hk; [lia|]. unfold clear_of. lia.
Qed.
Lemma word_kept m m' a : kept m m' -> 0 <= a -> a + 4 <= limit -> clear_of a 4 -> ld32 m' a = ld32 m a.
Proof. intros Hk H1 H2 H3. apply ld32_ext. intros i Hi. unfold clear_of in *. apply Hk; [lia|unfold clear_of; lia]. Qed.

Context `{!TerminalLaws P}.
Context (Hbuf : 0 <= pbuf /\ pbuf + BUF_SIZE <= limit) (Hargs : 0 <= pargs /\ pargs + 8 <= limit).
Context (Hsep : pargs + 8 <= pbuf \/ pbuf + BUF_SIZE <= pargs).

(** the text [out] has been printed *)
Definition printed (out : list Z) (st st' : P) : Prop :=
  ready st' /\ screen st' = screen st ++ out /\ kept (pmem st) (pmem st').

Lemma printed_app o1 o2 st st1 st2 : printed o1 st st1 -> printed o2 st1 st2 -> printed (o1 ++ o2) st st2.
Proof.
  intros (H1 & H2 & H3) (G1 & G2 & G3). split; [done|]. split; [by rewrite G2, H2, app_assoc|].
  by apply (kept_trans _ (pmem st1)).
Qed.

Lemma printf_run fmt fl vals al out st :
  ready st -> str_at (pmem st) fmt fl -> (List.length vals <= 2)%nat ->
  args_at pbuf BUF_SIZE slen (put_words pargs vals (pmem st)) pargs al -> render fl al = Some out ->
  Z.of_nat (List.length out) < BUF_SIZE -> Forall (fun c => 0 <= c < 256) out ->
  exists st', cmd_printf fmt vals st = Ok tt st' /\ printed out st st'.
Proof.
  intros Hr (F1 & F2 & F3 & F4 & F5) Hv Ha Hren Ho Hch. unfold cmd_printf. unfold clear_of in F4.
  set (m1 := put_words pargs vals (pmem st)) in *. set (st1 := set_pmem m1 st).
  rewrite (bind_run (modify (fun st => set_pmem (put_words pargs vals (pmem st)) st)) _ st tt st1 eq_refl).
  rewrite (bind_run get _ st1 st1 st1 eq_refl).
  assert (E1 : pmem st1 = m1) by apply pmem_set. rewrite E1.
  assert (M1 : forall x, x < pargs \/ pargs + 8 <= x -> m1 x = pmem st x) by (intros x Hx; apply put_words_out; lia).
  destruct (vsprintf_run slen slen pbuf BUF_SIZE m1 fmt pargs fl al out) as (m2 & E & Hb & Hag); try done; try lia.
  { apply (cstr_shift (pmem st) _ fmt); [|done]. intros i Hi. apply M1. lia. }
  rewrite E. set (st2 := set_pmem m2 st1). rewrite (bind_run (modify (set_pmem m2)) _ st1 tt st2 eq_refl).
  assert (E2 : pmem st2 = m2) by apply pmem_set.
  destruct (twrite_shows st2 pbuf out) as (st3 & W & R3 & S3 & K3); rewrite ?E2; try done; try lia.
  { by apply ready_set, ready_set. }
  exists st3. rewrite (bind_run _ _ _ _ _ W). unfold assert_. rewrite Z.eqb_refl. split; [done|].
  split; [done|]. split.
  - rewrite S3. unfold st2, st1. rewrite screen_set; [rewrite screen_set; [done|]|].
    + intros x Hx. apply M1. lia.
    + intros x Hx. rewrite pmem_set. apply Hag. lia.
  - intros x Hx Hc. unfold clear_of in Hc. rewrite K3, E2 by done. rewrite Hag by lia. apply M1. lia.
Qed.

(** ** [echo] *)

(** the literals of the program *)
Record literals (m : mem) : Prop := {
  lt_fmt : str_at m (lit "%s%s") [37; 115; 37; 115];
  lt_empty : str_at m (lit "") [];
  lt_space : str_at m (lit " ") [32];
  lt_newline : str_at m (lit "\n") [10] }.

Lemma literals_kept m m' : kept m m' -> literals m -> literals m'.
Proof. intros Hk [H1 H2 H3 H4]. split; by apply (str_at_kept m). Qed.

(** the array [argv] with the arguments [ls], which [printf] leaves alone *)
Definition argv_ok (m : mem) (argv : Z) (ls : list (list Z)) : Prop :=
  forall i l, ls !! i = Some l -> let a := argv + 4 * Z.of_nat i in
    0 <= a /\ a + 4 <= limit /\ clear_of a 4 /\ str_at m (ld32 m a) l /\ Z.of_nat (List.length l) < BUF_SIZE - 1.

Lemma argv_kept m m' argv ls : kept m m' -> argv_ok m argv ls -> argv_ok m' argv ls.
Proof.
  intros Hk H i l Hi a. destruct (H i l Hi) as (H1 & H2 & H3 & H4 & H5). fold a in H1, H2, H3, H4.
  rewrite (word_kept m m') by done. repeat (split; [done|]). split; [|done]. by apply (str_at_kept m).
Qed.

Lemma arg_stack_argv m argv ls :
  arg_stack m 0 argv ls -> 0 <= argv -> argv + stack_size ls <= limit -> clear_of argv (stack_size ls) ->
  Forall (fun l => Z.of_nat (List.length l) < BUF_SIZE - 1 /\ (List.length l < slen)%nat) ls -> argv_ok m argv ls.
Proof.
  intros (P1 & _ & P3) H0 Hl Hc Hf i l Hi a. rewrite !Z.add_0_l in *. unfold clear_of, stack_size, nargs in *.
  pose proof (lookup_lt_Some _ _ _ Hi). pose proof (strs_size_pos ls) as Hz. unfold nargs in Hz.
  destruct (nth_arg m ls argv _ i l P1 P3 Hi) as (N1 & N2 & N3). subst a.
  set (p := ld32 m (argv + 4 * Z.of_nat i)) in *.
  rewrite Forall_lookup in Hf. destruct (Hf i l Hi). unfold str_at, clear_of.
  repeat split; try done; try lia.
Qed.

Lemma string_bytes m a l : cstr m a l -> Forall (fun c => 0 <= c < 256) l.
Proof. intros H. eapply Forall_impl; [by eapply cstr_chars|]. cbn. lia. Qed.

(** [printf("%s%s", s, t)] *)
Lemma print_two a b la lb st :
  ready st -> str_at (pmem st) (lit "%s%s") [37; 115; 37; 115] -> str_at (pmem st) a la -> str_at (pmem st) b lb ->
  limit <= 4294967296 -> Z.of_nat (List.length la + List.length lb) < BUF_SIZE ->
  exists st', cmd_printf (lit "%s%s") [a; b] st = Ok tt st' /\ printed (la ++ lb) st st'.
Proof.
  intros Hr Hf (A1 & A2 & A3 & A4 & A5) (B1 & B2 & B3 & B4 & B5) Hlim Hlen.
  apply (printf_run _ [37; 115; 37; 115] _ [AStr la; AStr lb]); try done.
  - cbn [args_at put_words]. set (m := pmem st) in *.
    assert (K : kept m (st32 (pargs + 4) b (st32 pargs a m))).
    { intros x Hx Hc. unfold clear_of in Hc. by rewrite !st32_out by lia. }
    rewrite ld32_st32_ne, ld32_st32, ld32_st32, !u32_id by lia.
    destruct (str_at_kept m _ a la K) as (A1' & _); [done|]. destruct (str_at_kept m _ b lb K) as (B1' & _); [done|].
    unfold clear_of in A4, B4. repeat split; try done; lia.
  - cbn. by rewrite app_nil_r.
  - rewrite length_app. lia.
  - apply Forall_app. split; by eapply string_bytes.
Qed.

Lemma echo_loop_run ls : forall n i argv st,
  ready st -> literals (pmem st) -> argv_ok (pmem st) (argv + 4 * i) ls -> limit <= 4294967296 ->
  1 <= i -> (List.length ls <= n)%nat ->
  exists st', echo_loop n i (i + nargs ls) argv st = Ok tt st' /\ printed (pieces (i =? 1) ls) st st'.
Proof.
  induction ls as [|l ls IH]; intros n i argv st Hr Hlit Ha Hlim Hi Hn; unfold nargs in *; cbn [List.length] in *.
  - exists st. split; [destruct n; cbn [echo_loop]; by rewrite (proj2 (Z.leb_le _ _)) by lia|].
    split; [done|]. split; [by rewrite app_nil_r|apply kept_refl].
  - destruct n as [|n]; [lia|]. cbn [echo_loop]. rewrite (proj2 (Z.leb_gt _ _)) by lia.
    rewrite (bind_run get _ st st st eq_refl).
    destruct (Ha 0%nat l eq_refl) as (_ & _ & _ & A4 & A5). rewrite Z.add_0_r in A4.
    destruct (print_two (if i =? 1 then lit "" else lit " ") (ld32 (pmem st) (argv + 4 * i))
      (if i =? 1 then [] else [32]) l st) as (st1 & E1 & P1); try done.
    { apply Hlit. }
    { destruct (i =? 1); apply Hlit. }
    { destruct (i =? 1); cbn [List.length]; lia. }
    rewrite (bind_run _ _ _ _ _ E1). pose proof P1 as (R1 & _ & K1).
    destruct (IH n (i + 1) argv st1) as (st2 & E2 & P2); try done; try lia.
    { by apply (literals_kept (pmem st)). }
    { apply (argv_kept (pmem st)); [done|]. intros j x Hj. specialize (Ha (S j) x Hj).
      replace (argv + 4 * (i + 1) + 4 * Z.of_nat j) with (argv + 4 * i + 4 * Z.of_nat (S j)) by lia. exact Ha. }
    exists st2. replace (i + Z.of_nat (S (List.length ls))) with (i + 1 + Z.of_nat (List.length ls)) by lia.
    split; [done|]. rewrite (proj2 (Z.eqb_neq (i + 1) 1)) in P2 by lia. cbn [pieces]. rewrite app_assoc.
    by apply (printed_app _ _ _ st1).
Qed.

Lemma print_line fmt fl st : ready st -> str_at (pmem st) fmt fl -> render fl [] = Some fl ->
  Z.of_nat (List.length fl) < BUF_SIZE -> exists st', cmd_printf fmt [] st = Ok tt st' /\ printed fl st st'.
Proof.
  intros Hr Hf Hren Hl. apply (printf_run _ fl _ []); try done; [cbn; lia|].
  destruct Hf as [Hf _]. by eapply string_bytes.
Qed.

(** [pwd] and [dummy] print a slash and a newline. *)
Lemma pwd_run argc argv st : ready st -> str_at (pmem st) (lit "/\n") [47; 10] ->
  exists st', pwd_main argc argv st = Ok 0 st' /\ dummy_main argc argv st = Ok 0 st' /\ printed [47; 10] st st'.
Proof.
  intros Hr Hl. destruct (print_line (lit "/\n") [47; 10] st Hr Hl) as (st' & E & H); try done.
  exists st'. unfold pwd_main, dummy_main. by rewrite !(bind_run _ _ _ _ _ E).
Qed.

(** [echo] prints the words after its name, and a newline. *)
Lemma echo_run argv ls st :
  ready st -> literals (pmem st) -> limit <= 4294967296 -> ls <> [] ->
  arg_stack (pmem st) 0 argv ls -> 0 <= argv -> argv + stack_size ls <= limit -> clear_of argv (stack_size ls) ->
  Forall (fun l => Z.of_nat (List.length l) < BUF_SIZE - 1 /\ (List.length l < slen)%nat) ls ->
  exists st', echo_main (nargs ls) argv st = Ok 0 st' /\ printed (unwords (tail ls) ++ [10]) st st'.
Proof.
  intros Hr Hlit Hlim Hne Hst H0 Hz Hc Hf.
  pose proof (arg_stack_argv _ argv ls Hst H0 Hz Hc Hf) as Ha. destruct ls as [|l ls]; [done|].
  destruct (echo_loop_run ls (Z.to_nat (nargs (l :: ls))) 1 argv st) as (st1 & E1 & P1); try done.
  { intros i x Hi. specialize (Ha (S i) x Hi). replace (argv + 4 * 1 + 4 * Z.of_nat i) with (argv + 4 * Z.of_nat (S i)) by lia. exact Ha. }
  { unfold nargs. cbn [List.length]. lia. }
  change (1 =? 1) with true in P1. rewrite pieces_unwords in P1. pose proof P1 as (R1 & _ & K1).
  destruct (print_line (lit "\n") [10] st1) as (st2 & E2 & P2); try done.
  { apply (literals_kept (pmem st)); done. }
  exists st2. unfold echo_main. replace (nargs (l :: ls)) with (1 + nargs ls) in * by (unfold nargs; cbn [List.length]; lia).
  rewrite (bind_run _ _ _ _ _ E1), (bind_run _ _ _ _ _ E2). split; [done|]. by apply (printed_app _ _ _ st1).
Qed.
End programs.

(** ** The file system and a terminal driver implement the interface *)

(** what a driver of terminals promises for the process [pid] with its [size] bytes at
    [base]: a write request is answered by its own message (TtyWrite shows it of the
    terminal task), its text comes after what has been written, and no table of FS or
    of the kernel and no byte of the image changes; [text] does not depend on the image *)
Class CharDriver (drv : Z -> MESSAGE -> M sys MESSAGE) (text : sys -> list Z) (pid base size : Z) := {
  cd_image m st : (forall a, ~ base <= a < base + size -> m a = fmem st a) -> text (with_mem m st) = text st;
  cd_write m st out : type m = DEV_WRITE -> PROC_NR m = pid -> CNT m = Z.of_nat (List.length out) ->
    (forall j, 0 <= j < Z.of_nat (List.length out) ->
       la_of (kern st) pid (u32 (BUF m + j)) = la_of (kern st) pid (BUF m) + j) ->
    bytes_at (fmem st) (la_of (kern st) pid (BUF m)) out -> Forall (fun c => 0 <= c < 256) out ->
    exists st', drv TASK_TTY m st = Ok (set_source TASK_TTY m) st' /\ text st' = text st ++ out /\
      proc_table (kern st') = proc_table (kern st) /\ fd_table st' = fd_table st /\ inode_table st' = inode_table st /\
      forall a, base <= a < base + size -> fmem st' a = fmem st a }.

Section fs_terminal.
Context (drv : Z -> MESSAGE -> M sys MESSAGE) (text : sys -> list Z) (junk : MESSAGE) (pid base size : Z).

(** descriptor 1 of the process is open for reading and writing on a terminal *)
Record on_terminal (st : sys) (f p : Z) : Prop := {
  ot_pid : 0 <= pid < NR_ALL;
  ot_filp : filp (proc_table (kern st) pid) 1 = Some f;
  ot_fd : 0 <= f < NR_FILE_DESC;
  ot_mode : has (fd_mode (fd_table st f)) O_RDWR = true;
  ot_inode : fd_inode (fd_table st f) = Some p;
  ot_nr : 0 <= p < NR_INODE;
  ot_char : Z.land I_TYPE_MASK (i_mode (inode_table st p)) = I_CHAR_SPECIAL;
  ot_dev : dd_map (MAJOR (i_start_sect (inode_table st p))) = Some TASK_TTY;
  ot_image : 0 <= size <= 4294967296 /\ forall va, 0 <= va < size -> la_of (kern st) pid va = base + va }.

#[export] Instance fs_terminal : Terminal sys := {
  pmem st := fun x => fmem st (base + x);
  set_pmem m st := with_mem (fun a => m (a - base)) st;
  twrite := write (fun _ => fs_call drv pid) junk;
  limit := size;
  ready st := exists f p, on_terminal st f p;
  screen := text }.

(** the request that reaches the driver *)
Definition term_request (buf n dev : Z) : MESSAGE :=
  char_request (set_source pid (set_m3i1 1 (set_m3i2 n (set_m3p2 buf (set_type WRITE junk))))) dev.

(** the exchange of a write to a terminal: FS passes it to the driver *)
Lemma write_char f p buf n st st' :
  on_terminal st f p ->
  let m := term_request buf n (i_start_sect (inode_table st p)) in
  drv TASK_TTY m st = Ok (set_source TASK_TTY m) st' ->
  write (fun _ => fs_call drv pid) junk 1 buf n st = Ok n st'.
Proof.
  intros [H1 H2 H3 H4 H5 H6 H7 H8 _] m Hd. unfold term_request in m. set (msg := set_source pid _) in m.
  assert (Er : do_rdwt drv pid msg st = Ok (n, set_source TASK_TTY m) st').
  { unfold do_rdwt. change (FD msg) with 1. change ((1 <? 0) || (NR_FILES <=? 1)) with false. cbv iota.
    assert (Ef : get_filp pid 1 st = Ok (Some f) st).
    { unfold get_filp, lift, bind. rewrite getp_run by done. cbn. rewrite H2. by destruct st. }
    rewrite (bind_run _ _ _ _ _ Ef), bind_assert by (by apply bool_decide_eq_true).
    rewrite (bind_run (deref (Some f)) _ st f st eq_refl).
    rewrite (bind_run _ _ _ _ _ (getfd_run f st H3)), H5, bind_assert by (by apply bool_decide_eq_true).
    rewrite (bind_run (deref (Some p)) _ st p st eq_refl).
    rewrite (bind_run _ _ _ _ _ (geti_run p st H6)), H4, H7. cbn [negb]. rewrite Z.eqb_refl.
    unfold driver_of. rewrite H8. rewrite (bind_run _ _ st TASK_TTY st) by reflexivity.
    fold m. by rewrite (bind_run _ _ _ _ _ Hd). }
  assert (Es : fs_serve drv msg st = Ok (Some (pid, set_type SYSCALL_RET (set_m3i2 n (set_source TASK_TTY m)))) st').
  { unfold fs_serve. change (source msg) with pid. change (type msg) with WRITE.
    change (WRITE =? OPEN) with false. change (WRITE =? CLOSE) with false. change ((WRITE =? READ) || (WRITE =? WRITE)) with true.
    cbv iota. by rewrite (bind_run _ _ _ _ _ Er). }
  unfold write, fs_call. fold msg. unfold bind. by rewrite Es.
Qed.

Lemma on_terminal_same st st' f p : on_terminal st f p -> proc_table (kern st') = proc_table (kern st) ->
  fd_table st' = fd_table st -> inode_table st' = inode_table st -> on_terminal st' f p.
Proof.
  intros [H1 H2 H3 H4 H5 H6 H7 H8 [H9 H10]] E1 E2 E3. split; rewrite ?E1, ?E2, ?E3; try done.
  split; [done|]. intros va Hva. rewrite <- H10 by done. unfold la_of. by rewrite E1.
Qed.

#[export] Instance fs_terminal_laws `{!CharDriver drv text pid base size} : TerminalLaws sys.
Proof.
  split; cbn [pmem set_pmem ready screen twrite limit fs_terminal].
  - intros m st. extensionality x. change (fmem (with_mem (fun a => m (a - base)) st)) with (fun a => m (a - base)).
    cbv beta. f_equal. lia.
  - intros m st (f & p & H). exists f, p. by apply (on_terminal_same st).
  - intros m st Hm. apply cd_image. intros a Ha. rewrite (Hm (a - base)) by lia. f_equal. lia.
  - intros st buf out (f & p & Hot) Hb H0 Hl Hc. pose proof (ot_image _ _ _ Hot) as [Hsz Hla].
    set (n := Z.of_nat (List.length out)) in *. set (m := term_request buf n (i_start_sect (inode_table st p))).
    destruct (cd_write m st out) as (st' & E & E1 & E2 & E3 & E4 & E5); try done.
    { intros j Hj. fold n in Hj. change (BUF m) with buf in *. rewrite u32_id, !Hla by lia. lia. }
    { intros i c Hi. pose proof (lookup_lt_Some _ _ _ Hi). change (BUF m) with buf.
      rewrite <- (Hb i c Hi), Hla by lia. f_equal. lia. }
    exists st'. split; [by apply (write_char f p)|]. split; [exists f, p; by apply (on_terminal_same st)|].
    split; [done|]. intros x Hx. apply E5. lia.
Qed.
End fs_terminal.

(** ** Property *)

(** C13: [echo] on any terminal that keeps the interface (FS with a terminal driver
    does). A program that finds the argument stack of [ls] at [argv], as [exec]
    leaves it, returns 0; exactly the words after the name, with a space between two,
    and a newline are added to what has been written, and the image is unchanged but
    for the array and the arguments of [printf]. Each word must fit the array of 256
    bytes, which nothing in [printf] checks. *)
Theorem echo_prints `{TerminalLaws P} lit pbuf pargs slen argv ls (st : P) :
  (0 <= pbuf /\ pbuf + BUF_SIZE <= limit) -> (0 <= pargs /\ pargs + 8 <= limit) ->
  (pargs + 8 <= pbuf \/ pbuf + BUF_SIZE <= pargs) -> ready st -> literals lit pbuf pargs slen (pmem st) ->
  limit <= 4294967296 -> ls <> [] ->
  arg_stack (pmem st) 0 argv ls -> 0 <= argv -> argv + stack_size ls <= limit -> clear_of pbuf pargs argv (stack_size ls) ->
  Forall (fun l => Z.of_nat (List.length l) < BUF_SIZE - 1 /\ (List.length l < slen)%nat) ls ->
  exists st', echo_main lit pbuf pargs slen (nargs ls) argv st = Ok 0 st' /\ ready st' /\
    screen st' = screen st ++ unwords (tail ls) ++ [10] /\ kept pbuf pargs (pmem st) (pmem st').
Proof. intros Hb Ha Hs Hr Hl Hlim Hne Hst H0 Hz Hc Hf. by apply echo_run. Qed.
