(* ===== verification/Diag.v ===== *)
(** * Messages of the kernel (lib/misc.c: assertion_failure, spin; kernel/hd.c:
    print_identify_info, print_hdinfo)

    They go through [printl] to [sys_printx]. A failed assertion of a task or of the kernel
    ends in the halt of [sys_printx]; in a process it ends in the loop of [spin]. *)
From Stdlib Require Import String.
From S2P Require Import Prelude Const CLib Protect Proc Sys Fs FsOps FsLem FsRw Boot Hd TtyState TtyTask Command.

Section messages.
(** the process that prints; the addresses of literals, of [printl]'s array and arguments and
    of the array [s] of [print_identify_info] *)
Context (pid : Z) (lit : string -> Z) (pbuf pargs sbuf : Z) (slen : nat).

Definition say (fmt : string) (vals : list Z) : M tsys unit := printl pid pbuf pargs slen (lit fmt) vals.

Definition spin (func_name : Z) : M tsys unit :=
  say "\nspinning in %s......\n" [func_name] ;; stop HSpin.

Definition assertion_failure (exp file base_file ln : Z) : M tsys unit :=
  say "%c assert(%s) failed:file:%s,base_file:%s,ln:%d" [MAG_CH_ASSERT; exp; file; base_file; ln] ;;
  spin (lit "assertion_failure()").

(** ** The drive's identification *)

(** the loop that exchanges the bytes of [n] words from [p] on into [s] *)
Fixpoint swap_loop (n : nat) (i p : Z) (m : mem) : mem :=
  match n with
  | O => m
  | S n' =>
      let m := upd m (sbuf + (i * 2 + 1)) (m p) in
      let m := upd m (sbuf + i * 2) (m (p + 1)) in
      swap_loop n' (i + 1) (p + 2) m
  end.
Definition swap_text (p len : Z) (m : mem) : mem :=
  upd (swap_loop (Z.to_nat (Z.quot len 2)) 0 p m) (sbuf + Z.quot len 2 * 2) 0.

Definition iinfo : list (Z * Z * string) := [(10, 20, "HD SN"); (27, 40, "HD Model")]%string.

Definition print_ascii (hdinfo : Z) (e : Z * Z * string) : M tsys unit :=
  let '(idx, len, desc) := e in
  klift (modmem (swap_text (hdinfo + 2 * idx) len)) ;;
  say "%s: %s\n" [lit desc; sbuf].

(** [sectors * 512 / 1000000], in [int] *)
Definition size_mb (sectors : Z) : Z := Z.quot (i32 (sectors * 512)) 1000000.

Definition print_identify_info (hdinfo : Z) : M tsys unit :=
  foldr (fun e k => print_ascii hdinfo e ;; k) (ret tt) iinfo ;;
  st ← get;
  let w (i : Z) := ld16 (memory (tkern st)) (hdinfo + 2 * i) in
  say "LBA supported: %s\n" [if has (w 49) 0x0200 then lit "Yes" else lit "No"] ;;
  say "LBA48 supported: %s\n" [if has (w 83) 0x0400 then lit "Yes" else lit "No"] ;;
  say "HD size: %dMB\n" [size_mb (i32 (i32 (Z.shiftl (w 61) 16) + w 60))].

(** ** The partitions *)

Definition part_fmt : string := "%sPart_%d: base %d(0x%x), size %d(0x%x)(in sector)\n".
Definition print_part (indent : string) (i : Z) (p : part_info) : M tsys unit :=
  say part_fmt [lit indent; i; pbase p; pbase p; psize p; psize p].
Definition print_hdinfo (h : hd_info) : M tsys unit :=
  foldr (fun i k => print_part (if i =? 0 then " " else "     ") i (primary h i) ;; k) (ret tt) (seqZ 0 NR_PRIM_PER_DRIVE) ;;
  foldr (fun i k => (if psize (logical h i) =? 0 then ret tt else print_part "         " i (logical h i)) ;; k) (ret tt)
    (seqZ 0 NR_SUB_PER_DRIVE).

(** ** A failed assertion does not return *)

Lemma printl_run st fmt vals fl al out : let m := put_words pargs vals (memory (tkern st)) in
  cstr m (lit fmt) fl -> (lit fmt + Z.of_nat (List.length fl) < pbuf \/ pbuf + 256 <= lit fmt) ->
  args_at pbuf 256 slen m pargs al -> render fl al = Some out -> Z.of_nat (List.length out) < 256 -> (List.length fl < slen)%nat ->
  exists st1, say fmt vals st = sys_printx slen pbuf pid st1 /\ bytes_at (memory (tkern st1)) pbuf (out ++ [0]) /\
    tkern st1 = set_memory (memory (tkern st1)) (tkern st).
Proof.
  intros m Hf Hd Ha Hr Hl Hs. destruct (vsprintf_run slen slen pbuf 256 m (lit fmt) pargs fl al out Hf Hd Ha Hr Hl Hs) as (m' & E & B & _).
  unfold say, printl. set (st0 := set_tkern (set_memory m (tkern st)) st).
  rewrite (bind_run (klift (modmem (put_words pargs vals))) _ st tt st0 eq_refl), (bind_run get _ st0 st0 st0 eq_refl).
  change (memory (tkern st0)) with m. rewrite E.
  set (st1 := set_tkern (set_memory m' (tkern st0)) st0). rewrite (bind_run (klift (modmem (fun _ => m'))) _ st0 tt st1 eq_refl).
  set (p := pbuf + Z.of_nat (List.length out)). set (st2 := set_tkern (set_memory (upd m' p 0) (tkern st1)) st1).
  rewrite (bind_run (pokeb p 0) _ st1 tt st2 eq_refl). exists st2. split; [done|]. split; [|done].
  change (memory (tkern st2)) with (upd m' p 0). intros i c Hi. destruct (decide (i < List.length out)%nat) as [H|H].
  - rewrite upd_ne by (unfold p; lia). apply B. by rewrite lookup_app_l in Hi by done.
  - rewrite lookup_app_r in Hi by lia. destruct (i - List.length out)%nat eqn:Ei; [|done].
    injection Hi as <-. replace (pbuf + Z.of_nat i) with p by (unfold p; lia). apply upd_eq.
Qed.

(** the first character of a text that begins with %c *)
Lemma render_char ch fl al out : render (37 :: 99 :: fl) (AChar ch :: al) = Some out -> exists o, out = ch :: o.
Proof. cbn [render]. change (negb (37 =? 37)) with false. cbv iota. change (99 =? 99) with true. cbv iota. intros (o & _ & ->)%fmap_Some. by exists o. Qed.

(** in a task, [sys_printx] halts on the first character of the message *)
Lemma assert_halts_task st exp file base ln al out : let vals := [MAG_CH_ASSERT; exp; file; base; ln] in
  let m := put_words pargs vals (memory (tkern st)) in let fmt := "%c assert(%s) failed:file:%s,base_file:%s,ln:%d"%string in
  cstr m (lit fmt) (bytes_of fmt) -> (lit fmt + Z.of_nat (List.length (bytes_of fmt)) < pbuf \/ pbuf + 256 <= lit fmt) ->
  args_at pbuf 256 slen m pargs (AChar MAG_CH_ASSERT :: al) -> render (bytes_of fmt) (AChar MAG_CH_ASSERT :: al) = Some out ->
  Z.of_nat (List.length out) < 256 -> (50 < slen)%nat ->
  0 <= pid < NR_TASKS -> p_proc_ready (tkern st) = pid -> k_reenter (tkern st) = 0 -> flat (tkern st) -> 0 <= pbuf < 4294967296 ->
  assertion_failure exp file base ln st = Halt HPanic.
Proof.
  intros vals m fmt Hf Hd Ha Hr Hl Hs Hpid Hcur Hk Hflat Hb.
  destruct (printl_run st fmt vals _ _ _ Hf Hd Ha Hr Hl) as (st1 & E & B & K); [change (List.length (bytes_of fmt)) with 47%nat; lia|].
  destruct (render_char _ _ _ _ Hr) as [o ->]. unfold assertion_failure. apply bind_halt. fold fmt vals. rewrite E.
  assert (E0 : memory (tkern st1) pbuf = MAG_CH_ASSERT) by (specialize (B 0%nat _ eq_refl); by rewrite Z.add_0_r in B).
  assert (Hr1 : k_reenter (tkern st1) = 0 /\ p_proc_ready (tkern st1) = pid /\ flat (tkern st1)) by (rewrite K; done).
  destruct Hr1 as (K1 & K2 & K3). unfold sys_printx. rewrite (bind_run get _ st1 st1 st1 eq_refl), K1. change (0 <? 0) with false. cbv iota.
  change (0 =? 0) with true. cbv iota.
  assert (Hla : klift (va2la pid pbuf) st1 = Ok pbuf st1).
  { unfold klift. rewrite va2la_run by (try done; clia). unfold la_of. rewrite K3 by clia. rewrite Z.add_0_r, u32_id by done. by destruct st1. }
  rewrite (bind_run _ _ _ _ _ Hla), (bind_run get _ st1 st1 st1 eq_refl), E0, K2.
  rewrite (proj2 (Z.ltb_lt _ _)) by lia. done.
Qed.

(** whoever runs it, it does not return *)
Lemma assertion_failure_stops exp file base ln st : exists h, assertion_failure exp file base ln st = Halt h.
Proof.
  unfold assertion_failure, spin, bind. destruct (say _ _ st) as [[] st1|h]; [|by exists h].
  destruct (say _ _ st1) as [[] st2|h]; [|by exists h]. by exists HSpin.
Qed.

(** the text of the identification: the bytes of every word exchanged, then its end *)
Lemma swap_loop_run n : forall i p m, sbuf + 2 * (i + Z.of_nat n) <= p \/ p + 2 * Z.of_nat n <= sbuf -> 0 <= i ->
  (forall k, 0 <= k < Z.of_nat n -> swap_loop n i p m (sbuf + 2 * (i + k)) = m (p + 2 * k + 1) /\
     swap_loop n i p m (sbuf + 2 * (i + k) + 1) = m (p + 2 * k)) /\
  (forall x, x < sbuf + 2 * i \/ sbuf + 2 * (i + Z.of_nat n) <= x -> swap_loop n i p m x = m x).
Proof.
  induction n as [|n IH]; intros i p m Hd Hi; cbn [swap_loop]; [split; [lia|done]|].
  set (m1 := upd _ (sbuf + i * 2) _). destruct (IH (i + 1) (p + 2) m1) as [H1 H2]; [lia|lia|].
  assert (Hm : forall x, x < sbuf + 2 * i \/ sbuf + 2 * (i + 1) <= x -> m1 x = m x)
    by (intros x Hx; unfold m1; rewrite !upd_ne by lia; done).
  split; [|intros x Hx; rewrite H2 by lia; apply Hm; lia]. intros k Hk. destruct (decide (k = 0)) as [->|Hk0].
  - rewrite !H2 by lia. unfold m1. replace (sbuf + 2 * (i + 0)) with (sbuf + i * 2) by lia. split.
    + rewrite upd_eq, upd_ne by lia. f_equal. lia.
    + rewrite upd_ne by lia. replace (sbuf + i * 2 + 1) with (sbuf + (i * 2 + 1)) by lia. rewrite upd_eq. f_equal. lia.
  - destruct (H1 (k - 1)) as [E1 E2]; [lia|]. replace (i + 1 + (k - 1)) with (i + k) in * by lia. rewrite E1, E2, !Hm by lia.
    split; f_equal; lia.
Qed.
Lemma swap_text_run p n m : 0 <= n -> sbuf + 2 * n + 1 <= p \/ p + 2 * n <= sbuf ->
  (forall k, 0 <= k < n -> swap_text p (2 * n) m (sbuf + 2 * k) = m (p + 2 * k + 1) /\
     swap_text p (2 * n) m (sbuf + 2 * k + 1) = m (p + 2 * k)) /\ swap_text p (2 * n) m (sbuf + 2 * n) = 0.
Proof.
  intros Hn Hd. unfold swap_text. replace (Z.quot (2 * n) 2) with n by (rewrite Z.mul_comm, Z.quot_mul; lia).
  destruct (swap_loop_run (Z.to_nat n) 0 p m) as [H1 _]; [lia|lia|]. split.
  - intros k Hk. rewrite !upd_ne by lia. apply (H1 k). lia.
  - replace (n * 2) with (2 * n) by lia. apply upd_eq.
Qed.
End messages.

(** the size of a drive of 2 GB and more overflows *)
Lemma size_mb_overflow : size_mb 4194304 = -2147.
Proof. reflexivity. Qed.
