(* ===== verification/Init.v ===== *)
(** * INIT (kernel/main.c: Init, untar, dump_file_stat; lib/printf.c)

    The first user process: it opens the terminal, unpacks /cmd.tar and starts two
    shells. It is a native process whose addresses are linear. The system calls are
    the stubs of Lib.v over [call]; [lit] gives the addresses of the string literals,
    the other addresses are those of local variables. Fuel bounds the archive. *)
From Stdlib Require Import String.
From S2P Require Import Prelude Const CLib Protect Proc Sys Fs FsOps FsLem FsRw Lib Mm Exec Shell.

(** ** Octal numbers of a tar header *)

(** the loop over [pth->size], up to the first zero; [char] is signed *)
Fixpoint octal (n : nat) (q len : Z) (m : mem) : option Z :=
  match n with
  | O => None
  | S n' => if m q =? 0 then Some len else octal n' (q + 1) (i32 (len * 8 + i8 (m q) - 48)) m
  end.

Definition octal_value (l : list Z) : Z := foldl (fun v c => v * 8 + (c - 48)) 0 l.

Lemma octal_run l : forall n q len m,
  cstr m q l -> (length l < n)%nat -> Forall (fun c => 48 <= c <= 55) l -> 0 <= len ->
  foldl (fun v c => v * 8 + (c - 48)) len l < 2147483648 ->
  octal n q len m = Some (foldl (fun v c => v * 8 + (c - 48)) len l).
Proof.
  induction l as [|c l IH]; intros [|n] q len m Hc Hn Hf Hl Hv; simpl in *; try lia; [by rewrite Hc|].
  destruct Hc as (-> & Hc & Hs). apply Forall_cons in Hf as [Hd Hf].
  assert (Hm : forall k v, 0 <= v -> Forall (fun c => 48 <= c <= 55) k ->
    v <= foldl (fun v c => v * 8 + (c - 48)) v k).
  { induction k as [|x k IHk]; intros v Hv0 Hk; simpl; [lia|]. apply Forall_cons in Hk as [Hx Hk].
    specialize (IHk (v * 8 + (x - 48)) ltac:(lia) Hk). lia. }
  pose proof (Hm l (len * 8 + (c - 48)) ltac:(lia) Hf).
  rewrite (proj2 (Z.eqb_neq c 0)) by lia. unfold i8. rewrite (Z.mod_small (c + 128)) by lia.
  rewrite i32_id by lia. replace (len * 8 + (c + 128 - 128) - 48) with (len * 8 + (c - 48)) by lia.
  apply IH; (done || lia).
Qed.

(** ** The programs *)

Section init.
Context (call : Z -> MESSAGE -> M sys MESSAGE) (junk : MESSAGE) (pid : Z) (slen : nat).
Context (lit : string -> Z) (pbuf pargs : Z).

(** [printf]: the variable arguments are on the stack at [pargs] *)
Definition printf (fmt : Z) (vals : list Z) : M sys unit :=
  modm (put_words pargs vals) ;;
  m ← getmem;
  match vsprintf slen slen pbuf fmt pargs m with
  | None => stop HSpin
  | Some (len, m') =>
      modm (fun _ => m') ;;
      c ← write call junk 1 pbuf len;
      assert_ (c =? len)
  end.

Definition dump_file_stat (path s : Z) : M sys unit :=
  r ← stat call junk pid slen path s;
  if negb (0 =? r) then ret tt
  else
    m ← getmem;
    printf (lit "dev:0x%x\ninode_nr:%d\ni_mode:0x%x\nsdev:0x%x\nsize:%d\n")
      [ld32 m s; ld32 m (s + 4); ld32 m (s + 8); ld32 m (s + 12); ld32 m (s + 16)].

(** ** [untar] *)

Definition CHUNK : Z := SECTOR_SIZE * 16.
Definition TAR_SIZE : Z := 124.

Context (buf : Z).

(** the loop that copies a file of the archive *)
Fixpoint untar_copy (n : nat) (fd_tar fd byte_left : Z) : M sys unit :=
  if byte_left <=? 0 then ret tt
  else match n with
  | O => stop HSpin
  | S n' =>
      let byte_read := MIN byte_left CHUNK in
      read call junk fd_tar buf ((Z.quot (byte_read - 1) SECTOR_SIZE + 1) * SECTOR_SIZE) ;;
      write call junk fd buf byte_read ;;
      untar_copy n' fd_tar fd (byte_left - byte_read)
  end.

(** the loop over the files: [false] when a file could not be created, where the
    archive stays open *)
Fixpoint untar_loop (n : nat) (fd_tar : Z) : M sys bool :=
  match n with
  | O => stop HSpin
  | S n' =>
      read call junk fd_tar buf SECTOR_SIZE ;;
      m ← getmem;
      if m buf =? 0 then ret true
      else
        fd ← open call junk pid slen buf (Z.lor (Z.lor O_CREAT O_RDWR) O_TRUNC);
        if fd <? 0 then
          printf (lit "   fail to extract file:%s\n") [buf] ;;
          printf (lit " aborted]\n") [] ;;
          ret false
        else
          m ← getmem;
          match octal slen (buf + TAR_SIZE) 0 m with
          | None => stop HSpin
          | Some len =>
              printf (lit "   extract file:%s (%d byte)\n") [buf; len] ;;
              untar_copy (S (Z.to_nat len)) fd_tar fd len ;;
              close call junk fd ;;
              untar_loop n' fd_tar
          end
  end.

Definition untar (n : nat) (path : Z) : M sys unit :=
  printf (lit "[extrat file:%s\n") [path] ;;
  fd_tar ← open call junk pid slen path O_RDWR;
  assert_ (0 <=? fd_tar) ;;
  ok ← untar_loop n fd_tar;
  when ok (close call junk fd_tar ;; printf (lit " done]\n") []).

(** ** [Init] *)

(** the loop that forks the shells: [Some tty] in the child that becomes the shell
    of [tty], [None] in INIT *)
Fixpoint spawn (ttys : list Z) : M sys (option Z) :=
  match ttys with
  | [] => ret None
  | t :: ttys' =>
      child ← fork call junk;
      if negb (child =? 0) then printf (lit "create child proc:%d\n") [child] ;; spawn ttys'
      else close call junk 0 ;; close call junk 1 ;; ret (Some t)
  end.

(** [Init] up to its last loop *)
Definition Init (n : nat) : M sys (option Z) :=
  fd_stdin ← open call junk pid slen (lit "/dev_tty0") O_RDWR;
  assert_ (fd_stdin =? 0) ;;
  fd_stdout ← open call junk pid slen (lit "/dev_tty0") O_RDWR;
  assert_ (fd_stdout =? 1) ;;
  printf (lit "Init() is running ...\n") [] ;;
  untar n (lit "/cmd.tar") ;;
  spawn [lit "/dev_tty1"; lit "/dev_tty2"].

(** one turn of the last loop: INIT waits for the children it has inherited *)
Definition init_reap : M sys unit :=
  r ← wait call junk;
  printf (lit "child:%d exit with status:%d\n") [snd r; fst r].

(** the start of [shabby_shell] *)
Definition shell_start (tty_name : Z) : M sys unit :=
  fd_stdin ← open call junk pid slen tty_name O_RDWR;
  assert_ (fd_stdin =? 0) ;;
  fd_stdout ← open call junk pid slen tty_name O_RDWR;
  assert_ (fd_stdout =? 1).
End init.
