(* ===== verification/Witness.v ===== *)
(** * Concrete instances of the theorems

    A machine as [kernel_main] leaves it ([k0]) and a mounted disk ([f0]), and for
    every theorem with hypotheses an instance of it at a concrete input. *)
From Stdlib Require Import String.
From S2P Require Import Prelude Const CLib Protect Proc Sys Fs FsOps FsInit FsLem FsRw.
From S2P Require Import Sched Ipc IpcInv IpcStep IpcRun IpcFrame IpcThm IpcSpec Boot.

(** ** A machine *)

Definition gd0 : arr DESCRIPTOR := fun _ => init_descriptor 0 0xfffff 0xc093.
Definition t0 : arr PROCESS := booted gd0 (fun _ => 0x30400) 0x20000 0 0 (fun _ => zero_proc).
Definition k0 : kstate := mkK t0 0 0 0 0 (fun _ => 0).
Definition none : Z -> list Z := fun _ => [].

Lemma t0_inv : ipc_inv t0 none.
Proof. by apply (booted_inv gd0 (fun _ => 0x30400) 0x20000 0 0 (fun _ => zero_proc)). Qed.
Lemma k0_flat : flat k0.
Proof. by apply (booted_flat gd0 (fun _ => 0x30400) 0x20000 0 0 (fun _ => zero_proc)). Qed.
Lemma k0_inv : kinv k0 none.
Proof. split; [apply t0_inv|apply k0_flat|done|done]. Qed.
Lemma k0_run i : 0 <= i < 7 -> can_run t0 i.
Proof.
  intros Hi. destruct (booted_entry gd0 (fun _ => 0x30400) 0x20000 0 0 (fun _ => zero_proc) i)
    as (Hf & _ & _ & _ & _ & _ & _ & Hp); [clia|].
  split; [clia|]. split; [|done]. unfold runnable, t0. by rewrite Hf.
Qed.
Lemma k0_calling p : 0 <= p < 6 -> calling k0 none p 6.
Proof.
  intros Hp. split; [apply t0_inv|apply k0_flat|done|clia| |].
  - apply (booted_entry gd0 (fun _ => 0x30400) 0x20000 0 0 (fun _ => zero_proc) p). clia.
  - split; [lia|]. by apply k0_run.
Qed.
Lemma t0_chain i l : 0 <= i < NR_ALL -> chain t0 i l -> l = [].
Proof.
  intros Hi Hc. destruct (inv_chain _ _ t0_inv i Hi) as [l' Hl'].
  destruct (decide (i < 7)) as [H7|H7].
  - apply (chain_det t0 i); [done|]. apply chain_stop.
    destruct (booted_entry gd0 (fun _ => 0x30400) 0x20000 0 0 (fun _ => zero_proc) i) as (Hf & _); [clia|].
    unfold t0. by rewrite Hf.
  - apply (chain_det t0 i); [done|]. apply chain_stop. unfold t0, booted.
    by rewrite (proj2 (Z.leb_le _ _)) by clia.
Qed.
Lemma t0_no_cycle s d : 0 <= d < NR_ALL -> no_cycle t0 s d.
Proof. intros Hd l x Hc Hx. rewrite (t0_chain d l Hd Hc) in Hx. set_solver. Qed.

(** ** Scheduling *)

Lemma schedule_picks_best_witness :
  (exists j, can_run t0 j) /\ exists st', schedule k0 = Ok tt st' /\ best (proc_table st') (p_proc_ready st').
Proof.
  assert (H : exists j, can_run (proc_table k0) j) by (exists 6; by apply k0_run).
  split; [exact H|]. destruct (schedule_picks_best k0 H) as (st' & E & _ & Hb & _).
  exists st'. split; [exact E|exact Hb].
Defined.

Definition blocked : kstate := mkK (fun _ => set_p_flags RECEIVING zero_proc) 0 0 0 0 (fun _ => 0).
Lemma schedule_spins_witness :
  exhausted (proc_table blocked) /\ schedule_loop 9 blocked = Halt HSpin.
Proof.
  assert (H1 : exhausted (proc_table blocked)) by (intros j _ Hr; discriminate Hr).
  assert (H2 : forall j, ~ can_run (proc_table blocked) j) by (intros j (_ & Hr & _); discriminate Hr).
  split; [exact H1|exact (schedule_spins blocked H1 H2 9)].
Defined.

(** ** IPC *)


Lemma send_spec_witness :
  exists st' q', sys_sendrec SEND TASK_MM 0x1000 INIT k0 = Ok 0 st' /\ ipc_inv (proc_table st') q' /\
    sent none q' INIT TASK_MM 0x1000 (stamp INIT 0x1000 k0) st'.
Proof.
  apply (send_spec none INIT TASK_MM 0x1000 6 k0);
    [apply k0_calling; clia|clia|done|done|apply t0_no_cycle; clia|].
  intros Ha. discriminate Ha.
Defined.

Lemma receive_spec_witness :
  exists st' q', sys_sendrec RECEIVE ANY 0x1000 TASK_FS k0 = Ok 0 st' /\ ipc_inv (proc_table st') q' /\
    received none q' TASK_FS ANY 0x1000 (stamp TASK_FS 0x1000 k0) st'.
Proof.
  apply (receive_spec none TASK_FS ANY 0x1000 6 k0);
    [apply k0_calling; clia|by left|done|done|by right; left].
Defined.

Lemma deadlock_spec_witness : deadlock INIT TASK_MM k0 = Ok 0 k0.
Proof.
  apply (deadlock_spec none INIT TASK_MM k0); [apply t0_inv|clia|clia|done|]. apply t0_no_cycle. clia.
Defined.

(** TASK_MM waits for anyone *)
Definition after {A S} (c : res S A) (s : S) : S := match c with Ok _ s' => s' | Halt _ => s end.
Definition k1 : kstate := after (sys_sendrec RECEIVE ANY 0x1000 TASK_MM k0) k0.
(** INIT has sent to TASK_FS, which does not wait *)
Definition k2 : kstate := after (sys_sendrec SEND TASK_FS 0x1000 INIT k0) k0.

Lemma k1_run : sys_sendrec RECEIVE ANY 0x1000 TASK_MM k0 = Ok 0 k1.
Proof.
  destruct (msg_receive_runs none TASK_MM ANY 0x1000 6 (stamp TASK_MM 0x1000 k0)) as [st' E];
    [apply t0_inv|apply k0_flat|clia|done|by left|done|done|by right; left|done|by apply k0_run|].
  assert (Es : sys_sendrec RECEIVE ANY 0x1000 TASK_MM k0 = Ok 0 st').
  { rewrite sys_sendrec_enter; [|apply k0_flat|clia|done|by left].
    change (RECEIVE =? SEND) with false. change (RECEIVE =? RECEIVE) with true. cbv iota.
    by rewrite (bind_run _ _ _ _ _ E). }
  unfold k1. by rewrite Es.
Qed.

Lemma k1_inv : ipc_inv (proc_table k1) none.
Proof.
  pose proof k1_run as E. apply sys_sendrec_Ok in E as (_ & _ & _ & [(Hf & _)|(_ & r & E)]); [done|].
  apply (msg_receive_Ok none) in E as (_ & _ & _ & q' & Hi & Hr);
    [|apply t0_inv|apply k0_flat|clia|done|by left|done].
  unfold received in Hr. change (negb (has_int_msg _ =? 0)) with false in Hr. cbn [andb] in Hr.
  destruct Hr as [(l1 & f & l2 & Hq & _)|(_ & _ & Eq & _)]; [by destruct l1|]. by rewrite Eq in Hi.
Qed.
Lemma k1_flat : flat k1.
Proof. exact (keeps_flat _ _ _ _ (keeps_sys_sendrec _ _ _ _) k1_run k0_flat). Qed.

Lemma k2_run : sys_sendrec SEND TASK_FS 0x1000 INIT k0 = Ok 0 k2.
Proof.
  destruct (msg_send_runs none INIT TASK_FS 0x1000 6 (stamp INIT 0x1000 k0)) as [st' E];
    [apply t0_inv|apply k0_flat|clia|clia|done|done|done|apply t0_no_cycle; clia|done|done|by apply k0_run|].
  assert (Es : sys_sendrec SEND TASK_FS 0x1000 INIT k0 = Ok 0 st').
  { rewrite sys_sendrec_enter; [|apply k0_flat|clia|done|right; right; clia].
    change (SEND =? SEND) with true. cbv iota. by rewrite (bind_run _ _ _ _ _ E). }
  unfold k2. by rewrite Es.
Qed.

Lemma k2_inv : ipc_inv (proc_table k2) (upd none TASK_FS [INIT]).
Proof.
  pose proof k2_run as E. apply sys_sendrec_Ok in E as (_ & _ & _ & [(_ & r & E)|(Hf & _)]); [|done].
  apply (msg_send_Ok none) in E as (_ & _ & _ & _ & q' & Hi & Hs);
    [|apply t0_inv|clia|done].
  unfold sent in Hs. change (accepts _ INIT) with false in Hs. cbv iota in Hs.
  destruct Hs as (Eq & _). by rewrite Eq in Hi.
Qed.
Lemma k2_flat : flat k2.
Proof. exact (keeps_flat _ _ _ _ (keeps_sys_sendrec _ _ _ _) k2_run k0_flat). Qed.

(** a property of a concrete entry, by evaluation *)
Ltac entry := vm_compute; first [reflexivity | done].

Lemma k1_idle : can_run (proc_table k1) 6.
Proof. split; [clia|]. split; entry. Qed.
Lemma k2_idle : can_run (proc_table k2) 6.
Proof. split; [clia|]. split; entry. Qed.

Lemma chain_stops t i l : p_flags (t i) <> SENDING -> chain t i l -> l = [].
Proof. intros Hf Hc. apply (chain_det t i); [done|]. by apply chain_stop. Qed.

Lemma send_delivers_witness :
  exists st', sys_sendrec SEND TASK_MM 0x2000 INIT k1 = Ok 0 st' /\
    msg_at (memory st') (la_of k1 TASK_MM 0x1000) = set_source INIT (msg_at (memory k1) (la_of k1 INIT 0x2000)) /\
    p_flags (proc_table st' TASK_MM) = 0 /\ p_flags (proc_table st' INIT) = 0.
Proof.
  apply (send_delivers none INIT TASK_MM 0x2000 6 k1); [|clia|done|done| |entry|left; entry|].
  - split; [apply k1_inv|apply k1_flat|entry|clia|entry|]. split; [done|apply k1_idle].
  - intros l x Hc Hx. rewrite (chain_stops (proc_table k1) TASK_MM l ltac:(vm_compute; discriminate) Hc) in Hx. set_solver.
  - left. entry.
Defined.

Lemma receive_serves_first_witness :
  exists st', sys_sendrec RECEIVE ANY 0x2000 TASK_FS k2 = Ok 0 st' /\
    ipc_inv (proc_table st') (upd (upd none TASK_FS [INIT]) TASK_FS []) /\
    msg_at (memory st') (la_of k2 TASK_FS 0x2000) = msg_at (memory k2) (la_of k2 INIT 0x1000) /\
    p_flags (proc_table st' TASK_FS) = 0 /\ p_flags (proc_table st' INIT) = 0.
Proof.
  apply (receive_serves_first (upd none TASK_FS [INIT]) TASK_FS 0x2000 6 k2 INIT []);
    [|done|entry|done|].
  - split; [apply k2_inv|apply k2_flat|entry|clia|entry|]. split; [done|apply k2_idle].
  - right. entry.
Defined.

Lemma inform_int_spec_witness :
  exists st', inform_int TASK_MM k1 = Ok tt st' /\ p_flags (proc_table st' TASK_MM) = 0.
Proof.
  destruct (inform_int_spec none TASK_MM k1) as (st' & E & _ & _ & Hc).
  - apply k1_inv.
  - clia.
  - right; right. entry.
  - exists st'. split; [exact E|].
    assert (Hb : has (p_flags (proc_table k1 TASK_MM)) RECEIVING &&
      ((p_recvfrom (proc_table k1 TASK_MM) =? INTERRUPT) || (p_recvfrom (proc_table k1 TASK_MM) =? ANY)) = true)
      by entry.
    rewrite Hb in Hc. exact (proj1 Hc).
Defined.

(** a task with a pending interrupt *)
Definition k3 : kstate := after (inform_int TASK_HD k0) k0.
Lemma k3_run : inform_int TASK_HD k0 = Ok tt k3.
Proof.
  destruct (inform_int_runs none TASK_HD k0) as [st' E]; [apply t0_inv|clia|by left|].
  unfold k3. by rewrite E.
Qed.
Lemma k3_inv : ipc_inv (proc_table k3) none.
Proof.
  pose proof k3_run as E. apply (inform_int_Ok none) in E as (_ & Hi & _); [exact Hi|apply t0_inv].
Qed.
Lemma receive_with_pending_int_stops_witness :
  sys_sendrec RECEIVE TASK_FS 0x1000 TASK_HD k3 = Halt HAssert.
Proof.
  apply (receive_with_pending_int_stops none TASK_HD TASK_FS 0x1000 6 k3);
    [|clia|done|done|set_solver|vm_compute; discriminate].
  split; [apply k3_inv| |entry|clia|entry|].
  - exact (keeps_flat _ _ _ _ (keeps_inform_int _) k3_run k0_flat).
  - split; [done|]. split; [clia|]. split; entry.
Defined.

(** ** Descriptors and starting up *)

Lemma descriptor_roundtrip_witness :
  let d := init_descriptor 0xA00000 0xff 0xc0fa in
  u32 (seg_linear d) = 0xA00000 /\ seg2addr d = 0xA00000 /\ desc_base d = i32 0xA00000 /\
  desc_limit d = 0xff /\ has (limit_high_attr2 d) 0x80 = true.
Proof. apply (descriptor_roundtrip 0xA00000 0xff 0xc0fa); lia. Defined.

Definition entry_addr (e : entry) : Z := match e with hwint i => if (0 <=? i) && (i <? 16) then 0x31000 + i * 64 else 0x30500 | _ => 0x30500 end.
Definition prot0 : prot := mkProt gd0 (fun _ => mkGate 0 0 0 0 0) (mkTss 0 0) (fun _ => zero_proc).

Lemma init_prot_spec_witness :
  let s' := init_prot entry_addr 0x40000 0x60000 prot0 in
  seg2addr (gdt s' (Z.shiftr (ldt_sel (procs s' INIT)) 3)) = 0x40000 + INIT * SIZEOF_PROCESS + OFFSET_LDTS /\
  gate_offset (idt s' INT_VECTOR_SYS_CALL) = 0x30500.
Proof.
  destruct (init_prot_spec entry_addr 0x40000 0x60000 prot0) as [H1 H2].
  - intros h. destruct h; cbn; try lia.
    destruct ((0 <=? irq) && (irq <? 16)) eqn:E; [|lia]. zbool. lia.
  - reflexivity.
  - lia.
  - reflexivity.
  - split; [apply (H1 INIT); clia|]. apply (H2 INT_VECTOR_SYS_CALL sys_call PRIVILEGE_USER).
    unfold idt_entries. repeat (first [left | right]).
Defined.

(** memory with the boot parameters and a kernel file of one segment *)
Definition boot_mem : mem :=
  put_words BOOT_PARAM_ADDR [BOOT_PARAM_MAGIC; 0x2000000; 0x1000]
    (put_words (0x1000 + 52) [PT_LOAD; 0; 0x30400; 0; 0x10000; 0x10000]
    (put_words (0x1000 + 40) [Z.lor 52 (Z.shiftl 32 16); 1; 1] (st32 (0x1000 + 28) 52
    (st32 0x1000 0x464c457f (fun _ => 0))))).

Lemma st32_bytes a v m : (forall x, 0 <= m x < 256) -> forall x, 0 <= st32 a v m x < 256.
Proof.
  intros Hm x. unfold st32. rewrite !upd_case. repeat case_decide; try apply u8_range. apply Hm.
Qed.
Lemma put_words_bytes a l m : (forall x, 0 <= m x < 256) -> forall x, 0 <= put_words a l m x < 256.
Proof. revert a m. induction l as [|w l IH]; intros a m Hm; [done|]. by apply IH, st32_bytes. Qed.
Lemma boot_mem_bytes x : 0 <= boot_mem x < 256.
Proof. apply put_words_bytes, put_words_bytes, put_words_bytes, st32_bytes, st32_bytes. intros. lia. Qed.

Definition kboot : kstate :=
  mkK (procs (init_prot entry_addr 0x40000 0x60000 prot0)) 0 0 0 0 boot_mem.
Lemma kb_map : get_kernel_map kboot = Ok (Some (0x30400, 0xffff)) kboot.
Proof.
  assert (E : get_boot_param kboot = Ok (0x2000000, 0x1000) kboot) by (vm_compute; reflexivity).
  unfold get_kernel_map. rewrite (bind_run _ _ _ _ _ E), (bind_run get _ kboot kboot kboot eq_refl).
  change (memory kboot) with boot_mem.
  assert (E1 : negb (is_elf boot_mem 0x1000) = false) by (vm_compute; reflexivity). rewrite E1.
  assert (E2 : kernel_map_loop (Z.to_nat (e_shnum boot_mem 0x1000)) 0 boot_mem 0x1000 0xffffffff 0
    = (0x30400, 0x40400)) by (vm_compute; reflexivity). rewrite E2. reflexivity.
Qed.

Lemma kernel_map_covers_witness :
  let ph := phdr boot_mem 0x1000 0 in
  0x30400 <= p_vaddr boot_mem ph /\ p_vaddr boot_mem ph + p_memsz boot_mem ph <= 0x30400 + 0xffff + 1.
Proof.
  apply (kernel_map_covers kboot 0x30400 0xffff kboot 0).
  - apply boot_mem_bytes.
  - apply kb_map.
  - vm_compute. split; [discriminate|reflexivity].
  - vm_compute. reflexivity.
  - vm_compute. reflexivity.
Defined.

Lemma boot_safe_witness :
  exists st', kernel_main (gdt (init_prot entry_addr 0x40000 0x60000 prot0)) (fun _ => 0x30400) 0x20000 kboot = Ok tt st' /\
    kinv st' (fun _ => []) /\ k_reenter st' = 0.
Proof.
  destruct (boot_safe entry_addr 0x40000 0x60000 prot0 (fun _ => 0x30400) 0x20000 kboot 0x30400 0xffff)
    as (st' & E & Hk & Hr & _).
  - intros j _. reflexivity.
  - reflexivity.
  - apply kb_map.
  - exists st'. split; [exact E|]. split; [exact Hk|exact Hr].
Defined.

(** ** The C library *)

Definition str_mem : mem := put_bytes 100 (bytes_of "abc" ++ [0]) (put_bytes 200 (bytes_of "abd" ++ [0]) (fun _ => 0)).
Lemma cstr_bytes m a l : (forall i, 0 <= i < Z.of_nat (length l) -> l !! Z.to_nat i = Some (m (a + i))) ->
  Forall (fun c => 1 <= c < 256) l -> m (a + Z.of_nat (length l)) = 0 -> cstr m a l.
Proof.
  revert a. induction l as [|c l IH]; intros a H Hr H0; simpl in *; [by rewrite Z.add_0_r in H0|].
  apply Forall_cons in Hr as [Hc Hr]. split.
  - specialize (H 0 ltac:(lia)). simpl in H. rewrite Z.add_0_r in H. congruence.
  - split; [done|]. apply IH; [|done|].
    + intros i Hi. specialize (H (i + 1) ltac:(lia)).
      replace (Z.to_nat (i + 1)) with (S (Z.to_nat i)) in H by lia. simpl in H. rewrite H. do 2 f_equal. lia.
    + rewrite <- H0. f_equal. lia.
Qed.
Lemma strcmp_correct_witness :
  exists r, strcmp 10 str_mem 100 200 = Some r /\ (r = 0 <-> bytes_of "abc" = bytes_of "abd").
Proof. apply strcmp_correct; vm_compute; intuition (discriminate || lia || auto). Defined.
