(* ===== verification/FsWitness.v ===== *)
(** * Concrete instances of the theorems on files and text

    [f0] is the root file system on a blank disk after [init_fs]; [f1] is [f0] after
    process INIT has created the file "/foo". *)
From Stdlib Require Import String.
From S2P Require Import Prelude Const CLib Protect Proc Sys Fs FsOps FsInit FsLem FsRw.
From S2P Require Import Sched Ipc IpcInv IpcStep IpcRun IpcFrame IpcThm IpcSpec Boot.
From S2P Require Import Witness.

(** ** The invariant of the file system, decided on a state *)

Definition live_b (st : sys) (x : Z) : bool := negb (i_cnt (inode_table st x) =? 0).
Definition mounted_b (st : sys) : bool :=
  let s := super_blocks st 0 in
  (sb_dev s =? ROOT_DEV) && (nr_imap_sects s =? 1) && (1 <=? nr_smap_sects s) &&
  (nr_smap_sects s <=? 1024) && (n_1st_sect s =? 3 + nr_smap_sects s + 256) &&
  (0 <=? root_inode st) && (root_inode st <? NR_INODE).
Definition entry_b (st : sys) (x : Z) : bool :=
  let i := inode_table st x in
  if live_b st x then
    (0 <? i_cnt i) && (i_dev i =? ROOT_DEV) && (1 <=? i_num i) && (i_num i <=? 4096) &&
    bool_decide (disk_words i = disk_inode (rdisk st) (super_blocks st 0) (i_num i)) &&
    forallb (fun y => negb (live_b st y) || negb (i_num (inode_table st y) =? i_num i) || (x =? y))
      (seqZ 0 NR_INODE)
  else true.
Definition fs_inv_b (st : sys) : bool :=
  mounted_b st && forallb (entry_b st) (seqZ 0 NR_INODE) &&
  live_b st (root_inode st) && (i_num (inode_table st (root_inode st)) =? ROOT_INODE).

Lemma forallb_seqZ f n x : forallb f (seqZ 0 n) = true -> 0 <= x < n -> f x = true.
Proof.
  intros H Hx. rewrite forallb_forall in H. apply H, list_elem_of_In, elem_of_seqZ. lia.
Qed.
Lemma live_b_iff st x : live_b st x = true <-> live (inode_table st) x.
Proof. unfold live_b, live. rewrite negb_true_iff, Z.eqb_neq. done. Qed.

Lemma mounted_b_sound st : mounted_b st = true -> mounted st.
Proof. unfold mounted_b. intros H. zbool. split; lia. Qed.

Lemma fs_inv_b_sound st : fs_inv_b st = true -> fs_inv st.
Proof.
  unfold fs_inv_b. rewrite !andb_true_iff, live_b_iff, Z.eqb_eq. intros [[[Hm He] Hl] Hr].
  assert (Hx : forall x, 0 <= x < NR_INODE -> live (inode_table st) x ->
    (0 < i_cnt (inode_table st x) /\ i_dev (inode_table st x) = ROOT_DEV /\ nr_ok (i_num (inode_table st x))) /\
    disk_words (inode_table st x) = disk_inode (rdisk st) (super_blocks st 0) (i_num (inode_table st x)) /\
    forall y, 0 <= y < NR_INODE -> live (inode_table st) y ->
      i_num (inode_table st y) = i_num (inode_table st x) -> x = y).
  { intros x Hx Hlx. pose proof (forallb_seqZ _ _ x He Hx) as H. unfold entry_b in H.
    rewrite (proj2 (live_b_iff st x) Hlx), !andb_true_iff, bool_decide_eq_true in H.
    destruct H as [[[[[H1 H2] H3] H4] H5] H6]. apply Z.ltb_lt in H1. apply Z.eqb_eq in H2.
    apply Z.leb_le in H3, H4. split; [done|]. split; [done|].
    intros y Hy Hly E. pose proof (forallb_seqZ _ _ y H6 Hy) as H. simpl in H.
    rewrite (proj2 (live_b_iff st y) Hly), E, Z.eqb_refl in H. simpl in H. by apply Z.eqb_eq in H. }
  split.
  - by apply mounted_b_sound.
  - intros x H1 H2. by destruct (Hx x H1 H2).
  - intros x y H1 H2 H3 H4 E. destruct (Hx x H1 H3) as (_ & _ & H). by apply H.
  - intros x H1 H2. by destruct (Hx x H1 H2) as (_ & ? & _).
  - done.
Qed.

(** ** A disk of 40000 sectors *)

Definition fk : kstate := set_memory (put_bytes 0x100000 (bytes_of "/foo" ++ [0]) (fun _ => 0)) k0.
Definition blank : sys :=
  mkSys fk (fun _ => zero_fd) (fun _ => zero_inode) (fun _ => zero_sb) zero_sb 0
    (fun _ => mkDev (fun _ => 0) 40000).
Definition f0 : sys := after (init_fs blank) blank.

Definition no_driver : Z -> MESSAGE -> M sys MESSAGE := fun _ _ => stop HBlock.
Definition open_msg : MESSAGE := mkMsg INIT OPEN (Z.lor O_CREAT O_RDWR) 4 0 0 0 0 0x100000 0.
Definition f1 : sys := after (do_open no_driver INIT open_msg f0) f0.

Lemma f0_inv : fs_inv f0.
Proof. apply fs_inv_b_sound. vm_compute. reflexivity. Qed.
Lemma f1_inv : fs_inv f1.
Proof. apply fs_inv_b_sound. vm_compute. reflexivity. Qed.

Lemma f1_regular : regular (inode_table f1 1).
Proof. split; vm_compute; first [reflexivity|split; discriminate|discriminate]. Qed.
Lemma f1_open : open_file f1 INIT 0 0 1.
Proof. split; first [clia | vm_compute; first [reflexivity|split; [discriminate|reflexivity]|discriminate]]. Qed.
Lemma f1_flat : flat (kern f1).
Proof.
  intros i Hi. apply Z.eqb_eq. revert i Hi.
  assert (H : forallb (fun i => seg_linear (ldts (proc_table (kern f1) i) INDEX_LDT_RW) =? 0)
    (seqZ 0 (NR_TASKS + NR_NATIVE_PROCS)) = true) by (vm_compute; reflexivity).
  intros i. apply (forallb_seqZ _ _ i H).
Qed.

Definition write_msg : MESSAGE := mkMsg INIT WRITE 0 600 0 0 0 0 0 0x100000.
Definition seek_msg : MESSAGE := mkMsg INIT LSEEK 0 0 SEEK_SET 0 0 0 0 0.
Definition read_msg : MESSAGE := mkMsg INIT READ 0 600 0 0 0 0 0 0x200000.

(** comparisons of numbers, by evaluation *)
Ltac num := vm_compute; first [reflexivity | discriminate | split; first [reflexivity | discriminate]].

Lemma f1_write : rw_request f1 INIT 0 0 1 write_msg 600 0x100000.
Proof. split; [apply f1_open|apply f1_regular|apply f1_flat|num..|left; num]. Qed.
Lemma f1_read : rw_request f1 INIT 0 0 1 read_msg 600 0x200000.
Proof. split; [apply f1_open|apply f1_regular|apply f1_flat|num..|left; num]. Qed.

(** ** The instances *)

Lemma get_inode_spec_witness :
  exists x st', get_inode ROOT_DEV 5 f1 = Ok x st' /\ got_inode f1 st' 5 x /\ fs_inv st'.
Proof.
  apply (get_inode_spec f1 5); [apply f1_inv|split; num|]. right. exists 2. split; [num|].
  vm_compute. intros H. by apply H.
Defined.

Lemma sync_inode_spec_witness :
  exists st', (modi 1 (set_i_size 7) ;; sync_inode 1) f1 = Ok tt st' /\
    disk_inode (rdisk st') (super_blocks f1 0) 6 = (I_REGULAR, 7, 2317, 2048).
Proof.
  destruct (sync_inode_spec f1 1 (set_i_size 7)) as (st' & E & _ & _ & _ & Hd & _);
    [apply f1_inv|num|num|num|num|num|repeat split; num|].
  exists st'. split; [exact E|exact Hd].
Defined.

Lemma read_spec_witness :
  exists st', do_rdwt no_driver INIT read_msg f1 = Ok (0, read_msg) st' /\
    inode_table st' = inode_table f1.
Proof.
  destruct (read_spec no_driver f1 INIT 0 0 1 read_msg 600 0x200000) as (st' & E & _ & _ & _ & Hi & _);
    [apply f1_read|reflexivity|num|num|].
  exists st'. split; [exact E|exact Hi].
Defined.


Lemma lseek_spec_witness :
  exists r st', do_lseek INIT seek_msg f1 = Ok r st' /\ r = 0.
Proof.
  destruct (lseek_spec f1 INIT 0 0 1 seek_msg) as (r & st' & E & _ & H & _);
    [apply f1_open|apply f1_regular|reflexivity|left; reflexivity|num|].
  exists r, st'. split; [exact E|].
  assert (Ht : seek_target SEEK_SET 0 (fd_pos (fd_table f1 0)) (i_size (inode_table f1 1)) = 0) by reflexivity.
  assert (Hn : i_nr_sects (inode_table f1 1) = 2048) by num.
  change (0 <= seek_target SEEK_SET 0 (fd_pos (fd_table f1 0)) (i_size (inode_table f1 1))
            < i_nr_sects (inode_table f1 1) * SECTOR_SIZE ->
          r = seek_target SEEK_SET 0 (fd_pos (fd_table f1 0)) (i_size (inode_table f1 1))) in H.
  rewrite Ht, Hn in H. apply H. clia.
Defined.

Lemma write_read_roundtrip_witness :
  exists st', (do_rdwt no_driver INIT write_msg ;; do_lseek INIT seek_msg ;; do_rdwt no_driver INIT read_msg) f1
      = Ok (600, read_msg) st' /\
    forall i, 0 <= i < 600 -> fmem st' (0x200000 + i) = fmem f1 (0x100000 + i).
Proof.
  apply (write_read_roundtrip no_driver f1 INIT 0 0 1 write_msg seek_msg read_msg 600 0x100000 0x200000);
    [apply f1_write|reflexivity|apply f1_inv|num|num|num|num|num|reflexivity..|num|num|left; num].
Defined.

(** "n=%d %s" with 42 and "ok" *)
Definition fmt_mem : mem :=
  put_bytes 0x1000 (bytes_of "n=%d %s" ++ [0]) (put_bytes 0x2000 (bytes_of "ok" ++ [0])
    (put_words 0x3000 [42; 0x2000] (fun _ => 0))).

Lemma number_text_roundtrip_witness : parse_num 10 (decimal 1234) = 1234.
Proof. apply (number_text_roundtrip 1234). lia. Defined.
