(* ===== verification/MmWitness.v ===== *)
(** * Instances for the memory manager and the system task

    INIT, with a file open, asks MM; process 7 is its child in some of the states.
    The reference counts of the states are checked by evaluation ([fd_ok_b]). *)
From Stdlib Require Import String.
From S2P Require Import Prelude Const CLib Protect Proc Sys Fs FsOps FsInit FsLem FsRw FsRef.
From S2P Require Import Sched Ipc IpcInv IpcStep IpcRun IpcFrame IpcThm IpcSpec Boot Task Lib Mm MmThm MmExit MmWait.
From S2P Require Import Witness FsWitness.

#[local] Strategy 1000 [f1 f0 t0 memcpy put_msg st32].

(** ** Reference counts by evaluation *)

Definition fd_ok_b (st : sys) : bool :=
  forallb (fun p => forallb (fun i =>
    match filp (proc_table (kern st) p) i with Some f => (0 <=? f) && (f <? NR_FILE_DESC) | None => true end)
    (seqZ 0 NR_FILES)) (seqZ 0 NR_ALL) &&
  forallb (fun f => let r := refs (filps (proc_table (kern st))) f in
    match fd_inode (fd_table st f) with
    | Some p => (0 <=? p) && (p <? NR_INODE) && (fd_cnt (fd_table st f) =? r) && (0 <? r)
    | None => r =? 0
    end) (seqZ 0 NR_FILE_DESC) &&
  forallb (fun p => i_cnt (inode_table st p) =? uses (fd_table st) p + (if p =? root_inode st then 1 else 0))
    (seqZ 0 NR_INODE).

Lemma fd_ok_b_sound st : fd_ok_b st = true -> fd_ok st.
Proof.
  unfold fd_ok_b. intros [[H1 H2]%andb_true_iff H3]%andb_true_iff. split.
  - intros p i f Hp Hi E. pose proof (forallb_seqZ _ _ p H1 Hp) as H. cbv beta in H.
    apply (forallb_seqZ _ _ i) in H; [|done]. cbv beta in H. unfold filps in E. rewrite E in H.
    apply andb_true_iff in H as [Ha Hb]. zbool. lia.
  - intros f Hf. pose proof (forallb_seqZ _ _ f H2 Hf) as H. cbv beta zeta in H.
    destruct (fd_inode (fd_table st f)); [|by apply Z.eqb_eq].
    apply andb_true_iff in H as [[[Ha Hb]%andb_true_iff Hc]%andb_true_iff Hd]. zbool. lia.
  - intros p Hp. pose proof (forallb_seqZ _ _ p H3 Hp) as H. cbv beta in H. apply Z.eqb_eq in H. rewrite H.
    destruct (p =? root_inode st) eqn:E; zbool; case_decide; done || lia.
Qed.

(** ** The states *)

Definition ask (va : Z) (p : PROCESS) : PROCESS :=
  set_p_flags RECEIVING (set_p_recvfrom TASK_MM (set_p_msg va (set_p_sendto NO_TASK p))).
Definition kid (p : PROCESS) : PROCESS := ask 0x2000 (set_p_parent INIT p).
Definition with_table (t : arr PROCESS) : sys := set_kern (mkK t 5 0 0 0 (fun _ => 0)) f1.
Definition ft : arr PROCESS := proc_table (kern f1).
Definition t_fork : arr PROCESS := upd ft INIT (ask 0x800 (ft INIT)).
Definition t_pair : arr PROCESS := upd t_fork 7 (kid (ft 7)).
Definition t_gone : arr PROCESS := upd t_fork 7 (set_p_flags FREE_SLOT (kid (ft 7))).
Definition wf : sys := with_table t_fork.
Definition wp : sys := with_table t_pair.
Definition wg : sys := with_table t_gone.
Definition mmb : Z := 0x8000.

Lemma wf_fd : fd_ok wf.
Proof. apply fd_ok_b_sound. vm_compute. reflexivity. Qed.
Lemma wp_fd : fd_ok wp.
Proof. apply fd_ok_b_sound. vm_compute. reflexivity. Qed.

Lemma flat_b st : forallb (fun i => seg_linear (ldts (proc_table st i) INDEX_LDT_RW) =? 0)
    (seqZ 0 (NR_TASKS + NR_NATIVE_PROCS)) = true -> flat st.
Proof. intros H i Hi. apply Z.eqb_eq. exact (forallb_seqZ _ _ i H Hi). Qed.

Lemma mm_runs_b t : forallb (fun i => seg_linear (ldts (t i) INDEX_LDT_RW) =? 0)
    (seqZ 0 (NR_TASKS + NR_NATIVE_PROCS)) = true -> t TASK_MM = ft TASK_MM -> mm_runs mmb (kern (with_table t)).
Proof.
  intros Hf Hm. split; [reflexivity|apply (flat_b (kern (with_table t))), Hf| | |].
  - change (proc_table (kern (with_table t)) TASK_MM) with (t TASK_MM). rewrite Hm.
    apply ok_ready; vm_compute; reflexivity.
  - change (proc_table (kern (with_table t)) TASK_MM) with (t TASK_MM). rewrite Hm. reflexivity.
  - unfold mmb, SIZEOF_MESSAGE, PROC_ALLOC_BASE. lia.
Qed.
Lemma wf_mm : mm_runs mmb (kern wf).
Proof. apply mm_runs_b; [vm_compute; reflexivity|reflexivity]. Qed.
Lemma wp_mm : mm_runs mmb (kern wp).
Proof. apply mm_runs_b; [vm_compute; reflexivity|reflexivity]. Qed.
Lemma wg_mm : mm_runs mmb (kern wg).
Proof. apply mm_runs_b; [vm_compute; reflexivity|reflexivity]. Qed.

Lemma asking_b t p va : 0 <= p < NR_ALL -> p <> TASK_MM -> va <> 0 ->
  (exists x, t p = ask va x) -> asking t p.
Proof. intros Hp Hm Hv [x E]. split; try done; rewrite E; done. Qed.
Lemma wf_asks : asking (proc_table (kern wf)) INIT.
Proof. apply (asking_b _ _ 0x800); [clia|done|done|eexists; reflexivity]. Qed.
Lemma wp_asks : asking (proc_table (kern wp)) INIT.
Proof. apply (asking_b _ _ 0x800); [clia|done|done|eexists; reflexivity]. Qed.
Lemma wp_kid : asking (proc_table (kern wp)) 7.
Proof. apply (asking_b _ _ 0x2000); [clia|done|done|eexists; reflexivity]. Qed.
Lemma wg_asks : asking (proc_table (kern wg)) INIT.
Proof. apply (asking_b _ _ 0x800); [clia|done|done|eexists; reflexivity]. Qed.

Lemma all_procs (f : Z -> bool) : forallb f (seqZ 0 NR_ALL) = true -> forall i, 0 <= i < NR_ALL -> f i = true.
Proof. intros H i. apply (forallb_seqZ _ _ i H). Qed.

Lemma wp_pair : pair mmb (kern wp) INIT 7.
Proof.
  split; [apply wp_mm|apply wp_asks|apply wp_kid|done|reflexivity|vm_compute; reflexivity|].
  intros j Hj. apply Z.eqb_neq, negb_true_iff. revert j Hj. apply all_procs. vm_compute. reflexivity.
Qed.

Lemma zero_bytes : bytes_ok (fun _ => 0).
Proof. intros a. lia. Qed.
Lemma init_la t : forallb (fun i => seg_linear (ldts (t i) INDEX_LDT_RW) =? 0) [INIT] = true ->
  la_of (kern (with_table t)) INIT 0x800 = 0x800.
Proof.
  intros [E _]%andb_true_iff. apply Z.eqb_eq in E. unfold la_of.
  change (proc_table (kern (with_table t))) with t. by rewrite E.
Qed.
Lemma far : disjoint_msgs 0x800 mmb.
Proof. left. unfold SIZEOF_MESSAGE, mmb. lia. Qed.

Definition exit_msg : MESSAGE := mkMsg 7 EXIT 42 0 0 0 0 0 0 0.
Definition wait_msg : MESSAGE := mkMsg INIT WAIT 0 0 0 0 0 0 0 0.
Definition fork_msg : MESSAGE := mkMsg INIT FORK 0 0 0 0 0 0 0 0.

(** ** The instances *)

Lemma exit_wait_commute_witness : exists st1 st2,
  (do_exit (fs_call no_driver TASK_MM) mmb exit_msg ;; do_wait mmb wait_msg) wp = Ok tt st1 /\
  (do_wait mmb wait_msg ;; do_exit (fs_call no_driver TASK_MM) mmb exit_msg) wp = Ok tt st2 /\
  kern st1 = kern st2 /\ STATUS (msg_at (fmem st1) 0x800) = 42.
Proof.
  destruct (exit_wait_commute (fs_call no_driver TASK_MM) mmb exit_msg wait_msg wp wp_pair wp_fd zero_bytes)
    as (st1 & st2 & E1 & E2 & E3 & _ & _ & _ & _ & _ & _ & _ & H & _).
  - change (STATUS exit_msg) with 42. lia.
  - change (p_msg (proc_table (kern wp) (source wait_msg))) with 0x800. change (source wait_msg) with INIT.
    unfold wp. rewrite init_la by (vm_compute; reflexivity). apply far.
  - change (p_msg (proc_table (kern wp) (source wait_msg))) with 0x800 in H. change (source wait_msg) with INIT in H.
    unfold wp in H. rewrite init_la in H by (vm_compute; reflexivity).
    exists st1, st2. split; [exact E1|]. split; [exact E2|]. split; [exact E3|exact H].
Defined.

Lemma wait_spec_witness : exists st', do_wait mmb wait_msg wp = Ok tt st' /\ parked (proc_table (kern st')) INIT.
Proof.
  destruct (wait_spec mmb wait_msg wp wp_mm wp_asks zero_bytes) as (st' & E & _ & _ & H).
  - change (p_msg (proc_table (kern wp) (source wait_msg))) with 0x800. change (source wait_msg) with INIT.
    unfold wp. rewrite init_la by (vm_compute; reflexivity). apply far.
  - intros i Hi. change (proc_table (kern wp) i) with (t_pair i).
    assert (E0 : exit_status (t_pair i) = 0); [|lia].
    apply Z.eqb_eq. revert i Hi. apply all_procs. vm_compute. reflexivity.
  - destruct H as (_ & H & _).
    + intros i Hi. apply negb_true_iff. revert i Hi. apply all_procs. vm_compute. reflexivity.
    + exists st'. split; [exact E|]. apply H. exists 7. split; [clia|]. vm_compute. reflexivity.
Defined.



Lemma no_files (t : arr PROCESS) p : forallb (fun i => if filp (t p) i then false else true) (seqZ 0 NR_FILES) = true ->
  forall i, 0 <= i < NR_FILES -> filp (t p) i = None.
Proof. intros H i Hi. pose proof (forallb_seqZ _ _ i H Hi) as Hb. cbv beta in Hb. by destruct (filp (t p) i). Qed.

Definition init_name : list Z := default [] (fork_name (p_name (t_fork INIT)) 7).
Lemma wf_can_fork : can_fork 0x4000000 mmb wf INIT 7 init_name 0 0x1000.
Proof.
  split; [apply wf_mm|apply wf_asks|vm_compute; reflexivity|clia|vm_compute; reflexivity
    |split; vm_compute; reflexivity|split; [|split]; vm_compute; reflexivity| | |apply wf_fd|].
  - unfold PROC_DEFAULT_IMG_SIZE. lia.
  - vm_compute. discriminate.
  - exact (no_files t_fork 7 ltac:(vm_compute; reflexivity)).
Qed.


Lemma alloc_mem_disjoint_witness :
  alloc_mem 0x4000000 7 0x100000 wf = Ok 0xA00000 wf /\ alloc_mem 0x4000000 8 0x100000 wf = Ok 0xB00000 wf /\
  (0xA00000 + 0x100000 <= 0xB00000 \/ 0xB00000 + 0x100000 <= 0xA00000).
Proof.
  assert (E1 : alloc_mem 0x4000000 7 0x100000 wf = Ok 0xA00000 wf) by reflexivity.
  assert (E2 : alloc_mem 0x4000000 8 0x100000 wf = Ok 0xB00000 wf) by reflexivity.
  split; [exact E1|]. split; [exact E2|].
  apply (alloc_mem_disjoint 0x4000000 7 8 0x100000 0x100000 wf _ _ _ _ E1 E2); [clia|clia|done|lia|lia].
Defined.

Definition close_msg : MESSAGE := mkMsg INIT CLOSE 0 0 0 0 0 0 0 0.
Lemma close_spec_witness : exists st', do_close INIT close_msg wf = Ok 0 st' /\ fd_ok st' /\
  filp (proc_table (kern st') INIT) 0 = None.
Proof.
  destruct (close_spec INIT close_msg wf wf_fd) as (_ & H & _).
  - clia.
  - destruct (H 0) as (st' & x & E & Hok & _ & _ & _ & _ & _ & Hf).
    + vm_compute. split; [discriminate|reflexivity].
    + vm_compute. reflexivity.
    + exists st'. split; [exact E|]. split; [exact Hok|]. exact (Hf INIT 0).
Defined.

(** ** The system task *)

Definition ks : kstate := mkK (upd t0 INIT (set_p_recvfrom TASK_SYS (ask 0x800 (t0 INIT)))) 5 77 0 0 (fun _ => 0).
Definition ticks_msg : MESSAGE := mkMsg INIT GET_TICKS 0 0 0 0 0 0 0 0.
Lemma systask_spec_witness : exists st', sys_serve mmb ticks_msg ks = Ok tt st' /\
  RETVAL (msg_at (memory st') 0x800) = 77.
Proof.
  assert (Hf : flat ks) by (apply flat_b; vm_compute; reflexivity).
  assert (El : la_of ks INIT 0x800 = 0x800) by (vm_compute; reflexivity).
  destruct (systask_spec mmb ticks_msg ks) as [H _].
  - split; [reflexivity|exact Hf|clia| |vm_compute; reflexivity|change (source ticks_msg) with INIT; clia|done|reflexivity|right; reflexivity|done|reflexivity|unfold mmb; lia].
    apply ok_ready; vm_compute; reflexivity.
  - vm_compute. repeat split; discriminate.
  - change (ticks ks) with 77. lia.
  - change (disjoint_msgs (la_of ks INIT 0x800) mmb). rewrite El. apply far.
  - destruct (H eq_refl) as (st' & E & Hr & _). exists st'. split; [exact E|].
    change (RETVAL (msg_at (memory st') (la_of ks INIT 0x800)) = 77) in Hr. rewrite El in Hr. exact Hr.
Defined.
