(* ===== verification/TtyWitness.v ===== *)
(** * Instances for the terminals

    Terminal 0 is read by INIT through the file system, which waits. *)
From Stdlib Require Import String.
From S2P Require Import Prelude Const CLib Protect Proc Sched Ipc IpcInv IpcRun IpcFrame IpcThm IpcSpec Task Boot Ring.
From S2P Require Import TtyState Console Keymap Tty TtyTask TtyLem TtyLine TtyWrite Witness MmWitness.

#[local] Strategy 1000 [t0 memcpy put_msg st32].

Definition t_fs : arr PROCESS := upd t0 TASK_FS (set_p_recvfrom ANY (ask 0x9000 (t0 TASK_FS))).
Definition k_fs : kstate := mkK t_fs 5 0 0 0 (fun _ => 0).
Definition tty_read0 (i : Z) : TTY := mkTty (fun _ => 0) 0 0 0 TASK_FS INIT 0x200000 100 0 i.
Definition con0 (i : Z) : CONSOLE := mkCon (CON_SIZE * i) (CON_SIZE * i) CON_SIZE V_MEM_BASE (CON_SIZE * i).
Definition kb0 : keyboard := mkKb 0 0 0 (fun _ => 0) 0 0 0 0 0 0 0 0 1 0 0.
Definition tw : tsys := mkT k_fs tty_read0 con0 0 0 kb0 (fun _ => 0) 0 [] [].

Lemma con0_ok i : 0 <= i < NR_TTYS -> con_ok i (con0 i).
Proof. intros Hi. split; try done; cbn; [exists 0; unfold SCREEN_WIDTH; lia|unfold CON_SIZE; lia]. Qed.
Lemma tw_cons : cons_ok tw.
Proof. intros i. apply con0_ok. Qed.
Lemma tw_idle : idle tw 0 0.
Proof.
  split; [unfold NR_TTYS; lia|done|done|apply tw_cons| |].
  - split; done || apply ring_empty; done.
  - intros j _. split; [apply ring_empty; done|done].
Qed.
Lemma tw_answers : answers (tkern tw) TASK_TTY mmb TASK_FS.
Proof.
  split; [reflexivity|apply flat_b; vm_compute; reflexivity|clia| |vm_compute; reflexivity|clia|done|reflexivity|left; reflexivity|done|reflexivity|unfold mmb; lia].
  apply ok_ready; vm_compute; reflexivity.
Qed.

Lemma out_char_spec_witness : exists st', out_char 65 1 tw = Ok tt st' /\ memory (tkern st') 0xbaaaa = 65.
Proof.
  destruct (out_char_spec 65 1 tw tw_cons) as (st' & E & _ & _ & _ & _ & _ & _ & H & _).
  - unfold NR_TTYS. lia.
  - lia.
  - exists st'. split; [exact E|]. apply H; [lia|lia|]. vm_compute. reflexivity.
Defined.

Lemma out_char_takes_display_witness : exists st', out_char 65 1 tw = Ok tt st' /\ shows (console_table st' 1) st'.
Proof.
  destruct (out_char_takes_display 65 1 tw tw_cons) as (st' & E & H & _).
  - unfold NR_TTYS. lia.
  - lia.
  - vm_compute. discriminate.
  - exists st'. split; [exact E|exact H].
Defined.

Lemma kb_fifo_witness : exists st', keyboard_handler 0x1E tw = Ok tt st' /\ kb_queue (kb st') = [0x1E].
Proof.
  destruct (kb_fifo 0x1E tw) as ((st' & E & _ & _ & _ & H) & _).
  - apply ring_empty. done.
  - lia.
  - constructor.
  - exists st'. split; [exact E|exact H].
Defined.

Lemma tty_line_roundtrip_witness : exists st', run_keys mmb 0x8100 (concat (typed <$> bytes_of "Hi!") ++ [0x1C; 0x9C]) tw = Ok tt st' /\
  memory (tkern st') 0x200000 = 72 /\ CNT (msg_at (memory (tkern st')) 0x9000) = 3.
Proof.
  assert (El : la_of k_fs TASK_FS 0x9000 = 0x9000) by (vm_compute; reflexivity).
  destruct (tty_line_roundtrip mmb 0x8100 0 (bytes_of "Hi!") tw tw_idle) as (st' & E & _ & H1 & _ & _ & _ & _ & H2 & _).
  - repeat constructor; vm_compute; discriminate.
  - vm_compute. reflexivity.
  - vm_compute. reflexivity.
  - reflexivity.
  - exact tw_answers.
  - vm_compute. split; [discriminate|reflexivity].
  - vm_compute. split; discriminate.
  - right. vm_compute. discriminate.
  - left. vm_compute. discriminate.
  - change (disjoint_msgs (la_of k_fs TASK_FS 0x9000) mmb). rewrite El. right. vm_compute. discriminate.
  - left. vm_compute. discriminate.
  - left. change (la_of k_fs TASK_FS 0x9000 + SIZEOF_MESSAGE <= 0x200000). rewrite El. vm_compute. discriminate.
  - intros a. cbn. lia.
  - exists st'. split; [exact E|]. split.
    + assert (H : bytes_of "Hi!" !! Z.to_nat 0 = Some (memory (tkern st') (0x200000 + 0))) by (apply H1; vm_compute; split; [discriminate|reflexivity]).
      change (0x200000 + 0) with 0x200000 in H. injection H as H. by symmetry.
    + change (CNT (msg_at (memory (tkern st')) (la_of k_fs TASK_FS 0x9000)) = 3) in H2. rewrite El in H2. exact H2.
Defined.

Definition kb_two : keyboard := mkKb 2 0 2 (fun i => if i =? 0 then 0x9E else 0x30) 0 0 0 0 0 0 0 0 1 0 0.
Lemma tty_leaves_codes_witness : exists st', (tty_serve mmb 0x8100 hard_int ;; tty_pass mmb) (set_kb kb_two tw) = Ok tt st' /\
  kb_queue (kb st') = [0x30] /\ key_pressed (tkern st') = 0.
Proof.
  apply (tty_leaves_codes mmb 0x8100 0x9E [0x30] 0 0 (set_kb kb_two tw));
    try done; unfold NR_TTYS; lia.
Defined.

Lemma backspace_leaves_buffer_witness : exists st', (tty_give mmb 0 8 ;; tty_give mmb 0 65) tw = Ok tt st' /\
  memory (tkern st') 0x1FFFFF = 65.
Proof.
  destruct (backspace_leaves_buffer mmb 0 65 tw) as (st' & E & H & _).
  - unfold NR_TTYS. lia.
  - reflexivity.
  - apply con0_ok. unfold NR_TTYS. lia.
  - vm_compute. reflexivity.
  - reflexivity.
  - lia.
  - exists st'. split; [exact E|exact H].
Defined.

(** INIT writes "OK" to terminal 1 *)
Definition k_ok : kstate := set_memory (put_bytes 0x200000 (bytes_of "OK") (fun _ => 0)) k_fs.
Definition write_ok : MESSAGE :=
  set_source TASK_FS (set_m3i3 INIT (set_m3i4 1 (set_m3i2 2 (set_m3p2 0x200000 (set_type DEV_WRITE zero_msg))))).

Lemma ok_pending : pending 0x8100 1 INIT 0x200000 0x200000 (set_tkern k_ok tw) 0 (bytes_of "OK").
Proof.
  split; try done.
  - apply tw_answers.
  - apply con0_ok. unfold NR_TTYS. lia.
  - intros j Hj. assert (Hb : forall j, (0 <=? j) && (j <? 2) = true -> la_of k_ok INIT (u32 (0x200000 + j)) = 0x200000 + j).
    { intros j' H. assert (j' = 0 \/ j' = 1) as [-> | ->] by (zbool; lia); vm_compute; reflexivity. }
    apply Hb. change (Z.of_nat (length (bytes_of "OK"))) with 2 in Hj. zbool. lia.
  - apply bytes_at_put.
  - repeat constructor; vm_compute; done.
  - right. vm_compute. discriminate.
  - right. vm_compute. discriminate.
Qed.

Lemma tty_write_spec_witness : exists st', tty_serve mmb 0x8100 write_ok (set_tkern k_ok tw) = Ok tt st' /\
  memory (tkern st') (V_MEM_BASE + 2 * CON_SIZE) = 79 /\ CNT (msg_at (memory (tkern st')) 0x9000) = 2.
Proof.
  assert (El : la_of k_ok TASK_FS 0x9000 = 0x9000) by (vm_compute; reflexivity).
  destruct (tty_write_spec mmb 0x8100 1 0x200000 (bytes_of "OK") write_ok (set_tkern k_ok tw)) as (st' & E & _ & _ & _ & H1 & _ & H2 & _).
  - reflexivity.
  - reflexivity.
  - reflexivity.
  - repeat split; vm_compute; done.
  - unfold NR_TTYS. lia.
  - exact tw_cons.
  - vm_compute. split; [discriminate|reflexivity].
  - vm_compute. split; discriminate.
  - left. vm_compute. discriminate.
  - left. vm_compute. discriminate.
  - left. change (la_of k_ok TASK_FS 0x9000 + SIZEOF_MESSAGE <= V_MEM_BASE). rewrite El. vm_compute. discriminate.
  - change (disjoint_msgs (la_of k_ok TASK_FS 0x9000) mmb). rewrite El. right. vm_compute. discriminate.
  - apply (answers_ext mmb k_fs); [exact tw_answers|done|done].
  - exact ok_pending.
  - exists st'. split; [exact E|]. split.
    + destruct H1 as [_ H1]; [repeat constructor; vm_compute; discriminate|vm_compute; reflexivity|].
      specialize (H1 0 ltac:(vm_compute; split; [discriminate|reflexivity])). injection H1 as H1. by symmetry.
    + change (msg_at (memory (tkern st')) (la_of k_ok TASK_FS 0x9000) = set_source TASK_TTY write_ok) in H2.
      rewrite El in H2. by rewrite H2.
Defined.
