(* ===== verification/HdWitness.v ===== *)
(** * Instances for the disk driver

    The documented drive with 3000 sectors, a partition at sector 100, and FS's view of
    it; a drive with partition tables. *)
From S2P Require Import Prelude Const CLib Protect Proc Sys Fs FsOps FsLem FsRw Hd HdThm HdOpen Witness.

Definition img0 : mem := fun x => x `mod` 251.
Definition part0 : part_info := mkPi 100 2000.
Definition hd0 : hd_info := mkHd 1 (fun _ => mkPi 0 0) (fun j => if j =? 16 then part0 else mkPi 0 0).
Definition drive0 : ata := mkAta img0 [] 3000 Idle.
Definition h0 : @hsys ata := mkH k0 hd0 drive0.
Definition s0 : sys := mkSys k0 (fun _ => zero_fd) (fun _ => zero_inode) (fun _ => zero_sb) zero_sb 0
  (fun _ => mkDev (fun x => img0 (100 * SECTOR_SIZE + x)) 2000).
Definition hdbuf0 : Z := 0x30000.
Definition msg0 : MESSAGE := mkMsg 0 0 0 0 0 0 0 0 0 0.

Lemma view0 : fs_view ata_ops hdbuf0 ROOT_DEV part0 s0 h0.
Proof. split; done. Qed.

Lemma request0 ty bytes : ty = DEV_READ \/ ty = DEV_WRITE -> 0 < bytes <= 1000000 -> bytes `mod` SECTOR_SIZE = 0 ->
  request_ok ata_ops hdbuf0 ty ROOT_DEV 1024 bytes fsbuf part0 h0.
Proof.
  intros Ht Hb Hm. split; try done.
  - destruct Ht; auto.
  - lia.
  - cbn [part0 psize]. clia.
  - unfold fsbuf, hdbuf0. clia.
  - split; [apply k0_flat|done].
Qed.

Lemma rw_sector_refined_witness :
  exists s' h', rw_sector DEV_WRITE ROOT_DEV 1024 2048 fsbuf s0 = Ok tt s' /\
    hd_rdwt ata_ops hdbuf0 (driver_msg msg0 DEV_WRITE ROOT_DEV 1024 2048 TASK_FS fsbuf) h0 = Ok tt h' /\
    fs_view ata_ops hdbuf0 ROOT_DEV part0 s' h' /\ driver_frame ata_ops part0 1024 2048 h0 h'.
Proof.
  apply (rw_sector_refined ata_ops hdbuf0 msg0 DEV_WRITE ROOT_DEV 1024 2048 fsbuf part0 s0 h0).
  - apply request0; [right; reflexivity|lia|reflexivity].
  - vm_compute. discriminate.
  - exact view0.
Defined.

Lemma long_request_starves_witness :
  hd_rdwt ata_ops hdbuf0 (driver_msg msg0 DEV_READ ROOT_DEV 1024 131584 TASK_FS fsbuf) h0 = Halt HBlock.
Proof.
  apply (long_request_starves ata_ops hdbuf0 msg0 DEV_READ ROOT_DEV 1024 131584 fsbuf part0 s0 h0).
  - apply request0; [left; reflexivity|lia|reflexivity].
  - vm_compute. reflexivity.
  - exact view0.
Defined.

(** ** Partition tables *)

(** entry [i] of the table in sector [l] *)
Definition put_part (l i id start n : Z) (m : mem) : mem :=
  let a := l * SECTOR_SIZE + PARTITION_TABLE_OFFSET + i * SIZEOF_PART_ENT in
  put_words (a + 8) [start; n] (upd m (a + 4) id).
(** a Linux partition, and an extended one at sector 100 with two logical partitions *)
Definition img1 : mem :=
  put_part 0 0 0x83 10 90 (put_part 0 1 EXT_PART 100 2000
    (put_part 100 0 0x83 1 500 (put_part 100 1 EXT_PART 1000 600 (put_part 1100 0 0x83 2 400 (fun _ => 0))))).
(** 3000 sectors: 0x0BB8 *)
Definition ident1 : list Z := replicate 120 0 ++ [0xB8; 0x0B; 0; 0] ++ replicate 388 0.
Definition drive1 : ata := mkAta img1 ident1 3000 Idle.
Definition h1 : @hsys ata := mkH k0 (mkHd 0 (fun _ => mkPi 0 0) (fun _ => mkPi 0 0)) drive1.
Definition junk1 : hd_cmd := mkCmd 7 7 7 7 7 7 7.

Lemma tables1 : tables_ok img1 3000.
Proof.
  split; [exists 0; split; [clia|reflexivity]|]. intros i Hi E.
  assert (i = 0 \/ i = 1 \/ i = 2 \/ i = 3) as [-> |[-> |[-> | ->]]] by clia; try (vm_compute in E; discriminate).
  assert (Hs : start_sect (table_ent img1 0 1) = 100) by reflexivity. rewrite Hs.
  change (Z.to_nat NR_SUB_PER_PART) with (S (S (Z.to_nat 14))). cbn [chain_ok].
  assert (H1 : start_sect (table_ent img1 100 1) = 1000) by reflexivity. rewrite H1.
  assert (H2 : start_sect (table_ent img1 100 0) = 1) by reflexivity. rewrite H2.
  assert (H3 : start_sect (table_ent img1 (100 + 1000) 0) = 2) by reflexivity. rewrite H3.
  split; [lia|]. split; [lia|]. right. split; [lia|]. split; [lia|]. left. reflexivity.
Qed.

Lemma hd_open_reads_witness :
  exists h', hd_open ata_ops hdbuf0 junk1 (MINOR ROOT_DEV) h1 = Ok tt h' /\
    primary (hinfo h') 0 = mkPi 0 3000 /\ primary (hinfo h') 1 = mkPi 10 90 /\ part_of (MINOR ROOT_DEV) h' = Ok (mkPi 101 500) h'.
Proof.
  destruct (hd_open_reads ata_ops hdbuf0 junk1 (MINOR ROOT_DEV) h1) as (h' & E & _ & _ & P0 & P & L);
    [reflexivity|reflexivity|reflexivity|vm_compute; discriminate|reflexivity|reflexivity| |exact tables1|].
  - apply (bool_decide_unpack _). vm_compute. exact I.
  - exists h'. split; [exact E|]. split; [exact P0|]. split; [rewrite P by lia; reflexivity|].
    change (part_of (MINOR ROOT_DEV) h') with (Ok (logical (hinfo h') 16) h'). rewrite L. reflexivity.
Defined.
