(* ===== verification/UserWitness.v ===== *)
(** * Instances for the user programs

    INIT's image with the line "ls -l a" in its buffer, an array of two arguments,
    and [echo] with the arguments "hi" and "you" on a terminal that keeps a log. *)
From Stdlib Require Import String.
From S2P Require Import Prelude Const CLib Protect Proc Sys Fs FsOps FsLem FsRw Lib Mm Boot Exec Shell Command Witness HdWitness.

Definition line0 : list Z := bytes_of "ls -l a".
Definition line_mem : mem := put_bytes 0x1000 (line0 ++ [0]) (fun _ => 0).
Definition argv_mem : mem := st32 0x3000 0x1000 (st32 0x3004 0x1010
  (put_bytes 0x1000 [101; 0] (put_bytes 0x1010 [104; 105; 0] (fun _ => 0)))).

Lemma init_placed m : placed (set_memory m k0) INIT 0 0x700000.
Proof.
  split; try (unfold PROC_ORIGIN_STACK, PROC_DEFAULT_IMG_SIZE; clia).
  - apply k0_flat.
  - intros va Hva. unfold la_of, PROC_DEFAULT_IMG_SIZE in *.
    change (proc_table (set_memory m k0)) with (proc_table k0). rewrite (k0_flat INIT) by clia.
    rewrite Z.add_0_r. apply u32_id. lia.
Qed.


Lemma exec_args_roundtrip_witness :
  exists st1 st2, on_mem (execv_stack 0 0x2000 100 0x3000) (with_mem argv_mem s0) = Ok 17 st1 /\
    exec_stack 0x700000 INIT 0x2000 17 st1 = Ok 2 st2 /\ arg_stack (fmem st2) 0 stk_pos [[101]; [104; 105]].
Proof.
  destruct (exec_args_roundtrip INIT 0 0x700000 0x2000 100 0x3000 [[101]; [104; 105]] (with_mem argv_mem s0))
    as (st1 & st2 & R1 & R2 & R3 & _).
  - apply init_placed.
  - repeat (split; [right; vm_compute; discriminate|]; try (split; [vm_compute; discriminate|];
      split; [vm_compute; repeat split; discriminate|]; split; [left; vm_compute; reflexivity|])).
    vm_compute. reflexivity.
  - repeat constructor; lia.
  - vm_compute. discriminate.
  - lia.
  - vm_compute. discriminate.
  - exists st1, st2. split; [exact R1|]. split; [exact R2|exact R3].
Defined.

(** ** A terminal that keeps a log *)

(** the number of characters at [LOG], the characters behind it *)
Definition LOG : Z := 0x200000.
Definition log_size (st : sys) : Z := Z.max 0 (fmem st LOG).
Definition log_text (st : sys) : list Z := (fun j => fmem st (LOG + 1 + j)) <$> seqZ 0 (log_size st).
Definition log_drv (d : Z) (m : MESSAGE) : M sys MESSAGE := fun st =>
  let n := log_size st in
  let m1 := disk_read (fmem st) (la_of (kern st) (PROC_NR m) (BUF m)) (CNT m) (LOG + 1 + n) (fmem st) in
  Ok (set_source TASK_TTY m) (with_mem (upd m1 LOG (n + CNT m)) st).

Lemma disk_read_out d pos n buf m a : a < buf \/ buf + n <= a -> disk_read d pos n buf m a = m a.
Proof. intros H. unfold disk_read. case_match; zbool; [lia|done]. Qed.
Lemma disk_read_in d pos n buf m a : buf <= a < buf + n -> disk_read d pos n buf m a = d (pos + (a - buf)).
Proof. intros H. unfold disk_read. case_match; zbool; [done|lia]. Qed.

#[export] Instance log_driver pid : CharDriver log_drv log_text pid 0 0x100000.
Proof.
  split.
  - intros m st Hm. unfold log_text, log_size. change (fmem (with_mem m st)) with m. rewrite Hm by (unfold LOG; lia).
    apply list_fmap_ext. intros i j Hj. apply lookup_seqZ in Hj. apply Hm. unfold LOG. lia.
  - intros m st out Ht Hp Hc Hla Hb _. eexists. split; [reflexivity|]. rewrite Hp, Hc. set (n := log_size st).
    assert (Hn : 0 <= n) by (unfold n, log_size; lia).
    split; [|split; [done|split; [done|split; [done|]]]].
    + unfold log_text at 1, log_size. set (m1 := disk_read _ _ _ _ _).
      change (fmem (with_mem (upd m1 LOG (n + Z.of_nat (List.length out))) st)) with (upd m1 LOG (n + Z.of_nat (List.length out))).
      rewrite upd_eq, Z.max_r by lia. apply list_eq. intros i. rewrite list_lookup_fmap, lookup_app.
      unfold log_text. fold n. rewrite list_lookup_fmap.
      destruct (decide (Z.of_nat i < n)) as [Hi|Hi].
      * rewrite !lookup_seqZ_lt by lia. cbn. rewrite upd_ne by lia. unfold m1. by rewrite disk_read_out by lia.
      * rewrite (lookup_seqZ_ge 0 n) by lia. cbn. rewrite length_fmap, length_seqZ.
        destruct (decide (Z.of_nat i < n + Z.of_nat (List.length out))) as [Hj|Hj].
        -- rewrite lookup_seqZ_lt by lia. cbn. rewrite upd_ne by lia. unfold m1. rewrite disk_read_in by lia.
           destruct (out !! (i - Z.to_nat n)%nat) as [c|] eqn:E; [|apply lookup_ge_None in E; lia].
           f_equal. rewrite <- (Hb _ _ E). f_equal. lia.
        -- rewrite lookup_seqZ_ge by lia. cbn. symmetry. apply lookup_ge_None. lia.
    + intros a Ha. cbn. rewrite upd_ne by (unfold LOG; lia). apply disk_read_out. unfold LOG. lia.
Qed.

(** ** [echo] in INIT's image, with descriptor 1 on the terminal *)

Definition echo_lit (s : string) : Z :=
  if String.eqb s "%s%s" then 0x1000 else if String.eqb s "" then 0x1008
  else if String.eqb s " " then 0x1010 else 0x1018.
Definition echo_args : list (list Z) := [bytes_of "echo"; bytes_of "hi"; bytes_of "you"].
Definition echo_mem : mem :=
  put_bytes 0x1000 [37; 115; 37; 115; 0] (put_bytes 0x1010 [32; 0] (put_bytes 0x1018 [10; 0]
    (put_words 0xff000 [0xff010; 0xff015; 0xff018; 0]
      (put_bytes 0xff010 (bytes_of "echo" ++ [0] ++ bytes_of "hi" ++ [0] ++ bytes_of "you" ++ [0]) (fun _ => 0))))).
Definition echo_sys : sys :=
  mkSys (set_memory echo_mem (set_proc_table (upd t0 INIT (set_filp (fun i => if i =? 1 then Some 0 else None) (t0 INIT))) k0))
    (fun _ => mkFd O_RDWR 0 1 (Some 0)) (fun _ => mkInode I_CHAR_SPECIAL 0 (MAKE_DEV DEV_CHAR_TTY 1) 0 0 1 2)
    (fun _ => zero_sb) zero_sb 0 (fun _ => mkDev (fun _ => 0) 0).

Lemma echo_la va : 0 <= va < 0x100000 -> la_of (kern echo_sys) INIT va = 0 + va.
Proof.
  intros Hva. unfold la_of, echo_sys. cbn [kern proc_table set_memory set_proc_table]. rewrite upd_eq.
  pose proof (k0_flat INIT ltac:(clia)) as Hf. cbn [proc_table k0] in Hf. cbn [ldts set_filp]. rewrite Hf.
  rewrite Z.add_0_r. apply u32_id. lia.
Qed.
Lemma echo_ready : on_terminal INIT 0 0x100000 echo_sys 0 0.
Proof.
  split; [clia|reflexivity|clia|reflexivity|reflexivity|clia|reflexivity|reflexivity|].
  split; [lia|apply echo_la].
Qed.

Lemma echo_prints_witness : exists st', echo_main (T := fs_terminal log_drv log_text msg0 INIT 0 0x100000)
    echo_lit 0xfe000 0xfe200 100 3 0xff000 echo_sys = Ok 0 st' /\ log_text st' = bytes_of "hi you" ++ [10].
Proof.
  destruct (echo_prints (Terminal0 := fs_terminal log_drv log_text msg0 INIT 0 0x100000)
    (H := fs_terminal_laws log_drv log_text msg0 INIT 0 0x100000)
    echo_lit 0xfe000 0xfe200 100 0xff000 echo_args echo_sys) as (st' & E & _ & H & _).
  all: cbn [pmem limit ready fs_terminal].
  - vm_compute. split; discriminate.
  - vm_compute. split; discriminate.
  - right. vm_compute. discriminate.
  - exists 0, 0. exact echo_ready.
  - split; (split; [vm_compute; repeat split; discriminate|]); vm_compute; repeat split; try discriminate; try (left; discriminate); lia.
  - vm_compute. discriminate.
  - discriminate.
  - vm_compute. repeat split; discriminate.
  - vm_compute. discriminate.
  - vm_compute. discriminate.
  - split; right; vm_compute; discriminate.
  - repeat constructor; vm_compute; try reflexivity; lia.
  - exists st'. split; [exact E|]. change (log_text st' = log_text echo_sys ++ unwords (tail echo_args) ++ [10]) in H.
    rewrite H. vm_compute. reflexivity.
Defined.
