(* ===== verification/FsDirWitness.v ===== *)
(** * Instances for directories, creating and deleting

    Small file systems, written down byte by byte: one sector of sector map, so that the
    data begins at sector 260, and a root directory of eight sectors there. The entries
    have names of one letter. *)
From S2P Require Import Prelude Const CLib Protect Proc Sys Fs FsOps FsLem FsRw FsRef Task FsMap FsDir FsCreate FsUnlink FsType Boot.
From S2P Require Import FsInit FsFormat FsMount Witness FsWitness MmWitness.

(** ** The disks *)

(** the bytes of the maps and of the directory: [im] is the first byte of the inode map,
    [sm] the sector map, [l] the inode numbers and names of the entries *)
Definition ent_at (l : list (Z * Z)) (k : Z) : Z * Z := default (0, 0) (l !! Z.to_nat k).
Definition raw (im : Z) (sm : Z -> Z) (l : list (Z * Z)) : mem := fun a =>
  if a =? 1024 then im
  else if (1536 <=? a) && (a <? 2048) then sm (a - 1536)
  else if (133120 <=? a) && (a <? 137216) then
    let e := ent_at l ((a - 133120) / 16) in
    if (a - 133120) `mod` 16 =? 0 then fst e else if (a - 133120) `mod` 16 =? 4 then snd e else 0
  else 0.
(** with the inodes 1 (the directory) and 6 (a regular file of 2048 sectors) *)
Definition dir_inode (l : list (Z * Z)) : inode := mkInode I_DIRECTORY (16 * Z.of_nat (length l)) 260 8 ROOT_DEV 1 1.
Definition image (im : Z) (sm : Z -> Z) (l : list (Z * Z)) : mem :=
  put_inode_at (2048 + 5 * 32) (mkInode I_REGULAR 0 268 2048 0 0 0)
    (put_inode_at 2048 (dir_inode l) (raw im sm l)).
Definition small_sb : super_block := mkSb MAGIC_V1 4096 8000 1 1 260 256 1 32 4 8 0 0 4 ROOT_DEV.
(** the path "/d" is at 1 MB *)
Definition small_mem : mem := put_bytes 0x100000 [47; 100; 0] (fun _ => 0).
Definition small (im : Z) (sm : Z -> Z) (l : list (Z * Z)) : sys :=
  mkSys (set_memory small_mem k0) (fun _ => zero_fd) (upd (fun _ => zero_inode) 0 (dir_inode l))
    (upd (fun _ => zero_sb) 0 small_sb) zero_sb 0 (fun _ => mkDev (image im sm l) 8000).

(** the sectors of the directory are marked, and those of inode 6 *)
Definition sm_dir (j : Z) : Z := if j =? 0 then 255 else if j =? 1 then 1 else 0.
Definition sm_file (j : Z) : Z := if j <? 257 then 255 else if j =? 257 then 1 else 0.
(** the directory's sectors and one more *)
Definition sm_hole (j : Z) : Z := if j =? 20 then 4 else sm_dir j.

(** no file "d"; "c" and "d"; two holes in front of "c" and "d"; a full sector *)
Definition h_new : sys := small 0x3F sm_dir [(1, 46); (5, 99)].
Definition h_file : sys := small 0x7F sm_file [(1, 46); (5, 99); (6, 100)].
Definition h_gap : sys := small 0x7F sm_file [(1, 46); (0, 0); (0, 0); (5, 99); (6, 100)].
Definition h_full : sys := small 0x3F sm_dir (replicate 32 (1, 46)).
Definition h_frag : sys := small 0x3F sm_hole [(1, 46)].

(** ** Bytes *)

Definition ents_b (l : list (Z * Z)) : bool :=
  forallb (fun e => (0 <=? fst e) && (fst e <? 256) && (0 <=? snd e) && (snd e <? 256)) l.
Lemma ents_b_sound l k : ents_b l = true -> byte_ok (fst (ent_at l k)) /\ byte_ok (snd (ent_at l k)).
Proof.
  intros H. unfold ent_at. destruct (l !! Z.to_nat k) as [e|] eqn:E; cbn; [|by unfold byte_ok].
  unfold ents_b in H. rewrite forallb_forall in H. apply list_elem_of_lookup_2, list_elem_of_In, H in E. zbool. unfold byte_ok. lia.
Qed.
Lemma image_bytes im sm l : byte_ok im -> (forall j, byte_ok (sm j)) -> ents_b l = true -> bytes_ok (image im sm l).
Proof.
  intros Hi Hs Hl. unfold image. do 2 apply bytes_put_inode_at. intros a. unfold raw.
  destruct (a =? 1024); [done|]. destruct (_ && _); [apply Hs|]. destruct (_ && _); [|lia].
  destruct (ents_b_sound l ((a - 133120) / 16) Hl). destruct (_ =? 0); [done|]. destruct (_ =? 4); [done|lia].
Qed.
Lemma small_bytes im sm l : byte_ok im -> (forall j, byte_ok (sm j)) -> ents_b l = true -> byte_state (small im sm l).
Proof.
  intros Hi Hs Hl. split; [|intros d; by apply image_bytes]. apply bytes_put_bytes; [|intros a; cbn; lia].
  repeat constructor; unfold byte_ok; lia.
Qed.
Lemma sm_dir_byte j : byte_ok (sm_dir j).
Proof. unfold sm_dir, byte_ok. repeat case_match; lia. Qed.
Lemma sm_file_byte j : byte_ok (sm_file j).
Proof. unfold sm_file, byte_ok. repeat case_match; lia. Qed.
Lemma sm_hole_byte j : byte_ok (sm_hole j).
Proof. unfold sm_hole. case_match; [by unfold byte_ok|apply sm_dir_byte]. Qed.

Ltac small_bytes := apply small_bytes; [by unfold byte_ok|first [apply sm_dir_byte|apply sm_file_byte|apply sm_hole_byte]|reflexivity].
Lemma h_new_bytes : byte_state h_new.
Proof. small_bytes. Qed.
Lemma h_file_bytes : byte_state h_file.
Proof. small_bytes. Qed.
Lemma h_gap_bytes : byte_state h_gap.
Proof. small_bytes. Qed.
Lemma h_full_bytes : byte_state h_full.
Proof. small_bytes. Qed.
Lemma h_frag_bytes : byte_state h_frag.
Proof. small_bytes. Qed.

(** ** The invariants, by evaluation *)

Definition dir_ok_b (st : sys) : bool :=
  let d := root_dir st in
  (n_1st_sect (super_blocks st 0) <=? i_start_sect d) && (i_start_sect d + i_nr_sects d <? 4194304) &&
  (0 <=? i_size d) && (i_size d <=? i_nr_sects d * SECTOR_SIZE) && (i_size d `mod` DIR_ENT_SIZE =? 0) &&
  (0 <=? i_mode d) && (i_mode d <? 4294967296).
Lemma dir_ok_b_sound st : dir_ok_b st = true -> dir_ok st.
Proof. unfold dir_ok_b. intros H. zbool. split; lia. Qed.

Definition clean_b (st : sys) : bool :=
  forallb (fun k => negb ((dir_len st <=? k) || (ent_nr (rdisk st) (i_start_sect (root_dir st)) k =? 0)) ||
    (rdisk st (ent_pos (i_start_sect (root_dir st)) k + 4) =? 0)) (seqZ 0 (PER_SECT * i_nr_sects (root_dir st))).
Lemma clean_b_sound st : clean_b st = true -> dir_clean st.
Proof.
  intros H k Hk Hcase. pose proof (forallb_seqZ _ _ k H Hk) as E. cbv beta in E.
  apply orb_true_iff in E as [E|E]; [|by apply Z.eqb_eq]. apply negb_true_iff, orb_false_iff in E as [E1 E2].
  apply Z.leb_gt in E1. apply Z.eqb_neq in E2. destruct Hcase; [lia|done].
Qed.

Definition imap_b (st : sys) : bool :=
  mbit (rdisk st) IMAP_POS 0 && forallb (fun x => negb (live_b st x) ||
    ((i_num (inode_table st x) <? 4096) && mbit (rdisk st) IMAP_POS (i_num (inode_table st x)))) (seqZ 0 NR_INODE).
Lemma imap_b_sound st : imap_b st = true -> imap_ok st.
Proof.
  intros [H1 H2]%andb_true_iff. split; [done|]. intros x Hx Hl. pose proof (forallb_seqZ _ _ x H2 Hx) as E. cbv beta in E.
  rewrite (proj2 (live_b_iff st x) Hl) in E. cbn [negb orb] in E. apply andb_true_iff in E as [E1 E2]. by apply Z.ltb_lt in E1.
Qed.

Definition wf_b (st : sys) : bool := fs_inv_b st && dir_ok_b st && clean_b st && imap_b st && fd_ok_b st.
Lemma wf_b_sound st : wf_b st = true -> fs_wf st.
Proof.
  unfold wf_b. rewrite !andb_true_iff. intros [[[[H1 H2] H3] H4] H5].
  split; [by apply fs_inv_b_sound|by apply dir_ok_b_sound|by apply clean_b_sound|by apply imap_b_sound|by apply fd_ok_b_sound].
Qed.

Lemma h_new_wf : fs_wf h_new.
Proof. apply wf_b_sound. vm_compute. reflexivity. Qed.
Lemma h_file_wf : fs_wf h_file.
Proof. apply wf_b_sound. vm_compute. reflexivity. Qed.
Lemma h_gap_wf : fs_wf h_gap.
Proof. apply wf_b_sound. vm_compute. reflexivity. Qed.
Lemma h_full_wf : fs_wf h_full.
Proof. apply wf_b_sound. vm_compute. reflexivity. Qed.
Lemma h_frag_mounted : mounted h_frag.
Proof. apply mounted_b_sound. vm_compute. reflexivity. Qed.

(** ** The instances *)

Lemma alloc_smap_spec_witness : exists st', alloc_smap_bit ROOT_DEV 2048 h_new = Ok 268 st' /\
  sbit SMAP_SECT st' 2056 = true /\ sbit SMAP_SECT st' 2057 = false.
Proof.
  pose proof (alloc_smap_spec h_new 2048 (fi_mnt _ (wf_inv _ h_new_wf)) (proj1 h_new_bytes) (proj2 h_new_bytes _) ltac:(lia)) as H.
  assert (E : 2048 <=? smap_free h_new = true) by (vm_compute; reflexivity). rewrite E in H.
  destruct H as (st' & x & Ex & R & _ & _ & _ & Hk & _). exists st'.
  assert (E9 : smap_first h_new = Some 9) by (vm_compute; reflexivity). assert (x = 9) as -> by congruence.
  split; [exact R|]. split; rewrite Hk by (vm_compute; split; [discriminate|reflexivity]); vm_compute; reflexivity.
Defined.

Lemma alloc_smap_overlap_witness : exists st' y, alloc_smap_bit ROOT_DEV 2048 h_frag = Ok 268 st' /\
  2057 <= y < Z.of_nat (nr_bits h_frag) /\ sbit SMAP_SECT st' y = true.
Proof.
  destruct (alloc_smap_overlap h_frag 2048 9 162 h_frag_mounted (proj1 h_frag_bytes) (proj2 h_frag_bytes _))
    as (st' & y & R & Hy & _ & Hs); [vm_compute; discriminate|vm_compute; reflexivity|lia|vm_compute; reflexivity|].
  exists st', y. split; [exact R|]. split; [exact Hy|exact Hs].
Defined.

Lemma search_file_spec_witness : exists st', search_file [47; 100] h_file = Ok 6 st' /\ disk st' = disk h_file.
Proof.
  destruct (search_file_spec h_file [47; 100] (wf_inv _ h_file_wf) (wf_dir _ h_file_wf)) as (st' & R & _ & _ & D).
  - vm_compute. reflexivity.
  - exists st'. split; [|exact D].
    assert (E : path_lookup (rdisk h_file) (root_dir h_file) [47; 100] = 6) by (vm_compute; reflexivity).
    rewrite E in R. exact R.
Defined.

(** the name "d" *)
Definition d_name : list Z := [100].
Lemma d_name_ok : name_ok d_name /\ chars_ok d_name.
Proof. split; [unfold name_ok; cbn; autounfold with consts; lia|repeat constructor; lia]. Qed.

Lemma new_entry_refines_insert_witness : exists st', new_directory_entry 0 d_name 6 h_new = Ok tt st' /\
  dir_map st' d_name = 6 /\ dir_map st' [99] = 5.
Proof.
  destruct (new_entry_refines_insert h_new d_name 6) as (st' & R & _ & _ & _ & H);
    [apply h_new_wf|apply h_new_wf|apply h_new_wf|apply d_name_ok|apply d_name_ok|lia|vm_compute; reflexivity| |vm_compute; reflexivity|].
  { intros (_ & H & _). vm_compute in H. discriminate. }
  exists st'. split; [exact R|]. split; [by rewrite H by apply d_name_ok|].
  rewrite H by (try (repeat constructor; lia); unfold name_ok; cbn; autounfold with consts; lia). vm_compute. reflexivity.
Defined.

Lemma new_entry_lost_witness : exists st', new_directory_entry 0 d_name 6 h_full = Ok tt st' /\
  dir_len st' = dir_len h_full + 1 /\ dir_map st' d_name = 0.
Proof.
  destruct (new_entry_lost h_full d_name 6) as (st' & R & Hl & _ & H);
    [apply h_full_wf|apply h_full_wf|apply h_full_wf|apply d_name_ok|apply d_name_ok|vm_compute; split; [|split]; reflexivity
    |vm_compute; reflexivity|vm_compute; reflexivity|].
  exists st'. split; [exact R|]. split; [exact Hl|exact H].
Defined.

Definition small_open (flags : Z) : MESSAGE := mkMsg INIT OPEN flags 2 0 0 0 0 0x100000 0.
Lemma small_flat im sm l : flat (kern (small im sm l)).
Proof. apply flat_b. vm_compute. reflexivity. Qed.
Lemma open_new flags : open_request h_new INIT (small_open flags) d_name 0 0.
Proof.
  split; [clia|apply small_flat|cbn; clia|vm_compute; reflexivity|apply d_name_ok|vm_compute; reflexivity..].
Qed.
Lemma open_file_d flags : open_request h_file INIT (small_open flags) d_name 0 0.
Proof.
  split; [clia|apply small_flat|cbn; clia|vm_compute; reflexivity|apply d_name_ok|vm_compute; reflexivity..].
Qed.
Lemma not_live st q : i_cnt (inode_table st q) = 0 -> ~ live (inode_table st) q.
Proof. unfold live. lia. Qed.

Lemma open_creates_witness : exists st' p, do_open no_driver INIT (small_open (Z.lor O_CREAT O_RDWR)) h_new = Ok 0 st' /\
  fs_wf st' /\ inode_table st' p = mkInode I_REGULAR 0 268 2048 ROOT_DEV 1 6 /\ dir_map st' d_name = 6.
Proof.
  destruct (open_creates no_driver h_new INIT (small_open (Z.lor O_CREAT O_RDWR)) d_name 0 0 6 9)
    as (st' & p & R & W & _ & _ & I & H);
    [apply open_new|apply h_new_wf| |apply h_new_bytes|apply h_new_bytes|vm_compute; reflexivity|vm_compute; reflexivity|].
  { split; [vm_compute; reflexivity|vm_compute; reflexivity|vm_compute; discriminate| |].
    - exists 1. split; [clia|]. apply not_live. reflexivity.
    - split; [vm_compute; reflexivity|]. intros (_ & H & _). vm_compute in H. discriminate. }
  exists st', p. split; [exact R|]. split; [exact W|]. split; [exact I|]. by rewrite H by apply d_name_ok.
Defined.

Lemma h_file_on_disk : file_on_disk h_file 6.
Proof.
  split; [|vm_compute; reflexivity..|].
  - unfold nr_ok. autounfold with consts. lia.
  - right. exists 1. split; [clia|]. apply not_live. reflexivity.
Qed.
Lemma open_existing_witness : exists st' p, do_open no_driver INIT (small_open (Z.lor O_TRUNC O_RDWR)) h_file = Ok 0 st' /\
  fs_wf st' /\ is_inode (inode_table st') ROOT_DEV 6 p.
Proof.
  destruct (open_existing no_driver h_file INIT (small_open (Z.lor O_TRUNC O_RDWR)) d_name 0 0) as (_ & _ & H);
    [apply open_file_d|apply h_file_wf|apply h_file_bytes|].
  assert (E : dir_map h_file d_name = 6) by (vm_compute; reflexivity). rewrite E in H.
  destruct (H h_file_on_disk) as (st' & p & R & W & _ & _ & I & _); [vm_compute; reflexivity|vm_compute; reflexivity|].
  exists st', p. split; [exact R|]. split; [exact W|exact I].
Defined.

Definition small_unlink : MESSAGE := mkMsg INIT UNLINK 0 2 0 0 0 0 0x100000 0.
Lemma unlink_small im sm l : unlink_request (small im sm l) INIT small_unlink d_name.
Proof. split; [clia|apply small_flat|cbn; clia|vm_compute; reflexivity|apply d_name_ok]. Qed.

(** a closed file, by evaluation *)
Definition extent_b (st : sys) (x : inode) : bool :=
  (0 <=? smap_bit st x) && (8 <=? i_nr_sects x) && (smap_bit st x + i_nr_sects x <=? Z.of_nat (nr_bits st)) &&
  negb ((smap_bit st x + i_nr_sects x) `mod` 8 =? 0) &&
  forallb (fun k => sbit SMAP_SECT st (smap_bit st x + k)) (seqZ 0 (i_nr_sects x)).
Lemma extent_b_sound st x : extent_b st x = true -> extent_ok st x.
Proof.
  unfold extent_b. rewrite !andb_true_iff. intros [[[[H1 H2] H3] H4] H5]. zbool. split; try done.
  intros k Hk. pose proof (forallb_seqZ _ _ (k - smap_bit st x) H5 ltac:(lia)) as E. cbv beta in E.
  by replace (smap_bit st x + (k - smap_bit st x)) with k in E by lia.
Qed.
Definition only_b (st : sys) (l : list Z) (nr k : Z) : bool :=
  let s := i_start_sect (root_dir st) in
  ent_is (rdisk st) s l k && (ent_nr (rdisk st) s k =? nr) &&
  forallb (fun j => negb (ent_is (rdisk st) s l j || (ent_nr (rdisk st) s j =? nr)) || (j =? k)) (seqZ 0 (dir_len st)) &&
  forallb (fun q => negb (live_b st q) || negb (i_num (inode_table st q) =? nr)) (seqZ 0 NR_INODE).
Lemma closed_b_sound st l nr k : file_on_disk st nr -> extent_b st (on_disk st nr) = true -> 0 <= k < dir_len st ->
  only_b st l nr k = true -> closed_file st l nr k.
Proof.
  intros Hf He Hk. unfold only_b. rewrite !andb_true_iff. intros [[[H1 H2] H3] H4]. apply Z.eqb_eq in H2.
  split; try done; [|by apply extent_b_sound|].
  - intros q Hq Hl E. pose proof (forallb_seqZ _ _ q H4 Hq) as H. cbv beta in H.
    rewrite (proj2 (live_b_iff st q) Hl), E, Z.eqb_refl in H. done.
  - intros j Hj Hcase. pose proof (forallb_seqZ _ _ j H3 Hj) as H. cbv beta in H. apply orb_true_iff in H as [H|H]; [|by apply Z.eqb_eq].
    apply negb_true_iff, orb_false_iff in H as [E1 E2]. apply Z.eqb_neq in E2. destruct Hcase; congruence.
Qed.

Lemma h_file_closed : closed_file h_file d_name 6 2.
Proof. apply closed_b_sound; [apply h_file_on_disk|vm_compute; reflexivity|vm_compute; split; [discriminate|reflexivity]|vm_compute; reflexivity]. Qed.
Lemma h_gap_closed : closed_file h_gap d_name 6 4.
Proof.
  apply closed_b_sound; [|vm_compute; reflexivity|vm_compute; split; [discriminate|reflexivity]|vm_compute; reflexivity].
  split; [|vm_compute; reflexivity..|].
  - unfold nr_ok. autounfold with consts. lia.
  - right. exists 1. split; [clia|]. apply not_live. reflexivity.
Qed.


(** "c" is lost when "d" is deleted *)
Lemma unlink_loses_names_witness : dir_map h_gap [99] = 5 /\
  exists st', do_unlink INIT small_unlink h_gap = Ok 0 st' /\ dir_map st' [99] = 0.
Proof.
  destruct (unlink_loses_names h_gap INIT small_unlink d_name 6 4 [99] 3) as (E & _ & H);
    [apply unlink_small|apply h_gap_wf|apply h_gap_bytes|apply h_gap_closed|vm_compute; reflexivity
    |vm_compute; split; reflexivity|repeat constructor; lia|unfold name_ok; cbn; autounfold with consts; lia|vm_compute; reflexivity| |].
  - intros i Hi. assert (i = 0 \/ i = 1 \/ i = 2) as [-> | [-> | ->]] by lia; vm_compute; reflexivity.
  - split; [vm_compute; reflexivity|exact H].
Defined.


(** ** Formatting the blank disk *)

From Stdlib Require Import String.

Lemma blank_bytes : byte_state blank.
Proof.
  split; [|intros d a; cbn; lia]. apply bytes_put_bytes; [|intros a; cbn; lia].
  apply (bool_decide_unpack _). vm_compute. done.
Qed.
Lemma blank_files : no_open_files blank.
Proof.
  assert (H : forallb (fun p => forallb (fun i => bool_decide (filp (proc_table (kern blank) p) i = None)) (seqZ 0 NR_FILES))
    (seqZ 0 NR_ALL) = true) by (vm_compute; reflexivity).
  intros p i Hp Hi. pose proof (forallb_seqZ _ _ i (forallb_seqZ _ _ p H Hp) Hi) as E. cbv beta in E. by apply bool_decide_eq_true in E.
Qed.
