(* ===== verification/ExecWitness.v ===== *)
(** * Instances for [do_exec]

    A disk with the program "/d" on it: an ELF file of 88 bytes with one segment of four
    bytes at 0x1000; process 7, whose image lies at 10 MB, executes it with one argument. *)
From S2P Require Import Prelude Const CLib Protect Proc Sys Fs FsOps FsLem FsRw FsRef Task FsMap FsDir FsCreate FsStat FsType Boot Lib Mm Exec ExecThm ExecFs.
From S2P Require Import Witness FsWitness MmWitness FsDirWitness.

Definition prog_words : list Z := [0; 0; 0; 0; 0; 0; 0x1000; 52; 0; 0; 0x200000; 1; 0;
  PT_LOAD; 84; 0x1000; 0; 4; 4; 0; 0; 0x04030201].
Definition prog_inode : inode := mkInode I_REGULAR 88 268 2048 ROOT_DEV 0 6.
Definition prog_disk : mem := put_words (268 * SECTOR_SIZE) prog_words
  (put_inode_at (2048 + 5 * 32) prog_inode (image 0x7F sm_file [(1, 46); (5, 99); (6, 100)])).

(** the image of process 7: the path and the argument stack *)
Definition img : Z := 0xA00000.
Definition img_mem : mem := put_bytes (img + 0x2000) [47; 100; 0]
  (put_words (img + 0x3000) [0x3008; 0] (put_bytes (img + 0x3008) [104; 105; 0] (fun _ => 0))).
Definition in_img (p : PROCESS) : PROCESS :=
  set_ldts (upd (ldts p) INDEX_LDT_RW (init_descriptor img 0xFF 0)) p.
Definition prog_sys : sys :=
  mkSys (set_memory img_mem (set_proc_table (upd (proc_table k0) 7 (in_img (proc_table k0 7))) k0)) (fun _ => zero_fd)
    (upd (fun _ => zero_inode) 0 (dir_inode [(1, 46); (5, 99); (6, 100)]))
    (upd (fun _ => zero_sb) 0 small_sb) zero_sb 0 (fun _ => mkDev prog_disk 8000).
Definition prog_msg : MESSAGE := mkMsg 7 EXEC 0 2 11 0 0 0 0x2000 0x3000.

(** ** The hypotheses, by evaluation *)

Lemma prog_wf : fs_wf prog_sys.
Proof. apply wf_b_sound. vm_compute. reflexivity. Qed.
Lemma prog_bytes : bytes_ok (rdisk prog_sys).
Proof.
  change (bytes_ok prog_disk). apply bytes_put_words, bytes_put_inode_at, image_bytes; [by unfold byte_ok|apply sm_file_byte|reflexivity].
Qed.
Lemma prog_flat : flat (kern prog_sys).
Proof. apply flat_b. vm_compute. reflexivity. Qed.
Lemma prog_map : dir_map prog_sys d_name = 6.
Proof. vm_compute. reflexivity. Qed.
Lemma prog_on_disk : file_on_disk prog_sys 6.
Proof.
  split; [|vm_compute; reflexivity..|].
  - unfold nr_ok. autounfold with consts. lia.
  - right. exists 1. split; [clia|]. apply not_live. reflexivity.
Qed.
Lemma prog_locals : mm_locals 0x1000 0x2000 0x3000.
Proof. split; unfold fsbuf, PROC_ORIGIN_STACK; clia. Qed.
Lemma prog_file : exec_file 0x1000 0x2000 0x3000 100 prog_sys [47; 100] d_name 0 0.
Proof.
  split; [apply prog_locals|apply prog_wf|apply prog_bytes|apply prog_flat|cbn [length]; split; [clia|lia]|vm_compute; reflexivity
    |apply d_name_ok|rewrite prog_map; apply prog_on_disk|rewrite prog_map|rewrite prog_map; vm_compute; reflexivity|vm_compute; reflexivity..].
  split; vm_compute; repeat split; discriminate.
Qed.

Lemma stat_spec_witness : exists st', do_stat (mkMsg TASK_MM STAT 0 2 0 0 0 0 (img + 0x2000) 0x2000) prog_sys = Ok 0 st' /\
  ld32 (fmem st') 0x2010 = 88 /\ fs_wf st'.
Proof.
  destruct (stat_spec prog_sys TASK_MM (mkMsg TASK_MM STAT 0 2 0 0 0 0 (img + 0x2000) 0x2000) d_name 0x2000) as [_ H].
  - split; [split; [clia|reflexivity]|apply prog_flat|cbn; clia|vm_compute; reflexivity|apply d_name_ok|vm_compute; reflexivity].
  - apply prog_wf.
  - rewrite prog_map in H. destruct (H prog_on_disk prog_bytes) as (st' & R & _ & W & _ & V & _). exists st'. split; [exact R|].
    split; [|exact W]. change 0x2010 with (0x2000 + 4 * Z.of_nat 4). rewrite (V 4%nat (disk_size prog_sys 6) eq_refl). vm_compute. reflexivity.
Defined.


Definition prog_data : mem := fun i => rdisk prog_sys (file_pos (file_inode prog_sys 6) i).
Lemma prog_fetches : fetches (fs_call no_driver TASK_MM) mmb 0x1000 0x2000 100 prog_sys [47; 100] prog_data 88.
Proof. exact (fs_fetches no_driver mmb 0x1000 0x2000 0x3000 100 prog_sys [47; 100] d_name 0 0 prog_file). Qed.
Lemma prog_segs : elf_segs prog_data 0 = [mkSeg 84 0x1000 4].
Proof. vm_compute. reflexivity. Qed.
Lemma prog_elf : elf_ok prog_data 88.
Proof.
  split.
  - unfold MMBUF_SIZE. lia.
  - vm_compute. discriminate.
  - intros i Hi. assert (E : e_phnum prog_data 0 = 1) by (vm_compute; reflexivity). rewrite E in Hi. assert (i = 0) as -> by lia.
    vm_compute. split; discriminate.
  - rewrite prog_segs. apply Forall_singleton. unfold seg_ok, MMBUF_SIZE, PROC_DEFAULT_IMG_SIZE. cbn. lia.
Qed.
Lemma prog_place : exec_place (kern prog_sys) 7 img 0x3000.
Proof.
  split; [|unfold mmbuf, MMBUF_SIZE, img; lia]. split; try (unfold PROC_ORIGIN_STACK, PROC_DEFAULT_IMG_SIZE, img; clia).
  - apply prog_flat.
  - intros va Hva. unfold la_of. assert (E : seg_linear (ldts (proc_table (kern prog_sys) 7) INDEX_LDT_RW) = img) by (vm_compute; reflexivity).
    rewrite E, Z.add_comm. apply u32_id. unfold PROC_DEFAULT_IMG_SIZE, img in *. lia.
Qed.
Lemma prog_request : exec_request 0x1000 0x2000 0x3000 prog_sys 7 img prog_msg [47; 100] [[104; 105]].
Proof.
  split; [apply prog_place|apply prog_locals|split; [reflexivity|clia]| |vm_compute; reflexivity|].
  - vm_compute. repeat split; discriminate.
  - vm_compute. repeat split; discriminate.
Qed.

